(* ===== verification/_CoqProject ===== *)
-Q . S2P
Prelude.v
Types.v
Clib.v
Nvme.v
Addr.v
Dev.v
Backend.v
Buf.v
Be.v
Sgl.v
Cmd.v
Wrap.v
Spdk.v
Nocd.v
Vblk.v
Stripe.v
Media.v
Linear.v
VblkIO.v
VblkRead.v
Vblk12.v
VblkOps.v
VblkWhole.v
VblkFile.v
VblkCopy.v
VblkAsync.v
Bbt.v
BbtCache.v
BbtSpec.v
Open.v
Cli.v
CliSpec.v
Tools.v
ToolsSpec.v
Ioctl.v
DevMedia.v
Reports.v
WrapSpec.v
SglSpec.v
SpdkSpec.v
NocdSpec.v
IoctlMedia.v
IoctlSpec.v
IoctlOpen.v
Bp.v
Lbd.v
LbdSpec.v
SpdkAsync.v
SpdkCopy.v
SpdkRprt.v
Examples.v
ExSync.v
