(* ===== verification/Prelude.v ===== *)
(** * liblightnvm: a verification development

    liblightnvm gives programs access to Open-Channel SSDs: addresses of
    physical sectors, commands on them, bad-block tables, and virtual blocks
    that stripe a linear byte range over chunks or blocks. A device is reached
    through one of several backends: the [ioctl] interface of Linux, its
    block-device interface with libaio, SPDK, and SPDK without an Open-Channel
    interface. This development models the library of [src/src], its headers in
    [src/include] and the tools of [src/cli] as executable functions, and
    proves what they promise to each other and to their callers.

    ** The parts, bottom up

    Foundations.
    - [Prelude]: C integers with their wrap-around, bit-fields, [errno], the
      heap, the state and error monad [M W] every effectful function is in,
      weakest preconditions [wp], loops, and the ownership of heap blocks.
    - [Types] ([liblightnvm.h], [liblightnvm_spec.h], [nvm_dev.h]): constants,
      the 64-bit address word with its three views as bit-fields, geometry,
      address formats, identify data, the device handle.
    - [Clib]: [strtoll], [atoi] and [getopt] of the C library.

    Addresses and devices.
    - [Addr] ([nvm_addr.c]): bounds, the generic address to and from the device
      format, byte offsets, log page offsets.
    - [Dev] ([nvm_dev.c]): attributes and their setters; [Open]: opening and
      closing a handle.
    - [Backend] ([nvm_be.h], [nvm_async.c], the defaults of [nvm_be.c]): the
      table of operations of a backend as a record of functions; [Be]
      ([nvm_be.c]): choosing a backend, deriving a handle from identify data.
    - [Buf] ([nvm_buf.c]): I/O buffers and buffer sets.

    Commands and backends.
    - [Nvme] ([liblightnvm_spec.h]): the submission entry with its bit-fields;
      [Sgl] ([nvm_sgl.c]): scatter/gather lists and their pool; [Cmd] and [Wrap]
      ([nvm_cmd.c]): dispatch of commands to scalar and vector operations, the
      search for free chunks, the wrap of a submission entry with its DMA
      memory.
    - [Ioctl] ([nvm_be_ioctl.c]), [Lbd] ([nvm_be_lbd.c]), [Spdk]
      ([nvm_be_spdk.c]), [Nocd] ([nvm_be_nocd.c]): every operation of the four
      backends. The kernel, libaio and SPDK are records of functions.

    Virtual blocks, bad blocks, tools.
    - [Vblk] ([nvm_vblk.c]): allocation, erase, synchronous and asynchronous
      reads and writes, padding, copy.
    - [Bbt] ([nvm_bbt.c]): the bad-block tables and their write-back cache.
    - [Bp] ([nvm_bp.c]): a device with free chunks, a virtual block on them and
      buffers, set up in one call.
    - [Cli] ([nvm_cli.c], [liblightnvm_cli.h]) and [Tools] ([src/cli]): the
      command line and the commands of the tools.
    - [Examples] and [ExSync]: two of the programs of [examples], on virtual
      blocks and on synchronous commands.

    Function and type names are those of the source; a function [f] of the
    library that changes a structure takes it as an argument and answers it.

    ** How the parts meet

    - [Media.Media] is what virtual-block I/O relies on of a backend: the
      content of every sector by its generic address, what a completed command
      does to it, the options it serves ([mflags], [mvector]), and an invariant
      of its world ([mok]; a state is [good] when its heap is well formed and
      its world satisfies the invariant). [Media.Reliable] adds that no command
      fails. [VblkIO], [VblkRead], [Vblk12], [VblkFile] and [VblkCopy] prove
      virtual blocks against it; [IoctlMedia] and [SpdkSpec] prove that the
      Linux and the SPDK backends implement it, for a kernel and a device that
      execute NVMe commands on device addresses ([DevMedia] moves sectors
      between the two kinds of address).
    - [VblkAsync.AsyncQueue] is the same for asynchronous writes: commands in
      flight on a queue, completed in any order by pokes and waits, each poke
      without a completion bringing the next one closer, and the memory held
      for them. [LbdSpec] proves that
      the block-device backend implements it over a disk that carries out the
      transfers of libaio, [SpdkAsync] that the SPDK backend does over a
      controller that executes the writes in flight.
    - [SpdkSpec.NvmeDisk] and [SpdkAsync.NvmeQueue] are what the SPDK backend
      relies on of a controller's queue pair, for one command at a time and for
      several; [VblkCopy.CopyMedia] is what the copy needs of a backend, which
      [SpdkCopy] shows of SPDK, the one backend with a vector copy, over a
      controller that executes copies ([SpdkCopy.NvmeCopier]).
    - [Cmd.rprt_law] is what the search for chunks needs of a backend. [Reports]
      shows it of a backend that answers the parts of a log of chunk
      information; [IoctlSpec] and [SpdkRprt] that the Linux and the SPDK
      backends do, over a kernel ([IoctlSpec.KernelLog]) and a controller
      ([SpdkRprt.NvmeLog]) that answer the log page in pieces.
    - [Open.be_opens] is what setting up a boilerplate ([Bp]) needs of the [open]
      of a backend: the blocks it keeps, and a handle whose chunks can be
      searched. [IoctlOpen] proves it of the Linux backend, over a kernel that
      identifies a device and answers its log ([IoctlOpen.KernelDevice]).
    - [VblkWhole] has the three steps of a virtual block used whole (write, read,
      erase), for the tool ([ToolsSpec]) and the example ([Examples]);
      [VblkWhole.EraseMedia] is what an erase promises: its chunks end erased when
      it answers 0, and the sectors of no other chunk change.
    - [Stripe] has the arithmetic of striping and [Linear] the loops over
      consecutive runs of a linear range; [Prelude.owns] states which heap
      blocks a structure owns, so that releases are shown to be exact.
    Every interface has an instance in memory in the file that needs one, and
    the witnesses of the theorems run on these.

    ** What is proved

    - Round trips: data written to a virtual block is read back
      ([VblkRead.write_read_roundtrip]), a file stored with the tool comes back
      ([ToolsSpec]), the example programs read what they wrote, change no sector
      outside the free chunks they searched for, and leave these erased
      ([Examples], [ExSync]), addresses to and from the device
      format and log page offsets ([Addr]), addresses on the command line ([CliSpec]),
      scatter/gather payloads ([SglSpec]).
    - Refinement: a write to a virtual block down to the device addresses of the
      kernel ([IoctlSpec.ioctl_vblk_write]) and of an NVMe device
      ([SpdkSpec.spdk_vblk_write]); the copy of a virtual block down to the
      device addresses ([SpdkCopy.spdk_vblk_copy]); the search for chunks down
      to the device's log ([SpdkRprt.spdk_rprt_arbs],
      [IoctlSpec.ioctl_rprt_arbs]); a virtual block with its cursors as a file
      ([VblkFile]); the bad-block tables as one abstract table per LUN, the
      cache being invisible ([BbtSpec]).
    - Functional behaviour and errors of every synchronous operation on virtual
      blocks, 2.0 and 1.2 (that a 2.0 request is inside the block is a hypothesis,
      since the code does not check it), of erase, allocation and copy ([VblkIO], [VblkRead],
      [Vblk12], [VblkOps], [VblkCopy]); of command dispatch and the search for
      chunks ([Cmd]); of populating a handle ([Be]); of submission entries
      ([WrapSpec]); of the vector commands and reports of the backend without
      Open-Channel interface ([NocdSpec]); of files passed through and of the
      environment of the tools ([CliSpec]).
    - Asynchronous writes from the beginning of a row complete on a queue of depth
      2 or more: every command submitted is reaped, the stack of result structures
      is whole again, and the data is at the beginning of the block ([VblkAsync],
      [LbdSpec], [SpdkAsync]).
    - Striping is a bijection between linear sectors and the sectors of the
      member chunks ([Stripe.stripe_bijection]); address formats are
      bijections under the conditions [Be] establishes.
    - Memory: buffer sets, wraps, virtual blocks, lists and tables are released
      exactly, also on the error paths ([Buf], [WrapSpec], [SglSpec], [VblkOps],
      [BbtSpec], [CliSpec], [ToolsSpec], [Bp]).
    Where the code does not do what it means to, the theorem says what it does:
    vector reads are rounded up to 64 sectors ([VblkRead]), the padding of
    a 1.2 write leaks ([Vblk12]), an asynchronous write to a later row goes to
    the beginning of the block ([VblkAsync]), vector commands on more than 64
    addresses are cut ([WrapSpec]), among others.

    ** Conventions and bounds

    - [M W A] is a function from the state ([errno], the heap, the world [W] of
      the backend) to a result and the next state; [None] is behaviour C leaves
      undefined: an access outside an array, a division by zero, a use of a null
      pointer. So [wp m s Q] says that [m] runs into none and ends in [Q].
    - Integers are [Z] with [u8] ... [u64] and [i32] where the code's types wrap.
    - A heap block is a number, 0 a null pointer; an allocation may fail, as the
      heap decides. Buffers are carried by content ([mem]); where the code needs
      an address of one it comes from a parameter [ptr_of].
    - Loops run over the list of their iterations, or with fuel that is their
      number of iterations: [Cmd] (the number of addresses), [Cli.pfile_read]
      (the length of the file). Loops that poll a device take their fuel as an
      argument, and the theorems name what suffices: more than [dk_lag] polls
      for a synchronous command of SPDK, [lag_max] pokes and the depth of the
      queue for a drained queue of [AsyncQueue], one round per command for
      [io_getevents], [nq_lag_max + 1] polls per command for the wait of
      SPDK.
    - OpenMP loops are modelled in the order of their iterations, which touch
      distinct data; locks have no effect in one thread.
    - Data that an asynchronous read brings is in the buffer from the submission
      on in [Vblk], and not modelled in [Lbd] and [Spdk]; callbacks run when the
      poke or the wait that found their completions returns them.
    - Memory handed to the kernel is typed by what is in it ([kdata]).
    - The table given to [nvm_bbt_set] is not an entry of the cache.
    - [atoi] is [(int) strtol]; [getopt] permutes, as without POSIXLY_CORRECT.

    ** Not modelled

    - What only prints: [nvm_spec.c], [nvm_geo.c], [nvm_bounds.c], [nvm_ret.c], the [_pr]
      functions of the other files, usage texts, [cli_dev.c]; and the names and
      paths in the handle that only printing uses.
    - The timers ([nvm_timer.h], [nvm_cli_timer_*]): floating point on the clock.
    - [nvm_ver.c] (constants), the variants of the backends that are compiled
      when a feature is off (they answer [ENOSYS]), [bsd/sys/queue.h] and the
      Linux headers (third-party), the tests, and the examples on asynchronous
      commands and on scatter/gather payloads.
    - [pioc] and [padc] of [cli_cmd.c]: what the device writes back into the
      caller's submission entry is not part of the table of operations.
    - Scatter/gather payloads are modelled from the list to the entry, not
      through the table of operations, which carries buffers by content. *)
From stdpp Require Import base numbers strings gmap option list.
#[global] Open Scope Z_scope.

(** ** C integers *)

(** Conversion to an unsigned integer of [w] bits. *)
Definition wrap (w x : Z) : Z := x mod 2 ^ w.
Abbreviation u8 := (wrap 8).
Abbreviation u16 := (wrap 16).
Abbreviation u32 := (wrap 32).
Abbreviation u64 := (wrap 64).

(** Conversion to the 32-bit [int] (two's complement, as gcc and clang do). *)
Definition i32 (x : Z) : Z := (x + 2 ^ 31) mod 2 ^ 32 - 2 ^ 31.

(** A C condition seen as an integer. *)
Definition cbool (b : bool) : Z := if b then 1 else 0.

(** [a / b] and [a % b]: undefined on a zero divisor. *)
Definition zdiv (a b : Z) : option Z := if b =? 0 then None else Some (a / b).
Definition zmod (a b : Z) : option Z := if b =? 0 then None else Some (a mod b).

(** [l[i]]: undefined outside. *)
Definition lookupZ {A} (l : list A) (i : Z) : option A := if i <? 0 then None else l !! Z.to_nat i.

(** ** Bit-fields of a word: [w] bits from bit [off] up, the layout the
    x86-64 and AArch64 ABIs give to consecutive C bit-fields. *)
Definition bf_get (off w v : Z) : Z := Z.land (Z.shiftr v off) (Z.ones w).
Definition bf_set (off w v x : Z) : Z :=
  Z.lor (Z.ldiff v (Z.shiftl (Z.ones w) off)) (Z.shiftl (Z.land x (Z.ones w)) off).

(** ** errno *)
Definition ENOMEM : Z := 12.
Definition EIO : Z := 5.
Definition EAGAIN : Z := 11.
Definition ENOTBLK : Z := 15.
Definition EINVAL : Z := 22.
Definition ENOSYS : Z := 38.

(** ** The state every operation threads *)

(** The allocator: [hp_ok n] is the environment's answer to the [n]-th
    request, pointers are request numbers (so never [NULL] = 0 and never
    reused) and [hp_live] holds the blocks not yet freed. *)
Record heap := Heap { hp_next : Z; hp_live : gset Z; hp_ok : Z -> bool }.

Record sys (W : Type) := Sys { errno : Z; hp : heap; world : W }.
Arguments Sys {W} _ _ _.
Arguments errno {W} _.
Arguments hp {W} _.
Arguments world {W} _.

(** Computations: [None] is undefined behaviour (a division by zero, an
    access outside an object, a double free) or a loop that never ends. *)
Definition M (W A : Type) : Type := sys W -> option (A * sys W).

#[export] Instance M_ret {W} : MRet (M W) := fun A a s => Some (a, s).
#[export] Instance M_bind {W} : MBind (M W) :=
  fun A B f m s => match m s with Some (a, s') => f a s' | None => None end.

Definition crash {W A} : M W A := fun _ => None.
Definition set_errno {W} (e : Z) : M W unit :=
  fun s => Some (tt, Sys e (hp s) (world s)).
Definition get_errno {W} : M W Z := fun s => Some (errno s, s).
(** [errno = e; return r;] *)
Definition fail {W A} (e : Z) (r : A) : M W A :=
  fun s => Some (r, Sys e (hp s) (world s)).
Definition get_world {W} : M W W := fun s => Some (world s, s).
Definition modify_world {W} (f : W -> W) : M W unit :=
  fun s => Some (tt, Sys (errno s) (hp s) (f (world s))).
Definition lift {W A} (o : option A) : M W A :=
  fun s => match o with Some a => Some (a, s) | None => None end.

(** [malloc]/[calloc]: a fresh block, or [NULL] and [ENOMEM]. *)
Definition malloc {W} : M W Z := fun s =>
  let h := hp s in
  let n := hp_next h in
  if hp_ok h n
  then Some (n, Sys (errno s) (Heap (n + 1) ({[n]} ∪ hp_live h) (hp_ok h)) (world s))
  else Some (0, Sys ENOMEM (Heap (n + 1) (hp_live h) (hp_ok h)) (world s)).

(** [free]: nothing on [NULL], undefined on a block that is not live. *)
Definition free {W} (p : Z) : M W unit := fun s =>
  let h := hp s in
  if bool_decide (p = 0) then Some (tt, s)
  else if bool_decide (p ∈ hp_live h)
  then Some (tt, Sys (errno s) (Heap (hp_next h) (hp_live h ∖ {[p]}) (hp_ok h)) (world s))
  else None.

(** ** Loops *)

(** [for (x in l) acc = f(x, acc)] *)
Fixpoint mfold {W A B} (f : A -> B -> M W B) (l : list A) (b : B) : M W B :=
  match l with
  | [] => mret b
  | x :: l' => b' ← f x b; mfold f l' b'
  end.

(** The same loop with [return] in its body: [inr r] leaves the function. *)
Fixpoint mfold_ret {W A B R} (f : A -> B -> M W (B + R)) (l : list A) (b : B)
    : M W (B + R) :=
  match l with
  | [] => mret (inl b)
  | x :: l' =>
      r ← f x b;
      match r with inl b' => mfold_ret f l' b' | inr r => mret (inr r) end
  end.

(** The values of [i] in [for (size_t i = bgn; i < stop; i += step)], the sum
    taken modulo 2^64; [None] when [fuel] iterations do not end the loop. *)
Fixpoint range_lt (fuel : nat) (i stop step : Z) : option (list Z) :=
  if i <? stop then
    match fuel with
    | O => None
    | S fuel => l ← range_lt fuel (u64 (i + step)) stop step; Some (i :: l)
    end
  else Some [].

(** The values of [i] in [for (size_t i = bgn; i <= stop; i += step)]. *)
Fixpoint range_le (fuel : nat) (i stop step : Z) : option (list Z) :=
  if i <=? stop then
    match fuel with
    | O => None
    | S fuel => l ← range_le fuel (u64 (i + step)) stop step; Some (i :: l)
    end
  else Some [].

(** Iterations such a loop needs when the counter does not wrap. *)
Definition trips (i stop step : Z) : nat := Z.to_nat ((stop - i + step - 1) / step).

(** ** Weakest preconditions: [m] from [s] ends, without undefined
    behaviour, in a result and a state that satisfy [Q]. *)
Definition wp {W A} (m : M W A) (s : sys W) (Q : A -> sys W -> Prop) : Prop :=
  match m s with Some (a, s') => Q a s' | None => False end.

(** ** Lemmas on conversions *)

Create HintDb nvm.

Lemma wrap_range w x : 0 <= w -> 0 <= wrap w x < 2 ^ w.
Proof. intros. apply Z.mod_pos_bound. lia. Qed.

Lemma wrap_id w x : 0 <= x < 2 ^ w -> wrap w x = x.
Proof. apply Z.mod_small. Qed.

Lemma wrap_land w x : 0 <= w -> wrap w x = Z.land x (Z.ones w).
Proof. intros. by rewrite Z.land_ones. Qed.

Lemma i32_id x : - 2 ^ 31 <= x < 2 ^ 31 -> i32 x = x.
Proof. intros. unfold i32. rewrite Z.mod_small; lia. Qed.

Lemma i32_range x : - 2 ^ 31 <= i32 x < 2 ^ 31.
Proof. unfold i32. pose proof (Z.mod_pos_bound (x + 2 ^ 31) (2 ^ 32)). lia. Qed.

(** ** Lemmas on bits *)

Lemma testbit_hi x n i : 0 <= x < 2 ^ n -> n <= i -> Z.testbit x i = false.
Proof.
  intros [H0 H1] Hi. destruct (decide (x = 0)) as [->|]; [apply Z.testbit_0_l|].
  apply Z.bits_above_log2; [lia|].
  destruct (Z.lt_ge_cases n 0); [rewrite Z.pow_neg_r in H1; lia|].
  apply Z.log2_lt_pow2 in H1; lia.
Qed.

Lemma testbit_ones w i : 0 <= w -> Z.testbit (Z.ones w) i = ((0 <=? i) && (i <? w))%bool.
Proof. intros. by apply Z.testbit_ones. Qed.

Lemma testbit_shiftl x n i :
  0 <= i -> Z.testbit (Z.shiftl x n) i = Z.testbit x (i - n).
Proof. intros. by apply Z.shiftl_spec. Qed.

Lemma testbit_bf_get off w v i : 0 <= off -> 0 <= w -> 0 <= i ->
  Z.testbit (bf_get off w v) i = ((i <? w) && Z.testbit v (i + off))%bool.
Proof.
  intros. unfold bf_get. rewrite Z.land_spec, Z.shiftr_spec, testbit_ones by done.
  rewrite (proj2 (Z.leb_le 0 i)) by done. cbn. apply andb_comm.
Qed.

Lemma testbit_bf_set off w v x i : 0 <= off -> 0 <= w -> 0 <= i ->
  Z.testbit (bf_set off w v x) i =
    if ((off <=? i) && (i <? off + w))%bool then Z.testbit x (i - off) else Z.testbit v i.
Proof.
  intros. unfold bf_set.
  rewrite Z.lor_spec, Z.ldiff_spec, !testbit_shiftl, Z.land_spec, testbit_ones by done.
  destruct (Z.leb_spec off i), (Z.ltb_spec i (off + w)); cbn.
  - rewrite (proj2 (Z.leb_le 0 (i - off))), (proj2 (Z.ltb_lt (i - off) w)) by lia.
    cbn. by rewrite andb_false_r, andb_true_r.
  - rewrite (proj2 (Z.ltb_ge (i - off) w)) by lia.
    rewrite !andb_false_r. cbn. by rewrite andb_true_r, orb_false_r.
  - rewrite (proj2 (Z.leb_gt 0 (i - off))) by lia.
    cbn. by rewrite !andb_false_r, andb_true_r, orb_false_r.
  - rewrite (proj2 (Z.leb_gt 0 (i - off))) by lia.
    cbn. by rewrite !andb_false_r, andb_true_r, orb_false_r.
Qed.

Lemma bits_eq n a b : 0 <= a < 2 ^ n -> 0 <= b < 2 ^ n ->
  (forall i, 0 <= i < n -> Z.testbit a i = Z.testbit b i) -> a = b.
Proof.
  intros Ha Hb Hi. apply Z.bits_inj'. intros i H0.
  destruct (Z.lt_ge_cases i n); [by apply Hi|].
  by rewrite !(testbit_hi _ n) by done.
Qed.

Lemma bits_range n a : 0 <= n -> 0 <= a ->
  (forall i, n <= i -> Z.testbit a i = false) -> 0 <= a < 2 ^ n.
Proof.
  intros Hn Ha Hi. split; [done|].
  destruct (decide (a = 0)) as [->|]; [lia|].
  apply Z.log2_lt_pow2; [lia|].
  destruct (Z.lt_ge_cases (Z.log2 a) n) as [|Hge]; [done|].
  specialize (Hi _ Hge). rewrite Z.bit_log2 in Hi by lia. done.
Qed.

Lemma lor_range n a b : 0 <= n -> 0 <= a < 2 ^ n -> 0 <= b < 2 ^ n ->
  0 <= Z.lor a b < 2 ^ n.
Proof.
  intros Hn Ha Hb. apply bits_range; [done|by apply Z.lor_nonneg; lia|].
  intros i Hi. by rewrite Z.lor_spec, !(testbit_hi _ n).
Qed.

Lemma bf_get_range off w v : 0 <= w -> 0 <= bf_get off w v < 2 ^ w.
Proof. intros. unfold bf_get. rewrite Z.land_ones by done. apply Z.mod_pos_bound; lia. Qed.

Lemma bf_get_id w v : 0 <= w -> 0 <= v < 2 ^ w -> bf_get 0 w v = v.
Proof.
  intros. unfold bf_get. rewrite Z.shiftr_0_r, Z.land_ones by done. by apply Z.mod_small.
Qed.

Lemma bf_get_set off w v x : 0 <= off -> 0 <= w ->
  bf_get off w (bf_set off w v x) = wrap w x.
Proof.
  intros. apply (bits_eq w); [by apply bf_get_range|by apply wrap_range|].
  intros i Hi. rewrite testbit_bf_get, testbit_bf_set, wrap_land, Z.land_spec,
    testbit_ones by lia.
  rewrite (proj2 (Z.ltb_lt i w)), (proj2 (Z.leb_le off (i + off))),
    (proj2 (Z.ltb_lt (i + off) (off + w))), (proj2 (Z.leb_le 0 i)) by lia.
  cbn. rewrite andb_true_r. f_equal. lia.
Qed.

Lemma bf_set_mod off w v x : 0 <= w -> bf_set off w v (x mod 2 ^ w) = bf_set off w v x.
Proof. intros. unfold bf_set. by rewrite !Z.land_ones, Z.mod_mod by lia. Qed.

Lemma bf_get_set_ne off w off' w' v x :
  0 <= off -> 0 <= w -> 0 <= off' -> 0 <= w' ->
  (off + w <= off' \/ off' + w' <= off) ->
  bf_get off w (bf_set off' w' v x) = bf_get off w v.
Proof.
  intros. apply (bits_eq w); [by apply bf_get_range..|].
  intros i Hi. rewrite !testbit_bf_get, testbit_bf_set by lia. f_equal.
  destruct (Z.leb_spec off' (i + off)), (Z.ltb_spec (i + off) (off' + w')); cbn;
    done || lia.
Qed.

Lemma bf_set_range n off w v x : 0 <= off -> 0 <= w -> off + w <= n ->
  0 <= v < 2 ^ n -> 0 <= bf_set off w v x < 2 ^ n.
Proof.
  intros. apply bits_range; [lia| |].
  - unfold bf_set. apply Z.lor_nonneg. split.
    + apply Z.ldiff_nonneg. lia.
    + apply Z.shiftl_nonneg, Z.land_nonneg. right. rewrite Z.ones_equiv.
      assert (0 < 2 ^ w) by lia. lia.
  - intros i Hi. rewrite testbit_bf_set by lia.
    rewrite (proj2 (Z.ltb_ge i (off + w))), andb_false_r by lia.
    by apply (testbit_hi _ n).
Qed.

Lemma shiftl_range n x w off : 0 <= off -> 0 <= w -> off + w <= n ->
  0 <= x < 2 ^ w -> 0 <= Z.shiftl x off < 2 ^ n.
Proof.
  intros. rewrite Z.shiftl_mul_pow2 by done.
  assert (2 ^ (off + w) <= 2 ^ n) by (apply Z.pow_le_mono_r; lia).
  rewrite Z.pow_add_r in * by done. nia.
Qed.

(** [(d & mask) >> off] with [mask] the [len] bits from [off]. *)
Lemma mask_shiftr d off len : 0 <= off -> 0 <= len ->
  Z.shiftr (Z.land d (Z.shiftl (Z.ones len) off)) off = bf_get off len d.
Proof.
  intros. unfold bf_get. rewrite Z.shiftr_land. f_equal.
  rewrite Z.shiftr_shiftl_l, Z.sub_diag by done. apply Z.shiftl_0_r.
Qed.

Lemma bf_get_lor off w a b : 0 <= off -> 0 <= w ->
  bf_get off w (Z.lor a b) = Z.lor (bf_get off w a) (bf_get off w b).
Proof. intros. unfold bf_get. by rewrite Z.shiftr_lor, Z.land_lor_distr_l. Qed.

Lemma bf_get_0 off w : bf_get off w 0 = 0.
Proof. unfold bf_get. by rewrite Z.shiftr_0_l, Z.land_0_l. Qed.

Lemma bf_get_shiftl off w x : 0 <= off -> 0 <= w -> 0 <= x < 2 ^ w ->
  bf_get off w (Z.shiftl x off) = x.
Proof.
  intros. unfold bf_get.
  rewrite Z.shiftr_shiftl_l, Z.sub_diag, Z.shiftl_0_r, Z.land_ones by done.
  by apply Z.mod_small.
Qed.

Lemma bf_get_shiftl_ne off w off' w' x :
  0 <= off -> 0 <= w -> 0 <= off' -> 0 <= w' -> 0 <= x < 2 ^ w' ->
  (off + w <= off' \/ off' + w' <= off) ->
  bf_get off w (Z.shiftl x off') = 0.
Proof.
  intros. apply Z.bits_inj'. intros i Hi.
  rewrite testbit_bf_get, testbit_shiftl, Z.testbit_0_l by lia.
  destruct (Z.ltb_spec i w); cbn; [|done].
  destruct (Z.lt_ge_cases (i + off - off') 0) as [Hn|Hn].
  - by rewrite Z.testbit_neg_r.
  - apply (testbit_hi _ w'); lia.
Qed.

#[export] Hint Resolve wrap_range i32_range bf_get_range lor_range : nvm.

(** Membership in a list given by its elements. *)
Ltac in_list := repeat (apply elem_of_cons; first [left; reflexivity | right]).

(** Decides a closed statement by computation. *)
Ltac by_eval := vm_compute; intuition congruence.

(** ** Lemmas on weakest preconditions *)

Section wp.
Context {W : Type}.
Implicit Types s : sys W.

Lemma wp_ret {A} (a : A) s (Q : A -> sys W -> Prop) : Q a s -> wp (mret a) s Q.
Proof. done. Qed.

Lemma wp_bind {A B} (m : M W A) (f : A -> M W B) s Q :
  wp m s (fun a s' => wp (f a) s' Q) -> wp (m ≫= f) s Q.
Proof. unfold wp, mbind, M_bind. by destruct (m s) as [[a s']|]. Qed.

Lemma wp_mono {A} (m : M W A) s (P Q : A -> sys W -> Prop) :
  wp m s P -> (forall a s', P a s' -> Q a s') -> wp m s Q.
Proof. unfold wp. destruct (m s) as [[a s']|]; [|done]. auto. Qed.

Lemma wp_ext {A} (m m' : M W A) s (Q : A -> sys W -> Prop) : m s = m' s -> wp m' s Q -> wp m s Q.
Proof. unfold wp. by intros ->. Qed.

Lemma wp_elim {A} (m : M W A) s Q : wp m s Q -> exists a s', m s = Some (a, s') /\ Q a s'.
Proof. unfold wp. destruct (m s) as [[a s']|]; [|done]. eauto. Qed.

Lemma wp_intro {A} (m : M W A) s a s' (Q : A -> sys W -> Prop) :
  m s = Some (a, s') -> Q a s' -> wp m s Q.
Proof. unfold wp. by intros ->. Qed.

Lemma wp_strengthen {A} (m : M W A) s (P R : A -> sys W -> Prop) :
  wp m s P -> (forall a s', m s = Some (a, s') -> R a s') ->
  wp m s (fun a s' => P a s' /\ R a s').
Proof. unfold wp. destruct (m s) as [[a s']|]; [|done]. auto. Qed.

(** Running a sequence whose first part is known. *)
Lemma bind_run {A B} (m : M W A) (f : A -> M W B) s a s' : m s = Some (a, s') -> (m ≫= f) s = f a s'.
Proof. intros E. unfold mbind, M_bind. by rewrite E. Qed.

Lemma bind_diverge {A B} (m : M W A) (f : A -> M W B) s : m s = None -> (m ≫= f) s = None.
Proof. intros E. unfold mbind, M_bind. by rewrite E. Qed.

(** Invariant rule of the loops: [I done_so_far acc state]. *)
Lemma wp_mfold {A B} (f : A -> B -> M W B) (I : list A -> B -> sys W -> Prop) l b s Q :
  I [] b s ->
  (forall pre x post b s, l = pre ++ x :: post -> I pre b s ->
     wp (f x b) s (fun b' s' => I (pre ++ [x]) b' s')) ->
  (forall b' s', I l b' s' -> Q b' s') ->
  wp (mfold f l b) s Q.
Proof.
  intros HI Hstep HQ.
  enough (forall post pre b s, l = pre ++ post -> I pre b s ->
    wp (mfold f post b) s (I l)) as H by (by eapply wp_mono; [eapply (H l [])|]).
  clear b s HI. induction post as [|x post IH]; intros pre b s Hl Hb.
  - rewrite app_nil_r in Hl. by subst l.
  - cbn. apply wp_bind. eapply wp_mono; [by eapply Hstep|]. cbn. intros b' s' Hb'.
    apply (IH (pre ++ [x])); [|done]. by rewrite <-app_assoc.
Qed.

Lemma mfold_app {A B} (f : A -> B -> M W B) l1 l2 b :
  forall s, mfold f (l1 ++ l2) b s = (mfold f l1 b ≫= mfold f l2) s.
Proof.
  revert b. induction l1 as [|x l1 IH]; intros b s; cbn; [done|].
  unfold mbind, M_bind. destruct (f x b s) as [[b' s']|]; [|done]. apply IH.
Qed.

Lemma mfold_fmap {A A' B} (g : A' -> B -> M W B) (h : A -> A') l b :
  forall s, mfold g (h <$> l) b s = mfold (fun x => g (h x)) l b s.
Proof.
  revert b. induction l as [|x l IH]; intros b s; cbn; [done|].
  unfold mbind, M_bind. by destruct (g (h x) b s) as [[b' s']|].
Qed.

Lemma mfold_ext {A B} (f g : A -> B -> M W B) l b :
  (forall x b s, x ∈ l -> f x b s = g x b s) -> forall s, mfold f l b s = mfold g l b s.
Proof.
  revert b. induction l as [|x l IH]; intros b Hfg s; cbn; [done|].
  unfold mbind, M_bind. rewrite Hfg by by left. destruct (g x b s) as [[b' s']|]; [|done].
  apply IH. intros y c t Hy. apply Hfg. by right.
Qed.

(** Nested loops run over the concatenation. *)
Lemma mfold_concat {A A' B} (g : A' -> B -> M W B) (h : A -> list A') l b :
  forall s, mfold (fun x b => mfold g (h x) b) l b s = mfold g (concat (h <$> l)) b s.
Proof.
  revert b. induction l as [|x l IH]; intros b s; [done|]. cbn [fmap list_fmap concat].
  rewrite mfold_app. cbn. unfold mbind, M_bind. destruct (mfold g (h x) b s) as [[b' s']|]; [|done].
  apply IH.
Qed.

(** The loop with an early [return]. *)
Lemma wp_mfold_ret {A B R} (f : A -> B -> M W (B + R))
    (I : list A -> B -> sys W -> Prop) (K : R -> sys W -> Prop) l b s Q :
  I [] b s ->
  (forall pre x post b s, l = pre ++ x :: post -> I pre b s ->
     wp (f x b) s (fun r s' =>
       match r with inl b' => I (pre ++ [x]) b' s' | inr r => K r s' end)) ->
  (forall b' s', I l b' s' -> Q (inl b') s') ->
  (forall r s', K r s' -> Q (inr r) s') ->
  wp (mfold_ret f l b) s Q.
Proof.
  intros HI Hstep HQ HK.
  enough (forall post pre b s, l = pre ++ post -> I pre b s ->
    wp (mfold_ret f post b) s Q) as H by (by eapply (H l [])).
  clear b s HI. induction post as [|x post IH]; intros pre b s Hl Hb.
  - rewrite app_nil_r in Hl. subst l. cbn. by apply wp_ret, HQ.
  - cbn. apply wp_bind. eapply wp_mono; [by eapply Hstep|]. cbn. intros [b'|r] s' Hb'.
    + apply (IH (pre ++ [x])); [|done]. by rewrite <-app_assoc.
    + by apply wp_ret, HK.
Qed.
End wp.

(** ** Lemmas on the allocator *)

Section alloc.
Context {W : Type}.
Implicit Types s : sys W.

(** The blocks not yet freed. *)
Definition live s : gset Z := hp_live (hp s).

(** Live blocks are neither [NULL] nor to be handed out again, and the world
    satisfies an invariant. *)
Definition good (I : W -> Prop) s : Prop :=
  (0 < hp_next (hp s) /\ forall p, p ∈ live s -> 0 < p < hp_next (hp s)) /\ I (world s).

Lemma good_live {I} s p : good I s -> p ∈ live s -> 0 < p < hp_next (hp s).
Proof. intros [[_ H] _]. apply H. Qed.

(** The invariant may change with the world. *)
Lemma good_world {I} (J : W -> Prop) s s' : good I s -> hp s' = hp s -> J (world s') -> good J s'.
Proof. intros [H _] E HJ. split; [|done]. unfold live. rewrite E. exact H. Qed.

Lemma wp_malloc {I} s (Q : Z -> sys W -> Prop) : good I s ->
  (forall s', good I s' -> live s' = live s -> world s' = world s -> errno s' = ENOMEM -> Q 0 s') ->
  (forall p s', p <> 0 -> p ∉ live s -> good I s' -> live s' = {[p]} ∪ live s ->
     world s' = world s -> errno s' = errno s -> Q p s') ->
  wp malloc s Q.
Proof.
  intros [[H1 H2] HI] HN HP. unfold wp, malloc, live in *. destruct (hp_ok (hp s) (hp_next (hp s))).
  - apply HP; cbn; try done; [lia|intros ?%H2; lia|].
    split; [split; cbn; [lia|]|done]. unfold live. cbn. intros p [->%elem_of_singleton|?%H2]%elem_of_union; lia.
  - apply HN; cbn; try done. split; [split; cbn; [lia|]|done]. unfold live. cbn. intros p ?%H2. lia.
Qed.

Lemma wp_free {I} p s (Q : unit -> sys W -> Prop) : good I s -> p = 0 \/ p ∈ live s ->
  (forall s', good I s' -> live s' = live s ∖ {[p]} -> world s' = world s ->
     errno s' = errno s -> Q tt s') ->
  wp (free p) s Q.
Proof.
  intros [[H1 H2] HI] Hp HQ. unfold wp, free, live in *. case_bool_decide as E.
  - apply HQ; [done| |done..]. subst p. apply set_eq. intros q.
    rewrite elem_of_difference, elem_of_singleton. split; [|tauto].
    intros Hq. split; [done|]. apply H2 in Hq. lia.
  - rewrite bool_decide_true by tauto. apply HQ; cbn; try done.
    split; [split; cbn; [done|]|done]. unfold live. cbn. intros q [Hq%H2 _]%elem_of_difference. done.
Qed.

(** A block taken and given back. *)
Lemma live_undo (p : Z) (X : gset Z) : p ∉ X -> ({[p]} ∪ X) ∖ {[p]} = X.
Proof. set_solver. Qed.

Lemma live_new (p : Z) (X : gset Z) : p ∈ {[p]} ∪ X.
Proof. set_solver. Qed.

(** One taken while another goes. *)
Lemma live_move (p q : Z) (X : gset Z) : q ∉ X -> p ∈ X -> ({[q]} ∪ X) ∖ {[p]} = {[q]} ∪ X ∖ {[p]}.
Proof. set_solver. Qed.

(** Releasing several blocks, [NULL]s among them. *)
Definition free_all (ps : list Z) : M W unit := mfold (fun p _ => free p) ps tt.

Lemma wp_free_all {I} ps L s (Q : unit -> sys W -> Prop) : good I s ->
  NoDup (filter (fun p => p <> 0) ps) -> (forall p, p ∈ ps -> p ∉ L) ->
  live s = list_to_set (filter (fun p => p <> 0) ps) ∪ L ->
  (forall s', good I s' -> live s' = L -> world s' = world s -> errno s' = errno s -> Q tt s') ->
  wp (free_all ps) s Q.
Proof.
  unfold free_all. revert s. induction ps as [|p ps IH]; intros s Hwf Hnd HL Hs HQ.
  - apply wp_ret, HQ; [done| |done..]. rewrite Hs. set_solver.
  - cbn. apply wp_bind. rewrite filter_cons in Hnd, Hs. case_decide as Hp.
    + apply NoDup_cons in Hnd as [Hn Hnd].
      eapply wp_free; [done|right; rewrite Hs; set_solver|].
      intros s1 W1 L1 E1 F1. cbn. apply IH; [done..| | |].
      * intros q Hq. apply HL. by right.
      * rewrite L1, Hs. pose proof (HL p (list_elem_of_here _ _)). set_solver.
      * intros s2 ????. apply HQ; [done..|congruence|congruence].
    + eapply wp_free; [done|left; destruct (decide (p = 0)); tauto|].
      intros s1 W1 L1 E1 F1. cbn. assert (p = 0) as -> by (destruct (decide (p = 0)); tauto).
      apply IH; [done..| | |].
      * intros q Hq. apply HL. by right.
      * rewrite L1, Hs. destruct Hwf as [[_ Hwf] _]. rewrite Hs in Hwf.
        apply set_eq. intros q. rewrite elem_of_difference, elem_of_singleton.
        split; [tauto|]. intros Hq. split; [done|]. apply Hwf in Hq. lia.
      * intros s2 ????. apply HQ; [done..|congruence|congruence].
Qed.

(** The blocks [ps], [NULL]s among them, are held on top of those of [L]. *)
Record owns (L : gset Z) (ps : list Z) s : Prop := {
  ow_nodup : NoDup (filter (fun p => p <> 0) ps);
  ow_fresh p : p ∈ ps -> p ∉ L;
  ow_live : live s = list_to_set (filter (fun p => p <> 0) ps) ∪ L }.

Lemma wp_free_owned {I} L ps s (Q : unit -> sys W -> Prop) : good I s -> owns L ps s ->
  (forall s', good I s' -> live s' = L -> world s' = world s -> errno s' = errno s -> Q tt s') ->
  wp (free_all ps) s Q.
Proof. intros Hwf [H1 H2 H3] HQ. by eapply wp_free_all. Qed.

Lemma owns_ext L ps ps' s s' : (ps ≡ₚ ps') -> live s' = live s -> owns L ps s -> owns L ps' s'.
Proof.
  intros E El [H1 H2 H3]. split.
  - by rewrite <-E.
  - intros p Hp. apply H2. by rewrite E.
  - rewrite El, H3. f_equal. apply list_to_set_perm_L. by rewrite E.
Qed.

Lemma owns_mem L p ps s : owns L (p :: ps) s -> p = 0 \/ p ∈ live s.
Proof.
  intros [_ _ H]. destruct (decide (p = 0)) as [|Hp]; [by left|right].
  rewrite H, filter_cons, decide_True by done. cbn. set_solver.
Qed.

Lemma owns_none s : owns (live s) [] s.
Proof. split; [constructor|by intros p ?%elem_of_nil|cbn; set_solver]. Qed.

Lemma owns_null {I} L ps s : good I s -> owns L ps s -> owns L (0 :: ps) s.
Proof.
  intros Hwf [H1 H2 H3].
  assert (E : filter (fun p => p <> 0) (0 :: ps) = filter (fun p => p <> 0) ps) by (rewrite filter_cons, decide_False; tauto).
  split; [by rewrite E| |by rewrite E]. intros p [->|Hp]%elem_of_cons; [|by apply H2].
  intros Hin. assert (H0 : 0 ∈ live s) by (rewrite H3; by apply elem_of_union_r).
  apply (good_live s 0 Hwf) in H0. lia.
Qed.

(** A block taken, and one given back. *)
Lemma owns_new L ps q s s' : q <> 0 -> q ∉ live s -> live s' = {[q]} ∪ live s -> owns L ps s -> owns L (q :: ps) s'.
Proof.
  intros Hq Hf Hl [H1 H2 H3]. rewrite H3, not_elem_of_union, elem_of_list_to_set in Hf. destruct Hf as [Hf1 Hf2].
  assert (E : filter (fun p => p <> 0) (q :: ps) = q :: filter (fun p => p <> 0) ps) by (by rewrite filter_cons, decide_True).
  split; rewrite ?E.
  - by constructor.
  - intros p [->|Hp]%elem_of_cons; [done|by apply H2].
  - rewrite Hl, H3. cbn. by rewrite union_assoc_L.
Qed.

Lemma owns_drop {I} L ps p s s' : good I s -> owns L (p :: ps) s -> live s' = live s ∖ {[p]} -> owns L ps s'.
Proof.
  intros Hwf [H1 H2 H3] Hl. rewrite filter_cons in H1, H3. split.
  - destruct (decide (p <> 0)); [by apply NoDup_cons in H1 as [_ H1]|done].
  - intros q Hq. apply H2. by right.
  - pose proof (H2 p (list_elem_of_here _ _)) as Hp. rewrite Hl. destruct (decide (p <> 0)) as [Hd|Hd].
    + apply NoDup_cons in H1 as [Hn _]. rewrite H3. cbn.
      assert (Hx : p ∉ (list_to_set (filter (fun q => q <> 0) ps) : gset Z)) by (by rewrite elem_of_list_to_set).
      set_solver.
    + rewrite H3. assert (Hx : p ∉ live s).
      { intros Hx. apply (good_live s p Hwf) in Hx. destruct (decide (p = 0)); [lia|tauto]. }
      rewrite H3 in Hx. set_solver.
Qed.

(** One given back for another. *)
Lemma owns_move {I} L ps p q s s' : good I s -> q <> 0 -> q ∉ live s ∖ {[p]} -> live s' = {[q]} ∪ live s ∖ {[p]} ->
  owns L (p :: ps) s -> owns L (q :: ps) s'.
Proof.
  intros Hwf Hq Hf Hl Ho. pose (s1 := Sys 0 (Heap (hp_next (hp s)) (live s ∖ {[p]}) (hp_ok (hp s))) (world s)).
  apply (owns_new L ps q s1); [done..|]. by eapply owns_drop.
Qed.
End alloc.

(** No invariant. *)
Abbreviation heap_wf := (good (fun _ => True)).

(** ** Lemmas on counted loops *)

Lemma trips_S i stop step : 0 < step -> i < stop ->
  trips i stop step = S (trips (i + step) stop step).
Proof.
  intros Hs Hi. unfold trips.
  replace (stop - i + step - 1) with ((stop - (i + step) + step - 1) + 1 * step) by lia.
  rewrite Z.div_add by lia.
  destruct (Z.lt_ge_cases (i + step) stop).
  - assert (0 <= (stop - (i + step) + step - 1) / step) by (apply Z.div_pos; lia). lia.
  - replace ((stop - (i + step) + step - 1) / step) with ((stop - i - 1) / step)
      by (f_equal; lia).
    rewrite Z.div_small; lia.
Qed.

Lemma trips_0 i stop step : 0 < step -> stop <= i -> trips i stop step = 0%nat.
Proof.
  intros. unfold trips. assert ((stop - i + step - 1) / step < 1); [|lia].
  apply Z.div_lt_upper_bound; lia.
Qed.

(** The values a counted loop runs through: [i, i + step, ...], one per trip. *)
Definition steps (i step : Z) (n : nat) : list Z :=
  (fun k => i + k * step) <$> seqZ 0 (Z.of_nat n).

Lemma steps_S i step n : steps i step (S n) = i :: steps (i + step) step n.
Proof.
  unfold steps. rewrite seqZ_cons by lia. cbn. f_equal; [lia|].
  replace (Z.pred (Z.of_nat (S n))) with (Z.of_nat n) by lia.
  rewrite <-(fmap_add_seqZ 1 0), <-list_fmap_compose. apply list_fmap_ext. cbn. lia.
Qed.

Lemma steps_length i step n : length (steps i step n) = n.
Proof. unfold steps. rewrite length_fmap, length_seqZ. lia. Qed.

(** A split of [0 .. n - 1] is where it says it is. *)
Lemma seqZ_split n pre x post : seqZ 0 n = pre ++ x :: post ->
  pre = seqZ 0 x /\ 0 <= x < n /\ Z.of_nat (length pre) = x.
Proof.
  intros E. assert (Hx : seqZ 0 n !! length pre = Some x)
    by (by rewrite E, list_lookup_middle).
  apply lookup_seqZ in Hx as [Hx Hn]. split; [|lia].
  assert (Ht : take (length pre) (seqZ 0 n) = pre)
    by (by rewrite E, take_app_length).
  rewrite <-Ht. replace n with (x + (n - x)) by lia. rewrite seqZ_app by lia.
  rewrite take_app_length'; [done|]. rewrite length_seqZ. lia.
Qed.

Lemma range_lt_steps fuel i stop step :
  0 < step -> 0 <= i -> stop + step <= 2 ^ 64 -> (trips i stop step <= fuel)%nat ->
  range_lt fuel i stop step = Some (steps i step (trips i stop step)).
Proof.
  intros Hs. revert i. induction fuel as [|fuel IH]; intros i Hi Hb Hf; cbn;
    destruct (Z.ltb_spec i stop) as [Hlt|Hge].
  - rewrite trips_S in Hf by done. lia.
  - by rewrite trips_0.
  - rewrite trips_S in Hf |- * by done.
    rewrite (wrap_id 64) by lia. rewrite IH by lia. cbn. by rewrite steps_S.
  - by rewrite trips_0.
Qed.

Lemma range_le_steps fuel i stop step :
  0 < step -> 0 <= i -> stop + step < 2 ^ 64 -> (trips i (stop + 1) step <= fuel)%nat ->
  range_le fuel i stop step = Some (steps i step (trips i (stop + 1) step)).
Proof.
  intros Hs. revert i. induction fuel as [|fuel IH]; intros i Hi Hb Hf; cbn;
    destruct (Z.leb_spec i stop) as [Hlt|Hge].
  - rewrite trips_S in Hf by lia. lia.
  - by rewrite trips_0 by lia.
  - rewrite trips_S in Hf |- * by lia.
    rewrite (wrap_id 64) by lia. rewrite IH by lia. cbn. by rewrite steps_S.
  - by rewrite trips_0 by lia.
Qed.

(** The loop over a counted range, its invariant by the number of trips. *)
Lemma wp_mfold_steps {W B} (f : Z -> B -> M W B) (I : Z -> B -> sys W -> Prop) x step n b s Q :
  I 0 b s ->
  (forall k b s, 0 <= k < Z.of_nat n -> I k b s -> wp (f (x + k * step) b) s (I (k + 1))) ->
  (forall b s, I (Z.of_nat n) b s -> Q b s) ->
  wp (mfold f (steps x step n) b) s Q.
Proof.
  intros HI Hstep HQ. apply (wp_mfold _ (fun pre b s => I (Z.of_nat (length pre)) b s)); [done| |].
  - intros pre y post b' s' E Hb. unfold steps in E.
    assert (Hlt : (length pre < n)%nat).
    { apply (f_equal length) in E. rewrite length_fmap, length_seqZ, length_app in E. cbn in E. lia. }
    assert (Hy : (fun k => x + k * step) <$> seqZ 0 (Z.of_nat n) !! length pre = Some y)
      by (rewrite <-list_lookup_fmap, E; apply list_lookup_middle; done).
    rewrite lookup_seqZ_lt in Hy by lia. cbn in Hy. injection Hy as <-.
    rewrite length_app. cbn. replace (Z.of_nat (length pre + 1)) with (Z.of_nat (length pre) + 1) by lia.
    apply Hstep; [lia|done].
  - intros b' s' Hb. rewrite steps_length in Hb. by apply HQ.
Qed.

(** The number of rounds over a whole number of steps. *)
Lemma trips_mul x step k : 0 < step -> 0 <= k -> trips x (x + k * step) step = Z.to_nat k.
Proof.
  intros. unfold trips. f_equal. replace (x + k * step - x + step - 1) with ((step - 1) + k * step) by lia.
  rewrite Z.div_add, Z.div_small by lia. lia.
Qed.

(** A round begins before the end, and the last one reaches it. *)
Lemma trips_lt i stop step k : 0 < step -> 0 <= k < Z.of_nat (trips i stop step) ->
  i + k * step < stop.
Proof.
  unfold trips. intros Hs Hk. pose proof (Z.mul_div_le (stop - i + step - 1) step Hs). nia.
Qed.

Lemma trips_ge i stop step : 0 < step -> stop <= i + Z.of_nat (trips i stop step) * step.
Proof.
  unfold trips. intros Hs. pose proof (Z.mul_succ_div_gt (stop - i + step - 1) step Hs).
  nia.
Qed.

Lemma elem_of_steps x i step n : x ∈ steps i step n <-> exists k, 0 <= k < Z.of_nat n /\ x = i + k * step.
Proof.
  unfold steps. rewrite list_elem_of_fmap. split.
  - intros (k & -> & Hk%elem_of_seqZ). exists k. split; [lia|done].
  - intros (k & Hk & ->). exists k. split; [done|]. apply elem_of_seqZ. lia.
Qed.

(** A list written over another from its beginning, one element at a time. *)
Lemma splice_S {A} (new old : list A) k x : length new = length old -> new !! k = Some x ->
  <[k := x]> (take k new ++ drop k old) = take (S k) new ++ drop (S k) old.
Proof.
  intros Hlen Hx. pose proof (lookup_lt_Some _ _ _ Hx) as Hk.
  destruct (lookup_lt_is_Some_2 old k) as [y Hy]; [lia|].
  rewrite (take_S_r _ _ _ Hx), (drop_S _ _ _ Hy), insert_app_r_alt by (rewrite length_take; lia).
  rewrite length_take, Nat.min_l, Nat.sub_diag by lia. cbn. by rewrite <-app_assoc.
Qed.

(** A split of a counted range is where it says it is. *)
Lemma steps_split i step n pre x post : steps i step n = pre ++ x :: post ->
  x = i + Z.of_nat (length pre) * step /\ (length pre < n)%nat.
Proof.
  intros E. assert (Hlt : (length pre < n)%nat).
  { apply (f_equal length) in E. rewrite steps_length, length_app in E. cbn in E. lia. }
  split; [|done]. assert (Hx : steps i step n !! length pre = Some x) by (by rewrite E, list_lookup_middle).
  unfold steps in Hx. rewrite list_lookup_fmap, lookup_seqZ_lt in Hx by lia. cbn in Hx. by injection Hx as <-.
Qed.
