(* ===== verification/Types.v ===== *)
(** Data of [include/liblightnvm.h], [include/liblightnvm_spec.h] and
    [include/nvm_dev.h]: constants, the packed address word, the geometry
    union, address formats, identify data and the device handle. *)
From stdpp Require Import base numbers strings gmap option list.
From S2P Require Import Prelude.

(** ** Constants *)

Definition NVM_NADDR_MAX : Z := 64.

Definition NVM_DEV_PATH_LEN : Z := 32 + 5.

Definition NVM_BE_ANY : Z := 0x0.
Definition NVM_BE_IOCTL : Z := 0x1.
Definition NVM_BE_LBD : Z := 0x2.
Definition NVM_BE_SPDK : Z := 0x4.
Definition NVM_BE_NOCD : Z := 0x8.
Definition NVM_BE_ALL : Z :=
  Z.lor NVM_BE_IOCTL (Z.lor NVM_BE_LBD (Z.lor NVM_BE_SPDK NVM_BE_NOCD)).

Definition NVM_CMD_SYNC : Z := 0x10.
Definition NVM_CMD_ASYNC : Z := 0x20.
Definition NVM_CMD_SCALAR : Z := 0x40.
Definition NVM_CMD_VECTOR : Z := 0x80.
Definition NVM_CMD_PRP : Z := 0x100.
Definition NVM_CMD_SGL : Z := 0x200.
Definition NVM_CMD_SGL_META : Z := 0x400.
Definition NVM_CMD_PIOC : Z := 0x800.
Definition NVM_CMD_PADC : Z := 0x1000.
Definition NVM_CMD_MASK_IOMD : Z := Z.lor NVM_CMD_SYNC NVM_CMD_ASYNC.
Definition NVM_CMD_MASK_ADDR : Z := Z.lor NVM_CMD_SCALAR NVM_CMD_VECTOR.
Definition NVM_CMD_MASK_PLOD : Z :=
  Z.lor NVM_CMD_PRP (Z.lor NVM_CMD_SGL NVM_CMD_SGL_META).
Definition NVM_CMD_DEF_IOMD : Z := NVM_CMD_SYNC.
Definition NVM_CMD_DEF_ADDR : Z := NVM_CMD_VECTOR.
Definition NVM_CMD_DEF_PLOD : Z := NVM_CMD_PRP.

Definition is_async (flags : Z) : bool := negb (Z.land flags NVM_CMD_ASYNC =? 0).

Definition NVM_FLAG_PMODE_SNGL : Z := 0x0.
Definition NVM_FLAG_PMODE_DUAL : Z := 0x1.
Definition NVM_FLAG_PMODE_QUAD : Z := 0x2.

Definition NVM_QUIRK_PMODE_ERASE_RUNROLL : Z := 0x1.
Definition NVM_QUIRK_NSID_BY_NAMECONV : Z := 0x2.
Definition NVM_QUIRK_OOB_READ_1ST4BYTES_NULL : Z := 0x4.
Definition NVM_QUIRK_OOB_2LRG : Z := 0x8.

Definition NVM_META_MODE_NONE : Z := 0x0.
Definition NVM_META_MODE_ALPHA : Z := 0x1.
Definition NVM_META_MODE_CONST : Z := 0x2.

Definition NVM_BOUNDS_CHANNEL : Z := 0x1.
Definition NVM_BOUNDS_LUN : Z := 0x2.
Definition NVM_BOUNDS_PLANE : Z := 0x4.
Definition NVM_BOUNDS_BLOCK : Z := 0x8.
Definition NVM_BOUNDS_PAGE : Z := 0x10.
Definition NVM_BOUNDS_SECTOR : Z := 0x20.
Definition NVM_BOUNDS_PUGRP : Z := 0x40.
Definition NVM_BOUNDS_PUNIT : Z := 0x80.
Definition NVM_BOUNDS_CHUNK : Z := 0x100.
Definition NVM_BOUNDS_SECTR : Z := 0x200.

Definition NVM_BBT_FREE : Z := 0x0.
Definition NVM_BBT_BAD : Z := 0x1.
Definition NVM_BBT_GBAD : Z := 0x2.
Definition NVM_BBT_DMRK : Z := 0x4.
Definition NVM_BBT_HMRK : Z := 0x8.

Definition NVM_SPEC_VERID_12 : Z := 0x1.
Definition NVM_SPEC_VERID_20 : Z := 0x2.

Definition NVM_DOPC_SCALAR_ERASE : Z := 0x09.
Definition NVM_DOPC_SCALAR_WRITE : Z := 0x01.
Definition NVM_DOPC_SCALAR_READ : Z := 0x02.
Definition NVM_DOPC_VECTOR_ERASE : Z := 0x90.
Definition NVM_DOPC_VECTOR_WRITE : Z := 0x91.
Definition NVM_DOPC_VECTOR_READ : Z := 0x92.
Definition NVM_DOPC_VECTOR_COPY : Z := 0x93.

Definition NVM_CHUNK_STATE_FREE : Z := 0x1.
Definition NVM_CHUNK_STATE_CLOSED : Z := 0x2.
Definition NVM_CHUNK_STATE_OPEN : Z := 0x4.
Definition NVM_CHUNK_STATE_OFFLINE : Z := 0x8.
Definition NVM_CHUNK_TYPE_ARWR : Z := 0x2.

(** [static inline int NVM_MIN(int x, int y)] *)
Definition NVM_MIN (x y : Z) : Z := if i32 x <? i32 y then i32 x else i32 y.

(** ** [struct nvm_addr]: a 64-bit word seen through two sets of bit-fields *)

Definition nvm_addr : Type := Z.
#[export] Instance nvm_addr_eq_dec : EqDecision nvm_addr := Z.eq_dec.
#[export] Instance nvm_addr_countable : Countable nvm_addr := Z_countable.

Definition g_sec (a : nvm_addr) : Z := bf_get 0 8 a.
Definition g_pg (a : nvm_addr) : Z := bf_get 8 16 a.
Definition g_pl (a : nvm_addr) : Z := bf_get 24 8 a.
Definition g_blk (a : nvm_addr) : Z := bf_get 32 16 a.
Definition g_lun (a : nvm_addr) : Z := bf_get 48 8 a.
Definition g_ch (a : nvm_addr) : Z := bf_get 56 8 a.

Definition l_sectr (a : nvm_addr) : Z := bf_get 0 32 a.
Definition l_chunk (a : nvm_addr) : Z := bf_get 32 16 a.
Definition l_punit (a : nvm_addr) : Z := bf_get 48 8 a.
Definition l_pugrp (a : nvm_addr) : Z := bf_get 56 8 a.

(** Assignments to a bit-field: the value is reduced to the field's width. *)
Definition set_g_sec (x : Z) (a : nvm_addr) : nvm_addr := bf_set 0 8 a x.
Definition set_g_pg (x : Z) (a : nvm_addr) : nvm_addr := bf_set 8 16 a x.
Definition set_g_pl (x : Z) (a : nvm_addr) : nvm_addr := bf_set 24 8 a x.
Definition set_g_blk (x : Z) (a : nvm_addr) : nvm_addr := bf_set 32 16 a x.
Definition set_g_lun (x : Z) (a : nvm_addr) : nvm_addr := bf_set 48 8 a x.
Definition set_g_ch (x : Z) (a : nvm_addr) : nvm_addr := bf_set 56 8 a x.

Definition set_l_sectr (x : Z) (a : nvm_addr) : nvm_addr := bf_set 0 32 a x.
Definition set_l_chunk (x : Z) (a : nvm_addr) : nvm_addr := bf_set 32 16 a x.
Definition set_l_punit (x : Z) (a : nvm_addr) : nvm_addr := bf_set 48 8 a x.
Definition set_l_pugrp (x : Z) (a : nvm_addr) : nvm_addr := bf_set 56 8 a x.

(** ** [struct nvm_geo]: a union, its 2.0 view over the first slots of the 1.2 view *)

Record nvm_geo := Geo {
  nchannels : Z; nluns : Z; nblocks : Z;
  nsectors : Z; sector_nbytes : Z; meta_nbytes : Z;
  nplanes : Z; npages : Z; page_nbytes : Z;
  tbytes : Z; geo_verid : Z }.

Definition npugrp (g : nvm_geo) : Z := nchannels g.
Definition npunit (g : nvm_geo) : Z := nluns g.
Definition nchunk (g : nvm_geo) : Z := nblocks g.
Definition nsectr (g : nvm_geo) : Z := nsectors g.
Definition nbytes (g : nvm_geo) : Z := sector_nbytes g.
Definition nbytes_oob (g : nvm_geo) : Z := meta_nbytes g.

(** ** Address formats *)

Record nvm_spec_lbaf := Lbaf { lbaf_pugrp : Z; lbaf_punit : Z; lbaf_chunk : Z; lbaf_sectr : Z }.
Record nvm_spec_lbaz := Lbaz { lbaz_pugrp : Z; lbaz_punit : Z; lbaz_chunk : Z; lbaz_sectr : Z }.
Record nvm_spec_lbam := Lbam { lbam_pugrp : Z; lbam_punit : Z; lbam_chunk : Z; lbam_sectr : Z }.

(** [ppaf] as its array view [a]: offset and length of ch, lun, pl, blk, pg
    and sec, in that order; [mask] as its array view of six words. *)
Record nvm_spec_ppaf_nand := Ppaf {
  ch_off : Z; ch_len : Z; lun_off : Z; lun_len : Z; pl_off : Z; pl_len : Z;
  blk_off : Z; blk_len : Z; pg_off : Z; pg_len : Z; sec_off : Z; sec_len : Z }.
Record nvm_spec_ppaf_nand_mask := Mask {
  mask_ch : Z; mask_lun : Z; mask_pl : Z; mask_blk : Z; mask_pg : Z; mask_sec : Z }.

(** ** Identify data: the fields the library reads *)

Record nvm_spec_idfy_cgrp := Cgrp {
  num_ch : Z; num_lun : Z; num_pln : Z; num_blk : Z; num_pg : Z;
  fpg_sz : Z; csecs : Z; sos : Z; cgrp_mccap : Z }.
Record nvm_spec_lgeo := Lgeo { lgeo_npugrp : Z; lgeo_npunit : Z; lgeo_nchunk : Z; lgeo_nsectr : Z }.
Record nvm_spec_wrt := Wrt { ws_min : Z; ws_opt : Z; mw_cunits : Z }.

(** [struct nvm_spec_idfy] is a union selected by its first byte, [verid]; the
    1.2 and the 2.0 view are kept side by side, since the library reads the
    one [verid] selects. *)
Record nvm_spec_idfy := Idfy {
  idfy_verid : Z;
  s12_grp0 : nvm_spec_idfy_cgrp; s12_ppaf : nvm_spec_ppaf_nand;
  s20_mccap : Z; s20_lbaf : nvm_spec_lbaf; s20_lgeo : nvm_spec_lgeo; s20_wrt : nvm_spec_wrt }.

Definition zero_idfy : nvm_spec_idfy :=
  Idfy 0 (Cgrp 0 0 0 0 0 0 0 0 0) (Ppaf 0 0 0 0 0 0 0 0 0 0 0 0) 0
    (Lbaf 0 0 0 0) (Lgeo 0 0 0 0) (Wrt 0 0 0).

Record nvm_nvme_lbaf := NvmeLbaf { ms : Z; ds : Z }.
Record nvm_nvme_ns := Ns { ncap : Z; flbas : Z; ns_lbaf : list nvm_nvme_lbaf }.

(** ** Bad-block tables: a cached table without its back pointer to the device *)

Record nvm_bbt := Bbt {
  bbt_addr : nvm_addr; bbt_nblks : Z;
  nbad : Z; ngbad : Z; ndmrk : Z; nhmrk : Z;
  bbt_blks : list Z }.

Record nvm_spec_bbt := SpecBbt {
  tblks : Z; tfact : Z; tgrown : Z; tdresv : Z; thresv : Z; spec_blk : list Z }.

(** ** Chunk reports *)

Record nvm_spec_rprt_descr := Descr {
  cs : Z; ct : Z; wli : Z; descr_addr : Z; descr_naddrs : Z; wp_ : Z }.
Record nvm_spec_rprt := Rprt { ndescr : Z; descr : list nvm_spec_rprt_descr }.

Definition zero_descr : nvm_spec_rprt_descr := Descr 0 0 0 0 0 0.

(** [sizeof(struct nvm_spec_rprt_descr)], asserted by the header. *)
Definition SIZEOF_DESCR : Z := 32.

(** ** [struct nvm_dev]: [bbts] holds each cached table with the address of its
    block, and [be_state] is the address of the backend's own block *)

Record vblk_opts := VblkOpts {
  pmode : Z; erase_naddrs_max : Z; read_naddrs_max : Z; write_naddrs_max : Z; meta_mode : Z }.

Record nvm_dev := Dev {
  dev_fd : Z; dev_nsid : Z; verid : Z;
  dev_idfy : nvm_spec_idfy; dev_ns : nvm_nvme_ns;
  lbaf : nvm_spec_lbaf; lbaz : nvm_spec_lbaz; lbam : nvm_spec_lbam;
  ppaf : nvm_spec_ppaf_nand; mask : nvm_spec_ppaf_nand_mask;
  geo : nvm_geo; ssw : Z; mccap : Z;
  opts : vblk_opts;
  bbts_cached : Z; nbbts : Z; bbts : list (option (Z * nvm_bbt));
  quirks : Z; be_id : Z; cmd_opts : Z; be_state : Z }.

(** A handle of zeros. *)
Definition zero_dev : nvm_dev :=
  Dev 0 0 0 zero_idfy (Ns 0 0 []) (Lbaf 0 0 0 0) (Lbaz 0 0 0 0) (Lbam 0 0 0 0)
    (Ppaf 0 0 0 0 0 0 0 0 0 0 0 0) (Mask 0 0 0 0 0 0) (Geo 0 0 0 0 0 0 0 0 0 0 0) 0 0
    (VblkOpts 0 0 0 0 0) 0 0 [] 0 0 0 0.

(** ** Lower-level results *)

(** [ret_async] stands for the member [async], the callback and its argument:
    the token a completion is delivered with. *)
Record nvm_ret := Ret { result : Z; ret_status : Z; ret_async : Z }.

(** Assignments to one member of the handle. *)

Definition with_idfy (x : nvm_spec_idfy) (d : nvm_dev) : nvm_dev :=
  Dev (dev_fd d) (dev_nsid d) (verid d) x (dev_ns d) (lbaf d) (lbaz d) (lbam d) (ppaf d) (mask d) (geo d) (ssw d) (mccap d) (opts d) (bbts_cached d) (nbbts d) (bbts d) (quirks d) (be_id d) (cmd_opts d) (be_state d).
Definition with_verid (x : Z) (d : nvm_dev) : nvm_dev :=
  Dev (dev_fd d) (dev_nsid d) x (dev_idfy d) (dev_ns d) (lbaf d) (lbaz d) (lbam d) (ppaf d) (mask d) (geo d) (ssw d) (mccap d) (opts d) (bbts_cached d) (nbbts d) (bbts d) (quirks d) (be_id d) (cmd_opts d) (be_state d).
Definition with_lbaf (x : nvm_spec_lbaf) (d : nvm_dev) : nvm_dev :=
  Dev (dev_fd d) (dev_nsid d) (verid d) (dev_idfy d) (dev_ns d) x (lbaz d) (lbam d) (ppaf d) (mask d) (geo d) (ssw d) (mccap d) (opts d) (bbts_cached d) (nbbts d) (bbts d) (quirks d) (be_id d) (cmd_opts d) (be_state d).
Definition with_lbaz (x : nvm_spec_lbaz) (d : nvm_dev) : nvm_dev :=
  Dev (dev_fd d) (dev_nsid d) (verid d) (dev_idfy d) (dev_ns d) (lbaf d) x (lbam d) (ppaf d) (mask d) (geo d) (ssw d) (mccap d) (opts d) (bbts_cached d) (nbbts d) (bbts d) (quirks d) (be_id d) (cmd_opts d) (be_state d).
Definition with_lbam (x : nvm_spec_lbam) (d : nvm_dev) : nvm_dev :=
  Dev (dev_fd d) (dev_nsid d) (verid d) (dev_idfy d) (dev_ns d) (lbaf d) (lbaz d) x (ppaf d) (mask d) (geo d) (ssw d) (mccap d) (opts d) (bbts_cached d) (nbbts d) (bbts d) (quirks d) (be_id d) (cmd_opts d) (be_state d).
Definition with_ppaf (x : nvm_spec_ppaf_nand) (d : nvm_dev) : nvm_dev :=
  Dev (dev_fd d) (dev_nsid d) (verid d) (dev_idfy d) (dev_ns d) (lbaf d) (lbaz d) (lbam d) x (mask d) (geo d) (ssw d) (mccap d) (opts d) (bbts_cached d) (nbbts d) (bbts d) (quirks d) (be_id d) (cmd_opts d) (be_state d).
Definition with_mask (x : nvm_spec_ppaf_nand_mask) (d : nvm_dev) : nvm_dev :=
  Dev (dev_fd d) (dev_nsid d) (verid d) (dev_idfy d) (dev_ns d) (lbaf d) (lbaz d) (lbam d) (ppaf d) x (geo d) (ssw d) (mccap d) (opts d) (bbts_cached d) (nbbts d) (bbts d) (quirks d) (be_id d) (cmd_opts d) (be_state d).
Definition with_geo (x : nvm_geo) (d : nvm_dev) : nvm_dev :=
  Dev (dev_fd d) (dev_nsid d) (verid d) (dev_idfy d) (dev_ns d) (lbaf d) (lbaz d) (lbam d) (ppaf d) (mask d) x (ssw d) (mccap d) (opts d) (bbts_cached d) (nbbts d) (bbts d) (quirks d) (be_id d) (cmd_opts d) (be_state d).
Definition with_ssw (x : Z) (d : nvm_dev) : nvm_dev :=
  Dev (dev_fd d) (dev_nsid d) (verid d) (dev_idfy d) (dev_ns d) (lbaf d) (lbaz d) (lbam d) (ppaf d) (mask d) (geo d) x (mccap d) (opts d) (bbts_cached d) (nbbts d) (bbts d) (quirks d) (be_id d) (cmd_opts d) (be_state d).
Definition with_mccap (x : Z) (d : nvm_dev) : nvm_dev :=
  Dev (dev_fd d) (dev_nsid d) (verid d) (dev_idfy d) (dev_ns d) (lbaf d) (lbaz d) (lbam d) (ppaf d) (mask d) (geo d) (ssw d) x (opts d) (bbts_cached d) (nbbts d) (bbts d) (quirks d) (be_id d) (cmd_opts d) (be_state d).
Definition with_opts (x : vblk_opts) (d : nvm_dev) : nvm_dev :=
  Dev (dev_fd d) (dev_nsid d) (verid d) (dev_idfy d) (dev_ns d) (lbaf d) (lbaz d) (lbam d) (ppaf d) (mask d) (geo d) (ssw d) (mccap d) x (bbts_cached d) (nbbts d) (bbts d) (quirks d) (be_id d) (cmd_opts d) (be_state d).
Definition with_bbts_cached (x : Z) (d : nvm_dev) : nvm_dev :=
  Dev (dev_fd d) (dev_nsid d) (verid d) (dev_idfy d) (dev_ns d) (lbaf d) (lbaz d) (lbam d) (ppaf d) (mask d) (geo d) (ssw d) (mccap d) (opts d) x (nbbts d) (bbts d) (quirks d) (be_id d) (cmd_opts d) (be_state d).
Definition with_nbbts (x : Z) (d : nvm_dev) : nvm_dev :=
  Dev (dev_fd d) (dev_nsid d) (verid d) (dev_idfy d) (dev_ns d) (lbaf d) (lbaz d) (lbam d) (ppaf d) (mask d) (geo d) (ssw d) (mccap d) (opts d) (bbts_cached d) x (bbts d) (quirks d) (be_id d) (cmd_opts d) (be_state d).
Definition with_bbts (x : list (option (Z * nvm_bbt))) (d : nvm_dev) : nvm_dev :=
  Dev (dev_fd d) (dev_nsid d) (verid d) (dev_idfy d) (dev_ns d) (lbaf d) (lbaz d) (lbam d) (ppaf d) (mask d) (geo d) (ssw d) (mccap d) (opts d) (bbts_cached d) (nbbts d) x (quirks d) (be_id d) (cmd_opts d) (be_state d).
Definition with_quirks (x : Z) (d : nvm_dev) : nvm_dev :=
  Dev (dev_fd d) (dev_nsid d) (verid d) (dev_idfy d) (dev_ns d) (lbaf d) (lbaz d) (lbam d) (ppaf d) (mask d) (geo d) (ssw d) (mccap d) (opts d) (bbts_cached d) (nbbts d) (bbts d) x (be_id d) (cmd_opts d) (be_state d).
Definition with_be_id (x : Z) (d : nvm_dev) : nvm_dev :=
  Dev (dev_fd d) (dev_nsid d) (verid d) (dev_idfy d) (dev_ns d) (lbaf d) (lbaz d) (lbam d) (ppaf d) (mask d) (geo d) (ssw d) (mccap d) (opts d) (bbts_cached d) (nbbts d) (bbts d) (quirks d) x (cmd_opts d) (be_state d).
Definition with_cmd_opts (x : Z) (d : nvm_dev) : nvm_dev :=
  Dev (dev_fd d) (dev_nsid d) (verid d) (dev_idfy d) (dev_ns d) (lbaf d) (lbaz d) (lbam d) (ppaf d) (mask d) (geo d) (ssw d) (mccap d) (opts d) (bbts_cached d) (nbbts d) (bbts d) (quirks d) (be_id d) x (be_state d).
Definition with_fd (x : Z) (d : nvm_dev) : nvm_dev :=
  Dev x (dev_nsid d) (verid d) (dev_idfy d) (dev_ns d) (lbaf d) (lbaz d) (lbam d) (ppaf d) (mask d) (geo d) (ssw d) (mccap d) (opts d) (bbts_cached d) (nbbts d) (bbts d) (quirks d) (be_id d) (cmd_opts d) (be_state d).
Definition with_nsid (x : Z) (d : nvm_dev) : nvm_dev :=
  Dev (dev_fd d) x (verid d) (dev_idfy d) (dev_ns d) (lbaf d) (lbaz d) (lbam d) (ppaf d) (mask d) (geo d) (ssw d) (mccap d) (opts d) (bbts_cached d) (nbbts d) (bbts d) (quirks d) (be_id d) (cmd_opts d) (be_state d).
Definition with_ns (x : nvm_nvme_ns) (d : nvm_dev) : nvm_dev :=
  Dev (dev_fd d) (dev_nsid d) (verid d) (dev_idfy d) x (lbaf d) (lbaz d) (lbam d) (ppaf d) (mask d) (geo d) (ssw d) (mccap d) (opts d) (bbts_cached d) (nbbts d) (bbts d) (quirks d) (be_id d) (cmd_opts d) (be_state d).
Definition with_be_state (x : Z) (d : nvm_dev) : nvm_dev :=
  Dev (dev_fd d) (dev_nsid d) (verid d) (dev_idfy d) (dev_ns d) (lbaf d) (lbaz d) (lbam d) (ppaf d) (mask d) (geo d) (ssw d) (mccap d) (opts d) (bbts_cached d) (nbbts d) (bbts d) (quirks d) (be_id d) (cmd_opts d) x.
Definition with_pmode (x : Z) (d : nvm_dev) : nvm_dev :=
  with_opts (VblkOpts x (erase_naddrs_max (opts d)) (read_naddrs_max (opts d)) (write_naddrs_max (opts d)) (meta_mode (opts d))) d.
Definition with_erase_naddrs_max (x : Z) (d : nvm_dev) : nvm_dev :=
  with_opts (VblkOpts (pmode (opts d)) x (read_naddrs_max (opts d)) (write_naddrs_max (opts d)) (meta_mode (opts d))) d.
Definition with_read_naddrs_max (x : Z) (d : nvm_dev) : nvm_dev :=
  with_opts (VblkOpts (pmode (opts d)) (erase_naddrs_max (opts d)) x (write_naddrs_max (opts d)) (meta_mode (opts d))) d.
Definition with_write_naddrs_max (x : Z) (d : nvm_dev) : nvm_dev :=
  with_opts (VblkOpts (pmode (opts d)) (erase_naddrs_max (opts d)) (read_naddrs_max (opts d)) x (meta_mode (opts d))) d.
Definition with_meta_mode (x : Z) (d : nvm_dev) : nvm_dev :=
  with_opts (VblkOpts (pmode (opts d)) (erase_naddrs_max (opts d)) (read_naddrs_max (opts d)) (write_naddrs_max (opts d)) x) d.

(** Resolves the tests on a known version. *)
Ltac by_verid E :=
  rewrite ?E;
  change (NVM_SPEC_VERID_12 =? NVM_SPEC_VERID_12) with true;
  change (NVM_SPEC_VERID_20 =? NVM_SPEC_VERID_12) with false;
  change (NVM_SPEC_VERID_20 =? NVM_SPEC_VERID_20) with true;
  change (NVM_SPEC_VERID_12 =? NVM_SPEC_VERID_20) with false;
  cbv iota.

(** ** Sample devices, at which the theorems are instantiated *)

Definition sample_idfy : nvm_spec_idfy :=
  Idfy NVM_SPEC_VERID_20 (Cgrp 16 8 2 1020 512 16384 4096 16 1)
    (Ppaf 25 4 22 3 2 1 12 10 3 9 0 2)
    3 (Lbaf 3 2 11 13) (Lgeo 8 4 1474 6144) (Wrt 12 24 0).

(** A 2.0 device: 8 groups of 4 units, 1474 chunks of 6144 sectors of 4 KiB. *)
Definition sample20 : nvm_dev :=
  Dev 3 1 NVM_SPEC_VERID_20 sample_idfy (Ns 0 0 [NvmeLbaf 64 12])
    (Lbaf 3 2 11 13) (Lbaz 26 24 13 0) (Lbam (7 * 2 ^ 26) (3 * 2 ^ 24) (2047 * 2 ^ 13) 8191)
    (Ppaf 0 0 0 0 0 0 0 0 0 0 0 0) (Mask 0 0 0 0 0 0)
    (Geo 8 4 1474 6144 4096 64 0 0 0 (8 * 4 * 1474 * 6144 * 4096) NVM_SPEC_VERID_20) 12 3
    (VblkOpts 0 64 64 64 0) 0 32 (replicate 32 None) 0 NVM_BE_IOCTL
    (Z.lor NVM_CMD_SYNC (Z.lor NVM_CMD_VECTOR NVM_CMD_PRP)) 0.

(** A 1.2 device: 16 channels of 8 LUNs, 2 planes, 1020 blocks of 512 pages of
    4 sectors of 4 KiB. *)
Definition sample12 : nvm_dev :=
  Dev 3 1 NVM_SPEC_VERID_12 sample_idfy (Ns 0 0 [NvmeLbaf 64 12])
    (Lbaf 0 0 0 0) (Lbaz 0 0 0 0) (Lbam 0 0 0 0)
    (Ppaf 25 4 22 3 2 1 12 10 3 9 0 2)
    (Mask (15 * 2 ^ 25) (7 * 2 ^ 22) 4 (1023 * 2 ^ 12) (511 * 2 ^ 3) 3)
    (Geo 16 8 1020 4 4096 16 2 512 16384 (16 * 8 * 2 * 1020 * 512 * 16384) NVM_SPEC_VERID_12) 12 1
    (VblkOpts NVM_FLAG_PMODE_DUAL 64 64 64 0) 0 128 (replicate 128 None) 0 NVM_BE_IOCTL
    (Z.lor NVM_CMD_SYNC (Z.lor NVM_CMD_VECTOR NVM_CMD_PRP)) 0.

(** The words of 64 bits. *)
Definition addr_ok (a : nvm_addr) : Prop := 0 <= a < 2 ^ 64.

(** ** Lemmas on the address word *)

Lemma bf_testbit off w v i : 0 <= off -> 0 <= w -> off <= i < off + w ->
  Z.testbit v i = Z.testbit (bf_get off w v) (i - off).
Proof.
  intros. rewrite testbit_bf_get by lia.
  rewrite (proj2 (Z.ltb_lt (i - off) w)) by lia. cbn. f_equal. lia.
Qed.

Lemma bf_split off w1 w2 v v' : 0 <= off -> 0 <= w1 -> 0 <= w2 ->
  bf_get off w1 v = bf_get off w1 v' ->
  bf_get (off + w1) w2 v = bf_get (off + w1) w2 v' ->
  bf_get off (w1 + w2) v = bf_get off (w1 + w2) v'.
Proof.
  intros ??? H1 H2. apply (bits_eq (w1 + w2)); [apply bf_get_range; lia..|].
  intros i Hi. rewrite !testbit_bf_get by lia. f_equal.
  destruct (Z.lt_ge_cases i w1).
  - rewrite (bf_testbit off w1 v), (bf_testbit off w1 v') by lia. by rewrite H1.
  - rewrite (bf_testbit (off + w1) w2 v), (bf_testbit (off + w1) w2 v') by lia.
    by rewrite H2.
Qed.

(** A word is determined by the bit-fields of either view. *)
Lemma addr_ext_l a b : addr_ok a -> addr_ok b ->
  l_sectr a = l_sectr b -> l_chunk a = l_chunk b ->
  l_punit a = l_punit b -> l_pugrp a = l_pugrp b -> a = b.
Proof.
  intros Ha Hb H1 H2 H3 H4.
  rewrite <-(bf_get_id 64 a), <-(bf_get_id 64 b) by done.
  apply (bf_split 0 56 8); [lia..| |exact H4].
  apply (bf_split 0 48 8); [lia..| |exact H3].
  apply (bf_split 0 32 16); [lia..|exact H1|exact H2].
Qed.

Lemma addr_ext_g a b : addr_ok a -> addr_ok b ->
  g_sec a = g_sec b -> g_pg a = g_pg b -> g_pl a = g_pl b ->
  g_blk a = g_blk b -> g_lun a = g_lun b -> g_ch a = g_ch b -> a = b.
Proof.
  intros Ha Hb H1 H2 H3 H4 H5 H6. apply addr_ext_l; [done..| |exact H4|exact H5|exact H6].
  apply (bf_split 0 24 8); [lia..| |exact H3].
  apply (bf_split 0 8 16); [lia..|exact H1|exact H2].
Qed.

Ltac addr_unfold :=
  unfold g_sec, g_pg, g_pl, g_blk, g_lun, g_ch, l_sectr, l_chunk, l_punit, l_pugrp,
    set_g_sec, set_g_pg, set_g_pl, set_g_blk, set_g_lun, set_g_ch,
    set_l_sectr, set_l_chunk, set_l_punit, set_l_pugrp in *.

(** Reads of a field after assignments to fields. *)
Ltac addr_simpl :=
  addr_unfold;
  repeat first [rewrite bf_get_set by lia | rewrite bf_get_set_ne by lia
               | rewrite bf_get_0].

Lemma set_field_ok off w x a : 0 <= off -> 0 <= w -> off + w <= 64 ->
  addr_ok a -> addr_ok (bf_set off w a x).
Proof. intros. by apply bf_set_range. Qed.

Lemma addr_ok_0 : addr_ok 0.
Proof. unfold addr_ok. lia. Qed.

Ltac addr_wf := addr_unfold; repeat (apply set_field_ok; [lia..|]); done || apply addr_ok_0.

Lemma l_fields_range a :
  0 <= l_sectr a < 2 ^ 32 /\ 0 <= l_chunk a < 2 ^ 16 /\
  0 <= l_punit a < 2 ^ 8 /\ 0 <= l_pugrp a < 2 ^ 8.
Proof. repeat split; apply bf_get_range; lia. Qed.

Lemma g_fields_range a :
  (0 <= g_sec a < 2 ^ 8 /\ 0 <= g_pg a < 2 ^ 16 /\ 0 <= g_pl a < 2 ^ 8) /\
  (0 <= g_blk a < 2 ^ 16 /\ 0 <= g_lun a < 2 ^ 8 /\ 0 <= g_ch a < 2 ^ 8).
Proof. repeat split; apply bf_get_range; lia. Qed.

(** A 2.0 device small enough to run on: 2 groups of 2 units, 4 chunks of 8
    sectors of 2 bytes, written in units of 2 sectors. *)
Definition tiny20 : nvm_dev :=
  with_idfy (Idfy NVM_SPEC_VERID_20 (s12_grp0 sample_idfy) (s12_ppaf sample_idfy) 3
      (Lbaf 1 1 2 3) (Lgeo 2 2 4 8) (Wrt 2 2 0))
    (with_geo (Geo 2 2 4 8 2 0 0 0 0 (2 * 2 * 4 * 8 * 2) NVM_SPEC_VERID_20) sample20).

(** A 1.2 device small enough to run on: super-pages of 2 planes of 2 sectors
    of 2 bytes, blocks of 2 pages, meta data of one byte per sector. *)
Definition tiny12 : nvm_dev :=
  with_opts (VblkOpts NVM_FLAG_PMODE_DUAL 64 64 64 NVM_META_MODE_NONE)
    (with_geo (Geo 2 2 4 2 2 1 2 2 4 (2 * 2 * 4 * 2 * 2 * 2 * 2) NVM_SPEC_VERID_12) sample12).

Lemma NVM_MIN_min x y : 0 <= x < 2 ^ 31 -> 0 <= y < 2 ^ 31 -> NVM_MIN x y = Z.min x y.
Proof. intros. unfold NVM_MIN. rewrite !i32_id by lia. destruct (Z.ltb_spec x y); lia. Qed.
