(* ===== verification/Clib.v ===== *)
(** The conversions of the C library the command line uses ([strtoll], [atoi],
    [atol]) and [getopt], on strings of ASCII characters. *)
From Stdlib Require Import Ascii String.
From stdpp Require Import base numbers strings list option.
From S2P Require Import Prelude.

(** ** Numbers *)

Definition isspace (c : ascii) : bool := let n := N_of_ascii c in (n =? 32)%N || ((9 <=? n)%N && (n <=? 13)%N).

(** The value of a digit, whatever the base. *)
Definition digit (c : ascii) : option Z :=
  let n := Z.of_N (N_of_ascii c) in
  if (48 <=? n) && (n <=? 57) then Some (n - 48)
  else if (97 <=? n) && (n <=? 122) then Some (n - 87)
  else if (65 <=? n) && (n <=? 90) then Some (n - 55)
  else None.

Fixpoint digits (base acc : Z) (s : string) : Z :=
  match s with
  | EmptyString => acc
  | String c s =>
      match digit c with
      | Some d => if d <? base then digits base (acc * base + d) s else acc
      | None => acc
      end
  end.

Fixpoint skip_space (s : string) : string :=
  match s with String c s' => if isspace c then skip_space s' else s | EmptyString => s end.

(** The optional prefix of base 16; without a digit after it the value is 0
    either way. *)
Definition skip_0x (base : Z) (s : string) : string :=
  match s with
  | String "0" (String x s') => if (base =? 16) && (Ascii.eqb x "x" || Ascii.eqb x "X") then s' else s
  | _ => s
  end.

Definition LLONG_MAX : Z := 2 ^ 63 - 1.
Definition LLONG_MIN : Z := - 2 ^ 63.
Definition clamp (x : Z) : Z := Z.max LLONG_MIN (Z.min LLONG_MAX x).

(** [strtol(s, NULL, base)]; [long] and [long long] have 64 bits. *)
Definition strtoll (s : string) (base : Z) : Z :=
  match skip_space s with
  | String "-" s => clamp (- digits base 0 (skip_0x base s))
  | String "+" s => clamp (digits base 0 (skip_0x base s))
  | s => clamp (digits base 0 (skip_0x base s))
  end.

Definition atol (s : string) : Z := strtoll s 10.
(** [(int) strtol(s, NULL, 10)] *)
Definition atoi (s : string) : Z := i32 (strtoll s 10).

Definition strlen (s : string) : Z := Z.of_nat (String.length s).

(** ** Options *)

(** What the calls of [getopt] answer: an option with its argument, or the
    character [?] or [:] of a refused one. *)
Inductive opt_event := Opt (c : ascii) (arg : option string) | OptErr (c : ascii).

(** Whether option [c] of [optstring] takes an argument. *)
Fixpoint opt_takes (optstring : string) (c : ascii) : option bool :=
  match optstring with
  | EmptyString => None
  | String x s =>
      if Ascii.eqb x c && negb (Ascii.eqb c ":") then
        Some (match s with String y _ => Ascii.eqb y ":" | EmptyString => false end)
      else opt_takes s c
  end.

(** The options of one element; an argument is the rest of it, or the next
    element. *)
Fixpoint opt_cluster (optstring s : string) : list opt_event * option ascii :=
  match s with
  | EmptyString => ([], None)
  | String c s =>
      match opt_takes optstring c with
      | None => let '(l, need) := opt_cluster optstring s in (OptErr "?" :: l, need)
      | Some false => let '(l, need) := opt_cluster optstring s in (Opt c None :: l, need)
      | Some true =>
          match s with
          | EmptyString => ([], Some c)
          | _ => ([Opt c (Some s)], None)
          end
      end
  end.

(** The answers over all elements, in order, and the number of elements that
    are options: elements that are not are moved behind them. The option
    string begins with [:], so that nothing is printed. *)
Fixpoint opt_scan (optstring : string) (args : list string) : list opt_event * Z :=
  match args with
  | [] => ([], 0)
  | String "-" s :: rest =>
      if String.eqb s "" then opt_scan optstring rest
      else if String.eqb s "-" then ([], 1)
      else
        let '(l, need) := opt_cluster optstring s in
        match need, rest with
        | None, _ => let '(l', n) := opt_scan optstring rest in (l ++ l', n + 1)
        | Some _, [] => (l ++ [OptErr ":"], 1)
        | Some c, x :: rest => let '(l', n) := opt_scan optstring rest in (l ++ Opt c (Some x) :: l', n + 2)
        end
  | _ :: rest => opt_scan optstring rest
  end.

(** The calls of [getopt(argc, argv, optstring)] until it answers -1, and
    [optind] then; the first element is taken for the program's name. *)
Definition getopt (argv : list string) (optstring : string) : list opt_event * Z :=
  match argv with
  | [] => ([], 1)
  | _ :: args => let '(l, n) := opt_scan optstring args in (l, n + 1)
  end.

Lemma atoi_examples : atoi "42" = 42 /\ atoi " -7x" = -7 /\ atoi "zz" = 0 /\ atoi "4294967295" = -1.
Proof. done. Qed.

Lemma strtoll_examples : strtoll "0x1F" 16 = 31 /\ strtoll "0xffffffffffffffff" 16 = LLONG_MAX /\ strtoll "0xg" 16 = 0.
Proof. done. Qed.

Lemma getopt_example :
  getopt ["/dev/x"; "-vn"; "5"; "12"; "-xff"; "--"; "-b"] ":hbvc:m:d:ti:o:n:x:" =
  ([Opt "v" None; Opt "n" (Some "5"); Opt "x" (Some "ff")], 5).
Proof. done. Qed.
