(* ===== verification/Nvme.v ===== *)
(** NVMe commands and completions, [include/liblightnvm_spec.h]: opcodes, the
    submission entry of 64 bytes with the bit-fields the library assigns, SGL
    descriptors, data set management ranges and the completion status. *)
From stdpp Require Import base numbers strings gmap option list.
From S2P Require Import Prelude Types.

(** ** Constants *)

Definition NVM_AOPC_IDFY : Z := 0xE2.
Definition NVM_AOPC_RPRT : Z := 0x02.
Definition NVM_AOPC_SFEAT : Z := 0x09.
Definition NVM_AOPC_GFEAT : Z := 0x0A.
Definition NVM_AOPC_SBBT : Z := 0xF1.
Definition NVM_AOPC_GBBT : Z := 0xF2.

Definition SIZEOF_IDFY : Z := 4096.
Definition SIZEOF_SPEC_BBT : Z := 64.
Definition SIZEOF_NDESCR : Z := 8.
Definition SIZEOF_DSMR : Z := 16.
Definition SIZEOF_SGL_DESCR : Z := 16.

Definition NVM_NVME_SGL_DESCR_TYPE_DATA_BLOCK : Z := 0x0.
Definition NVM_NVME_SGL_DESCR_TYPE_LAST_SEGMENT : Z := 0x3.
Definition NVM_NVME_PSDT_PRP : Z := 0x0.
Definition NVM_NVME_PSDT_SGL_MPTR_CONTIGUOUS : Z := 0x1.
Definition NVM_NVME_PSDT_SGL_MPTR_SGL : Z := 0x2.

(** ** Data *)

(** A range of a data set management command. *)
Record nvm_nvme_dsm_range := Dsmr { cattr : Z; nlb : Z; slba : Z }.

(** An SGL descriptor: the address, and the word of the bit-fields. *)
Record nvm_nvme_sgl_descriptor := SglDescr { sgl_addr : Z; sgl_word : Z }.

Definition sgl_type (d : nvm_nvme_sgl_descriptor) : Z := bf_get 60 4 (sgl_word d).
Definition sgl_dlen (d : nvm_nvme_sgl_descriptor) : Z := bf_get 0 32 (sgl_word d).

(** [d->unkeyed.type = type; d->unkeyed.len = len; d->addr = addr;] *)
Definition set_sgl (type len addr : Z) (d : nvm_nvme_sgl_descriptor) : nvm_nvme_sgl_descriptor :=
  SglDescr addr (bf_set 0 32 (bf_set 60 4 (sgl_word d) type) len).

(** ** The submission entry *)

(** The command dwords; [dptr] is the union of the two PRP entries and an SGL
    descriptor, [cmd_addrs] dwords 10 and 11, [cdw12] and [cdw13] with their
    views as bit-fields below. *)
Record nvm_nvme_cmd := NvmeCmd {
  cdw00 : Z; cmd_nsid : Z; cdw02 : Z; cdw03 : Z; mptr : Z;
  dptr : nvm_nvme_sgl_descriptor; cmd_addrs : Z; cdw12 : Z; cdw13 : Z; addrs_dst : Z }.

(** [struct nvm_nvme_cmd cmd = { 0 };] *)
Definition zero_cmd : nvm_nvme_cmd := NvmeCmd 0 0 0 0 0 (SglDescr 0 0) 0 0 0 0.

Definition with_cdw00 (x : Z) (c : nvm_nvme_cmd) : nvm_nvme_cmd :=
  NvmeCmd x (cmd_nsid c) (cdw02 c) (cdw03 c) (mptr c) (dptr c) (cmd_addrs c) (cdw12 c) (cdw13 c) (addrs_dst c).
Definition with_cmd_nsid (x : Z) (c : nvm_nvme_cmd) : nvm_nvme_cmd :=
  NvmeCmd (cdw00 c) (u32 x) (cdw02 c) (cdw03 c) (mptr c) (dptr c) (cmd_addrs c) (cdw12 c) (cdw13 c) (addrs_dst c).
Definition with_mptr (x : Z) (c : nvm_nvme_cmd) : nvm_nvme_cmd :=
  NvmeCmd (cdw00 c) (cmd_nsid c) (cdw02 c) (cdw03 c) x (dptr c) (cmd_addrs c) (cdw12 c) (cdw13 c) (addrs_dst c).
Definition with_dptr (x : nvm_nvme_sgl_descriptor) (c : nvm_nvme_cmd) : nvm_nvme_cmd :=
  NvmeCmd (cdw00 c) (cmd_nsid c) (cdw02 c) (cdw03 c) (mptr c) x (cmd_addrs c) (cdw12 c) (cdw13 c) (addrs_dst c).
Definition with_cmd_addrs (x : Z) (c : nvm_nvme_cmd) : nvm_nvme_cmd :=
  NvmeCmd (cdw00 c) (cmd_nsid c) (cdw02 c) (cdw03 c) (mptr c) (dptr c) x (cdw12 c) (cdw13 c) (addrs_dst c).
Definition with_cdw12 (x : Z) (c : nvm_nvme_cmd) : nvm_nvme_cmd :=
  NvmeCmd (cdw00 c) (cmd_nsid c) (cdw02 c) (cdw03 c) (mptr c) (dptr c) (cmd_addrs c) x (cdw13 c) (addrs_dst c).
Definition with_cdw13 (x : Z) (c : nvm_nvme_cmd) : nvm_nvme_cmd :=
  NvmeCmd (cdw00 c) (cmd_nsid c) (cdw02 c) (cdw03 c) (mptr c) (dptr c) (cmd_addrs c) (cdw12 c) x (addrs_dst c).
Definition with_addrs_dst (x : Z) (c : nvm_nvme_cmd) : nvm_nvme_cmd :=
  NvmeCmd (cdw00 c) (cmd_nsid c) (cdw02 c) (cdw03 c) (mptr c) (dptr c) (cmd_addrs c) (cdw12 c) (cdw13 c) x.

(** Dword 0. *)
Definition opcode_of (c : nvm_nvme_cmd) : Z := bf_get 0 8 (cdw00 c).
Definition psdt_of (c : nvm_nvme_cmd) : Z := bf_get 14 2 (cdw00 c).
Definition set_opcode (x : Z) (c : nvm_nvme_cmd) : nvm_nvme_cmd := with_cdw00 (bf_set 0 8 (cdw00 c) x) c.
Definition set_psdt (x : Z) (c : nvm_nvme_cmd) : nvm_nvme_cmd := with_cdw00 (bf_set 14 2 (cdw00 c) x) c.

(** Dwords 10 and 11: the views [dsm], [rprt], [sfeat], [gfeat] and [padc]. *)
Definition set_dsm (nr ad : Z) (c : nvm_nvme_cmd) : nvm_nvme_cmd :=
  with_cmd_addrs (bf_set 34 1 (bf_set 0 8 (cmd_addrs c) nr) ad) c.
Definition set_rprt (lid lsp numdu numdl : Z) (c : nvm_nvme_cmd) : nvm_nvme_cmd :=
  with_cmd_addrs (bf_set 16 16 (bf_set 32 16 (bf_set 8 4 (bf_set 0 8 (cmd_addrs c) lid) lsp) numdu) numdl) c.
Definition set_sfeat (fid feat : Z) (c : nvm_nvme_cmd) : nvm_nvme_cmd :=
  with_cmd_addrs (bf_set 32 32 (bf_set 0 8 (cmd_addrs c) fid) feat) c.
Definition set_gfeat (fid : Z) (c : nvm_nvme_cmd) : nvm_nvme_cmd :=
  with_cmd_addrs (bf_set 0 8 (cmd_addrs c) fid) c.
Definition set_ndm (x : Z) (c : nvm_nvme_cmd) : nvm_nvme_cmd := with_cmd_addrs (bf_set 32 32 (cmd_addrs c) x) c.

(** Dword 12: the views [nvme], [s12] and [s20]. *)
Definition set_nvme_naddrs (x : Z) (c : nvm_nvme_cmd) : nvm_nvme_cmd := with_cdw12 (bf_set 0 16 (cdw12 c) x) c.
Definition set_s12 (naddrs control : Z) (c : nvm_nvme_cmd) : nvm_nvme_cmd :=
  with_cdw12 (bf_set 16 16 (bf_set 0 16 (cdw12 c) naddrs) control) c.
Definition set_s20_naddrs (x : Z) (c : nvm_nvme_cmd) : nvm_nvme_cmd := with_cdw12 (bf_set 0 6 (cdw12 c) x) c.

(** ** Completions *)

(** [struct nvm_nvme_status] and the members of [struct nvm_nvme_cpl] read. *)
Record nvm_nvme_status := Status { sc : Z; sct : Z; st_m : Z; dnr : Z }.
Record nvm_nvme_cpl := Cpl { cdw0 : Z; status : nvm_nvme_status }.
