(* ===== verification/Addr.v ===== *)
(** Address checks and conversions of [src/nvm_addr.c]: the generic address
    word to and from the device format, byte offsets, and chunk-report log
    page offsets (lpo). *)
From stdpp Require Import base numbers strings gmap option list.
From S2P Require Import Prelude Types Nvme.

(** ** Bounds *)

(** [if (x >= n) exceeded |= flag;] *)
Definition bound (x n flag exceeded : Z) : Z :=
  if n <=? x then Z.lor exceeded flag else exceeded.

Definition nvm_addr_check {W} (addr : nvm_addr) (dev : nvm_dev) : M W Z :=
  let geo := geo dev in
  if verid dev =? NVM_SPEC_VERID_12 then
    let e := bound (g_ch addr) (nchannels geo) NVM_BOUNDS_CHANNEL 0 in
    let e := bound (g_lun addr) (nluns geo) NVM_BOUNDS_LUN e in
    let e := bound (g_pl addr) (nplanes geo) NVM_BOUNDS_PLANE e in
    let e := bound (g_blk addr) (nblocks geo) NVM_BOUNDS_BLOCK e in
    let e := bound (g_pg addr) (npages geo) NVM_BOUNDS_PAGE e in
    mret (bound (g_sec addr) (nsectors geo) NVM_BOUNDS_SECTOR e)
  else if verid dev =? NVM_SPEC_VERID_20 then
    let e := bound (l_pugrp addr) (npugrp geo) NVM_BOUNDS_PUGRP 0 in
    let e := bound (l_punit addr) (npunit geo) NVM_BOUNDS_PUNIT e in
    let e := bound (l_chunk addr) (nchunk geo) NVM_BOUNDS_CHUNK e in
    mret (bound (l_sectr addr) (nsectr geo) NVM_BOUNDS_SECTR e)
  else fail EINVAL (-1).

(** ** Device format *)

(** [x << n] on [uint64_t]; C leaves counts of 64 and more undefined, and
    every theorem below that depends on a count bounds it by 64. *)
Definition shl64 (x n : Z) : Z := u64 (Z.shiftl x n).

(** [(addr & mask) >> off] *)
Definition unpack (addr mask off : Z) : Z := Z.shiftr (Z.land addr mask) off.

Definition nvm_addr_gen2dev (dev : nvm_dev) (addr : nvm_addr) : Z :=
  if verid dev =? NVM_SPEC_VERID_20 then
    let d_addr := 0 in
    let d_addr := Z.lor d_addr (shl64 (l_pugrp addr) (lbaz_pugrp (lbaz dev))) in
    let d_addr := Z.lor d_addr (shl64 (l_punit addr) (lbaz_punit (lbaz dev))) in
    let d_addr := Z.lor d_addr (shl64 (l_chunk addr) (lbaz_chunk (lbaz dev))) in
    let d_addr := Z.lor d_addr (shl64 (l_sectr addr) (lbaz_sectr (lbaz dev))) in
    d_addr
  else
    let d_addr := 0 in
    let d_addr := Z.lor d_addr (shl64 (g_ch addr) (ch_off (ppaf dev))) in
    let d_addr := Z.lor d_addr (shl64 (g_lun addr) (lun_off (ppaf dev))) in
    let d_addr := Z.lor d_addr (shl64 (g_pl addr) (pl_off (ppaf dev))) in
    let d_addr := Z.lor d_addr (shl64 (g_blk addr) (blk_off (ppaf dev))) in
    let d_addr := Z.lor d_addr (shl64 (g_pg addr) (pg_off (ppaf dev))) in
    let d_addr := Z.lor d_addr (shl64 (g_sec addr) (sec_off (ppaf dev))) in
    d_addr.

(** The first [naddrs] addresses, converted; undefined past the end. *)
Definition dev_addrs (dev : nvm_dev) (addrs : list nvm_addr) (naddrs : Z) : option (list Z) :=
  if Z.of_nat (length addrs) <? naddrs then None
  else Some (nvm_addr_gen2dev dev <$> take (Z.to_nat naddrs) addrs).

Definition nvm_addr_dev2gen (dev : nvm_dev) (addr : Z) : nvm_addr :=
  if verid dev =? NVM_SPEC_VERID_20 then
    let gen := 0 in
    let gen := set_l_pugrp (unpack addr (lbam_pugrp (lbam dev)) (lbaz_pugrp (lbaz dev))) gen in
    let gen := set_l_punit (unpack addr (lbam_punit (lbam dev)) (lbaz_punit (lbaz dev))) gen in
    let gen := set_l_chunk (unpack addr (lbam_chunk (lbam dev)) (lbaz_chunk (lbaz dev))) gen in
    let gen := set_l_sectr (unpack addr (lbam_sectr (lbam dev)) (lbaz_sectr (lbaz dev))) gen in
    gen
  else
    let gen := 0 in
    let gen := set_g_ch (unpack addr (mask_ch (mask dev)) (ch_off (ppaf dev))) gen in
    let gen := set_g_lun (unpack addr (mask_lun (mask dev)) (lun_off (ppaf dev))) gen in
    let gen := set_g_pl (unpack addr (mask_pl (mask dev)) (pl_off (ppaf dev))) gen in
    let gen := set_g_blk (unpack addr (mask_blk (mask dev)) (blk_off (ppaf dev))) gen in
    let gen := set_g_pg (unpack addr (mask_pg (mask dev)) (pg_off (ppaf dev))) gen in
    let gen := set_g_sec (unpack addr (mask_sec (mask dev)) (sec_off (ppaf dev))) gen in
    gen.

(** ** Byte offsets *)

Definition nvm_addr_gen2off (dev : nvm_dev) (addr : nvm_addr) : Z :=
  shl64 (nvm_addr_gen2dev dev addr) (ssw dev).

Definition nvm_addr_off2gen (dev : nvm_dev) (off : Z) : nvm_addr :=
  nvm_addr_dev2gen dev (Z.shiftr off (ssw dev)).

Definition nvm_addr_dev2off (dev : nvm_dev) (addr : Z) : Z := shl64 addr (ssw dev).

Definition nvm_addr_off2dev (dev : nvm_dev) (off : Z) : Z := Z.shiftr off (ssw dev).

(** ** Log page offsets of chunk descriptors *)

Definition nvm_addr_gen2lpo (dev : nvm_dev) (addr : nvm_addr) : Z :=
  let geo := geo dev in
  let idx := 0 in
  let idx := u64 (idx + u64 (u64 (l_pugrp addr * npunit geo) * nchunk geo)) in
  let idx := u64 (idx + u64 (l_punit addr * nchunk geo)) in
  let idx := u64 (idx + l_chunk addr) in
  u64 (idx * SIZEOF_DESCR).

(** [None]: a division by zero, when a count of the geometry is 0. *)
Definition nvm_addr_lpo2gen (dev : nvm_dev) (lpo : Z) : option nvm_addr :=
  let geo := geo dev in
  let i := lpo / SIZEOF_DESCR in
  if (nchunk geo =? 0) || (npunit geo =? 0) || (npugrp geo =? 0) then None
  else
    let addr := set_l_sectr 0 0 in
    let addr := set_l_chunk (i mod nchunk geo) addr in
    let addr := set_l_punit ((i / nchunk geo) mod npunit geo) addr in
    let addr := set_l_pugrp (((i / nchunk geo) / npunit geo) mod npugrp geo) addr in
    Some addr.

(** ** Consecutive sectors *)

(** Writes past the end of [addrs] are undefined behaviour. *)
Fixpoint fill_crange_loop (fuel : nat) (i naddrs : Z) (addrs : list nvm_addr)
    : option (list nvm_addr) :=
  if i <? naddrs then
    match fuel with
    | O => None
    | S fuel =>
        prev ← addrs !! Z.to_nat (i - 1);
        _ ← addrs !! Z.to_nat i;
        fill_crange_loop fuel (u32 (i + 1)) naddrs
          (<[Z.to_nat i := set_l_sectr (l_sectr prev + 1) prev]> addrs)
    end
  else Some addrs.

Definition nvm_addr_fill_crange (addrs : list nvm_addr) (addr : nvm_addr) (naddrs : Z)
    : option (list nvm_addr) :=
  _ ← addrs !! 0%nat;
  fill_crange_loop (Z.to_nat naddrs) 1 naddrs (<[0%nat := addr]> addrs).

(** ** Well-formed formats *)

(** A field of a device format: [len] bits from bit [off], holding generic
    values of [cap] bits. *)
Definition field_ok (off len cap : Z) : Prop :=
  0 <= off /\ 0 <= len <= cap /\ off + len <= 64.

Definition apart (f g : Z * Z) : Prop :=
  f.1 + f.2 <= g.1 \/ g.1 + g.2 <= f.1.

Definition bit_mask (off len : Z) : Z := Z.shiftl (Z.ones len) off.

(** The 2.0 format: the fields follow each other from bit 0 up, sector first. *)
Record lba_fmt_ok (dev : nvm_dev) : Prop := {
  lf_verid : verid dev = NVM_SPEC_VERID_20;
  lf_sectr : field_ok (lbaz_sectr (lbaz dev)) (lbaf_sectr (lbaf dev)) 32;
  lf_chunk : field_ok (lbaz_chunk (lbaz dev)) (lbaf_chunk (lbaf dev)) 16;
  lf_punit : field_ok (lbaz_punit (lbaz dev)) (lbaf_punit (lbaf dev)) 8;
  lf_pugrp : field_ok (lbaz_pugrp (lbaz dev)) (lbaf_pugrp (lbaf dev)) 8;
  lf_z0 : lbaz_sectr (lbaz dev) = 0;
  lf_z1 : lbaz_chunk (lbaz dev) = lbaf_sectr (lbaf dev);
  lf_z2 : lbaz_punit (lbaz dev) = lbaz_chunk (lbaz dev) + lbaf_chunk (lbaf dev);
  lf_z3 : lbaz_pugrp (lbaz dev) = lbaz_punit (lbaz dev) + lbaf_punit (lbaf dev);
  lf_m0 : lbam_sectr (lbam dev) = bit_mask (lbaz_sectr (lbaz dev)) (lbaf_sectr (lbaf dev));
  lf_m1 : lbam_chunk (lbam dev) = bit_mask (lbaz_chunk (lbaz dev)) (lbaf_chunk (lbaf dev));
  lf_m2 : lbam_punit (lbam dev) = bit_mask (lbaz_punit (lbaz dev)) (lbaf_punit (lbaf dev));
  lf_m3 : lbam_pugrp (lbam dev) = bit_mask (lbaz_pugrp (lbaz dev)) (lbaf_pugrp (lbaf dev)) }.

(** The 1.2 format: six fields anywhere in the word, pairwise apart. *)
Definition ppaf_fields (p : nvm_spec_ppaf_nand) : list (Z * Z) :=
  [(ch_off p, ch_len p); (lun_off p, lun_len p); (pl_off p, pl_len p);
   (blk_off p, blk_len p); (pg_off p, pg_len p); (sec_off p, sec_len p)].

Record nand_fmt_ok (dev : nvm_dev) : Prop := {
  nf_verid : verid dev <> NVM_SPEC_VERID_20;
  nf_ch : field_ok (ch_off (ppaf dev)) (ch_len (ppaf dev)) 8;
  nf_lun : field_ok (lun_off (ppaf dev)) (lun_len (ppaf dev)) 8;
  nf_pl : field_ok (pl_off (ppaf dev)) (pl_len (ppaf dev)) 8;
  nf_blk : field_ok (blk_off (ppaf dev)) (blk_len (ppaf dev)) 16;
  nf_pg : field_ok (pg_off (ppaf dev)) (pg_len (ppaf dev)) 16;
  nf_sec : field_ok (sec_off (ppaf dev)) (sec_len (ppaf dev)) 8;
  nf_apart : ForallOrdPairs apart (ppaf_fields (ppaf dev));
  nf_mask : mask dev = Mask
    (bit_mask (ch_off (ppaf dev)) (ch_len (ppaf dev)))
    (bit_mask (lun_off (ppaf dev)) (lun_len (ppaf dev)))
    (bit_mask (pl_off (ppaf dev)) (pl_len (ppaf dev)))
    (bit_mask (blk_off (ppaf dev)) (blk_len (ppaf dev)))
    (bit_mask (pg_off (ppaf dev)) (pg_len (ppaf dev)))
    (bit_mask (sec_off (ppaf dev)) (sec_len (ppaf dev))) }.

(** Addresses the format can represent. *)
Definition lba_fits (dev : nvm_dev) (a : nvm_addr) : Prop :=
  l_sectr a < 2 ^ lbaf_sectr (lbaf dev) /\ l_chunk a < 2 ^ lbaf_chunk (lbaf dev) /\
  l_punit a < 2 ^ lbaf_punit (lbaf dev) /\ l_pugrp a < 2 ^ lbaf_pugrp (lbaf dev).

Definition nand_fits (dev : nvm_dev) (a : nvm_addr) : Prop :=
  g_ch a < 2 ^ ch_len (ppaf dev) /\ g_lun a < 2 ^ lun_len (ppaf dev) /\
  g_pl a < 2 ^ pl_len (ppaf dev) /\ g_blk a < 2 ^ blk_len (ppaf dev) /\
  g_pg a < 2 ^ pg_len (ppaf dev) /\ g_sec a < 2 ^ sec_len (ppaf dev).

(** Addresses inside the device's geometry. *)
Definition in_bounds (dev : nvm_dev) (a : nvm_addr) : Prop :=
  if verid dev =? NVM_SPEC_VERID_12 then
    g_ch a < nchannels (geo dev) /\ g_lun a < nluns (geo dev) /\
    g_pl a < nplanes (geo dev) /\ g_blk a < nblocks (geo dev) /\
    g_pg a < npages (geo dev) /\ g_sec a < nsectors (geo dev)
  else
    l_pugrp a < npugrp (geo dev) /\ l_punit a < npunit (geo dev) /\
    l_chunk a < nchunk (geo dev) /\ l_sectr a < nsectr (geo dev).

(** The value a list of fields [((off, len), x)] packs to. *)
Definition pack (l : list (Z * Z * Z)) : Z :=
  foldr (fun f acc => Z.lor (Z.shiftl f.2 f.1.1) acc) 0 l.

Definition packable (l : list (Z * Z * Z)) : Prop :=
  Forall (fun f => 0 <= f.1.1 /\ 0 <= f.1.2 /\ f.1.1 + f.1.2 <= 64 /\ 0 <= f.2 < 2 ^ f.1.2) l.

Definition lba_fields (dev : nvm_dev) (a : nvm_addr) : list (Z * Z * Z) :=
  [(lbaz_pugrp (lbaz dev), lbaf_pugrp (lbaf dev), l_pugrp a);
   (lbaz_punit (lbaz dev), lbaf_punit (lbaf dev), l_punit a);
   (lbaz_chunk (lbaz dev), lbaf_chunk (lbaf dev), l_chunk a);
   (lbaz_sectr (lbaz dev), lbaf_sectr (lbaf dev), l_sectr a)].

Definition nand_fields (dev : nvm_dev) (a : nvm_addr) : list (Z * Z * Z) :=
  [(ch_off (ppaf dev), ch_len (ppaf dev), g_ch a);
   (lun_off (ppaf dev), lun_len (ppaf dev), g_lun a);
   (pl_off (ppaf dev), pl_len (ppaf dev), g_pl a);
   (blk_off (ppaf dev), blk_len (ppaf dev), g_blk a);
   (pg_off (ppaf dev), pg_len (ppaf dev), g_pg a);
   (sec_off (ppaf dev), sec_len (ppaf dev), g_sec a)].

(** ** Packing lemmas *)

Lemma shl64_exact x off len : 0 <= off -> 0 <= len -> off + len <= 64 ->
  0 <= x < 2 ^ len -> shl64 x off = Z.shiftl x off.
Proof. intros. apply wrap_id. by apply (shiftl_range 64 x len off). Qed.

Lemma unpack_mask d off len : 0 <= off -> 0 <= len ->
  unpack d (bit_mask off len) off = bf_get off len d.
Proof. apply mask_shiftr. Qed.

Lemma pack_cons off len x l :
  pack ((off, len, x) :: l) = Z.lor (Z.shiftl x off) (pack l).
Proof. done. Qed.

Lemma pack_range l : packable l -> 0 <= pack l < 2 ^ 64.
Proof.
  induction 1 as [|[[off len] x] l (H1 & H2 & H3 & H4) Hl IH]; [unfold pack; cbn; lia|].
  rewrite pack_cons. cbn [fst snd] in *. apply lor_range; [lia| |done].
  by apply (shiftl_range 64 x len off).
Qed.

Lemma bf_get_pack_apart off len l : 0 <= off -> 0 <= len -> packable l ->
  Forall (fun f => apart (off, len) f.1) l -> bf_get off len (pack l) = 0.
Proof.
  intros Ho Hn Hl. induction Hl as [|[[o n] x] l (H1 & H2 & H3 & H4) Hl IH];
    intros Ha; inversion Ha; subst; [apply bf_get_0|].
  unfold apart in *. cbn [fst snd] in *.
  rewrite pack_cons, bf_get_lor, IH, (bf_get_shiftl_ne _ _ _ n) by done. done.
Qed.

(** Each field of a packed word reads back as packed. *)
Lemma bf_get_pack off len x l : packable l -> ForallOrdPairs apart l.*1 ->
  (off, len, x) ∈ l -> bf_get off len (pack l) = x.
Proof.
  intros Hl. induction Hl as [|[[o n] y] l (H1 & H2 & H3 & H4) Hl IH];
    intros Hp Hin; [by apply elem_of_nil in Hin|].
  cbn [fst snd] in *. inversion Hp as [|? ? Ha Hp']; subst. clear Hp.
  pose proof Hl as Hl'. unfold packable in Hl'.
  rewrite list.Forall_forall in Hl'. pose proof (proj1 (list.Forall_forall _ _) Ha) as Ha'.
  apply elem_of_cons in Hin as [[= -> -> ->]|Hin].
  - rewrite pack_cons, bf_get_lor, bf_get_shiftl by lia.
    rewrite bf_get_pack_apart; [apply Z.lor_0_r|try done..].
    apply Forall_forall. intros f Hf. by apply Ha', list_elem_of_fmap_2.
  - specialize (Hl' _ Hin). cbn in Hl'.
    specialize (Ha' (off, len)). unfold apart in Ha'. cbn [fst snd] in Ha'.
    rewrite pack_cons, bf_get_lor, IH by (done || lia).
    rewrite (bf_get_shiftl_ne _ _ _ n); [done|lia..|].
    enough ((off, len) ∈ l.*1) by intuition lia. by apply (list_elem_of_fmap_2 fst) in Hin.
Qed.

(** ** The two formats as packings *)

Lemma wrap_bf_get w off len d : 0 <= len <= w ->
  wrap w (bf_get off len d) = bf_get off len d.
Proof.
  intros. apply wrap_id. pose proof (bf_get_range off len d).
  assert (2 ^ len <= 2 ^ w) by (apply Z.pow_le_mono_r; lia). lia.
Qed.

Section lba.
Context (dev : nvm_dev) (Hf : lba_fmt_ok dev).

Lemma lba_packable a : lba_fits dev a -> packable (lba_fields dev a).
Proof.
  intros (H1 & H2 & H3 & H4). destruct (l_fields_range a) as (R1 & R2 & R3 & R4).
  destruct Hf. unfold field_ok in *. repeat constructor; cbn; lia.
Qed.

Lemma lba_apart a : ForallOrdPairs apart (lba_fields dev a).*1.
Proof. destruct Hf. unfold field_ok, apart in *. repeat constructor; cbn; lia. Qed.

Lemma gen2dev_pack_lba a : lba_fits dev a ->
  nvm_addr_gen2dev dev a = pack (lba_fields dev a).
Proof.
  intros (H1 & H2 & H3 & H4). destruct (l_fields_range a) as (R1 & R2 & R3 & R4).
  destruct Hf. unfold field_ok in *. unfold nvm_addr_gen2dev.
  rewrite lf_verid0. cbn [Z.eqb Pos.eqb NVM_SPEC_VERID_20].
  rewrite Z.lor_0_l, (shl64_exact (l_pugrp a) _ (lbaf_pugrp (lbaf dev))),
    (shl64_exact (l_punit a) _ (lbaf_punit (lbaf dev))),
    (shl64_exact (l_chunk a) _ (lbaf_chunk (lbaf dev))),
    (shl64_exact (l_sectr a) _ (lbaf_sectr (lbaf dev))) by lia.
  unfold pack, lba_fields. cbn. by rewrite Z.lor_0_r, !Z.lor_assoc.
Qed.

Lemma dev2gen_fields_lba d :
  let a := nvm_addr_dev2gen dev d in
  l_sectr a = bf_get (lbaz_sectr (lbaz dev)) (lbaf_sectr (lbaf dev)) d /\
  l_chunk a = bf_get (lbaz_chunk (lbaz dev)) (lbaf_chunk (lbaf dev)) d /\
  l_punit a = bf_get (lbaz_punit (lbaz dev)) (lbaf_punit (lbaf dev)) d /\
  l_pugrp a = bf_get (lbaz_pugrp (lbaz dev)) (lbaf_pugrp (lbaf dev)) d /\ addr_ok a.
Proof.
  destruct Hf. unfold field_ok in *. unfold nvm_addr_dev2gen.
  rewrite lf_verid0, lf_m4, lf_m5, lf_m6, lf_m7. cbn [Z.eqb Pos.eqb NVM_SPEC_VERID_20].
  cbn zeta. rewrite !unpack_mask by lia.
  repeat split; addr_simpl; try (apply wrap_bf_get; lia); addr_wf.
Qed.
End lba.

Section nand.
Context (dev : nvm_dev) (Hf : nand_fmt_ok dev).

Lemma nand_packable a : nand_fits dev a -> packable (nand_fields dev a).
Proof.
  intros (H1 & H2 & H3 & H4 & H5 & H6).
  destruct (g_fields_range a) as [(R1 & R2 & R3) (R4 & R5 & R6)].
  destruct Hf. unfold field_ok in *. repeat constructor; cbn; lia.
Qed.

Lemma nand_apart a : ForallOrdPairs apart (nand_fields dev a).*1.
Proof. apply Hf. Qed.

Lemma nand_verid : (verid dev =? NVM_SPEC_VERID_20) = false.
Proof. apply Z.eqb_neq, Hf. Qed.

Lemma gen2dev_pack_nand a : nand_fits dev a ->
  nvm_addr_gen2dev dev a = pack (nand_fields dev a).
Proof.
  intros (H1 & H2 & H3 & H4 & H5 & H6).
  destruct (g_fields_range a) as [(R1 & R2 & R3) (R4 & R5 & R6)].
  unfold nvm_addr_gen2dev. rewrite nand_verid. destruct Hf. unfold field_ok in *. cbn zeta.
  rewrite Z.lor_0_l, (shl64_exact (g_ch a) _ (ch_len (ppaf dev))),
    (shl64_exact (g_lun a) _ (lun_len (ppaf dev))),
    (shl64_exact (g_pl a) _ (pl_len (ppaf dev))),
    (shl64_exact (g_blk a) _ (blk_len (ppaf dev))),
    (shl64_exact (g_pg a) _ (pg_len (ppaf dev))),
    (shl64_exact (g_sec a) _ (sec_len (ppaf dev))) by lia.
  unfold pack, nand_fields. cbn. by rewrite Z.lor_0_r, !Z.lor_assoc.
Qed.

Lemma dev2gen_fields_nand d :
  let a := nvm_addr_dev2gen dev d in
  (g_sec a = bf_get (sec_off (ppaf dev)) (sec_len (ppaf dev)) d /\
   g_pg a = bf_get (pg_off (ppaf dev)) (pg_len (ppaf dev)) d /\
   g_pl a = bf_get (pl_off (ppaf dev)) (pl_len (ppaf dev)) d /\
   g_blk a = bf_get (blk_off (ppaf dev)) (blk_len (ppaf dev)) d) /\
  g_lun a = bf_get (lun_off (ppaf dev)) (lun_len (ppaf dev)) d /\
  g_ch a = bf_get (ch_off (ppaf dev)) (ch_len (ppaf dev)) d /\ addr_ok a.
Proof.
  unfold nvm_addr_dev2gen. rewrite nand_verid. destruct Hf. unfold field_ok in *.
  rewrite nf_mask0. cbn. rewrite !unpack_mask by lia.
  repeat split; addr_simpl; try (apply wrap_bf_get; lia); addr_wf.
Qed.
End nand.

(** Conversion to the device format loses nothing the format can represent. *)
Lemma dev2gen_gen2dev_lba dev a : lba_fmt_ok dev -> addr_ok a -> lba_fits dev a ->
  nvm_addr_dev2gen dev (nvm_addr_gen2dev dev a) = a.
Proof.
  intros Hf Ha Hfit.
  pose proof (lba_packable _ Hf _ Hfit) as Hp. pose proof (lba_apart _ Hf a) as Hap.
  destruct (dev2gen_fields_lba _ Hf (nvm_addr_gen2dev dev a)) as (E1 & E2 & E3 & E4 & E5).
  rewrite (gen2dev_pack_lba _ Hf _ Hfit) in *.
  apply addr_ext_l; [done..| | | |]; rewrite ?E1, ?E2, ?E3, ?E4;
    apply bf_get_pack; try done; unfold lba_fields; in_list.
Qed.

Lemma dev2gen_gen2dev_nand dev a : nand_fmt_ok dev -> addr_ok a -> nand_fits dev a ->
  nvm_addr_dev2gen dev (nvm_addr_gen2dev dev a) = a.
Proof.
  intros Hf Ha Hfit.
  pose proof (nand_packable _ Hf _ Hfit) as Hp. pose proof (nand_apart _ Hf a) as Hap.
  destruct (dev2gen_fields_nand _ Hf (nvm_addr_gen2dev dev a))
    as ((E1 & E2 & E3 & E4) & E5 & E6 & E7).
  rewrite (gen2dev_pack_nand _ Hf _ Hfit) in *.
  apply addr_ext_g; [done..| | | | | |]; rewrite ?E1, ?E2, ?E3, ?E4, ?E5, ?E6;
    apply bf_get_pack; try done; unfold nand_fields; in_list.
Qed.

Lemma pack_bound n l : 0 <= n -> packable l -> Forall (fun f => f.1.1 + f.1.2 <= n) l ->
  0 <= pack l < 2 ^ n.
Proof.
  intros Hn. induction 1 as [|[[off len] x] l (H1 & H2 & H3 & H4) Hl IH]; intros Hb.
  - unfold pack. cbn. lia.
  - inversion Hb; subst. rewrite pack_cons. cbn [fst snd] in *.
    apply lor_range; [done| |by apply IH]. by apply (shiftl_range n x len off).
Qed.

Definition lba_width (dev : nvm_dev) : Z :=
  lbaf_sectr (lbaf dev) + lbaf_chunk (lbaf dev) + lbaf_punit (lbaf dev) + lbaf_pugrp (lbaf dev).

Lemma lba_bound dev a : lba_fmt_ok dev -> lba_fits dev a ->
  0 <= nvm_addr_gen2dev dev a < 2 ^ lba_width dev.
Proof.
  intros Hf Hfit. rewrite (gen2dev_pack_lba _ Hf _ Hfit).
  pose proof (lba_packable _ Hf _ Hfit). destruct Hf. unfold field_ok, lba_width in *.
  apply pack_bound; [lia|done|]. repeat constructor; cbn; lia.
Qed.

Lemma dev2gen_fits_lba dev d : lba_fmt_ok dev -> lba_fits dev (nvm_addr_dev2gen dev d).
Proof.
  intros Hf. destruct (dev2gen_fields_lba _ Hf d) as (E1 & E2 & E3 & E4 & _).
  unfold lba_fits. rewrite E1, E2, E3, E4. destruct Hf. unfold field_ok in *.
  repeat split; apply bf_get_range; lia.
Qed.

(** Every device address of the format's width is that of a generic address. *)
Lemma gen2dev_dev2gen_lba dev d : lba_fmt_ok dev -> 0 <= d < 2 ^ lba_width dev ->
  nvm_addr_gen2dev dev (nvm_addr_dev2gen dev d) = d.
Proof.
  intros Hf Hd. pose proof (dev2gen_fits_lba _ d Hf) as Hfit.
  pose proof (lba_bound _ _ Hf Hfit) as Hb.
  pose proof (lba_packable _ Hf _ Hfit) as Hp.
  pose proof (lba_apart _ Hf (nvm_addr_dev2gen dev d)) as Hap.
  destruct (dev2gen_fields_lba _ Hf d) as (E1 & E2 & E3 & E4 & _).
  revert Hb. rewrite (gen2dev_pack_lba _ Hf _ Hfit). intros Hb.
  assert (G : forall off len x, (off, len, x) ∈ lba_fields dev (nvm_addr_dev2gen dev d) ->
    bf_get off len (pack (lba_fields dev (nvm_addr_dev2gen dev d))) = x)
    by (intros; by apply bf_get_pack).
  destruct Hf. unfold field_ok in *.
  set (p := pack _) in *. assert (0 <= lba_width dev) by (unfold lba_width; lia).
  rewrite <-(bf_get_id (lba_width dev) p) by done.
  transitivity (bf_get 0 (lba_width dev) d); [|by apply bf_get_id].
  unfold lba_width.
  apply bf_split; [lia..| |].
  1: apply bf_split; [lia..| |].
  1: apply bf_split; [lia..| |].
  - rewrite <-lf_z4. rewrite <-E1. apply G. unfold lba_fields; in_list.
  - rewrite Z.add_0_l, <-lf_z5, <-E2. apply G. unfold lba_fields; in_list.
  - replace (0 + _) with (lbaz_punit (lbaz dev)) by lia.
    rewrite <-E3. apply G. unfold lba_fields; in_list.
  - replace (0 + _) with (lbaz_pugrp (lbaz dev)) by lia.
    rewrite <-E4. apply G. unfold lba_fields; in_list.
Qed.

Lemma lor_low w a x : 0 <= w -> bf_get 0 w a = 0 -> 0 <= x < 2 ^ w ->
  Z.lor a x = a + x.
Proof.
  intros Hw Ha Hx. symmetry. apply Z.add_nocarry_lor, Z.bits_inj'. intros i Hi.
  rewrite Z.land_spec, Z.testbit_0_l. destruct (Z.lt_ge_cases i w).
  - rewrite (bf_testbit 0 w a) by lia. by rewrite Ha, Z.testbit_0_l.
  - rewrite (testbit_hi x w) by done. apply andb_false_r.
Qed.

(** Only the fields count. *)
Lemma gen2dev_fields dev a b : verid dev = NVM_SPEC_VERID_20 -> l_pugrp a = l_pugrp b ->
  l_punit a = l_punit b -> l_chunk a = l_chunk b -> l_sectr a = l_sectr b ->
  nvm_addr_gen2dev dev a = nvm_addr_gen2dev dev b.
Proof. intros Hv E1 E2 E3 E4. unfold nvm_addr_gen2dev. by rewrite Hv, E1, E2, E3, E4. Qed.

(** Shifting a device address loses nothing when it fits. *)
Lemma gen2off_exact dev a : lba_fmt_ok dev -> lba_fits dev a -> 0 <= ssw dev -> lba_width dev + ssw dev <= 64 ->
  nvm_addr_gen2off dev a = nvm_addr_gen2dev dev a * 2 ^ ssw dev.
Proof.
  intros Hf Hfit Hw Hoff. pose proof (lba_bound _ _ Hf Hfit).
  assert (0 <= lba_width dev) by (destruct Hf; unfold field_ok, lba_width in *; lia).
  rewrite <-Z.shiftl_mul_pow2 by done. apply (shl64_exact _ _ (lba_width dev)); lia.
Qed.

(** Device addresses run with the sector. *)
Lemma gen2dev_sectr dev a x : lba_fmt_ok dev -> lba_fits dev a ->
  0 <= x < 2 ^ lbaf_sectr (lbaf dev) ->
  nvm_addr_gen2dev dev (set_l_sectr x a) = nvm_addr_gen2dev dev (set_l_sectr 0 a) + x.
Proof.
  intros Hf Hfit Hx. pose proof Hf as []. unfold field_ok in *.
  assert (2 ^ lbaf_sectr (lbaf dev) <= 2 ^ 32) by (apply Z.pow_le_mono_r; lia).
  assert (0 < 2 ^ lbaf_sectr (lbaf dev)) by lia.
  assert (F : forall y, 0 <= y < 2 ^ lbaf_sectr (lbaf dev) ->
    lba_fits dev (set_l_sectr y a) /\
    lba_fields dev (set_l_sectr y a) =
      take 3 (lba_fields dev a) ++ [(0, lbaf_sectr (lbaf dev), y)]).
  { intros y Hy. unfold lba_fits, lba_fields in *. cbn. rewrite lf_z4. addr_simpl.
    rewrite wrap_id by lia. intuition lia. }
  assert (G : forall y, 0 <= y < 2 ^ lbaf_sectr (lbaf dev) ->
    nvm_addr_gen2dev dev (set_l_sectr y a) = pack (take 3 (lba_fields dev a)) + y).
  { intros y Hy. destruct (F y Hy) as [F1 F2].
    rewrite gen2dev_pack_lba, F2, <-(lor_low (lbaf_sectr (lbaf dev))); [|lia| |done..].
    - unfold pack, lba_fields. cbn. by rewrite Z.shiftl_0_r, !Z.lor_0_r, !Z.lor_assoc.
    - apply bf_get_pack_apart; [lia..| |].
      + by apply Forall_take, lba_packable.
      + repeat constructor; unfold apart; cbn; lia. }
  rewrite !G by lia. lia.
Qed.

(** ** Bounds *)

Lemma bound_testbit x n flag e k : 
  Z.testbit (bound x n flag e) k = (Z.testbit e k || ((n <=? x) && Z.testbit flag k))%bool.
Proof.
  unfold bound. destruct (n <=? x); [apply Z.lor_spec|]. by rewrite orb_false_r.
Qed.

Lemma bound_0 x n flag e : flag <> 0 -> bound x n flag e = 0 <-> e = 0 /\ x < n.
Proof.
  intros. unfold bound. destruct (Z.leb_spec n x); [|intuition lia].
  rewrite Z.lor_eq_0_iff. intuition lia.
Qed.

(** The check on a supported version: nothing but the result. *)
Lemma addr_check_ok {W} a dev (s : sys W) :
  (verid dev = NVM_SPEC_VERID_12 \/ verid dev = NVM_SPEC_VERID_20) ->
  exists r, nvm_addr_check a dev s = Some (r, s) /\ (r = 0 <-> in_bounds dev a).
Proof.
  intros Hv. unfold nvm_addr_check, in_bounds. destruct Hv as [->| ->]; cbn;
    (eexists; split; [reflexivity|]); rewrite !bound_0 by done; tauto.
Qed.

(** ** Log page offsets *)

Definition geo_counts_ok (g : nvm_geo) : Prop :=
  0 < npugrp g <= 2 ^ 8 /\ 0 < npunit g <= 2 ^ 8 /\ 0 < nchunk g <= 2 ^ 16.

Definition chunk_idx (g : nvm_geo) (a : nvm_addr) : Z :=
  (l_pugrp a * npunit g + l_punit a) * nchunk g + l_chunk a.

Lemma chunk_idx_bound dev a : verid dev = NVM_SPEC_VERID_20 -> in_bounds dev a ->
  geo_counts_ok (geo dev) ->
  0 <= chunk_idx (geo dev) a < npugrp (geo dev) * npunit (geo dev) * nchunk (geo dev) /\
  npugrp (geo dev) * npunit (geo dev) * nchunk (geo dev) <= 2 ^ 32.
Proof.
  intros Hv Hb (H1 & H2 & H3). unfold in_bounds in Hb. rewrite Hv in Hb. cbn in Hb.
  destruct Hb as (B1 & B2 & B3 & B4).
  destruct (l_fields_range a) as (R1 & R2 & R3 & R4). unfold chunk_idx.
  set (c := l_chunk a) in *. set (u := l_punit a) in *. set (g := l_pugrp a) in *.
  set (nc := nchunk _) in *. set (nu := npunit _) in *. set (ng := npugrp _) in *.
  assert (g * nu + u < ng * nu) by nia. assert (0 <= g * nu + u) by nia.
  assert (ng * nu <= 2 ^ 16) by nia. split; [split|]; nia.
Qed.

Lemma gen2lpo_idx dev a : verid dev = NVM_SPEC_VERID_20 -> in_bounds dev a ->
  geo_counts_ok (geo dev) -> nvm_addr_gen2lpo dev a = chunk_idx (geo dev) a * SIZEOF_DESCR.
Proof.
  intros Hv Hb Hg. destruct (chunk_idx_bound _ _ Hv Hb Hg) as [Hi Hm].
  destruct Hg as (H1 & H2 & H3). unfold in_bounds in Hb. rewrite Hv in Hb. cbn in Hb.
  destruct (l_fields_range a) as (R1 & R2 & R3 & R4).
  unfold nvm_addr_gen2lpo, chunk_idx, SIZEOF_DESCR in *. cbn zeta.
  set (c := l_chunk a) in *. set (u := l_punit a) in *. set (g := l_pugrp a) in *.
  set (nc := nchunk _) in *. set (nu := npunit _) in *. set (ng := npugrp _) in *.
  assert (0 <= g * nu) by nia. assert (0 <= g * nu * nc) by nia.
  assert (0 <= u * nc) by nia. assert (g * nu * nc + u * nc + c < 2 ^ 32) by nia.
  rewrite (wrap_id 64 (g * nu)), (wrap_id 64 (g * nu * nc)), (wrap_id 64 (u * nc)),
    (wrap_id 64 (0 + _)), (wrap_id 64 (0 + _ + _)), (wrap_id 64 (0 + _ + _ + _)), wrap_id by nia.
  ring.
Qed.

Lemma lpo2gen_idx dev i : geo_counts_ok (geo dev) ->
  0 <= i < npugrp (geo dev) * npunit (geo dev) * nchunk (geo dev) ->
  exists a, nvm_addr_lpo2gen dev (i * SIZEOF_DESCR) = Some a /\ addr_ok a /\
    l_sectr a = 0 /\ l_chunk a = i mod nchunk (geo dev) /\
    l_punit a = (i / nchunk (geo dev)) mod npunit (geo dev) /\
    l_pugrp a = (i / nchunk (geo dev)) / npunit (geo dev) /\
    l_pugrp a < npugrp (geo dev).
Proof.
  intros (H1 & H2 & H3) Hi. unfold nvm_addr_lpo2gen, SIZEOF_DESCR. cbn zeta.
  rewrite Z.div_mul by lia.
  set (nc := nchunk _) in *. set (nu := npunit _) in *. set (ng := npugrp _) in *.
  rewrite (proj2 (Z.eqb_neq nc 0)), (proj2 (Z.eqb_neq nu 0)), (proj2 (Z.eqb_neq ng 0)) by lia.
  cbn [orb]. eexists. split; [reflexivity|].
  pose proof (Z.mod_pos_bound i nc). pose proof (Z.mod_pos_bound (i / nc) nu).
  assert (i / nc < ng * nu) by (apply Z.div_lt_upper_bound; lia).
  assert (i / nc / nu < ng) by (apply Z.div_lt_upper_bound; lia).
  assert (0 <= i / nc / nu) by (apply Z.div_pos; [apply Z.div_pos|]; lia).
  split; [addr_wf|]. addr_simpl.
  rewrite (Z.mod_small (i / nc / nu)), !wrap_id by lia. lia.
Qed.

(** ** Consecutive sectors *)

Definition sectr_at (addr : nvm_addr) (k : Z) : nvm_addr :=
  set_l_sectr (l_sectr addr + k) addr.

Lemma sectr_at_ok addr k : addr_ok addr -> addr_ok (sectr_at addr k).
Proof. intros. unfold sectr_at. addr_wf. Qed.

Lemma sectr_at_fields addr k : l_sectr (sectr_at addr k) = u32 (l_sectr addr + k) /\
  l_chunk (sectr_at addr k) = l_chunk addr /\ l_punit (sectr_at addr k) = l_punit addr /\
  l_pugrp (sectr_at addr k) = l_pugrp addr.
Proof. unfold sectr_at. by addr_simpl. Qed.

Lemma sectr_at_0 addr : addr_ok addr -> sectr_at addr 0 = addr.
Proof.
  intros H. destruct (sectr_at_fields addr 0) as (E1 & E2 & E3 & E4).
  apply addr_ext_l; [by apply sectr_at_ok|done|rewrite E1|done..].
  rewrite Z.add_0_r. apply wrap_id. apply bf_get_range. lia.
Qed.

Lemma sectr_at_S addr k : addr_ok addr ->
  set_l_sectr (l_sectr (sectr_at addr k) + 1) (sectr_at addr k) = sectr_at addr (k + 1).
Proof.
  intros H. pose proof (sectr_at_ok addr k H). pose proof (sectr_at_ok addr (k + 1) H).
  destruct (sectr_at_fields addr k) as (E1 & E2 & E3 & E4).
  destruct (sectr_at_fields addr (k + 1)) as (F1 & F2 & F3 & F4).
  apply addr_ext_l; [addr_wf|done|..].
  - rewrite F1, E1. unfold set_l_sectr at 1, l_sectr at 1. rewrite bf_get_set by lia.
    unfold wrap. rewrite Z.add_mod_idemp_l by lia. f_equal. lia.
  - rewrite F2, <-E2. by addr_simpl.
  - rewrite F3, <-E3. by addr_simpl.
  - rewrite F4, <-E4. by addr_simpl.
Qed.

Lemma crange_loop addr naddrs post : addr_ok addr -> naddrs < 2 ^ 32 ->
  forall n fuel k, Z.of_nat n = naddrs - k -> 1 <= k -> (n <= fuel)%nat -> 
  forall mid, length mid = n ->
  fill_crange_loop fuel k naddrs ((sectr_at addr <$> seqZ 0 k) ++ mid ++ post) =
    Some ((sectr_at addr <$> seqZ 0 (k + Z.of_nat n)) ++ post).
Proof.
  intros Ha Hm. induction n as [|n IH]; intros fuel k Hn Hk Hf mid Hl.
  - destruct mid; [|done]. rewrite Z.add_0_r. cbn [app].
    destruct fuel; cbn [fill_crange_loop]; by rewrite (proj2 (Z.ltb_ge k naddrs)) by lia.
  - destruct fuel as [|fuel]; [lia|]. destruct mid as [|x mid]; [done|].
    injection Hl as Hl. cbn [fill_crange_loop].
    rewrite (proj2 (Z.ltb_lt k naddrs)) by lia.
    assert (L : length (sectr_at addr <$> seqZ 0 k) = Z.to_nat k)
      by (rewrite length_fmap, length_seqZ; lia).
    rewrite (lookup_app_l _ _ (Z.to_nat (k - 1))) by (rewrite L; lia).
    rewrite list_lookup_fmap, (lookup_seqZ_lt 0 k (Z.to_nat (k - 1))) by lia.
    cbn [fmap option_fmap option_map mbind option_bind].
    rewrite lookup_app_r by lia. rewrite L, Nat.sub_diag. cbn.
    rewrite insert_app_r_alt, L, Nat.sub_diag by lia. cbn.
    replace (Z.of_nat (Z.to_nat (k - 1))) with (k - 1) by lia.
    rewrite wrap_id by lia. rewrite sectr_at_S by done.
    specialize (IH fuel (k + 1) ltac:(lia) ltac:(lia) ltac:(lia) mid Hl).
    replace (k + Z.of_nat (S n)) with (k + 1 + Z.of_nat n) by lia. rewrite <-IH.
    f_equal. rewrite (seqZ_app 0 k 1) by lia. rewrite fmap_app, <-app_assoc. 
    by replace (0 + (k - 1) + 1) with k by lia.
Qed.

(** ** Properties *)

(** The bounds check of a 1.2 or 2.0 device never touches [errno] or any
    other state; it answers 0 exactly on the addresses inside the geometry,
    and otherwise the set of the bounds exceeded, one bit per coordinate. On
    any other version it answers -1 with [EINVAL]. *)
Theorem nvm_addr_check_correct W (a : nvm_addr) dev (s : sys W) :
  (verid dev = NVM_SPEC_VERID_12 ->
     exists r, nvm_addr_check a dev s = Some (r, s) /\ (r = 0 <-> in_bounds dev a) /\
       Z.testbit r 0 = (nchannels (geo dev) <=? g_ch a) /\
       Z.testbit r 1 = (nluns (geo dev) <=? g_lun a) /\
       Z.testbit r 2 = (nplanes (geo dev) <=? g_pl a) /\
       Z.testbit r 3 = (nblocks (geo dev) <=? g_blk a) /\
       Z.testbit r 4 = (npages (geo dev) <=? g_pg a) /\
       Z.testbit r 5 = (nsectors (geo dev) <=? g_sec a)) /\
  (verid dev = NVM_SPEC_VERID_20 ->
     exists r, nvm_addr_check a dev s = Some (r, s) /\ (r = 0 <-> in_bounds dev a) /\
       Z.testbit r 6 = (npugrp (geo dev) <=? l_pugrp a) /\
       Z.testbit r 7 = (npunit (geo dev) <=? l_punit a) /\
       Z.testbit r 8 = (nchunk (geo dev) <=? l_chunk a) /\
       Z.testbit r 9 = (nsectr (geo dev) <=? l_sectr a)) /\
  (verid dev <> NVM_SPEC_VERID_12 -> verid dev <> NVM_SPEC_VERID_20 ->
     nvm_addr_check a dev s = Some (-1, Sys EINVAL (hp s) (world s))).
Proof.
  split; [|split].
  - intros Hv. destruct (addr_check_ok a dev s (or_introl Hv)) as (r & Hr & Hr0).
    exists r. split; [done|]. split; [done|].
    unfold nvm_addr_check in Hr. rewrite Hv in Hr. injection Hr as <-.
    rewrite !bound_testbit. cbn. rewrite !andb_false_r, !orb_false_r, !andb_true_r. done.
  - intros Hv. destruct (addr_check_ok a dev s (or_intror Hv)) as (r & Hr & Hr0).
    exists r. split; [done|]. split; [done|].
    unfold nvm_addr_check in Hr. rewrite Hv in Hr. injection Hr as <-.
    rewrite !bound_testbit. cbn. rewrite !andb_false_r, !orb_false_r, !andb_true_r. done.
  - intros H1 H2. unfold nvm_addr_check.
    by rewrite (proj2 (Z.eqb_neq _ _) H1), (proj2 (Z.eqb_neq _ _) H2).
Qed.

(** C22: on a 2.0 device with a well-formed format, generic and device
    addresses are in bijection: every generic address that fits the format
    converts to a device address of the format's width and back to itself, and
    every device address of that width converts to a generic address and back. *)
Theorem lba_roundtrip dev (Hf : lba_fmt_ok dev) :
  (forall a, addr_ok a -> lba_fits dev a ->
     0 <= nvm_addr_gen2dev dev a < 2 ^ lba_width dev /\
     nvm_addr_dev2gen dev (nvm_addr_gen2dev dev a) = a) /\
  (forall d, 0 <= d < 2 ^ lba_width dev ->
     lba_fits dev (nvm_addr_dev2gen dev d) /\
     nvm_addr_gen2dev dev (nvm_addr_dev2gen dev d) = d).
Proof.
  split.
  - intros a Ha Hfit. split; [by apply lba_bound|by apply dev2gen_gen2dev_lba].
  - intros d Hd. split; [by apply dev2gen_fits_lba|by apply gen2dev_dev2gen_lba].
Qed.

(** C36: on a 1.2 device whose six fields lie apart in the word, in whatever
    order, every generic address that fits the format is recovered from its
    device address; so two such addresses never share a device address. *)
Theorem nand_roundtrip dev (Hf : nand_fmt_ok dev) a b
  (Ha : addr_ok a) (Hb : addr_ok b) (Hfa : nand_fits dev a) (Hfb : nand_fits dev b) :
  nvm_addr_dev2gen dev (nvm_addr_gen2dev dev a) = a /\
  (nvm_addr_gen2dev dev a = nvm_addr_gen2dev dev b -> a = b).
Proof.
  split; [by apply dev2gen_gen2dev_nand|]. intros E.
  rewrite <-(dev2gen_gen2dev_nand dev a), <-(dev2gen_gen2dev_nand dev b) by done.
  by rewrite E.
Qed.

(** The byte offset of an address maps back to the address, both through
    the generic format and through the device format, as long as the shifted
    device address still fits 64 bits. *)
Theorem off_roundtrip dev a (Hf : lba_fmt_ok dev) (Ha : addr_ok a) (Hfit : lba_fits dev a)
  (Hw : 0 <= ssw dev) (Hoff : lba_width dev + ssw dev <= 64) :
  nvm_addr_gen2off dev a = nvm_addr_gen2dev dev a * 2 ^ ssw dev /\
  nvm_addr_off2gen dev (nvm_addr_gen2off dev a) = a /\
  nvm_addr_dev2off dev (nvm_addr_gen2dev dev a) = nvm_addr_gen2off dev a /\
  nvm_addr_off2dev dev (nvm_addr_gen2off dev a) = nvm_addr_gen2dev dev a.
Proof.
  pose proof (gen2off_exact dev a Hf Hfit Hw Hoff) as E. rewrite <-Z.shiftl_mul_pow2 in E by done.
  assert (E' : nvm_addr_off2dev dev (nvm_addr_gen2off dev a) = nvm_addr_gen2dev dev a).
  { unfold nvm_addr_off2dev. rewrite E, Z.shiftr_shiftl_l, Z.sub_diag by done. apply Z.shiftl_0_r. }
  split; [by rewrite E, Z.shiftl_mul_pow2|]. split; [|by split].
  unfold nvm_addr_off2gen. unfold nvm_addr_off2dev in E'. rewrite E'.
  by apply dev2gen_gen2dev_lba.
Qed.

(** Chunk-descriptor log page offsets and chunks are in bijection: the
    offset of an address in bounds is 32 bytes times the index of its chunk,
    lies inside the report of the whole device and maps back to the first
    sector of that chunk; and the offset of every descriptor comes from the
    chunk it maps to. *)
Theorem lpo_roundtrip dev (Hv : verid dev = NVM_SPEC_VERID_20) (Hg : geo_counts_ok (geo dev)) :
  let total := npugrp (geo dev) * npunit (geo dev) * nchunk (geo dev) in
  (forall a, addr_ok a -> in_bounds dev a ->
     0 <= nvm_addr_gen2lpo dev a < total * SIZEOF_DESCR /\
     nvm_addr_lpo2gen dev (nvm_addr_gen2lpo dev a) = Some (set_l_sectr 0 a)) /\
  (forall i, 0 <= i < total -> 0 < nsectr (geo dev) ->
     exists a, nvm_addr_lpo2gen dev (i * SIZEOF_DESCR) = Some a /\ in_bounds dev a /\
       nvm_addr_gen2lpo dev a = i * SIZEOF_DESCR).
Proof.
  intros total. split.
  - intros a Ha Hb. destruct (chunk_idx_bound _ _ Hv Hb Hg) as [Hi _].
    rewrite gen2lpo_idx by done. split; [unfold SIZEOF_DESCR, total; lia|].
    destruct (lpo2gen_idx _ _ Hg Hi) as (b & -> & Hok & E1 & E2 & E3 & E4 & E5). f_equal.
    destruct Hg as (G1 & G2 & G3). unfold in_bounds in Hb. rewrite Hv in Hb. cbn in Hb.
    destruct Hb as (B1 & B2 & B3 & B4). destruct (l_fields_range a) as (R1 & R2 & R3 & R4).
    assert (Hq : chunk_idx (geo dev) a / nchunk (geo dev) =
      l_pugrp a * npunit (geo dev) + l_punit a)
      by (unfold chunk_idx; rewrite Z.div_add_l, Z.div_small by lia; lia).
    apply addr_ext_l; [done|addr_wf|..].
    + rewrite E1. by addr_simpl.
    + rewrite E2. unfold chunk_idx. rewrite Z.add_comm, Z.mod_add, Z.mod_small by lia.
      by addr_simpl.
    + rewrite E3, Hq, Z.add_comm, Z.mod_add, Z.mod_small by lia. by addr_simpl.
    + rewrite E4, Hq, Z.div_add_l, Z.div_small by lia. rewrite Z.add_0_r. by addr_simpl.
  - intros i Hi Hn. destruct (lpo2gen_idx _ _ Hg Hi) as (a & -> & Hok & E1 & E2 & E3 & E4 & E5).
    exists a. destruct Hg as (G1 & G2 & G3).
    assert (Hb : in_bounds dev a).
    { unfold in_bounds. rewrite Hv. cbn. rewrite E1, E2, E3.
      pose proof (Z.mod_pos_bound i (nchunk (geo dev))).
      pose proof (Z.mod_pos_bound (i / nchunk (geo dev)) (npunit (geo dev))). lia. }
    split; [done|]. split; [done|]. rewrite gen2lpo_idx by done. f_equal.
    unfold chunk_idx. rewrite E2, E3, E4.
    pose proof (Z.div_mod i (nchunk (geo dev))).
    pose proof (Z.div_mod (i / nchunk (geo dev)) (npunit (geo dev))). lia.
Qed.

(** Filling a range of consecutive sectors writes [addr] to the first
    entry and each next sector to the next entry, [naddrs] of them (never
    fewer than one), and leaves the rest of the array as it was. *)
Theorem fill_crange_correct addrs addr naddrs
  (Ha : addr_ok addr) (Hn : 0 <= naddrs < 2 ^ 32)
  (Hl : Z.max 1 naddrs <= Z.of_nat (length addrs)) :
  nvm_addr_fill_crange addrs addr naddrs =
    Some ((sectr_at addr <$> seqZ 0 (Z.max 1 naddrs)) ++ drop (Z.to_nat (Z.max 1 naddrs)) addrs) /\
  (forall k, 0 <= k -> l_sectr addr + k < 2 ^ 32 -> l_sectr (sectr_at addr k) = l_sectr addr + k).
Proof.
  split.
  - unfold nvm_addr_fill_crange. destruct addrs as [|x addrs]; [cbn in Hl; lia|]. cbn.
    assert (E : [addr] = sectr_at addr <$> seqZ 0 1) by (change (seqZ 0 1) with [0]; cbn [fmap list_fmap]; by rewrite sectr_at_0).
    cbn in Hl.
    pose proof (crange_loop addr naddrs (drop (Z.to_nat (Z.max 1 naddrs) - 1) addrs) Ha
      ltac:(lia) (Z.to_nat (naddrs - 1))) as L.
    destruct (Z.le_gt_cases 1 naddrs) as [H1|H1].
    + specialize (L (Z.to_nat naddrs) 1 ltac:(lia) ltac:(lia) ltac:(lia)
        (take (Z.to_nat (Z.max 1 naddrs) - 1) addrs)).
      rewrite take_drop, <-E in L. cbn [app] in L. rewrite L by (rewrite length_take; lia).
      replace (1 + Z.of_nat (Z.to_nat (naddrs - 1))) with (Z.max 1 naddrs) by lia.
      replace (Z.to_nat (Z.max 1 naddrs)) with (S (Z.to_nat (Z.max 1 naddrs) - 1)) at 2 by lia.
      done.
    + replace naddrs with 0 by lia. change (Z.max 1 0) with 1. rewrite <-E. done.
  - intros k H1 H2. destruct (sectr_at_fields addr k) as (-> & _).
    apply wrap_id. destruct (l_fields_range addr). lia.
Qed.

(** ** Witnesses *)

Lemma sample20_fmt : lba_fmt_ok sample20.
Proof. constructor; unfold field_ok; cbn; lia || reflexivity. Qed.

Lemma sample12_fmt : nand_fmt_ok sample12.
Proof.
  constructor; unfold field_ok; cbn; try lia; try reflexivity; [by vm_compute|].
  unfold ppaf_fields.
  repeat match goal with
         | |- ForallOrdPairs _ _ => constructor
         | |- List.Forall _ _ => constructor
         end; unfold apart; cbn; lia.
Qed.

Definition sample_lba : nvm_addr := 0x0703011100000FF0.
Definition sample_nand : nvm_addr := 0x0F07011101010203.

Lemma sample_lba_fits : lba_fits sample20 sample_lba.
Proof. unfold lba_fits. vm_compute. auto. Qed.

Lemma sample_nand_fits : nand_fits sample12 sample_nand.
Proof. unfold nand_fits. vm_compute. tauto. Qed.

Lemma lba_roundtrip_witness :
  nvm_addr_dev2gen sample20 (nvm_addr_gen2dev sample20 sample_lba) = sample_lba /\
  nvm_addr_gen2dev sample20 (nvm_addr_dev2gen sample20 0x1FFFFFFF) = 0x1FFFFFFF.
Proof.
  split.
  - apply (proj1 (lba_roundtrip sample20 sample20_fmt));
      [unfold addr_ok, sample_lba; lia|apply sample_lba_fits].
  - apply (proj2 (lba_roundtrip sample20 sample20_fmt)). by_eval.
Defined.

Lemma nand_roundtrip_witness :
  nvm_addr_dev2gen sample12 (nvm_addr_gen2dev sample12 sample_nand) = sample_nand.
Proof.
  apply (nand_roundtrip sample12 sample12_fmt sample_nand sample_nand);
    try apply sample_nand_fits; unfold addr_ok, sample_nand; lia.
Defined.

Lemma off_roundtrip_witness :
  nvm_addr_off2gen sample20 (nvm_addr_gen2off sample20 sample_lba) = sample_lba.
Proof.
  apply (off_roundtrip sample20 sample_lba sample20_fmt);
    [unfold addr_ok, sample_lba; lia|apply sample_lba_fits|by_eval|by_eval].
Defined.

Lemma lpo_roundtrip_witness :
  nvm_addr_lpo2gen sample20 (nvm_addr_gen2lpo sample20 sample_lba) =
    Some (set_l_sectr 0 sample_lba).
Proof.
  apply (proj1 (lpo_roundtrip sample20 eq_refl ltac:(by_eval)));
    [unfold addr_ok, sample_lba; lia|vm_compute; auto].
Defined.

Lemma fill_crange_witness :
  nvm_addr_fill_crange [0; 0; 0; 9] sample_lba 3 =
    Some [sample_lba; sample_lba + 1; sample_lba + 2; 9].
Proof.
  etransitivity; [apply (fill_crange_correct [0; 0; 0; 9] sample_lba 3)|vm_compute; reflexivity].
  - unfold addr_ok, sample_lba. lia.
  - lia.
  - cbn. lia.
Defined.
