(* ===== verification/Dev.v ===== *)
(** Attributes of a device handle, [src/nvm_dev.c]: the getters, and the
    setters with the ranges they enforce. A setter answers its status and the
    handle as it leaves it. *)
From stdpp Require Import base numbers strings gmap option list.
From S2P Require Import Prelude Types Nvme.

(** ** Getters *)

Definition nvm_pmode_str (pmode : Z) : string :=
  if pmode =? NVM_FLAG_PMODE_SNGL then "SNGL"
  else if pmode =? NVM_FLAG_PMODE_DUAL then "DUAL"
  else if pmode =? NVM_FLAG_PMODE_QUAD then "QUAD"
  else "UNKN".

Definition nvm_dev_get_geo (dev : nvm_dev) : nvm_geo := geo dev.
Definition nvm_dev_get_ns (dev : nvm_dev) : nvm_nvme_ns := dev_ns dev.
Definition nvm_dev_get_verid (dev : nvm_dev) : Z := verid dev.
Definition nvm_dev_get_fd (dev : nvm_dev) : Z := dev_fd dev.
Definition nvm_dev_get_be_id (dev : nvm_dev) : Z := be_id dev.
Definition nvm_dev_get_mccap (dev : nvm_dev) : Z := mccap dev.
Definition nvm_dev_get_quirks (dev : nvm_dev) : Z := quirks dev.
Definition nvm_dev_get_pmode (dev : nvm_dev) : Z := pmode (opts dev).
Definition nvm_dev_get_meta_mode (dev : nvm_dev) : Z := meta_mode (opts dev).
Definition nvm_dev_get_ppaf (dev : nvm_dev) : nvm_spec_ppaf_nand := ppaf dev.
Definition nvm_dev_get_ppaf_mask (dev : nvm_dev) : nvm_spec_ppaf_nand_mask := mask dev.
Definition nvm_dev_get_lbaf (dev : nvm_dev) : nvm_spec_lbaf := lbaf dev.
Definition nvm_dev_get_nsid (dev : nvm_dev) : Z := dev_nsid dev.
Definition nvm_dev_get_erase_naddrs_max (dev : nvm_dev) : Z := erase_naddrs_max (opts dev).
Definition nvm_dev_get_read_naddrs_max (dev : nvm_dev) : Z := read_naddrs_max (opts dev).
Definition nvm_dev_get_write_naddrs_max (dev : nvm_dev) : Z := write_naddrs_max (opts dev).
Definition nvm_dev_get_bbts_cached (dev : nvm_dev) : Z := bbts_cached dev.

Section dev.
Context {W : Type}.

Definition nvm_dev_get_ws_min (dev : nvm_dev) : M W Z :=
  if verid dev =? NVM_SPEC_VERID_12 then mret (i32 (nsectors (geo dev)))
  else if verid dev =? NVM_SPEC_VERID_20 then mret (i32 (ws_min (s20_wrt (dev_idfy dev))))
  else fail EINVAL (-1).

Definition nvm_dev_get_ws_opt (dev : nvm_dev) : M W Z :=
  if verid dev =? NVM_SPEC_VERID_12 then
    mret (i32 (u64 (nplanes (geo dev) * nsectors (geo dev))))
  else if verid dev =? NVM_SPEC_VERID_20 then mret (i32 (ws_opt (s20_wrt (dev_idfy dev))))
  else fail EINVAL (-1).

Definition nvm_dev_get_mw_cunits (dev : nvm_dev) : M W Z :=
  if verid dev =? NVM_SPEC_VERID_20 then mret (i32 (mw_cunits (s20_wrt (dev_idfy dev))))
  else fail EINVAL (-1).

(** ** Setters *)

Definition nvm_dev_set_quirks (dev : nvm_dev) (quirks : Z) : M W (Z * nvm_dev) :=
  mret (0, with_quirks quirks dev).

(** The cases fall through: quad needs 4 planes and 2, dual needs 2. *)
Definition nvm_dev_set_pmode (dev : nvm_dev) (pmode : Z) : M W (Z * nvm_dev) :=
  let sngl := mret (0, with_pmode pmode dev) in
  let dual := if nplanes (geo dev) <? 2 then fail EINVAL (-1, dev) else sngl in
  let quad := if nplanes (geo dev) <? 4 then fail EINVAL (-1, dev) else dual in
  if pmode =? NVM_FLAG_PMODE_QUAD then quad
  else if pmode =? NVM_FLAG_PMODE_DUAL then dual
  else if pmode =? NVM_FLAG_PMODE_SNGL then sngl
  else fail EINVAL (-1, dev).

Definition nvm_dev_set_meta_mode (dev : nvm_dev) (mode : Z) : M W (Z * nvm_dev) :=
  if mode =? NVM_META_MODE_NONE then mret (0, with_meta_mode NVM_META_MODE_NONE dev)
  else if mode =? NVM_META_MODE_ALPHA then mret (0, with_meta_mode NVM_META_MODE_ALPHA dev)
  else if mode =? NVM_META_MODE_CONST then mret (0, with_meta_mode NVM_META_MODE_CONST dev)
  else fail EINVAL (-1, dev).

(** [x % n] on [size_t]; [None] when [n] is 0. *)
Definition umod (x n : Z) : option Z := if n =? 0 then None else Some (u64 x mod n).

Definition nvm_dev_set_erase_naddrs_max (dev : nvm_dev) (naddrs : Z) : M W (Z * nvm_dev) :=
  if NVM_NADDR_MAX <? naddrs then fail EINVAL (-1, dev)
  else if naddrs <? 1 then fail EINVAL (-1, dev)
  else mret (0, with_erase_naddrs_max naddrs dev).

Definition nvm_dev_set_read_naddrs_max (dev : nvm_dev) (naddrs : Z) : M W (Z * nvm_dev) :=
  if NVM_NADDR_MAX <? naddrs then fail EINVAL (-1, dev)
  else if naddrs <? 1 then fail EINVAL (-1, dev)
  else
    bad ← (if pmode (opts dev) =? 0 then mret 0 else lift (umod naddrs (nplanes (geo dev))));
    if bad =? 0 then mret (0, with_read_naddrs_max naddrs dev) else fail EINVAL (-1, dev).

Definition nvm_dev_set_write_naddrs_max (dev : nvm_dev) (naddrs : Z) : M W (Z * nvm_dev) :=
  if NVM_NADDR_MAX <? naddrs then fail EINVAL (-1, dev)
  else if naddrs <? 1 then fail EINVAL (-1, dev)
  else
    let set := mret (0, with_write_naddrs_max naddrs dev) in
    if verid dev =? NVM_SPEC_VERID_20 then set
    else
      bad ← (if pmode (opts dev) =? 0 then mret 0
             else lift (umod naddrs (u64 (nplanes (geo dev) * nsectors (geo dev)))));
      if bad =? 0 then
        bad ← lift (umod naddrs (nsectors (geo dev)));
        if bad =? 0 then set else fail EINVAL (-1, dev)
      else fail EINVAL (-1, dev).

Definition nvm_dev_set_bbts_cached (dev : nvm_dev) (cached : Z) : M W (Z * nvm_dev) :=
  if (cached =? 0) || (cached =? 1) then mret (0, with_bbts_cached cached dev)
  else fail EINVAL (-1, dev).

(** ** What the setters maintain *)

(** The command limits of a handle, as every successful setter leaves them:
    between 1 and [NVM_NADDR_MAX], writes in whole pages (and whole
    multi-plane pages when a plane mode is on) on other than 2.0 devices,
    reads in whole plane groups when a plane mode is on. *)
Definition erase_max_ok (dev : nvm_dev) : Prop :=
  1 <= erase_naddrs_max (opts dev) <= NVM_NADDR_MAX.
Definition read_max_ok (dev : nvm_dev) : Prop :=
  1 <= read_naddrs_max (opts dev) <= NVM_NADDR_MAX /\
  (pmode (opts dev) <> 0 -> (nplanes (geo dev) | read_naddrs_max (opts dev))).
Definition write_max_ok (dev : nvm_dev) : Prop :=
  1 <= write_naddrs_max (opts dev) <= NVM_NADDR_MAX /\
  (verid dev <> NVM_SPEC_VERID_20 ->
     (nsectors (geo dev) | write_naddrs_max (opts dev)) /\
     (pmode (opts dev) <> 0 -> (nplanes (geo dev) * nsectors (geo dev) | write_naddrs_max (opts dev)))).
Definition pmode_ok (dev : nvm_dev) : Prop :=
  pmode (opts dev) = NVM_FLAG_PMODE_SNGL \/
  (pmode (opts dev) = NVM_FLAG_PMODE_DUAL /\ 2 <= nplanes (geo dev)) \/
  (pmode (opts dev) = NVM_FLAG_PMODE_QUAD /\ 4 <= nplanes (geo dev)).
Definition meta_ok (dev : nvm_dev) : Prop :=
  meta_mode (opts dev) = NVM_META_MODE_NONE \/ meta_mode (opts dev) = NVM_META_MODE_ALPHA \/
  meta_mode (opts dev) = NVM_META_MODE_CONST.

(** The result of a setter: accepted with the new handle, or refused with
    [EINVAL] and the handle untouched. *)
Definition setter_post (dev dev' : nvm_dev) (s : sys W) (ok : Prop)
    (r : Z * nvm_dev) (s' : sys W) : Prop :=
  (r = (0, dev') /\ s' = s /\ ok) \/
  (r = (-1, dev) /\ s' = Sys EINVAL (hp s) (world s) /\ ~ ok).

(** Geometry counts that arithmetic on [size_t] does not wrap on, as the
    identify data gives them: at most 8 bits of planes, 16 bits of sectors. *)
Definition counts_ok (g : nvm_geo) : Prop :=
  0 < nplanes g < 2 ^ 16 /\ 0 < nsectors g < 2 ^ 32.

(** What the setters divide by: the planes only when a plane mode is on, the
    sectors of a page only on other than 2.0 devices. A 2.0 device has neither
    planes nor pages (both counts are 0) and no plane mode. *)
Definition dev_counts_ok (dev : nvm_dev) : Prop :=
  (pmode (opts dev) <> 0 -> 0 < nplanes (geo dev) < 2 ^ 16) /\
  (verid dev <> NVM_SPEC_VERID_20 -> 0 < nsectors (geo dev) < 2 ^ 32).
End dev.

Lemma counts_dev_ok dev : counts_ok (geo dev) -> dev_counts_ok dev.
Proof. intros [H1 H2]. by split. Qed.

Lemma s20_dev_counts dev : verid dev = NVM_SPEC_VERID_20 -> pmode (opts dev) = 0 -> dev_counts_ok dev.
Proof. by split. Qed.

Lemma umod_divide n k : 0 <= n < 2 ^ 64 -> 0 < k ->
  exists b, umod n k = Some b /\ ((b =? 0) = true <-> (k | n)).
Proof.
  intros Hn Hk. unfold umod. rewrite (proj2 (Z.eqb_neq k 0)) by lia.
  eexists. split; [done|]. rewrite wrap_id by done. rewrite Z.eqb_eq. apply Z.mod_divide. lia.
Qed.

Section setters.
Context {W : Type}.
Implicit Types (s : sys W) (dev : nvm_dev).

Lemma setter_yes dev dev' s (ok : Prop) : ok ->
  wp (mret (0, dev')) s (setter_post dev dev' s ok).
Proof. intros. by apply wp_ret; left. Qed.

Lemma setter_no dev dev' s (ok : Prop) : ~ ok ->
  wp (fail EINVAL (-1, dev)) s (setter_post dev dev' s ok).
Proof. intros. cbn. by right. Qed.

Lemma set_pmode_spec dev p s :
  wp (nvm_dev_set_pmode dev p) s (setter_post dev (with_pmode p dev) s
    (pmode_ok (with_pmode p dev))).
Proof.
  unfold nvm_dev_set_pmode, pmode_ok. cbn. cbv [NVM_FLAG_PMODE_SNGL NVM_FLAG_PMODE_DUAL NVM_FLAG_PMODE_QUAD].
  destruct (Z.eqb_spec p 2), (Z.eqb_spec p 1), (Z.eqb_spec p 0),
    (Z.ltb_spec (nplanes (geo dev)) 4), (Z.ltb_spec (nplanes (geo dev)) 2);
    first [apply setter_yes; lia|apply setter_no; lia].
Qed.

Lemma set_erase_spec dev n s :
  wp (nvm_dev_set_erase_naddrs_max dev n) s
    (setter_post dev (with_erase_naddrs_max n dev) s (erase_max_ok (with_erase_naddrs_max n dev))).
Proof.
  unfold nvm_dev_set_erase_naddrs_max, erase_max_ok. cbn. cbv [NVM_NADDR_MAX].
  destruct (Z.ltb_spec 64 n), (Z.ltb_spec n 1); first [apply setter_yes; lia|apply setter_no; lia].
Qed.

Lemma set_read_spec dev n s : dev_counts_ok dev ->
  wp (nvm_dev_set_read_naddrs_max dev n) s
    (setter_post dev (with_read_naddrs_max n dev) s (read_max_ok (with_read_naddrs_max n dev))).
Proof.
  intros [Hp Hs]. unfold nvm_dev_set_read_naddrs_max, read_max_ok. cbn. cbv [NVM_NADDR_MAX].
  destruct (Z.ltb_spec 64 n), (Z.ltb_spec n 1); try (apply setter_no; lia).
  apply wp_bind. destruct (Z.eqb_spec (pmode (opts dev)) 0).
  - apply wp_ret. cbn. apply setter_yes. lia.
  - specialize (Hp ltac:(done)). destruct (umod_divide n (nplanes (geo dev)) ltac:(lia) ltac:(lia)) as (b & -> & Hb). cbn.
    destruct (b =? 0); [apply setter_yes|apply setter_no]; intuition (congruence || lia).
Qed.

Lemma set_write_spec dev n s : dev_counts_ok dev ->
  wp (nvm_dev_set_write_naddrs_max dev n) s
    (setter_post dev (with_write_naddrs_max n dev) s (write_max_ok (with_write_naddrs_max n dev))).
Proof.
  intros [Hp Hs]. unfold nvm_dev_set_write_naddrs_max, write_max_ok. cbn. cbv [NVM_NADDR_MAX].
  destruct (Z.ltb_spec 64 n), (Z.ltb_spec n 1); try (apply setter_no; lia).
  destruct (Z.eqb_spec (verid dev) NVM_SPEC_VERID_20); [apply setter_yes; tauto|].
  specialize (Hs ltac:(done)).
  destruct (umod_divide n (nsectors (geo dev)) ltac:(lia) ltac:(lia)) as (c & Ec & Hc).
  apply wp_bind. rewrite Ec. destruct (Z.eqb_spec (pmode (opts dev)) 0) as [|Hpm]; cbn.
  - apply wp_bind; cbn; (destruct (c =? 0); [apply setter_yes|apply setter_no]); intuition congruence.
  - specialize (Hp ltac:(done)). rewrite wrap_id by nia.
    destruct (umod_divide n (nplanes (geo dev) * nsectors (geo dev)) ltac:(lia) ltac:(nia)) as (b & -> & Hb). cbn.
    destruct (b =? 0); [|apply setter_no; intuition congruence].
    apply wp_bind; cbn; (destruct (c =? 0); [apply setter_yes|apply setter_no]); intuition congruence.
Qed.

Lemma set_meta_spec dev m s :
  wp (nvm_dev_set_meta_mode dev m) s
    (setter_post dev (with_meta_mode m dev) s (meta_ok (with_meta_mode m dev))).
Proof.
  unfold nvm_dev_set_meta_mode, meta_ok. cbn. cbv [NVM_META_MODE_NONE NVM_META_MODE_ALPHA NVM_META_MODE_CONST].
  destruct (Z.eqb_spec m 0) as [->|]; [apply setter_yes; tauto|].
  destruct (Z.eqb_spec m 1) as [->|]; [apply setter_yes; tauto|].
  destruct (Z.eqb_spec m 2) as [->|]; [apply setter_yes; tauto|].
  apply setter_no. tauto.
Qed.

Lemma set_cached_spec dev c s :
  wp (nvm_dev_set_bbts_cached dev c) s
    (setter_post dev (with_bbts_cached c dev) s (c = 0 \/ c = 1)).
Proof.
  unfold nvm_dev_set_bbts_cached.
  destruct (Z.eqb_spec c 0), (Z.eqb_spec c 1); cbn;
    first [apply setter_yes; lia|apply setter_no; lia].
Qed.
End setters.

(** ** Properties *)

(** C38: every setter of the six attributes that have a range is exact, on
    1.2 and 2.0 devices alike. It accepts a value precisely when the handle
    with that value satisfies the attribute's range (plane mode against the
    planes of the device; at most 64 and at least 1 address per command, reads
    in whole plane groups and writes in whole pages where the device needs
    it; a known meta mode; a boolean cache switch), and then changes that
    attribute only; otherwise it answers -1 with [EINVAL] and changes
    nothing. The quirks, which have no range, are set to anything. The one
    assumption is that the setters of the limits do not divide by zero: a
    handle with a plane mode has planes, and one that is not 2.0 has sectors
    in a page ([s20_dev_counts]: a 2.0 handle without plane mode, as
    [nvm_be_populate] leaves it, needs nothing). *)
Theorem setters_exact W dev v (s : sys W) (Hc : dev_counts_ok dev) :
  wp (nvm_dev_set_pmode dev v) s
    (setter_post dev (with_pmode v dev) s (pmode_ok (with_pmode v dev))) /\
  wp (nvm_dev_set_erase_naddrs_max dev v) s
    (setter_post dev (with_erase_naddrs_max v dev) s (erase_max_ok (with_erase_naddrs_max v dev))) /\
  wp (nvm_dev_set_read_naddrs_max dev v) s
    (setter_post dev (with_read_naddrs_max v dev) s (read_max_ok (with_read_naddrs_max v dev))) /\
  wp (nvm_dev_set_write_naddrs_max dev v) s
    (setter_post dev (with_write_naddrs_max v dev) s (write_max_ok (with_write_naddrs_max v dev))) /\
  wp (nvm_dev_set_meta_mode dev v) s
    (setter_post dev (with_meta_mode v dev) s (meta_ok (with_meta_mode v dev))) /\
  wp (nvm_dev_set_bbts_cached dev v) s
    (setter_post dev (with_bbts_cached v dev) s (v = 0 \/ v = 1)) /\
  wp (nvm_dev_set_quirks dev v) s (fun r s' => r = (0, with_quirks v dev) /\ s' = s).
Proof.
  repeat split; [apply set_pmode_spec|apply set_erase_spec|by apply set_read_spec
    |by apply set_write_spec|apply set_meta_spec|apply set_cached_spec].
Qed.

(** ** Witnesses *)

Definition no_heap : heap := Heap 1 ∅ (fun _ => true).

(** A write limit of a 1.2 device, and a read limit of a 2.0 device. *)
Lemma setters_exact_witness :
  wp (nvm_dev_set_write_naddrs_max sample12 12) (Sys 0 no_heap tt)
    (setter_post sample12 (with_write_naddrs_max 12 sample12) (Sys 0 no_heap tt)
       (write_max_ok (with_write_naddrs_max 12 sample12))) /\
  nplanes (geo sample20) = 0 /\
  wp (nvm_dev_set_read_naddrs_max sample20 24) (Sys 0 no_heap tt)
    (setter_post sample20 (with_read_naddrs_max 24 sample20) (Sys 0 no_heap tt)
       (read_max_ok (with_read_naddrs_max 24 sample20))).
Proof.
  split; [apply (setters_exact unit sample12 12 (Sys 0 no_heap tt)); apply counts_dev_ok; by_eval|].
  split; [done|]. apply (setters_exact unit sample20 24 (Sys 0 no_heap tt)). by apply s20_dev_counts.
Defined.
