(* ===== verification/Backend.v ===== *)
(** The backend interface [struct nvm_be] of [include/nvm_be.h], the defaults
    of [src/nvm_be.c] that a backend without an operation installs, and the
    command contexts of [src/nvm_async.c]. *)
From stdpp Require Import base numbers strings gmap option list.
From S2P Require Import Prelude Types Nvme.

(** ** Arguments of operations *)

(** A pointer into a buffer, as what can be accessed from it on: [None] is
    [NULL], and an access past the end of the list is out of the object. *)
Definition mem : Type := option (list Z).

(** [m != NULL] *)
Definition is_some (m : mem) : bool := match m with Some _ => true | None => false end.

(** The [struct nvm_ret *] argument: [None] is [NULL]. *)
Definition retp : Type := option nvm_ret.

(** What an I/O operation leaves: its status, the buffers and the result. *)
Record io_res := IoRes { rc : Z; io_data : mem; io_meta : mem; io_ret : retp }.

(** A pointer to an allocated object: the block of the heap and the content. *)
Definition boxed (A : Type) : Type := (Z * A)%type.

(** [struct nvm_async_ctx]; [be_ctx] is the backend's own block. *)
Record nvm_async_ctx := AsyncCtx { depth : Z; outstanding : Z; be_ctx : Z }.

(** A completion delivered by poke and wait: the [struct nvm_ret] it was
    submitted with, by its address, and the status reported. *)
Record completion := Completion { cpl_ret : Z; cpl_status : Z }.

(** What a data pointer handed to the device points to. *)
Inductive kdata :=
  | KMem (m : mem)
  | KBlock (p : Z)
  | KIdfy (i : nvm_spec_idfy)
  | KNs (n : nvm_nvme_ns)
  | KBbt (tblid : list Z) (b : nvm_spec_bbt)
  | KDescr (l : list nvm_spec_rprt_descr)
  | KDsm (l : list nvm_nvme_dsm_range).

(** ** The interface *)

Record nvm_be (W : Type) := NvmBe {
  bid : Z;
  name : string;
  be_open : string -> Z -> M W (option (boxed nvm_dev));
  be_close : nvm_dev -> M W unit;
  be_pass : nvm_dev -> nvm_nvme_cmd -> mem -> Z -> mem -> Z -> Z -> retp -> M W io_res;
  be_idfy : nvm_dev -> retp -> M W (option (boxed nvm_spec_idfy) * retp);
  be_rprt : nvm_dev -> option nvm_addr -> Z -> retp -> M W (option (boxed nvm_spec_rprt) * retp);
  be_gfeat : nvm_dev -> Z -> Z -> retp -> M W (Z * Z * retp);
  be_sfeat : nvm_dev -> Z -> Z -> retp -> M W (Z * retp);
  be_gbbt : nvm_dev -> nvm_addr -> retp -> M W (option (boxed nvm_spec_bbt) * retp);
  be_sbbt : nvm_dev -> list nvm_addr -> Z -> Z -> retp -> M W (Z * retp);
  be_scalar_erase : nvm_dev -> list nvm_addr -> Z -> Z -> retp -> M W (Z * retp);
  be_scalar_write : nvm_dev -> nvm_addr -> Z -> mem -> mem -> Z -> retp -> M W (Z * retp);
  be_scalar_read : nvm_dev -> nvm_addr -> Z -> mem -> mem -> Z -> retp -> M W io_res;
  be_vector_erase : nvm_dev -> list nvm_addr -> Z -> mem -> Z -> retp -> M W (Z * mem * retp);
  be_vector_write : nvm_dev -> list nvm_addr -> Z -> mem -> mem -> Z -> retp -> M W (Z * retp);
  be_vector_read : nvm_dev -> list nvm_addr -> Z -> mem -> mem -> Z -> retp -> M W io_res;
  be_vector_copy : nvm_dev -> list nvm_addr -> list nvm_addr -> Z -> Z -> retp -> M W (Z * retp);
  be_async_init : nvm_dev -> Z -> Z -> M W (option nvm_async_ctx);
  be_async_term : nvm_dev -> nvm_async_ctx -> M W Z;
  be_async_poke : nvm_dev -> nvm_async_ctx -> Z -> M W (Z * nvm_async_ctx * list completion);
  be_async_wait : nvm_dev -> nvm_async_ctx -> M W (Z * nvm_async_ctx * list completion) }.

Arguments bid {W} _.
Arguments name {W} _.
Arguments be_open {W} _.
Arguments be_close {W} _.
Arguments be_pass {W} _.
Arguments be_idfy {W} _.
Arguments be_rprt {W} _.
Arguments be_gfeat {W} _.
Arguments be_sfeat {W} _.
Arguments be_gbbt {W} _.
Arguments be_sbbt {W} _.
Arguments be_scalar_erase {W} _.
Arguments be_scalar_write {W} _.
Arguments be_scalar_read {W} _.
Arguments be_vector_erase {W} _.
Arguments be_vector_write {W} _.
Arguments be_vector_read {W} _.
Arguments be_vector_copy {W} _.
Arguments be_async_init {W} _.
Arguments be_async_term {W} _.
Arguments be_async_poke {W} _.
Arguments be_async_wait {W} _.

(** ** Defaults *)

Section nosys.
Context {W : Type}.

Definition nvm_be_nosys_open (dev_path : string) (flags : Z) : M W (option (boxed nvm_dev)) :=
  fail ENOSYS None.
Definition nvm_be_nosys_close (dev : nvm_dev) : M W unit := fail ENOSYS tt.
Definition nvm_be_nosys_pass (dev : nvm_dev) (cmd : nvm_nvme_cmd) (data : mem) (data_nbytes : Z)
    (meta : mem) (meta_nbytes flags : Z) (ret : retp) : M W io_res :=
  fail ENOSYS (IoRes (-1) data meta ret).
Definition nvm_be_nosys_idfy (dev : nvm_dev) (ret : retp)
    : M W (option (boxed nvm_spec_idfy) * retp) := fail ENOSYS (None, ret).
Definition nvm_be_nosys_rprt (dev : nvm_dev) (addr : option nvm_addr) (opt : Z) (ret : retp)
    : M W (option (boxed nvm_spec_rprt) * retp) := fail ENOSYS (None, ret).
Definition nvm_be_nosys_gfeat (dev : nvm_dev) (id feat : Z) (ret : retp)
    : M W (Z * Z * retp) := fail ENOSYS (-1, feat, ret).
Definition nvm_be_nosys_sfeat (dev : nvm_dev) (id feat : Z) (ret : retp) : M W (Z * retp) :=
  fail ENOSYS (-1, ret).
Definition nvm_be_nosys_gbbt (dev : nvm_dev) (addr : nvm_addr) (ret : retp)
    : M W (option (boxed nvm_spec_bbt) * retp) := fail ENOSYS (None, ret).
Definition nvm_be_nosys_sbbt (dev : nvm_dev) (addrs : list nvm_addr) (naddrs flags : Z)
    (ret : retp) : M W (Z * retp) := fail ENOSYS (-1, ret).
Definition nvm_be_nosys_scalar_erase (dev : nvm_dev) (addrs : list nvm_addr)
    (naddrs flags : Z) (ret : retp) : M W (Z * retp) := fail ENOSYS (-1, ret).
Definition nvm_be_nosys_scalar_write (dev : nvm_dev) (addr : nvm_addr) (naddrs : Z)
    (data meta : mem) (flags : Z) (ret : retp) : M W (Z * retp) := fail ENOSYS (-1, ret).
Definition nvm_be_nosys_scalar_read (dev : nvm_dev) (addr : nvm_addr) (naddrs : Z)
    (data meta : mem) (flags : Z) (ret : retp) : M W io_res :=
  fail ENOSYS (IoRes (-1) data meta ret).
Definition nvm_be_nosys_vector_erase (dev : nvm_dev) (addrs : list nvm_addr) (naddrs : Z)
    (meta : mem) (flags : Z) (ret : retp) : M W (Z * mem * retp) :=
  fail ENOSYS (-1, meta, ret).
Definition nvm_be_nosys_vector_write (dev : nvm_dev) (addrs : list nvm_addr) (naddrs : Z)
    (data meta : mem) (flags : Z) (ret : retp) : M W (Z * retp) := fail ENOSYS (-1, ret).
Definition nvm_be_nosys_vector_read (dev : nvm_dev) (addrs : list nvm_addr) (naddrs : Z)
    (data meta : mem) (flags : Z) (ret : retp) : M W io_res :=
  fail ENOSYS (IoRes (-1) data meta ret).
Definition nvm_be_nosys_vector_copy (dev : nvm_dev) (src dst : list nvm_addr)
    (naddrs flags : Z) (ret : retp) : M W (Z * retp) := fail ENOSYS (-1, ret).
Definition nvm_be_nosys_async_init (dev : nvm_dev) (depth flags : Z)
    : M W (option nvm_async_ctx) := fail ENOSYS None.
Definition nvm_be_nosys_async_term (dev : nvm_dev) (ctx : nvm_async_ctx) : M W Z :=
  fail ENOSYS (-1).
Definition nvm_be_nosys_async_poke (dev : nvm_dev) (ctx : nvm_async_ctx) (max : Z)
    : M W (Z * nvm_async_ctx * list completion) := fail ENOSYS (-1, ctx, []).
Definition nvm_be_nosys_async_wait (dev : nvm_dev) (ctx : nvm_async_ctx)
    : M W (Z * nvm_async_ctx * list completion) := fail ENOSYS (-1, ctx, []).

(** The backend with no operation at all. *)
Definition nosys_be (id : Z) (nm : string) : nvm_be W :=
  NvmBe W id nm nvm_be_nosys_open nvm_be_nosys_close nvm_be_nosys_pass
    nvm_be_nosys_idfy nvm_be_nosys_rprt nvm_be_nosys_gfeat nvm_be_nosys_sfeat
    nvm_be_nosys_gbbt nvm_be_nosys_sbbt nvm_be_nosys_scalar_erase
    nvm_be_nosys_scalar_write nvm_be_nosys_scalar_read nvm_be_nosys_vector_erase
    nvm_be_nosys_vector_write nvm_be_nosys_vector_read nvm_be_nosys_vector_copy
    nvm_be_nosys_async_init nvm_be_nosys_async_term nvm_be_nosys_async_poke
    nvm_be_nosys_async_wait.
End nosys.

(** ** Command contexts *)

Section async.
Context {W : Type} (be : nvm_be W).

Definition nvm_async_init (dev : nvm_dev) (depth flags : Z) : M W (option nvm_async_ctx) :=
  be_async_init be dev depth flags.
Definition nvm_async_term (dev : nvm_dev) (ctx : nvm_async_ctx) : M W Z :=
  be_async_term be dev ctx.
Definition nvm_async_wait (dev : nvm_dev) (ctx : nvm_async_ctx)
    : M W (Z * nvm_async_ctx * list completion) := be_async_wait be dev ctx.
Definition nvm_async_poke (dev : nvm_dev) (ctx : nvm_async_ctx) (max : Z)
    : M W (Z * nvm_async_ctx * list completion) := be_async_poke be dev ctx max.
Definition nvm_async_get_depth (ctx : nvm_async_ctx) : Z := depth ctx.
Definition nvm_async_get_outstanding (ctx : nvm_async_ctx) : Z := outstanding ctx.
End async.
