(* ===== verification/Buf.v ===== *)
(** I/O buffers, [src/nvm_buf.c]: allocation by backend, the fill pattern,
    comparison and the buffer sets of the tools. The DMA allocator of SPDK is
    third-party code: [spdk_env] is its interface, and [spdk_stub] what the
    file defines in its place when SPDK is not built in. *)
From stdpp Require Import base numbers strings gmap option list.
From S2P Require Import Prelude Types Nvme.

(** ** The DMA allocator *)

Record spdk_env (W : Type) := SpdkEnv {
  spdk_dma_malloc : Z -> Z -> M W Z;
  spdk_dma_realloc : Z -> Z -> Z -> M W Z;
  spdk_dma_free : Z -> M W unit;
  spdk_vtophys : Z -> Z }.
Arguments SpdkEnv {W} _ _ _ _.
Arguments spdk_dma_malloc {W} _.
Arguments spdk_dma_realloc {W} _.
Arguments spdk_dma_free {W} _.
Arguments spdk_vtophys {W} _.

Definition SPDK_VTOPHYS_ERROR : Z := 0xFFFFFFFFFFFFFFFF.

Definition spdk_stub {W} : spdk_env W :=
  SpdkEnv (fun _ _ => fail ENOSYS 0) (fun _ _ _ => fail ENOSYS 0) (fun _ => mret tt)
    (fun _ => SPDK_VTOPHYS_ERROR).

Section buf.
Context {W : Type} (spdk : spdk_env W).

(** ** Allocation *)

Definition nvm_buf_virt_alloc (alignment nbytes : Z) : M W Z :=
  if nbytes =? 0 then fail EINVAL 0 else malloc.

Definition nvm_buf_virt_realloc (buf alignment nbytes : Z) : M W Z := fail ENOSYS 0.

Definition nvm_buf_virt_free (buf : Z) : M W unit := free buf.

(** [size_t alignment = 4096; switch (dev->geo.verid) ...] *)
Definition buf_alignment (dev : nvm_dev) : Z :=
  if geo_verid (geo dev) =? NVM_SPEC_VERID_12 then sector_nbytes (geo dev)
  else if geo_verid (geo dev) =? NVM_SPEC_VERID_20 then nbytes (geo dev)
  else 4096.

Definition nvm_buf_alloc (dev : nvm_dev) (nbytes : Z) : M W Z :=
  let alignment := buf_alignment dev in
  if nbytes =? 0 then fail EINVAL 0
  else if (be_id dev =? NVM_BE_IOCTL) || (be_id dev =? NVM_BE_LBD) then
    nvm_buf_virt_alloc alignment nbytes
  else if (be_id dev =? NVM_BE_SPDK) || (be_id dev =? NVM_BE_NOCD) then
    spdk_dma_malloc spdk nbytes alignment
  else fail EINVAL 0.

Definition nvm_buf_realloc (dev : nvm_dev) (buf nbytes : Z) : M W Z :=
  let alignment := buf_alignment dev in
  if nbytes =? 0 then fail EINVAL 0
  else if (be_id dev =? NVM_BE_IOCTL) || (be_id dev =? NVM_BE_LBD) then
    nvm_buf_virt_realloc buf alignment nbytes
  else if (be_id dev =? NVM_BE_SPDK) || (be_id dev =? NVM_BE_NOCD) then
    spdk_dma_realloc spdk buf nbytes alignment
  else fail EINVAL 0.

Definition nvm_buf_free (dev : nvm_dev) (buf : Z) : M W unit :=
  if (be_id dev =? NVM_BE_IOCTL) || (be_id dev =? NVM_BE_LBD) then nvm_buf_virt_free buf
  else if (be_id dev =? NVM_BE_SPDK) || (be_id dev =? NVM_BE_NOCD) then spdk_dma_free spdk buf
  else mret tt.

(** The status and the content of [*phys]; [have_phys] is [phys != NULL]. *)
Definition nvm_buf_vtophys (dev : nvm_dev) (buf : Z) (phys : option Z)
    : M W (Z * option Z) :=
  match phys with
  | None => fail EINVAL (-1, None)
  | Some _ =>
      if be_id dev =? NVM_BE_ANY then fail EINVAL (-1, phys)
      else if (be_id dev =? NVM_BE_IOCTL) || (be_id dev =? NVM_BE_LBD) then
        fail ENOSYS (-1, phys)
      else if (be_id dev =? NVM_BE_SPDK) || (be_id dev =? NVM_BE_NOCD) then
        let p := spdk_vtophys spdk buf in
        if p =? SPDK_VTOPHYS_ERROR then fail EIO (-1, Some p) else mret (0, Some p)
      else mret (0, phys)
  end.
End buf.

(** ** Contents *)

(** [buf[i] = (i % 26) + 65] for the first [nbytes] bytes; [None] when the
    buffer is shorter. The iterations touch distinct bytes, so the threads of
    the parallel loop leave what any order leaves. *)
Definition nvm_buf_fill (buf : list Z) (nbytes : Z) : option (list Z) :=
  if Z.of_nat (length buf) <? nbytes then None
  else Some (((fun i => i mod 26 + 65) <$> seqZ 0 nbytes) ++ drop (Z.to_nat nbytes) buf).

Fixpoint nvm_buf_diff (nbytes : nat) (expected actual : list Z) : option Z :=
  match nbytes, expected, actual with
  | O, _, _ => Some 0
  | S n, e :: expected, a :: actual =>
      diff ← nvm_buf_diff n expected actual;
      Some (if e =? a then diff else u64 (diff + 1))
  | _, _, _ => None
  end.

(** [fcount] is what [fread] and [fwrite] answered. *)
Definition buf_file_status {W} (fcount nbytes : Z) : M W Z :=
  if fcount =? nbytes then mret 0 else fail EINVAL (-1).

(** ** Buffer sets *)

Record nvm_buf_set := BufSet {
  bs_nbytes : Z; bs_nbytes_meta : Z;
  bs_write : Z; bs_write_meta : Z; bs_read : Z; bs_read_meta : Z }.

Section set.
Context {W : Type} (spdk : spdk_env W).

Definition nvm_buf_set_free (dev : nvm_dev) (bufs : option (Z * nvm_buf_set)) : M W unit :=
  match bufs with
  | None => mret tt
  | Some (p, b) =>
      _ ← nvm_buf_free spdk dev (bs_write b);
      _ ← nvm_buf_free spdk dev (bs_write_meta b);
      _ ← nvm_buf_free spdk dev (bs_read b);
      _ ← nvm_buf_free spdk dev (bs_read_meta b);
      nvm_buf_free spdk dev p
  end.

(** One of the allocations of the set: on failure the set is freed. *)
Definition buf_set_step (dev : nvm_dev) (p n : Z) (b : nvm_buf_set)
    (upd : Z -> nvm_buf_set) (k : nvm_buf_set -> M W (option (Z * nvm_buf_set)))
    : M W (option (Z * nvm_buf_set)) :=
  q ← nvm_buf_alloc spdk dev n;
  if q =? 0 then _ ← nvm_buf_set_free dev (Some (p, b)); mret None else k (upd q).

(** [sizeof(struct nvm_buf_set)] on a 64-bit target: seven words. *)
Definition SIZEOF_BUF_SET : Z := 56.

(** The second half of [nvm_buf_set_alloc]: the meta buffers. *)
Definition buf_set_alloc_meta (dev : nvm_dev) (p nbytes_meta : Z) (b : nvm_buf_set)
    : M W (option (Z * nvm_buf_set)) :=
  if nbytes_meta =? 0 then mret (Some (p, b))
  else
    let b := BufSet (bs_nbytes b) nbytes_meta (bs_write b) (bs_write_meta b)
               (bs_read b) (bs_read_meta b) in
    buf_set_step dev p nbytes_meta b
      (fun q => BufSet (bs_nbytes b) nbytes_meta (bs_write b) q (bs_read b) (bs_read_meta b))
      (fun b => buf_set_step dev p nbytes_meta b
        (fun q => BufSet (bs_nbytes b) nbytes_meta (bs_write b) (bs_write_meta b) (bs_read b) q)
        (fun b => mret (Some (p, b)))).

Definition nvm_buf_set_alloc (dev : nvm_dev) (nbytes nbytes_meta : Z)
    : M W (option (Z * nvm_buf_set)) :=
  p ← nvm_buf_alloc spdk dev SIZEOF_BUF_SET;
  if p =? 0 then mret None
  else if nbytes =? 0 then buf_set_alloc_meta dev p nbytes_meta (BufSet 0 0 0 0 0 0)
  else
    let b := BufSet nbytes 0 0 0 0 0 in
    buf_set_step dev p nbytes b (fun q => BufSet nbytes 0 q 0 0 0)
      (fun b => buf_set_step dev p nbytes b
        (fun q => BufSet nbytes 0 (bs_write b) 0 q 0)
        (fun b => buf_set_alloc_meta dev p nbytes_meta b)).
End set.

(** What [nvm_buf_set_fill] leaves in the write and the read buffer. *)
Definition nvm_buf_set_fill (nbytes : Z) (write read : list Z) : option (list Z * list Z) :=
  if nbytes =? 0 then Some (write, read)
  else
    w ← nvm_buf_fill write nbytes;
    if Z.of_nat (length read) <? nbytes then None
    else Some (w, replicate (Z.to_nat nbytes) 0 ++ drop (Z.to_nat nbytes) read).

(** ** Lemmas *)

(** Backends whose buffers come from the C allocator. *)
Definition virt_dev (dev : nvm_dev) : Prop :=
  be_id dev = NVM_BE_IOCTL \/ be_id dev = NVM_BE_LBD.

(** The buffers of [dev] are blocks of the heap: each allocation takes a new
    one or fails, each release gives one back. *)
Definition alloc_ok {W} (spdk : spdk_env W) (dev : nvm_dev) : Prop :=
  (forall n s, n <> 0 -> nvm_buf_alloc spdk dev n s = malloc s) /\
  (forall p s, nvm_buf_free spdk dev p s = free p s).

(** An SPDK environment whose DMA allocator does as [malloc] and [free] do. *)
Definition spdk_ok {W} (spdk : spdk_env W) : Prop :=
  (forall n a s, spdk_dma_malloc spdk n a s = malloc s) /\
  (forall p s, spdk_dma_free spdk p s = free p s).

Lemma virt_alloc_ok {W} (spdk : spdk_env W) dev : virt_dev dev -> alloc_ok spdk dev.
Proof.
  intros Hdev. assert (E : ((be_id dev =? NVM_BE_IOCTL) || (be_id dev =? NVM_BE_LBD))%bool = true)
    by (by destruct Hdev as [->| ->]).
  split.
  - intros n s Hn. unfold nvm_buf_alloc, nvm_buf_virt_alloc. cbn zeta.
    by rewrite E, (proj2 (Z.eqb_neq n 0)).
  - intros p s. unfold nvm_buf_free. by rewrite E.
Qed.

Lemma dma_alloc_ok {W} (spdk : spdk_env W) dev : spdk_ok spdk ->
  be_id dev = NVM_BE_SPDK \/ be_id dev = NVM_BE_NOCD -> alloc_ok spdk dev.
Proof.
  intros [H1 H2] Hdev. split.
  - intros n s Hn. unfold nvm_buf_alloc. cbn zeta. rewrite (proj2 (Z.eqb_neq n 0)) by done.
    destruct Hdev as [->| ->]; apply H1.
  - intros p s. unfold nvm_buf_free. destruct Hdev as [->| ->]; apply H2.
Qed.

Section virt.
Context {W : Type} (spdk : spdk_env W) (dev : nvm_dev) (Hdev : alloc_ok spdk dev).
Implicit Types s : sys W.

Lemma virt_alloc n s : n <> 0 -> nvm_buf_alloc spdk dev n s = malloc s.
Proof. apply Hdev. Qed.

Lemma virt_free p s : nvm_buf_free spdk dev p s = free p s.
Proof. apply Hdev. Qed.

Lemma wp_buf_alloc {I} n s (Q : Z -> sys W -> Prop) : good I s -> n <> 0 ->
  (forall s', good I s' -> live s' = live s -> world s' = world s -> errno s' = ENOMEM -> Q 0 s') ->
  (forall p s', p <> 0 -> p ∉ live s -> good I s' -> live s' = {[p]} ∪ live s ->
     world s' = world s -> errno s' = errno s -> Q p s') ->
  wp (nvm_buf_alloc spdk dev n) s Q.
Proof. intros. unfold wp. rewrite virt_alloc by done. by eapply wp_malloc. Qed.

Lemma wp_buf_free {I} p s (Q : unit -> sys W -> Prop) : good I s -> p = 0 \/ p ∈ live s ->
  (forall s', good I s' -> live s' = live s ∖ {[p]} -> world s' = world s ->
     errno s' = errno s -> Q tt s') ->
  wp (nvm_buf_free spdk dev p) s Q.
Proof. intros. unfold wp. rewrite virt_free by done. by eapply wp_free. Qed.

Lemma buf_set_free_all p b s :
  nvm_buf_set_free spdk dev (Some (p, b)) s =
    free_all [bs_write b; bs_write_meta b; bs_read b; bs_read_meta b; p] s.
Proof.
  unfold free_all. cbn. unfold mbind, M_bind.
  rewrite virt_free. destruct (free (bs_write b) s) as [[? ?]|]; [|done].
  rewrite virt_free. destruct (free (bs_write_meta b) _) as [[? ?]|]; [|done].
  rewrite virt_free. destruct (free (bs_read b) _) as [[? ?]|]; [|done].
  rewrite virt_free. destruct (free (bs_read_meta b) _) as [[? ?]|]; [|done].
  rewrite virt_free. by destruct (free p _) as [[[] ?]|].
Qed.

(** The blocks of a set, [NULL]s left out. *)
Definition set_blocks (p : Z) (b : nvm_buf_set) : list Z :=
  filter (fun q => q <> 0) [bs_write b; bs_write_meta b; bs_read b; bs_read_meta b; p].

(** The set owns its blocks, apart from those of [L]. *)
Definition set_owned (L : gset Z) (p : Z) (b : nvm_buf_set) s : Prop :=
  heap_wf s /\ p <> 0 /\ NoDup (set_blocks p b) /\ (forall q, q ∈ set_blocks p b -> q ∉ L) /\
  (0 ∉ L) /\ live s = list_to_set (set_blocks p b) ∪ L.

Lemma wp_buf_set_free L p b s : set_owned L p b s ->
  wp (nvm_buf_set_free spdk dev (Some (p, b))) s (fun _ s' => heap_wf s' /\ live s' = L).
Proof.
  intros (Hwf & Hp & Hnd & Hd & H0 & Hl). unfold wp. rewrite buf_set_free_all.
  eapply (wp_free_all _ L); [done..| |done|by intros].
  intros q Hq. destruct (decide (q = 0)) as [->|Hn]; [done|].
  apply Hd. unfold set_blocks. by apply list_elem_of_filter.
Qed.

(** One more allocation of the set. *)
Lemma wp_set_step L p n b upd k s (Q : option (Z * nvm_buf_set) -> sys W -> Prop) :
  set_owned L p b s -> n <> 0 ->
  (forall q, q <> 0 -> (set_blocks p (upd q) ≡ₚ q :: set_blocks p b)) ->
  (forall q s', q <> 0 -> set_owned L p (upd q) s' -> wp (k (upd q)) s' Q) ->
  (forall s', heap_wf s' -> live s' = L -> Q None s') ->
  wp (buf_set_step spdk dev p n b upd k) s Q.
Proof.
  intros (Hwf & Hp & Hnd & Hd & H0 & Hl) Hn Hupd Hk HN.
  unfold buf_set_step. apply wp_bind. eapply wp_buf_alloc; [done..| |].
  - intros s' Hwf' Hl' _ _. cbn. apply wp_bind. eapply wp_mono.
    + apply (wp_buf_set_free L). unfold set_owned. rewrite Hl'. tauto.
    + intros [] s2 [? ?]. by apply wp_ret, HN.
  - intros q s' Hq Hfresh Hwf' Hl' _ _. rewrite (proj2 (Z.eqb_neq q 0)) by done.
    apply Hk; [done|]. specialize (Hupd q Hq). rewrite Hl in Hfresh, Hl'.
    unfold set_owned. split; [done|]. split; [done|]. split; [|split; [|split; [done|]]].
    + rewrite Hupd. apply NoDup_cons. split; [|done].
      intros Hin. apply Hfresh, elem_of_union_l. by apply elem_of_list_to_set.
    + intros r. rewrite Hupd. intros [->|Hr]%elem_of_cons; [|by apply Hd].
      intros Hin. by apply Hfresh, elem_of_union_r.
    + rewrite Hl'. assert (E : (list_to_set (set_blocks p (upd q)) : gset Z) =
        list_to_set (q :: set_blocks p b)) by (by apply list_to_set_perm_L).
      rewrite E. cbn. by rewrite union_assoc_L.
Qed.
End virt.

(** What the allocation of a set of [n] and [m] bytes promises, when the
    blocks of [L] were live before. *)
Definition set_post {W} (spdk : spdk_env W) (dev : nvm_dev) (n m : Z) (L : gset Z)
    (r : option (Z * nvm_buf_set)) (s : sys W) : Prop :=
  match r with
  | None => heap_wf s /\ live s = L
  | Some (p, b) =>
      (bs_nbytes b = n /\ bs_nbytes_meta b = m) /\
      (n <> 0 -> bs_write b <> 0 /\ bs_read b <> 0) /\
      (m <> 0 -> bs_write_meta b <> 0 /\ bs_read_meta b <> 0) /\
      NoDup (set_blocks p b) /\
      wp (nvm_buf_set_free spdk dev (Some (p, b))) s
        (fun _ s' => heap_wf s' /\ live s' = L)
  end.

Lemma filter_put (l1 l2 : list Z) q : q <> 0 ->
  filter (fun p => p <> 0) (l1 ++ q :: l2) ≡ₚ q :: filter (fun p => p <> 0) (l1 ++ 0 :: l2).
Proof.
  intros Hq. rewrite !filter_app, !filter_cons.
  rewrite decide_True, decide_False by (done || tauto).
  symmetry. apply Permutation_middle.
Qed.

Section set_alloc.
Context {W : Type} (spdk : spdk_env W) (dev : nvm_dev) (Hdev : alloc_ok spdk dev).
Implicit Types s : sys W.

Lemma set_done n m L p b s : set_owned L p b s ->
  bs_nbytes b = n -> bs_nbytes_meta b = m ->
  (n <> 0 -> bs_write b <> 0 /\ bs_read b <> 0) ->
  (m <> 0 -> bs_write_meta b <> 0 /\ bs_read_meta b <> 0) ->
  wp (mret (Some (p, b))) s (set_post spdk dev n m L).
Proof.
  intros Ho E1 E2 E3 E4. apply wp_ret.
  split; [done|]. split; [done|]. split; [done|]. split; [apply Ho|].
  by apply wp_buf_set_free.
Qed.

Lemma wp_set_alloc_meta n m L p w r s : set_owned L p (BufSet n 0 w 0 r 0) s ->
  (n <> 0 -> w <> 0 /\ r <> 0) ->
  wp (buf_set_alloc_meta spdk dev p m (BufSet n 0 w 0 r 0)) s (set_post spdk dev n m L).
Proof.
  intros Ho Hwr. unfold buf_set_alloc_meta. destruct (Z.eqb_spec m 0) as [->|Hm].
  { apply (set_done n 0 L); [done|done|done|exact Hwr|done]. }
  cbn. apply (wp_set_step spdk dev Hdev L); [exact Ho|done| | |by intros; split].
  { intros q Hq. apply (filter_put [w] [r; 0; p] q Hq). }
  intros q1 s1 Hq1 Ho1. cbn.
  apply (wp_set_step spdk dev Hdev L); [exact Ho1|done| | |by intros; split].
  { intros q Hq. apply (filter_put [w; q1; r] [p] q Hq). }
  intros q2 s2 Hq2 Ho2. apply (set_done n m L); [done|done|done|exact Hwr|by split].
Qed.

Lemma wp_set_alloc n m s : heap_wf s ->
  wp (nvm_buf_set_alloc spdk dev n m) s (set_post spdk dev n m (live s)).
Proof.
  intros Hwf. unfold nvm_buf_set_alloc. apply wp_bind.
  eapply (wp_buf_alloc spdk dev Hdev); [done|done|by intros|].
  intros p s1 Hp Hfresh Hwf1 Hl1 _ _. rewrite (proj2 (Z.eqb_neq p 0)) by done.
  assert (Ho : forall n, set_owned (live s) p (BufSet n 0 0 0 0 0) s1).
  { intros n'. assert (E : set_blocks p (BufSet n' 0 0 0 0 0) = [p])
      by (unfold set_blocks; rewrite !filter_cons; cbn [bs_write bs_write_meta bs_read bs_read_meta];
          rewrite !(decide_False (P := 0 <> 0)), decide_True by tauto; done).
    unfold set_owned. rewrite E. split; [done|]. split; [done|]. split; [apply NoDup_singleton|].
    split; [by intros q ->%list_elem_of_singleton|]. split; [intros ?%Hwf; lia|].
    rewrite Hl1. cbn. by rewrite union_empty_r_L. }
  destruct (Z.eqb_spec n 0) as [->|Hn].
  { apply wp_set_alloc_meta; [apply Ho|done]. }
  cbn. apply (wp_set_step spdk dev Hdev (live s)); [apply Ho|done| | |by intros; split].
  { intros q Hq. apply (filter_put [] [0; 0; 0; p] q Hq). }
  intros q1 s2 Hq1 Ho1. cbn.
  apply (wp_set_step spdk dev Hdev (live s)); [exact Ho1|done| | |by intros; split].
  { intros q Hq. apply (filter_put [q1; 0] [0; p] q Hq). }
  intros q2 s3 Hq2 Ho2. by apply wp_set_alloc_meta.
Qed.
End set_alloc.

(** ** Properties *)

(** Allocating a buffer set leaks nothing on a device whose buffers
    are heap blocks (any backend on the C allocator, or SPDK's). When any of its up to five allocations fails, all the
    blocks obtained before are released and the answer is [NULL]; otherwise
    every requested buffer is there, each in a block of its own, and freeing
    the set releases exactly what its allocation took. *)
Theorem buf_set_alloc_no_leak W (spdk : spdk_env W) dev n m (s : sys W)
  (Hdev : alloc_ok spdk dev) (Hwf : heap_wf s) :
  wp (nvm_buf_set_alloc spdk dev n m) s (set_post spdk dev n m (live s)).
Proof. by apply wp_set_alloc. Qed.

(** ** Witnesses *)

(** Six requests served and then no more. *)
Definition sample_heap (k : Z) : heap := Heap 7 {[3; 5]} (fun n => n <? k).

Lemma sample_heap_wf k W (w : W) : heap_wf (Sys 0 (sample_heap k) w).
Proof. split; [split; cbn; [lia|]|done]. unfold live. cbn. intros p Hp. set_solver by lia. Qed.

Lemma buf_set_alloc_no_leak_witness :
  wp (nvm_buf_set_alloc spdk_stub sample20 4096 0) (Sys 0 (sample_heap 9) tt)
    (set_post spdk_stub sample20 4096 0 {[3; 5]}).
Proof.
  apply (buf_set_alloc_no_leak unit spdk_stub sample20 4096 0 (Sys 0 (sample_heap 9) tt));
    [by apply virt_alloc_ok; left|apply sample_heap_wf].
Defined.
