(* ===== verification/Be.v ===== *)
(** Choosing a backend and deriving the handle's attributes from the identify
    data, [src/nvm_be.c]. *)
From stdpp Require Import base numbers strings gmap option list.
From S2P Require Import Prelude Types Nvme Addr Dev Backend Buf.

(** ** Names *)

Definition ascii_lower (c : Ascii.ascii) : Ascii.ascii :=
  let n := Ascii.nat_of_ascii c in
  if (65 <=? n)%nat && (n <=? 90)%nat then Ascii.ascii_of_nat (n + 32) else c.

(** [strcasecmp(s, t) == 0] *)
Fixpoint strcaseeq (s t : string) : bool :=
  match s, t with
  | EmptyString, EmptyString => true
  | String a s, String b t => bool_decide (ascii_lower a = ascii_lower b) && strcaseeq s t
  | _, _ => false
  end.

(** [strncmp(s, t, n) == 0] *)
Fixpoint strneq (n : nat) (s t : string) : bool :=
  match n with
  | O => true
  | S n =>
      match s, t with
      | EmptyString, EmptyString => true
      | String a s, String b t => bool_decide (a = b) && strneq n s t
      | _, _ => false
      end
  end.

Section names.
Context {W : Type} (nvm_be_imps : list (nvm_be W)).

Fixpoint name2id (imps : list (nvm_be W)) (bname : string) : Z :=
  match imps with
  | [] => -1
  | be :: imps => if strcaseeq bname (name be) then bid be else name2id imps bname
  end.
Definition nvm_be_name2id (bname : string) : Z := name2id nvm_be_imps bname.

Fixpoint id2name (imps : list (nvm_be W)) (id : Z) : string :=
  match imps with
  | [] => ""
  | be :: imps => if bid be =? id then name be else id2name imps id
  end.
Definition nvm_be_id2name (id : Z) : string := id2name nvm_be_imps id.
End names.

(** [atoi] of the string that starts at the last character. *)
Definition atoi_last (s : string) : Z :=
  match String.get (String.length s - 1) s with
  | None => 0
  | Some c =>
      let n := Ascii.nat_of_ascii c in
      if (48 <=? n)%nat && (n <=? 57)%nat then Z.of_nat (n - 48) else 0
  end.

(** The status, and the name and the namespace id it stores on success. *)
Definition nvm_be_split_dpath {W} (dev_path : string) : M W (Z * option (string * Z)) :=
  let prefix := "/dev/nvme" in
  let prefix_len := String.length prefix in
  if (String.length dev_path <? prefix_len + 3)%nat then fail EINVAL (-1, None)
  else if negb (strneq prefix_len prefix dev_path) then fail EINVAL (-1, None)
  else
    let val := atoi_last dev_path in
    if (val <? 1) || (1024 <? val) then fail EINVAL (-1, None)
    else mret (0, Some (String.substring 5 5 dev_path, val)).

(** ** Masks *)

(** [while (x >>= 1) val++;] *)
Fixpoint ilog2_loop (fuel : nat) (x val : Z) : option Z :=
  let x := Z.shiftr x 1 in
  if x =? 0 then Some val
  else match fuel with O => None | S fuel => ilog2_loop fuel x (u64 (val + 1)) end.

(** A 64-bit word is 0 after at most 64 shifts. *)
Definition _ilog2 (x : Z) : option Z := ilog2_loop 64 x 0.

(** [(((uint64_t)1 << width) - 1) << off] *)
Definition width_mask (width off : Z) : Z := shl64 (u64 (shl64 1 width - 1)) off.

(** The loop over [a] pairs each length with the offset before it. *)
Definition construct_ppaf_mask (p : nvm_spec_ppaf_nand) : nvm_spec_ppaf_nand_mask :=
  Mask (width_mask (ch_len p) (ch_off p)) (width_mask (lun_len p) (lun_off p))
    (width_mask (pl_len p) (pl_off p)) (width_mask (blk_len p) (blk_off p))
    (width_mask (pg_len p) (pg_off p)) (width_mask (sec_len p) (sec_off p)).

Section populate.
Context {W : Type} (spdk : spdk_env W).

(** ** Quirks *)

(** [meta_nbytes > sector_nbytes * 0.1]: on sector sizes below 2^48 the
    product in double precision and the exact one compare alike with an
    integer. *)
Definition oob_2lrg (g : nvm_geo) : bool := sector_nbytes g <? 10 * meta_nbytes g.

Definition set_meta_nbytes (x : Z) (g : nvm_geo) : nvm_geo :=
  Geo (nchannels g) (nluns g) (nblocks g) (nsectors g) (sector_nbytes g) x
    (nplanes g) (npages g) (page_nbytes g) (tbytes g) (geo_verid g).

Definition nvm_be_populate_quirks (dev : nvm_dev) (serial : string) : M W (Z * nvm_dev) :=
  let serial_len := String.length serial in
  if strneq (if (8 <? serial_len)%nat then 8%nat else serial_len) "CX8800ES" serial then
    let dev := with_quirks (Z.lor (quirks dev) NVM_QUIRK_PMODE_ERASE_RUNROLL) dev in
    let dev :=
      if verid dev =? NVM_SPEC_VERID_12 then
        with_quirks (Z.lor (quirks dev) NVM_QUIRK_OOB_2LRG) dev
      else if verid dev =? NVM_SPEC_VERID_20 then
        with_quirks (Z.lor (quirks dev) NVM_QUIRK_OOB_READ_1ST4BYTES_NULL) dev
      else dev in
    let dev :=
      if negb (Z.land (quirks dev) NVM_QUIRK_OOB_2LRG =? 0) && oob_2lrg (geo dev)
      then with_geo (set_meta_nbytes 16 (geo dev)) dev
      else dev in
    mret (0, dev)
  else mret (0, dev).

(** ** Derived attributes *)

Definition set_nsectors (x : Z) (g : nvm_geo) : nvm_geo :=
  Geo (nchannels g) (nluns g) (nblocks g) x (sector_nbytes g) (meta_nbytes g)
    (nplanes g) (npages g) (page_nbytes g) (tbytes g) (geo_verid g).
Definition set_tbytes (x : Z) (g : nvm_geo) : nvm_geo :=
  Geo (nchannels g) (nluns g) (nblocks g) (nsectors g) (sector_nbytes g) (meta_nbytes g)
    (nplanes g) (npages g) (page_nbytes g) x (geo_verid g).

(** [a * b * ...] on [size_t] *)
Definition mul64 (l : list Z) : Z := foldl (fun acc x => u64 (acc * x)) 1 l.

(** The four setters at the end, whose answers are not looked at. *)
Definition set_defaults (dev : nvm_dev) : M W (Z * nvm_dev) :=
  '(_, dev) ← nvm_dev_set_erase_naddrs_max dev NVM_NADDR_MAX;
  '(_, dev) ← nvm_dev_set_write_naddrs_max dev NVM_NADDR_MAX;
  '(_, dev) ← nvm_dev_set_read_naddrs_max dev NVM_NADDR_MAX;
  '(_, dev) ← nvm_dev_set_meta_mode dev NVM_META_MODE_NONE;
  mret (0, dev).

Definition nvm_be_populate_derived (dev : nvm_dev) : M W (Z * nvm_dev) :=
  let g := geo dev in
  if verid dev =? NVM_SPEC_VERID_12 then
    if sector_nbytes g =? 0 then crash
    else
      let g := set_nsectors (page_nbytes g / sector_nbytes g) g in
      let g := set_tbytes (mul64 [nchannels g; nluns g; nplanes g; nblocks g; npages g;
                                  nsectors g; sector_nbytes g]) g in
      ssw ← lift (_ilog2 (sector_nbytes g));
      let dev := with_ssw ssw (with_geo g dev) in
      if nplanes g =? 4 then
        '(_, dev) ← nvm_dev_set_pmode dev NVM_FLAG_PMODE_QUAD; set_defaults dev
      else if nplanes g =? 2 then
        '(_, dev) ← nvm_dev_set_pmode dev NVM_FLAG_PMODE_DUAL; set_defaults dev
      else if nplanes g =? 1 then
        '(_, dev) ← nvm_dev_set_pmode dev NVM_FLAG_PMODE_SNGL; set_defaults dev
      else fail EINVAL (-1, dev)
  else if verid dev =? NVM_SPEC_VERID_20 then
    let g := set_tbytes (mul64 [npugrp g; npunit g; nchunk g; nsectr g; nbytes g]) g in
    ssw ← lift (_ilog2 (nbytes g));
    set_defaults (with_ssw ssw (with_geo g dev))
  else set_defaults dev.

(** ** Populating a handle *)

Definition populate_s12 (idfy : nvm_spec_idfy) (dev : nvm_dev) : nvm_dev :=
  let grp := s12_grp0 idfy in
  let g := geo dev in
  let dev := with_geo (Geo (num_ch grp) (num_lun grp) (num_blk grp) (nsectors g) (csecs grp)
    (sos grp) (num_pln grp) (num_pg grp) (fpg_sz grp) (tbytes g) (geo_verid g)) dev in
  let dev := with_mccap (cgrp_mccap grp) dev in
  let dev := with_ppaf (s12_ppaf idfy) dev in
  with_mask (construct_ppaf_mask (ppaf dev)) dev.

(** [1 << lbaf.ds] is an [int]: undefined from bit 31 on. *)
Definition populate_s20 (idfy : nvm_spec_idfy) (dev : nvm_dev) : option nvm_dev :=
  let lgeo := s20_lgeo idfy in
  let g := geo dev in
  nlbaf ← ns_lbaf (dev_ns dev) !! Z.to_nat (Z.land (flbas (dev_ns dev)) 0xf);
  if 31 <=? ds nlbaf then None
  else
    let dev := with_geo (Geo (lgeo_npugrp lgeo) (lgeo_npunit lgeo) (lgeo_nchunk lgeo)
      (lgeo_nsectr lgeo) (Z.shiftl 1 (ds nlbaf)) (ms nlbaf) (nplanes g) (npages g)
      (page_nbytes g) (tbytes g) (geo_verid g)) dev in
    let dev := with_mccap (s20_mccap idfy) dev in
    let f := s20_lbaf idfy in
    let dev := with_lbaf f dev in
    let chunk := lbaf_sectr f in
    let punit := u64 (chunk + lbaf_chunk f) in
    let pugrp := u64 (punit + lbaf_punit f) in
    let dev := with_lbaz (Lbaz pugrp punit chunk 0) dev in
    Some (with_lbam (Lbam (width_mask (lbaf_pugrp f) pugrp) (width_mask (lbaf_punit f) punit)
      (width_mask (lbaf_chunk f) chunk) (width_mask (lbaf_sectr f) 0)) dev).

(** A handle whose [be] is [NULL] is recorded with the identifier
    [NVM_BE_ANY], which no backend has. *)
Definition populate_failed (dev : nvm_dev) (p : Z) : M W (Z * nvm_dev) :=
  _ ← nvm_buf_free spdk dev p;
  mret (-1, with_be_id NVM_BE_ANY dev).

Definition set_verid (v : Z) (g : nvm_geo) : nvm_geo :=
  Geo (nchannels g) (nluns g) (nblocks g) (nsectors g) (sector_nbytes g) (meta_nbytes g)
    (nplanes g) (npages g) (page_nbytes g) (tbytes g) v.

Definition set_idfy_verid (v : Z) (i : nvm_spec_idfy) : nvm_spec_idfy :=
  Idfy v (s12_grp0 i) (s12_ppaf i) (s20_mccap i) (s20_lbaf i) (s20_lgeo i) (s20_wrt i).

(** The end of [nvm_be_populate], common to both versions. *)
Definition populate_finish (dev : nvm_dev) (p : Z) : M W (Z * nvm_dev) :=
  '(err, dev) ← nvm_be_populate_derived dev;
  if negb (err =? 0) then populate_failed dev p
  else
    '(err, dev) ← nvm_be_populate_quirks dev "";
    if negb (err =? 0) then populate_failed dev p
    else _ ← nvm_buf_free spdk dev p; mret (0, dev).

Definition nvm_be_populate (dev : nvm_dev) (be : nvm_be W) : M W (Z * nvm_dev) :=
  let dev := with_be_id (bid be) dev in
  '(idfy, _) ← be_idfy be dev None;
  match idfy with
  | None => mret (-1, dev)
  | Some (p, idfy) =>
      let idfy := if idfy_verid idfy =? 3 then set_idfy_verid NVM_SPEC_VERID_20 idfy else idfy in
      let dev := with_idfy idfy dev in
      let dev := with_verid (idfy_verid idfy) (with_geo (set_verid (idfy_verid idfy) (geo dev)) dev) in
      if idfy_verid idfy =? NVM_SPEC_VERID_12 then populate_finish (populate_s12 idfy dev) p
      else if idfy_verid idfy =? NVM_SPEC_VERID_20 then
        dev ← lift (populate_s20 idfy dev); populate_finish dev p
      else _ ← set_errno ENOSYS; populate_failed dev p
  end.
End populate.

(** ** The factory *)

Section factory.
Context {W : Type} (nvm_be_imps : list (nvm_be W)) (getenv_NVM_BE : option string).

Fixpoint factory_loop (imps : list (nvm_be W)) (id : Z) (dev_ident : string) (flags : Z)
    : M W (option (boxed nvm_dev)) :=
  match imps with
  | [] => mret None
  | be :: imps =>
      if negb (id =? 0) && (Z.land (bid be) id =? 0) then factory_loop imps id dev_ident flags
      else
        dev ← be_open be dev_ident flags;
        match dev with
        | None => factory_loop imps id dev_ident flags
        | Some (d, dev) => mret (Some (d, with_be_id (bid be) dev))
        end
  end.

Definition nvm_be_factory (dev_ident : string) (flags : Z) : M W (option (boxed nvm_dev)) :=
  let id := Z.land flags NVM_BE_ALL in
  let id := if id =? NVM_BE_ANY then
      match getenv_NVM_BE with Some nm => nvm_be_name2id nvm_be_imps nm | None => id end
    else id in
  if (id =? NVM_BE_IOCTL) || (id =? NVM_BE_LBD) || (id =? NVM_BE_SPDK) ||
     (id =? NVM_BE_NOCD) || (id =? NVM_BE_ANY)
  then factory_loop nvm_be_imps id dev_ident flags
  else mret None.
End factory.

(** ** Logarithm and masks *)

Lemma ilog2_loop_log2 fuel x val :
  0 < x -> Z.log2 x < Z.of_nat fuel -> 0 <= val -> val + Z.log2 x < 2 ^ 64 ->
  ilog2_loop fuel x val = Some (val + Z.log2 x).
Proof.
  revert x val. induction fuel as [|fuel IH]; intros x val Hx Hf Hv Hb.
  - pose proof (Z.log2_nonneg x). lia.
  - cbn [ilog2_loop]. pose proof (Z.log2_nonneg x).
    destruct (Z.eqb_spec (Z.shiftr x 1) 0) as [E|E].
    + apply Z.shiftr_eq_0_iff in E as [?|[_ E]]; [lia|]. f_equal. lia.
    + assert (Hs : Z.log2 (Z.shiftr x 1) = Z.log2 x - 1).
      { rewrite Z.log2_shiftr by done. 
        destruct (Z.le_gt_cases 1 (Z.log2 x)); [lia|].
        exfalso. apply E. apply Z.shiftr_eq_0_iff. right. lia. }
      assert (0 < Z.shiftr x 1) by (pose proof (proj2 (Z.shiftr_nonneg x 1) ltac:(lia)); lia).
      pose proof (Z.log2_nonneg (Z.shiftr x 1)).
      rewrite wrap_id by lia. rewrite IH; [f_equal; lia|lia..].
Qed.

Lemma ilog2_log2 x : 0 < x < 2 ^ 64 -> _ilog2 x = Some (Z.log2 x).
Proof.
  intros Hx. assert (Z.log2 x < 64) by (apply Z.log2_lt_pow2; lia).
  pose proof (Z.log2_nonneg x).
  unfold _ilog2. rewrite ilog2_loop_log2; [f_equal; lia|lia..].
Qed.

Lemma width_mask_ok w off : 0 <= off -> 0 <= w < 64 -> off + w <= 64 ->
  width_mask w off = bit_mask off w.
Proof.
  intros Ho Hw Hs. unfold width_mask, bit_mask.
  assert (0 < 2 ^ w) by lia.
  assert (E : shl64 1 w = 2 ^ w).
  { unfold shl64. rewrite Z.shiftl_1_l. apply wrap_id. split; [lia|]. apply Z.pow_lt_mono_r; lia. }
  rewrite E.
  assert (2 ^ w < 2 ^ 64) by (apply Z.pow_lt_mono_r; lia).
  rewrite (wrap_id 64) by lia. replace (2 ^ w - 1) with (Z.ones w) by (rewrite Z.ones_equiv; lia).
  apply (shl64_exact _ _ w); [lia..|]. rewrite Z.ones_equiv. lia.
Qed.

(** ** What identify data may report *)

(** A 2.0 format: every field within the bits the generic address has for it. *)
Record s20_idfy_ok (ns : nvm_nvme_ns) (i : nvm_spec_idfy) (nlbaf : nvm_nvme_lbaf) : Prop := {
  si_sectr : 0 <= lbaf_sectr (s20_lbaf i) <= 32;
  si_chunk : 0 <= lbaf_chunk (s20_lbaf i) <= 16;
  si_punit : 0 <= lbaf_punit (s20_lbaf i) <= 8;
  si_pugrp : 0 <= lbaf_pugrp (s20_lbaf i) <= 8;
  si_lbaf : ns_lbaf ns !! Z.to_nat (Z.land (flbas ns) 0xf) = Some nlbaf;
  si_ds : 0 <= ds nlbaf < 31 }.

Lemma populate_s20_fmt i dev nlbaf : s20_idfy_ok (dev_ns dev) i nlbaf ->
  verid dev = NVM_SPEC_VERID_20 ->
  exists dev', populate_s20 i dev = Some dev' /\ lba_fmt_ok dev' /\
    verid dev' = NVM_SPEC_VERID_20 /\ opts dev' = opts dev /\ be_id dev' = be_id dev /\
    lbaf dev' = s20_lbaf i /\ nbytes (geo dev') = 2 ^ ds nlbaf /\ nbytes_oob (geo dev') = ms nlbaf /\
    npugrp (geo dev') = lgeo_npugrp (s20_lgeo i) /\ npunit (geo dev') = lgeo_npunit (s20_lgeo i) /\
    nchunk (geo dev') = lgeo_nchunk (s20_lgeo i) /\ nsectr (geo dev') = lgeo_nsectr (s20_lgeo i).
Proof.
  intros [H1 H2 H3 H4 H5 H6] Hv. unfold populate_s20. cbn zeta. rewrite H5. cbn.
  rewrite (proj2 (Z.leb_gt 31 (ds nlbaf))) by lia.
  rewrite (wrap_id 64 (lbaf_sectr _ + _)) by lia.
  rewrite (wrap_id 64 (lbaf_sectr _ + _ + _)) by lia.
  eexists. split; [reflexivity|]. split.
  - constructor; cbn; unfold field_ok; try lia; try done;
      apply width_mask_ok; lia.
  - cbn. unfold nbytes, nbytes_oob, npugrp, npunit, nchunk, nsectr. cbn.
    rewrite Z.shiftl_1_l. intuition.
Qed.

(** A 1.2 format: every field within the bits the generic address has for it. *)
Record s12_idfy_ok (i : nvm_spec_idfy) : Prop := {
  pi_ch : field_ok (ch_off (s12_ppaf i)) (ch_len (s12_ppaf i)) 8;
  pi_lun : field_ok (lun_off (s12_ppaf i)) (lun_len (s12_ppaf i)) 8;
  pi_pl : field_ok (pl_off (s12_ppaf i)) (pl_len (s12_ppaf i)) 8;
  pi_blk : field_ok (blk_off (s12_ppaf i)) (blk_len (s12_ppaf i)) 16;
  pi_pg : field_ok (pg_off (s12_ppaf i)) (pg_len (s12_ppaf i)) 16;
  pi_sec : field_ok (sec_off (s12_ppaf i)) (sec_len (s12_ppaf i)) 8;
  pi_csecs : 0 < csecs (s12_grp0 i) < 2 ^ 16;
  pi_fpg : csecs (s12_grp0 i) <= fpg_sz (s12_grp0 i) < 2 ^ 16 }.

(** Its masks, and where it is one the conversions invert on. *)
Lemma populate_s12_mask i dev : s12_idfy_ok i -> mask (populate_s12 i dev) =
  let f := s12_ppaf i in
  Mask (bit_mask (ch_off f) (ch_len f)) (bit_mask (lun_off f) (lun_len f)) (bit_mask (pl_off f) (pl_len f))
    (bit_mask (blk_off f) (blk_len f)) (bit_mask (pg_off f) (pg_len f)) (bit_mask (sec_off f) (sec_len f)).
Proof.
  intros []. cbn.
  unfold field_ok in *. unfold construct_ppaf_mask. rewrite !width_mask_ok by lia. done.
Qed.

Lemma populate_s12_fmt i dev : s12_idfy_ok i -> ForallOrdPairs apart (ppaf_fields (s12_ppaf i)) ->
  verid dev = NVM_SPEC_VERID_12 -> nand_fmt_ok (populate_s12 i dev).
Proof.
  intros Hok Ha Hv. pose proof (populate_s12_mask i dev Hok). destruct Hok.
  constructor; cbn; try done. by rewrite Hv.
Qed.

(** ** Limits at their defaults *)

Section defaults.
Context {W : Type}.
Implicit Types s : sys W.

Definition default_opts (p : Z) : vblk_opts :=
  VblkOpts p NVM_NADDR_MAX NVM_NADDR_MAX NVM_NADDR_MAX NVM_META_MODE_NONE.

(** What the default limits need of a device. *)
Definition limits_fit (dev : nvm_dev) : Prop :=
  (verid dev = NVM_SPEC_VERID_20 /\ pmode (opts dev) = 0) \/
  (verid dev = NVM_SPEC_VERID_12 /\ counts_ok (geo dev) /\
   (nplanes (geo dev) * nsectors (geo dev) | NVM_NADDR_MAX)).

Lemma umod_64 k : 0 < k -> (k | 64) -> umod 64 k = Some 0.
Proof.
  intros Hk Hd. unfold umod. rewrite (proj2 (Z.eqb_neq k 0)), wrap_id by lia.
  f_equal. apply Z.mod_divide; [lia|done].
Qed.

Lemma set_defaults_ok dev s : limits_fit dev ->
  set_defaults dev s = Some (0, with_opts (default_opts (pmode (opts dev))) dev, s).
Proof.
  intros Hfit. unfold set_defaults. unfold mbind, M_bind. cbn.
  unfold nvm_dev_set_write_naddrs_max. cbn.
  destruct Hfit as [[-> Hp]|(-> & [H1 H2] & Hd)]; cbn.
  - unfold nvm_dev_set_read_naddrs_max. cbn. apply Z.eqb_eq in Hp. rewrite Hp. reflexivity.
  - assert ((nsectors (geo dev) | 64)) by (eapply Z.divide_trans; [apply Z.divide_factor_r|exact Hd]).
    assert ((nplanes (geo dev) | 64)) by (eapply Z.divide_trans; [apply Z.divide_factor_l|exact Hd]).
    assert (0 < nplanes (geo dev) * nsectors (geo dev) < 2 ^ 64) by nia.
    unfold nvm_dev_set_read_naddrs_max. cbn. change NVM_NADDR_MAX with 64.
    rewrite (wrap_id 64 (nplanes (geo dev) * nsectors (geo dev))) by lia.
    destruct (pmode (opts dev) =? 0) eqn:E;
      repeat (cbn; unfold mbind, M_bind; rewrite ?E, ?umod_64 by (lia || done)); done.
Qed.

Lemma derived_20 dev s : verid dev = NVM_SPEC_VERID_20 -> pmode (opts dev) = 0 ->
  0 < nbytes (geo dev) < 2 ^ 64 ->
  exists dev', nvm_be_populate_derived dev s = Some (0, dev', s) /\
    dev' = with_opts (default_opts 0) (with_ssw (Z.log2 (nbytes (geo dev)))
      (with_geo (set_tbytes (mul64 [npugrp (geo dev); npunit (geo dev); nchunk (geo dev);
         nsectr (geo dev); nbytes (geo dev)]) (geo dev)) dev)).
Proof.
  intros Hv Hp Hn. unfold nvm_be_populate_derived. cbn zeta. rewrite Hv.
  cbn [Z.eqb Pos.eqb NVM_SPEC_VERID_12 NVM_SPEC_VERID_20].
  change (nbytes (set_tbytes _ _)) with (nbytes (geo dev)). rewrite ilog2_log2 by done.
  eexists. split; [|reflexivity].
  unfold mbind, M_bind, lift. rewrite set_defaults_ok by (left; split; done). cbn. by rewrite Hp.
Qed.
End defaults.

(** The mode of a 1.2 device with [n] planes. *)
Definition planes_pmode (n : Z) : Z :=
  if n =? 4 then NVM_FLAG_PMODE_QUAD else if n =? 2 then NVM_FLAG_PMODE_DUAL else NVM_FLAG_PMODE_SNGL.

Definition derived_geo (g : nvm_geo) : nvm_geo :=
  let g := set_nsectors (page_nbytes g / sector_nbytes g) g in
  set_tbytes (mul64 [nchannels g; nluns g; nplanes g; nblocks g; npages g; nsectors g;
                     sector_nbytes g]) g.

#[local] Arguments set_defaults {W} dev : simpl never.

(** The handle a 1.2 derivation sets the limits of. *)
Definition derived_dev (dev : nvm_dev) : nvm_dev :=
  with_pmode (planes_pmode (nplanes (geo dev)))
    (with_ssw (Z.log2 (sector_nbytes (geo dev))) (with_geo (derived_geo (geo dev)) dev)).

Lemma derived_12_eq {W} dev (s : sys W) : verid dev = NVM_SPEC_VERID_12 ->
  0 < sector_nbytes (geo dev) < 2 ^ 64 ->
  (nplanes (geo dev) = 1 \/ nplanes (geo dev) = 2 \/ nplanes (geo dev) = 4) ->
  nvm_be_populate_derived dev s = set_defaults (derived_dev dev) s.
Proof.
  intros Hv Hs Hpl. unfold nvm_be_populate_derived, derived_dev. cbn zeta. rewrite Hv.
  cbn [Z.eqb Pos.eqb NVM_SPEC_VERID_12].
  rewrite (proj2 (Z.eqb_neq (sector_nbytes (geo dev)) 0)) by lia.
  change (sector_nbytes (set_tbytes _ _)) with (sector_nbytes (geo dev)).
  change (nplanes (set_tbytes _ _)) with (nplanes (geo dev)).
  rewrite ilog2_log2 by done. fold (derived_geo (geo dev)).
  unfold mbind, M_bind, lift, planes_pmode, nvm_dev_set_pmode.
  destruct Hpl as [E|[E|E]]; rewrite E; cbn; rewrite ?E; cbn; done.
Qed.

Lemma derived_nsectors dev : 0 < sector_nbytes (geo dev) ->
  sector_nbytes (geo dev) <= page_nbytes (geo dev) < 2 ^ 32 ->
  0 < page_nbytes (geo dev) / sector_nbytes (geo dev) < 2 ^ 32.
Proof.
  intros H1 H2. split; [apply Z.div_str_pos; lia|]. apply Z.div_lt_upper_bound; [lia|nia].
Qed.

(** The limits of a 1.2 device. The write limit is that of a command when a
    multi-plane page divides it, and else stays what it was. *)
Definition s12_opts (p w k : Z) : vblk_opts :=
  VblkOpts p NVM_NADDR_MAX NVM_NADDR_MAX (if NVM_NADDR_MAX mod k =? 0 then NVM_NADDR_MAX else w) NVM_META_MODE_NONE.

Lemma wp_set_defaults_12 {W} dev (s : sys W) Q : counts_ok (geo dev) -> verid dev = NVM_SPEC_VERID_12 ->
  (nplanes (geo dev) | NVM_NADDR_MAX) -> (pmode (opts dev) = 0 -> nplanes (geo dev) = 1) ->
  (forall s', hp s' = hp s -> world s' = world s ->
     Q (0, with_opts (s12_opts (pmode (opts dev)) (write_naddrs_max (opts dev)) (nplanes (geo dev) * nsectors (geo dev))) dev) s') ->
  wp (set_defaults dev) s Q.
Proof.
  intros Hc Hv Hpl H1 HQ. pose proof (counts_dev_ok dev Hc) as Hd. destruct Hc as [Hp Hs].
  set (k := nplanes (geo dev) * nsectors (geo dev)) in *. assert (Hk : 0 < k) by (unfold k; nia).
  unfold set_defaults. apply wp_bind. eapply wp_mono; [apply set_erase_spec|].
  intros r s1 [(-> & -> & _)|(_ & _ & N)]; [|exfalso; by apply N].
  set (d1 := with_erase_naddrs_max _ _). assert (Hd1 : dev_counts_ok d1) by exact Hd.
  assert (Hw : write_max_ok (with_write_naddrs_max NVM_NADDR_MAX d1) <-> NVM_NADDR_MAX mod k = 0).
  { rewrite Z.mod_divide by lia. unfold write_max_ok. cbn. rewrite Hv. split.
    - intros (_ & H). destruct (H ltac:(done)) as [H2 H3]. destruct (decide (pmode (opts dev) = 0)) as [E|E]; [|by apply H3].
      unfold k. by rewrite H1, Z.mul_1_l by done.
    - intros H. split; [done|]. intros _. split; [|done]. eapply Z.divide_trans; [apply Z.divide_factor_r|exact H]. }
  assert (Hend : forall d2 s2, opts d2 = VblkOpts (pmode (opts dev)) NVM_NADDR_MAX (read_naddrs_max (opts dev))
      (write_naddrs_max (s12_opts (pmode (opts dev)) (write_naddrs_max (opts dev)) k)) (meta_mode (opts dev)) ->
      with_opts (opts dev) d2 = dev -> hp s2 = hp s -> world s2 = world s ->
    wp ('(_, dev) ← nvm_dev_set_read_naddrs_max d2 NVM_NADDR_MAX; '(_, dev) ← nvm_dev_set_meta_mode dev NVM_META_MODE_NONE;
        mret (0, dev)) s2 Q).
  { intros d2 s2 E1 E2 E3 E4. assert (Eg : geo d2 = geo dev) by (by rewrite <-E2). assert (Ev : verid d2 = verid dev) by (by rewrite <-E2).
    apply wp_bind. eapply wp_mono; [apply set_read_spec; split; rewrite ?E1, ?Eg, ?Ev; apply Hd|].
    intros r s3 [(-> & -> & _)|(_ & _ & N)]; [|destruct N; split; [done|cbn; by rewrite Eg]].
    apply wp_bind. eapply wp_mono; [apply set_meta_spec|].
    intros r s4 [(-> & -> & _)|(_ & _ & N)]; [|destruct N; by left]. apply wp_ret.
    eassert (with_meta_mode NVM_META_MODE_NONE (with_read_naddrs_max NVM_NADDR_MAX d2) = with_opts _ dev) as ->; [|by apply HQ].
    rewrite <-E2. unfold with_meta_mode, with_read_naddrs_max, with_opts. cbn. rewrite E1. reflexivity. }
  apply wp_bind. eapply wp_mono; [by apply set_write_spec|]. unfold s12_opts in Hend.
  destruct (Z.eqb_spec (NVM_NADDR_MAX mod k) 0) as [E|E].
  - intros r s2 [(-> & -> & _)|(_ & _ & N)]; [|destruct N; by apply Hw]. apply Hend; try done. by destruct dev.
  - intros r s2 [(_ & _ & N)|(-> & -> & _)]; [destruct E; by apply Hw|]. apply Hend; try done. by destruct dev.
Qed.

Lemma wp_derived_12 {W} dev (s : sys W) Q : verid dev = NVM_SPEC_VERID_12 ->
  0 < sector_nbytes (geo dev) < 2 ^ 64 ->
  sector_nbytes (geo dev) <= page_nbytes (geo dev) < 2 ^ 32 ->
  (nplanes (geo dev) = 1 \/ nplanes (geo dev) = 2 \/ nplanes (geo dev) = 4) ->
  (forall s', hp s' = hp s -> world s' = world s ->
     Q (0, with_opts (s12_opts (planes_pmode (nplanes (geo dev))) (write_naddrs_max (opts dev))
            (nplanes (geo dev) * (page_nbytes (geo dev) / sector_nbytes (geo dev))))
        (with_ssw (Z.log2 (sector_nbytes (geo dev))) (with_geo (derived_geo (geo dev)) dev))) s') ->
  wp (nvm_be_populate_derived dev) s Q.
Proof.
  intros Hv Hs Hpg Hpl HQ. eapply wp_ext; [by apply derived_12_eq|].
  pose proof (derived_nsectors dev (proj1 Hs) Hpg).
  apply wp_set_defaults_12; [split; cbn; lia|done| | |exact HQ].
  - cbn. destruct Hpl as [->|[->| ->]]; [by exists 64|by exists 32|by exists 16].
  - cbn. unfold planes_pmode. destruct Hpl as [->|[->| ->]]; done.
Qed.

(** A write limit that does not fit is not set, and the answer is still 0. *)
Lemma set_defaults_lost {W} dev (s : sys W) : counts_ok (geo dev) ->
  verid dev <> NVM_SPEC_VERID_20 -> ~ (nsectors (geo dev) | NVM_NADDR_MAX) ->
  wp (set_defaults dev) s (fun '(err, dev') _ =>
    err = 0 /\ write_naddrs_max (opts dev') = write_naddrs_max (opts dev)).
Proof.
  intros Hc%counts_dev_ok Hv Hbad. unfold set_defaults. apply wp_bind.
  eapply wp_mono; [apply set_erase_spec|]. intros r s1 [(-> & -> & _)|(_ & _ & N)].
  2: { exfalso. by apply N. }
  set (d1 := with_erase_naddrs_max _ _).
  assert (Hw : ~ write_max_ok (with_write_naddrs_max NVM_NADDR_MAX d1)).
  { intros (_ & Hd). by apply Hbad, Hd. }
  apply wp_bind. eapply wp_mono; [by apply set_write_spec|].
  intros r s2 [(_ & _ & N)|(-> & -> & _)]; [done|].
  apply wp_bind. eapply wp_mono; [by apply set_read_spec|].
  intros r s3 [(-> & _)|(-> & _)]; apply wp_bind; cbn; split; done.
Qed.

(** ** Populating *)

Section populate.
Context {W : Type} (spdk : spdk_env W).
Implicit Types s : sys W.

Lemma quirks_empty_serial dev s : quirks dev = 0 ->
  exists dev', nvm_be_populate_quirks dev "" s = Some (0, dev', s) /\
    verid dev' = verid dev /\ opts dev' = opts dev /\ be_id dev' = be_id dev /\
    ssw dev' = ssw dev /\ lbaf dev' = lbaf dev /\ lbaz dev' = lbaz dev /\ lbam dev' = lbam dev /\
    ppaf dev' = ppaf dev /\ mask dev' = mask dev /\
    Z.testbit (quirks dev') 0 = true /\
    geo dev' = (if (verid dev =? NVM_SPEC_VERID_12) && oob_2lrg (geo dev)
                then set_meta_nbytes 16 (geo dev) else geo dev).
Proof.
  intros Hq. unfold nvm_be_populate_quirks. cbn [strneq String.length Nat.ltb Nat.leb].
  rewrite Hq.
  destruct (Z.eqb_spec (verid dev) NVM_SPEC_VERID_12) as [E|E]; cbn.
  - rewrite E. cbn. destruct (oob_2lrg (geo dev)); (eexists; split; [reflexivity|]);
      cbn; rewrite ?E; repeat split; done.
  - rewrite (proj2 (Z.eqb_neq _ _) E). cbn.
    destruct (Z.eqb_spec (verid dev) NVM_SPEC_VERID_20); (eexists; split; [reflexivity|]);
      cbn; repeat split; done.
Qed.

(** The fields the formats look at. *)
Lemma lba_fmt_ext dev dev' : lba_fmt_ok dev -> verid dev' = verid dev ->
  lbaf dev' = lbaf dev -> lbaz dev' = lbaz dev -> lbam dev' = lbam dev -> lba_fmt_ok dev'.
Proof. intros [] E1 E2 E3 E4. constructor; rewrite ?E1, ?E2, ?E3, ?E4; done. Qed.

Lemma nand_fmt_ext dev dev' : nand_fmt_ok dev -> verid dev' = verid dev ->
  ppaf dev' = ppaf dev -> mask dev' = mask dev -> nand_fmt_ok dev'.
Proof. intros [] E1 E2 E3. constructor; rewrite ?E1, ?E2, ?E3; done. Qed.

(** The end of [populate], when the derivation succeeds with [dev1]. *)
Lemma wp_finish dev dev1 p s0 s (Q : Z * nvm_dev -> sys W -> Prop) :
  nvm_be_populate_derived dev s0 = Some (0, dev1, s) -> quirks dev1 = 0 ->
  virt_dev dev1 -> heap_wf s -> p ∈ live s ->
  (forall dev' s', verid dev' = verid dev1 -> opts dev' = opts dev1 -> be_id dev' = be_id dev1 ->
     ssw dev' = ssw dev1 -> lbaf dev' = lbaf dev1 -> lbaz dev' = lbaz dev1 ->
     lbam dev' = lbam dev1 -> ppaf dev' = ppaf dev1 -> mask dev' = mask dev1 ->
     Z.testbit (quirks dev') 0 = true ->
     geo dev' = (if (verid dev1 =? NVM_SPEC_VERID_12) && oob_2lrg (geo dev1)
                 then set_meta_nbytes 16 (geo dev1) else geo dev1) ->
     heap_wf s' -> live s' = live s ∖ {[p]} -> world s' = world s -> Q (0, dev') s') ->
  wp (populate_finish spdk dev p) s0 Q.
Proof.
  intros Hd Hq Hv Hwf Hp HQ. unfold populate_finish.
  apply wp_bind, (wp_intro _ _ _ _ _ Hd). cbn.
  destruct (quirks_empty_serial dev1 s Hq)
    as (dev2 & E & E1 & E2 & E3 & E4 & E5 & E6 & E7 & E8 & E9 & E10 & E11).
  apply wp_bind, (wp_intro _ _ _ _ _ E). cbn. apply wp_bind.
  assert (virt_dev dev2) by (unfold virt_dev in *; by rewrite E3).
  eapply wp_buf_free; [by apply virt_alloc_ok|done|by right|].
  intros s' H1 H2 H3 _. apply wp_ret. by apply HQ.
Qed.

Lemma wp_populate dev be p i r s s1 (Q : Z * nvm_dev -> sys W -> Prop) :
  be_idfy be (with_be_id (bid be) dev) None s = Some (Some (p, i), r, s1) ->
  let v := if idfy_verid i =? 3 then NVM_SPEC_VERID_20 else idfy_verid i in
  let i' := if idfy_verid i =? 3 then set_idfy_verid NVM_SPEC_VERID_20 i else i in
  let dev' := with_verid v (with_geo (set_verid v (geo dev)) (with_idfy i' (with_be_id (bid be) dev))) in
  wp (if v =? NVM_SPEC_VERID_12 then populate_finish spdk (populate_s12 i' dev') p
      else if v =? NVM_SPEC_VERID_20 then
        dev ← lift (populate_s20 i' dev'); populate_finish spdk dev p
      else _ ← set_errno ENOSYS; populate_failed spdk dev' p) s1 Q ->
  wp (nvm_be_populate spdk dev be) s Q.
Proof.
  intros Hi v i' dev' H. unfold nvm_be_populate.
  apply wp_bind, (wp_intro _ _ _ _ _ Hi). cbn.
  unfold v, i', dev' in *. by destruct (idfy_verid i =? 3).
Qed.
End populate.

(** ** The factory *)

Section factory.
Context {W : Type} (ident : string) (flags : Z).
Implicit Types (s : sys W) (imps : list (nvm_be W)).

(** A backend the identifier [id] allows; 0 allows any. *)
Definition allowed (id : Z) (be : nvm_be W) : bool :=
  (id =? 0) || negb (Z.land (bid be) id =? 0).

(** The allowed backends of a list all refuse to open, from [s] to [s']. *)
Inductive all_refuse (id : Z) : list (nvm_be W) -> sys W -> sys W -> Prop :=
  | refuse_nil s : all_refuse id [] s s
  | refuse_skip be imps s s' :
      allowed id be = false -> all_refuse id imps s s' -> all_refuse id (be :: imps) s s'
  | refuse_cons be imps s s1 s' :
      allowed id be = true -> be_open be ident flags s = Some (None, s1) ->
      all_refuse id imps s1 s' -> all_refuse id (be :: imps) s s'.

(** The outcome of a search: all refuse, or the first that does not. *)
Definition factory_post (id : Z) imps s (res : option (boxed nvm_dev)) (s' : sys W) : Prop :=
  match res with
  | None => all_refuse id imps s s'
  | Some (d, dev) =>
      exists pre be post s1 dev0, imps = pre ++ be :: post /\ all_refuse id pre s s1 /\
        allowed id be = true /\ be_open be ident flags s1 = Some (Some (d, dev0), s') /\
        dev = with_be_id (bid be) dev0
  end.

Lemma wp_factory_loop imps id s :
  (forall be s, be ∈ imps -> is_Some (be_open be ident flags s)) ->
  wp (factory_loop imps id ident flags) s (factory_post id imps s).
Proof.
  revert s. induction imps as [|be imps IH]; intros s Hopen.
  { apply wp_ret. constructor. }
  assert (Hopen' : forall be s, be ∈ imps -> is_Some (be_open be ident flags s))
    by (intros; apply Hopen; by right).
  assert (Hneg : (negb (id =? 0) && (Z.land (bid be) id =? 0))%bool = negb (allowed id be)).
  { unfold allowed. by destruct (id =? 0), (Z.land (bid be) id =? 0). }
  assert (Hstep : forall s1 r s', (forall imps', all_refuse id imps' s1 s' -> all_refuse id (be :: imps') s s') ->
    (forall imps' s2, all_refuse id imps' s1 s2 -> all_refuse id (be :: imps') s s2) ->
    factory_post id imps s1 r s' -> factory_post id (be :: imps) s r s').
  { intros s1 [[d dev]|] s' H1 H2; cbn; [|by apply H1].
    intros (pre & be' & post & s2 & dev0 & -> & F2 & F3 & F4 & F5).
    exists (be :: pre), be', post, s2, dev0. repeat (split; [done || by apply H2|]). done. }
  cbn [factory_loop]. rewrite Hneg. destruct (allowed id be) eqn:Ha; cbn [negb].
  - apply wp_bind. destruct (Hopen be s (list_elem_of_here _ _)) as [[[[d dev]|] s1] E];
      apply (wp_intro _ _ _ _ _ E).
    + apply wp_ret. exists [], be, imps, s, dev. repeat split; [constructor|done..].
    + eapply wp_mono; [by apply IH|]. intros r s' Hr.
      apply (Hstep s1 r s'); [..|done]; intros; by eapply refuse_cons.
  - eapply wp_mono; [by apply IH|]. intros r s' Hr.
    apply (Hstep s r s'); [..|done]; intros; by apply refuse_skip.
Qed.
End factory.

(** ** Properties *)

(** The handle of a 2.0 device. *)
Lemma wp_populate_s20 W (spdk : spdk_env W) be dev p i nlbaf r (s s1 : sys W) (Q : Z * nvm_dev -> sys W -> Prop) :
  be_idfy be (with_be_id (bid be) dev) None s = Some (Some (p, i), r, s1) ->
  idfy_verid i = NVM_SPEC_VERID_20 \/ idfy_verid i = 3 -> s20_idfy_ok (dev_ns dev) i nlbaf ->
  quirks dev = 0 /\ pmode (opts dev) = 0 -> bid be = NVM_BE_IOCTL \/ bid be = NVM_BE_LBD -> heap_wf s1 -> p ∈ live s1 ->
  (forall dev' s', heap_wf s' -> live s' = live s1 ∖ {[p]} -> world s' = world s1 ->
    lba_fmt_ok dev' -> lbaf dev' = s20_lbaf i -> be_id dev' = bid be ->
    (npugrp (geo dev') = lgeo_npugrp (s20_lgeo i) /\ npunit (geo dev') = lgeo_npunit (s20_lgeo i) /\
     nchunk (geo dev') = lgeo_nchunk (s20_lgeo i) /\ nsectr (geo dev') = lgeo_nsectr (s20_lgeo i)) ->
    nbytes (geo dev') = 2 ^ ssw dev' -> nbytes (geo dev') = 2 ^ ds nlbaf -> opts dev' = default_opts 0 -> Q (0, dev') s') ->
  wp (nvm_be_populate spdk dev be) s Q.
Proof.
  intros Hidfy Hver Hok Hnew Hbe Hwf Hp HQ.
  destruct Hnew as [Hq Hpm]. apply (wp_populate spdk dev be p i r s s1); [done|].
  assert (Hv : (if idfy_verid i =? 3 then NVM_SPEC_VERID_20 else idfy_verid i) = NVM_SPEC_VERID_20)
    by (destruct Hver as [->| ->]; done).
  cbn zeta. rewrite Hv. cbn [Z.eqb Pos.eqb NVM_SPEC_VERID_12 NVM_SPEC_VERID_20].
  set (i' := if idfy_verid i =? 3 then _ else _).
  assert (Hi : s20_idfy_ok (dev_ns dev) i' nlbaf /\ s20_lbaf i' = s20_lbaf i /\ s20_lgeo i' = s20_lgeo i)
    by (unfold i'; destruct (idfy_verid i =? 3); [split; [destruct Hok; by constructor|]|]; done).
  destruct Hi as (Hi & El & Eg). set (d := with_verid _ _).
  destruct (populate_s20_fmt i' d nlbaf Hi eq_refl)
    as (d' & E & Hf & F1 & F2 & F3 & F4 & F5 & F6 & F7 & F8 & F9 & F10).
  assert (Fq : quirks d' = 0).
  { revert E. unfold populate_s20. change (dev_ns d) with (dev_ns dev).
    destruct Hi as [? ? ? ? -> ?]. cbn. destruct (31 <=? ds nlbaf); [done|].
    intros [= <-]. exact Hq. }
  rewrite E. apply wp_bind, (wp_intro _ _ d' s1); [done|].
  destruct Hi as [_ _ _ _ _ Hds].
  assert (Hn : 0 < 2 ^ ds nlbaf < 2 ^ 64) by (split; [lia|apply Z.pow_lt_mono_r; lia]).
  destruct (derived_20 d' s1) as (d2 & D & ->); [done|by rewrite F2|by rewrite F5|].
  apply (wp_finish spdk d' _ p s1 s1 _ D);
    [exact Fq|unfold virt_dev; cbn; rewrite F3; exact Hbe|done|done|].
  cbn. rewrite F1. cbn. intros dev' s' G1 G2 G3 G4 G5 G6 G7 _ _ _ G11 G13 G12 G14.
  unfold npugrp, npunit, nchunk, nsectr, nbytes in *. apply HQ; try done; rewrite ?G4, ?G11; cbn.
  - eapply lba_fmt_ext; [exact Hf|congruence..].
  - congruence.
  - rewrite G3. exact F3.
  - repeat split; congruence.
  - rewrite F5, Z.log2_pow2 by lia. done.
  - done.
Qed.

(** C23: on identify data of a 2.0 device (version 2, or 3 which is taken for
    2), [nvm_be_populate] succeeds with a handle whose address format is
    well-formed, so that its conversions are bijections: offsets stacked from
    the sector up, masks over them; the geometry is that of the identify data,
    a sector is [2 ^ ssw] bytes, and the command limits are the defaults. The
    identify buffer, and nothing else, is released. *)
Theorem populate_s20_correct W (spdk : spdk_env W) be dev p i nlbaf r (s s1 : sys W)
  (Hidfy : be_idfy be (with_be_id (bid be) dev) None s = Some (Some (p, i), r, s1))
  (Hver : idfy_verid i = NVM_SPEC_VERID_20 \/ idfy_verid i = 3)
  (Hok : s20_idfy_ok (dev_ns dev) i nlbaf)
  (Hnew : quirks dev = 0 /\ pmode (opts dev) = 0)
  (Hbe : bid be = NVM_BE_IOCTL \/ bid be = NVM_BE_LBD) (Hwf : heap_wf s1) (Hp : p ∈ live s1) :
  wp (nvm_be_populate spdk dev be) s (fun '(err, dev') s' =>
    err = 0 /\ lba_fmt_ok dev' /\ lbaf dev' = s20_lbaf i /\ be_id dev' = bid be /\
    (npugrp (geo dev') = lgeo_npugrp (s20_lgeo i) /\ npunit (geo dev') = lgeo_npunit (s20_lgeo i) /\
     nchunk (geo dev') = lgeo_nchunk (s20_lgeo i) /\ nsectr (geo dev') = lgeo_nsectr (s20_lgeo i)) /\
    nbytes (geo dev') = 2 ^ ssw dev' /\ nbytes (geo dev') = 2 ^ ds nlbaf /\
    opts dev' = default_opts 0 /\
    live s' = live s1 ∖ {[p]}).
Proof.
  eapply wp_populate_s20; [done..|]. intros dev' s' _ Hl _ H1 H2 H3 H4 H5 H6 H7. by repeat (split; [done|]).
Qed.

(** C24: on identify data of a 1.2 device with 1, 2 or 4 planes,
    [nvm_be_populate] succeeds with a handle that has the address format the
    device reports, each field masked where it is reported; it is one the
    conversions invert on when the reported fields are apart. The sectors per
    page are derived from the page size and the plane mode from the planes. The
    plane mode, the meta mode and the limits of erase and read commands satisfy
    the ranges their setters enforce; the write limit is the default and does
    when the multi-plane page divides the 64 addresses of a command, and stays
    what it was in the fresh handle otherwise. The identify buffer, and nothing
    else, is released. *)
Theorem populate_s12_correct W (spdk : spdk_env W) be dev p i r (s s1 : sys W)
  (Hidfy : be_idfy be (with_be_id (bid be) dev) None s = Some (Some (p, i), r, s1))
  (Hver : idfy_verid i = NVM_SPEC_VERID_12) (Hok : s12_idfy_ok i)
  (Hpl : num_pln (s12_grp0 i) = 1 \/ num_pln (s12_grp0 i) = 2 \/ num_pln (s12_grp0 i) = 4)
  (Hnew : quirks dev = 0) (Hbe : bid be = NVM_BE_IOCTL \/ bid be = NVM_BE_LBD)
  (Hwf : heap_wf s1) (Hp : p ∈ live s1) :
  let planes := num_pln (s12_grp0 i) in
  let page := fpg_sz (s12_grp0 i) / csecs (s12_grp0 i) in
  let f := s12_ppaf i in
  wp (nvm_be_populate spdk dev be) s (fun '(err, dev') s' =>
    err = 0 /\ be_id dev' = bid be /\
    ppaf dev' = f /\
    mask dev' = Mask (bit_mask (ch_off f) (ch_len f)) (bit_mask (lun_off f) (lun_len f)) (bit_mask (pl_off f) (pl_len f))
      (bit_mask (blk_off f) (blk_len f)) (bit_mask (pg_off f) (pg_len f)) (bit_mask (sec_off f) (sec_len f)) /\
    (ForallOrdPairs apart (ppaf_fields f) -> nand_fmt_ok dev') /\
    nsectors (geo dev') = page /\ nplanes (geo dev') = planes /\ ssw dev' = Z.log2 (csecs (s12_grp0 i)) /\
    opts dev' = s12_opts (planes_pmode planes) (write_naddrs_max (opts dev)) (planes * page) /\
    pmode_ok dev' /\ erase_max_ok dev' /\ read_max_ok dev' /\ meta_ok dev' /\
    ((planes * page | NVM_NADDR_MAX) -> write_max_ok dev') /\
    live s' = live s1 ∖ {[p]}).
Proof.
  intros planes page f. apply (wp_populate spdk dev be p i r s s1); [done|]. rewrite Hver. cbn zeta.
  cbn [Z.eqb Pos.eqb NVM_SPEC_VERID_12].
  set (d := with_verid _ _). pose proof (populate_s12_mask i d Hok) as Hm.
  pose proof (fun H => populate_s12_fmt i d Hok H eq_refl) as Hf.
  pose proof Hok as [_ _ _ _ _ _ Hc Hfp]. unfold planes.
  pose proof (wp_derived_12 (populate_s12 i d) s1 (fun r s' => r = (0, with_opts (s12_opts (planes_pmode planes) (write_naddrs_max (opts dev)) (planes * page))
        (with_ssw (Z.log2 (csecs (s12_grp0 i))) (with_geo (derived_geo (geo (populate_s12 i d))) (populate_s12 i d)))) /\
      hp s' = hp s1 /\ world s' = world s1) eq_refl ltac:(cbn; lia) ltac:(cbn; lia) Hpl ltac:(done)) as D.
  apply wp_elim in D as (r1 & s2 & D & -> & Eh & Ew).
  assert (Hl2 : live s2 = live s1) by (unfold live; by rewrite Eh).
  apply (wp_finish spdk _ _ p s1 s2 _ D); [exact Hnew|exact Hbe| |by rewrite Hl2|].
  { destruct Hwf as [[W1 W2] W3]. split; [|done]. split; [by rewrite Eh|]. rewrite Hl2, Eh. exact W2. }
  intros dev' s' G1 G2 G3 G4 G5 G6 G7 G8 G9 _ G11 _ G12 _.
  assert (Hg : nsectors (geo dev') = page /\ nplanes (geo dev') = planes) by (rewrite G11; by destruct (_ && _)).
  destruct Hg as [Hg1 Hg2]. cbn in G2. split; [done|]. split; [by rewrite G3|]. split; [by rewrite G8|]. split; [by rewrite G9|].
  split; [intros Ha; by eapply nand_fmt_ext; [exact (Hf Ha)|..]|]. do 4 (split; [done|]).
  unfold pmode_ok, erase_max_ok, read_max_ok, write_max_ok, meta_ok. rewrite Hg1, Hg2, G2. cbn [pmode erase_naddrs_max read_naddrs_max write_naddrs_max meta_mode s12_opts].
  split; [unfold planes_pmode, planes; destruct Hpl as [->|[->| ->]]; cbn; lia|]. split; [done|].
  split; [split; [done|intros _; unfold planes; destruct Hpl as [->|[->| ->]]; [by exists 64|by exists 32|by exists 16]]|].
  split; [by left|]. rewrite Hl2 in G12. split; [|done]. intros Hd.
  assert (0 < page < 2 ^ 32) by (unfold page; split; [apply Z.div_str_pos; lia|apply Z.div_lt_upper_bound; nia]).
  rewrite (proj2 (Z.eqb_eq _ 0)) by (apply Z.mod_divide; [unfold planes; lia|done]). split; [done|]. intros _.
  split; [eapply Z.divide_trans; [apply Z.divide_factor_r|exact Hd]|done].
Qed.

(** Identify data of any other version is refused: -1 with [ENOSYS], the
    handle is left without a backend and the identify buffer is released. *)
Theorem populate_unsupported W (spdk : spdk_env W) be dev p i r (s s1 : sys W)
  (Hidfy : be_idfy be (with_be_id (bid be) dev) None s = Some (Some (p, i), r, s1))
  (Hver : idfy_verid i <> NVM_SPEC_VERID_12 /\ idfy_verid i <> NVM_SPEC_VERID_20 /\ idfy_verid i <> 3)
  (Hbe : bid be = NVM_BE_IOCTL \/ bid be = NVM_BE_LBD) (Hwf : heap_wf s1) (Hp : p ∈ live s1) :
  wp (nvm_be_populate spdk dev be) s (fun '(err, dev') s' =>
    err = -1 /\ errno s' = ENOSYS /\ be_id dev' = NVM_BE_ANY /\ live s' = live s1 ∖ {[p]}).
Proof.
  destruct Hver as (V1 & V2 & V3).
  apply (wp_populate spdk dev be p i r s s1); [done|]. cbn zeta.
  rewrite (proj2 (Z.eqb_neq _ _) V3), (proj2 (Z.eqb_neq _ _) V1), (proj2 (Z.eqb_neq _ _) V2).
  apply wp_bind. cbn. unfold populate_failed. apply wp_bind.
  eapply wp_buf_free; [by apply virt_alloc_ok|exact Hwf|by right|].
  intros s' _ H2 _ H4. apply wp_ret. cbn. by rewrite H2.
Qed.

(** The derivation ignores what the limit setters answer, so a 1.2 device
    whose pages do not divide 64 sectors is opened without an error and
    without a write limit: it keeps the 0 of the fresh handle, which
    [nvm_dev_set_write_naddrs_max] would never accept. *)
Theorem derived_limit_lost W dev (s : sys W)
  (Hv : verid dev = NVM_SPEC_VERID_12) (Hpl : nplanes (geo dev) = 1)
  (Hs : 0 < sector_nbytes (geo dev) < 2 ^ 64)
  (Hpg : sector_nbytes (geo dev) <= page_nbytes (geo dev) < 2 ^ 32)
  (Hnew : write_naddrs_max (opts dev) = 0)
  (Hbad : ~ (page_nbytes (geo dev) / sector_nbytes (geo dev) | NVM_NADDR_MAX)) :
  wp (nvm_be_populate_derived dev) s (fun '(err, dev') _ =>
    err = 0 /\ write_naddrs_max (opts dev') = 0 /\ ~ write_max_ok dev').
Proof.
  unfold wp. rewrite derived_12_eq by tauto. fold (wp (set_defaults (derived_dev dev)) s (fun '(err, dev') _ =>
    err = 0 /\ write_naddrs_max (opts dev') = 0 /\ ~ write_max_ok dev')).
  pose proof (derived_nsectors dev (proj1 Hs) Hpg).
  eapply wp_mono; [apply set_defaults_lost|].
  - split; cbn; lia.
  - cbn. by rewrite Hv.
  - exact Hbad.
  - intros [err dev'] s' [-> E]. cbn in E. rewrite Hnew in E.
    split; [done|]. split; [done|]. intros [Hm _]. lia.
Qed.

(** C35: the factory only ever opens a device through a backend the caller's
    flags allow, or, when the flags name none, the backend [NVM_BE] names;
    it tries those in the order of the table, answers the first handle opened,
    tagged with its backend, and [NULL] only when each of them refused. A
    request that names no backend or several (or an unknown [NVM_BE]) opens
    nothing. *)
Theorem factory_correct W (imps : list (nvm_be W)) env ident flags (s : sys W)
  (Hopen : forall be s, be ∈ imps -> is_Some (be_open be ident flags s)) :
  let fid := Z.land flags NVM_BE_ALL in
  let id := if fid =? NVM_BE_ANY then
      match env with Some nm => nvm_be_name2id imps nm | None => fid end else fid in
  wp (nvm_be_factory imps env ident flags) s (fun r s' =>
    if bool_decide (id ∈ [NVM_BE_ANY; NVM_BE_IOCTL; NVM_BE_LBD; NVM_BE_SPDK; NVM_BE_NOCD])
    then factory_post ident flags id imps s r s'
    else r = None /\ s' = s).
Proof.
  cbn zeta. unfold nvm_be_factory.
  set (id := if Z.land flags NVM_BE_ALL =? NVM_BE_ANY then _ else _).
  destruct ((((((id =? NVM_BE_IOCTL) || (id =? NVM_BE_LBD)) || (id =? NVM_BE_SPDK)) ||
     (id =? NVM_BE_NOCD)) || (id =? NVM_BE_ANY))%bool) eqn:E.
  - rewrite bool_decide_true; [by apply wp_factory_loop|].
    rewrite !orb_true_iff, !Z.eqb_eq in E. destruct E as [[[[->| ->]| ->]| ->]| ->]; in_list.
  - rewrite bool_decide_false; [by apply wp_ret|].
    rewrite !orb_false_iff, !Z.eqb_neq in E. rewrite !elem_of_cons, elem_of_nil. tauto.
Qed.

(** ** Witnesses *)

(** A backend that opens the blank handle and identifies with [i]. *)
Definition blank_dev : nvm_dev :=
  Dev 3 1 0 sample_idfy (Ns 0 0 [NvmeLbaf 64 12]) (Lbaf 0 0 0 0) (Lbaz 0 0 0 0) (Lbam 0 0 0 0)
    (Ppaf 0 0 0 0 0 0 0 0 0 0 0 0) (Mask 0 0 0 0 0 0) (Geo 0 0 0 0 0 0 0 0 0 0 0) 0 0
    (VblkOpts 0 0 0 0 0) 0 0 [] 0 0 0 0.

Definition idfy_be (i : nvm_spec_idfy) : nvm_be unit :=
  NvmBe unit NVM_BE_IOCTL "NVM_BE_IOCTL" (fun _ _ => mret (Some (1, blank_dev)))
    nvm_be_nosys_close nvm_be_nosys_pass
    (fun _ ret => p ← malloc; mret (if p =? 0 then None else Some (p, i), ret))
    nvm_be_nosys_rprt nvm_be_nosys_gfeat nvm_be_nosys_sfeat
    nvm_be_nosys_gbbt nvm_be_nosys_sbbt nvm_be_nosys_scalar_erase
    nvm_be_nosys_scalar_write nvm_be_nosys_scalar_read nvm_be_nosys_vector_erase
    nvm_be_nosys_vector_write nvm_be_nosys_vector_read nvm_be_nosys_vector_copy
    nvm_be_nosys_async_init nvm_be_nosys_async_term nvm_be_nosys_async_poke
    nvm_be_nosys_async_wait.

Definition sample_sys : sys unit := Sys 0 (sample_heap 100) tt.
Definition sample_sys1 : sys unit :=
  Sys 0 (Heap 8 {[7; 3; 5]} (fun n => n <? 100)) tt.

Lemma sample_sys1_wf : heap_wf sample_sys1.
Proof.
  split; [|done]. split; [cbn; lia|]. intros p. unfold sample_sys1, live. cbn.
  rewrite !elem_of_union, !elem_of_singleton. lia.
Qed.

Lemma sample_sys1_live : 7 ∈ live sample_sys1.
Proof. unfold sample_sys1, live. cbn. set_solver. Qed.

Lemma idfy_be_idfy i dev :
  be_idfy (idfy_be i) dev None sample_sys = Some (Some (7, i), None, sample_sys1).
Proof.
  unfold idfy_be. cbn. unfold mbind, M_bind, malloc, sample_sys, sample_sys1. cbn.
  by rewrite (assoc_L (∪)).
Qed.

Lemma populate_s20_correct_witness :
  wp (nvm_be_populate spdk_stub blank_dev (idfy_be sample_idfy)) sample_sys
    (fun '(err, dev') _ => err = 0 /\ lba_fmt_ok dev' /\ nbytes (geo dev') = 4096).
Proof.
  eapply wp_mono.
  - apply (populate_s20_correct unit spdk_stub (idfy_be sample_idfy) blank_dev 7 sample_idfy
      (NvmeLbaf 64 12) None sample_sys sample_sys1);
      [apply idfy_be_idfy|by left| |done|by left|apply sample_sys1_wf|apply sample_sys1_live].
    constructor; cbn; lia || reflexivity.
  - intros [err dev'] s' (E1 & E2 & _ & _ & _ & _ & E3 & _). done.
Defined.

Definition sample_idfy12 : nvm_spec_idfy := set_idfy_verid NVM_SPEC_VERID_12 sample_idfy.

Lemma sample_idfy12_ok : s12_idfy_ok sample_idfy12.
Proof.
  destruct sample12_fmt as [_ H1 H2 H3 H4 H5 H6 H7 _].
  constructor; first [assumption|cbn; lia].
Qed.

(** Pages of 2 planes of 4 sectors, which divide 64. *)
Lemma populate_s12_correct_witness :
  wp (nvm_be_populate spdk_stub blank_dev (idfy_be sample_idfy12)) sample_sys
    (fun '(err, dev') _ => err = 0 /\ nand_fmt_ok dev' /\ nsectors (geo dev') = 4 /\ write_max_ok dev').
Proof.
  eapply wp_mono.
  - apply (populate_s12_correct unit spdk_stub (idfy_be sample_idfy12) blank_dev 7 sample_idfy12
      None sample_sys sample_sys1);
      [apply idfy_be_idfy|done|apply sample_idfy12_ok|cbn; lia|done|by left
      |apply sample_sys1_wf|apply sample_sys1_live].
  - destruct sample12_fmt as [_ _ _ _ _ _ _ Ha _].
    intros [err dev'] s' (E1 & _ & _ & _ & E2 & E3 & _ & _ & _ & _ & _ & _ & _ & E4 & _). split; [done|].
    split; [by apply E2|]. split; [done|]. apply E4. by exists 8.
Defined.

Lemma populate_unsupported_witness :
  wp (nvm_be_populate spdk_stub blank_dev (idfy_be (set_idfy_verid 7 sample_idfy))) sample_sys
    (fun '(err, dev') s' => err = -1 /\ errno s' = ENOSYS).
Proof.
  eapply wp_mono.
  - apply (populate_unsupported unit spdk_stub _ blank_dev 7 (set_idfy_verid 7 sample_idfy) None
      sample_sys sample_sys1);
      [apply idfy_be_idfy|done|by left|apply sample_sys1_wf|apply sample_sys1_live].
  - intros [err dev'] s' (E1 & E2 & _). done.
Defined.

(** Pages of 3 sectors: 64 is not a multiple. *)
Definition odd_dev : nvm_dev :=
  with_verid NVM_SPEC_VERID_12 (with_geo (Geo 1 1 8 0 4096 16 1 8 12288 0 1) blank_dev).

Lemma derived_limit_lost_witness :
  wp (nvm_be_populate_derived odd_dev) sample_sys (fun '(err, dev') _ =>
    err = 0 /\ write_naddrs_max (opts dev') = 0 /\ ~ write_max_ok dev').
Proof.
  apply (derived_limit_lost unit odd_dev sample_sys); try done.
  intros [k Hk]. change (64 = k * 3) in Hk. lia.
Defined.

Lemma factory_correct_witness :
  wp (nvm_be_factory [idfy_be sample_idfy] None "/dev/nvme0n1" NVM_BE_IOCTL) sample_sys
    (factory_post "/dev/nvme0n1" NVM_BE_IOCTL NVM_BE_IOCTL [idfy_be sample_idfy] sample_sys).
Proof.
  refine (factory_correct unit [idfy_be sample_idfy] None "/dev/nvme0n1" NVM_BE_IOCTL sample_sys _).
  intros be s ->%list_elem_of_singleton. by eexists.
Defined.
