(* ===== verification/Sgl.v ===== *)
(** Scatter/gather lists, [src/nvm_sgl.c]: arrays of descriptors that grow by
    doubling, and the pool that keeps released ones. *)
From stdpp Require Import base numbers strings gmap option list.
From S2P Require Import Prelude Types Nvme Backend Buf.

(** ** Data *)

(** [struct nvm_sgl]: the blocks of the indirect descriptor and of the array,
    with their contents, the array having [sgl_nalloc] entries. *)
Record nvm_sgl := Sgl {
  sgl_indirect : Z; sgl_ind : nvm_nvme_sgl_descriptor;
  sgl_descriptors : Z; sgl_list : list nvm_nvme_sgl_descriptor;
  sgl_ndescr : Z; sgl_nalloc : Z; sgl_len : Z }.

(** [struct nvm_sgl_pool]: the list [free_list], its head first. *)
Record nvm_sgl_pool := SglPool { pool_free : list (boxed nvm_sgl) }.

(** [junk p i] is what descriptor [i] of a fresh block [p] happens to hold. *)
Section sgl.
Context {W : Type} (spdk : spdk_env W) (junk : Z -> Z -> nvm_nvme_sgl_descriptor).

Definition junk_list (p i n : Z) : list nvm_nvme_sgl_descriptor := junk p <$> seqZ i n.

(** ** Lists *)

(** The block of the indirect descriptor is not tested. *)
Definition nvm_sgl_create (dev : nvm_dev) (hint : Z) : M W (option (boxed nvm_sgl)) :=
  p ← malloc;
  if p =? 0 then mret None
  else
    d ← (if hint =? 0 then mret (Some 0)
         else
           q ← nvm_buf_alloc spdk dev (u64 (hint * SIZEOF_SGL_DESCR));
           if q =? 0 then _ ← free p; mret None else mret (Some q));
    match d with
    | None => mret None
    | Some q =>
        ind ← nvm_buf_alloc spdk dev SIZEOF_SGL_DESCR;
        mret (Some (p, Sgl ind (junk ind 0) q (junk_list q 0 hint) 0 hint 0))
    end.

Definition nvm_sgl_destroy (dev : nvm_dev) (sgl : boxed nvm_sgl) : M W unit :=
  _ ← nvm_buf_free spdk dev (sgl_descriptors sgl.2);
  _ ← nvm_buf_free spdk dev (sgl_indirect sgl.2);
  free sgl.1.

Definition nvm_sgl_reset (sgl : nvm_sgl) : nvm_sgl :=
  Sgl (sgl_indirect sgl) (sgl_ind sgl) (sgl_descriptors sgl) (sgl_list sgl) 0 (sgl_nalloc sgl) 0.

(** The array doubles: the new size is stored, and the pointer overwritten,
    before the allocation is tested. *)
Definition sgl_grow (dev : nvm_dev) (sgl : nvm_sgl) : M W (bool * nvm_sgl) :=
  let nalloc := if sgl_nalloc sgl =? 0 then 1 else 2 * sgl_nalloc sgl in
  let nbytes := u64 (nalloc * SIZEOF_SGL_DESCR) in
  q ← nvm_buf_realloc spdk dev (sgl_descriptors sgl) nbytes;
  let l := if q =? 0 then [] else sgl_list sgl ++ junk_list q (sgl_nalloc sgl) (nalloc - sgl_nalloc sgl) in
  mret (negb (q =? 0), Sgl (sgl_indirect sgl) (sgl_ind sgl) q l (sgl_ndescr sgl) nalloc (sgl_len sgl)).

(** The descriptor's bit-fields are assigned before the address is known. *)
Definition sgl_put (dev : nvm_dev) (sgl : nvm_sgl) (addr len : Z) : M W (Z * nvm_sgl) :=
  let i := Z.to_nat (sgl_ndescr sgl) in
  d ← lift (sgl_list sgl !! i);
  let word := bf_set 0 32 (bf_set 60 4 (sgl_word d) NVM_NVME_SGL_DESCR_TYPE_DATA_BLOCK) len in
  let upd d n len := Sgl (sgl_indirect sgl) (sgl_ind sgl) (sgl_descriptors sgl) (<[i := d]> (sgl_list sgl))
                       n (sgl_nalloc sgl) len in
  '(err, phys) ← nvm_buf_vtophys spdk dev addr (Some 0);
  if negb (err =? 0) then mret (-1, upd (SglDescr (sgl_addr d) word) (sgl_ndescr sgl) (sgl_len sgl))
  else
    a ← lift phys;
    mret (0, upd (SglDescr a word) (sgl_ndescr sgl + 1) (u64 (sgl_len sgl + len))).

Definition nvm_sgl_add (dev : nvm_dev) (sgl : nvm_sgl) (addr len : Z) : M W (Z * nvm_sgl) :=
  if sgl_ndescr sgl =? 256 then fail EINVAL (-1, sgl)
  else if sgl_ndescr sgl =? sgl_nalloc sgl then
    '(ok, sgl) ← sgl_grow dev sgl;
    if ok : bool then sgl_put dev sgl addr len else mret (-1, sgl)
  else sgl_put dev sgl addr len.

(** ** Pools *)

Definition nvm_sgl_pool_create (dev : nvm_dev) : M W (option (boxed nvm_sgl_pool)) :=
  p ← malloc;
  if p =? 0 then mret None else mret (Some (p, SglPool [])).

Definition nvm_sgl_pool_destroy (dev : nvm_dev) (pool : boxed nvm_sgl_pool) : M W unit :=
  _ ← mfold (fun sgl _ => nvm_sgl_destroy dev sgl) (pool_free pool.2) tt;
  free pool.1.

Definition nvm_sgl_alloc (dev : nvm_dev) (pool : nvm_sgl_pool) : M W (option (boxed nvm_sgl) * nvm_sgl_pool) :=
  match pool_free pool with
  | sgl :: l => mret (Some sgl, SglPool l)
  | [] => sgl ← nvm_sgl_create dev 1; mret (sgl, pool)
  end.

Definition nvm_sgl_free (pool : nvm_sgl_pool) (sgl : boxed nvm_sgl) : nvm_sgl_pool :=
  SglPool ((sgl.1, nvm_sgl_reset sgl.2) :: pool_free pool).
End sgl.
