(* ===== verification/Cmd.v ===== *)
(** Commands, [src/nvm_cmd.c]: which backend operation a command runs, how a
    completion is folded into [struct nvm_ret], how a submission entry is
    prepared, and the search for arbitrary chunks and blocks. *)
From stdpp Require Import base numbers strings gmap option list.
From S2P Require Import Prelude Types Nvme Addr Dev Backend Buf.

(** ** Opcodes *)

Definition nvm_cmd_is_scalar (opcode : Z) : Z :=
  if (opcode =? NVM_DOPC_SCALAR_WRITE) || (opcode =? NVM_DOPC_SCALAR_READ) ||
     (opcode =? NVM_DOPC_SCALAR_ERASE) then 1 else 0.

(** ** Completions *)

Definition status_word (st : nvm_nvme_status) : Z :=
  u16 (Z.lor (sc st) (Z.lor (Z.shiftl (sct st) 8) (Z.lor (Z.shiftl (st_m st) 13) (Z.shiftl (dnr st) 14)))).

(** [wrap->ret] and [wrap->completed]. Only [cdw0] of the result union is
    written: its other half keeps what it held. *)
Definition nvm_cmd_wrap_cpl (ret : retp) (cpl : nvm_nvme_cpl) : retp * Z :=
  let ret := match ret with
    | None => None
    | Some r => Some (Ret (bf_set 0 32 (result r) (cdw0 cpl)) (status_word (status cpl)) (ret_async r))
    end in
  (ret, if negb (sc (status cpl) =? 0) || negb (sct (status cpl) =? 0) then -1 else 1).

(** ** Dispatch *)

Section dispatch.
Context {W : Type} (be : nvm_be W).

Definition nvm_cmd_pass (dev : nvm_dev) (cmd : nvm_nvme_cmd) (data : mem) (data_nbytes : Z)
    (meta : mem) (meta_nbytes flags : Z) (ret : retp) : M W io_res :=
  be_pass be dev cmd data data_nbytes meta meta_nbytes flags ret.
Definition nvm_cmd_idfy (dev : nvm_dev) (ret : retp)
    : M W (option (boxed nvm_spec_idfy) * retp) := be_idfy be dev ret.
Definition nvm_cmd_rprt (dev : nvm_dev) (addr : option nvm_addr) (opt : Z) (ret : retp)
    : M W (option (boxed nvm_spec_rprt) * retp) := be_rprt be dev addr opt ret.
Definition nvm_cmd_gbbt (dev : nvm_dev) (addr : nvm_addr) (ret : retp)
    : M W (option (boxed nvm_spec_bbt) * retp) := be_gbbt be dev addr ret.
Definition nvm_cmd_sbbt (dev : nvm_dev) (addrs : list nvm_addr) (naddrs flags : Z)
    (ret : retp) : M W (Z * retp) := be_sbbt be dev addrs naddrs flags ret.
Definition nvm_cmd_gfeat (dev : nvm_dev) (id feat : Z) (ret : retp) : M W (Z * Z * retp) :=
  be_gfeat be dev id feat ret.
Definition nvm_cmd_sfeat (dev : nvm_dev) (id feat : Z) (ret : retp) : M W (Z * retp) :=
  be_sfeat be dev id feat ret.

(** The addressing mode of a command: its own flags, or else the device's. *)
Definition cmd_addr_opt (dev : nvm_dev) (flags : Z) : Z :=
  let opt := Z.land flags NVM_CMD_MASK_ADDR in
  if opt =? 0 then Z.land (cmd_opts dev) NVM_CMD_MASK_ADDR else opt.

(** [*addrs]: undefined on an empty array. *)
Definition first_addr (addrs : list nvm_addr) : M W nvm_addr := lift (addrs !! 0%nat).

Definition nvm_cmd_erase (dev : nvm_dev) (addrs : list nvm_addr) (naddrs : Z) (meta : mem)
    (flags : Z) (ret : retp) : M W (Z * mem * retp) :=
  let opt := cmd_addr_opt dev flags in
  if opt =? NVM_CMD_SCALAR then
    match meta with
    | Some _ => fail EINVAL (-1, meta, ret)
    | None =>
        '(err, ret) ← be_scalar_erase be dev addrs naddrs flags ret; mret (err, meta, ret)
    end
  else if opt =? NVM_CMD_VECTOR then be_vector_erase be dev addrs naddrs meta flags ret
  else fail EINVAL (-1, meta, ret).

Definition nvm_cmd_write (dev : nvm_dev) (addrs : list nvm_addr) (naddrs : Z)
    (data meta : mem) (flags : Z) (ret : retp) : M W (Z * retp) :=
  let opt := cmd_addr_opt dev flags in
  if opt =? NVM_CMD_SCALAR then
    a ← first_addr addrs; be_scalar_write be dev a naddrs data meta flags ret
  else if opt =? NVM_CMD_VECTOR then be_vector_write be dev addrs naddrs data meta flags ret
  else fail EINVAL (-1, ret).

Definition nvm_cmd_read (dev : nvm_dev) (addrs : list nvm_addr) (naddrs : Z)
    (data meta : mem) (flags : Z) (ret : retp) : M W io_res :=
  let opt := cmd_addr_opt dev flags in
  if opt =? NVM_CMD_SCALAR then
    a ← first_addr addrs; be_scalar_read be dev a naddrs data meta flags ret
  else if opt =? NVM_CMD_VECTOR then be_vector_read be dev addrs naddrs data meta flags ret
  else fail EINVAL (IoRes (-1) data meta ret).

Definition nvm_cmd_copy (dev : nvm_dev) (src dst : list nvm_addr) (naddrs flags : Z)
    (ret : retp) : M W (Z * retp) := be_vector_copy be dev src dst naddrs flags ret.
End dispatch.

(** ** Arbitrary chunks and blocks *)

Section arbs.
Context {W : Type} (spdk : spdk_env W) (be : nvm_be W).

(** [a + b] on [int]: overflow is undefined. *)
Definition int_add (a b : Z) : option Z :=
  if (- 2 ^ 31 <=? a + b) && (a + b <? 2 ^ 31) then Some (a + b) else None.

(** The inner loop of [nvm_cmd_rprt_arbs] from [des_idx] on: the first
    descriptor, counted from [arb], in state [s]; [Some None] is [des_idx]
    reaching the end. *)
Fixpoint rprt_search (n : nat) (des_idx : Z) (r : nvm_spec_rprt) (arb s : Z)
    : option (option Z) :=
  match n with
  | O => Some None
  | S n =>
      let des_cur := i32 (u64 (des_idx + arb) mod ndescr r) in
      d ← descr r !! Z.to_nat des_cur;
      if cs d =? s then Some (Some des_cur) else rprt_search n (des_idx + 1) r arb s
  end.

(** One iteration for [idx]: the address found, or the error return. *)
Definition rprt_arb (dev : nvm_dev) (s naddrs arb : Z) (idx : Z) (addrs : list nvm_addr)
    : M W (list nvm_addr + (Z * list nvm_addr)) :=
  let g := geo dev in
  i ← lift (int_add idx arb);
  let cur := i mod naddrs in
  if (npugrp g =? 0) || (npunit g =? 0) then crash else
  let addr := set_l_pugrp (cur mod npugrp g) 0 in
  let addr := set_l_punit ((cur / npugrp g) mod npunit g) addr in
  '(rprt, _) ← nvm_cmd_rprt be dev (Some addr) 0x0 None;
  match rprt with
  | None => _ ← nvm_buf_free spdk dev 0; fail EINVAL (inr (-1, addrs))
  | Some (p, r) =>
      if negb (ndescr r =? nchunk g) then
        _ ← nvm_buf_free spdk dev p; fail EINVAL (inr (-1, addrs))
      else
        found ← lift (rprt_search (Z.to_nat (ndescr r)) 0 r arb s);
        match found with
        | None => _ ← nvm_buf_free spdk dev p; fail EINVAL (inr (-1, addrs))
        | Some des_cur =>
            _ ← lift (addrs !! Z.to_nat idx);
            _ ← nvm_buf_free spdk dev p;
            mret (inl (<[Z.to_nat idx := set_l_chunk des_cur addr]> addrs))
        end
  end.

(** [arb] is the answer of [rand()]. *)
Definition nvm_cmd_rprt_arbs (dev : nvm_dev) (s naddrs arb : Z) (addrs : list nvm_addr)
    : M W (Z * list nvm_addr) :=
  let g := geo dev in
  let tpunit := i32 (u64 (npugrp g * npunit g)) in
  if (naddrs <? 0) || (tpunit <? naddrs) then fail EINVAL (-1, addrs)
  else
    r ← mfold_ret (rprt_arb dev s naddrs arb) (seqZ 0 naddrs) addrs;
    match r with inl addrs => mret (0, addrs) | inr r => mret r end.

(** The planes of block [blk_cur]: [state |= bbt->blk[idx]] for each. *)
Fixpoint plane_state (n : nat) (idx : Z) (blk : list Z) (state : Z) : option Z :=
  match n with
  | O => Some state
  | S n => b ← blk !! Z.to_nat idx; plane_state n (idx + 1) blk (Z.lor state b)
  end.

(** The inner loop of [nvm_cmd_gbbt_arbs]: it tests and steps the outer
    [idx], so [blk_idx] keeps its 0 and every round looks at the same block.
    [fuel] is the rounds left until [idx] reaches [nblocks]. *)
Fixpoint gbbt_search (fuel : nat) (g : nvm_geo) (bs arb : Z) (bbt : nvm_spec_bbt)
    (addr : nvm_addr) (blk_idx idx : Z) (addrs : list nvm_addr)
    : option (Z * Z * list nvm_addr) :=
  if idx <? nblocks g then
    match fuel with
    | O => None
    | S fuel =>
        let blk_cur := u64 (blk_idx + arb) mod nblocks g in
        state ← plane_state (Z.to_nat (nplanes g)) (u32 (blk_cur * nplanes g)) (spec_blk bbt) 0;
        if negb (bs =? state) then gbbt_search fuel g bs arb bbt addr blk_idx (u64 (idx + 1)) addrs
        else
          _ ← addrs !! Z.to_nat idx;
          Some (blk_idx, idx, <[Z.to_nat idx := set_g_blk blk_cur addr]> addrs)
    end
  else Some (blk_idx, idx, addrs).

(** The outer loop; [fuel] is the rounds left until [idx] reaches [naddrs]. *)
Fixpoint gbbt_loop (fuel : nat) (dev : nvm_dev) (bs naddrs arb idx : Z)
    (addrs : list nvm_addr) : M W (Z * list nvm_addr) :=
  if idx <? naddrs then
    match fuel with
    | O => crash
    | S fuel =>
        let g := geo dev in
        let cur := u64 (idx + arb) mod naddrs in
        if (nchannels g =? 0) || (nluns g =? 0) then crash else
        let addr := set_g_ch (cur mod nchannels g) 0 in
        let addr := set_g_lun ((cur / nchannels g) mod nluns g) addr in
        '(bbt, _) ← nvm_cmd_gbbt be dev addr None;
        match bbt with
        | None => mret (-1, addrs)
        | Some (_, b) =>
            '(blk_idx, idx, addrs) ←
              lift (gbbt_search (Z.to_nat (nblocks g - idx)) g bs arb b addr 0 idx addrs);
            if blk_idx =? nblocks g then mret (-1, addrs)
            else gbbt_loop fuel dev bs naddrs arb (u64 (idx + 1)) addrs
        end
    end
  else mret (0, addrs).

Definition nvm_cmd_gbbt_arbs (dev : nvm_dev) (bs naddrs arb : Z)
    (addrs : list nvm_addr) : M W (Z * list nvm_addr) :=
  let g := geo dev in
  let tluns := i32 (u64 (nchannels g * nluns g)) in
  if (naddrs <? 0) || (tluns <? naddrs) then fail EINVAL (-1, addrs)
  else gbbt_loop (Z.to_nat naddrs) dev bs naddrs arb 0 addrs.
End arbs.

(** ** Lemmas on the search for chunks *)

(** The unit the [idx]-th request goes to. *)
Definition arb_cur (naddrs arb idx : Z) : Z := (idx + arb) mod naddrs.

Definition arb_unit (g : nvm_geo) (naddrs arb idx : Z) : nvm_addr :=
  set_l_punit ((arb_cur naddrs arb idx / npugrp g) mod npunit g)
    (set_l_pugrp (arb_cur naddrs arb idx mod npugrp g) 0).

(** A chunk of [report] in state [s]. *)
Definition chunk_in_state (report : nvm_addr -> nvm_spec_rprt) (u : nvm_addr) (c s : Z) : Prop :=
  exists d, descr (report u) !! Z.to_nat c = Some d /\ cs d = s.

(** What the search promises for one entry. *)
Definition arb_ok (dev : nvm_dev) (report : nvm_addr -> nvm_spec_rprt) (s naddrs arb idx : Z)
    (a : nvm_addr) : Prop :=
  exists c, a = set_l_chunk c (arb_unit (geo dev) naddrs arb idx) /\
    0 <= c < nchunk (geo dev) /\ chunk_in_state report (arb_unit (geo dev) naddrs arb idx) c s.

(** What is relied on of the backend: its report of a unit, in a fresh buffer
    whose descriptors are all there, or no report, while the world satisfies
    [I]. *)
Definition unit_addr (g : nvm_geo) (a : nvm_addr) : Prop :=
  l_pugrp a < npugrp g /\ l_punit a < npunit g /\ l_chunk a = 0 /\ l_sectr a = 0.

Definition rprt_law {W} (I : W -> Prop) (be : nvm_be W) (dev : nvm_dev) (report : nvm_addr -> nvm_spec_rprt) : Prop :=
  forall a (s : sys W), good I s -> unit_addr (geo dev) a ->
    wp (be_rprt be dev (Some a) 0 None) s (fun '(o, _) s' => good I s' /\
      match o with
      | None => live s' = live s
      | Some (p, r) => r = report a /\ 0 <= ndescr r < 2 ^ 31 /\
          Z.of_nat (length (descr r)) = ndescr r /\
          p <> 0 /\ (p ∉ live s) /\ live s' = {[p]} ∪ live s
      end).

Lemma rprt_search_spec n i r arb s : 0 <= i -> 0 <= arb < 2 ^ 31 -> i + Z.of_nat n < 2 ^ 31 ->
  0 < ndescr r < 2 ^ 31 -> Z.of_nat (length (descr r)) = ndescr r ->
  exists o, rprt_search n i r arb s = Some o /\
    match o with
    | None => True
    | Some c => 0 <= c < ndescr r /\ exists d, descr r !! Z.to_nat c = Some d /\ cs d = s
    end.
Proof.
  revert i. induction n as [|n IH]; intros i Hi Ha Hb Hn Hl; [by eexists|].
  cbn [rprt_search]. rewrite wrap_id by lia.
  pose proof (Z.mod_pos_bound (i + arb) (ndescr r)) as Hm. rewrite i32_id by lia.
  destruct (lookup_lt_is_Some_2 (descr r) (Z.to_nat ((i + arb) mod ndescr r)) ltac:(lia)) as [d Hd].
  rewrite Hd. cbn. destruct (Z.eqb_spec (cs d) s) as [E|E].
  - eexists. split; [done|]. split; [lia|]. by exists d.
  - apply IH; lia.
Qed.

Lemma arb_unit_fields g naddrs arb idx : 0 < npugrp g <= 2 ^ 8 -> 0 < npunit g <= 2 ^ 8 ->
  let u := arb_unit g naddrs arb idx in
  l_pugrp u = arb_cur naddrs arb idx mod npugrp g /\
  l_punit u = (arb_cur naddrs arb idx / npugrp g) mod npunit g /\ l_chunk u = 0 /\ l_sectr u = 0.
Proof.
  intros H1 H2. cbn zeta. unfold arb_unit. addr_simpl.
  pose proof (Z.mod_pos_bound (arb_cur naddrs arb idx) (npugrp g)).
  pose proof (Z.mod_pos_bound (arb_cur naddrs arb idx / npugrp g) (npunit g)).
  rewrite !wrap_id by lia. done.
Qed.

(** Distinct requests go to distinct units. *)
Lemma arb_unit_inj g naddrs arb i j : 0 < npugrp g <= 2 ^ 8 -> 0 < npunit g <= 2 ^ 8 ->
  0 <= i < naddrs -> 0 <= j < naddrs -> naddrs <= npugrp g * npunit g ->
  l_pugrp (arb_unit g naddrs arb i) = l_pugrp (arb_unit g naddrs arb j) ->
  l_punit (arb_unit g naddrs arb i) = l_punit (arb_unit g naddrs arb j) -> i = j.
Proof.
  intros Hp Hu Hi Hj Hn E1 E2.
  destruct (arb_unit_fields g naddrs arb i Hp Hu) as (F1 & F2 & _).
  destruct (arb_unit_fields g naddrs arb j Hp Hu) as (G1 & G2 & _).
  rewrite F1, G1 in E1. rewrite F2, G2 in E2. clear F1 F2 G1 G2.
  unfold arb_cur in *. set (x := (i + arb) mod naddrs) in *. set (y := (j + arb) mod naddrs) in *.
  assert (0 <= x < naddrs) by (apply Z.mod_pos_bound; lia).
  assert (0 <= y < naddrs) by (apply Z.mod_pos_bound; lia).
  assert (0 <= x / npugrp g < npunit g)
    by (split; [apply Z.div_pos; lia|apply Z.div_lt_upper_bound; lia]).
  assert (0 <= y / npugrp g < npunit g)
    by (split; [apply Z.div_pos; lia|apply Z.div_lt_upper_bound; lia]).
  rewrite !(Z.mod_small (_ / _)) in E2 by lia.
  assert (Exy : x = y).
  { rewrite (Z.div_mod x (npugrp g)), (Z.div_mod y (npugrp g)) by lia. by rewrite E1, E2. }
  assert (Em : (i - j) mod naddrs = 0).
  { replace (i - j) with ((i + arb) - (j + arb)) by lia.
    rewrite Zminus_mod. fold x y. rewrite Exy, Z.sub_diag. apply Z.mod_0_l. lia. }
  apply Z.mod_divide in Em as [k Hk]; [|lia]. assert (k = 0) by nia. lia.
Qed.

Section rprt_arbs.
Context {W : Type} (spdk : spdk_env W) (be : nvm_be W) (dev : nvm_dev).
Context (I : W -> Prop) (report : nvm_addr -> nvm_spec_rprt).
Context (Halloc : alloc_ok spdk dev) (Hrprt : rprt_law I be dev report).
Context (Hg : geo_counts_ok (geo dev)).
Context (cst naddrs arb : Z) (Harb : 0 <= arb /\ arb + naddrs < 2 ^ 31).
Implicit Types s : sys W.

(** The entries of [addrs] up to [k] are filled, the others as in [addrs0]. *)
Definition arbs_filled (addrs0 : list nvm_addr) (k : Z) (addrs : list nvm_addr) : Prop :=
  length addrs = length addrs0 /\
  (forall i a, 0 <= i < k -> addrs !! Z.to_nat i = Some a ->
     arb_ok dev report cst naddrs arb i a) /\
  (forall i, k <= i -> addrs !! Z.to_nat i = addrs0 !! Z.to_nat i).

Lemma wp_rprt_arb addrs0 idx addrs s : 0 <= idx < naddrs -> good I s ->
  naddrs <= Z.of_nat (length addrs0) -> arbs_filled addrs0 idx addrs ->
  wp (rprt_arb spdk be dev cst naddrs arb idx addrs) s (fun r s' =>
    good I s' /\ live s' = live s /\
    match r with
    | inl addrs' => arbs_filled addrs0 (idx + 1) addrs'
    | inr (e, addrs') => e = -1 /\ errno s' = EINVAL
    end).
Proof.
  intros Hidx Hwf Hlen (Hl & Hd & Hr). pose proof Hg as (G1 & G2 & G3).
  unfold rprt_arb. cbn zeta. unfold int_add.
  rewrite (proj2 (Z.leb_le (- 2 ^ 31) (idx + arb))), (proj2 (Z.ltb_lt (idx + arb) (2 ^ 31))) by lia.
  apply wp_bind. cbn [andb]. apply (wp_intro _ _ (idx + arb) s); [done|].
  rewrite (proj2 (Z.eqb_neq (npugrp (geo dev)) 0)), (proj2 (Z.eqb_neq (npunit (geo dev)) 0)) by lia.
  cbn [orb]. fold (arb_cur naddrs arb idx). fold (arb_unit (geo dev) naddrs arb idx).
  set (u := arb_unit (geo dev) naddrs arb idx).
  assert (Hu : unit_addr (geo dev) u).
  { destruct (arb_unit_fields (geo dev) naddrs arb idx G1 G2) as (F1 & F2 & F3 & F4). fold u in F1, F2, F3, F4.
    unfold unit_addr. rewrite F1, F2. split; [apply Z.mod_pos_bound; lia|]. split; [apply Z.mod_pos_bound; lia|done]. }
  apply wp_bind. eapply wp_mono; [by apply Hrprt|]. intros [[[p r]|] x] s1 (Hwf1 & Ho).
  2: { apply wp_bind. eapply (wp_buf_free spdk dev Halloc); [done|by left|].
       intros s2 Hwf2 Hl2 _ _. split; [done|]. split; [|done].
       change (live s2 = live s). rewrite Hl2, Ho. apply set_eq. intros q.
       rewrite elem_of_difference, elem_of_singleton.
       destruct Hwf as [[_ Hwf] _]. split; [tauto|]. intros Hq. split; [done|].
       apply Hwf in Hq. lia. }
  destruct Ho as (-> & Hn & Hlr & Hp & Hfresh & Hlive).
  assert (Hfree : forall s2, live s2 = live s1 ∖ {[p]} -> live s2 = live s).
  { intros s2 ->. rewrite Hlive. set_solver. }
  destruct (Z.eqb_spec (ndescr (report u)) (nchunk (geo dev))) as [E|E]; cbn [negb].
  2: { apply wp_bind. eapply (wp_buf_free spdk dev Halloc); [done|right; rewrite Hlive; set_solver|].
       intros s2 Hwf2 Hl2 _ _. split; [done|]. split; [by apply Hfree|done]. }
  destruct (rprt_search_spec (Z.to_nat (ndescr (report u))) 0 (report u) arb cst) as (o & Eo & Ho);
    [lia..|]. rewrite Eo. apply wp_bind, (wp_intro _ _ o s1); [done|].
  destruct o as [c|].
  2: { apply wp_bind. eapply (wp_buf_free spdk dev Halloc); [done|right; rewrite Hlive; set_solver|].
       intros s2 Hwf2 Hl2 _ _. split; [done|]. split; [by apply Hfree|done]. }
  destruct (lookup_lt_is_Some_2 addrs (Z.to_nat idx) ltac:(lia)) as [a0 Ha0]. rewrite Ha0.
  apply wp_bind, (wp_intro _ _ a0 s1); [done|].
  apply wp_bind. eapply (wp_buf_free spdk dev Halloc); [done|right; rewrite Hlive; set_solver|].
  intros s2 Hwf2 Hl2 _ _. apply wp_ret. split; [done|]. split; [by apply Hfree|].
  split; [by rewrite length_insert|]. split.
  - intros i a Hi. destruct (decide (i = idx)) as [->|Hne].
    + rewrite list_lookup_insert_eq by lia. intros [= <-]. exists c. rewrite <-E. by split.
    + rewrite list_lookup_insert_ne by lia. apply Hd. lia.
  - intros i Hi. rewrite list_lookup_insert_ne by lia. apply Hr. lia.
Qed.

Lemma wp_rprt_arbs addrs0 s : good I s ->
  0 <= naddrs <= npugrp (geo dev) * npunit (geo dev) ->
  naddrs <= Z.of_nat (length addrs0) ->
  wp (nvm_cmd_rprt_arbs spdk be dev cst naddrs arb addrs0) s (fun '(r, addrs) s' =>
    good I s' /\ live s' = live s /\
    ((r = 0 /\ arbs_filled addrs0 naddrs addrs) \/ (r = -1 /\ errno s' = EINVAL))).
Proof.
  intros Hwf Hn Hlen. pose proof Hg as (G1 & G2 & G3). unfold nvm_cmd_rprt_arbs. cbn zeta.
  assert (0 < npugrp (geo dev) * npunit (geo dev) <= 2 ^ 16) by nia.
  rewrite wrap_id, i32_id, (proj2 (Z.ltb_ge naddrs 0)), (proj2 (Z.ltb_ge _ naddrs)) by lia.
  cbn [orb]. apply wp_bind.
  apply (wp_mfold_ret _
    (fun pre addrs s' => good I s' /\ live s' = live s /\ arbs_filled addrs0 (Z.of_nat (length pre)) addrs)
    (fun r s' => good I s' /\ live s' = live s /\ r.1 = -1 /\ errno s' = EINVAL)).
  - split; [done|]. split; [done|]. cbn. split; [done|]. split; [lia|done].
  - intros pre x post addrs s1 E (Hwf1 & Hl1 & Hf).
    destruct (seqZ_split _ _ _ _ E) as (_ & Hx & Hlp). rewrite Hlp in Hf.
    eapply wp_mono; [by apply (wp_rprt_arb addrs0)|].
    intros [addrs'|[e addrs']] s2 (Hwf2 & Hl2 & H2).
    + rewrite length_app. cbn. replace (Z.of_nat (length pre + 1)) with (x + 1) by lia.
      split; [done|]. split; [congruence|done].
    + split; [done|]. split; [congruence|done].
  - intros addrs s1 (Hwf1 & Hl1 & Hf). apply wp_ret. split; [done|]. rewrite length_seqZ in Hf.
    split; [done|]. left. by replace (Z.of_nat (Z.to_nat naddrs)) with naddrs in Hf by lia.
  - intros [e addrs] s1 (Hwf1 & Hl1 & He & Hs). apply wp_ret. split; [done|]. split; [done|]. by right.
Qed.

(** What the addresses found are. *)
Lemma arbs_filled_entry addrs0 addrs i : arbs_filled addrs0 naddrs addrs -> naddrs <= Z.of_nat (length addrs0) ->
  0 <= i < naddrs -> exists a, addrs !! Z.to_nat i = Some a /\ addr_ok a /\ unit_addr (geo dev) (set_l_chunk 0 a) /\ l_sectr a = 0 /\
    l_chunk a < nchunk (geo dev) /\ chunk_in_state report (set_l_chunk 0 a) (l_chunk a) cst.
Proof.
  intros (Hl & Hd & _) Hlen Hi. pose proof Hg as (G1 & G2 & G3).
  destruct (lookup_lt_is_Some_2 addrs (Z.to_nat i) ltac:(lia)) as [a Ha]. exists a. split; [done|].
  destruct (Hd i a Hi Ha) as (c & -> & Hcb & Hcs).
  destruct (arb_unit_fields (geo dev) naddrs arb i G1 G2) as (F1 & F2 & F3 & F4).
  set (u := arb_unit (geo dev) naddrs arb i) in *.
  assert (Eu : set_l_chunk 0 (set_l_chunk c u) = u).
  { unfold u, arb_unit in *. apply addr_ext_l; [addr_wf|addr_wf|..]; addr_simpl; done. }
  assert (Ec : l_chunk (set_l_chunk c u) = c) by (addr_simpl; apply wrap_id; lia).
  rewrite Eu, Ec. split; [addr_wf|]. split; [|split; [by addr_simpl|split; [lia|done]]]. unfold unit_addr. rewrite F1, F2.
  split; [apply Z.mod_pos_bound; lia|]. split; [apply Z.mod_pos_bound; lia|done].
Qed.

Lemma arbs_filled_apart addrs0 addrs i j a b : arbs_filled addrs0 naddrs addrs ->
  naddrs <= npugrp (geo dev) * npunit (geo dev) -> 0 <= i < naddrs -> 0 <= j < naddrs -> i <> j ->
  addrs !! Z.to_nat i = Some a -> addrs !! Z.to_nat j = Some b -> (l_pugrp a, l_punit a) <> (l_pugrp b, l_punit b).
Proof.
  intros (_ & Hd & _) Hn Hi Hj Hne Ha Hb [= E1 E2]. pose proof Hg as (G1 & G2 & G3). apply Hne.
  destruct (Hd i a Hi Ha) as (c & -> & Hcb & _). destruct (Hd j b Hj Hb) as (c' & -> & Hcb' & _).
  apply (arb_unit_inj (geo dev) naddrs arb); [lia..| |]; [revert E1|revert E2]; by addr_simpl.
Qed.

(** More addresses than the device has units are refused. *)
Lemma wp_rprt_arbs_any addrs0 s (Q : Z * list nvm_addr -> sys W -> Prop) : good I s -> 0 <= naddrs ->
  naddrs <= Z.of_nat (length addrs0) ->
  (forall addrs s', good I s' -> live s' = live s -> arbs_filled addrs0 naddrs addrs -> Q (0, addrs) s') ->
  (forall addrs s', good I s' -> live s' = live s -> errno s' = EINVAL -> Q (-1, addrs) s') ->
  wp (nvm_cmd_rprt_arbs spdk be dev cst naddrs arb addrs0) s Q.
Proof.
  intros Hwf Hn Hlen HS HE. pose proof Hg as (G1 & G2 & G3).
  assert (0 < npugrp (geo dev) * npunit (geo dev) <= 2 ^ 16) by nia.
  destruct (decide (naddrs <= npugrp (geo dev) * npunit (geo dev))) as [Hle|Hgt].
  - eapply wp_mono; [by apply wp_rprt_arbs|]. intros [r addrs] s' (H1 & H2 & [(-> & H3)|(-> & H3)]); auto.
  - unfold nvm_cmd_rprt_arbs. cbn zeta.
    rewrite wrap_id, i32_id, (proj2 (Z.ltb_ge naddrs 0)), (proj2 (Z.ltb_lt _ naddrs)) by lia. by apply HE.
Qed.
End rprt_arbs.

(** ** Lemmas on the search for blocks *)

(** A first block in another state is looked at until [idx] runs out. *)
Lemma gbbt_search_exhausts g bs arb bbt addr idx addrs fuel st : nblocks g < 2 ^ 64 ->
  0 <= idx -> (Z.to_nat (nblocks g - idx) <= fuel)%nat ->
  plane_state (Z.to_nat (nplanes g)) (u32 (u64 (0 + arb) mod nblocks g * nplanes g))
    (spec_blk bbt) 0 = Some st -> bs <> st ->
  gbbt_search fuel g bs arb bbt addr 0 idx addrs = Some (0, Z.max idx (nblocks g), addrs).
Proof.
  intros Hb Hi Hf Hp Hne. revert idx Hi Hf. induction fuel as [|fuel IH]; intros idx Hi Hf; cbn [gbbt_search];
    destruct (Z.ltb_spec idx (nblocks g)).
  - lia.
  - do 3 f_equal. lia.
  - rewrite Hp. cbn [mbind option_bind]. rewrite (proj2 (Z.eqb_neq _ _) Hne). cbn [negb].
    rewrite wrap_id by lia. rewrite IH by lia. do 3 f_equal. lia.
  - do 3 f_equal. lia.
Qed.

(** ** Properties *)

(** A command runs as its own flags say, or as the device's options when
    its flags name no addressing mode: scalar commands start at the first
    address, vector commands take them all; asking for both modes, for an
    erase with metadata in scalar mode, or for none at all, is [EINVAL] and
    reaches no backend. *)
Theorem dispatch_correct W (be : nvm_be W) dev a addrs naddrs data meta flags ret (s : sys W) :
  let opt := cmd_addr_opt dev flags in
  (opt = NVM_CMD_SCALAR ->
     nvm_cmd_write be dev (a :: addrs) naddrs data meta flags ret s =
       be_scalar_write be dev a naddrs data meta flags ret s /\
     nvm_cmd_read be dev (a :: addrs) naddrs data meta flags ret s =
       be_scalar_read be dev a naddrs data meta flags ret s /\
     (meta <> None -> nvm_cmd_erase be dev (a :: addrs) naddrs meta flags ret s =
       Some (-1, meta, ret, Sys EINVAL (hp s) (world s)))) /\
  (opt = NVM_CMD_VECTOR ->
     nvm_cmd_write be dev (a :: addrs) naddrs data meta flags ret s =
       be_vector_write be dev (a :: addrs) naddrs data meta flags ret s /\
     nvm_cmd_read be dev (a :: addrs) naddrs data meta flags ret s =
       be_vector_read be dev (a :: addrs) naddrs data meta flags ret s /\
     nvm_cmd_erase be dev (a :: addrs) naddrs meta flags ret s =
       be_vector_erase be dev (a :: addrs) naddrs meta flags ret s) /\
  (opt <> NVM_CMD_SCALAR -> opt <> NVM_CMD_VECTOR ->
     nvm_cmd_write be dev (a :: addrs) naddrs data meta flags ret s =
       Some (-1, ret, Sys EINVAL (hp s) (world s)) /\
     nvm_cmd_read be dev (a :: addrs) naddrs data meta flags ret s =
       Some (IoRes (-1) data meta ret, Sys EINVAL (hp s) (world s)) /\
     nvm_cmd_erase be dev (a :: addrs) naddrs meta flags ret s =
       Some (-1, meta, ret, Sys EINVAL (hp s) (world s))) /\
  (opt = 0 \/ opt = NVM_CMD_SCALAR \/ opt = NVM_CMD_VECTOR \/ opt = NVM_CMD_MASK_ADDR).
Proof.
  intros opt. unfold nvm_cmd_write, nvm_cmd_read, nvm_cmd_erase. fold opt.
  split; [|split; [|split]].
  - intros ->. cbn. split; [done|]. split; [done|]. by destruct meta.
  - intros ->. done.
  - intros H1 H2. by rewrite (proj2 (Z.eqb_neq _ _) H1), (proj2 (Z.eqb_neq _ _) H2).
  - assert (M : forall x, Z.land x NVM_CMD_MASK_ADDR = 0 \/ Z.land x NVM_CMD_MASK_ADDR = NVM_CMD_SCALAR \/
      Z.land x NVM_CMD_MASK_ADDR = NVM_CMD_VECTOR \/ Z.land x NVM_CMD_MASK_ADDR = NVM_CMD_MASK_ADDR).
    { intros x. assert (E : Z.land x NVM_CMD_MASK_ADDR =
        Z.lor (if Z.testbit x 6 then NVM_CMD_SCALAR else 0) (if Z.testbit x 7 then NVM_CMD_VECTOR else 0)).
      { apply Z.bits_inj'. intros i Hi. rewrite Z.land_spec, Z.lor_spec.
        change NVM_CMD_MASK_ADDR with (2 ^ 6 + 2 ^ 7). change NVM_CMD_SCALAR with (2 ^ 6).
        change NVM_CMD_VECTOR with (2 ^ 7).
        destruct (decide (i = 6)) as [->|]; [destruct (Z.testbit x 6), (Z.testbit x 7); done|].
        destruct (decide (i = 7)) as [->|]; [destruct (Z.testbit x 6), (Z.testbit x 7); done|].
        change (2 ^ 6 + 2 ^ 7) with (Z.lor (2 ^ 6) (2 ^ 7)).
        rewrite Z.lor_spec, !Z.pow2_bits_false by lia. rewrite andb_false_r.
        destruct (Z.testbit x 6), (Z.testbit x 7); rewrite ?Z.pow2_bits_false, ?Z.testbit_0_l by lia; done. }
      rewrite E. destruct (Z.testbit x 6), (Z.testbit x 7); vm_compute; auto. }
    unfold opt, cmd_addr_opt. destruct (_ =? 0); apply M.
Qed.

(** The search for [naddrs] chunks in a given state answers, on success,
    that many addresses, each of a chunk the backend reports in that state and
    all in different parallel units, and leaves the rest of the array alone;
    otherwise it answers -1 with [EINVAL]. Every report it obtained is
    released on every path. *)
Theorem rprt_arbs_correct W (spdk : spdk_env W) (be : nvm_be W) dev I report cst naddrs arb addrs0
  (s : sys W) (Halloc : alloc_ok spdk dev) (Hrprt : rprt_law I be dev report)
  (Hg : geo_counts_ok (geo dev)) (Harb : 0 <= arb /\ arb + naddrs < 2 ^ 31) (Hwf : good I s)
  (Hn : 0 <= naddrs <= npugrp (geo dev) * npunit (geo dev))
  (Hlen : naddrs <= Z.of_nat (length addrs0)) :
  wp (nvm_cmd_rprt_arbs spdk be dev cst naddrs arb addrs0) s (fun '(r, addrs) s' =>
    live s' = live s /\
    ((r = -1 /\ errno s' = EINVAL) \/
     (r = 0 /\ length addrs = length addrs0 /\
      (forall i, naddrs <= i -> addrs !! Z.to_nat i = addrs0 !! Z.to_nat i) /\
      (forall i, 0 <= i < naddrs -> exists a, addrs !! Z.to_nat i = Some a /\
         l_chunk a < nchunk (geo dev) /\
         chunk_in_state report (set_l_chunk 0 a) (l_chunk a) cst) /\
      (forall i j a b, 0 <= i < naddrs -> 0 <= j < naddrs -> i <> j ->
         addrs !! Z.to_nat i = Some a -> addrs !! Z.to_nat j = Some b ->
         (l_pugrp a, l_punit a) <> (l_pugrp b, l_punit b))))).
Proof.
  eapply wp_mono; [by apply (wp_rprt_arbs spdk be dev I report Halloc Hrprt Hg cst naddrs arb Harb)|].
  intros [r addrs] s' (_ & Hl & [(-> & Hf)|(-> & He)]); (split; [done|]); [right|by left].
  split; [done|]. split; [apply Hf|]. split; [apply Hf|]. split.
  - intros i Hi. destruct (arbs_filled_entry dev report Hg cst naddrs arb addrs0 addrs i Hf Hlen Hi)
      as (a & H1 & _ & _ & _ & H2). by exists a.
  - intros i j a b Hi Hj Hne Ha Hb. eapply (arbs_filled_apart dev report Hg cst naddrs arb addrs0 addrs i j); [exact Hf|lia|done..].
Qed.

(** The search for blocks in a given state can answer 0 without having
    found any. When the one block it looks at in the first table, number
    [arb mod nblocks], is in another state, its inner loop, which steps the
    counter of the outer one, ends both loops: for up to [nblocks + 1]
    addresses the answer is 0 after a single table, and the array is as it
    was. *)
Theorem gbbt_arbs_false_success W (be : nvm_be W) dev bs naddrs arb addrs p bbt r s1 st (s : sys W)
  (Hn : 0 < naddrs <= i32 (u64 (nchannels (geo dev) * nluns (geo dev))))
  (Hg : 0 < nchannels (geo dev) /\ 0 < nluns (geo dev) /\ 0 < nblocks (geo dev) < 2 ^ 63)
  (Hsmall : naddrs <= nblocks (geo dev) + 1)
  (Hbbt : be_gbbt be dev (set_g_lun ((u64 arb mod naddrs / nchannels (geo dev)) mod nluns (geo dev))
     (set_g_ch (u64 arb mod naddrs mod nchannels (geo dev)) 0)) None s = Some (Some (p, bbt), r, s1))
  (Hst : plane_state (Z.to_nat (nplanes (geo dev)))
     (u32 (u64 arb mod nblocks (geo dev) * nplanes (geo dev))) (spec_blk bbt) 0 = Some st)
  (Hne : bs <> st) :
  nvm_cmd_gbbt_arbs be dev bs naddrs arb addrs s = Some (0, addrs, s1).
Proof.
  destruct Hg as (G1 & G2 & G3). unfold nvm_cmd_gbbt_arbs. cbn zeta.
  rewrite (proj2 (Z.ltb_ge naddrs 0)), (proj2 (Z.ltb_ge _ naddrs)) by lia. cbn [orb].
  replace (Z.to_nat naddrs) with (S (Z.to_nat (naddrs - 1))) by lia.
  cbn [gbbt_loop]. rewrite (proj2 (Z.ltb_lt 0 naddrs)) by lia.
  cbn zeta. rewrite (proj2 (Z.eqb_neq (nchannels (geo dev)) 0)), (proj2 (Z.eqb_neq (nluns (geo dev)) 0)) by lia.
  cbn [orb]. unfold mbind, M_bind, nvm_cmd_gbbt. rewrite !Z.add_0_l, Hbbt.
  rewrite (gbbt_search_exhausts _ _ _ _ _ _ _ _ st) by (done || lia). cbn [lift].
  rewrite (proj2 (Z.eqb_neq 0 (nblocks (geo dev)))) by lia.
  rewrite Z.max_r, wrap_id by lia.
  by destruct (Z.to_nat (naddrs - 1)); cbn [gbbt_loop]; rewrite (proj2 (Z.ltb_ge _ naddrs)) by lia.
Qed.

(** ** Witnesses *)

(** A device of two units with two chunks each, whose second chunk is free. *)
Definition two_dev : nvm_dev := with_geo (Geo 1 2 2 8 4096 0 0 0 0 0 2) sample20.
Definition two_report (a : nvm_addr) : nvm_spec_rprt :=
  Rprt 2 [Descr NVM_CHUNK_STATE_OPEN 2 0 0 8 3; Descr NVM_CHUNK_STATE_FREE 2 0 0 8 0].

(** A bad-block table of two blocks, both free. *)
Definition free_bbt : nvm_spec_bbt := SpecBbt 2 0 0 0 0 [0; 0].

Definition report_be : nvm_be unit :=
  NvmBe unit NVM_BE_IOCTL "NVM_BE_IOCTL" nvm_be_nosys_open
    nvm_be_nosys_close nvm_be_nosys_pass nvm_be_nosys_idfy
    (fun _ a _ ret => p ← malloc;
       mret (if p =? 0 then None else Some (p, two_report (default 0 a)), ret))
    nvm_be_nosys_gfeat nvm_be_nosys_sfeat
    (fun _ _ ret => mret (Some (9, free_bbt), ret))
    nvm_be_nosys_sbbt nvm_be_nosys_scalar_erase
    nvm_be_nosys_scalar_write nvm_be_nosys_scalar_read nvm_be_nosys_vector_erase
    nvm_be_nosys_vector_write nvm_be_nosys_vector_read nvm_be_nosys_vector_copy
    nvm_be_nosys_async_init nvm_be_nosys_async_term nvm_be_nosys_async_poke
    nvm_be_nosys_async_wait.

Lemma report_be_law : rprt_law (fun _ => True) report_be two_dev two_report.
Proof.
  intros a s Hwf _. cbn. eapply wp_bind, wp_malloc; [done| |].
  - intros s' Hwf' Hl _ _. by apply wp_ret.
  - intros p s' Hp Hf Hwf' Hl _ _. apply wp_ret. rewrite (proj2 (Z.eqb_neq p 0)) by done.
    split; [done|]. cbn. repeat split; done || lia.
Qed.

Lemma rprt_arbs_correct_witness :
  wp (nvm_cmd_rprt_arbs spdk_stub report_be two_dev NVM_CHUNK_STATE_FREE 2 5 [0; 0])
    (Sys 0 (sample_heap 100) tt)
    (fun '(r, addrs) s' => live s' = {[3; 5]} /\ (r = -1 \/ (r = 0 /\ length addrs = 2%nat))).
Proof.
  eapply wp_mono.
  - apply (rprt_arbs_correct unit spdk_stub report_be two_dev (fun _ => True) two_report NVM_CHUNK_STATE_FREE 2 5
      [0; 0] (Sys 0 (sample_heap 100) tt)).
    + apply virt_alloc_ok. by left.
    + apply report_be_law.
    + by_eval.
    + lia.
    + apply sample_heap_wf.
    + by_eval.
    + by_eval.
  - intros [r addrs] s' (Hl & H). split; [done|]. tauto.
Defined.

Lemma gbbt_arbs_false_success_witness :
  nvm_cmd_gbbt_arbs report_be two_dev NVM_BBT_BAD 1 0 [0] (Sys 0 (sample_heap 100) tt) =
    Some (0, [0], Sys 0 (sample_heap 100) tt).
Proof.
  apply (gbbt_arbs_false_success unit report_be two_dev NVM_BBT_BAD 1 0 [0] 9 free_bbt None
    (Sys 0 (sample_heap 100) tt) 0 (Sys 0 (sample_heap 100) tt));
    [by_eval|by_eval|by_eval|reflexivity|reflexivity|done].
Defined.
