(* ===== verification/Wrap.v ===== *)
(** The preparation of submission entries, [src/nvm_cmd.c]: [struct
    nvm_cmd_wrap] of [include/nvm_cmd.h], a command with the DMA memory it
    refers to, which the SPDK backends submit. *)
From stdpp Require Import base numbers strings gmap option list.
From S2P Require Import Prelude Types Nvme Addr Dev Backend Buf Sgl Cmd.

(** ** Data *)

(** The [data] and [meta] arguments: a buffer, or with [NVM_CMD_SGL] a pointer
    to a list. *)
Inductive payload := PMem (m : mem) | PSgl (s : nvm_sgl).

Definition is_null (d : payload) : bool := match d with PMem None => true | _ => false end.

(** DMA memory a command refers to by its physical address. *)
Inductive dma := DmaAddrs (l : list Z) | DmaSgl (l : list nvm_nvme_sgl_descriptor).

(** [w_dsmr], [w_addrs_dma] and [w_dst_dma] are blocks, or [NULL]; the contents
    of the DMA memory are in [w_dma], by block. *)
Record nvm_cmd_wrap := Wrap {
  w_ret : retp; w_cmd : nvm_nvme_cmd;
  w_meta : mem; w_meta_len : Z; w_data : kdata; w_data_len : Z;
  w_dsmr : Z; w_addrs_dma : Z; w_dst_dma : Z; w_dma : list (Z * dma);
  w_completed : Z }.

Definition w_with_cmd (c : nvm_nvme_cmd) (w : nvm_cmd_wrap) : nvm_cmd_wrap :=
  Wrap (w_ret w) c (w_meta w) (w_meta_len w) (w_data w) (w_data_len w) (w_dsmr w) (w_addrs_dma w) (w_dst_dma w)
    (w_dma w) (w_completed w).
Definition w_with_data (d : kdata) (n : Z) (w : nvm_cmd_wrap) : nvm_cmd_wrap :=
  Wrap (w_ret w) (w_cmd w) (w_meta w) (w_meta_len w) d n (w_dsmr w) (w_addrs_dma w) (w_dst_dma w) (w_dma w) (w_completed w).
Definition w_with_meta (m : mem) (n : Z) (w : nvm_cmd_wrap) : nvm_cmd_wrap :=
  Wrap (w_ret w) (w_cmd w) m n (w_data w) (w_data_len w) (w_dsmr w) (w_addrs_dma w) (w_dst_dma w) (w_dma w) (w_completed w).
Definition w_with_dsmr (p : Z) (w : nvm_cmd_wrap) : nvm_cmd_wrap :=
  Wrap (w_ret w) (w_cmd w) (w_meta w) (w_meta_len w) (w_data w) (w_data_len w) p (w_addrs_dma w) (w_dst_dma w) (w_dma w)
    (w_completed w).
Definition w_with_addrs (p : Z) (l : list Z) (w : nvm_cmd_wrap) : nvm_cmd_wrap :=
  Wrap (w_ret w) (w_cmd w) (w_meta w) (w_meta_len w) (w_data w) (w_data_len w) (w_dsmr w) p (w_dst_dma w)
    (w_dma w ++ [(p, DmaAddrs l)]) (w_completed w).
Definition w_with_dst (p : Z) (l : list Z) (w : nvm_cmd_wrap) : nvm_cmd_wrap :=
  Wrap (w_ret w) (w_cmd w) (w_meta w) (w_meta_len w) (w_data w) (w_data_len w) (w_dsmr w) (w_addrs_dma w) p
    (w_dma w ++ [(p, DmaAddrs l)]) (w_completed w).
Definition w_with_sgl (p : Z) (l : list nvm_nvme_sgl_descriptor) (w : nvm_cmd_wrap) : nvm_cmd_wrap :=
  Wrap (w_ret w) (w_cmd w) (w_meta w) (w_meta_len w) (w_data w) (w_data_len w) (w_dsmr w) (w_addrs_dma w) (w_dst_dma w)
    (w_dma w ++ [(p, DmaSgl l)]) (w_completed w).
Definition w_with_cpl (ret : retp) (completed : Z) (w : nvm_cmd_wrap) : nvm_cmd_wrap :=
  Wrap ret (w_cmd w) (w_meta w) (w_meta_len w) (w_data w) (w_data_len w) (w_dsmr w) (w_addrs_dma w) (w_dst_dma w) (w_dma w)
    completed.

(** [ptr_of m] is the address of the caller's buffer [m], which is otherwise
    passed by its content. *)
Section wrap.
Context {W : Type} (spdk : spdk_env W) (ptr_of : mem -> Z).

(** ** Release *)

Definition nvm_cmd_wrap_term (dev : nvm_dev) (w : boxed nvm_cmd_wrap) : M W unit :=
  _ ← nvm_buf_free spdk dev (w_dsmr w.2);
  _ ← nvm_buf_free spdk dev (w_addrs_dma w.2);
  _ ← nvm_buf_free spdk dev (w_dst_dma w.2);
  free w.1.

(** ** Scatter/gather lists *)

(** [nvm_buf_vtophys(dev, buf, &phys)] with its answer ignored: where it
    stores nothing, [phys] is not initialised. *)
Definition phys_of (dev : nvm_dev) (buf : Z) : M W Z :=
  if (be_id dev =? NVM_BE_SPDK) || (be_id dev =? NVM_BE_NOCD) then
    '(_, phys) ← nvm_buf_vtophys spdk dev buf (Some 0); lift phys
  else crash.

(** The descriptor of a segment that holds the whole list. *)
Definition last_segment (s : nvm_sgl) (phys : Z) (d : nvm_nvme_sgl_descriptor) : nvm_nvme_sgl_descriptor :=
  set_sgl NVM_NVME_SGL_DESCR_TYPE_LAST_SEGMENT (u64 (sgl_ndescr s * SIZEOF_SGL_DESCR)) phys d.

(** A buffer where a list is expected is undefined. The wrap, and the meta
    list with the indirect descriptor assigned. *)
Definition cmd_wrap_setup_sgl (dev : nvm_dev) (data meta : payload) (flags : Z) (w : nvm_cmd_wrap)
    : M W (nvm_cmd_wrap * payload) :=
  if Z.land flags NVM_CMD_SGL =? 0 then mret (w, meta)
  else
    match data with
    | PMem _ => crash
    | PSgl s =>
        let c := set_psdt NVM_NVME_PSDT_SGL_MPTR_CONTIGUOUS (w_cmd w) in
        c ← (if sgl_ndescr s =? 1 then d ← lift (sgl_list s !! 0%nat); mret (with_dptr d c)
             else phys ← phys_of dev (sgl_descriptors s); mret (with_dptr (last_segment s phys (dptr c)) c));
        let w := w_with_sgl (sgl_descriptors s) (sgl_list s) (w_with_data (KMem None) 0 (w_with_cmd c w)) in
        if Z.land flags NVM_CMD_SGL_META =? 0 then mret (w, meta)
        else
          let c := set_psdt NVM_NVME_PSDT_SGL_MPTR_SGL (w_cmd w) in
          match meta with
          | PMem _ => crash
          | PSgl m =>
              phys ← phys_of dev (sgl_descriptors m);
              let w := w_with_meta None 0 (w_with_sgl (sgl_descriptors m) (sgl_list m) w) in
              if sgl_ndescr m =? 1 then mret (w_with_cmd (with_mptr phys c) w, meta)
              else if sgl_indirect m =? 0 then crash
              else
                let d := last_segment m phys (sgl_ind m) in
                mp ← phys_of dev (sgl_indirect m);
                mret (w_with_cmd (with_mptr mp c) (w_with_sgl (sgl_indirect m) [d] w),
                  PSgl (Sgl (sgl_indirect m) d (sgl_descriptors m) (sgl_list m) (sgl_ndescr m) (sgl_nalloc m) (sgl_len m)))
          end
    end.

(** ** Setup *)

(** [wrap->data = data; wrap->meta = meta;]: as bytes, a list has no meaning
    here. *)
Definition payload_data (sgl : bool) (d : payload) : option mem :=
  match d with PMem m => Some m | PSgl _ => if sgl then Some None else None end.

Definition flag_set (flags x : Z) : bool := negb (Z.land flags x =? 0).

(** The wrap as the first assignments leave it. *)
Definition wrap_init (dev : nvm_dev) (opcode : Z) (data meta : mem) (ret : retp) : nvm_cmd_wrap :=
  Wrap ret (with_cmd_nsid (dev_nsid dev) (set_opcode opcode zero_cmd)) meta 0 (KMem data) 0 0 0 0 [] 0.

(** A data set management command, with the ranges in DMA memory. *)
Definition wrap_dsm (dev : nvm_dev) (addrs : list nvm_addr) (naddrs : Z) (p : Z) (w : nvm_cmd_wrap)
    : M W (option (boxed nvm_cmd_wrap)) :=
  let len := u64 (SIZEOF_DSMR * naddrs) in
  q ← nvm_buf_alloc spdk dev len;
  if q =? 0 then _ ← nvm_cmd_wrap_term dev (p, w); mret None
  else
    l ← lift (dev_addrs dev addrs naddrs);
    let ranges := (fun d => Dsmr 0 (u32 (nsectr (geo dev))) d) <$> l in
    mret (Some (p, w_with_cmd (set_dsm (naddrs - 1) 1 (w_cmd w)) (w_with_dsmr q (w_with_data (KDsm ranges) len w)))).

(** Sizes and the number of addresses, by version; [None] is another version. *)
Definition wrap_sizes (dev : nvm_dev) (opcode naddrs flags : Z) (data meta : payload) (w : nvm_cmd_wrap)
    : option nvm_cmd_wrap :=
  let g := geo dev in
  if verid dev =? NVM_SPEC_VERID_12 then
    Some (w_with_cmd (set_s12 (naddrs - 1) flags (w_cmd w))
      (w_with_meta (w_meta w) (u64 (meta_nbytes g * naddrs))
        (w_with_data (w_data w) (if is_null data then 0 else u64 (sector_nbytes g * naddrs)) w)))
  else if verid dev =? NVM_SPEC_VERID_20 then
    let c := if nvm_cmd_is_scalar opcode =? 0 then set_s20_naddrs (naddrs - 1) (w_cmd w)
             else set_nvme_naddrs (naddrs - 1) (w_cmd w) in
    Some (w_with_cmd c
      (w_with_meta (w_meta w) (if is_null meta then 0 else u64 (nbytes_oob g * naddrs))
        (w_with_data (w_data w) (if is_null data then 0 else u64 (nbytes g * naddrs)) w)))
  else None.

(** What [nvm_buf_alloc] stores in [*phys]. *)
Definition dma_phys (dev : nvm_dev) (q : Z) : Z :=
  if (be_id dev =? NVM_BE_SPDK) || (be_id dev =? NVM_BE_NOCD) then spdk_vtophys spdk q else 0.

(** The addresses of a vector command: the word of the command, and the block
    of the list when there are several; [None] is a failed allocation. *)
Definition wrap_addrs (dev : nvm_dev) (addrs : list nvm_addr) (naddrs : Z) : M W (option (Z * option (Z * list Z))) :=
  if 1 <? naddrs then
    q ← nvm_buf_alloc spdk dev (u64 (naddrs * 8));
    if q =? 0 then mret None
    else
      l ← lift (dev_addrs dev addrs naddrs);
      mret (Some (dma_phys dev q, Some (q, l)))
  else
    a ← lift (addrs !! 0%nat); mret (Some (nvm_addr_gen2dev dev a, None)).

(** The addresses of a vector command, and the destination of a copy. *)
Definition wrap_vector (dev : nvm_dev) (addrs : list nvm_addr) (dst : option (list nvm_addr)) (naddrs p : Z)
    (w : nvm_cmd_wrap) : M W (option (boxed nvm_cmd_wrap)) :=
  r ← wrap_addrs dev addrs naddrs;
  match r with
  | None => _ ← nvm_cmd_wrap_term dev (p, w); mret None
  | Some (word, block) =>
      let w := w_with_cmd (with_cmd_addrs word (w_cmd w)) w in
      let w := match block with Some (q, l) => w_with_addrs q l w | None => w end in
      match dst with
      | None => mret (Some (p, w))
      | Some dst =>
          r ← wrap_addrs dev dst naddrs;
          match r with
          | None => _ ← nvm_cmd_wrap_term dev (p, w); mret None
          | Some (word, block) =>
              let w := w_with_cmd (with_addrs_dst word (w_cmd w)) w in
              mret (Some (p, match block with Some (q, l) => w_with_dst q l w | None => w end))
          end
      end
  end.

(** A vector erase has the descriptors of the chunks as its meta data. *)
Definition wrap_erase_meta (dev : nvm_dev) (opcode naddrs : Z) (meta : payload) (w : nvm_cmd_wrap)
    : M W (bool * nvm_cmd_wrap) :=
  if (opcode =? NVM_DOPC_VECTOR_ERASE) && negb (is_null meta) then
    if match meta with PSgl _ => true | _ => false end then crash else
    let w := w_with_meta (w_meta w) (u64 (naddrs * SIZEOF_DESCR)) w in
    '(err, phys) ← nvm_buf_vtophys spdk dev (ptr_of (w_meta w)) (Some (mptr (w_cmd w)));
    mp ← lift phys;
    mret (err =? 0, w_with_cmd (with_mptr mp (w_cmd w)) w)
  else mret (true, w).

Definition nvm_cmd_wrap_setup (dev : nvm_dev) (opcode : Z) (data meta : payload) (addrs : list nvm_addr)
    (dst : option (list nvm_addr)) (naddrs flags : Z) (ret : retp)
    : M W (option (boxed nvm_cmd_wrap) * payload) :=
  p ← malloc;
  if p =? 0 then mret (None, meta)
  else
    d ← lift (payload_data (flag_set flags NVM_CMD_SGL) data);
    m ← lift (payload_data (flag_set flags NVM_CMD_SGL && flag_set flags NVM_CMD_SGL_META) meta);
    let w := wrap_init dev opcode d m ret in
    if opcode =? NVM_DOPC_SCALAR_ERASE then r ← wrap_dsm dev addrs naddrs p w; mret (r, meta)
    else
      match wrap_sizes dev opcode naddrs flags data meta w with
      | None => _ ← set_errno EINVAL; _ ← nvm_cmd_wrap_term dev (p, w); mret (None, meta)
      | Some w =>
          '(ok, w) ← wrap_erase_meta dev opcode naddrs meta w;
          if negb ok then _ ← nvm_cmd_wrap_term dev (p, w); mret (None, meta)
          else
            '(w, meta) ← cmd_wrap_setup_sgl dev data meta flags w;
            if (opcode =? NVM_DOPC_SCALAR_WRITE) || (opcode =? NVM_DOPC_SCALAR_READ) then
              a ← lift (addrs !! 0%nat);
              mret (Some (p, w_with_cmd (with_cmd_addrs (nvm_addr_gen2dev dev a) (w_cmd w)) w), meta)
            else r ← wrap_vector dev addrs dst naddrs p w; mret (r, meta)
      end.

(** The entry is the caller's: the wrap carries the buffers and the result. *)
Definition nvm_cmd_wrap_pass (dev : nvm_dev) (cmd : nvm_nvme_cmd) (data : mem) (data_nbytes : Z) (meta : mem)
    (meta_nbytes flags : Z) (ret : retp) : M W (option (boxed nvm_cmd_wrap)) :=
  p ← malloc;
  if p =? 0 then mret None
  else mret (Some (p, Wrap ret zero_cmd meta meta_nbytes (KMem data) data_nbytes 0 0 0 [] 0)).
End wrap.
