(* ===== verification/Spdk.v ===== *)
(** The SPDK backend, [src/nvm_be_spdk.c], built with SPDK: probing and
    opening, admin commands, synchronous commands on a queue pair of the
    handle, asynchronous ones on the queue pair of a context. *)
From stdpp Require Import base numbers strings gmap option list.
From S2P Require Import Prelude Types Nvme Addr Dev Backend Buf Be Sgl Cmd Wrap.

(** ** SPDK *)

(** What a callback is called with, and what the command left in the memory it
    was given. *)
Record cpl_event := CplEvent { ce_arg : Z; ce_cpl : nvm_nvme_cpl; ce_data : kdata; ce_meta : mem }.

(** The library. Controllers, name-spaces, transport ids and queue pairs are
    pointers; [spdk_nvme_probe] is given the answer of the probe callback for
    each transport id, and answers the controllers it attaches to, in order; a
    command is submitted with the DMA memory it refers to; the completion
    functions answer the callbacks to run, in order. *)
Record spdk_nvme (W : Type) := SpdkNvme {
  spdk_env_init : M W Z;
  spdk_nvme_transport_id_parse : string -> M W (Z * Z);
  spdk_nvme_transport_id_compare : Z -> Z -> Z;
  spdk_nvme_probe : Z -> (Z -> bool) -> M W (Z * list Z);
  spdk_nvme_ctrlr_get_num_ns : Z -> Z;
  spdk_nvme_ctrlr_get_ns : Z -> Z -> Z;
  spdk_nvme_ns_is_active : Z -> bool;
  spdk_nvme_ns_get_data : Z -> option nvm_nvme_ns;
  spdk_nvme_ctrlr_get_default_io_qpair_opts : Z -> Z * Z;
  spdk_nvme_ctrlr_alloc_io_qpair : Z -> option (Z * Z) -> M W Z;
  spdk_nvme_ctrlr_free_io_qpair : Z -> M W Z;
  spdk_nvme_detach : Z -> M W unit;
  spdk_nvme_ctrlr_cmd_admin_raw : Z -> nvm_nvme_cmd -> list (Z * dma) -> kdata -> Z -> M W Z;
  spdk_nvme_ctrlr_process_admin_completions : Z -> M W (option cpl_event);
  spdk_nvme_ctrlr_cmd_io_raw_with_md : Z -> Z -> nvm_nvme_cmd -> list (Z * dma) -> kdata -> Z -> mem -> Z -> M W Z;
  spdk_nvme_qpair_process_completions : Z -> Z -> M W (Z * list cpl_event) }.
Arguments spdk_env_init {W} _.
Arguments spdk_nvme_transport_id_parse {W} _.
Arguments spdk_nvme_transport_id_compare {W} _.
Arguments spdk_nvme_probe {W} _.
Arguments spdk_nvme_ctrlr_get_num_ns {W} _.
Arguments spdk_nvme_ctrlr_get_ns {W} _.
Arguments spdk_nvme_ns_is_active {W} _.
Arguments spdk_nvme_ns_get_data {W} _.
Arguments spdk_nvme_ctrlr_get_default_io_qpair_opts {W} _.
Arguments spdk_nvme_ctrlr_alloc_io_qpair {W} _.
Arguments spdk_nvme_ctrlr_free_io_qpair {W} _.
Arguments spdk_nvme_detach {W} _.
Arguments spdk_nvme_ctrlr_cmd_admin_raw {W} _.
Arguments spdk_nvme_ctrlr_process_admin_completions {W} _.
Arguments spdk_nvme_ctrlr_cmd_io_raw_with_md {W} _.
Arguments spdk_nvme_qpair_process_completions {W} _.

(** ** The state of the backend *)

Definition NVM_BE_SPDK_MAX_PROBE_ATTEMPTS : nat := 2.
Definition NVM_BE_SPDK_ALIGN : Z := 0x1000.

(** [struct nvm_be_spdk_state]; the lock of the queue pair has no effect in one
    thread. *)
Record nvm_be_spdk_state := SpdkState {
  st_trid : Z; st_ctrlr : Z; st_ns : Z; st_nsdata : nvm_nvme_ns; st_nsid : Z; st_attached : bool; st_qpair : Z }.

(** A context, with the block it is in. *)
Record spdk_ctx := SpdkCtx { sc_depth : Z; sc_outstanding : Z; sc_block : Z }.

(** [_do_spdk_env_init], the states by the address in [dev->be_state], the
    chunk descriptors that follow the state of [NVM_BE_NOCD], the contexts by
    their queue pair and the wraps in flight by their address. *)
Record spdk_world (W : Type) := SpdkWorld {
  do_env_init : bool;
  sw_states : gmap Z nvm_be_spdk_state;
  sw_nocd : gmap Z (list nvm_spec_rprt_descr);
  sw_ctxs : gmap Z spdk_ctx;
  sw_wraps : gmap Z nvm_cmd_wrap;
  sw_os : W }.
Arguments SpdkWorld {W} _ _ _ _ _ _.
Arguments do_env_init {W} _.
Arguments sw_states {W} _.
Arguments sw_nocd {W} _.
Arguments sw_ctxs {W} _.
Arguments sw_wraps {W} _.
Arguments sw_os {W} _.

(** [ptr_of] as in [Wrap]; [ret_ctx t] is the queue pair of the context the
    result structure [t] names, or 0 without one; [junk p i] is what byte [i]
    of a fresh block [p] happens to hold; [polls] bounds the calls that wait
    for a completion. *)
Section spdk.
Context {W : Type}.
#[local] Abbreviation SW := (spdk_world W).
Context (spdk : spdk_env SW) (lib : spdk_nvme SW) (ptr_of : mem -> Z) (ret_ctx : Z -> Z) (junk : Z -> Z -> Z) (polls : nat).

Definition get_state (dev : nvm_dev) : M SW nvm_be_spdk_state := w ← get_world; lift (sw_states w !! be_state dev).
Definition put_state (p : Z) (x : nvm_be_spdk_state) : M SW unit :=
  modify_world (fun w => SpdkWorld (do_env_init w) (<[p := x]> (sw_states w)) (sw_nocd w) (sw_ctxs w) (sw_wraps w) (sw_os w)).
Definition drop_state (p : Z) : M SW unit :=
  modify_world (fun w => SpdkWorld (do_env_init w) (delete p (sw_states w)) (delete p (sw_nocd w)) (sw_ctxs w) (sw_wraps w) (sw_os w)).
Definition get_ctx (q : Z) : M SW spdk_ctx := w ← get_world; lift (sw_ctxs w !! q).
Definition put_ctx (q : Z) (x : spdk_ctx) : M SW unit :=
  modify_world (fun w => SpdkWorld (do_env_init w) (sw_states w) (sw_nocd w) (<[q := x]> (sw_ctxs w)) (sw_wraps w) (sw_os w)).
Definition drop_ctx (q : Z) : M SW unit :=
  modify_world (fun w => SpdkWorld (do_env_init w) (sw_states w) (sw_nocd w) (delete q (sw_ctxs w)) (sw_wraps w) (sw_os w)).
Definition put_wrap (p : Z) (x : nvm_cmd_wrap) : M SW unit :=
  modify_world (fun w => SpdkWorld (do_env_init w) (sw_states w) (sw_nocd w) (sw_ctxs w) (<[p := x]> (sw_wraps w)) (sw_os w)).
Definition take_wrap (p : Z) : M SW nvm_cmd_wrap :=
  w ← get_world;
  x ← lift (sw_wraps w !! p);
  _ ← modify_world (fun w => SpdkWorld (do_env_init w) (sw_states w) (sw_nocd w) (sw_ctxs w) (delete p (sw_wraps w)) (sw_os w));
  mret x.
Definition env_init_done : M SW unit :=
  modify_world (fun w => SpdkWorld false (sw_states w) (sw_nocd w) (sw_ctxs w) (sw_wraps w) (sw_os w)).

(** ** Probing *)

Definition probe_cb (st : nvm_be_spdk_state) (trid : Z) : bool :=
  if negb (spdk_nvme_transport_id_compare lib (st_trid st) trid =? 0) then false else negb (st_attached st).

(** The first valid and active name-space. *)
Fixpoint first_ns (ctrlr : Z) (nsids : list Z) : option (Z * Z) :=
  match nsids with
  | [] => None
  | nsid :: nsids =>
      let ns := spdk_nvme_ctrlr_get_ns lib ctrlr nsid in
      if ns =? 0 then first_ns ctrlr nsids
      else if negb (spdk_nvme_ns_is_active lib ns) then first_ns ctrlr nsids
      else Some (nsid, ns)
  end.

Definition attach_cb (st : nvm_be_spdk_state) (ctrlr : Z) : nvm_be_spdk_state :=
  let num_ns := spdk_nvme_ctrlr_get_num_ns lib ctrlr in
  match first_ns ctrlr (seqZ 1 num_ns) with
  | None => st
  | Some (nsid, ns) => SpdkState (st_trid st) ctrlr ns (st_nsdata st) (u16 nsid) true (st_qpair st)
  end.

Definition nvm_be_spdk_state_term (p : Z) (st : nvm_be_spdk_state) : M SW unit :=
  _ ← (if st_qpair st =? 0 then mret 0 else spdk_nvme_ctrlr_free_io_qpair lib (st_qpair st));
  _ ← (if st_ctrlr st =? 0 then mret tt else spdk_nvme_detach lib (st_ctrlr st));
  free p.

Definition nvm_be_spdk_close (dev : nvm_dev) : M SW unit :=
  if be_state dev =? 0 then mret tt
  else
    st ← get_state dev;
    _ ← (if st_qpair st =? 0 then mret 0 else spdk_nvme_ctrlr_free_io_qpair lib (st_qpair st));
    _ ← (if st_ctrlr st =? 0 then mret tt else spdk_nvme_detach lib (st_ctrlr st));
    _ ← drop_state (be_state dev);
    free (be_state dev).

(** [attempts] are the probes left. *)
Fixpoint probe_loop (attempts : nat) (p : Z) (st : nvm_be_spdk_state) : M SW (option nvm_be_spdk_state) :=
  if st_attached st then mret (Some st)
  else
    match attempts with
    | O => _ ← nvm_be_spdk_state_term p st; mret None
    | S attempts =>
        '(_, ctrlrs) ← spdk_nvme_probe lib (st_trid st) (probe_cb st);
        probe_loop attempts p (foldl attach_cb st ctrlrs)
    end.

(** [false] is a failed initialisation. *)
Definition env_init_once : M SW bool :=
  w ← get_world;
  if do_env_init w then
    err ← spdk_env_init lib;
    if negb (err =? 0) then mret false else _ ← env_init_done; mret true
  else mret true.

Definition nvm_be_spdk_state_init (ident : string) (flags : Z) : M SW (option (boxed nvm_be_spdk_state)) :=
  p ← malloc;
  if p =? 0 then mret None
  else
    let st := SpdkState 0 0 0 (Ns 0 0 []) 0 false 0 in
    ok ← env_init_once;
    if negb (ok : bool) then _ ← nvm_be_spdk_state_term p st; mret None
    else
      '(err, trid) ← spdk_nvme_transport_id_parse lib ident;
      if negb (err =? 0) then
        _ ← set_errno (i32 (- err)); _ ← nvm_be_spdk_state_term p st; mret None
      else
        st ← probe_loop NVM_BE_SPDK_MAX_PROBE_ATTEMPTS p (SpdkState trid 0 0 (Ns 0 0 []) 0 false 0);
        match st with
        | None => mret None
        | Some st =>
            match spdk_nvme_ns_get_data lib (st_ns st) with
            | None => _ ← nvm_be_spdk_state_term p st; mret None
            | Some nsdata =>
                q ← spdk_nvme_ctrlr_alloc_io_qpair lib (st_ctrlr st) None;
                let st := SpdkState (st_trid st) (st_ctrlr st) (st_ns st) nsdata (st_nsid st) (st_attached st) q in
                if q =? 0 then _ ← nvm_be_spdk_state_term p st; mret None
                else _ ← put_state p st; mret (Some (p, st))
            end
        end.

(** ** Contexts *)

Definition ctx_of (q : Z) (x : spdk_ctx) : nvm_async_ctx := AsyncCtx (sc_depth x) (sc_outstanding x) q.

Definition nvm_be_spdk_async_init (dev : nvm_dev) (depth flags : Z) : M SW (option nvm_async_ctx) :=
  st ← get_state dev;
  let opts := spdk_nvme_ctrlr_get_default_io_qpair_opts lib (st_ctrlr st) in
  let opts := if depth =? 0 then opts else (depth, u32 (depth * 2)) in
  c ← malloc;
  if c =? 0 then mret None
  else
    q ← spdk_nvme_ctrlr_alloc_io_qpair lib (st_ctrlr st) (Some opts);
    if q =? 0 then _ ← free c; mret None
    else
      let x := SpdkCtx opts.1 0 c in
      _ ← put_ctx q x; mret (Some (ctx_of q x)).

Definition nvm_be_spdk_async_term (dev : nvm_dev) (ctx : nvm_async_ctx) : M SW Z :=
  let q := be_ctx ctx in
  if q =? 0 then fail EINVAL (-1)
  else
    err ← spdk_nvme_ctrlr_free_io_qpair lib q;
    if negb (err =? 0) then mret (-1)
    else x ← get_ctx q; _ ← drop_ctx q; _ ← free (sc_block x); mret 0.

(** ** Completions *)

(** The callback of an asynchronous command; the user's callback is answered
    as a completion. *)
Definition cmd_async_cb (dev : nvm_dev) (e : cpl_event) (cpls : list completion) : M SW (list completion) :=
  w ← take_wrap (ce_arg e);
  match nvm_cmd_wrap_cpl (w_ret w) (ce_cpl e) with
  | (Some r, _) =>
      let q := ret_ctx (ret_async r) in
      x ← get_ctx q;
      _ ← put_ctx q (SpdkCtx (sc_depth x) (u32 (sc_outstanding x - 1)) (sc_block x));
      _ ← nvm_cmd_wrap_term spdk dev (ce_arg e, w);
      mret (cpls ++ [Completion (ret_async r) (ret_status r)])
  | (None, _) => crash
  end.

Definition nvm_be_spdk_async_poke (dev : nvm_dev) (ctx : nvm_async_ctx) (max : Z)
    : M SW (Z * nvm_async_ctx * list completion) :=
  let q := be_ctx ctx in
  '(res, events) ← spdk_nvme_qpair_process_completions lib q max;
  cpls ← mfold (cmd_async_cb dev) events [];
  x ← get_ctx q;
  mret (if res <? 0 then -1 else res, ctx_of q x, cpls).

Fixpoint wait_loop (fuel : nat) (dev : nvm_dev) (ctx : nvm_async_ctx) (acc : Z) (cpls : list completion)
    : M SW (Z * nvm_async_ctx * list completion) :=
  if outstanding ctx =? 0 then mret (acc, ctx, cpls)
  else
    match fuel with
    | O => crash
    | S fuel =>
        '(res, ctx, l) ← nvm_be_spdk_async_poke dev ctx 0;
        if res <? 0 then mret (-1, ctx, cpls ++ l) else wait_loop fuel dev ctx (i32 (acc + res)) (cpls ++ l)
    end.

Definition nvm_be_spdk_async_wait (dev : nvm_dev) (ctx : nvm_async_ctx)
    : M SW (Z * nvm_async_ctx * list completion) :=
  x ← get_ctx (be_ctx ctx); wait_loop polls dev (ctx_of (be_ctx ctx) x) 0 [].

(** ** Admin commands *)

(** The entry as it is submitted: the meta pointer, and for a pass-through the
    number of meta dwords. *)
Definition adc_cmd (cmd : nvm_nvme_cmd) (meta : mem) (meta_nbytes flags : Z) : nvm_nvme_cmd :=
  let cmd := if is_some meta then with_mptr (ptr_of meta) cmd else cmd in
  if negb (meta_nbytes =? 0) && is_some meta && flag_set flags NVM_CMD_PADC then set_ndm (meta_nbytes / 4) cmd else cmd.

Definition submit_adc (ctrlr : Z) (cmd : nvm_nvme_cmd) (dmas : list (Z * dma)) (data : kdata) (data_nbytes : Z)
    (meta : mem) (meta_nbytes flags : Z) : M SW Z :=
  spdk_nvme_ctrlr_cmd_admin_raw lib ctrlr (adc_cmd cmd meta (u32 meta_nbytes) flags) dmas data (u32 data_nbytes).

(** [while (!ctx.completed) ...] *)
Fixpoint admin_wait (fuel : nat) (ctrlr : Z) : M SW cpl_event :=
  match fuel with
  | O => crash
  | S fuel =>
      e ← spdk_nvme_ctrlr_process_admin_completions lib ctrlr;
      match e with Some e => mret e | None => admin_wait fuel ctrlr end
  end.

(** The completion in [*ret], as [nvm_cmd_wrap_cpl] folds it. *)
Definition ret_cpl (ret : retp) (cpl : nvm_nvme_cpl) : retp := (nvm_cmd_wrap_cpl ret cpl).1.

(** The answer, the data as the command left it, and the result: a completion
    with an error is answered with 0 all the same. *)
Definition cmd_sync_admin (dev : nvm_dev) (cmd : nvm_nvme_cmd) (dmas : list (Z * dma)) (data : kdata) (data_len : Z)
    (meta : mem) (meta_len flags : Z) (ret : retp) : M SW (Z * kdata * mem * retp) :=
  st ← get_state dev;
  err ← submit_adc (st_ctrlr st) cmd dmas data data_len meta meta_len flags;
  if negb (err =? 0) then mret (-1, data, meta, ret)
  else
    e ← admin_wait polls (st_ctrlr st);
    mret (0, ce_data e, ce_meta e, ret_cpl ret (ce_cpl e)).

Definition admin_cmd (st : nvm_be_spdk_state) (opcode : Z) : nvm_nvme_cmd :=
  with_cmd_nsid (st_nsid st) (set_opcode opcode zero_cmd).

Definition cmd_sync_admin_glp (dev : nvm_dev) (l : list nvm_spec_rprt_descr) (ndw lpo opt : Z) (ret : retp)
    : M SW (Z * list nvm_spec_rprt_descr * retp) :=
  st ← get_state dev;
  if negb (Z.land lpo 0x3 =? 0) then fail EINVAL (-1, l, ret)
  else
    let cmd := set_rprt 0xCA opt (Z.shiftr ndw 16) (Z.land ndw 0xffff) (admin_cmd st NVM_AOPC_RPRT) in
    let cmd := with_cdw12 (u32 (Z.land lpo 0xfffffff)) (with_cdw13 (u32 (Z.shiftr lpo 32)) cmd) in
    '(err, data, _, ret) ← cmd_sync_admin dev cmd [] (KDescr l) (u32 (u32 (ndw + 1) * 4)) None 0 0 ret;
    if negb (err =? 0) then mret (-1, l, ret)
    else match data with KDescr l => mret (0, l, ret) | _ => crash end.

Definition nvm_be_spdk_idfy (dev : nvm_dev) (ret : retp) : M SW (option (boxed nvm_spec_idfy) * retp) :=
  st ← get_state dev;
  p ← nvm_buf_alloc spdk dev SIZEOF_IDFY;
  if p =? 0 then fail ENOMEM (None, ret)
  else
    '(err, data, _, ret) ← cmd_sync_admin dev (admin_cmd st NVM_AOPC_IDFY) [] (KIdfy zero_idfy) SIZEOF_IDFY None 0 0 ret;
    if negb (err =? 0) then _ ← nvm_buf_free spdk dev p; mret (None, ret)
    else match data with KIdfy i => mret (Some (p, i), ret) | _ => crash end.

(** [cdw0] of a result. *)
Definition result_cdw0 (r : nvm_ret) : Z := bf_get 0 32 (result r).

Definition nvm_be_spdk_gfeat (dev : nvm_dev) (id feat : Z) (ret : retp) : M SW (Z * Z * retp) :=
  st ← get_state dev;
  let r := default (Ret 0 0 0) ret in
  '(err, _, _, r) ← cmd_sync_admin dev (set_gfeat id (admin_cmd st NVM_AOPC_GFEAT)) [] (KMem None) 0 None 0 0 (Some r);
  let ret' := match ret with Some _ => r | None => None end in
  if negb (err =? 0) then mret (-1, feat, ret')
  else r ← lift r; mret (0, result_cdw0 r, ret').

Definition nvm_be_spdk_sfeat (dev : nvm_dev) (id feat : Z) (ret : retp) : M SW (Z * retp) :=
  st ← get_state dev;
  '(err, _, _, ret) ← cmd_sync_admin dev (set_sfeat id feat (admin_cmd st NVM_AOPC_SFEAT)) [] (KMem None) 0 None 0 0 ret;
  if negb (err =? 0) then mret (-1, ret) else mret (0, ret).

(** One round: the descriptors from [i] on, at most 4096. *)
Definition glp_round (dev : nvm_dev) (p ndescr lpo_off i : Z) (acc : list nvm_spec_rprt_descr * retp)
    : M SW (list nvm_spec_rprt_descr * retp + retp) :=
  let '(l, ret) := acc in
  let count := u64 (NVM_MIN 0x1000 (u64 (ndescr - i))) in
  '(err, l', ret) ← cmd_sync_admin_glp dev (take (Z.to_nat count) (drop (Z.to_nat i) l))
    (u32 (u64 (u64 (count * SIZEOF_DESCR) / 4 - 1))) (u64 (lpo_off + u64 (i * SIZEOF_DESCR))) 0x0 ret;
  if negb (err =? 0) then _ ← nvm_buf_free spdk dev p; mret (inr ret)
  else mret (inl (take (Z.to_nat i) l ++ l' ++ drop (Z.to_nat i + length l') l, ret)).

Definition nvm_be_spdk_rprt (dev : nvm_dev) (addr : option nvm_addr) (opt : Z) (ret : retp)
    : M SW (option (boxed nvm_spec_rprt) * retp) :=
  let g := geo dev in
  let lpo_off := match addr with Some a => nvm_addr_gen2lpo dev a | None => 0 end in
  if negb (verid dev =? NVM_SPEC_VERID_20) then fail EINVAL (None, ret)
  else
    let ndescr := match addr with Some _ => nchunk g | None => mul64 [nchunk g; npunit g; npugrp g] end in
    let rprt_len := u64 (u64 (ndescr * SIZEOF_DESCR) + SIZEOF_NDESCR) in
    p ← nvm_buf_alloc spdk dev rprt_len;
    if p =? 0 then fail ENOMEM (None, ret)
    else
      rounds ← lift (range_lt (trips 0 ndescr 0x1000) 0 ndescr 0x1000);
      r ← mfold_ret (glp_round dev p ndescr lpo_off) rounds (replicate (Z.to_nat ndescr) zero_descr, ret);
      match r with
      | inr ret => mret (None, ret)
      | inl (l, ret) => mret (Some (p, Rprt ndescr l), ret)
      end.

(** Only the header of the table is cleared, and the answer is not checked. *)
Definition nvm_be_spdk_gbbt (dev : nvm_dev) (addr : nvm_addr) (ret : retp)
    : M SW (option (boxed nvm_spec_bbt) * retp) :=
  st ← get_state dev;
  let nblks := u32 (nblocks (geo dev) * nplanes (geo dev)) in
  let bbt_len := SIZEOF_SPEC_BBT + nblks in
  p ← nvm_buf_alloc spdk dev bbt_len;
  if p =? 0 then fail ENOMEM (None, ret)
  else
    let cmd := with_cmd_addrs (nvm_addr_gen2dev dev addr) (admin_cmd st NVM_AOPC_GBBT) in
    let bbt := KBbt [0; 0; 0; 0] (SpecBbt 0 0 0 0 0 (junk p <$> seqZ SIZEOF_SPEC_BBT nblks)) in
    '(err, data, _, ret) ← cmd_sync_admin dev cmd [] bbt bbt_len None 0 0 ret;
    if negb (err =? 0) then _ ← nvm_buf_free spdk dev p; mret (None, ret)
    else match data with KBbt _ b => mret (Some (p, b), ret) | _ => crash end.

(** The name-space of the command is left 0. *)
Definition nvm_be_spdk_sbbt (dev : nvm_dev) (addrs : list nvm_addr) (naddrs flags : Z) (ret : retp)
    : M SW (Z * retp) :=
  let cmd := set_s12 (naddrs - 1) flags (set_opcode NVM_AOPC_SBBT zero_cmd) in
  if negb (bf_get 0 16 (cdw12 cmd) =? 0) then
    q ← spdk_dma_malloc spdk (u64 (naddrs * 8)) NVM_BE_SPDK_ALIGN;
    if q =? 0 then mret (-1, ret)
    else
      l ← lift (dev_addrs dev addrs naddrs);
      '(err, _, _, ret) ← cmd_sync_admin dev (with_cmd_addrs (spdk_vtophys spdk q) cmd) [(q, DmaAddrs l)] (KMem None) 0
        None 0 0 ret;
      _ ← spdk_dma_free spdk q;
      if negb (err =? 0) then mret (-1, ret) else mret (0, ret)
  else
    a ← lift (addrs !! 0%nat);
    '(err, _, _, ret) ← cmd_sync_admin dev (with_cmd_addrs (nvm_addr_gen2dev dev a) cmd) [] (KMem None) 0 None 0 0 ret;
    _ ← spdk_dma_free spdk 0;
    if negb (err =? 0) then mret (-1, ret) else mret (0, ret).

(** ** I/O commands *)

(** The events of the handle's queue pair, which carries one command at a
    time: the wrap with its completion, and the buffers. *)
Definition cmd_sync_cb (p : Z) (e : cpl_event) (acc : nvm_cmd_wrap * kdata * mem) : M SW (nvm_cmd_wrap * kdata * mem) :=
  if ce_arg e =? p then
    let '(w, _, _) := acc in
    let '(ret, completed) := nvm_cmd_wrap_cpl (w_ret w) (ce_cpl e) in
    mret (w_with_cpl ret completed w, ce_data e, ce_meta e)
  else crash.

Fixpoint sync_wait (fuel : nat) (q p : Z) (acc : nvm_cmd_wrap * kdata * mem) : M SW (nvm_cmd_wrap * kdata * mem) :=
  if negb (w_completed acc.1.1 =? 0) then mret acc
  else
    match fuel with
    | O => crash
    | S fuel =>
        '(_, events) ← spdk_nvme_qpair_process_completions lib q 0;
        acc ← mfold (cmd_sync_cb p) events acc;
        sync_wait fuel q p acc
    end.

Definition submit_ioc (ctrlr q : Z) (cmd : nvm_nvme_cmd) (w : nvm_cmd_wrap) (p : Z) : M SW Z :=
  spdk_nvme_ctrlr_cmd_io_raw_with_md lib ctrlr q cmd (w_dma w) (w_data w) (u32 (w_data_len w)) (w_meta w) p.

(** Submission, completion and release; [data] and [meta] are the caller's
    buffers. *)
Definition sync_run (dev : nvm_dev) (cmd : nvm_nvme_cmd) (p : Z) (w : nvm_cmd_wrap) (data meta : mem) : M SW io_res :=
  st ← get_state dev;
  err ← submit_ioc (st_ctrlr st) (st_qpair st) cmd w p;
  if negb (err =? 0) then
    _ ← nvm_cmd_wrap_term spdk dev (p, w); mret (IoRes (-1) data meta (w_ret w))
  else
    '(w, d, m) ← sync_wait polls (st_qpair st) p (w, w_data w, w_meta w);
    data ← lift (match w_data w with KMem (Some _) => match d with KMem d => Some d | _ => None end | _ => Some data end);
    let res := if w_completed w <? 0 then -1 else 0 in
    _ ← (if w_completed w <? 0 then set_errno EIO else mret tt);
    _ ← nvm_cmd_wrap_term spdk dev (p, w);
    mret (IoRes res data (if is_some meta then m else meta) (w_ret w)).

Definition cmd_sync_ewrc (dev : nvm_dev) (addrs : list nvm_addr) (dst : option (list nvm_addr)) (naddrs : Z)
    (data meta : mem) (flags opcode : Z) (ret : retp) : M SW io_res :=
  '(wrap, _) ← nvm_cmd_wrap_setup spdk ptr_of dev opcode (PMem data) (PMem meta) addrs dst naddrs flags ret;
  match wrap with
  | None => mret (IoRes (-1) data meta ret)
  | Some (p, w) => sync_run dev (w_cmd w) p w data meta
  end.

(** Submission on the queue pair [q] of a context with room. *)
Definition async_run (dev : nvm_dev) (cmd : nvm_nvme_cmd) (q p : Z) (w : nvm_cmd_wrap) : M SW Z :=
  st ← get_state dev;
  x ← get_ctx q;
  _ ← put_ctx q (SpdkCtx (sc_depth x) (u32 (sc_outstanding x + 1)) (sc_block x));
  _ ← put_wrap p w;
  err ← submit_ioc (st_ctrlr st) q cmd w p;
  if negb (err =? 0) then
    _ ← put_ctx q x;
    w ← take_wrap p;
    _ ← nvm_cmd_wrap_term spdk dev (p, w); mret (-1)
  else mret 0.

Definition queue_full (x : spdk_ctx) : bool := sc_depth x <? u32 (sc_outstanding x + 1).

Definition cmd_async_ewrc (dev : nvm_dev) (addrs : list nvm_addr) (dst : option (list nvm_addr)) (naddrs : Z)
    (data meta : mem) (flags opcode q : Z) (ret : retp) : M SW io_res :=
  x ← get_ctx q;
  if queue_full x then fail EAGAIN (IoRes (-1) data meta ret)
  else
    '(wrap, _) ← nvm_cmd_wrap_setup spdk ptr_of dev opcode (PMem data) (PMem meta) addrs dst naddrs flags ret;
    match wrap with
    | None => mret (IoRes (-1) data meta ret)
    | Some (p, w) => err ← async_run dev (w_cmd w) q p w; mret (IoRes err data meta ret)
    end.

(** The switch of each operation on [flags & NVM_CMD_MASK_IOMD]. *)
Definition spdk_ewrc (dev : nvm_dev) (addrs : list nvm_addr) (dst : option (list nvm_addr)) (naddrs : Z)
    (data meta : mem) (flags opcode : Z) (ret : retp) : M SW io_res :=
  if Z.land flags NVM_CMD_MASK_IOMD =? NVM_CMD_ASYNC then
    match ret with
    | None => fail EINVAL (IoRes (-1) data meta ret)
    | Some r =>
        let q := ret_ctx (ret_async r) in
        if q =? 0 then fail EINVAL (IoRes (-1) data meta ret)
        else cmd_async_ewrc dev addrs dst naddrs data meta flags opcode q ret
    end
  else cmd_sync_ewrc dev addrs dst naddrs data meta flags opcode ret.

Definition nvm_be_spdk_scalar_erase (dev : nvm_dev) (addrs : list nvm_addr) (naddrs flags : Z) (ret : retp)
    : M SW (Z * retp) :=
  r ← spdk_ewrc dev addrs None naddrs None None flags NVM_DOPC_SCALAR_ERASE ret; mret (rc r, io_ret r).
Definition nvm_be_spdk_scalar_write (dev : nvm_dev) (addr : nvm_addr) (naddrs : Z) (data meta : mem) (flags : Z)
    (ret : retp) : M SW (Z * retp) :=
  r ← spdk_ewrc dev [addr] None naddrs data meta flags NVM_DOPC_SCALAR_WRITE ret; mret (rc r, io_ret r).
Definition nvm_be_spdk_scalar_read (dev : nvm_dev) (addr : nvm_addr) (naddrs : Z) (data meta : mem) (flags : Z)
    (ret : retp) : M SW io_res := spdk_ewrc dev [addr] None naddrs data meta flags NVM_DOPC_SCALAR_READ ret.
Definition nvm_be_spdk_vector_erase (dev : nvm_dev) (addrs : list nvm_addr) (naddrs : Z) (meta : mem) (flags : Z)
    (ret : retp) : M SW (Z * mem * retp) :=
  r ← spdk_ewrc dev addrs None naddrs None meta flags NVM_DOPC_VECTOR_ERASE ret; mret (rc r, io_meta r, io_ret r).
Definition nvm_be_spdk_vector_write (dev : nvm_dev) (addrs : list nvm_addr) (naddrs : Z) (data meta : mem) (flags : Z)
    (ret : retp) : M SW (Z * retp) :=
  r ← spdk_ewrc dev addrs None naddrs data meta flags NVM_DOPC_VECTOR_WRITE ret; mret (rc r, io_ret r).
Definition nvm_be_spdk_vector_read (dev : nvm_dev) (addrs : list nvm_addr) (naddrs : Z) (data meta : mem) (flags : Z)
    (ret : retp) : M SW io_res := spdk_ewrc dev addrs None naddrs data meta flags NVM_DOPC_VECTOR_READ ret.
Definition nvm_be_spdk_vector_copy (dev : nvm_dev) (src dst : list nvm_addr) (naddrs flags : Z) (ret : retp)
    : M SW (Z * retp) :=
  r ← spdk_ewrc dev src (Some dst) naddrs None None flags NVM_DOPC_VECTOR_COPY ret; mret (rc r, io_ret r).

(** ** Pass-through *)

Definition NVM_CMD_MASK_PASS : Z := Z.lor NVM_CMD_PIOC NVM_CMD_PADC.
Definition NVM_CMD_MASK : Z :=
  Z.lor NVM_CMD_MASK_IOMD (Z.lor NVM_CMD_MASK_ADDR (Z.lor NVM_CMD_MASK_PLOD NVM_CMD_MASK_PASS)).

Definition cmd_async_pass (dev : nvm_dev) (cmd : nvm_nvme_cmd) (data : mem) (data_nbytes : Z) (meta : mem)
    (meta_nbytes flags q : Z) (ret : retp) : M SW io_res :=
  x ← get_ctx q;
  if queue_full x then fail EAGAIN (IoRes (-1) data meta ret)
  else
    wrap ← nvm_cmd_wrap_pass dev cmd data data_nbytes meta meta_nbytes flags ret;
    match wrap with
    | None => mret (IoRes (-1) data meta ret)
    | Some (p, w) => err ← async_run dev cmd q p w; mret (IoRes err data meta ret)
    end.

Definition cmd_sync_pass (dev : nvm_dev) (cmd : nvm_nvme_cmd) (data : mem) (data_nbytes : Z) (meta : mem)
    (meta_nbytes flags : Z) (ret : retp) : M SW io_res :=
  wrap ← nvm_cmd_wrap_pass dev cmd data data_nbytes meta meta_nbytes flags ret;
  match wrap with
  | None => mret (IoRes (-1) data meta ret)
  | Some (p, w) => sync_run dev cmd p w data meta
  end.

(** What the command does to its own entry, in the caller's memory, is not
    answered. *)
Definition nvm_be_spdk_pass (dev : nvm_dev) (cmd : nvm_nvme_cmd) (data : mem) (data_nbytes : Z) (meta : mem)
    (meta_nbytes flags : Z) (ret : retp) : M SW io_res :=
  let opts := Z.land flags NVM_CMD_MASK in
  if Z.land opts NVM_CMD_MASK_IOMD =? NVM_CMD_ASYNC then
    if flag_set opts NVM_CMD_PADC then fail ENOSYS (IoRes (-1) data meta ret)
    else
      match ret with
      | None => fail EINVAL (IoRes (-1) data meta ret)
      | Some r =>
          let q := ret_ctx (ret_async r) in
          if q =? 0 then fail EINVAL (IoRes (-1) data meta ret)
          else cmd_async_pass dev cmd data data_nbytes meta meta_nbytes flags q ret
      end
  else if flag_set opts NVM_CMD_PADC then
    '(err, d, m, ret) ← cmd_sync_admin dev cmd [] (KMem data) data_nbytes meta meta_nbytes flags ret;
    let meta := if is_some meta then m else meta in
    match d with KMem data => mret (IoRes err data meta ret) | _ => crash end
  else cmd_sync_pass dev cmd data data_nbytes meta meta_nbytes flags ret.

(** ** The backend *)

(** The table, opened by [open]. *)
Definition spdk_table (open : string -> Z -> M SW (option (boxed nvm_dev))) : nvm_be SW :=
  NvmBe SW NVM_BE_SPDK "NVM_BE_SPDK" open nvm_be_spdk_close nvm_be_spdk_pass nvm_be_spdk_idfy nvm_be_spdk_rprt
    nvm_be_spdk_gfeat nvm_be_spdk_sfeat nvm_be_spdk_gbbt nvm_be_spdk_sbbt
    nvm_be_spdk_scalar_erase nvm_be_spdk_scalar_write nvm_be_spdk_scalar_read
    nvm_be_spdk_vector_erase nvm_be_spdk_vector_write nvm_be_spdk_vector_read nvm_be_spdk_vector_copy
    nvm_be_spdk_async_init nvm_be_spdk_async_term nvm_be_spdk_async_poke nvm_be_spdk_async_wait.

(** [nvm_be_populate] calls the table's [idfy] only. *)
Definition nvm_be_spdk_open (dev_path : string) (flags : Z) : M SW (option (boxed nvm_dev)) :=
  d ← malloc;
  if d =? 0 then mret None
  else
    st ← nvm_be_spdk_state_init dev_path flags;
    match st with
    | None => _ ← free d; mret None
    | Some (p, st) =>
        let dev := with_ns (st_nsdata st) (with_nsid (st_nsid st) (with_be_state p zero_dev)) in
        '(err, dev) ← nvm_be_populate spdk dev (spdk_table nvm_be_nosys_open);
        if negb (err =? 0) then _ ← nvm_be_spdk_close dev; _ ← free d; mret None
        else mret (Some (d, dev))
    end.

Definition nvm_be_spdk : nvm_be SW := spdk_table nvm_be_spdk_open.
End spdk.
