(* ===== verification/Nocd.v ===== *)
(** The backend for devices without an Open-Channel interface,
    [src/nvm_be_nocd.c]: SPDK's commands behind an identification and a chunk
    log made up from the name-space, with vector commands split into scalar
    ones. *)
From stdpp Require Import base numbers strings gmap option list.
From S2P Require Import Prelude Types Nvme Addr Dev Backend Buf Be Sgl Cmd Wrap Spdk.

Section nocd.
Context {W : Type}.
#[local] Abbreviation SW := (spdk_world W).
Context (spdk : spdk_env SW) (lib : spdk_nvme SW) (ptr_of : mem -> Z) (ret_ctx : Z -> Z) (junk : Z -> Z -> Z) (polls : nat).

(** ** The chunk log *)

Definition nvm_be_nocd_close (dev : nvm_dev) : M SW unit := nvm_be_spdk_close lib dev.

(** Descriptor [idx]; the chunk of an address has 16 bits. *)
Definition nocd_descr (dev : nvm_dev) (idx : Z) : nvm_spec_rprt_descr :=
  Descr NVM_CHUNK_STATE_FREE NVM_CHUNK_TYPE_ARWR 0 (nvm_addr_gen2dev dev (set_l_chunk idx 0)) (nsectr (geo dev)) 0.

(** [realloc]: another block with the state, or [NULL] and the block as it was. *)
Definition realloc_state (p : Z) (l : list nvm_spec_rprt_descr) : M SW Z :=
  q ← malloc;
  if q =? 0 then mret 0
  else
    w ← get_world;
    st ← lift (sw_states w !! p);
    _ ← free p;
    _ ← modify_world (fun w => SpdkWorld (do_env_init w) (<[q := st]> (delete p (sw_states w)))
          (<[q := l]> (delete p (sw_nocd w))) (sw_ctxs w) (sw_wraps w) (sw_os w));
    mret q.

(** The new address of the state; its number of descriptors has 32 bits. *)
Definition nvm_be_nocd_reinit (dev : nvm_dev) : M SW Z :=
  let g := geo dev in
  let ndescr := mul64 [npugrp g; npunit g; nchunk g] in
  let nbytes := u64 (ndescr * SIZEOF_DESCR) in
  if (be_state dev =? 0) || (ndescr =? 0) || (nbytes =? 0) then fail EINVAL 0
  else realloc_state (be_state dev) (nocd_descr dev <$> seqZ 0 (u32 ndescr)).

(** ** Identification *)

(** [1 << ds] on [int]. *)
Definition lba_byts (dev : nvm_dev) : option Z :=
  f ← ns_lbaf (dev_ns dev) !! Z.to_nat (Z.land (flbas (dev_ns dev)) 0xf);
  if ds f <? 31 then Some (2 ^ ds f) else None.

Definition nocd_idfy (nchunk : Z) : nvm_spec_idfy :=
  Idfy NVM_SPEC_VERID_20 (s12_grp0 zero_idfy) (s12_ppaf zero_idfy) 0 (Lbaf 1 1 16 12) (Lgeo 1 1 (u32 nchunk) 4096)
    (Wrt 1 4 0).

Definition nvm_be_nocd_idfy (dev : nvm_dev) (ret : retp) : M SW (option (boxed nvm_spec_idfy) * retp) :=
  lba ← lift (lba_byts dev);
  let ncap_byts := u64 (ncap (dev_ns dev) * lba) in
  p ← nvm_buf_alloc spdk dev SIZEOF_IDFY;
  if p =? 0 then fail ENOMEM (None, ret)
  else
    n ← lift (zdiv ncap_byts (u64 (4096 * lba)));
    mret (Some (p, nocd_idfy n), ret).

Definition nvm_be_nocd_gfeat (dev : nvm_dev) (id feat : Z) (ret : retp) : M SW (Z * Z * retp) :=
  nvm_be_spdk_gfeat lib ptr_of polls dev id feat ret.
Definition nvm_be_nocd_sfeat (dev : nvm_dev) (id feat : Z) (ret : retp) : M SW (Z * retp) :=
  nvm_be_spdk_sfeat lib ptr_of polls dev id feat ret.

(** ** Chunk reports *)

(** A copy past the end of the descriptors is undefined. *)
Definition nvm_be_nocd_rprt (dev : nvm_dev) (addr : option nvm_addr) (opt : Z) (ret : retp)
    : M SW (option (boxed nvm_spec_rprt) * retp) :=
  let g := geo dev in
  let lpo := match addr with Some a => nvm_addr_gen2lpo dev a | None => 0 end in
  let idx := lpo / SIZEOF_DESCR in
  if negb (verid dev =? NVM_SPEC_VERID_20) then fail EINVAL (None, ret)
  else
    let ndescr := match addr with Some _ => nchunk g | None => mul64 [nchunk g; npunit g; npugrp g] end in
    let rprt_len := u64 (u64 (ndescr * SIZEOF_DESCR) + SIZEOF_NDESCR) in
    p ← nvm_buf_alloc spdk dev rprt_len;
    if p =? 0 then fail ENOMEM (None, ret)
    else
      w ← get_world;
      l ← lift (sw_nocd w !! be_state dev);
      if Z.of_nat (length l) <? idx + ndescr then crash
      else mret (Some (p, Rprt ndescr (take (Z.to_nat ndescr) (drop (Z.to_nat idx) l))), ret).

(** ** Vector commands *)

(** Every round erases the whole list. *)
Definition nvm_be_nocd_vector_erase (dev : nvm_dev) (addrs : list nvm_addr) (naddrs : Z) (meta : mem) (flags : Z)
    (ret : retp) : M SW (Z * mem * retp) :=
  if is_some meta then fail ENOSYS (-1, meta, ret)
  else
    r ← mfold_ret (fun _ ret =>
          '(err, ret) ← nvm_be_spdk_scalar_erase spdk lib ptr_of ret_ctx polls dev addrs naddrs flags ret;
          if negb (err =? 0) then mret (inr (err, ret)) else mret (inl ret)) (seqZ 0 naddrs) ret;
    match r with inl ret => mret (0, meta, ret) | inr (err, ret) => mret (err, meta, ret) end.

(** Whether each sector of [a :: l] is the one after that before it; only the
    sector is compared. *)
Fixpoint contig_from (a : nvm_addr) (l : list nvm_addr) : bool :=
  match l with [] => true | b :: l => (l_sectr b =? u32 (l_sectr a + 1)) && contig_from b l end.

Definition contig (addrs : list nvm_addr) (naddrs : Z) : option bool :=
  if Z.of_nat (length addrs) <? naddrs then None
  else match take (Z.to_nat naddrs) addrs with [] => Some true | a :: l => Some (contig_from a l) end.

(** Every command of the split is given the beginning of the buffers. *)
Definition nvm_be_nocd_vector_write (dev : nvm_dev) (addrs : list nvm_addr) (naddrs : Z) (data meta : mem) (flags : Z)
    (ret : retp) : M SW (Z * retp) :=
  let scalar_write := nvm_be_spdk_scalar_write spdk lib ptr_of ret_ctx polls dev in
  c ← lift (contig addrs naddrs);
  if c : bool then a ← lift (addrs !! 0%nat); scalar_write a naddrs data meta flags ret
  else if flag_set flags NVM_CMD_ASYNC then fail ENOSYS (-1, ret)
  else
    r ← mfold_ret (fun i ret =>
          a ← lift (lookupZ addrs i);
          '(err, ret) ← scalar_write a 1 data meta flags ret;
          if negb (err =? 0) then mret (inr (err, ret)) else mret (inl ret)) (seqZ 0 naddrs) ret;
    match r with inl ret => mret (0, ret) | inr r => mret r end.

Definition nvm_be_nocd_vector_read (dev : nvm_dev) (addrs : list nvm_addr) (naddrs : Z) (data meta : mem) (flags : Z)
    (ret : retp) : M SW io_res :=
  let scalar_read := nvm_be_spdk_scalar_read spdk lib ptr_of ret_ctx polls dev in
  c ← lift (contig addrs naddrs);
  if c : bool then a ← lift (addrs !! 0%nat); scalar_read a naddrs data meta flags ret
  else if flag_set flags NVM_CMD_ASYNC then fail ENOSYS (IoRes (-1) data meta ret)
  else
    r ← mfold_ret (fun i '(data, meta, ret) =>
          a ← lift (lookupZ addrs i);
          r ← scalar_read a 1 data meta flags ret;
          if negb (rc r =? 0) then mret (inr r) else mret (inl (io_data r, io_meta r, io_ret r)))
          (seqZ 0 naddrs) (data, meta, ret);
    match r with inl (data, meta, ret) => mret (IoRes 0 data meta ret) | inr r => mret r end.

(** ** The backend *)

Definition nocd_table (open : string -> Z -> M SW (option (boxed nvm_dev))) : nvm_be SW :=
  NvmBe SW NVM_BE_NOCD "NVM_BE_NOCD" open nvm_be_nocd_close (nvm_be_spdk_pass spdk lib ptr_of ret_ctx polls)
    nvm_be_nocd_idfy nvm_be_nocd_rprt nvm_be_nocd_gfeat nvm_be_nocd_sfeat nvm_be_nosys_gbbt nvm_be_nosys_sbbt
    (nvm_be_spdk_scalar_erase spdk lib ptr_of ret_ctx polls) (nvm_be_spdk_scalar_write spdk lib ptr_of ret_ctx polls)
    (nvm_be_spdk_scalar_read spdk lib ptr_of ret_ctx polls)
    nvm_be_nocd_vector_erase nvm_be_nocd_vector_write nvm_be_nocd_vector_read
    (nvm_be_spdk_vector_copy spdk lib ptr_of ret_ctx polls)
    (nvm_be_spdk_async_init lib) (nvm_be_spdk_async_term lib) (nvm_be_spdk_async_poke spdk lib ret_ctx)
    (nvm_be_spdk_async_wait spdk lib ret_ctx polls).

(** [nvm_be_populate] calls the table's [idfy] only. *)
Definition nvm_be_nocd_open (dev_path : string) (flags : Z) : M SW (option (boxed nvm_dev)) :=
  st ← nvm_be_spdk_state_init lib dev_path flags;
  match st with
  | None => mret None
  | Some (p, st) =>
      d ← malloc;
      if d =? 0 then mret None
      else
        let dev := with_ns (st_nsdata st) (with_nsid (st_nsid st) (with_be_state p zero_dev)) in
        '(err, dev) ← nvm_be_populate spdk dev (nocd_table nvm_be_nosys_open);
        if negb (err =? 0) then _ ← nvm_be_nocd_close dev; _ ← free d; mret None
        else
          q ← nvm_be_nocd_reinit dev;
          if q =? 0 then _ ← nvm_be_nocd_close dev; _ ← free d; mret None
          else mret (Some (d, with_be_state q dev))
  end.

Definition nvm_be_nocd : nvm_be SW := nocd_table nvm_be_nocd_open.
End nocd.
