(* ===== verification/Vblk.v ===== *)
(** Virtual blocks, [src/nvm_vblk.c]: a set of blocks (1.2) or chunks (2.0)
    read, written, erased and copied as one linear byte range, striped over
    its members. *)
From stdpp Require Import base numbers strings gmap option list.
From S2P Require Import Prelude Types Nvme Addr Dev Backend Buf Cmd.

(** ** State *)

Definition VBLK_MAX : Z := 128.
Definition NVM_VBLK_CMD_OPTS : Z := Z.lor NVM_CMD_SYNC (Z.lor NVM_CMD_VECTOR NVM_CMD_PRP).

(** [struct nvm_vblk]: [vdev] is the address of its device handle, [rets] the
    stack of free [struct nvm_ret]s of asynchronous I/O, by address. *)
Record nvm_vblk := Vblk {
  vdev : Z; blks : list nvm_addr; nblks : Z; vblk_nbytes : Z;
  pos_write : Z; pos_read : Z; vflags : Z;
  async_ctx : option nvm_async_ctx; rets : list Z; retsp : Z }.

Definition with_pos_write (x : Z) (v : nvm_vblk) : nvm_vblk :=
  Vblk (vdev v) (blks v) (nblks v) (vblk_nbytes v) x (pos_read v) (vflags v) (async_ctx v) (rets v) (retsp v).
Definition with_pos_read (x : Z) (v : nvm_vblk) : nvm_vblk :=
  Vblk (vdev v) (blks v) (nblks v) (vblk_nbytes v) (pos_write v) x (vflags v) (async_ctx v) (rets v) (retsp v).
Definition with_vflags (x : Z) (v : nvm_vblk) : nvm_vblk :=
  Vblk (vdev v) (blks v) (nblks v) (vblk_nbytes v) (pos_write v) (pos_read v) x (async_ctx v) (rets v) (retsp v).
Definition with_blks (l : list nvm_addr) (n : Z) (v : nvm_vblk) : nvm_vblk :=
  Vblk (vdev v) l n (vblk_nbytes v) (pos_write v) (pos_read v) (vflags v) (async_ctx v) (rets v) (retsp v).
Definition with_vnbytes (x : Z) (v : nvm_vblk) : nvm_vblk :=
  Vblk (vdev v) (blks v) (nblks v) x (pos_write v) (pos_read v) (vflags v) (async_ctx v) (rets v) (retsp v).
Definition with_async (c : option nvm_async_ctx) (r : list Z) (p : Z) (v : nvm_vblk) : nvm_vblk :=
  Vblk (vdev v) (blks v) (nblks v) (vblk_nbytes v) (pos_write v) (pos_read v) (vflags v) c r p.

(** [calloc(1, sizeof(struct nvm_vblk))] for the handle at [d]. *)
Definition vblk_zero (d : Z) : nvm_vblk :=
  Vblk d (replicate (Z.to_nat VBLK_MAX) 0) 0 0 0 0 0 None [] 0.

(** [p + n] on a pointer. *)
Definition mem_add (m : mem) (n : Z) : mem :=
  match m with None => None | Some l => Some (drop (Z.to_nat n) l) end.

(** The buffer again, when an access through [p + n] left [m'] behind it. *)
Definition mem_splice (m : mem) (n : Z) (m' : mem) : mem :=
  match m, m' with Some l, Some l' => Some (take (Z.to_nat n) l ++ l') | _, _ => m end.

Section vblk.
Context {W : Type} (spdk : spdk_env W) (be : nvm_be W) (dev : nvm_dev).

(** ** Allocation *)

(** [vblk->nbytes] from the number of blocks, by version. *)
Definition nbytes_s12 (n : Z) : Z :=
  let g := geo dev in
  u64 (u64 (u64 (u64 (u64 n * nplanes g) * npages g) * nsectors g) * sector_nbytes g).
Definition nbytes_s20 (n : Z) : Z :=
  let g := geo dev in u64 (u64 (u64 n * nsectr g) * nbytes g).

(** The loop of [nvm_vblk_alloc]: check each address and copy it. *)
Definition alloc_step (p : Z) (addrs : list nvm_addr) (i : Z) (v : nvm_vblk)
    : M W (nvm_vblk + unit) :=
  a ← lift (addrs !! Z.to_nat i);
  bad ← nvm_addr_check a dev;
  if negb (bad =? 0) then _ ← set_errno EINVAL; _ ← free p; mret (inr tt)
  else mret (inl (with_blks (<[Z.to_nat i := a]> (blks v)) (nblks v) v)).

Definition nvm_vblk_alloc (d : Z) (addrs : list nvm_addr) (naddrs : Z)
    : M W (option (Z * nvm_vblk)) :=
  if VBLK_MAX <? naddrs then fail EINVAL None
  else
    p ← malloc;
    if p =? 0 then fail ENOMEM None
    else
      r ← mfold_ret (alloc_step p addrs) (seqZ 0 naddrs) (vblk_zero d);
      match r with
      | inr _ => mret None
      | inl v =>
          let v := with_vflags NVM_VBLK_CMD_OPTS (with_blks (blks v) naddrs v) in
          if verid dev =? NVM_SPEC_VERID_12 then
            mret (Some (p, with_vnbytes (nbytes_s12 naddrs) v))
          else if verid dev =? NVM_SPEC_VERID_20 then
            mret (Some (p, with_vnbytes (nbytes_s20 naddrs) v))
          else _ ← set_errno ENOSYS; _ ← free p; mret None
      end.

(** [vblk->blks[vblk->nblks++] = a]: undefined past the 128 entries. *)
Definition push_blk (a : nvm_addr) (v : nvm_vblk) : option nvm_vblk :=
  if (0 <=? nblks v) && (nblks v <? VBLK_MAX)
  then Some (with_blks (<[Z.to_nat (nblks v) := a]> (blks v)) (nblks v + 1) v)
  else None.

(** [for (x = bgn; x <= end; ++x)] on [int]. *)
Definition int_range (bgn stop : Z) : list Z := seqZ bgn (stop - bgn + 1).

Definition line_addr_s12 (blk lun ch : Z) : nvm_addr := set_g_blk blk (set_g_lun lun (set_g_ch ch 0)).
Definition line_addr_s20 (blk punit pugrp : Z) : nvm_addr :=
  set_l_chunk blk (set_l_punit punit (set_l_pugrp pugrp 0)).

(** The two nested loops, the second argument of [f] running fastest. *)
Definition line_push (f : Z -> Z -> nvm_addr) (bgn1 end1 bgn2 end2 : Z) (v : nvm_vblk)
    : M W nvm_vblk :=
  mfold (fun x v => mfold (fun y v => lift (push_blk (f x y) v)) (int_range bgn2 end2) v)
    (int_range bgn1 end1) v.

Definition line_check (p : Z) (v : nvm_vblk) (i : Z) (_ : unit) : M W (unit + unit) :=
  a ← lift (blks v !! Z.to_nat i);
  bad ← nvm_addr_check a dev;
  if negb (bad =? 0) then _ ← free p; _ ← set_errno EINVAL; mret (inr tt) else mret (inl tt).

Definition nvm_vblk_alloc_line (d ch_bgn ch_end lun_bgn lun_end blk : Z)
    : M W (option (Z * nvm_vblk)) :=
  r ← nvm_vblk_alloc d [] 0;
  match r with
  | None => mret None
  | Some (p, v) =>
      let finish v :=
        r ← mfold_ret (line_check p v) (seqZ 0 (nblks v)) tt;
        match r with inl _ => mret (Some (p, v)) | inr _ => mret None end in
      if verid dev =? NVM_SPEC_VERID_12 then
        v ← line_push (line_addr_s12 blk) lun_bgn lun_end ch_bgn ch_end v;
        finish (with_vnbytes (nbytes_s12 (nblks v)) v)
      else if verid dev =? NVM_SPEC_VERID_20 then
        v ← line_push (line_addr_s20 blk) lun_bgn lun_end ch_bgn ch_end v;
        finish (with_vnbytes (nbytes_s20 (nblks v)) v)
      else _ ← nvm_buf_free spdk dev p; fail ENOSYS None
  end.

Definition nvm_vblk_free (p : Z) : M W unit := free p.

(** ** Commands of a size that divides the blocks *)

(** [while (nblks % count && count > 1) --count;] *)
Fixpoint count_down (fuel : nat) (nblks count : Z) : option Z :=
  if count =? 0 then None
  else if negb (Z.rem nblks count =? 0) && (1 <? count) then
    match fuel with O => None | S fuel => count_down fuel nblks (count - 1) end
  else Some count.

Definition cmd_nblks (nblks cmd_nblks_max : Z) : option Z :=
  count_down (Z.to_nat cmd_nblks_max) nblks cmd_nblks_max.
Definition _cmd_nspages (nblks cmd_nspages_max : Z) : option Z :=
  count_down (Z.to_nat cmd_nspages_max) nblks cmd_nspages_max.

(** ** Erase *)

(** [addrs[i] = blks[f(i)]] with a field set, for the [n] first [i]. *)
Definition build_addrs (f : Z -> option nvm_addr) (n : Z) : option (list nvm_addr) :=
  mapM f (seqZ 0 n).

Definition erase_addr_s12 (v : nvm_vblk) (off blk_naddrs i : Z) : option nvm_addr :=
  k ← zdiv i blk_naddrs;
  a ← blks v !! Z.to_nat (off + k);
  pl ← zmod i (nplanes (geo dev));
  Some (set_g_pl pl a).

(** One command; the accumulator counts the failed ones. *)
Definition erase_cmd (addrs : list nvm_addr) (naddrs flags nerr : Z) : M W Z :=
  '(err, _, _) ← nvm_cmd_erase be dev addrs naddrs None flags (Some (Ret 0 0 0));
  mret (if err =? 0 then nerr else u64 (nerr + 1)).

(** The two resets and the answer that end an erase. *)
Definition erase_done (v : nvm_vblk) (nerr : Z) : M W (Z * nvm_vblk) :=
  if nerr =? 0 then mret (vblk_nbytes v, with_pos_read 0 (with_pos_write 0 v))
  else fail EIO (-1, v).

Definition vblk_erase_s12 (v : nvm_vblk) : M W (Z * nvm_vblk) :=
  let blk_naddrs := i32 (nplanes (geo dev)) in
  max ← lift (if blk_naddrs =? 0 then None
              else Some (Z.quot (nvm_dev_get_erase_naddrs_max dev) blk_naddrs));
  cmd ← lift (cmd_nblks (nblks v) max);
  offs ← lift (range_lt (Z.to_nat (nblks v)) 0 (nblks v) cmd);
  nerr ← mfold (fun off nerr =>
    let naddrs := NVM_MIN cmd (nblks v - off) * blk_naddrs in
    addrs ← lift (build_addrs (erase_addr_s12 v off blk_naddrs) naddrs);
    erase_cmd addrs naddrs (u16 (Z.lor (nvm_dev_get_pmode dev) NVM_VBLK_CMD_OPTS)) nerr) offs 0;
  erase_done v nerr.

Definition vblk_erase_s20 (v : nvm_vblk) : M W (Z * nvm_vblk) :=
  cmd ← lift (cmd_nblks (nblks v) (nvm_dev_get_erase_naddrs_max dev));
  offs ← lift (range_lt (Z.to_nat (nblks v)) 0 (nblks v) cmd);
  nerr ← mfold (fun off nerr =>
    let naddrs := NVM_MIN cmd (nblks v - off) in
    addrs ← lift (build_addrs (fun i => blks v !! Z.to_nat (off + i)) naddrs);
    erase_cmd addrs naddrs 0x0 nerr) offs 0;
  erase_done v nerr.

Definition nvm_vblk_erase (v : nvm_vblk) : M W (Z * nvm_vblk) :=
  if verid dev =? NVM_SPEC_VERID_12 then vblk_erase_s12 v
  else if verid dev =? NVM_SPEC_VERID_20 then vblk_erase_s20 v
  else fail ENOSYS (-1, v).

(** ** Striping of a 2.0 virtual block *)

(** Sector [sectr] of the range lies in chunk [wunit % nchunks], where [wunit]
    is its write unit of [ws] sectors. *)
Definition stripe_addr (v : nvm_vblk) (ws sectr : Z) : option nvm_addr :=
  wunit ← zdiv sectr ws;
  rnd ← zdiv wunit (nblks v);
  chunk ← zmod wunit (nblks v);
  off ← zmod sectr ws;
  let chunk_sectr := u64 (off + u64 (rnd * ws)) in
  a ← blks v !! Z.to_nat chunk;
  Some (set_l_sectr chunk_sectr a).

(** The values of [sectr_ofz] in
    [for (sectr_ofz = bgn; sectr_ofz <= end; sectr_ofz += step)]: the fuel is
    the number of rounds of a loop whose counter does not wrap. *)
Definition sectr_range (bgn stop step : Z) : option (list Z) :=
  range_le (trips bgn (stop + 1) step) bgn stop step.

(** The pseudo-random content of a padding or meta buffer: every byte of the
    fresh block is overwritten, in the modes the setter accepts. *)
Definition meta_content (mode nbytes : Z) : option (list Z) :=
  let fresh := replicate (Z.to_nat nbytes) 0 in
  if mode =? NVM_META_MODE_ALPHA then nvm_buf_fill fresh nbytes
  else if mode =? NVM_META_MODE_CONST then
    Some (replicate (Z.to_nat nbytes) (65 + nbytes mod 20))
  else Some fresh.

(** The padding and the meta buffer of a write: the blocks (0 for none) and
    their contents, or the error return. [leaky] is the 1.2 path, which does
    not release the padding when the meta buffer cannot be allocated. *)
Record write_bufs := WBufs { pad_p : Z; pad : mem; meta_p : Z; meta_m : mem }.

Definition write_bufs_alloc (leaky : bool) (buf : mem) (pad_nbytes meta_nbytes : Z)
    : M W (write_bufs + Z) :=
  '(pp, pm) ← match buf with
    | Some _ => mret (0, None)
    | None =>
        p ← nvm_buf_alloc spdk dev pad_nbytes;
        if p =? 0 then mret (0, None)
        else c ← lift (nvm_buf_fill (replicate (Z.to_nat pad_nbytes) 0) pad_nbytes); mret (p, Some c)
    end;
  match buf, pm with
  | None, None => fail ENOMEM (inr (-1))
  | _, _ =>
      let mode := nvm_dev_get_meta_mode dev in
      if mode =? NVM_META_MODE_NONE then mret (inl (WBufs pp pm 0 None))
      else
        m ← nvm_buf_alloc spdk dev meta_nbytes;
        if m =? 0 then
          _ ← (if leaky then mret tt else nvm_buf_free spdk dev pp);
          fail ENOMEM (inr (-1))
        else c ← lift (meta_content mode meta_nbytes); mret (inl (WBufs pp pm m (Some c)))
  end.

(** The end of a write: the buffers released, then the status. *)
Definition write_done (b : write_bufs) (count nerr : Z) : M W Z :=
  _ ← nvm_buf_free spdk dev (pad_p b);
  _ ← nvm_buf_free spdk dev (meta_p b);
  if nerr =? 0 then mret count else fail EIO (-1).

(** [vblk->flags & NVM_CMD_x] *)
Definition has_flag (v : nvm_vblk) (f : Z) : bool := negb (Z.land (vflags v) f =? 0).

(** [const int NTHREADS = NVM_MIN(nchunks, nsectr / WS_OPT)] *)
Definition s20_nthreads (v : nvm_vblk) (nsectr ws : Z) : option Z :=
  units ← zdiv nsectr ws; Some (NVM_MIN (nblks v) units).

(** [sectr_bgn + (count / sectr_nbytes) - 1] *)
Definition sectr_stop (bgn nsectr : Z) : Z := u64 (bgn + nsectr - 1).

(** ** Write, 2.0 *)

(** One iteration of the loop of [vblk_sync_pwrite_s20]. *)
Definition pwrite_s20_cmd (v : nvm_vblk) (ws bgn : Z) (buf : mem) (b : write_bufs)
    (sectr_ofz nerr : Z) : M W Z :=
  let buf_off := match pad b with
    | Some _ => pad b
    | None => mem_add buf ((sectr_ofz - bgn) * nbytes (geo dev)) end in
  addrs ← lift (build_addrs (fun idx => stripe_addr v ws (u64 (sectr_ofz + idx))) ws);
  '(err, _) ← nvm_cmd_write be dev addrs (i32 ws) buf_off (meta_m b) (u16 (vflags v))
                (Some (Ret 0 0 0));
  mret (if err =? 0 then nerr else u64 (nerr + 1)).

Definition vblk_sync_pwrite_s20 (v : nvm_vblk) (buf : mem) (count offset : Z) : M W Z :=
  ws ← nvm_dev_get_ws_opt dev;
  let ws := u32 ws in
  let sectr_nbytes := nbytes (geo dev) in
  nsectr ← lift (zdiv count sectr_nbytes);
  bgn ← lift (zdiv offset sectr_nbytes);
  let stop := sectr_stop bgn nsectr in
  let meta_tbytes := u64 (ws * nbytes_oob (geo dev)) in
  let pad_nbytes := u64 (u64 (ws * nsectr) * sectr_nbytes) in
  _ ← lift (s20_nthreads v nsectr ws);
  if negb (nsectr mod ws =? 0) then fail EINVAL (-1)
  else if negb (bgn mod ws =? 0) then fail EINVAL (-1)
  else
    r ← write_bufs_alloc false buf pad_nbytes meta_tbytes;
    match r with
    | inr e => mret e
    | inl b =>
        ofzs ← lift (sectr_range bgn stop ws);
        nerr ← mfold (pwrite_s20_cmd v ws bgn buf b) ofzs 0;
        write_done b count nerr
    end.

(** ** Read, 2.0 *)

(** The addresses of a read: with [NVM_CMD_SCALAR] the loop stops after the
    first. *)
Definition pread_addrs (v : nvm_vblk) (ws cmd_nsectr sectr_ofz : Z) : option (list nvm_addr) :=
  build_addrs (fun idx => stripe_addr v ws (u64 (sectr_ofz + idx)))
    (if has_flag v NVM_CMD_SCALAR then Z.min 1 cmd_nsectr else cmd_nsectr).

(** One iteration of the loop of [vblk_sync_pread_s20]: the failed commands so
    far and the caller's buffer. *)
Definition pread_s20_cmd (v : nvm_vblk) (ws cmd_nsectr bgn : Z) (sectr_ofz : Z)
    (acc : Z * mem) : M W (Z * mem) :=
  let '(nerr, buf) := acc in
  let off := (sectr_ofz - bgn) * nbytes (geo dev) in
  addrs ← lift (pread_addrs v ws cmd_nsectr sectr_ofz);
  r ← nvm_cmd_read be dev addrs (i32 cmd_nsectr) (mem_add buf off) None (u16 (vflags v)) None;
  mret (if rc r =? 0 then nerr else u64 (nerr + 1), mem_splice buf off (io_data r)).

Definition read_done (nerr count : Z) (buf : mem) : M W (Z * mem) :=
  if nerr =? 0 then mret (count, buf) else fail EIO (-1, buf).

Definition vblk_sync_pread_s20 (v : nvm_vblk) (buf : mem) (count offset : Z) : M W (Z * mem) :=
  ws ← nvm_dev_get_ws_opt dev;
  let ws := u32 ws in
  let sectr_nbytes := nbytes (geo dev) in
  nsectr ← lift (zdiv count sectr_nbytes);
  bgn ← lift (zdiv offset sectr_nbytes);
  let stop := sectr_stop bgn nsectr in
  let cmd_nsectr := if has_flag v NVM_CMD_VECTOR then NVM_NADDR_MAX else ws in
  _ ← lift (s20_nthreads v nsectr ws);
  if negb (nsectr mod ws =? 0) then fail EINVAL (-1, buf)
  else if negb (bgn mod ws =? 0) then fail EINVAL (-1, buf)
  else
    ofzs ← lift (sectr_range bgn stop cmd_nsectr);
    '(nerr, buf) ← mfold (pread_s20_cmd v ws cmd_nsectr bgn) ofzs (0, buf);
    read_done nerr count buf.

(** ** Write and read, 1.2 *)

(** What both compute first: [SPAGE_NADDRS], [CMD_NSPAGES], [ALIGN], and the
    super-pages [bgn] and [end]. *)
Record s12_plan := Plan { spage_naddrs : Z; cmd_nspages : Z; align : Z; sp_bgn : Z; sp_end : Z }.

Definition s12_prepare (v : nvm_vblk) (naddrs_max count offset : Z) : option s12_plan :=
  let g := geo dev in
  let spage := i32 (u64 (nplanes g * nsectors g)) in
  max ← (if spage =? 0 then None else Some (Z.quot naddrs_max spage));
  cmd ← _cmd_nspages (nblks v) max;
  let align := i32 (u64 (spage * sector_nbytes g)) in
  bgn ← zdiv offset (u64 align);
  units ← zdiv count (u64 align);
  Some (Plan spage cmd align bgn (u64 (bgn + units))).

(** Bounds and alignment, [true] when the request is refused. *)
Definition s12_refused (v : nvm_vblk) (p : s12_plan) (count offset : Z) : bool :=
  (vblk_nbytes v <? u64 (offset + count)) ||
  negb (count mod u64 (align p) =? 0) || negb (offset mod u64 (align p) =? 0).

(** Address [i] of the command at super-page [off]. *)
Definition s12_addr (v : nvm_vblk) (spage off i : Z) : option nvm_addr :=
  let g := geo dev in
  let spg := i32 (off + Z.quot i spage) in
  if nblks v =? 0 then None else
  let idx := Z.rem spg (nblks v) in
  pg ← zmod (u64 (Z.quot spg (nblks v))) (npages g);
  a ← (if idx <? 0 then None else blks v !! Z.to_nat idx);
  plq ← zdiv i (nsectors g);
  pl ← zmod plq (nplanes g);
  sec ← zmod i (nsectors g);
  Some (set_g_sec sec (set_g_pl pl (set_g_pg (i32 pg) a))).

(** The number of addresses of the command at [off]. *)
Definition s12_naddrs (p : s12_plan) (off : Z) : Z :=
  NVM_MIN (cmd_nspages p) (i32 (sp_end p - off)) * spage_naddrs p.

Definition s12_range (p : s12_plan) : option (list Z) :=
  range_lt (trips (sp_bgn p) (sp_end p) (cmd_nspages p)) (sp_bgn p) (sp_end p) (cmd_nspages p).

Definition s12_off (p : s12_plan) (off : Z) : Z :=
  (off - sp_bgn p) * sector_nbytes (geo dev) * spage_naddrs p.

Definition pwrite_s12_cmd (v : nvm_vblk) (p : s12_plan) (buf : mem) (b : write_bufs)
    (off nerr : Z) : M W Z :=
  let buf_off := match pad b with
    | Some _ => pad b | None => mem_add buf (s12_off p off) end in
  addrs ← lift (build_addrs (s12_addr v (spage_naddrs p) off) (s12_naddrs p off));
  '(err, _) ← nvm_cmd_write be dev addrs (s12_naddrs p off) buf_off (meta_m b)
                (u16 (nvm_dev_get_pmode dev)) (Some (Ret 0 0 0));
  mret (if err =? 0 then nerr else u64 (nerr + 1)).

Definition vblk_pwrite_s12 (v : nvm_vblk) (buf : mem) (count offset : Z) : M W Z :=
  p ← lift (s12_prepare v (nvm_dev_get_write_naddrs_max dev) count offset);
  let spages := i32 (cmd_nspages p * spage_naddrs p) in
  let meta_tbytes := u64 (spages * meta_nbytes (geo dev)) in
  if s12_refused v p count offset then fail EINVAL (-1)
  else
    r ← write_bufs_alloc true buf (u64 (spages * sector_nbytes (geo dev))) meta_tbytes;
    match r with
    | inr e => mret e
    | inl b =>
        offs ← lift (s12_range p);
        nerr ← mfold (pwrite_s12_cmd v p buf b) offs 0;
        write_done b count nerr
    end.

Definition pread_s12_cmd (v : nvm_vblk) (p : s12_plan) (off : Z) (acc : Z * mem)
    : M W (Z * mem) :=
  let '(nerr, buf) := acc in
  addrs ← lift (build_addrs (s12_addr v (spage_naddrs p) off) (s12_naddrs p off));
  r ← nvm_cmd_read be dev addrs (s12_naddrs p off) (mem_add buf (s12_off p off)) None
        (u16 (nvm_dev_get_pmode dev)) (Some (Ret 0 0 0));
  mret (if rc r =? 0 then nerr else u64 (nerr + 1), mem_splice buf (s12_off p off) (io_data r)).

Definition vblk_pread_s12 (v : nvm_vblk) (buf : mem) (count offset : Z) : M W (Z * mem) :=
  p ← lift (s12_prepare v (nvm_dev_get_read_naddrs_max dev) count offset);
  if s12_refused v p count offset then fail EINVAL (-1, buf)
  else
    offs ← lift (s12_range p);
    '(nerr, buf) ← mfold (pread_s12_cmd v p) offs (0, buf);
    read_done nerr count buf.

(** ** Asynchronous I/O *)

(** [vblk_async_callback] for each completion, in order: an error is counted
    and the [struct nvm_ret] goes back on the stack. *)
Fixpoint vblk_async_callback (cpls : list completion) (nerr : Z) (v : nvm_vblk)
    : option (Z * nvm_vblk) :=
  match cpls with
  | [] => Some (nerr, v)
  | c :: cpls =>
      let nerr := if cpl_status c =? 0 then nerr else u64 (nerr + 1) in
      let sp := u32 (retsp v - 1) in
      _ ← rets v !! Z.to_nat sp;
      vblk_async_callback cpls nerr
        (with_async (async_ctx v) (<[Z.to_nat sp := cpl_ret c]> (rets v)) sp v)
  end.

(** [nvm_async_poke] and [nvm_async_wait] on the context of [v], with the
    callbacks they run. *)
Definition vblk_poke (nerr : Z) (v : nvm_vblk) : M W (Z * Z * nvm_vblk) :=
  ctx ← lift (async_ctx v);
  '(r, ctx, cpls) ← nvm_async_poke be dev ctx 0;
  '(nerr, v) ← lift (vblk_async_callback cpls nerr (with_async (Some ctx) (rets v) (retsp v) v));
  mret (r, nerr, v).
Definition vblk_wait (nerr : Z) (v : nvm_vblk) : M W (Z * Z * nvm_vblk) :=
  ctx ← lift (async_ctx v);
  '(r, ctx, cpls) ← nvm_async_wait be dev ctx;
  '(nerr, v) ← lift (vblk_async_callback cpls nerr (with_async (Some ctx) (rets v) (retsp v) v));
  mret (r, nerr, v).

(** Spin until something is reaped. *)
Fixpoint reap_spin (fuel : nat) (nerr : Z) (v : nvm_vblk) : M W (Z * Z * nvm_vblk) :=
  '(nevents, nerr, v) ← vblk_poke nerr v;
  if nevents =? 0 then
    match fuel with O => crash | S fuel => reap_spin fuel nerr v end
  else mret (nevents, nerr, v).

(** Reap until empty. *)
Fixpoint reap_drain (fuel : nat) (nevents nerr : Z) (v : nvm_vblk) : M W (Z * Z * nvm_vblk) :=
  '(r, nerr, v) ← vblk_poke nerr v;
  if r =? -1 then mret (-1, nerr, v)
  else if r =? 0 then mret (i32 (nevents + r), nerr, v)
  else match fuel with O => crash | S fuel => reap_drain fuel (i32 (nevents + r)) nerr v end.

(** [fuel] bounds the pokes of each loop: how many are needed is up to the
    device. *)
Definition _vblk_async_greedy_reap (fuel : nat) (nerr : Z) (v : nvm_vblk)
    : M W (Z * Z * nvm_vblk) :=
  '(nevents, nerr, v) ← reap_spin fuel nerr v;
  if nevents =? -1 then mret (-1, nerr, v) else reap_drain fuel nevents nerr v.

(** The addresses of a stripe, from the chunk [cnk_bgn] the range begins in. *)
Definition async_addrs (v : nvm_vblk) (ws vsectr_bgn stripe : Z) : option (list nvm_addr) :=
  u ← zdiv vsectr_bgn ws;
  cnk_bgn ← zmod u (nblks v);
  cnk_idx ← zmod (u64 (cnk_bgn + stripe)) (nblks v);
  row ← zdiv stripe (nblks v);
  let cnk_off := u64 (row * ws) in
  build_addrs (fun i =>
    a ← blks v !! Z.to_nat cnk_idx; Some (set_l_sectr (u64 (cnk_off + i)) a)) ws.

(** The state the loop over stripes carries: errors, the virtual block and the
    caller's buffer, which a read fills. *)
Definition async_acc : Type := (Z * nvm_vblk * mem)%type.

(** [while (1)]: submit, and reap when the queue is full. *)
Fixpoint async_submit (fuel : nat) (write : bool) (addrs : list nvm_addr) (ws : Z)
    (off : Z) (pad meta : mem) (ret : Z) (acc : async_acc) : M W (Z * async_acc) :=
  let '(nerr, v, buf) := acc in
  let bufp := match pad with Some _ => pad | None => mem_add buf off end in
  let r0 := Some (Ret 0 0 ret) in
  '(err, buf) ←
    (if write then
       '(err, _) ← nvm_cmd_write be dev addrs (i32 ws) bufp meta (u16 (vflags v)) r0; mret (err, buf)
     else
       r ← nvm_cmd_read be dev addrs (i32 ws) bufp meta (u16 (vflags v)) r0;
       mret (rc r, match pad with Some _ => buf | None => mem_splice buf off (io_data r) end));
  if err <? 0 then
    e ← get_errno;
    if e =? EAGAIN then
      '(r, nerr, v) ← _vblk_async_greedy_reap fuel nerr v;
      if r <? 0 then mret (-1, (nerr, v, buf))
      else match fuel with
           | O => crash
           | S fuel => async_submit fuel write addrs ws off pad meta ret (nerr, v, buf)
           end
    else mret (-1, (nerr, v, buf))
  else mret (0, (nerr, v, buf)).

(** One iteration over the stripes; [inr] is [return -1]. *)
Definition async_stripe (fuel : nat) (write : bool) (ws vsectr_bgn : Z) (pad meta : mem)
    (stripe : Z) (acc : async_acc) : M W (async_acc + async_acc) :=
  let '(nerr, v, buf) := acc in
  let off := nbytes (geo dev) * ws * stripe in
  addrs ← lift (async_addrs v ws vsectr_bgn stripe);
  ctx ← lift (async_ctx v);
  '(r, nerr, v) ←
    (if retsp v =? u32 (nvm_async_get_depth ctx - 1)
     then _vblk_async_greedy_reap fuel nerr v else mret (0, nerr, v));
  if r <? 0 then mret (inr (nerr, v, buf))
  else
    ret ← lift (rets v !! Z.to_nat (retsp v));
    let v := with_async (async_ctx v) (rets v) (u32 (retsp v + 1)) v in
    if ret =? 0 then fail ENOMEM (inr (nerr, v, buf))
    else
      '(err, acc) ← async_submit fuel write addrs ws off pad meta ret (nerr, v, buf);
      if err <? 0 then mret (inr acc)
      else
        let '(nerr, v, buf) := acc in
        if (stripe + 1) mod nblks v =? 0 then
          '(r, nerr, v) ← vblk_wait nerr v;
          if r <? 0 then mret (inr (nerr, v, buf)) else mret (inl (nerr, v, buf))
        else mret (inl (nerr, v, buf)).

Definition vblk_io_async (fuel : nat) (v : nvm_vblk) (vsectr_bgn count : Z) (buf meta pad : mem)
    (write : bool) : M W (Z * nvm_vblk * mem) :=
  nsectrs ← lift (zdiv count (nbytes (geo dev)));
  ws ← nvm_dev_get_ws_opt dev;
  let ws := u64 ws in
  nstripes ← lift (zdiv nsectrs ws);
  u ← lift (zdiv vsectr_bgn ws);
  _ ← lift (zmod u (nblks v));
  r ← mfold_ret (async_stripe fuel write ws vsectr_bgn pad meta) (seqZ 0 nstripes) (0, v, buf);
  match r with
  | inr (_, v, buf) => mret (-1, v, buf)
  | inl (nerr, v, buf) =>
      '(r, nerr, v) ← vblk_wait nerr v;
      if r <? 0 then mret (-1, v, buf) else mret (i32 nerr, v, buf)
  end.

Definition vblk_async_pwrite_s20 (fuel : nat) (v : nvm_vblk) (buf : mem) (count offset : Z)
    : M W (Z * nvm_vblk) :=
  ws ← nvm_dev_get_ws_opt dev;
  let ws := u32 ws in
  let sectr_nbytes := nbytes (geo dev) in
  nsectr ← lift (zdiv count sectr_nbytes);
  bgn ← lift (zdiv offset sectr_nbytes);
  let meta_tbytes := u64 (ws * nbytes_oob (geo dev)) in
  let pad_nbytes := u64 (u64 (ws * nsectr) * sectr_nbytes) in
  bad_n ← lift (zmod nsectr ws);
  bad_b ← lift (zmod bgn ws);
  if negb (bad_n =? 0) then fail EINVAL (-1, v)
  else if negb (bad_b =? 0) then fail EINVAL (-1, v)
  else
    r ← write_bufs_alloc false buf pad_nbytes meta_tbytes;
    match r with
    | inr e => mret (e, v)
    | inl b =>
        '(nerr, v, _) ← vblk_io_async fuel v bgn count buf (meta_m b) (pad b) true;
        r ← write_done b count nerr;
        mret (r, v)
    end.

Definition vblk_async_pread_s20 (fuel : nat) (v : nvm_vblk) (buf : mem) (count offset : Z)
    : M W (Z * nvm_vblk * mem) :=
  ws ← nvm_dev_get_ws_opt dev;
  let ws := u32 ws in
  let sectr_nbytes := nbytes (geo dev) in
  nsectr ← lift (zdiv count sectr_nbytes);
  bgn ← lift (zdiv offset sectr_nbytes);
  bad_n ← lift (zmod nsectr ws);
  bad_b ← lift (zmod bgn ws);
  if negb (bad_n =? 0) then fail EINVAL (-1, v, buf)
  else if negb (bad_b =? 0) then fail EINVAL (-1, v, buf)
  else
    '(nerr, v, buf) ← vblk_io_async fuel v bgn count buf None None false;
    if nerr =? 0 then mret (count, v, buf) else fail EIO (-1, v, buf).

(** [rets[i] = calloc(1, sizeof(struct nvm_ret))] for each [i]. *)
Definition alloc_rets (n : Z) : M W (list Z) :=
  mfold (fun _ l => p ← malloc; mret (l ++ [p])) (seqZ 0 n) [].

Definition nvm_vblk_set_async (v : nvm_vblk) (depth : Z) : M W (Z * nvm_vblk) :=
  let v := with_vflags (Z.lor (Z.ldiff (vflags v) NVM_CMD_SYNC) NVM_CMD_ASYNC) v in
  match async_ctx v with
  | Some _ => mret (0, v)
  | None =>
      ctx ← nvm_async_init be dev depth 0;
      match ctx with
      | None => mret (-1, v)
      | Some ctx =>
          let depth := if depth =? 0 then nvm_async_get_depth ctx else depth in
          p ← malloc;
          if (p =? 0) && (0 <? depth) then crash
          else
            l ← alloc_rets depth;
            mret (0, with_async (Some ctx) l (retsp v) v)
      end
  end.

Definition nvm_vblk_set_scalar (v : nvm_vblk) : Z * nvm_vblk :=
  (0, with_vflags (Z.lor (Z.ldiff (vflags v) NVM_CMD_VECTOR) NVM_CMD_SCALAR) v).

(** ** The public operations *)

Definition nvm_vblk_pwrite (fuel : nat) (v : nvm_vblk) (buf : mem) (count offset : Z)
    : M W (Z * nvm_vblk) :=
  if verid dev =? NVM_SPEC_VERID_12 then
    r ← vblk_pwrite_s12 v buf count offset; mret (r, v)
  else if verid dev =? NVM_SPEC_VERID_20 then
    if has_flag v NVM_CMD_ASYNC then vblk_async_pwrite_s20 fuel v buf count offset
    else r ← vblk_sync_pwrite_s20 v buf count offset; mret (r, v)
  else fail ENOSYS (-1, v).

Definition nvm_vblk_write (fuel : nat) (v : nvm_vblk) (buf : mem) (count : Z)
    : M W (Z * nvm_vblk) :=
  '(n, v) ← nvm_vblk_pwrite fuel v buf count (pos_write v);
  if n <? 0 then mret (n, v) else mret (n, with_pos_write (u64 (pos_write v + n)) v).

Definition nvm_vblk_pad (fuel : nat) (v : nvm_vblk) : M W (Z * nvm_vblk) :=
  nvm_vblk_write fuel v None (u64 (vblk_nbytes v - pos_write v)).

Definition nvm_vblk_pread (fuel : nat) (v : nvm_vblk) (buf : mem) (count offset : Z)
    : M W (Z * nvm_vblk * mem) :=
  if verid dev =? NVM_SPEC_VERID_12 then
    '(r, buf) ← vblk_pread_s12 v buf count offset; mret (r, v, buf)
  else if verid dev =? NVM_SPEC_VERID_20 then
    if has_flag v NVM_CMD_ASYNC then vblk_async_pread_s20 fuel v buf count offset
    else '(r, buf) ← vblk_sync_pread_s20 v buf count offset; mret (r, v, buf)
  else fail ENOSYS (-1, v, buf).

Definition nvm_vblk_read (fuel : nat) (v : nvm_vblk) (buf : mem) (count : Z)
    : M W (Z * nvm_vblk * mem) :=
  '(n, v, buf) ← nvm_vblk_pread fuel v buf count (pos_read v);
  if n <? 0 then mret (n, v, buf) else mret (n, with_pos_read (u64 (pos_read v + n)) v, buf).

(** ** Copy *)

(** One command of [vblk_copy_s20]. *)
Definition copy_cmd (src dst : nvm_vblk) (ws max stop sectr_ofz nerr : Z) : M W Z :=
  let n := NVM_MIN (u64 (stop - sectr_ofz + 1)) max in
  addrs_src ← lift (build_addrs (fun idx => stripe_addr src ws (u64 (sectr_ofz + idx))) n);
  addrs_dst ← lift (build_addrs (fun idx =>
    wunit ← zdiv (u64 (sectr_ofz + idx)) ws;
    rnd ← zdiv wunit (nblks src);
    chunk ← zmod wunit (nblks src);
    off ← zmod (u64 (sectr_ofz + idx)) ws;
    a ← blks dst !! Z.to_nat chunk;
    Some (set_l_sectr (u64 (off + u64 (rnd * ws))) a)) n);
  '(err, _) ← nvm_cmd_copy be dev addrs_src addrs_dst n (u16 NVM_VBLK_CMD_OPTS) (Some (Ret 0 0 0));
  mret (if err =? 0 then nerr else u64 (nerr + 1)).

Definition vblk_copy_s20 (src dst : nvm_vblk) : M W Z :=
  let count := vblk_nbytes src in
  ws ← nvm_dev_get_ws_min dev;
  let ws := u32 ws in
  nsectr ← lift (zdiv count (nbytes (geo dev)));
  let stop := sectr_stop 0 nsectr in
  max ← lift (zdiv NVM_NADDR_MAX ws);
  let max := max * ws in
  if negb (nsectr mod ws =? 0) then fail EINVAL (-1)
  else
    ofzs ← lift (sectr_range 0 stop max);
    nerr ← mfold (copy_cmd src dst ws max stop) ofzs 0;
    if nerr =? 0 then mret count else fail EIO (-1).

Definition nvm_vblk_copy (src dst : nvm_vblk) (flags : Z) : M W Z :=
  if negb (vdev src =? vdev dst) then fail ENOSYS (-1)
  else if negb (nblks src =? nblks dst) then fail ENOSYS (-1)
  else if negb (vblk_nbytes src =? vblk_nbytes dst) then fail ENOSYS (-1)
  else if verid dev =? NVM_SPEC_VERID_20 then vblk_copy_s20 src dst
  else fail ENOSYS (-1).

(** ** Attributes *)

Definition nvm_vblk_get_addrs (v : nvm_vblk) : list nvm_addr := blks v.
Definition nvm_vblk_get_naddrs (v : nvm_vblk) : Z := nblks v.
Definition nvm_vblk_get_nbytes (v : nvm_vblk) : Z := vblk_nbytes v.
Definition nvm_vblk_get_pos_read (v : nvm_vblk) : Z := pos_read v.
Definition nvm_vblk_get_pos_write (v : nvm_vblk) : Z := pos_write v.
Definition nvm_vblk_get_dev (v : option nvm_vblk) : option Z := vdev <$> v.

Definition nvm_vblk_set_pos_read (v : nvm_vblk) (pos : Z) : M W (Z * nvm_vblk) :=
  if vblk_nbytes v <? pos then fail EINVAL (-1, v) else mret (0, with_pos_read pos v).
Definition nvm_vblk_set_pos_write (v : nvm_vblk) (pos : Z) : M W (Z * nvm_vblk) :=
  if vblk_nbytes v <? pos then fail EINVAL (-1, v) else mret (0, with_pos_write pos v).
End vblk.
