(* ===== verification/Stripe.v ===== *)
(** The maps from a virtual block's linear sectors to device sectors: the
    arithmetic of striping, and the addresses [Vblk] builds with it. *)
From stdpp Require Import base numbers strings gmap option list.
From S2P Require Import Prelude Types Nvme Addr Dev Backend Buf Cmd Vblk.

(** ** Arithmetic *)

(** Sector [x] of a range striped in units of [ws] over [n] members: the
    member, the sector within it, and back. *)
Definition stripe_idx (ws n x : Z) : Z := (x / ws) mod n.
Definition stripe_off (ws n x : Z) : Z := x mod ws + x / ws / n * ws.
Definition unstripe (ws n c o : Z) : Z := (o / ws * n + c) * ws + o mod ws.

(** ** Virtual blocks *)

(** What identifies a chunk. *)
Definition chunk_id (a : nvm_addr) : Z * Z * Z := (l_pugrp a, l_punit a, l_chunk a).

(** The members of [v]: distinct chunks. *)
Record members_ok (v : nvm_vblk) : Prop := {
  mo_n : 0 < nblks v <= VBLK_MAX;
  mo_len : nblks v <= Z.of_nat (length (blks v));
  mo_addr : forall i a, 0 <= i < nblks v -> blks v !! Z.to_nat i = Some a -> addr_ok a;
  mo_inj : forall i j a b, 0 <= i < nblks v -> 0 <= j < nblks v ->
    blks v !! Z.to_nat i = Some a -> blks v !! Z.to_nat j = Some b ->
    chunk_id a = chunk_id b -> i = j }.

(** Member [i], 0 outside. *)
Definition member (v : nvm_vblk) (i : Z) : nvm_addr :=
  match blks v !! Z.to_nat i with Some a => a | None => 0 end.

(** The device sector behind linear sector [x], 2.0. *)
Definition lin20 (v : nvm_vblk) (ws x : Z) : nvm_addr :=
  set_l_sectr (stripe_off ws (nblks v) x) (member v (stripe_idx ws (nblks v) x)).

(** ** Lemmas *)

Section arith.
Context (ws n : Z) (Hws : 0 < ws) (Hn : 0 < n).

Lemma stripe_idx_range x : 0 <= stripe_idx ws n x < n.
Proof. apply Z.mod_pos_bound. lia. Qed.

Lemma stripe_off_nonneg x : 0 <= x -> 0 <= stripe_off ws n x.
Proof.
  intros. unfold stripe_off. pose proof (Z.mod_pos_bound x ws Hws).
  assert (0 <= x / ws / n) by (apply Z.div_pos; [apply Z.div_pos|]; lia). nia.
Qed.

Lemma stripe_off_div x : stripe_off ws n x / ws = x / ws / n.
Proof.
  unfold stripe_off. rewrite Z.div_add by lia.
  rewrite (Z.div_small (x mod ws)) by (apply Z.mod_pos_bound; lia). lia.
Qed.

Lemma stripe_off_mod x : stripe_off ws n x mod ws = x mod ws.
Proof. unfold stripe_off. by rewrite Z.mod_add, Z.mod_mod by lia. Qed.

Lemma unstripe_stripe x : unstripe ws n (stripe_idx ws n x) (stripe_off ws n x) = x.
Proof.
  unfold unstripe. rewrite stripe_off_div, stripe_off_mod. unfold stripe_idx.
  pose proof (Z.div_mod (x / ws) n). pose proof (Z.div_mod x ws). lia.
Qed.

Lemma stripe_unstripe c o : 0 <= c < n ->
  stripe_idx ws n (unstripe ws n c o) = c /\ stripe_off ws n (unstripe ws n c o) = o.
Proof.
  intros Hc. assert (E : unstripe ws n c o / ws = o / ws * n + c).
  { unfold unstripe. rewrite Z.div_add_l by lia.
    rewrite (Z.div_small (o mod ws)) by (apply Z.mod_pos_bound; lia). lia. }
  unfold stripe_idx, stripe_off. rewrite E. split.
  - rewrite Z.add_comm, Z.mod_add, Z.mod_small by lia. done.
  - rewrite Z.div_add_l, (Z.div_small c) by lia.
    unfold unstripe. rewrite (Z.add_comm _ (o mod ws)), Z.mod_add, Z.mod_mod by lia.
    pose proof (Z.div_mod o ws). lia.
Qed.

Lemma stripe_inj x y : stripe_idx ws n x = stripe_idx ws n y ->
  stripe_off ws n x = stripe_off ws n y -> x = y.
Proof. intros E1 E2. rewrite <-(unstripe_stripe x), <-(unstripe_stripe y). by rewrite E1, E2. Qed.

(** The range [0, n * L) covers sectors [0, L) of each member, when units
    divide members. *)
Lemma stripe_off_bound L x : (ws | L) -> 0 <= x < n * L -> stripe_off ws n x < L.
Proof.
  intros [k ->] Hx. unfold stripe_off. pose proof (Z.mod_pos_bound x ws Hws).
  assert (x / ws < n * k) by (apply Z.div_lt_upper_bound; lia).
  assert (x / ws / n < k) by (apply Z.div_lt_upper_bound; lia). nia.
Qed.

Lemma unstripe_bound L c o : (ws | L) -> 0 <= c < n -> 0 <= o < L ->
  0 <= unstripe ws n c o < n * L.
Proof.
  intros [k ->] Hc Ho. unfold unstripe. pose proof (Z.mod_pos_bound o ws Hws).
  assert (0 <= o / ws < k) by (split; [apply Z.div_pos; lia|apply Z.div_lt_upper_bound; lia]).
  nia.
Qed.

(** Within a unit the sectors of a member follow each other. *)
Lemma stripe_unit x i : (ws | x) -> 0 <= i < ws ->
  stripe_idx ws n (x + i) = stripe_idx ws n x /\
  stripe_off ws n (x + i) = stripe_off ws n x + i.
Proof.
  intros [k ->] Hi. unfold stripe_idx, stripe_off.
  rewrite Z.div_add_l, (Z.div_small i), Z.add_0_r, Z.div_mul by lia.
  rewrite Z.mod_mul, (Z.add_comm (k * ws) i), Z.mod_add, (Z.mod_small i) by lia. lia.
Qed.
End arith.

(** The members are all that counts. *)
Lemma members_ext v v' : blks v' = blks v -> nblks v' = nblks v -> members_ok v -> members_ok v'.
Proof. intros Eb En [H1 H2 H3 H4]. split; rewrite ?Eb, ?En; done. Qed.

Section lin20.
Context (v : nvm_vblk) (Hv : members_ok v) (ws : Z) (Hws : 0 < ws).

Lemma member_lookup i : 0 <= i < nblks v -> blks v !! Z.to_nat i = Some (member v i).
Proof.
  intros Hi. unfold member. destruct Hv.
  destruct (lookup_lt_is_Some_2 (blks v) (Z.to_nat i) ltac:(lia)) as [a Ha]. by rewrite Ha.
Qed.

Lemma member_ok i : 0 <= i < nblks v -> addr_ok (member v i).
Proof. intros Hi. eapply (mo_addr v Hv i); [done|by apply member_lookup]. Qed.

Lemma lin20_ok x : addr_ok (lin20 v ws x).
Proof.
  pose proof (member_ok (stripe_idx ws (nblks v) x)
    (stripe_idx_range ws (nblks v) ltac:(apply Hv) x)).
  unfold lin20. addr_wf.
Qed.

Lemma lin20_fields x : 0 <= stripe_off ws (nblks v) x < 2 ^ 32 ->
  l_sectr (lin20 v ws x) = stripe_off ws (nblks v) x /\
  chunk_id (lin20 v ws x) = chunk_id (member v (stripe_idx ws (nblks v) x)).
Proof. intros Hx. unfold lin20, chunk_id. addr_simpl. by rewrite wrap_id. Qed.

(** Distinct sectors have distinct addresses. *)
Lemma lin20_inj x y : 0 <= stripe_off ws (nblks v) x < 2 ^ 32 ->
  0 <= stripe_off ws (nblks v) y < 2 ^ 32 -> lin20 v ws x = lin20 v ws y -> x = y.
Proof.
  intros Hx Hy E. destruct (lin20_fields x Hx) as [F1 F2]. destruct (lin20_fields y Hy) as [G1 G2].
  pose proof (mo_n v Hv) as Hn.
  apply (stripe_inj ws (nblks v)); [lia|lia| |by rewrite <-F1, <-G1, E].
  eapply (mo_inj v Hv); [apply stripe_idx_range; lia..|apply member_lookup, stripe_idx_range; lia
    |apply member_lookup, stripe_idx_range; lia|]. by rewrite <-F2, <-G2, E.
Qed.

(** The address the code builds. *)
Lemma stripe_addr_lin x : 0 <= x < 2 ^ 64 -> 0 <= stripe_off ws (nblks v) x < 2 ^ 32 ->
  stripe_addr v ws x = Some (lin20 v ws x).
Proof.
  intros Hx Ho. pose proof (mo_n v Hv) as Hn. unfold VBLK_MAX in Hn.
  unfold stripe_addr, zdiv, zmod.
  rewrite (proj2 (Z.eqb_neq ws 0)), (proj2 (Z.eqb_neq (nblks v) 0)) by lia. cbn.
  pose proof (Z.mod_pos_bound x ws Hws).
  assert (0 <= x / ws / nblks v) by (apply Z.div_pos; [apply Z.div_pos|]; lia).
  unfold stripe_off in Ho. assert (0 <= x / ws / nblks v * ws) by nia.
  rewrite !(wrap_id 64) by (rewrite ?(wrap_id 64) by lia; lia).
  fold (stripe_idx ws (nblks v) x). rewrite member_lookup by (apply stripe_idx_range; lia).
  done.
Qed.
End lin20.

(** ** Properties *)

(** Every sector of every member chunk has its place in the linear range. *)
Lemma lin20_unstripe v ws L i o (Hv : members_ok v) (Hws : 0 < ws) (Hd : (ws | L)) :
  0 <= i < nblks v -> 0 <= o < L ->
  0 <= unstripe ws (nblks v) i o < nblks v * L /\
  lin20 v ws (unstripe ws (nblks v) i o) = set_l_sectr o (member v i).
Proof.
  intros Hi Ho. pose proof (mo_n v Hv) as Hn. split; [apply unstripe_bound; try done; lia|].
  unfold lin20. by destruct (stripe_unstripe ws (nblks v) Hws ltac:(lia) i o Hi) as [-> ->].
Qed.

(** C11: the striping of a 2.0 virtual block is a bijection. When a write unit
    divides the sectors of a chunk, the sectors of the linear range
    [0, nblks * nsectr) go to distinct device sectors, each inside a member
    chunk, and every sector of every member chunk is the image of exactly the
    linear sector [unstripe] names. *)
Theorem stripe_bijection v ws L (Hv : members_ok v) (Hws : 0 < ws) (Hd : (ws | L)) (HL : 0 < L <= 2 ^ 32) :
  (forall x, 0 <= x < nblks v * L -> stripe_addr v ws x = Some (lin20 v ws x) /\
     0 <= l_sectr (lin20 v ws x) < L /\
     chunk_id (lin20 v ws x) = chunk_id (member v (stripe_idx ws (nblks v) x))) /\
  (forall x y, 0 <= x < nblks v * L -> 0 <= y < nblks v * L ->
     lin20 v ws x = lin20 v ws y -> x = y) /\
  (forall i o, 0 <= i < nblks v -> 0 <= o < L ->
     0 <= unstripe ws (nblks v) i o < nblks v * L /\
     lin20 v ws (unstripe ws (nblks v) i o) = set_l_sectr o (member v i)).
Proof.
  pose proof (mo_n v Hv) as Hn. unfold VBLK_MAX in Hn.
  assert (Ho : forall x, 0 <= x < nblks v * L -> 0 <= stripe_off ws (nblks v) x < L).
  { intros x Hx. split; [apply stripe_off_nonneg; lia|apply stripe_off_bound; lia || done]. }
  split; [|split].
  - intros x Hx. specialize (Ho x Hx).
    destruct (lin20_fields v ws x ltac:(lia)) as [F1 F2].
    split; [apply stripe_addr_lin; done || nia|]. rewrite F1. done.
  - intros x y Hx Hy. pose proof (Ho x Hx). pose proof (Ho y Hy). apply lin20_inj; done || lia.
  - intros i o. by apply lin20_unstripe.
Qed.

(** Two chunks of [tiny20], in different groups: 16 linear sectors. *)
Definition tiny_vblk : nvm_vblk :=
  Vblk 1 ([set_l_chunk 3 0; set_l_chunk 3 (set_l_pugrp 1 0)] ++ replicate 126 0) 2 32 0 0
    NVM_VBLK_CMD_OPTS None [] 0.

Lemma tiny_members : members_ok tiny_vblk.
Proof.
  split.
  - by split.
  - by vm_compute.
  - intros i a Hi Ha. assert (i = 0 \/ i = 1) as [-> | ->] by (cbn in Hi; lia);
      vm_compute in Ha; simplify_eq; unfold addr_ok; lia.
  - intros i j a b Hi Hj Ha Hb E.
    assert (i = 0 \/ i = 1) as [-> | ->] by (cbn in Hi; lia);
    assert (j = 0 \/ j = 1) as [-> | ->] by (cbn in Hj; lia); try done;
      vm_compute in Ha, Hb; simplify_eq; by vm_compute in E.
Qed.

Lemma stripe_bijection_witness :
  lin20 tiny_vblk 2 <$> [0; 1; 2; 3; 4] =
    set_l_chunk 3 <$> [0; 1; set_l_pugrp 1 0; set_l_sectr 1 (set_l_pugrp 1 0); 2] /\
  (forall x y, 0 <= x < 16 -> 0 <= y < 16 ->
     lin20 tiny_vblk 2 x = lin20 tiny_vblk 2 y -> x = y).
Proof.
  split; [by vm_compute|].
  apply (stripe_bijection tiny_vblk 2 8 tiny_members); [lia|by exists 4|lia].
Defined.
