(* ===== verification/Media.v ===== *)
(** What virtual-block I/O relies on of a backend: an interface that gives the
    content of every device sector a meaning and says what a completed command
    does to it, and an instance of it in memory. *)
From stdpp Require Import base numbers strings gmap option list.
From S2P Require Import Prelude Types Nvme Addr Dev Backend Buf.

(** Sector [k] of a buffer of sectors of [nb] bytes. *)
Definition sector (nb : Z) (data : list Z) (k : Z) : list Z :=
  take (Z.to_nat nb) (drop (Z.to_nat (k * nb)) data).

(** The sectors a scalar command addresses. *)
Definition run_addrs (a : nvm_addr) (n : Z) : list nvm_addr := sectr_at a <$> seqZ 0 n.

(** ** Outcomes of commands *)

Section posts.
Context {W : Type} (mok : W -> Prop) (mdom : nvm_addr -> Prop) (media : W -> nvm_addr -> list Z) (nb : Z).

(** A write of [data] to [addrs] that answered [e]: it changed no other
    sector, took no memory, and on success each sector has its slice. *)
Definition write_post (addrs : list nvm_addr) (data : list Z) (s : sys W) (e : Z) (s' : sys W)
    : Prop :=
  good mok s' /\ live s' = live s /\
  (forall a, mdom a -> a ∉ addrs -> media (world s') a = media (world s) a) /\
  (e = 0 -> forall i a, addrs !! i = Some a -> media (world s') a = sector nb data (Z.of_nat i)).

(** A read of [addrs] into [data]: nothing changes on the device, nothing
    past the sectors in the buffer, and on success the sectors are there. *)
Definition read_post (addrs : list nvm_addr) (data : list Z) (s : sys W) (r : io_res) (s' : sys W)
    : Prop :=
  let n := Z.to_nat (Z.of_nat (length addrs) * nb) in
  good mok s' /\ live s' = live s /\ (forall a, mdom a -> media (world s') a = media (world s) a) /\
  exists data', io_data r = Some data' /\ length data' = length data /\
    drop n data' = drop n data /\
    (rc r = 0 -> take n data' = concat (media (world s) <$> addrs)).
End posts.

(** ** The interface *)

(** [mok] is what a command needs of the world and keeps, [mdom] are the
    addresses of the device, [mflags] the options its commands complete before
    they answer with, [mvector] the numbers of addresses a vector command may
    have. The buffer a command is given must
    hold its sectors; the addresses of a write must be distinct. A scalar
    command has at most 2^16 sectors, the NVMe limit. *)
Class Media {W} (be : nvm_be W) (dev : nvm_dev) := {
  mok : W -> Prop;
  mdom : nvm_addr -> Prop;
  mflags : Z -> Prop;
  mvector : Z -> Prop;
  media : W -> nvm_addr -> list Z;
  media_len w a : length (media w a) = Z.to_nat (nbytes (geo dev));
  vector_write_law addrs data meta flags ret s :
    good mok s -> mflags flags -> mvector (Z.of_nat (length addrs)) -> Forall mdom addrs -> NoDup addrs -> 0 < Z.of_nat (length addrs) ->
    Z.of_nat (length addrs) * nbytes (geo dev) <= Z.of_nat (length data) ->
    wp (be_vector_write be dev addrs (Z.of_nat (length addrs)) (Some data) meta flags ret) s
      (fun r s' => write_post mok mdom media (nbytes (geo dev)) addrs data s r.1 s');
  vector_read_law addrs data flags ret s :
    good mok s -> mflags flags -> mvector (Z.of_nat (length addrs)) -> Forall mdom addrs -> 0 < Z.of_nat (length addrs) ->
    Z.of_nat (length addrs) * nbytes (geo dev) <= Z.of_nat (length data) ->
    wp (be_vector_read be dev addrs (Z.of_nat (length addrs)) (Some data) None flags ret) s
      (read_post mok mdom media (nbytes (geo dev)) addrs data s);
  scalar_write_law a n data meta flags ret s :
    good mok s -> mflags flags -> Forall mdom (run_addrs a n) -> 0 < n <= 2 ^ 16 -> l_sectr a + n <= 2 ^ 32 -> n * nbytes (geo dev) <= Z.of_nat (length data) ->
    wp (be_scalar_write be dev a n (Some data) meta flags ret) s
      (fun r s' => write_post mok mdom media (nbytes (geo dev)) (run_addrs a n) data s r.1 s');
  scalar_read_law a n data flags ret s :
    good mok s -> mflags flags -> Forall mdom (run_addrs a n) -> 0 < n <= 2 ^ 16 -> l_sectr a + n <= 2 ^ 32 -> n * nbytes (geo dev) <= Z.of_nat (length data) ->
    wp (be_scalar_read be dev a n (Some data) None flags ret) s
      (read_post mok mdom media (nbytes (geo dev)) (run_addrs a n) data s) }.

(** Vector commands of up to [max] addresses with the options [flags] are ones
    the device completes. *)
Definition served {W} {be : nvm_be W} (dev : nvm_dev) `{!Media be dev} (flags max : Z) : Prop :=
  mflags flags /\ forall n, 0 < n <= max -> mvector n.

Lemma served_le {W} {be : nvm_be W} (dev : nvm_dev) `{!Media be dev} (flags m n : Z) :
  served (be := be) dev flags n -> m <= n -> served (be := be) dev flags m.
Proof. intros [H1 H2] Hm. split; [done|]. intros. apply H2. lia. Qed.

(** A device on which no command fails. *)
Class Reliable {W} (be : nvm_be W) (dev : nvm_dev) : Prop := {
  vector_write_ok addrs n data meta flags ret s r s' :
    be_vector_write be dev addrs n data meta flags ret s = Some (r, s') -> r.1 = 0;
  vector_read_ok addrs n data meta flags ret s r s' :
    be_vector_read be dev addrs n data meta flags ret s = Some (r, s') -> rc r = 0;
  scalar_write_ok a n data meta flags ret s r s' :
    be_scalar_write be dev a n data meta flags ret s = Some (r, s') -> r.1 = 0;
  scalar_read_ok a n data meta flags ret s r s' :
    be_scalar_read be dev a n data meta flags ret s = Some (r, s') -> rc r = 0 }.

(** ** A device in memory *)

Section ram.
Context (dev : nvm_dev).

Abbreviation ram := (gmap nvm_addr (list Z)).

(** Sectors never written read as zeros. *)
Definition ram_sector (w : ram) (a : nvm_addr) : list Z :=
  match w !! a with
  | Some l => take (Z.to_nat (nbytes (geo dev))) (l ++ replicate (Z.to_nat (nbytes (geo dev))) 0)
  | None => replicate (Z.to_nat (nbytes (geo dev))) 0
  end.

Fixpoint ram_store (addrs : list nvm_addr) (data : list Z) (w : ram) : ram :=
  match addrs with
  | [] => w
  | a :: addrs =>
      ram_store addrs (drop (Z.to_nat (nbytes (geo dev))) data)
        (<[a := take (Z.to_nat (nbytes (geo dev))) data]> w)
  end.

Definition ram_write (addrs : list nvm_addr) (data : mem) (ret : retp) : M ram (Z * retp) :=
  fun s => match data with
  | Some data =>
      if Z.of_nat (length data) <? Z.of_nat (length addrs) * nbytes (geo dev) then None
      else Some (0, ret, Sys (errno s) (hp s) (ram_store addrs data (world s)))
  | None => None
  end.

Definition ram_read (addrs : list nvm_addr) (data meta : mem) (ret : retp) : M ram io_res :=
  fun s => match data with
  | Some data =>
      if Z.of_nat (length data) <? Z.of_nat (length addrs) * nbytes (geo dev) then None
      else Some (IoRes 0 (Some (concat (ram_sector (world s) <$> addrs) ++
                   drop (Z.to_nat (Z.of_nat (length addrs) * nbytes (geo dev))) data)) meta ret, s)
  | None => None
  end.

(** A command addresses its [naddrs] first addresses, at most 64. *)
Definition ram_addrs (addrs : list nvm_addr) (naddrs : Z) : list nvm_addr :=
  take (Z.to_nat naddrs) addrs.

Definition ram_be : nvm_be ram :=
  NvmBe ram NVM_BE_IOCTL "NVM_BE_IOCTL" nvm_be_nosys_open
    nvm_be_nosys_close nvm_be_nosys_pass nvm_be_nosys_idfy nvm_be_nosys_rprt
    nvm_be_nosys_gfeat nvm_be_nosys_sfeat nvm_be_nosys_gbbt nvm_be_nosys_sbbt
    (fun _ addrs naddrs _ ret => mret (0, ret))
    (fun _ a n data _ _ ret => ram_write (run_addrs a n) data ret)
    (fun _ a n data meta _ ret => ram_read (run_addrs a n) data meta ret)
    (fun _ addrs naddrs meta _ ret => mret (0, meta, ret))
    (fun _ addrs naddrs data _ _ ret => ram_write (ram_addrs addrs naddrs) data ret)
    (fun _ addrs naddrs data meta _ ret => ram_read (ram_addrs addrs naddrs) data meta ret)
    (fun _ src dst naddrs _ ret s => Some (0, ret,
       Sys (errno s) (hp s) (ram_store (ram_addrs dst naddrs)
         (concat (ram_sector (world s) <$> ram_addrs src naddrs)) (world s))))
    nvm_be_nosys_async_init nvm_be_nosys_async_term nvm_be_nosys_async_poke
    nvm_be_nosys_async_wait.
End ram.

(** ** Lemmas *)

Lemma sector_drop nb data k : 0 <= nb -> 0 <= k ->
  sector nb (drop (Z.to_nat nb) data) k = sector nb data (k + 1).
Proof.
  intros. unfold sector. rewrite drop_drop. f_equal. f_equal. nia.
Qed.

Lemma sector_shift nb data j k : 0 <= nb -> 0 <= j -> 0 <= k ->
  sector nb (drop (Z.to_nat (j * nb)) data) k = sector nb data (j + k).
Proof. intros. unfold sector. rewrite drop_drop. f_equal. f_equal. nia. Qed.

Lemma length_concat_const {A B} (f : A -> list B) n (l : list A) :
  (forall a, length (f a) = n) -> length (concat (f <$> l)) = (length l * n)%nat.
Proof.
  intros Hf. induction l as [|a l IH]; cbn; [done|]. by rewrite length_app, Hf, IH.
Qed.

Section ram_laws.
Context (dev : nvm_dev) (Hnb : 0 <= nbytes (geo dev)).

Lemma ram_sector_len w a : length (ram_sector dev w a) = Z.to_nat (nbytes (geo dev)).
Proof.
  unfold ram_sector. destruct (w !! a); [|apply length_replicate].
  rewrite length_take, length_app, length_replicate. lia.
Qed.

Lemma ram_store_other addrs data w a : a ∉ addrs -> ram_store dev addrs data w !! a = w !! a.
Proof.
  revert data w. induction addrs as [|b addrs IH]; intros data w Ha; cbn; [done|].
  apply not_elem_of_cons in Ha as [Hb Ha]. rewrite IH by done. by rewrite lookup_insert_ne.
Qed.

Lemma ram_store_at addrs data w i a : NoDup addrs -> addrs !! i = Some a ->
  ram_store dev addrs data w !! a = Some (sector (nbytes (geo dev)) data (Z.of_nat i)).
Proof.
  revert data w i. induction addrs as [|b addrs IH]; intros data w i Hnd Hi; [done|].
  apply NoDup_cons in Hnd as [Hb Hnd]. destruct i as [|i]; cbn in *.
  - injection Hi as ->. rewrite ram_store_other by done. rewrite lookup_insert_eq.
    unfold sector. by rewrite drop_0.
  - rewrite (IH _ _ i) by done. rewrite sector_drop by lia. do 2 f_equal. lia.
Qed.

Lemma sector_len nb data k : 0 <= nb -> 0 <= k -> (k + 1) * nb <= Z.of_nat (length data) ->
  length (sector nb data k) = Z.to_nat nb.
Proof. intros. unfold sector. rewrite length_take, length_drop. nia. Qed.

Lemma ram_write_ok addrs data ret s : heap_wf s -> NoDup addrs ->
  Z.of_nat (length addrs) * nbytes (geo dev) <= Z.of_nat (length data) ->
  wp (ram_write dev addrs (Some data) ret) s
    (fun r s' => write_post (fun _ => True) (fun _ => True) (ram_sector dev) (nbytes (geo dev)) addrs data s r.1 s').
Proof.
  intros Hwf Hnd Hl. unfold wp, ram_write. rewrite (proj2 (Z.ltb_ge _ _)) by lia.
  split; [done|]. split; [done|]. split.
  - intros a _ Ha. unfold ram_sector. cbn. by rewrite ram_store_other.
  - intros _ i a Hi. unfold ram_sector. cbn. rewrite (ram_store_at _ _ _ i) by done.
    pose proof (lookup_lt_Some _ _ _ Hi). apply take_app_length'.
    rewrite sector_len; nia.
Qed.

Lemma ram_read_ok addrs data meta ret s : heap_wf s ->
  Z.of_nat (length addrs) * nbytes (geo dev) <= Z.of_nat (length data) ->
  wp (ram_read dev addrs (Some data) meta ret) s
    (read_post (fun _ => True) (fun _ => True) (ram_sector dev) (nbytes (geo dev)) addrs data s).
Proof.
  intros Hwf Hl. unfold wp, ram_read. rewrite (proj2 (Z.ltb_ge _ _)) by lia.
  assert (Hc : length (concat (ram_sector dev (world s) <$> addrs)) =
    Z.to_nat (Z.of_nat (length addrs) * nbytes (geo dev)))
    by (rewrite (length_concat_const _ (Z.to_nat (nbytes (geo dev)))) by (apply ram_sector_len); nia).
  split; [done|]. split; [done|]. split; [done|].
  eexists. split; [reflexivity|]. split; [|split].
  - rewrite length_app, Hc, length_drop. lia.
  - by rewrite drop_app_length' by done.
  - intros _. by rewrite take_app_length' by done.
Qed.

Lemma run_addrs_NoDup a n : 0 <= n -> l_sectr a + n <= 2 ^ 32 -> NoDup (run_addrs a n).
Proof.
  intros Hn Ha. unfold run_addrs. apply NoDup_fmap_2_strong; [|apply NoDup_seqZ].
  intros x y Hx Hy E. apply elem_of_seqZ in Hx, Hy.
  destruct (sectr_at_fields a x) as (F1 & _). destruct (sectr_at_fields a y) as (G1 & _).
  destruct (l_fields_range a) as (R & _).
  rewrite E, G1, !wrap_id in F1 by lia. lia.
Qed.

Lemma run_addrs_len a n : 0 <= n -> Z.of_nat (length (run_addrs a n)) = n.
Proof. intros. unfold run_addrs. rewrite length_fmap, length_seqZ. lia. Qed.
End ram_laws.

#[export] Program Instance ram_media dev (Hnb : TCEq (0 <=? nbytes (geo dev)) true) :
  Media (ram_be dev) dev := 
  {| mok := fun _ => True; mdom := fun _ => True; mflags := fun _ => True; mvector := fun _ => True; media := ram_sector dev |}.
Next Obligation. intros. apply ram_sector_len. Qed.
Next Obligation.
  intros dev Hnb addrs data meta flags ret s ???????. apply TCEq_eq, Z.leb_le in Hnb. cbn.
  unfold ram_addrs. rewrite Nat2Z.id, firstn_all. by apply ram_write_ok.
Qed.
Next Obligation.
  intros dev Hnb addrs data flags ret s ??????. apply TCEq_eq, Z.leb_le in Hnb. cbn.
  unfold ram_addrs. rewrite Nat2Z.id, firstn_all. by apply ram_read_ok.
Qed.
Next Obligation.
  intros dev Hnb a n data meta flags ret s ??????. apply TCEq_eq, Z.leb_le in Hnb. cbn.
  apply ram_write_ok; [done|done|apply run_addrs_NoDup; lia|by rewrite run_addrs_len by lia].
Qed.
Next Obligation.
  intros dev Hnb a n data flags ret s ??????. apply TCEq_eq, Z.leb_le in Hnb. cbn.
  apply ram_read_ok; [done|by rewrite run_addrs_len by lia].
Qed.

#[export] Instance ram_reliable dev : Reliable (ram_be dev) dev.
Proof.
  split; cbn; intros until s'; unfold ram_write, ram_read; destruct data as [l|]; try done;
    destruct (_ <? _); intros E; by simplify_eq.
Qed.
