(* ===== verification/Linear.v ===== *)
(** Sequential I/O on a linear range of sectors: what a loop of commands over
    consecutive runs has done so far, whatever the map from the range to the
    device. *)
From stdpp Require Import base numbers strings gmap option list.
From S2P Require Import Prelude Types Nvme Addr Dev Backend Buf Cmd Vblk Media.

(** The addresses of the linear sectors [x, x + n). *)
Definition run_of (lin : Z -> nvm_addr) (x n : Z) : list nvm_addr := lin <$> seqZ x n.

(** ** Runs *)

Lemma build_addrs_some f g n : (forall i, 0 <= i < n -> f i = Some (g i)) ->
  build_addrs f n = Some (g <$> seqZ 0 n).
Proof.
  intros Hf. unfold build_addrs. apply mapM_Some. apply Forall2_fmap_r.
  apply Forall_Forall2_diag. apply list.Forall_forall. intros i Hi%elem_of_seqZ. apply Hf. lia.
Qed.

Lemma seqZ_shift {A} (f : Z -> A) x n : (fun i => f (x + i)) <$> seqZ 0 n = f <$> seqZ x n.
Proof.
  replace (seqZ x n) with (seqZ (x + 0) n) by (f_equal; lia).
  by rewrite <-fmap_add_seqZ, <-list_fmap_compose.
Qed.

Section runs.
Context (lin : Z -> nvm_addr).

Lemma run_of_len x n : 0 <= n -> Z.of_nat (length (run_of lin x n)) = n.
Proof. intros. unfold run_of. rewrite length_fmap, length_seqZ. lia. Qed.

Lemma run_of_lookup x n i : 0 <= i < n -> run_of lin x n !! Z.to_nat i = Some (lin (x + i)).
Proof.
  intros. unfold run_of. rewrite list_lookup_fmap, lookup_seqZ_lt by lia. cbn.
  by rewrite Z2Nat.id by lia.
Qed.

Lemma run_of_elem x n a : a ∈ run_of lin x n <-> exists i, 0 <= i < n /\ a = lin (x + i).
Proof.
  unfold run_of. rewrite list_elem_of_fmap. split.
  - intros (y & -> & Hy%elem_of_seqZ). exists (y - x). split; [lia|]. f_equal. lia.
  - intros (i & Hi & ->). exists (x + i). split; [done|]. apply elem_of_seqZ. lia.
Qed.

Lemma run_of_app x n m : 0 <= n -> 0 <= m ->
  run_of lin x (n + m) = run_of lin x n ++ run_of lin (x + n) m.
Proof. intros. unfold run_of. by rewrite seqZ_app, fmap_app. Qed.

Lemma run_of_NoDup x n : (forall i j, x <= i < x + n -> x <= j < x + n -> lin i = lin j -> i = j) ->
  NoDup (run_of lin x n).
Proof.
  intros Hinj. unfold run_of. apply NoDup_fmap_2_strong; [|apply NoDup_seqZ].
  intros a b Ha%elem_of_seqZ Hb%elem_of_seqZ. apply Hinj; lia.
Qed.
End runs.

(** ** Command sizes *)

(** The greatest divisor up to the limit. *)
Lemma count_down_spec fuel n c : 0 < c <= Z.of_nat fuel -> 0 <= n ->
  exists d, count_down fuel n c = Some d /\ 1 <= d <= c /\ (d | n) /\
    forall e, d < e <= c -> ~ (e | n).
Proof.
  revert c. induction fuel as [|fuel IH]; intros c Hc Hn; [lia|]. cbn [count_down].
  rewrite (proj2 (Z.eqb_neq c 0)) by lia. rewrite Z.rem_mod_nonneg by lia.
  destruct (Z.eqb_spec (n mod c) 0) as [E|E]; cbn [negb andb].
  - exists c. split; [done|]. split; [lia|]. split; [by apply Z.mod_divide; [lia|]|]. intros e. lia.
  - destruct (Z.ltb_spec 1 c).
    + destruct (IH (c - 1) ltac:(lia) Hn) as (d & -> & Hd & Hdiv & Hmax).
      exists d. split; [done|]. split; [lia|]. split; [done|]. intros e He.
      destruct (decide (e = c)) as [->|]; [|apply Hmax; lia].
      intros Hdv. apply E. by apply Z.mod_divide; [lia|].
    + assert (c = 1) as -> by lia. by rewrite Z.mod_1_r in E.
Qed.

Lemma count_down_le n c : 0 < c -> 0 <= n -> exists d, count_down (Z.to_nat c) n c = Some d /\
  1 <= d <= c /\ (d | n) /\ forall e, d < e <= c -> ~ (e | n).
Proof. intros. apply count_down_spec; lia. Qed.

(** ** Counting failures *)

Lemma count_err nerr k e : 0 <= nerr <= k -> k < 2 ^ 64 - 1 ->
  0 <= (if e =? 0 then nerr else u64 (nerr + 1)) <= k + 1 /\
  ((if e =? 0 then nerr else u64 (nerr + 1)) = 0 <-> nerr = 0 /\ e = 0).
Proof. intros. destruct (Z.eqb_spec e 0); [lia|]. rewrite wrap_id; lia. Qed.

(** ** Progress of writes and reads *)

Section progress.
Context {W : Type} (mok : W -> Prop) (mdom : nvm_addr -> Prop) (media : W -> nvm_addr -> list Z) (nb : Z) (Hnb : 0 <= nb).
Context (media_len : forall w a, length (media w a) = Z.to_nat nb).
Context (reliable : Prop) (lin : Z -> nvm_addr) (bgn : Z).
Implicit Types s : sys W.

(** [k] commands wrote the first [n] sectors from [bgn], [nerr] of them
    failed; sector [i] was to become [src i]. *)
Definition written (src : Z -> list Z) (s0 : sys W) (k n nerr : Z) (s : sys W) : Prop :=
  good mok s /\ live s = live s0 /\ (0 <= nerr <= k /\ (reliable -> nerr = 0)) /\
  (forall a, mdom a -> a ∉ run_of lin bgn n -> media (world s) a = media (world s0) a) /\
  (nerr = 0 -> forall i, 0 <= i < n -> media (world s) (lin (bgn + i)) = src i).

Lemma written_0 src s : good mok s -> written src s 0 0 0 s.
Proof. intros. split; [done|]. split; [done|]. split; [done|]. split; [done|]. intros _ i Hi. lia. Qed.

Lemma written_step src s0 k n m nerr s e data s' :
  written src s0 k n nerr s -> 0 <= n -> 0 <= m -> k < 2 ^ 64 - 1 ->
  (forall i, 0 <= i < n + m -> mdom (lin (bgn + i))) ->
  (forall i j, bgn <= i < bgn + n + m -> bgn <= j < bgn + n + m -> lin i = lin j -> i = j) ->
  (forall i, 0 <= i < m -> sector nb data i = src (n + i)) ->
  write_post mok mdom media nb (run_of lin (bgn + n) m) data s e s' -> (reliable -> e = 0) ->
  written src s0 (k + 1) (n + m) (if e =? 0 then nerr else u64 (nerr + 1)) s'.
Proof.
  intros (Hwf & Hl & [Hn Hrel] & Hfr & Hd) Hn0 Hm Hk Hdom Hinj Hsrc (Hwf' & Hl' & Hfr' & Hok) HR.
  destruct (count_err nerr k e Hn Hk) as [Hc Hz].
  split; [done|]. split; [congruence|]. split; [split; [done|intros; apply Hz; auto]|]. split.
  - intros a Hdm Ha. rewrite run_of_app, not_elem_of_app in Ha by done.
    rewrite Hfr', Hfr; [done|done|apply Ha|done|apply Ha].
  - intros [E1 E2]%Hz i Hi. destruct (Z.lt_ge_cases i n) as [Hlt|Hge].
    + rewrite Hfr'; [apply Hd; [done|lia]|apply Hdom; lia|]. intros (j & Hj & Eq)%run_of_elem.
      apply Hinj in Eq; lia.
    + assert (Hlk : run_of lin (bgn + n) m !! Z.to_nat (i - n) = Some (lin (bgn + i)))
        by (rewrite run_of_lookup by lia; do 2 f_equal; lia).
      rewrite (Hok E2 _ _ Hlk), Z2Nat.id, Hsrc by lia. f_equal. lia.
Qed.

(** [k] commands read the first [n] sectors from [bgn] into a buffer that was
    [l0]. *)
Definition fetched (l0 : list Z) (s0 : sys W) (k n : Z) (acc : Z * mem) (s : sys W) : Prop :=
  good mok s /\ live s = live s0 /\ (forall a, mdom a -> media (world s) a = media (world s0) a) /\
  (0 <= acc.1 <= k /\ (reliable -> acc.1 = 0)) /\
  exists l, acc.2 = Some l /\ length l = length l0 /\
    drop (Z.to_nat (n * nb)) l = drop (Z.to_nat (n * nb)) l0 /\
    (acc.1 = 0 -> take (Z.to_nat (n * nb)) l = concat (media (world s0) <$> run_of lin bgn n)).

Lemma fetched_0 l s : good mok s -> fetched l s 0 0 (0, Some l) s.
Proof.
  intros. split; [done|]. split; [done|]. split; [done|]. split; [done|]. by exists l.
Qed.

Lemma fetched_step l0 s0 k n m nerr l s r s' :
  fetched l0 s0 k n (nerr, Some l) s -> 0 <= n -> 0 <= m -> k < 2 ^ 64 - 1 ->
  (forall i, 0 <= i < n + m -> mdom (lin (bgn + i))) ->
  (n + m) * nb <= Z.of_nat (length l0) ->
  read_post mok mdom media nb (run_of lin (bgn + n) m) (drop (Z.to_nat (n * nb)) l) s r s' ->
  (reliable -> rc r = 0) ->
  fetched l0 s0 (k + 1) (n + m)
    (if rc r =? 0 then nerr else u64 (nerr + 1), mem_splice (Some l) (n * nb) (io_data r)) s'.
Proof.
  intros (Hwf & Hl & Hmed & [Hn Hrel] & l' & [= <-] & Hll & Hdrop & Htake) Hn0 Hm Hk Hdom Hlen
    (Hwf' & Hl' & Hm' & data & Ed & Hlen' & Hdd & Hok) HR.
  cbn [fst snd] in *. destruct (count_err nerr k (rc r) Hn Hk) as [Hc Hz].
  rewrite Ed. cbn [mem_splice]. rewrite run_of_len, length_drop in * by lia.
  assert (E1 : Z.to_nat ((n + m) * nb) = (Z.to_nat (n * nb) + Z.to_nat (m * nb))%nat) by nia.
  assert (E0 : length (take (Z.to_nat (n * nb)) l) = Z.to_nat (n * nb)) by (rewrite length_take; nia).
  split; [done|]. split; [congruence|]. split; [intros a Ha; by rewrite Hm', Hmed|].
  split; [split; [done|intros; apply Hz; auto]|].
  eexists; split; [reflexivity|]; split; [|split]; cbn [fst snd].
  - rewrite length_app, E0, Hlen'. nia.
  - rewrite E1, drop_app_add' by done. by rewrite Hdd, drop_drop, <-!drop_drop, Hdrop.
  - intros [Hz1 Hz2]%Hz. rewrite E1, take_app_add' by done. rewrite (Hok Hz2), Htake by done.
    rewrite run_of_app, fmap_app, concat_app by done.
    f_equal. f_equal. apply list_fmap_ext. intros i a Ha. apply Hmed.
    apply list_elem_of_lookup_2, run_of_elem in Ha as (j & Hj & ->).
    replace (bgn + n + j) with (bgn + (n + j)) by lia. apply Hdom. lia.
Qed.
End progress.
