(* ===== verification/VblkIO.v ===== *)
(** Correctness of synchronous I/O on 2.0 virtual blocks, against the linear
    sector range they implement. *)
From stdpp Require Import base numbers strings gmap option list.
From S2P Require Import Prelude Types Nvme Addr Dev Backend Buf Cmd Vblk Stripe Media Linear.

(** A virtual block of a 2.0 device, with its write unit and chunk size. *)
Record vblk20_ok (dev : nvm_dev) (v : nvm_vblk) (ws : Z) : Prop := {
  vo_verid : verid dev = NVM_SPEC_VERID_20;
  vo_members : members_ok v;
  vo_ws : ws_opt (s20_wrt (dev_idfy dev)) = ws;
  vo_ws_range : 0 < ws <= 2 ^ 16;
  vo_nsectr : 0 < nsectr (geo dev) <= 2 ^ 32;
  vo_unit : (ws | nsectr (geo dev));
  vo_nb : 0 < nbytes (geo dev) < 2 ^ 24;
  vo_size : vblk_nbytes v = nblks v * nsectr (geo dev) * nbytes (geo dev);
  vo_fits : vblk_nbytes v < 2 ^ 62;
  vo_flags : 0 <= vflags v < 2 ^ 16 }.

(** The mode its commands run in. *)
Definition vblk_mode (dev : nvm_dev) (v : nvm_vblk) : Z := cmd_addr_opt dev (vflags v).

(** The addresses of the linear sectors [x, x + n). *)
Definition lin_run (v : nvm_vblk) (ws : Z) : Z -> Z -> list nvm_addr := run_of (lin20 v ws).

(** ** Building addresses *)

Lemma lin_run_len v ws x n : 0 <= n -> Z.of_nat (length (lin_run v ws x n)) = n.
Proof. apply run_of_len. Qed.

Lemma lin_run_lookup v ws x n i : 0 <= i < n ->
  lin_run v ws x n !! Z.to_nat i = Some (lin20 v ws (x + i)).
Proof. apply run_of_lookup. Qed.

Lemma lin_run_elem v ws x n a : a ∈ lin_run v ws x n <-> exists i, 0 <= i < n /\ a = lin20 v ws (x + i).
Proof. apply run_of_elem. Qed.

Section s20.
Context (dev : nvm_dev) (v : nvm_vblk) (ws : Z) (Hv : vblk20_ok dev v ws).

(** The size of the linear range. *)
Definition lin_size : Z := nblks v * nsectr (geo dev).

Lemma lin_size_range : 0 < lin_size /\ lin_size <= 2 ^ 39 /\ lin_size * nbytes (geo dev) < 2 ^ 62.
Proof.
  destruct Hv. pose proof (mo_n v vo_members0) as Hn. unfold VBLK_MAX in Hn. unfold lin_size.
  split; [nia|]. split; [nia|lia].
Qed.

Lemma lin_off x : 0 <= x < lin_size -> 0 <= stripe_off ws (nblks v) x < 2 ^ 32.
Proof.
  intros Hx. destruct Hv. pose proof (mo_n v vo_members0) as Hn. unfold VBLK_MAX in Hn.
  split; [apply stripe_off_nonneg; lia|].
  assert (stripe_off ws (nblks v) x < nsectr (geo dev)); [|lia].
  apply stripe_off_bound; [lia|lia|done|done].
Qed.

Lemma lin_inj x y : 0 <= x < lin_size -> 0 <= y < lin_size ->
  lin20 v ws x = lin20 v ws y -> x = y.
Proof.
  intros Hx Hy. apply lin20_inj; [apply Hv|apply Hv|by apply lin_off..].
Qed.

Lemma stripe_addrs x n : 0 <= x -> 0 <= n -> x + n <= lin_size ->
  build_addrs (fun idx => stripe_addr v ws (u64 (x + idx))) n = Some (lin_run v ws x n).
Proof.
  intros Hx Hn Hs. unfold lin_run, run_of. rewrite <-seqZ_shift. apply build_addrs_some.
  intros i Hi. destruct lin_size_range as (_ & Hl & _).
  rewrite wrap_id by lia. apply stripe_addr_lin; [apply Hv|apply Hv|lia|apply lin_off; lia].
Qed.

Lemma lin_run_NoDup x n : 0 <= x -> x + n <= lin_size -> NoDup (lin_run v ws x n).
Proof.
  intros Hx Hs. apply run_of_NoDup. intros i j Hi Hj. apply lin_inj; lia.
Qed.

(** The sectors of a write unit are consecutive in their chunk. *)
Lemma lin_run_unit x : 0 <= x -> (ws | x) -> x + ws <= lin_size ->
  run_addrs (lin20 v ws x) ws = lin_run v ws x ws.
Proof.
  intros Hx Hd Hs. pose proof (vo_ws_range _ _ _ Hv) as Hw.
  unfold run_addrs, lin_run, run_of. rewrite <-(seqZ_shift (lin20 v ws) x). apply list_fmap_ext.
  intros k i Hi. apply lookup_seqZ in Hi as [-> Hk].
  set (i := 0 + Z.of_nat k).
  destruct (stripe_unit ws (nblks v) ltac:(lia) x i Hd ltac:(lia)) as [E1 E2].
  pose proof (lin_off x ltac:(lia)) as O1. pose proof (lin_off (x + i) ltac:(lia)) as O2.
  destruct (lin20_fields v ws x O1) as [F1 _].
  assert (Hm : addr_ok (member v (stripe_idx ws (nblks v) x))).
  { apply member_ok; [apply Hv|]. apply stripe_idx_range. apply (mo_n v), Hv. }
  unfold sectr_at. rewrite F1. unfold lin20. rewrite E1, E2.
  apply addr_ext_l; [addr_wf|addr_wf|..]; addr_simpl; done.
Qed.

(** The addresses of the range are addresses of the device. *)
Definition on_device (mdom : nvm_addr -> Prop) : Prop :=
  forall x, 0 <= x < lin_size -> mdom (lin20 v ws x).

Lemma lin_run_dom mdom x n : on_device mdom -> 0 <= x -> x + n <= lin_size -> Forall mdom (lin_run v ws x n).
Proof.
  intros Hd Hx Hs. apply Forall_forall. intros a (i & Hi & ->)%lin_run_elem. apply Hd. lia.
Qed.

(** They stay within the sector field. *)
Lemma lin_run_sectr x : 0 <= x -> (ws | x) -> x + ws <= lin_size -> l_sectr (lin20 v ws x) + ws <= 2 ^ 32.
Proof.
  intros Hx Hd Hs. pose proof (vo_ws_range _ _ _ Hv).
  pose proof (lin_off x ltac:(lia)) as O. pose proof (lin_off (x + (ws - 1)) ltac:(lia)) as O'.
  destruct (lin20_fields v ws x O) as [-> _].
  destruct (stripe_unit ws (nblks v) ltac:(lia) x (ws - 1) Hd ltac:(lia)) as [_ E]. lia.
Qed.

Lemma vblk_flags_id : u16 (vflags v) = vflags v.
Proof. apply wrap_id, Hv. Qed.

Lemma ws_get {W} (s : sys W) : nvm_dev_get_ws_opt dev s = Some (ws, s).
Proof.
  destruct Hv. unfold nvm_dev_get_ws_opt. rewrite vo_verid0. cbn. rewrite vo_ws0, i32_id by lia. done.
Qed.
End s20.

(** ** Padding and meta buffers *)

(** The pattern [nvm_buf_fill] writes. *)
Definition pattern (n : Z) : list Z := (fun i => i mod 26 + 65) <$> seqZ 0 n.

Lemma pattern_len n : 0 <= n -> Z.of_nat (length (pattern n)) = n.
Proof. intros. unfold pattern. rewrite length_fmap, length_seqZ. lia. Qed.

Lemma buf_fill_fresh n : 0 <= n -> nvm_buf_fill (replicate (Z.to_nat n) 0) n = Some (pattern n).
Proof.
  intros Hn. unfold nvm_buf_fill. rewrite length_replicate.
  rewrite (proj2 (Z.ltb_ge _ _)) by lia. rewrite drop_ge by (rewrite length_replicate; lia).
  by rewrite app_nil_r.
Qed.

Lemma meta_content_some mode n : 0 <= n -> is_Some (meta_content mode n).
Proof.
  intros Hn. unfold meta_content. rewrite buf_fill_fresh by done.
  by destruct (mode =? _); [eexists|destruct (mode =? _); eexists].
Qed.

(** The blocks a write holds while it runs. *)
Definition bufs_blocks (b : write_bufs) : list Z := filter (fun p => p <> 0) [pad_p b; meta_p b].

Section bufs.
Context {W : Type} (spdk : spdk_env W) (dev : nvm_dev) (Halloc : alloc_ok spdk dev).
Implicit Types s : sys W.

Record bufs_ok (I : W -> Prop) (buf : mem) (padn : Z) (s : sys W) (b : write_bufs) (s' : sys W) : Prop := {
  bo_wf : good I s';
  bo_world : world s' = world s;
  bo_nodup : NoDup (bufs_blocks b);
  bo_fresh : forall p, p ∈ [pad_p b; meta_p b] -> p ∉ live s;
  bo_live : live s' = list_to_set (bufs_blocks b) ∪ live s;
  bo_pad : pad b = match buf with Some _ => None | None => Some (pattern padn) end }.

Lemma live_not_0 {I} s : good I s -> 0 ∉ live s.
Proof. intros Hwf H0%(good_live _ _ Hwf). lia. Qed.

Lemma free_undo p s s' : p <> 0 -> p ∉ live s -> live s' = ({[p]} ∪ live s) ∖ {[p]} -> live s' = live s.
Proof. intros. set_solver. Qed.

(** The meta buffer, when the padding [(pp, pm)] is there. *)
Lemma wp_meta_alloc {I} leaky buf padn metan pp pm s s1 (Q : write_bufs + Z -> sys W -> Prop) :
  (nvm_dev_get_meta_mode dev <> NVM_META_MODE_NONE -> 0 < metan) ->
  good I s -> good I s1 -> world s1 = world s ->
  (pp = 0 /\ live s1 = live s \/ pp <> 0 /\ (pp ∉ live s) /\ live s1 = {[pp]} ∪ live s) ->
  pm = match buf with Some _ => None | None => Some (pattern padn) end ->
  (forall b s', bufs_ok I buf padn s b s' -> Q (inl b) s') ->
  (forall s', good I s' -> (live s' = live s \/ leaky = true /\ live s' = live s1) ->
     world s' = world s -> errno s' = ENOMEM -> nvm_dev_get_meta_mode dev <> NVM_META_MODE_NONE ->
     Q (inr (-1)) s') ->
  wp (if nvm_dev_get_meta_mode dev =? NVM_META_MODE_NONE then mret (inl (WBufs pp pm 0 None))
      else
        m ← nvm_buf_alloc spdk dev metan;
        if m =? 0 then
          _ ← (if leaky then mret tt else nvm_buf_free spdk dev pp);
          fail ENOMEM (inr (-1))
        else c ← lift (meta_content (nvm_dev_get_meta_mode dev) metan);
             mret (inl (WBufs pp pm m (Some c)))) s1 Q.
Proof.
  intros Hm Hwf Hwf1 Hw1 Hpp Hpm HQ HE. pose proof (live_not_0 s Hwf) as H0.
  destruct (Z.eqb_spec (nvm_dev_get_meta_mode dev) NVM_META_MODE_NONE) as [_|Hmode];
    [|specialize (Hm Hmode)].
  - apply wp_ret, HQ. constructor; unfold bufs_blocks; cbn [pad_p meta_p pad]; try done.
    + rewrite !filter_cons. rewrite (decide_False (P := 0 <> 0)) by tauto.
      destruct (decide (pp <> 0)); [apply NoDup_singleton|constructor].
    + intros p Hp. rewrite !elem_of_cons, elem_of_nil in Hp.
      destruct Hp as [->|[->|[]]]; [|done]. destruct Hpp as [[-> _]|(_ & ? & _)]; done.
    + rewrite !filter_cons. rewrite (decide_False (P := 0 <> 0)) by tauto.
      destruct Hpp as [[-> ->]|(Hp & _ & ->)];
        [rewrite decide_False by tauto|rewrite decide_True by done]; cbn; set_solver.
  - eapply wp_bind, (wp_buf_alloc spdk dev Halloc); [done|lia| |].
    + intros s2 Hwf2 Hl2 Hw2 _. cbn. apply wp_bind. destruct leaky.
      * apply wp_ret. apply HE; [done|right; split; done|cbn; congruence|done..].
      * eapply (wp_buf_free spdk dev Halloc); [done|rewrite Hl2; destruct Hpp as [[-> _]|(_ & _ & ->)]; set_solver|].
        intros s3 Hwf3 Hl3 Hw3 _. apply HE; [done| |cbn; congruence|done..]. left.
        change (live s3 = live s). rewrite Hl3, Hl2.
        destruct Hpp as [[-> ->]|(Hp & Hf & ->)]; set_solver.
    + intros m s2 Hm0 Hf2 Hwf2 Hl2 Hw2 _. rewrite (proj2 (Z.eqb_neq m 0)) by done.
      destruct (meta_content_some (nvm_dev_get_meta_mode dev) metan ltac:(lia)) as [c Hc].
      rewrite Hc. apply wp_bind, (wp_intro _ _ c s2); [done|]. apply wp_ret, HQ.
      assert (Hmp : m <> pp /\ m ∉ live s).
      { destruct Hpp as [[-> E]|(Hp & Hf & E)]; rewrite E in Hf2; set_solver. }
      constructor; unfold bufs_blocks; cbn [pad_p meta_p pad]; try done; [congruence| | |].
      * rewrite !filter_cons, (decide_True (P := m <> 0)) by done. cbn.
        destruct (decide (pp <> 0)); [|apply NoDup_singleton].
        apply NoDup_cons. split; [|apply NoDup_singleton]. rewrite list_elem_of_singleton. naive_solver.
      * intros p Hp. rewrite !elem_of_cons, elem_of_nil in Hp.
        destruct Hp as [->|[->|[]]]; [|tauto]. destruct Hpp as [[-> _]|(_ & ? & _)]; done.
      * rewrite !filter_cons, (decide_True (P := m <> 0)) by done. rewrite Hl2.
        destruct Hpp as [[-> ->]|(Hp & _ & ->)];
          [rewrite decide_False by tauto|rewrite decide_True by done]; cbn; set_solver.
Qed.

Lemma wp_write_bufs {I} leaky buf padn metan s (Q : write_bufs + Z -> sys W -> Prop) :
  (nvm_dev_get_meta_mode dev <> NVM_META_MODE_NONE -> 0 < metan) ->
  (buf = None -> 0 < padn) -> good I s ->
  (forall b s', bufs_ok I buf padn s b s' -> Q (inl b) s') ->
  (forall s', good I s' -> (live s' = live s \/ leaky = true /\ buf = None) ->
     world s' = world s -> errno s' = ENOMEM ->
     buf = None \/ nvm_dev_get_meta_mode dev <> NVM_META_MODE_NONE -> Q (inr (-1)) s') ->
  wp (write_bufs_alloc spdk dev leaky buf padn metan) s Q.
Proof.
  intros Hm Hp Hwf HQ HE. unfold write_bufs_alloc. apply wp_bind. destruct buf as [l|].
  - apply wp_ret. cbn. eapply (wp_meta_alloc _ (Some l) padn _ _ _ s); try done; [by left|].
    intros s' H1 H2 H3 H4 H5. apply HE; [done| |done|done|by right]. left. destruct H2 as [?|[_ ?]]; done.
  - specialize (Hp eq_refl). eapply wp_bind, (wp_buf_alloc spdk dev Halloc); [done|lia| |].
    + intros s1 Hwf1 Hl1 Hw1 _. cbn. apply HE; [done|left; exact Hl1|exact Hw1|done|by left].
    + intros p s1 Hp0 Hf1 Hwf1 Hl1 Hw1 _. rewrite (proj2 (Z.eqb_neq p 0)) by done.
      rewrite buf_fill_fresh by lia. apply wp_bind, (wp_intro _ _ (pattern padn) s1); [done|].
      apply wp_ret. cbn. eapply (wp_meta_alloc _ None padn _ _ _ s); try done; [by right|].
      intros s' H1 H2 H3 H4 H5. apply HE; [done| |done|done|by left]. destruct H2 as [?|[-> ?]]; [by left|by right].
Qed.

(** The buffers are released; the blocks [M] of others stay. *)
Lemma wp_write_done_held {I} M b count nerr buf padn s s1 s2 (Q : Z -> sys W -> Prop) :
  good I s -> bufs_ok I buf padn s b s1 -> good I s2 -> live s2 = M ∪ live s1 -> M ## live s1 ->
  (forall s', good I s' -> live s' = M ∪ live s -> world s' = world s2 ->
     if nerr =? 0 then Q count s' else Q (-1) (Sys EIO (hp s') (world s'))) ->
  wp (write_done spdk dev b count nerr) s2 Q.
Proof.
  intros Hwf [H1 H2 H3 H4 H5 H6] Hwf2 Hl2 HM HQ.
  assert (E : write_done spdk dev b count nerr s2 =
    (free_all [pad_p b; meta_p b] ≫= fun _ => if nerr =? 0 then mret count else fail EIO (-1)) s2).
  { unfold write_done, free_all. cbn. unfold mbind, M_bind. destruct Halloc as [_ Hfree].
    rewrite Hfree. destruct (free (pad_p b) s2) as [[? ?]|]; [|done].
    rewrite Hfree. by destruct (free (meta_p b) _) as [[[] ?]|]. }
  pose proof (live_not_0 _ Hwf2) as H0. rewrite Hl2 in H0.
  unfold wp. rewrite E. apply wp_bind. eapply (wp_free_all _ (M ∪ live s)); [done|done| | |].
  - intros p Hp [HpM|HpL]%elem_of_union; [|by apply (H4 p)]. apply (HM p HpM). rewrite H5.
    apply elem_of_union_l, elem_of_list_to_set. unfold bufs_blocks. apply list_elem_of_filter.
    split; [|done]. intros ->. apply H0, elem_of_union. by left.
  - rewrite Hl2, H5. unfold bufs_blocks. set_solver +.
  - intros s' Hwf' Hl' Hw' _. specialize (HQ s' Hwf' Hl' Hw'). by destruct (nerr =? 0).
Qed.

Lemma wp_write_done {I} b count nerr buf padn s s1 s2 (Q : Z -> sys W -> Prop) :
  good I s -> bufs_ok I buf padn s b s1 -> good I s2 -> live s2 = live s1 ->
  (forall s', good I s' -> live s' = live s -> world s' = world s2 ->
     if nerr =? 0 then Q count s' else Q (-1) (Sys EIO (hp s') (world s'))) ->
  wp (write_done spdk dev b count nerr) s2 Q.
Proof.
  intros Hwf Hb Hwf2 Hl2 HQ. eapply (wp_write_done_held ∅); [exact Hwf|exact Hb|exact Hwf2| |set_solver +|].
  - by rewrite union_empty_l_L.
  - intros s'. rewrite union_empty_l_L. apply HQ.
Qed.
End bufs.

(** ** Commands on one write unit *)

(** The options of [v] are ones the device completes commands with, in vector
    commands of [n] addresses or in scalar ones. *)
Definition vblk_served {W} {be : nvm_be W} (dev : nvm_dev) `{!Media be dev} (v : nvm_vblk) (n : Z) : Prop :=
  mflags (vflags v) /\
  (vblk_mode dev v = NVM_CMD_VECTOR /\ mvector n \/ vblk_mode dev v = NVM_CMD_SCALAR).

Lemma served_mode {W} {be : nvm_be W} (dev : nvm_dev) `{!Media be dev} (v : nvm_vblk) (n : Z) :
  vblk_served dev v n -> vblk_mode dev v = NVM_CMD_VECTOR \/ vblk_mode dev v = NVM_CMD_SCALAR.
Proof. intros [_ [[? _]|?]]; tauto. Qed.


Section cmds.
Context {W : Type} (spdk : spdk_env W) (be : nvm_be W) (dev : nvm_dev) `{!Media be dev}.
Context (v : nvm_vblk) (ws : Z) (Hv : vblk20_ok dev v ws).
Context (Hdom : on_device dev v ws mdom).
Context (Hmode : vblk_served (be := be) dev v ws).
Implicit Types s : sys W.
#[local] Abbreviation nb := (nbytes (geo dev)).

Lemma cmd_write_ok addrs n data meta flags ret s r s' :
  (cmd_addr_opt dev flags = NVM_CMD_VECTOR \/ cmd_addr_opt dev flags = NVM_CMD_SCALAR) ->
  nvm_cmd_write be dev addrs n data meta flags ret s = Some (r, s') -> Reliable be dev -> r.1 = 0.
Proof.
  unfold nvm_cmd_write. intros [-> | ->]; cbn; intros E HR; [by eapply vector_write_ok|].
  unfold mbind, M_bind, first_addr, lift in E. destruct (addrs !! 0%nat); [|done].
  by eapply scalar_write_ok.
Qed.

Lemma wp_write_unit x data meta ret s : good mok s -> 0 <= x -> (ws | x) ->
  x + ws <= lin_size dev v -> ws * nb <= Z.of_nat (length data) ->
  wp (nvm_cmd_write be dev (lin_run v ws x ws) (i32 ws) (Some data) meta (u16 (vflags v)) ret) s
    (fun r s' => write_post mok mdom media nb (lin_run v ws x ws) data s r.1 s' /\
       (Reliable be dev -> r.1 = 0)).
Proof.
  intros Hwf Hx Hd Hs Hl. apply wp_strengthen.
  2: { intros r s'. apply cmd_write_ok. rewrite (vblk_flags_id _ _ _ Hv). apply (served_mode _ _ _ Hmode). } pose proof (vo_ws_range _ _ _ Hv) as Hw.
  rewrite i32_id, (vblk_flags_id _ _ _ Hv) by lia.
  destruct Hmode as [Hf Hm]. unfold nvm_cmd_write. fold (vblk_mode dev v). destruct Hm as [[-> Hn] | ->]; cbn.
  - pose proof (vector_write_law (lin_run v ws x ws) data meta (vflags v) ret s) as L.
    rewrite lin_run_len in L by lia. apply L; [done..|by apply (lin_run_dom dev v ws)|by eapply lin_run_NoDup|lia|done].
  - unfold first_addr. pose proof (lin_run_lookup v ws x ws 0 ltac:(lia)) as H0.
    rewrite Z.add_0_r in H0. change (Z.to_nat 0) with 0%nat in H0. rewrite H0.
    apply wp_bind, (wp_intro _ _ (lin20 v ws x) s); [done|].
    rewrite <-(lin_run_unit dev v ws Hv x) by done.
    apply scalar_write_law; [done|done|rewrite (lin_run_unit dev v ws Hv x) by done; by apply (lin_run_dom dev v ws)|lia| |done].
    by apply (lin_run_sectr dev v ws Hv x).
Qed.

(** The data each command finds: [src i] is sector [i] of the request. *)
Definition source_ok (buf : mem) (b : write_bufs) (bgn n : Z) (src : Z -> list Z) : Prop :=
  forall k, 0 <= k -> (k + 1) * ws <= n -> exists d,
    match pad b with Some _ => pad b | None => mem_add buf (k * ws * nb) end = Some d /\
    ws * nb <= Z.of_nat (length d) /\
    forall i, 0 <= i < ws -> sector nb d i = src (k * ws + i).

Lemma wp_pwrite_cmd bgn units buf b src s0 k nerr s :
  0 <= bgn -> (ws | bgn) -> bgn + units * ws <= lin_size dev v ->
  source_ok buf b bgn (units * ws) src -> 0 <= k < units ->
  written mok mdom media (Reliable be dev) (lin20 v ws) bgn src s0 k (k * ws) nerr s ->
  wp (pwrite_s20_cmd be dev v ws bgn buf b (bgn + k * ws) nerr) s
    (written mok mdom media (Reliable be dev) (lin20 v ws) bgn src s0 (k + 1) ((k + 1) * ws)).
Proof.
  intros Hb Hdb Hs Hsrc Hk Hwr. pose proof Hwr as (Hwf & _).
  pose proof (vo_ws_range _ _ _ Hv) as Hw. destruct (lin_size_range dev v ws Hv) as (_ & Hls & _).
  unfold pwrite_s20_cmd. replace (bgn + k * ws - bgn) with (k * ws) by lia.
  destruct (Hsrc k ltac:(lia) ltac:(nia)) as (d & -> & Hld & Hd).
  rewrite (stripe_addrs dev v ws Hv) by nia.
  apply wp_bind, (wp_intro _ _ (lin_run v ws (bgn + k * ws) ws) s); [done|]. apply wp_bind.
  eapply wp_mono.
  { apply wp_write_unit; [done|nia| |nia|done].
    apply Z.divide_add_r; [done|apply Z.divide_factor_r]. }
  intros [err r] s' [Hpost Hr]. apply wp_ret. replace ((k + 1) * ws) with (k * ws + ws) by lia.
  eapply written_step; [exact Hwr|nia|lia|nia|intros i Hi; apply Hdom; nia| |exact Hd|exact Hpost|exact Hr].
  intros i j Hi Hj. apply (lin_inj dev v ws Hv); nia.
Qed.

Lemma wp_pwrite_loop bgn units buf b src s0 (Q : Z -> sys W -> Prop) :
  good mok s0 -> 0 <= bgn -> (ws | bgn) -> 0 < units -> bgn + units * ws <= lin_size dev v ->
  source_ok buf b bgn (units * ws) src ->
  (forall nerr s, written mok mdom media (Reliable be dev) (lin20 v ws) bgn src s0 units (units * ws) nerr s ->
     Q nerr s) ->
  wp (ofzs ← lift (sectr_range bgn (sectr_stop bgn (units * ws)) ws);
      mfold (pwrite_s20_cmd be dev v ws bgn buf b) ofzs 0) s0 Q.
Proof.
  intros Hwf Hb Hdb Hu Hs Hsrc HQ. pose proof (vo_ws_range _ _ _ Hv) as Hw.
  destruct (lin_size_range dev v ws Hv) as (_ & Hls & _).
  unfold sectr_range, sectr_stop. rewrite wrap_id by nia.
  replace (bgn + units * ws - 1 + 1) with (bgn + units * ws) by lia.
  rewrite trips_mul, range_le_steps;
    [|lia|lia|nia|replace (bgn + units * ws - 1 + 1) with (bgn + units * ws) by lia;
      rewrite trips_mul by lia; lia|lia|lia].
  replace (bgn + units * ws - 1 + 1) with (bgn + units * ws) by lia. rewrite trips_mul by lia.
  apply wp_bind, (wp_intro _ _ (steps bgn ws (Z.to_nat units)) s0); [done|].
  apply (wp_mfold_steps _
    (fun k => written mok mdom media (Reliable be dev) (lin20 v ws) bgn src s0 k (k * ws))).
  - by apply written_0.
  - intros k nerr s Hk Hwr. eapply wp_pwrite_cmd; done || lia.
  - intros nerr s Hwr. apply HQ. by replace units with (Z.of_nat (Z.to_nat units)) by lia.
Qed.
End cmds.

(** ** Whole writes *)

Section pwrite.
Context {W : Type} (spdk : spdk_env W) (be : nvm_be W) (dev : nvm_dev) `{!Media be dev}.
Context (v : nvm_vblk) (ws : Z) (Hv : vblk20_ok dev v ws).
Context (Hdom : on_device dev v ws mdom).
Context (Hmode : vblk_served (be := be) dev v ws).
Context (Halloc : alloc_ok spdk dev).
Implicit Types s : sys W.
#[local] Abbreviation nb := (nbytes (geo dev)).

(** The bytes of the padding buffer of a request. *)
Definition pad_bytes (count : Z) : Z := ws * (count / nb) * nb.

(** Sector [i] of what a request writes: the caller's, or with no buffer the
    pattern, which starts over with every write unit. *)
Definition request_src (buf : mem) (count i : Z) : list Z :=
  match buf with
  | Some l => sector nb l i
  | None => sector nb (pattern (pad_bytes count)) (i mod ws)
  end.

(** A request the loop can serve: whole write units, some, inside the range,
    from a buffer that holds them. *)
Record request_ok (buf : mem) (count offset : Z) : Prop := {
  rq_count : 0 < count / nb;
  rq_offset : 0 <= offset;
  rq_units : (ws | count / nb);
  rq_bgn : (ws | offset / nb);
  rq_bound : offset / nb + count / nb <= lin_size dev v;
  rq_buf : match buf with
    | Some l => count / nb * nb <= Z.of_nat (length l)
    | None => pad_bytes count < 2 ^ 64
    end;
  rq_meta : nvm_dev_get_meta_mode dev <> NVM_META_MODE_NONE ->
    0 < ws * nbytes_oob (geo dev) < 2 ^ 64 }.

Lemma source_request {I : W -> Prop} buf count offset b s s1 units : request_ok buf count offset ->
  count / nb = units * ws -> bufs_ok I buf (pad_bytes count) s b s1 ->
  source_ok dev ws buf b (offset / nb) (units * ws) (request_src buf count).
Proof.
  intros [R1 R2 R3 R4 R5 R6 R7] Hu Hb k Hk1 Hk2. rewrite (bo_pad _ _ _ _ _ _ Hb).
  pose proof (vo_ws_range _ _ _ Hv) as Hw. pose proof (vo_nb _ _ _ Hv) as Hnb.
  destruct buf as [l|]; cbn.
  - eexists. split; [reflexivity|]. split.
    + rewrite length_drop. nia.
    + intros i Hi. rewrite sector_shift; [done|lia|nia|lia].
  - eexists. split; [reflexivity|]. split.
    + rewrite pattern_len; unfold pad_bytes; nia.
    + intros i Hi. rewrite (Z.add_comm (k * ws) i), Z.mod_add, Z.mod_small by lia. done.
Qed.

(** The prologue: everything up to the buffers. *)
Lemma pwrite_prologue buf count offset s : 0 <= count -> 0 <= offset ->
  count / nb < 2 ^ 62 ->
  vblk_sync_pwrite_s20 spdk be dev v buf count offset s =
    (if negb (count / nb mod ws =? 0) then fail EINVAL (-1)
     else if negb (offset / nb mod ws =? 0) then fail EINVAL (-1)
     else
       r ← write_bufs_alloc spdk dev false buf (u64 (u64 (ws * (count / nb)) * nb))
             (u64 (ws * nbytes_oob (geo dev)));
       match r with
       | inr e => mret e
       | inl b =>
           nerr ← (ofzs ← lift (sectr_range (offset / nb) (sectr_stop (offset / nb) (count / nb)) ws);
                   mfold (pwrite_s20_cmd be dev v ws (offset / nb) buf b) ofzs 0);
           write_done spdk dev b count nerr
       end) s.
Proof.
  intros Hc Ho Hs. pose proof (vo_ws_range _ _ _ Hv) as Hw. pose proof (vo_nb _ _ _ Hv) as Hnb.
  unfold vblk_sync_pwrite_s20. unfold mbind at 1, M_bind at 1.
  rewrite (ws_get dev v ws Hv). rewrite (wrap_id 32) by lia. cbn zeta.
  unfold zdiv. rewrite (proj2 (Z.eqb_neq nb 0)) by lia.
  unfold mbind at 1, M_bind at 1. cbn [lift]. unfold mbind at 1, M_bind at 1. cbn [lift].
  unfold s20_nthreads, zdiv. rewrite (proj2 (Z.eqb_neq ws 0)) by lia. cbn.
  unfold mbind at 1, M_bind at 1. cbn [lift].
  destruct (_ mod ws =? 0); cbn; [|done]. destruct (_ mod ws =? 0); cbn; [|done].
  unfold mbind, M_bind. destruct (write_bufs_alloc _ _ _ _ _ _ s) as [[[b|e] s1]|]; [|done..].
  by destruct (lift _ s1) as [[ofzs s2]|].
Qed.

Lemma wp_pwrite buf count offset s (Q : Z -> sys W -> Prop) :
  0 <= count -> good mok s -> request_ok buf count offset ->
  (forall r s', good mok s' -> live s' = live s ->
     (forall a, mdom a -> a ∉ lin_run v ws (offset / nb) (count / nb) ->
        media (world s') a = media (world s) a) ->
     (r = count /\ (forall i, 0 <= i < count / nb ->
        media (world s') (lin20 v ws (offset / nb + i)) = request_src buf count i)) \/
     (r = -1 /\ (errno s' = EIO /\ ~ Reliable be dev \/
        errno s' = ENOMEM /\ (buf = None \/ nvm_dev_get_meta_mode dev <> NVM_META_MODE_NONE))) ->
     Q r s') ->
  wp (vblk_sync_pwrite_s20 spdk be dev v buf count offset) s Q.
Proof.
  intros Hc Hwf Hr HQ. pose proof Hr as [R1 R2 [units Hu] [k Hk] R5 R6 R7].
  pose proof (vo_ws_range _ _ _ Hv) as Hw. pose proof (vo_nb _ _ _ Hv) as Hnb.
  destruct (lin_size_range dev v ws Hv) as (_ & Hls & _).
  assert (0 <= offset / nb) by (apply Z.div_pos; lia).
  assert (E1 : (count / nb) mod ws = 0) by (rewrite Hu; apply Z.mod_mul; lia).
  assert (E2 : (offset / nb) mod ws = 0) by (rewrite Hk; apply Z.mod_mul; lia).
  eapply wp_ext; [apply pwrite_prologue; lia|]. rewrite E1, E2. cbn [negb Z.eqb].
  apply wp_bind. eapply (wp_write_bufs spdk dev Halloc); [|intros ->|done| |].
  - intros Hm. specialize (R7 Hm). rewrite wrap_id; lia.
  - unfold pad_bytes in R6. rewrite (wrap_id 64 (ws * _)), wrap_id by nia. nia.
  - intros b s1 Hb. apply wp_bind.
    assert (Hb' : bufs_ok mok buf (pad_bytes count) s b s1).
    { destruct Hb. constructor; try done. destruct buf; [done|].
      unfold pad_bytes in *. by rewrite (wrap_id 64 (ws * _)), wrap_id in bo_pad0 by nia. }
    rewrite Hu. eapply (wp_pwrite_loop be dev v ws Hv Hdom Hmode _ units buf b (request_src buf count) s1);
      [apply Hb|done|by exists k|nia|lia|by eapply source_request|].
    intros nerr s2 (Hwf2 & Hl2 & [Hn Hrel] & Hfr & Hd).
    eapply (wp_write_done spdk dev Halloc); [exact Hwf|exact Hb|done|done|].
    intros s3 Hwf3 Hl3 Hw3. rewrite (bo_world _ _ _ _ _ _ Hb) in Hfr. rewrite <-Hu in *.
    destruct (Z.eqb_spec nerr 0) as [->|].
    + apply HQ; [done|done|by rewrite Hw3|]. left. split; [done|]. rewrite Hw3. by apply Hd.
    + apply HQ; [done|done|cbn; by rewrite Hw3|]. right. split; [done|]. left.
      split; [done|]. intros HR. by apply Hrel in HR.
  - intros s' Hwf' [Hl'|[? _]] Hw' He Hwhy; [|done]. apply wp_ret, HQ; [done|done|by rewrite Hw'|].
    right. split; [done|by right].
Qed.

(** A request that is not in whole write units. *)
Lemma pwrite_refused buf count offset s : 0 <= count < 2 ^ 62 -> 0 <= offset ->
  ~ (ws | count / nb) \/ ~ (ws | offset / nb) ->
  vblk_sync_pwrite_s20 spdk be dev v buf count offset s = Some (-1, Sys EINVAL (hp s) (world s)).
Proof.
  intros Hc Ho Hmis. pose proof (vo_ws_range _ _ _ Hv). pose proof (vo_nb _ _ _ Hv).
  assert (count / nb <= count) by (apply Z.div_le_upper_bound; nia).
  rewrite pwrite_prologue by lia. destruct (Z.eqb_spec ((count / nb) mod ws) 0) as [E1|]; [|done].
  destruct (Z.eqb_spec ((offset / nb) mod ws) 0) as [E2|]; [|done]. apply Z.mod_divide in E1, E2; [|lia..]. tauto.
Qed.
End pwrite.

(** ** Properties *)


Lemma tiny_vblk_ok : vblk20_ok tiny20 tiny_vblk 2.
Proof.
  split; try done; [apply tiny_members|by exists 4].
Qed.

#[export] Instance tiny_media : Media (ram_be tiny20) tiny20 := ram_media tiny20 (TCEq_refl _).

Lemma tiny_on_device v : on_device tiny20 v 2 (mdom (Media := tiny_media)).
Proof. done. Qed.

Lemma tiny_alloc : alloc_ok (W := gmap nvm_addr (list Z)) spdk_stub tiny20.
Proof. apply virt_alloc_ok. by left. Qed.

Lemma tiny_request : request_ok tiny20 tiny_vblk 2 (Some [10; 11; 12; 13; 14; 15; 16; 17]) 8 4.
Proof. split; try done; by exists 2. Qed.

