(* ===== verification/VblkRead.v ===== *)
(** Correctness of synchronous reads of 2.0 virtual blocks, and what was
    written being read back. *)
From stdpp Require Import base numbers strings gmap option list.
From S2P Require Import Prelude Types Nvme Addr Dev Backend Buf Cmd Vblk Stripe Media Linear VblkIO.

(** ** Flags *)

Lemma land_sub x m k : Z.land m k = k -> Z.land x k = Z.land (Z.land x m) k.
Proof. intros E. by rewrite <-Z.land_assoc, E. Qed.

Lemma vector_not_scalar dev v : vblk_mode dev v = NVM_CMD_VECTOR -> has_flag v NVM_CMD_SCALAR = false.
Proof.
  unfold vblk_mode, cmd_addr_opt, has_flag. intros E.
  rewrite (land_sub _ NVM_CMD_MASK_ADDR) by done.
  destruct (Z.eqb_spec (Z.land (vflags v) NVM_CMD_MASK_ADDR) 0) as [-> | _]; [done|by rewrite E].
Qed.

Lemma scalar_not_vector dev v : vblk_mode dev v = NVM_CMD_SCALAR -> has_flag v NVM_CMD_VECTOR = false.
Proof.
  unfold vblk_mode, cmd_addr_opt, has_flag. intros E.
  rewrite (land_sub _ NVM_CMD_MASK_ADDR) by done.
  destruct (Z.eqb_spec (Z.land (vflags v) NVM_CMD_MASK_ADDR) 0) as [-> | _]; [done|by rewrite E].
Qed.

(** The sectors one command reads. *)
Definition read_unit (v : nvm_vblk) (ws : Z) : Z :=
  if has_flag v NVM_CMD_VECTOR then NVM_NADDR_MAX else ws.

(** ** Commands *)

Section cmds.
Context {W : Type} (spdk : spdk_env W) (be : nvm_be W) (dev : nvm_dev) `{!Media be dev}.
Context (v : nvm_vblk) (ws : Z) (Hv : vblk20_ok dev v ws).
Context (Hdom : on_device dev v ws mdom).
Context (Hmode : vblk_served (be := be) dev v (read_unit v ws)).
Implicit Types s : sys W.
#[local] Abbreviation nb := (nbytes (geo dev)).
#[local] Abbreviation cn := (read_unit v ws).

Lemma read_unit_range : 0 < cn < 2 ^ 31.
Proof.
  unfold read_unit. pose proof (vo_ws_range _ _ _ Hv).
  destruct (has_flag _ _); unfold NVM_NADDR_MAX; lia.
Qed.

Lemma cmd_read_ok addrs n data meta flags ret s r s' :
  (cmd_addr_opt dev flags = NVM_CMD_VECTOR \/ cmd_addr_opt dev flags = NVM_CMD_SCALAR) ->
  nvm_cmd_read be dev addrs n data meta flags ret s = Some (r, s') -> Reliable be dev -> rc r = 0.
Proof.
  unfold nvm_cmd_read. intros [-> | ->]; cbn; intros E HR; [by eapply vector_read_ok|].
  unfold mbind, M_bind, first_addr, lift in E. destruct (addrs !! 0%nat); [|done].
  by eapply scalar_read_ok.
Qed.

(** Linear sectors [x, x + cn), where the loop's commands begin. *)
Lemma wp_read_unit x data s (Q : io_res -> sys W -> Prop) : good mok s -> 0 <= x ->
  (vblk_mode dev v = NVM_CMD_SCALAR -> (ws | x)) ->
  x + cn <= lin_size dev v -> cn * nb <= Z.of_nat (length data) ->
  (forall r s', read_post mok mdom media nb (lin_run v ws x cn) data s r s' ->
     (Reliable be dev -> rc r = 0) -> Q r s') ->
  wp (addrs ← lift (pread_addrs v ws cn x);
      nvm_cmd_read be dev addrs (i32 cn) (Some data) None (u16 (vflags v)) None) s Q.
Proof.
  intros Hwf Hx Hd Hs Hl HQ. pose proof read_unit_range as Hc. pose proof (vo_ws_range _ _ _ Hv) as Hw.
  rewrite i32_id, (vblk_flags_id _ _ _ Hv) by lia. apply wp_bind. unfold pread_addrs.
  destruct Hmode as [Hf [[Hm Hn]|Hm]].
  - rewrite (vector_not_scalar _ _ Hm), (stripe_addrs dev v ws Hv) by lia.
    eapply (wp_intro _ _ _ s); [done|]. cbn beta.
    eapply wp_mono; [apply wp_strengthen; [|intros r s' E; exact (cmd_read_ok _ _ _ _ _ _ _ _ _ (or_introl Hm) E)]|
      intros r s' [HP HR]; by apply HQ].
    unfold nvm_cmd_read. fold (vblk_mode dev v). rewrite Hm. cbn.
    pose proof (vector_read_law (lin_run v ws x cn) data (vflags v) None s) as L.
    rewrite lin_run_len in L by lia. apply L; [done..|by apply (lin_run_dom dev v ws)|lia|done].
  - specialize (Hd Hm). set (n := if has_flag v NVM_CMD_SCALAR then Z.min 1 cn else cn).
    assert (Hn : 0 < n <= cn) by (unfold n; destruct (has_flag _ _); lia).
    rewrite (stripe_addrs dev v ws Hv) by lia.
    eapply (wp_intro _ _ _ s); [done|]. cbn beta.
    eapply wp_mono; [apply wp_strengthen; [|intros r s' E; exact (cmd_read_ok _ _ _ _ _ _ _ _ _ (or_intror Hm) E)]|
      intros r s' [HP HR]; by apply HQ].
    unfold nvm_cmd_read. fold (vblk_mode dev v). rewrite Hm. cbn.
    pose proof (lin_run_lookup v ws x n 0 ltac:(lia)) as H0.
    rewrite Z.add_0_r in H0. change (Z.to_nat 0) with 0%nat in H0. unfold first_addr. rewrite H0.
    apply wp_bind, (wp_intro _ _ (lin20 v ws x) s); [done|].
    assert (Ec : cn = ws) by (unfold read_unit; by rewrite (scalar_not_vector _ _ Hm)).
    rewrite Ec in *. rewrite <-(lin_run_unit dev v ws Hv x) by done.
    apply scalar_read_law; [done|done|rewrite (lin_run_unit dev v ws Hv x) by done; apply (lin_run_dom dev v ws); [done|lia|lia]|lia| |done].
    by apply (lin_run_sectr dev v ws Hv x).
Qed.

Lemma wp_pread_cmd bgn units l0 s0 k acc s :
  0 <= bgn -> (ws | bgn) -> bgn + units * cn <= lin_size dev v ->
  units * cn * nb <= Z.of_nat (length l0) -> 0 <= k < units ->
  fetched mok mdom media nb (Reliable be dev) (lin20 v ws) bgn l0 s0 k (k * cn) acc s ->
  wp (pread_s20_cmd be dev v ws cn bgn (bgn + k * cn) acc) s
    (fetched mok mdom media nb (Reliable be dev) (lin20 v ws) bgn l0 s0 (k + 1) ((k + 1) * cn)).
Proof.
  intros Hb Hdb Hs Hl Hk Hf. pose proof Hf as (Hwf & _ & _ & _ & l & El & Hll & _).
  destruct acc as [nerr buf]. cbn [snd] in El. subst buf. pose proof read_unit_range as Hc.
  pose proof (vo_nb _ _ _ Hv) as Hnb. destruct (lin_size_range dev v ws Hv) as (_ & Hls & _).
  unfold pread_s20_cmd. replace (bgn + k * cn - bgn) with (k * cn) by lia. cbn [mem_add].
  eapply wp_ext with (m' := (r ← (addrs ← lift (pread_addrs v ws cn (bgn + k * cn));
    nvm_cmd_read be dev addrs (i32 cn) (Some (drop (Z.to_nat (k * cn * nb)) l)) None (u16 (vflags v)) None);
    mret (if rc r =? 0 then nerr else u64 (nerr + 1), mem_splice (Some l) (k * cn * nb) (io_data r)))).
  { unfold mbind, M_bind. by destruct (lift _ s) as [[? ?]|]. }
  apply wp_bind. apply wp_read_unit; [done|nia| |nia|rewrite length_drop; nia|].
  { intros Hm. apply Z.divide_add_r; [done|]. unfold read_unit.
    rewrite (scalar_not_vector _ _ Hm). apply Z.divide_factor_r. }
  intros r s' Hpost HR. apply wp_ret. replace ((k + 1) * cn) with (k * cn + cn) by lia.
  eapply fetched_step; [lia|exact Hf|nia|lia|nia|intros i Hi; apply Hdom; nia|nia|exact Hpost|exact HR].
Qed.

(** [n] sectors in commands of [cn], the last one reaching past them. *)
Lemma wp_pread_loop bgn n units l s0 (Q : Z * mem -> sys W -> Prop) :
  good mok s0 -> 0 <= bgn -> (ws | bgn) -> 0 < n -> units = (n + cn - 1) / cn -> bgn + units * cn <= lin_size dev v ->
  units * cn * nb <= Z.of_nat (length l) ->
  (forall acc s, fetched mok mdom media nb (Reliable be dev) (lin20 v ws) bgn l s0 units (units * cn) acc s ->
     Q acc s) ->
  wp (ofzs ← lift (sectr_range bgn (sectr_stop bgn n) cn);
      mfold (pread_s20_cmd be dev v ws cn bgn) ofzs (0, Some l)) s0 Q.
Proof.
  intros Hwf Hb Hdb Hn Eu Hs Hl HQ. pose proof read_unit_range as Hc.
  destruct (lin_size_range dev v ws Hv) as (_ & Hls & _).
  pose proof (Z.mul_div_le (n + cn - 1) cn ltac:(lia)). pose proof (Z.mul_succ_div_gt (n + cn - 1) cn ltac:(lia)).
  rewrite <-Eu in *. assert (Hu : 0 < units) by nia.
  unfold sectr_range, sectr_stop. rewrite wrap_id by nia.
  assert (Et : trips bgn (bgn + n - 1 + 1) cn = Z.to_nat units).
  { unfold trips. rewrite Eu. do 2 f_equal. lia. }
  rewrite range_le_steps, Et by (rewrite ?Et; lia).
  apply wp_bind, (wp_intro _ _ (steps bgn cn (Z.to_nat units)) s0); [done|].
  apply (wp_mfold_steps _
    (fun k => fetched mok mdom media nb (Reliable be dev) (lin20 v ws) bgn l s0 k (k * cn))).
  - by apply fetched_0.
  - intros k acc s Hk Hf. eapply wp_pread_cmd; done || lia.
  - intros acc s Hf. apply HQ. by replace units with (Z.of_nat (Z.to_nat units)) by lia.
Qed.

(** The prologue. *)
Lemma pread_prologue buf count offset s :
  vblk_sync_pread_s20 be dev v buf count offset s =
    (if negb (count / nb mod ws =? 0) then fail EINVAL (-1, buf)
     else if negb (offset / nb mod ws =? 0) then fail EINVAL (-1, buf)
     else
       '(nerr, buf) ← (ofzs ← lift (sectr_range (offset / nb) (sectr_stop (offset / nb) (count / nb)) cn);
                       mfold (pread_s20_cmd be dev v ws cn (offset / nb)) ofzs (0, buf));
       read_done nerr count buf) s.
Proof.
  pose proof (vo_ws_range _ _ _ Hv) as Hw. pose proof (vo_nb _ _ _ Hv) as Hnb.
  unfold vblk_sync_pread_s20. unfold mbind at 1, M_bind at 1.
  rewrite (ws_get dev v ws Hv). rewrite (wrap_id 32) by lia. cbn zeta. fold cn.
  unfold zdiv. rewrite (proj2 (Z.eqb_neq nb 0)) by lia.
  unfold mbind at 1, M_bind at 1. cbn [lift]. unfold mbind at 1, M_bind at 1. cbn [lift].
  unfold s20_nthreads, zdiv. rewrite (proj2 (Z.eqb_neq ws 0)) by lia. cbn.
  unfold mbind at 1, M_bind at 1. cbn [lift].
  destruct (_ mod ws =? 0); cbn; [|done]. destruct (_ mod ws =? 0); cbn; [|done].
  unfold mbind, M_bind. by destruct (lift _ s) as [[ofzs s2]|].
Qed.

(** A request that is not in whole write units. *)
Lemma pread_refused buf count offset s : ~ (ws | count / nb) \/ ~ (ws | offset / nb) ->
  vblk_sync_pread_s20 be dev v buf count offset s = Some (-1, buf, Sys EINVAL (hp s) (world s)).
Proof.
  intros Hmis. pose proof (vo_ws_range _ _ _ Hv). rewrite pread_prologue.
  destruct (Z.eqb_spec ((count / nb) mod ws) 0) as [E1|]; [|done].
  destruct (Z.eqb_spec ((offset / nb) mod ws) 0) as [E2|]; [|done]. apply Z.mod_divide in E1, E2; [|lia..]. tauto.
Qed.
End cmds.

(** ** Whole reads *)

(** The sectors the commands of a read of [n] sectors transfer. *)
Definition read_span (v : nvm_vblk) (ws n : Z) : Z := (n + read_unit v ws - 1) / read_unit v ws * read_unit v ws.

(** A read the loop serves: whole write units, some, the sectors its commands
    transfer being in the range and having room in the buffer. *)
Record read_ok (dev : nvm_dev) (v : nvm_vblk) (ws : Z) (l : list Z) (count offset : Z) : Prop := {
  rd_count : 0 < count / nbytes (geo dev);
  rd_offset : 0 <= offset;
  rd_units : (ws | count / nbytes (geo dev));
  rd_bgn : (ws | offset / nbytes (geo dev));
  rd_bound : offset / nbytes (geo dev) + read_span v ws (count / nbytes (geo dev)) <= lin_size dev v;
  rd_buf : read_span v ws (count / nbytes (geo dev)) * nbytes (geo dev) <= Z.of_nat (length l) }.

(** Less than one command more than was asked; nothing more for whole
    commands. *)
Lemma read_span_range v ws n : 0 < read_unit v ws -> n <= read_span v ws n < n + read_unit v ws.
Proof.
  intros Hc. unfold read_span. set (c := read_unit v ws) in *.
  pose proof (Z.mul_div_le (n + c - 1) c ltac:(lia)). pose proof (Z.mul_succ_div_gt (n + c - 1) c ltac:(lia)). lia.
Qed.

Lemma read_span_whole v ws n : 0 < read_unit v ws -> (read_unit v ws | n) -> read_span v ws n = n.
Proof.
  intros Hc [k ->]. unfold read_span. set (c := read_unit v ws) in *.
  replace (k * c + c - 1) with (c - 1 + k * c) by lia. rewrite Z.div_add, Z.div_small by lia. lia.
Qed.

Lemma read_span_scalar v ws n : 0 < ws -> has_flag v NVM_CMD_VECTOR = false -> (ws | n) -> read_span v ws n = n.
Proof. intros Hw Hf Hd. assert (E : read_unit v ws = ws) by (unfold read_unit; by rewrite Hf). apply read_span_whole; rewrite E; [lia|done]. Qed.

(** Sectors side by side are a prefix of their buffer. *)
Lemma concat_sectors nb l n : 0 <= nb -> 0 <= n -> n * nb <= Z.of_nat (length l) ->
  concat (sector nb l <$> seqZ 0 n) = take (Z.to_nat (n * nb)) l.
Proof.
  intros Hnb. revert n. apply (natlike_ind (fun n => n * nb <= Z.of_nat (length l) ->
    concat (sector nb l <$> seqZ 0 n) = take (Z.to_nat (n * nb)) l)); [done|].
  intros n Hn IH Hl. rewrite <-Z.add_1_r, seqZ_app, fmap_app, concat_app, IH by lia.
  replace (seqZ (0 + n) 1) with [n] by (unfold seqZ; cbn; f_equal; lia). cbn.
  rewrite app_nil_r. unfold sector.
  replace (Z.to_nat ((n + 1) * nb)) with (Z.to_nat (n * nb) + Z.to_nat nb)%nat by nia.
  rewrite <-(take_drop (Z.to_nat (n * nb)) l) at 3.
  rewrite take_app_add'; [done|]. rewrite length_take. nia.
Qed.

(** A run of the sectors of [l] reads as the bytes of [l]. *)
Lemma sectors_back v ws nb (m : nvm_addr -> list Z) l x n : 0 <= nb -> 0 <= n -> n * nb <= Z.of_nat (length l) ->
  (forall i, 0 <= i < n -> m (lin20 v ws (x + i)) = sector nb l i) ->
  concat (m <$> lin_run v ws x n) = take (Z.to_nat (n * nb)) l.
Proof.
  intros Hnb Hn Hl Hm. rewrite <-concat_sectors by done. f_equal. unfold lin_run, run_of.
  rewrite <-list_fmap_compose, <-seqZ_shift. apply list_fmap_ext. intros i y Hy.
  apply lookup_seqZ in Hy as [-> Hy]. cbn. rewrite <-Hm by lia. do 2 f_equal; lia.
Qed.

Section pread.
Context {W : Type} (be : nvm_be W) (dev : nvm_dev) `{!Media be dev}.
Context (v : nvm_vblk) (ws : Z) (Hv : vblk20_ok dev v ws).
Context (Hdom : on_device dev v ws mdom).
Context (Hmode : vblk_served (be := be) dev v (read_unit v ws)).
Implicit Types s : sys W.
#[local] Abbreviation nb := (nbytes (geo dev)).

(** The bytes a read left behind, of a buffer [l]. *)
Definition read_into (l : list Z) (x n : Z) (s : sys W) (ok : bool) (m : mem) : Prop :=
  exists d, m = Some d /\ length d = length l /\
    drop (Z.to_nat (n * nb)) d = drop (Z.to_nat (n * nb)) l /\
    (ok = true -> take (Z.to_nat (n * nb)) d = concat (media (world s) <$> lin_run v ws x n)).

Lemma wp_pread l count offset s (Q : Z * mem -> sys W -> Prop) :
  good mok s -> read_ok dev v ws l count offset ->
  (forall ok m s', good mok s' -> live s' = live s -> (forall a, mdom a -> media (world s') a = media (world s) a) ->
     read_into l (offset / nb) (read_span v ws (count / nb)) s ok m ->
     (if ok then True else errno s' = EIO /\ ~ Reliable be dev) ->
     Q (if ok then count else -1, m) s') ->
  wp (vblk_sync_pread_s20 be dev v (Some l) count offset) s Q.
Proof.
  intros Hwf [R1 R2 [u1 Hu1] [k Hk] R5 R6] HQ.
  pose proof (vo_ws_range _ _ _ Hv) as Hw. pose proof (vo_nb _ _ _ Hv) as Hnb.
  pose proof (read_unit_range dev v ws Hv) as Hc.
  assert (0 <= offset / nb) by (apply Z.div_pos; lia).
  assert (E1 : (count / nb) mod ws = 0) by (rewrite Hu1; apply Z.mod_mul; lia).
  assert (E2 : (offset / nb) mod ws = 0) by (rewrite Hk; apply Z.mod_mul; lia).
  eapply wp_ext; [by apply pread_prologue|]. rewrite E1, E2. cbn [negb Z.eqb].
  apply wp_bind. eapply (wp_pread_loop be dev v ws Hv Hdom Hmode _ (count / nb) _ l s);
    [done|done|by exists k|done|done|done|done|].
  intros [nerr m] s1 (Hwf1 & Hl1 & Hm1 & [Hn Hrel] & d & Ed & Hlen & Hdrop & Htake).
  cbn [fst snd] in *. unfold read_done.
  assert (HR : forall ok, (ok = true -> nerr = 0) -> read_into l (offset / nb) (read_span v ws (count / nb)) s ok m).
  { intros ok Hok. exists d. split; [done|]. split; [done|]. split; [done|]. auto. }
  destruct (Z.eqb_spec nerr 0) as [->|Hne].
  - apply (HQ true); [done|done|done|by apply HR|done].
  - apply (HQ false); [done|done|done|by apply HR|]. split; [done|]. intros Hr. by apply Hrel in Hr.
Qed.
(** The first [n] of the sectors transferred. *)
Lemma span_prefix (w : W) x n m d : 0 <= n <= m -> take (Z.to_nat (m * nb)) d = concat (media w <$> lin_run v ws x m) ->
  take (Z.to_nat (n * nb)) d = concat (media w <$> lin_run v ws x n).
Proof.
  intros Hn E. pose proof (vo_nb _ _ _ Hv) as Hnb. replace m with (n + (m - n)) in E by lia.
  unfold lin_run in *. rewrite run_of_app, fmap_app, concat_app in E by lia.
  apply (f_equal (take (Z.to_nat (n * nb)))) in E. rewrite take_take, Nat.min_l in E by nia. rewrite E.
  apply take_app_length'. rewrite (length_concat_const _ (Z.to_nat nb)) by apply media_len.
  pose proof (run_of_len (lin20 v ws) x n ltac:(lia)). nia.
Qed.
End pread.

(** ** Properties *)


(** C1: what is written is read back. On a device on which no command fails and
    with metadata off, a write of the caller's buffer followed by a read of the
    same range of the virtual block, whole write units inside it, both answer
    [count], and the read buffer then begins with the bytes of the written one.
    The buffer must have room for the sectors the read's commands transfer,
    [count] rounded up to 64 sectors in vector mode, and these must be inside the
    block; past them the buffer is as it was. *)
Theorem write_read_roundtrip {W} (spdk : spdk_env W) (be : nvm_be W) (dev : nvm_dev)
    `{!Media be dev, HR : !Reliable be dev} (v : nvm_vblk) (ws : Z) (Hv : vblk20_ok dev v ws)
    (Hdom : on_device dev v ws mdom)
    (Hmode : vblk_served (be := be) dev v ws) (Hread : vblk_served (be := be) dev v (read_unit v ws))
    (Halloc : alloc_ok spdk dev) (Hmeta : nvm_dev_get_meta_mode dev = NVM_META_MODE_NONE)
    (l l2 : list Z) (count offset : Z) (s : sys W) (Hcount : 0 <= count) (Hwf : good mok s)
    (Hwr : request_ok dev v ws (Some l) count offset) (Hrd : read_ok dev v ws l2 count offset) :
  let n := Z.to_nat (count / nbytes (geo dev) * nbytes (geo dev)) in
  let span := Z.to_nat (read_span v ws (count / nbytes (geo dev)) * nbytes (geo dev)) in
  wp (r ← vblk_sync_pwrite_s20 spdk be dev v (Some l) count offset;
      '(r2, m) ← vblk_sync_pread_s20 be dev v (Some l2) count offset;
      mret (r, r2, m)) s
    (fun '(r, r2, m) s' => r = count /\ r2 = count /\
       exists d, m = Some d /\ take n d = take n l /\ drop span d = drop span l2).
Proof.
  intros n span. pose proof (vo_nb _ _ _ Hv). pose proof (rd_count _ _ _ _ _ _ Hrd) as Hc0.
  pose proof (read_span_range v ws (count / nbytes (geo dev)) ltac:(apply (read_unit_range dev v ws Hv))).
  apply wp_bind, (wp_pwrite spdk be dev v ws Hv Hdom Hmode Halloc); [done|done|done|].
  intros r s1 Hwf1 _ _ [[-> Hd]|[_ [[_ []]|[_ [?|?]]]]]; try done.
  apply wp_bind, (wp_pread be dev v ws Hv Hdom Hread); [done|done|].
  intros [|] m s2 _ _ _ (d & -> & _ & Hdrop & Htake) HE; [|by destruct HE].
  apply wp_ret. split; [done|]. split; [done|]. exists d. split; [done|]. split; [|done].
  unfold n. rewrite (span_prefix be dev v ws Hv (world s1) (offset / nbytes (geo dev)) (count / nbytes (geo dev))
    (read_span v ws (count / nbytes (geo dev))) d); [|lia|by apply Htake].
  apply (sectors_back v ws _ (media (world s1))); [lia|lia|apply Hwr|exact Hd].
Qed.

(** A read of fewer sectors than a vector command holds still asks for 64
    sectors. In vector mode, a request of [n < 64] sectors (whole write units)
    is served by a single command on the 64 linear sectors from [offset] on,
    into the caller's buffer of [count] bytes. *)
Theorem pread_vector_overreads {W} (be : nvm_be W) (dev : nvm_dev) (v : nvm_vblk) (ws : Z)
    (Hv : vblk20_ok dev v ws) (Hvec : has_flag v NVM_CMD_VECTOR = true)
    (Hmode : vblk_mode dev v = NVM_CMD_VECTOR)
    (m : mem) (count offset : Z) (s : sys W) (Hoff : 0 <= offset)
    (Hunits : (ws | count / nbytes (geo dev))) (Hbgn : (ws | offset / nbytes (geo dev)))
    (Hn : 0 < count / nbytes (geo dev) < NVM_NADDR_MAX)
    (Hsize : offset / nbytes (geo dev) + NVM_NADDR_MAX <= lin_size dev v) :
  vblk_sync_pread_s20 be dev v m count offset s =
    (r ← nvm_cmd_read be dev (lin_run v ws (offset / nbytes (geo dev)) NVM_NADDR_MAX) NVM_NADDR_MAX
           (mem_add m 0) None (vflags v) None;
     read_done (if rc r =? 0 then 0 else 1) count (mem_splice m 0 (io_data r))) s.
Proof.
  pose proof (vo_nb _ _ _ Hv) as Hnb. pose proof (vo_ws_range _ _ _ Hv) as Hw.
  destruct (lin_size_range dev v ws Hv) as (_ & Hls & _).
  set (n := count / nbytes (geo dev)) in *. set (b := offset / nbytes (geo dev)) in *.
  assert (0 <= b) by (apply Z.div_pos; lia).
  apply Z.mod_divide in Hunits, Hbgn; [|lia..].
  rewrite (pread_prologue be dev v ws Hv). fold n b. rewrite Hunits, Hbgn. cbn [negb Z.eqb].
  unfold read_unit. rewrite Hvec. unfold sectr_range, sectr_stop. unfold NVM_NADDR_MAX in *.
  rewrite wrap_id by lia.
  assert (Ht : trips b (b + n - 1 + 1) 64 = 1%nat).
  { replace (b + n - 1 + 1) with (b + n) by lia. rewrite trips_S, trips_0 by lia. done. }
  rewrite range_le_steps, Ht by lia.
  unfold mbind, M_bind, lift. cbn [mfold].
  replace (steps b 64 1) with [b] by (change ([b] = [b + 0]); f_equal; lia). cbn [mfold].
  unfold mbind, M_bind, mret, M_ret. unfold pread_s20_cmd, pread_addrs.
  rewrite (vector_not_scalar _ _ Hmode), (stripe_addrs dev v ws Hv) by lia.
  rewrite (vblk_flags_id _ _ _ Hv). replace ((b - b) * nbytes (geo dev)) with 0 by lia.
  unfold mbind, M_bind, mret, M_ret, lift. rewrite (i32_id 64) by lia.
  destruct (nvm_cmd_read _ _ _ _ _ _ _ _ s) as [[r s']|]; [|done].
  by destruct (rc r =? 0).
Qed.

(** ** Witnesses *)

Definition tiny_scalar : nvm_vblk := (nvm_vblk_set_scalar tiny_vblk).2.

Lemma tiny_scalar_ok : vblk20_ok tiny20 tiny_scalar 2.
Proof. split; try done; [by eapply members_ext, tiny_members|by exists 4]. Qed.

Lemma tiny_read : read_ok tiny20 tiny_scalar 2 [1; 2; 3; 4; 5; 6; 7; 8; 9] 8 4.
Proof. split; try done; by exists 2. Qed.

Lemma tiny_scalar_request :
  request_ok tiny20 tiny_scalar 2 (Some [10; 11; 12; 13; 14; 15; 16; 17]) 8 4.
Proof. split; try done; by exists 2. Qed.

(** The same chunks, of 64 sectors, with vector commands. *)
Definition wide20 : nvm_dev := with_geo (Geo 2 2 4 64 2 0 0 0 0 (2 * 2 * 4 * 64 * 2) NVM_SPEC_VERID_20) tiny20.
Definition wide_vblk : nvm_vblk := with_vnbytes (2 * 64 * 2) tiny_vblk.

#[export] Instance wide_media : Media (ram_be wide20) wide20 := ram_media wide20 (TCEq_refl _).

Lemma wide_vblk_ok : vblk20_ok wide20 wide_vblk 2.
Proof. split; try done; [by eapply members_ext, tiny_members|by exists 32]. Qed.

Lemma wide_on_device : on_device wide20 wide_vblk 2 (mdom (Media := wide_media)).
Proof. done. Qed.

Lemma wide_served n : vblk_served (be := ram_be wide20) wide20 wide_vblk n.
Proof. split; [done|by left]. Qed.

Lemma wide_read x : read_ok wide20 wide_vblk 2 (replicate 130 x) 8 4.
Proof. split; try done; by exists 2. Qed.

Lemma wide_request : request_ok wide20 wide_vblk 2 (Some [10; 11; 12; 13; 14; 15; 16; 17]) 8 4.
Proof. split; try done; by exists 2. Qed.


(** With scalar commands, and with vector commands. *)
Lemma write_read_roundtrip_witness :
  let s := Sys 0 (sample_heap 9) (∅ : gmap nvm_addr (list Z)) in
  let w := [10; 11; 12; 13; 14; 15; 16; 17] in
  wp (r ← vblk_sync_pwrite_s20 spdk_stub (ram_be tiny20) tiny20 tiny_scalar (Some w) 8 4;
      '(r2, m) ← vblk_sync_pread_s20 (ram_be tiny20) tiny20 tiny_scalar (Some [1; 2; 3; 4; 5; 6; 7; 8; 9]) 8 4;
      mret (r, r2, m)) s
    (fun '(r, r2, m) s' => r = 8 /\ r2 = 8 /\ exists d, m = Some d /\ take 8 d = w /\ drop 8 d = [9]) /\
  wp (r ← vblk_sync_pwrite_s20 spdk_stub (ram_be wide20) wide20 wide_vblk (Some w) 8 4;
      '(r2, m) ← vblk_sync_pread_s20 (ram_be wide20) wide20 wide_vblk (Some (replicate 130 7)) 8 4;
      mret (r, r2, m)) s
    (fun '(r, r2, m) s' => r = 8 /\ r2 = 8 /\ exists d, m = Some d /\ take 8 d = w /\ drop 128 d = [7; 7]).
Proof.
  intros s w. split.
  - apply (write_read_roundtrip spdk_stub (ram_be tiny20) tiny20 tiny_scalar 2 tiny_scalar_ok (tiny_on_device _)
      (conj I (or_intror eq_refl)) (conj I (or_intror eq_refl)) tiny_alloc eq_refl w [1; 2; 3; 4; 5; 6; 7; 8; 9] 8 4 s);
      [lia|apply sample_heap_wf|apply tiny_scalar_request|apply tiny_read].
  - apply (write_read_roundtrip spdk_stub (ram_be wide20) wide20 wide_vblk 2 wide_vblk_ok wide_on_device
      (wide_served _) (wide_served _) (virt_alloc_ok spdk_stub wide20 (or_introl eq_refl)) eq_refl w (replicate 130 7) 8 4 s);
      [lia|apply sample_heap_wf|apply wide_request|apply wide_read].
Defined.

(** The same chunks on [sample20], read in vector commands of 64 sectors. *)
Definition sample_vblk : nvm_vblk := with_vnbytes (2 * 6144 * 4096) tiny_vblk.

Lemma sample_vblk_ok : vblk20_ok sample20 sample_vblk 24.
Proof. split; try done; [by eapply members_ext, tiny_members|by exists 256]. Qed.

Lemma pread_vector_overreads_witness :
  let l := replicate (Z.to_nat (24 * 4096)) 7 in
  vblk_sync_pread_s20 (ram_be sample20) sample20 sample_vblk (Some l) (24 * 4096) 0
    (Sys 0 (sample_heap 9) ∅) = None.
Proof.
  intros l. rewrite (pread_vector_overreads (ram_be sample20) sample20 sample_vblk 24 sample_vblk_ok);
    [by vm_compute|done|done|lia|by exists 1|by exists 0|by split|done].
Defined.
