(* ===== verification/Vblk12.v ===== *)
(** Correctness of I/O on 1.2 virtual blocks: the super-page striping over
    blocks, pages, planes and sectors, and the write and read loops on it. *)
From stdpp Require Import base numbers strings gmap option list.
From S2P Require Import Prelude Types Nvme Addr Dev Backend Buf Cmd Vblk Stripe Media Linear VblkIO VblkRead.

(** Sectors of a super-page: all planes of one page of one block. *)
Definition spage_of (g : nvm_geo) : Z := nplanes g * nsectors g.

(** The device sector behind linear sector [x], 1.2. *)
Definition lin12 (g : nvm_geo) (v : nvm_vblk) (x : Z) : nvm_addr :=
  let spg := x / spage_of g in
  set_g_sec (x mod nsectors g) (set_g_pl ((x / nsectors g) mod nplanes g)
    (set_g_pg ((spg / nblks v) mod npages g) (member v (spg mod nblks v)))).

(** A virtual block of a 1.2 device. *)
Record vblk12_ok (dev : nvm_dev) (v : nvm_vblk) : Prop := {
  v12_members : members_ok v;
  v12_nsectors : 0 < nsectors (geo dev) <= 2 ^ 8;
  v12_nplanes : 0 < nplanes (geo dev) <= 2 ^ 8;
  v12_npages : 0 < npages (geo dev) <= 2 ^ 16;
  v12_nb : 0 < sector_nbytes (geo dev) < 2 ^ 14;
  v12_size : vblk_nbytes v =
    nblks v * npages (geo dev) * spage_of (geo dev) * sector_nbytes (geo dev);
  v12_mode : cmd_addr_opt dev (u16 (nvm_dev_get_pmode dev)) = NVM_CMD_VECTOR }.

Section s12.
Context (dev : nvm_dev) (v : nvm_vblk) (Hv : vblk12_ok dev v).
#[local] Abbreviation g := (geo dev).
#[local] Abbreviation spage := (spage_of (geo dev)).

(** Super-pages and sectors of the range. *)
Definition spages12 : Z := nblks v * npages g.

Lemma spage_range : 0 < spage <= 2 ^ 16.
Proof. destruct Hv. unfold spage_of. nia. Qed.

Lemma spages_range : 0 < spages12 <= 2 ^ 23.
Proof.
  destruct Hv. pose proof (mo_n v v12_members0) as Hn. unfold VBLK_MAX in Hn. unfold spages12. nia.
Qed.

Lemma lin12_ok x : addr_ok (lin12 g v x).
Proof.
  pose proof (mo_n v (v12_members _ _ Hv)) as Hn.
  pose proof (Z.mod_pos_bound (x / spage) (nblks v) ltac:(lia)) as Hi.
  pose proof (member_ok v (v12_members _ _ Hv) _ Hi).
  unfold lin12. addr_wf.
Qed.

Lemma lin12_fields x : g_sec (lin12 g v x) = x mod nsectors g /\
  g_pl (lin12 g v x) = (x / nsectors g) mod nplanes g /\
  g_pg (lin12 g v x) = (x / spage / nblks v) mod npages g /\
  chunk_id (lin12 g v x) = chunk_id (member v (x / spage mod nblks v)).
Proof.
  destruct Hv. unfold lin12, chunk_id. cbn zeta. addr_simpl.
  pose proof (Z.mod_pos_bound x (nsectors g)).
  pose proof (Z.mod_pos_bound (x / nsectors g) (nplanes g)).
  pose proof (Z.mod_pos_bound (x / spage / nblks v) (npages g)).
  rewrite !wrap_id by lia. done.
Qed.

Lemma lin12_inj x y : 0 <= x < spages12 * spage -> 0 <= y < spages12 * spage ->
  lin12 g v x = lin12 g v y -> x = y.
Proof.
  intros Hx Hy E. pose proof spage_range as Hs. pose proof (mo_n v (v12_members _ _ Hv)) as Hn.
  destruct (lin12_fields x) as (X1 & X2 & X3 & X4). destruct (lin12_fields y) as (Y1 & Y2 & Y3 & Y4).
  rewrite <-E in *. rewrite X1 in Y1. rewrite X2 in Y2. rewrite X3 in Y3. rewrite X4 in Y4.
  assert (Hp : forall z, 0 <= z < spages12 * spage -> 0 <= z / spage / nblks v < npages g).
  { intros z Hz. split; [apply Z.div_pos; [apply Z.div_pos|]; lia|].
    apply Z.div_lt_upper_bound; [lia|]. apply Z.div_lt_upper_bound; [lia|]. unfold spages12 in Hz. lia. }
  rewrite !(Z.mod_small (_ / _ / _)) in Y3 by by apply Hp.
  assert (Ei : x / spage mod nblks v = y / spage mod nblks v).
  { eapply (mo_inj v (v12_members _ _ Hv)); [apply Z.mod_pos_bound; lia..| | |exact Y4];
      apply (member_lookup v (v12_members _ _ Hv)), Z.mod_pos_bound; lia. }
  assert (Es : x / spage = y / spage).
  { rewrite (Z.div_mod (x / spage) (nblks v)), (Z.div_mod (y / spage) (nblks v)) by lia.
    by rewrite Ei, Y3. }
  destruct Hv. unfold spage_of in Es. rewrite (Z.mul_comm (nplanes g)) in Es.
  rewrite <-!Z.div_div in Es by lia.
  rewrite (Z.div_mod x (nsectors g)), (Z.div_mod y (nsectors g)) by lia. rewrite Y1. f_equal. f_equal.
  rewrite (Z.div_mod (x / nsectors g) (nplanes g)), (Z.div_mod (y / nsectors g) (nplanes g)) by lia.
  by rewrite Es, Y2.
Qed.

(** The addresses of the range are addresses of the device. *)
Definition on_device12 (mdom : nvm_addr -> Prop) : Prop :=
  forall x, 0 <= x < spages12 * spage -> mdom (lin12 g v x).

(** The addresses the code builds. *)
Lemma s12_addr_lin off i : 0 <= off -> 0 <= i -> off + i / spage < spages12 ->
  s12_addr dev v spage off i = Some (lin12 g v (off * spage + i)).
Proof.
  intros Ho Hi Hb. pose proof spage_range as Hs. pose proof spages_range as Hss.
  pose proof (mo_n v (v12_members _ _ Hv)) as Hn. destruct Hv.
  assert (0 <= i / spage) by (apply Z.div_pos; lia).
  unfold s12_addr. cbn zeta. rewrite Z.quot_div_nonneg by lia.
  rewrite i32_id by lia. rewrite (proj2 (Z.eqb_neq (nblks v) 0)) by lia.
  rewrite Z.rem_mod_nonneg, Z.quot_div_nonneg by lia.
  set (spg := off + i / spage) in *.
  assert (0 <= spg / nblks v) by (apply Z.div_pos; lia).
  assert (spg / nblks v < npages g) by (apply Z.div_lt_upper_bound; [lia|unfold spages12 in *; lia]).
  pose proof (Z.mod_pos_bound spg (nblks v) ltac:(lia)).
  rewrite wrap_id by lia. unfold zmod, zdiv.
  rewrite (proj2 (Z.eqb_neq (npages g) 0)), (proj2 (Z.eqb_neq (nsectors g) 0)),
    (proj2 (Z.eqb_neq (nplanes g) 0)), (proj2 (Z.ltb_ge (spg mod nblks v) 0)) by lia.
  cbn. rewrite member_lookup by done. cbn. f_equal. unfold lin12. cbn zeta.
  assert (E1 : (off * spage + i) / spage = spg) by (rewrite Z.div_add_l by lia; done).
  assert (E2 : (off * spage + i) mod nsectors g = i mod nsectors g).
  { unfold spage_of. rewrite Z.mul_assoc, Z.add_comm, Z.mod_add by lia. done. }
  assert (E3 : ((off * spage + i) / nsectors g) mod nplanes g = (i / nsectors g) mod nplanes g).
  { unfold spage_of. rewrite Z.mul_assoc, Z.div_add_l, (Z.add_comm (off * _)), Z.mod_add by lia. done. }
  rewrite E1, E2, E3. do 3 f_equal. rewrite Z.mod_small, i32_id by lia. done.
Qed.

Lemma s12_addrs off n : 0 <= off -> 0 <= n -> off + n <= spages12 ->
  build_addrs (s12_addr dev v spage off) (n * spage) =
    Some (run_of (lin12 g v) (off * spage) (n * spage)).
Proof.
  intros Ho Hn Hb. pose proof spage_range as Hs. unfold run_of.
  rewrite <-seqZ_shift. apply build_addrs_some. intros i Hi. apply s12_addr_lin; [done|lia|].
  assert (i / spage < n) by (apply Z.div_lt_upper_bound; lia). lia.
Qed.

(** What a request of [naddrs_max] addresses per command plans. *)
Lemma s12_prepare_ok max count offset : spage <= max < 2 ^ 31 -> 0 <= count -> 0 <= offset ->
  offset + count < 2 ^ 63 ->
  exists cmd, 1 <= cmd <= max / spage /\ (cmd | nblks v) /\
    s12_prepare dev v max count offset =
      Some (Plan spage cmd (spage * sector_nbytes g) (offset / (spage * sector_nbytes g))
              (offset / (spage * sector_nbytes g) + count / (spage * sector_nbytes g))).
Proof.
  intros Hm Hc Ho Hsum. pose proof spage_range as Hs. destruct Hv.
  pose proof (mo_n v v12_members0) as Hn.
  assert (0 < max / spage) by (apply Z.div_str_pos; lia).
  destruct (count_down_le (nblks v) (max / spage)) as (cmd & Hcd & Hr & Hd & _); [lia|lia|].
  exists cmd. split; [done|]. split; [done|]. unfold s12_prepare. cbn zeta.
  fold (spage_of (geo dev)). rewrite (wrap_id 64 spage), i32_id by lia.
  rewrite (proj2 (Z.eqb_neq spage 0)), Z.quot_div_nonneg by lia. cbn [mbind option_bind].
  unfold _cmd_nspages. rewrite Hcd. cbn [mbind option_bind].
  assert (0 < spage * sector_nbytes g < 2 ^ 31) by nia.
  rewrite (wrap_id 64 (spage * _)), i32_id, wrap_id by lia. unfold zdiv.
  rewrite (proj2 (Z.eqb_neq (spage * sector_nbytes g) 0)) by lia. cbn [mbind option_bind].
  assert (offset / (spage * sector_nbytes g) <= offset) by (apply Z.div_le_upper_bound; nia).
  assert (count / (spage * sector_nbytes g) <= count) by (apply Z.div_le_upper_bound; nia).
  assert (0 <= offset / (spage * sector_nbytes g)) by (apply Z.div_pos; lia).
  assert (0 <= count / (spage * sector_nbytes g)) by (apply Z.div_pos; lia).
  by rewrite (wrap_id 64 (_ / _ + _)) by lia.
Qed.
End s12.

(** ** The loops *)

Section loops.
Context {W : Type} (spdk : spdk_env W) (be : nvm_be W) (dev : nvm_dev) `{!Media be dev}.
Context (v : nvm_vblk) (Hv : vblk12_ok dev v) (Hdom : on_device12 dev v mdom).
Context (cmd bgn units : Z) (Hcmd : 1 <= cmd <= 2 ^ 16) (Hbgn : 0 <= bgn) (Hunits : 0 <= units).
Context (Hbound : bgn + units <= spages12 dev v) (Hcs : cmd * spage_of (geo dev) < 2 ^ 31).
Context (Hsv : served (be := be) dev (u16 (nvm_dev_get_pmode dev)) (cmd * spage_of (geo dev))).
Implicit Types s : sys W.
#[local] Abbreviation g := (geo dev).
#[local] Abbreviation spage := (spage_of (geo dev)).
#[local] Abbreviation nb := (nbytes (geo dev)).
#[local] Abbreviation lin := (lin12 (geo dev) v).
#[local] Abbreviation rel := (Reliable be dev).

Definition plan12 : s12_plan := Plan spage cmd (spage * sector_nbytes g) bgn (bgn + units).

(** Sectors done after [k] commands. *)
Definition done12 (k : Z) : Z := Z.min (k * cmd) units * spage.

Lemma s12_range_steps :
  s12_range plan12 = Some (steps bgn cmd (trips bgn (bgn + units) cmd)).
Proof.
  pose proof (spages_range dev v Hv). unfold s12_range, plan12. cbn.
  apply range_lt_steps; [lia|lia|lia|done].
Qed.

Lemma s12_naddrs_cmd k : 0 <= k < Z.of_nat (trips bgn (bgn + units) cmd) ->
  k * cmd < units /\
  s12_naddrs plan12 (bgn + k * cmd) = Z.min cmd (units - k * cmd) * spage /\
  done12 (k + 1) = k * cmd * spage + Z.min cmd (units - k * cmd) * spage.
Proof.
  intros Hk. pose proof (trips_lt bgn (bgn + units) cmd k ltac:(lia) Hk) as Hlt.
  pose proof (spages_range dev v Hv). split; [lia|]. unfold s12_naddrs, plan12, done12. cbn.
  rewrite i32_id, NVM_MIN_min by nia.
  replace (bgn + units - (bgn + k * cmd)) with (units - k * cmd) by lia. split; [done|].
  replace ((k + 1) * cmd) with (k * cmd + cmd) by lia. rewrite <-Z.mul_add_distr_r. f_equal. lia.
Qed.

Lemma s12_cmd_addrs k : 0 <= k < Z.of_nat (trips bgn (bgn + units) cmd) ->
  build_addrs (s12_addr dev v spage (bgn + k * cmd)) (s12_naddrs plan12 (bgn + k * cmd)) =
    Some (run_of lin (bgn * spage + k * cmd * spage) (Z.min cmd (units - k * cmd) * spage)).
Proof.
  intros Hk. destruct (s12_naddrs_cmd k Hk) as (Hlt & -> & _).
  rewrite (s12_addrs dev v Hv) by lia. do 2 f_equal. lia.
Qed.

Lemma lin12_inj_range i j : bgn * spage <= i < (bgn + units) * spage ->
  bgn * spage <= j < (bgn + units) * spage -> lin i = lin j -> i = j.
Proof. pose proof (spage_range dev v Hv). intros. apply (lin12_inj dev v Hv); [nia..|done]. Qed.

Lemma dom12_range i : bgn * spage <= i < (bgn + units) * spage -> mdom (lin i).
Proof. pose proof (spage_range dev v Hv). intros. apply Hdom. nia. Qed.

Lemma run_dom12 x n : bgn * spage <= x -> x + n <= (bgn + units) * spage -> Forall mdom (run_of lin x n).
Proof.
  intros Hx Hn. apply Forall_forall. intros a (i & Hi & ->)%run_of_elem. apply dom12_range. lia.
Qed.

Lemma done12_end : done12 (Z.of_nat (trips bgn (bgn + units) cmd)) = units * spage.
Proof. pose proof (trips_ge bgn (bgn + units) cmd ltac:(lia)). unfold done12. f_equal. lia. Qed.

Lemma s12_trips_bound : Z.of_nat (trips bgn (bgn + units) cmd) < 2 ^ 64 - 1.
Proof.
  pose proof (spages_range dev v Hv). unfold trips.
  assert ((bgn + units - bgn + cmd - 1) / cmd < units + 1); [|lia].
  apply Z.div_lt_upper_bound; nia.
Qed.

(** The data each command finds. *)
Definition source12 (buf : mem) (b : write_bufs) (src : Z -> list Z) : Prop :=
  forall k, 0 <= k < Z.of_nat (trips bgn (bgn + units) cmd) -> exists d,
    match pad b with Some _ => pad b | None => mem_add buf (k * cmd * nb * spage) end = Some d /\
    Z.min cmd (units - k * cmd) * spage * nb <= Z.of_nat (length d) /\
    forall i, 0 <= i < Z.min cmd (units - k * cmd) * spage -> sector nb d i = src (k * cmd * spage + i).

Lemma wp_pwrite12_cmd buf b src s0 k nerr s :
  source12 buf b src -> 0 <= k < Z.of_nat (trips bgn (bgn + units) cmd) ->
  written mok mdom media rel lin (bgn * spage) src s0 k (done12 k) nerr s ->
  wp (pwrite_s12_cmd be dev v plan12 buf b (bgn + k * cmd) nerr) s
    (written mok mdom media rel lin (bgn * spage) src s0 (k + 1) (done12 (k + 1))).
Proof.
  intros Hsrc Hk Hwr. pose proof Hwr as (Hwf & _). pose proof (spage_range dev v Hv) as Hs.
  pose proof s12_trips_bound. unfold pwrite_s12_cmd. cbn [spage_naddrs plan12].
  rewrite (s12_cmd_addrs k Hk). destruct (s12_naddrs_cmd k Hk) as (Hlt & -> & ->).
  assert (E0 : done12 k = k * cmd * spage) by (unfold done12; f_equal; lia). rewrite E0 in Hwr.
  unfold s12_off. cbn [sp_bgn spage_naddrs plan12].
  replace (bgn + k * cmd - bgn) with (k * cmd) by lia. change (sector_nbytes g) with nb.
  destruct (Hsrc k Hk) as (d & -> & Hld & Hd). set (m := Z.min cmd (units - k * cmd) * spage) in *.
  assert (Hm : 0 <= m) by (unfold m; nia). set (addrs := run_of lin _ m).
  assert (Hlen : Z.of_nat (length addrs) = m) by (by apply run_of_len).
  apply wp_bind, (wp_intro _ _ addrs s); [done|]. apply wp_bind.
  unfold nvm_cmd_write. rewrite (v12_mode _ _ Hv). cbn [Z.eqb].
  eapply wp_mono.
  { apply wp_strengthen with (R := fun r _ => rel -> r.1 = 0).
    - rewrite <-Hlen at 1. apply vector_write_law; [done|apply Hsv|apply Hsv; unfold m in *; nia|apply run_dom12; unfold m; nia| |unfold m in *; nia|by rewrite Hlen].
      apply run_of_NoDup. intros i j Hi Hj. apply lin12_inj_range; unfold m in *; nia.
    - intros r s' E HR. exact (vector_write_ok _ _ _ _ _ _ _ _ _ E). }
  intros [err r] s' [Hpost HR]. apply wp_ret.
  eapply written_step; [exact Hwr|nia|done|lia|intros i Hi; apply dom12_range; unfold m in *; nia| |exact Hd|exact Hpost|exact HR].
  intros i j Hi Hj. apply lin12_inj_range; unfold m in *; nia.
Qed.

Lemma wp_pwrite12_loop buf b src s0 (Q : Z -> sys W -> Prop) :
  good mok s0 -> source12 buf b src ->
  (forall k nerr s, written mok mdom media rel lin (bgn * spage) src s0 k (units * spage) nerr s -> Q nerr s) ->
  wp (offs ← lift (s12_range plan12); mfold (pwrite_s12_cmd be dev v plan12 buf b) offs 0) s0 Q.
Proof.
  intros Hwf Hsrc HQ. rewrite s12_range_steps. apply wp_bind. eapply wp_intro; [done|].
  apply (wp_mfold_steps _ (fun k => written mok mdom media rel lin (bgn * spage) src s0 k (done12 k))).
  - unfold done12. replace (Z.min (0 * cmd) units * spage) with 0 by nia. by apply written_0.
  - intros k nerr s Hk. by apply wp_pwrite12_cmd.
  - intros nerr s Hwr. rewrite done12_end in Hwr. by eapply HQ.
Qed.

Lemma wp_pread12_cmd l0 s0 k acc s :
  units * spage * nb <= Z.of_nat (length l0) -> 0 <= k < Z.of_nat (trips bgn (bgn + units) cmd) ->
  fetched mok mdom media nb rel lin (bgn * spage) l0 s0 k (done12 k) acc s ->
  wp (pread_s12_cmd be dev v plan12 (bgn + k * cmd) acc) s
    (fetched mok mdom media nb rel lin (bgn * spage) l0 s0 (k + 1) (done12 (k + 1))).
Proof.
  intros Hl Hk Hf. pose proof Hf as (Hwf & _ & _ & _ & l & El & Hll & _).
  destruct acc as [nerr buf]. cbn [snd] in El. subst buf. pose proof (spage_range dev v Hv) as Hs.
  pose proof (v12_nb _ _ Hv) as Hnb. change (sector_nbytes g) with nb in Hnb.
  pose proof s12_trips_bound. unfold pread_s12_cmd. cbn [spage_naddrs plan12].
  rewrite (s12_cmd_addrs k Hk). destruct (s12_naddrs_cmd k Hk) as (Hlt & -> & ->).
  assert (E0 : done12 k = k * cmd * spage) by (unfold done12; f_equal; lia). rewrite E0 in Hf.
  unfold s12_off. cbn [sp_bgn spage_naddrs plan12].
  replace ((bgn + k * cmd - bgn) * sector_nbytes g * spage) with (k * cmd * spage * nb)
    by (unfold nbytes; lia).
  set (m := Z.min cmd (units - k * cmd) * spage) in *.
  assert (Hm : 0 <= m) by (unfold m; nia). set (addrs := run_of lin _ m).
  assert (Hlen : Z.of_nat (length addrs) = m) by (by apply run_of_len).
  assert (Hn : k * cmd * spage + m <= units * spage) by (unfold m; nia).
  apply wp_bind, (wp_intro _ _ addrs s); [done|]. apply wp_bind.
  unfold nvm_cmd_read. rewrite (v12_mode _ _ Hv). cbn [Z.eqb mem_add].
  eapply wp_mono.
  { apply wp_strengthen with (R := fun r _ => rel -> rc r = 0).
    - rewrite <-Hlen at 1. apply vector_read_law; [done|apply Hsv|apply Hsv; unfold m in *; nia|apply run_dom12; unfold m; nia|unfold m in *; nia|]. rewrite Hlen, length_drop. nia.
    - intros r s' E HR. exact (vector_read_ok _ _ _ _ _ _ _ _ _ E). }
  intros r s' [Hpost HR]. apply wp_ret.
  eapply fetched_step; [lia|exact Hf|nia|done|lia|intros i Hi; apply dom12_range; nia|nia|exact Hpost|exact HR].
Qed.

Lemma wp_pread12_loop l s0 (Q : Z * mem -> sys W -> Prop) :
  good mok s0 -> units * spage * nb <= Z.of_nat (length l) ->
  (forall k acc s, fetched mok mdom media nb rel lin (bgn * spage) l s0 k (units * spage) acc s -> Q acc s) ->
  wp (offs ← lift (s12_range plan12); mfold (pread_s12_cmd be dev v plan12) offs (0, Some l)) s0 Q.
Proof.
  intros Hwf Hl HQ. rewrite s12_range_steps. apply wp_bind. eapply wp_intro; [done|].
  apply (wp_mfold_steps _ (fun k => fetched mok mdom media nb rel lin (bgn * spage) l s0 k (done12 k))).
  - unfold done12. replace (Z.min (0 * cmd) units * spage) with 0 by nia. by apply fetched_0.
  - intros k acc s Hk. by apply wp_pread12_cmd.
  - intros acc s Hwr. rewrite done12_end in Hwr. by eapply HQ.
Qed.
End loops.

(** ** Whole requests *)

(** The unit of 1.2 requests, in bytes. *)
Definition align12 (g : nvm_geo) : Z := spage_of g * sector_nbytes g.

Record request12 (dev : nvm_dev) (v : nvm_vblk) (max count offset : Z) : Prop := {
  q12_max : spage_of (geo dev) <= max <= NVM_NADDR_MAX;
  q12_count : 0 <= count;
  q12_offset : 0 <= offset;
  q12_acount : (align12 (geo dev) | count);
  q12_aoffset : (align12 (geo dev) | offset);
  q12_bound : offset + count <= vblk_nbytes v }.

(** A request that must be refused. *)
Definition refused12 (dev : nvm_dev) (v : nvm_vblk) (count offset : Z) : Prop :=
  vblk_nbytes v < offset + count \/ ~ (align12 (geo dev) | count) \/ ~ (align12 (geo dev) | offset).

(** Sector [i] of what a write leaves: the caller's, or the pattern, which
    starts over with each command of [cmd] super-pages. *)
Definition src12 (g : nvm_geo) (cmd : Z) (buf : mem) (i : Z) : list Z :=
  match buf with
  | Some l => sector (nbytes g) l i
  | None => sector (nbytes g) (pattern (cmd * spage_of g * nbytes g)) (i mod (cmd * spage_of g))
  end.

Section whole.
Context {W : Type} (spdk : spdk_env W) (be : nvm_be W) (dev : nvm_dev) `{!Media be dev}.
Context (v : nvm_vblk) (Hv : vblk12_ok dev v).
Implicit Types s : sys W.
#[local] Abbreviation g := (geo dev).
#[local] Abbreviation spage := (spage_of (geo dev)).
#[local] Abbreviation nb := (nbytes (geo dev)).
#[local] Abbreviation lin := (lin12 (geo dev) v).

Lemma align_pos : 0 < align12 g < 2 ^ 31.
Proof. pose proof (spage_range dev v Hv). pose proof (v12_nb _ _ Hv). unfold align12. nia. Qed.

Lemma vblk_nbytes_range : vblk_nbytes v = spages12 dev v * align12 g /\ vblk_nbytes v < 2 ^ 54.
Proof.
  pose proof align_pos. pose proof (spages_range dev v Hv).
  assert (vblk_nbytes v = spages12 dev v * align12 g)
    by (rewrite (v12_size _ _ Hv); unfold spages12, align12; lia). nia.
Qed.

(** The facts of a request that is served. *)
Lemma request12_plan max count offset : request12 dev v max count offset ->
  let bgn := offset / align12 g in let units := count / align12 g in
  exists cmd, 1 <= cmd <= max / spage /\ (cmd | nblks v) /\
    s12_prepare dev v max count offset = Some (plan12 dev cmd bgn units) /\
    s12_refused v (plan12 dev cmd bgn units) count offset = false /\
    0 <= bgn /\ 0 <= units /\ bgn + units <= spages12 dev v /\ cmd * spage <= NVM_NADDR_MAX /\
    offset = bgn * align12 g /\ count = units * align12 g.
Proof.
  intros [R1 R2 R3 R4 R5 R6] bgn units. pose proof align_pos as Ha.
  destruct vblk_nbytes_range as [Hsz Hlt]. pose proof (spage_range dev v Hv) as Hs.
  unfold NVM_NADDR_MAX in *.
  destruct (s12_prepare_ok dev v Hv max count offset) as (cmd & Hc & Hd & E); [lia..|].
  exists cmd. split; [done|]. split; [done|]. split; [exact E|].
  pose proof (Z.mul_div_le max spage ltac:(lia)).
  destruct R4 as [ku Hku], R5 as [kb Hkb].
  assert (Eu : units = ku) by (unfold units; rewrite Hku; apply Z.div_mul; lia).
  assert (Eb : bgn = kb) by (unfold bgn; rewrite Hkb; apply Z.div_mul; lia).
  split.
  - unfold s12_refused. cbn [align plan12]. fold (align12 g). rewrite !wrap_id by lia.
    rewrite (proj2 (Z.ltb_ge _ _)) by lia. rewrite Hku, Hkb, !Z.mod_mul by lia. done.
  - rewrite Eu, Eb. repeat split; nia.
Qed.

(** Whole super-pages, counted in sectors. *)
Lemma whole_spages (h : nvm_geo) x : 0 < sector_nbytes h -> x = x / align12 h * align12 h ->
  x / sector_nbytes h = x / align12 h * spage_of h.
Proof. intros Hn E. rewrite E at 1. unfold align12 at 2. rewrite Z.mul_assoc. apply Z.div_mul. lia. Qed.

(** The facts of a request that is not. *)
Lemma refused12_plan max count offset : spage <= max < 2 ^ 31 -> 0 <= count -> 0 <= offset ->
  offset + count < 2 ^ 63 -> refused12 dev v count offset ->
  exists p, s12_prepare dev v max count offset = Some p /\ s12_refused v p count offset = true.
Proof.
  intros Hm Hc Ho Hs Hr. pose proof align_pos as Ha.
  destruct (s12_prepare_ok dev v Hv max count offset) as (cmd & _ & _ & E); [done..|].
  eexists. split; [exact E|]. unfold s12_refused. cbn [align]. fold (align12 g).
  rewrite !wrap_id by lia.
  destruct (Z.ltb_spec (vblk_nbytes v) (offset + count)); [done|]. cbn [orb].
  destruct (Z.eqb_spec (count mod align12 g) 0) as [E1|]; [|done]. cbn [orb negb].
  destruct (Z.eqb_spec (offset mod align12 g) 0) as [E2|]; [|done].
  apply Z.mod_divide in E1, E2; [|lia..]. destruct Hr as [?|[?|?]]; lia || tauto.
Qed.

Lemma source12_request {I : W -> Prop} max count offset cmd buf b s s1 :
  request12 dev v max count offset -> 1 <= cmd ->
  match buf with Some l => count <= Z.of_nat (length l) | None => True end ->
  bufs_ok I buf (cmd * spage * nb) s b s1 ->
  source12 dev cmd (offset / align12 g) (count / align12 g) buf b (src12 g cmd buf).
Proof.
  intros Hr Hc Hbuf Hb k Hk. rewrite (bo_pad _ _ _ _ _ _ Hb). pose proof align_pos as Ha.
  pose proof (spage_range dev v Hv) as Hs. pose proof (v12_nb _ _ Hv) as Hnb.
  change (sector_nbytes g) with nb in Hnb.
  pose proof (trips_lt _ _ cmd k ltac:(lia) Hk) as Hlt.
  set (units := count / align12 g) in *.
  assert (Hu : units * spage * nb = count).
  { destruct (q12_acount _ _ _ _ _ Hr) as [ku Hku]. unfold units. rewrite Hku, Z.div_mul by lia.
    unfold align12, nbytes. lia. }
  destruct buf as [l|]; cbn [mem_add src12].
  - eexists. split; [reflexivity|]. split.
    + rewrite length_drop. nia.
    + intros i Hi. replace (k * cmd * nb * spage) with (k * cmd * spage * nb) by lia.
      rewrite sector_shift; [done|lia|nia|lia].
  - eexists. split; [reflexivity|]. split.
    + rewrite pattern_len by nia. apply Z.mul_le_mono_nonneg_r; [lia|].
      apply Z.mul_le_mono_nonneg_r; lia.
    + intros i Hi. replace (k * cmd * spage + i) with (i + k * (cmd * spage)) by lia.
      rewrite Z.mod_add by nia. rewrite Z.mod_small; [done|]. nia.
Qed.
End whole.

(** ** Properties *)

(** C16: a write to a 1.2 virtual block. A request past the end, or not made
    of whole super-pages, is refused with [EINVAL] and changes nothing. Any
    other one changes no sector outside [offset, offset + count), and either
    answers [count], sector [i] of the range being sector [i] of the caller's
    buffer (the fill pattern without one), or -1 with [EIO] when a command
    failed or [ENOMEM] when a buffer could not be allocated. It keeps no
    memory, except that a write without a buffer may keep its padding. *)
Theorem pwrite_s12_correct {W} (spdk : spdk_env W) (be : nvm_be W) (dev : nvm_dev)
    `{!Media be dev} (v : nvm_vblk) (Hv : vblk12_ok dev v) (Hdom : on_device12 dev v mdom)
    (Hsv : served (be := be) dev (u16 (nvm_dev_get_pmode dev)) NVM_NADDR_MAX) (Halloc : alloc_ok spdk dev)
    (buf : mem) (count offset : Z) (s : sys W) (Hwf : good mok s)
    (Hbuf : match buf with Some l => count <= Z.of_nat (length l) | None => True end)
    (Hoob : nvm_dev_get_meta_mode dev <> NVM_META_MODE_NONE -> 0 < meta_nbytes (geo dev) < 2 ^ 32) :
  let g := geo dev in
  let max := nvm_dev_get_write_naddrs_max dev in
  let bgn := offset / sector_nbytes g in let n := count / sector_nbytes g in
  (spage_of g <= max < 2 ^ 31 -> 0 <= count -> 0 <= offset -> offset + count < 2 ^ 63 ->
     refused12 dev v count offset ->
     vblk_pwrite_s12 spdk be dev v buf count offset s = Some (-1, Sys EINVAL (hp s) (world s))) /\
  (request12 dev v max count offset ->
     wp (vblk_pwrite_s12 spdk be dev v buf count offset) s (fun r s' =>
       good mok s' /\ (live s' = live s \/ r = -1 /\ errno s' = ENOMEM /\ buf = None) /\
       (forall a, mdom a -> a ∉ run_of (lin12 g v) bgn n -> media (world s') a = media (world s) a) /\
       (r = count /\ (exists cmd, 1 <= cmd <= max / spage_of g /\ (cmd | nblks v) /\
          forall i, 0 <= i < n -> media (world s') (lin12 g v (bgn + i)) = src12 g cmd buf i) \/
        r = -1 /\ (errno s' = EIO /\ ~ Reliable be dev \/
          errno s' = ENOMEM /\ (buf = None \/ nvm_dev_get_meta_mode dev <> NVM_META_MODE_NONE))))).
Proof.
  intros g max bgn n. split.
  - intros Hm Hc Ho Hs Hr. unfold vblk_pwrite_s12. fold max.
    destruct (refused12_plan dev v Hv max count offset Hm Hc Ho Hs Hr) as (p & -> & E).
    unfold mbind, M_bind. cbn [lift]. by rewrite E.
  - intros Hr. pose proof (align_pos dev v Hv) as Ha. pose proof (spage_range dev v Hv) as Hsp.
    destruct (request12_plan dev v Hv max count offset Hr)
      as (cmd & Hc & Hd & Ep & Er & Hb & Hu & Hbd & Hcs & Eo & Ec).
    pose proof (v12_nb _ _ Hv) as Hnb. unfold NVM_NADDR_MAX in Hcs.
    change (spage_of (geo dev)) with (spage_of g) in Hsp, Hcs.
    assert (Hcsp : 1 <= cmd * spage_of g <= 64) by nia.
    assert (Hpd : 0 < cmd * spage_of g * sector_nbytes g < 2 ^ 64) by (fold g in Hnb; nia).
    assert (Ebgn : bgn = offset / align12 g * spage_of g) by (apply (whole_spages g offset); [fold g in Hnb; lia|exact Eo]).
    assert (En : n = count / align12 g * spage_of g) by (apply (whole_spages g count); [fold g in Hnb; lia|exact Ec]).
    unfold vblk_pwrite_s12. fold max. apply wp_bind. rewrite Ep. eapply wp_intro; [done|]. rewrite Er.
    cbn [cmd_nspages spage_naddrs plan12]. fold g. apply wp_bind.
    rewrite (i32_id (cmd * _)) by lia.
    eapply (wp_write_bufs spdk dev Halloc); [|intros ->|done| |].
    + intros Hm. specialize (Hoob Hm). fold g in Hoob. rewrite wrap_id; nia.
    + rewrite wrap_id; lia.
    + rewrite (wrap_id 64 (_ * sector_nbytes g)) by lia.
      intros b s1 Hbo. eapply wp_ext with (m' := (nerr ← (offs ← lift (s12_range (plan12 dev cmd (offset / align12 g) (count / align12 g)));
        mfold (pwrite_s12_cmd be dev v (plan12 dev cmd (offset / align12 g) (count / align12 g)) buf b) offs 0); write_done spdk dev b count nerr)).
      { unfold mbind, M_bind. by destruct (lift _ s1) as [[? ?]|]. }
      apply wp_bind. eapply (wp_pwrite12_loop be dev v Hv Hdom cmd _ _ ltac:(nia) Hb Hu Hbd ltac:(unfold g in *; lia)
        (served_le (be := be) dev _ (cmd * spage_of (geo dev)) NVM_NADDR_MAX Hsv Hcs)
        buf b (src12 g cmd buf)); [apply Hbo|eapply (source12_request dev v Hv); [exact Hr|lia|exact Hbuf|exact Hbo]|].
      intros k nerr s2 (Hwf2 & Hl2 & [Hn Hrel] & Hfr & Hda).
      fold g in Hfr, Hda. rewrite <-Ebgn, <-En in *. rewrite (bo_world _ _ _ _ _ _ Hbo) in Hfr.
      eapply (wp_write_done spdk dev Halloc); [exact Hwf|exact Hbo|done|done|].
      intros s3 Hwf3 Hl3 Hw3. destruct (Z.eqb_spec nerr 0) as [->|Hne].
      * split; [done|]. split; [by left|]. split; [by rewrite Hw3|]. left. split; [done|].
        exists cmd. split; [done|]. split; [done|]. rewrite Hw3. by apply Hda.
      * split; [done|]. split; [left; exact Hl3|]. split; [cbn; by rewrite Hw3|]. right.
        split; [done|]. left. split; [done|]. intros HR. by apply Hrel in HR.
    + intros s' Hwf' Hl' Hw' He Hwhy. apply wp_ret. split; [done|].
      split; [destruct Hl' as [?|[_ ?]]; [by left|by right]|]. split; [by rewrite Hw'|]. right.
      split; [done|]. by right.
Qed.

(** C17: a read of a 1.2 virtual block. A request past the end, or not made of
    whole super-pages, is refused with [EINVAL]. Any other one changes
    nothing on the device nor past [count] in the buffer, keeps no memory, and
    either answers [count], the buffer then holding sectors
    [offset, offset + count) in order, or -1 with [EIO] when a command
    failed. *)
Theorem pread_s12_correct {W} (be : nvm_be W) (dev : nvm_dev)
    `{!Media be dev} (v : nvm_vblk) (Hv : vblk12_ok dev v) (Hdom : on_device12 dev v mdom)
    (Hsv : served (be := be) dev (u16 (nvm_dev_get_pmode dev)) NVM_NADDR_MAX)
    (l : list Z) (count offset : Z) (s : sys W) (Hwf : good mok s)
    (Hbuf : count <= Z.of_nat (length l)) :
  let g := geo dev in
  let max := nvm_dev_get_read_naddrs_max dev in
  let bgn := offset / sector_nbytes g in let n := count / sector_nbytes g in
  (spage_of g <= max < 2 ^ 31 -> 0 <= count -> 0 <= offset -> offset + count < 2 ^ 63 ->
     refused12 dev v count offset ->
     vblk_pread_s12 be dev v (Some l) count offset s =
       Some (-1, Some l, Sys EINVAL (hp s) (world s))) /\
  (request12 dev v max count offset ->
     wp (vblk_pread_s12 be dev v (Some l) count offset) s (fun '(r, m) s' =>
       good mok s' /\ live s' = live s /\ (forall a, mdom a -> media (world s') a = media (world s) a) /\
       exists d, m = Some d /\ length d = length l /\
         drop (Z.to_nat count) d = drop (Z.to_nat count) l /\
         (r = count /\ take (Z.to_nat count) d = concat (media (world s) <$> run_of (lin12 g v) bgn n) \/
          r = -1 /\ errno s' = EIO /\ ~ Reliable be dev))).
Proof.
  intros g max bgn n. split.
  - intros Hm Hc Ho Hs Hr. unfold vblk_pread_s12. fold max.
    destruct (refused12_plan dev v Hv max count offset Hm Hc Ho Hs Hr) as (p & -> & E).
    unfold mbind, M_bind. cbn [lift]. by rewrite E.
  - intros Hr. pose proof (align_pos dev v Hv) as Ha. pose proof (spage_range dev v Hv) as Hsp.
    destruct (request12_plan dev v Hv max count offset Hr)
      as (cmd & Hc & Hd & Ep & Er & Hb & Hu & Hbd & Hcs & Eo & Ec).
    pose proof (v12_nb _ _ Hv) as Hnb. unfold NVM_NADDR_MAX in Hcs.
    change (spage_of (geo dev)) with (spage_of g) in Hsp, Hcs.
    fold g in Hnb. assert (Hcsp : 1 <= cmd * spage_of g <= 64) by nia.
    assert (Ebgn : bgn = offset / align12 g * spage_of g) by (apply (whole_spages g offset); [fold g in Hnb; lia|exact Eo]).
    assert (En : n = count / align12 g * spage_of g) by (apply (whole_spages g count); [fold g in Hnb; lia|exact Ec]).
    assert (Ect : count / align12 (geo dev) * spage_of (geo dev) * nbytes (geo dev) = count)
      by (etrans; [|symmetry; exact Ec]; fold g; unfold align12 at 3; unfold nbytes; ring).
    unfold vblk_pread_s12. fold max. apply wp_bind. rewrite Ep. eapply wp_intro; [done|]. rewrite Er.
    eapply wp_ext with (m' := ('(nerr, m) ← (offs ← lift (s12_range (plan12 dev cmd (offset / align12 g) (count / align12 g)));
        mfold (pread_s12_cmd be dev v (plan12 dev cmd (offset / align12 g) (count / align12 g))) offs (0, Some l)); read_done nerr count m)).
    { unfold mbind, M_bind. by destruct (lift _ s) as [[? ?]|]. }
    apply wp_bind. eapply (wp_pread12_loop be dev v Hv Hdom cmd _ _ ltac:(nia) Hb Hu Hbd ltac:(unfold g in *; lia)
        (served_le (be := be) dev _ (cmd * spage_of (geo dev)) NVM_NADDR_MAX Hsv Hcs)
        l); [done|fold g; change (align12 g) with (align12 (geo dev)); eapply Z.le_trans; [apply Z.eq_le_incl; exact Ect|exact Hbuf]|].
    intros k [nerr m] s2 (Hwf2 & Hl2 & Hm2 & [Hn Hrel] & d & Em & Hld & Hdr & Htk).
    cbn [fst snd] in *. subst m. rewrite Ect in Hdr, Htk. fold g in Htk. rewrite <-Ebgn, <-En in Htk. unfold read_done.
    destruct (Z.eqb_spec nerr 0) as [->|Hne].
    + split; [done|]. split; [done|]. split; [done|]. exists d.
      split; [done|]. split; [done|]. split; [done|]. left. split; [done|]. by apply Htk.
    + split; [done|]. split; [done|]. split; [done|]. exists d.
      split; [done|]. split; [done|]. split; [done|]. right. split; [done|]. split; [done|].
      intros HR. by apply Hrel in HR.
Qed.

Lemma write_bufs_leak {W} (spdk : spdk_env W) dev padn metan (s : sys W) : alloc_ok spdk dev ->
  0 < padn -> 0 < metan -> 0 < hp_next (hp s) -> nvm_dev_get_meta_mode dev <> NVM_META_MODE_NONE ->
  hp_ok (hp s) (hp_next (hp s)) = true -> hp_ok (hp s) (hp_next (hp s) + 1) = false ->
  wp (write_bufs_alloc spdk dev true None padn metan) s (fun r s' =>
    r = inr (-1) /\ errno s' = ENOMEM /\ world s' = world s /\ live s' = {[hp_next (hp s)]} ∪ live s).
Proof.
  intros [Ha _] Hp Hm Hn Hmode H1 H2. unfold wp, write_bufs_alloc. unfold mbind, M_bind.
  rewrite Ha by lia. unfold malloc at 1. rewrite H1.
  rewrite (proj2 (Z.eqb_neq (hp_next (hp s)) 0)) by lia. rewrite buf_fill_fresh by lia.
  cbn [lift mret M_ret]. rewrite (proj2 (Z.eqb_neq _ _) Hmode). rewrite Ha by lia.
  unfold malloc. cbn [hp hp_next hp_ok]. rewrite H2. done.
Qed.

(** A write to a 1.2 virtual block without a buffer of its caller's loses
    the padding buffer when the meta buffer cannot be allocated: it answers -1
    and [ENOMEM], and the block obtained for the padding stays allocated with
    nothing referring to it. *)
Theorem pwrite_s12_leaks_padding {W} (spdk : spdk_env W) (be : nvm_be W) (dev : nvm_dev)
    (v : nvm_vblk) (Hv : vblk12_ok dev v) (Halloc : alloc_ok spdk dev)
    (count offset : Z) (s : sys W) (Hwf : heap_wf s)
    (Hr : request12 dev v (nvm_dev_get_write_naddrs_max dev) count offset)
    (Hmode : nvm_dev_get_meta_mode dev <> NVM_META_MODE_NONE)
    (Hoob : 0 < meta_nbytes (geo dev) < 2 ^ 32)
    (Hpad : hp_ok (hp s) (hp_next (hp s)) = true)
    (Hmeta : hp_ok (hp s) (hp_next (hp s) + 1) = false) :
  wp (vblk_pwrite_s12 spdk be dev v None count offset) s (fun r s' =>
    r = -1 /\ errno s' = ENOMEM /\ world s' = world s /\
    live s' = {[hp_next (hp s)]} ∪ live s /\ hp_next (hp s) ∉ live s).
Proof.
  pose proof (align_pos dev v Hv) as Ha. pose proof (spage_range dev v Hv) as Hsp.
  destruct (request12_plan dev v Hv _ count offset Hr)
    as (cmd & Hc & Hd & Ep & Er & _ & _ & _ & Hcs & _). unfold NVM_NADDR_MAX in Hcs.
  pose proof (v12_nb _ _ Hv) as Hnb. assert (1 <= cmd * spage_of (geo dev)) by nia.
  unfold vblk_pwrite_s12. apply wp_bind. rewrite Ep. eapply wp_intro; [done|]. rewrite Er.
  cbn [cmd_nspages spage_naddrs plan12]. rewrite (i32_id (cmd * _)) by lia. apply wp_bind.
  eapply wp_mono; [apply write_bufs_leak; [done|rewrite wrap_id; nia|rewrite wrap_id; nia|exact (proj1 (proj1 Hwf))|done..]|].
  intros r s' (-> & E1 & E2 & E3). apply wp_ret. split; [done|]. split; [done|]. split; [done|].
  split; [done|]. intros Hin%(good_live _ _ Hwf). lia.
Qed.

(** The read limit a 1.2 device accepts can make every read undefined.
    Any limit [n <= 64] that is a multiple of the planes is accepted by
    [nvm_dev_set_read_naddrs_max]; when it is smaller than a super-page (planes
    times sectors), each later read of a virtual block, whatever the range,
    divides by zero. *)
Theorem read_limit_divides_by_zero {W} (be : nvm_be W) (dev : nvm_dev) (v : nvm_vblk) (n : Z)
    (Hv : vblk12_ok dev v) (Hn : 0 < n <= NVM_NADDR_MAX) (Hpl : (nplanes (geo dev) | n))
    (Hsmall : n < spage_of (geo dev)) :
  let dev' := with_read_naddrs_max n dev in
  (forall s : sys W, nvm_dev_set_read_naddrs_max dev n s = Some (0, dev', s)) /\
  (forall buf count offset (s : sys W), vblk_pread_s12 be dev' v buf count offset s = None).
Proof.
  intros dev'. pose proof (spage_range dev v Hv) as Hs. pose proof (v12_nplanes _ _ Hv) as Hp.
  unfold NVM_NADDR_MAX in Hn. split.
  - intros s. unfold nvm_dev_set_read_naddrs_max. unfold NVM_NADDR_MAX.
    rewrite (proj2 (Z.ltb_ge 64 n)), (proj2 (Z.ltb_ge n 1)) by lia.
    unfold umod. rewrite (proj2 (Z.eqb_neq (nplanes (geo dev)) 0)), (wrap_id 64 n) by lia.
    rewrite (proj2 (Z.mod_divide n (nplanes (geo dev)) ltac:(lia)) Hpl). unfold mbind, M_bind.
    by destruct (pmode (opts dev) =? 0).
  - intros buf count offset s. unfold vblk_pread_s12. unfold mbind, M_bind.
    assert (E : s12_prepare dev' v (nvm_dev_get_read_naddrs_max dev') count offset = None); [|by rewrite E].
    unfold s12_prepare. change (geo dev') with (geo dev). cbn zeta. fold (spage_of (geo dev)).
    rewrite (wrap_id 64 (spage_of _)), i32_id, (proj2 (Z.eqb_neq (spage_of (geo dev)) 0)) by lia.
    change (nvm_dev_get_read_naddrs_max dev') with n.
    rewrite Z.quot_div_nonneg, Z.div_small by lia. done.
Qed.

(** ** Witnesses *)

(** Two blocks of [tiny12], in different channels: 32 bytes. *)
Definition tiny_vblk12 : nvm_vblk := tiny_vblk.

Lemma tiny_vblk12_ok : vblk12_ok tiny12 tiny_vblk12.
Proof. split; try done. apply tiny_members. Qed.

#[export] Instance tiny12_media : Media (ram_be tiny12) tiny12 := ram_media tiny12 (TCEq_refl _).

Lemma tiny12_on_device : on_device12 tiny12 tiny_vblk12 (mdom (Media := tiny12_media)).
Proof. done. Qed.

Lemma tiny12_served : served (be := ram_be tiny12) tiny12 (u16 (nvm_dev_get_pmode tiny12)) NVM_NADDR_MAX.
Proof. done. Qed.

Lemma tiny12_alloc : alloc_ok (W := gmap nvm_addr (list Z)) spdk_stub tiny12.
Proof. apply virt_alloc_ok. by left. Qed.

Lemma tiny12_request : request12 tiny12 tiny_vblk12 64 16 8.
Proof. split; try done; by exists 2. Qed.

Lemma pwrite_s12_correct_witness :
  let s := Sys 0 (sample_heap 9) ∅ in
  let buf := Some (seqZ 10 16) in
  vblk_pwrite_s12 spdk_stub (ram_be tiny12) tiny12 tiny_vblk12 buf 16 24 s =
    Some (-1, Sys EINVAL (hp s) (world s)) /\
  wp (vblk_pwrite_s12 spdk_stub (ram_be tiny12) tiny12 tiny_vblk12 buf 16 8) s (fun r s' =>
    r = 16 /\ media (world s') (lin12 (geo tiny12) tiny_vblk12 4) = [10; 11] /\
    media (world s') (lin12 (geo tiny12) tiny_vblk12 11) = [24; 25]).
Proof.
  intros s buf.
  pose proof (fun count offset H => pwrite_s12_correct spdk_stub (ram_be tiny12) tiny12 tiny_vblk12
    tiny_vblk12_ok tiny12_on_device tiny12_served tiny12_alloc buf count offset s (sample_heap_wf _ _ _) H) as C.
  split.
  - destruct (C 16 24) as [C1 _]; [by vm_compute|by intros []|]. apply C1; try done. left. done.
  - destruct (C 16 8) as [_ C2]; [by vm_compute|by intros []|]. specialize (C2 tiny12_request).
    apply wp_elim in C2 as (r & s' & E & _ & _ & _ & [(-> & cmd & _ & _ & Hd)|[_ [[_ HR]|[_ [HN|HM]]]]]).
    2: { destruct HR. apply ram_reliable. }
    2: { discriminate HN. }
    2: { by destruct HM. }
    eapply wp_intro; [exact E|]. split; [done|].
    pose proof (Hd 0 ltac:(by split)) as D0. pose proof (Hd 7 ltac:(by split)) as D7.
    split; [exact D0|exact D7].
Defined.

Lemma pread_s12_correct_witness :
  let s := Sys 0 (sample_heap 9) (<[lin12 (geo tiny12) tiny_vblk12 5 := [44; 45]]> ∅) in
  wp (vblk_pread_s12 (ram_be tiny12) tiny12 tiny_vblk12 (Some (replicate 17 9)) 16 8) s
    (fun '(r, m) _ => r = 16 /\
       m = Some ([0; 0; 44; 45] ++ replicate 12 0 ++ [9])).
Proof.
  intros s. destruct (pread_s12_correct (ram_be tiny12) tiny12 tiny_vblk12 tiny_vblk12_ok tiny12_on_device tiny12_served
    (replicate 17 9) 16 8 s (sample_heap_wf _ _ _)) as [_ C]; [done|].
  apply wp_elim in C as ([r m] & s' & E & _ & _ & _ & d & -> & Hl & Hd & HR); [|apply tiny12_request].
  eapply wp_intro; [exact E|]. destruct HR as [[-> Ht] | (_ & _ & HR)]; [|destruct HR; apply ram_reliable].
  split; [done|]. f_equal. etrans; [symmetry; apply (take_drop (Z.to_nat 16) d)|].
  rewrite Ht, Hd. by vm_compute.
Defined.

Lemma pwrite_s12_leaks_padding_witness :
  let dev := with_meta_mode NVM_META_MODE_ALPHA tiny12 in
  wp (vblk_pwrite_s12 spdk_stub (ram_be dev) dev tiny_vblk12 None 16 8) (Sys 0 (sample_heap 8) ∅)
    (fun r s' => r = -1 /\ errno s' = ENOMEM /\ live s' = {[7]} ∪ {[3; 5]}).
Proof.
  intros dev. eapply wp_mono.
  - apply (pwrite_s12_leaks_padding spdk_stub (ram_be dev) dev tiny_vblk12).
    + split; try done. apply tiny_members.
    + apply virt_alloc_ok. by left.
    + apply sample_heap_wf.
    + split; try done; by exists 2.
    + done.
    + by split.
    + done.
    + done.
  - cbn beta. intros r s' (H1 & H2 & _ & H4 & _). done.
Defined.

Lemma read_limit_divides_by_zero_witness :
  vblk_pread_s12 (ram_be tiny12) (with_read_naddrs_max 2 tiny12) tiny_vblk12 (Some [1; 2]) 0 0
    (Sys 0 (sample_heap 9) ∅) = None.
Proof.
  apply (read_limit_divides_by_zero (ram_be tiny12) tiny12 tiny_vblk12 2 tiny_vblk12_ok);
    [by split|by exists 1|done].
Defined.
