(* ===== verification/VblkOps.v ===== *)
(** Allocation and erasure of virtual blocks. *)
From stdpp Require Import base numbers strings gmap option list.
From S2P Require Import Prelude Types Nvme Addr Dev Backend Buf Cmd Vblk Stripe Media Linear.

(** ** Erase: the addresses an erase must cover *)

(** Target [x]: a member chunk, or a plane of a member block. *)
Definition erase_target (dev : nvm_dev) (v : nvm_vblk) (x : Z) : nvm_addr :=
  if verid dev =? NVM_SPEC_VERID_12
  then set_g_pl (x mod nplanes (geo dev)) (member v (x / nplanes (geo dev)))
  else member v x.

Definition erase_ntargets (dev : nvm_dev) (v : nvm_vblk) : Z :=
  if verid dev =? NVM_SPEC_VERID_12 then nblks v * nplanes (geo dev) else nblks v.

Definition erase_flags (dev : nvm_dev) : Z :=
  if verid dev =? NVM_SPEC_VERID_12 then u16 (Z.lor (nvm_dev_get_pmode dev) NVM_VBLK_CMD_OPTS) else 0.

(** The virtual block after an erase. *)
Definition erased (v : nvm_vblk) : nvm_vblk := with_pos_read 0 (with_pos_write 0 v).

(** Commands of [m] targets each. *)
Definition erase_cmds (dev : nvm_dev) (v : nvm_vblk) (m k : Z) : list (list nvm_addr) :=
  (fun i => run_of (erase_target dev v) (i * m) m) <$> seqZ 0 k.

Lemma concat_runs f x m k : 0 <= m -> 0 <= k ->
  concat ((fun i => run_of f (x + i * m) m) <$> seqZ 0 k) = run_of f x (k * m).
Proof.
  intros Hm. revert k. apply natlike_ind; [done|]. intros k Hk IH.
  rewrite <-Z.add_1_r, seqZ_app, fmap_app, concat_app, IH by lia.
  replace (seqZ (0 + k) 1) with [k] by (unfold seqZ; cbn; f_equal; lia). cbn.
  rewrite app_nil_r, Z.mul_add_distr_r, Z.mul_1_l, run_of_app by nia. done.
Qed.

Section erase.
Context {W : Type} (be : nvm_be W) (dev : nvm_dev) (v : nvm_vblk) (Hv : members_ok v).
Implicit Types s : sys W.

(** Erase commands one after the other, counting failures. *)
Definition erase_all (cmds : list (list nvm_addr)) : M W Z :=
  mfold (fun c nerr => erase_cmd be dev c (Z.of_nat (length c)) (erase_flags dev) nerr) cmds 0.

(** The loop over blocks, [cmd] blocks and [cmd * per] addresses at a time. *)
Lemma erase_loop cmd per (F : Z -> Z -> M W Z) s : 1 <= cmd -> (cmd | nblks v) -> 0 < per ->
  (forall k nerr s, 0 <= k < nblks v / cmd ->
     F (0 + k * cmd) nerr s = erase_cmd be dev (run_of (erase_target dev v) (k * (cmd * per)) (cmd * per))
       (cmd * per) (erase_flags dev) nerr s) ->
  (offs ← lift (range_lt (Z.to_nat (nblks v)) 0 (nblks v) cmd); nerr ← mfold F offs 0; erase_done v nerr) s =
  (nerr ← erase_all (erase_cmds dev v (cmd * per) (nblks v / cmd)); erase_done v nerr) s.
Proof.
  intros Hc [q Hq] Hper HF. pose proof (mo_n v Hv) as Hn. unfold VBLK_MAX in Hn.
  assert (Hdiv : nblks v / cmd = q) by (rewrite Hq; apply Z.div_mul; lia).
  assert (Hq0 : 0 < q) by nia.
  assert (Ht : trips 0 (nblks v) cmd = Z.to_nat q).
  { replace (nblks v) with (0 + q * cmd) by lia. apply trips_mul; lia. }
  assert (cmd <= 128) by nia.
  rewrite range_lt_steps by (rewrite ?Ht; nia). rewrite Ht. unfold mbind at 1, M_bind at 1. cbn [lift].
  unfold mbind, M_bind. unfold erase_all, erase_cmds. rewrite mfold_fmap. unfold steps.
  rewrite mfold_fmap, Z2Nat.id, Hdiv by lia. erewrite mfold_ext; [done|].
  intros k nerr s' Hk%elem_of_seqZ. cbn beta. rewrite HF by lia.
  by rewrite run_of_len by nia.
Qed.

Lemma erase_addrs_s12 off cmd : 0 < nplanes (geo dev) <= 2 ^ 8 -> verid dev = NVM_SPEC_VERID_12 ->
  0 <= off -> 0 <= cmd -> off + cmd <= nblks v ->
  build_addrs (erase_addr_s12 dev v off (nplanes (geo dev))) (cmd * nplanes (geo dev)) =
    Some (run_of (erase_target dev v) (off * nplanes (geo dev)) (cmd * nplanes (geo dev))).
Proof.
  intros Hp Hver Ho Hc Hb. unfold run_of. rewrite <-seqZ_shift. apply build_addrs_some.
  intros i Hi. unfold erase_addr_s12, zdiv, zmod, erase_target. by_verid Hver.
  rewrite (proj2 (Z.eqb_neq (nplanes (geo dev)) 0)) by lia. cbn [mbind option_bind].
  assert (0 <= i / nplanes (geo dev) < cmd)
    by (split; [apply Z.div_pos; lia|apply Z.div_lt_upper_bound; lia]).
  rewrite member_lookup by done || lia. cbn [mbind option_bind].
  by rewrite Z.div_add_l, (Z.add_comm (off * _)), Z.mod_add by lia.
Qed.

Lemma erase_addrs_s20 off cmd : verid dev = NVM_SPEC_VERID_20 -> 0 <= off -> 0 <= cmd ->
  off + cmd <= nblks v ->
  build_addrs (fun i => blks v !! Z.to_nat (off + i)) cmd = Some (run_of (erase_target dev v) off cmd).
Proof.
  intros Hver Ho Hc Hb. unfold run_of. rewrite <-seqZ_shift. apply build_addrs_some.
  intros i Hi. unfold erase_target. by_verid Hver. apply member_lookup; done || lia.
Qed.

(** The limit a command must respect. *)
Definition erase_limit_ok : Prop :=
  0 < nvm_dev_get_erase_naddrs_max dev <= NVM_NADDR_MAX /\
  (verid dev = NVM_SPEC_VERID_12 -> 0 < nplanes (geo dev) <= nvm_dev_get_erase_naddrs_max dev).

Lemma vblk_erase_cmds : verid dev = NVM_SPEC_VERID_12 \/ verid dev = NVM_SPEC_VERID_20 ->
  erase_limit_ok ->
  exists m k, 0 < m <= nvm_dev_get_erase_naddrs_max dev /\ 0 < k /\ k * m = erase_ntargets dev v /\
    forall s, nvm_vblk_erase be dev v s =
      (nerr ← erase_all (erase_cmds dev v m k); erase_done v nerr) s.
Proof.
  intros Hver [Hmax H12]. pose proof (mo_n v Hv) as Hn. unfold VBLK_MAX, NVM_NADDR_MAX in *.
  unfold nvm_vblk_erase, erase_ntargets. destruct Hver as [E|E]; by_verid E.
  - specialize (H12 E). set (np := nplanes (geo dev)) in *.
    set (max := nvm_dev_get_erase_naddrs_max dev) in *.
    assert (Hq : 1 <= max / np <= 64).
    { split; [apply Z.div_le_lower_bound; lia|apply Z.div_le_upper_bound; nia]. }
    destruct (count_down_le (nblks v) (max / np)) as (cmd & Ecmd & Hc & Hd & _); [lia|lia|].
    pose proof Hd as [q Hq']. pose proof (Z.mul_div_le max np ltac:(lia)).
    exists (cmd * np), q. split; [nia|]. split; [nia|]. split; [rewrite Hq'; ring|]. intros s.
    replace q with (nblks v / cmd) by (rewrite Hq'; apply Z.div_mul; lia).
    unfold vblk_erase_s12. cbn zeta. fold np max. rewrite i32_id by lia.
    rewrite (proj2 (Z.eqb_neq np 0)), Z.quot_div_nonneg by lia. unfold mbind at 1, M_bind at 1. cbn [lift].
    unfold cmd_nblks. rewrite Ecmd. unfold mbind at 1, M_bind at 1. cbn [lift].
    apply (erase_loop cmd np); [lia|done|lia|].
    intros k nerr s' Hk. assert (k * cmd + cmd <= nblks v) by (rewrite Hq', Z.div_mul in Hk by lia; nia).
    replace (0 + k * cmd) with (k * cmd) by lia. rewrite NVM_MIN_min, Z.min_l by nia.
    pose proof (erase_addrs_s12 (k * cmd) cmd ltac:(lia) E ltac:(nia) ltac:(lia) ltac:(lia)) as EA.
    fold np in EA. rewrite EA.
    unfold mbind, M_bind. cbn [lift]. unfold erase_flags. by_verid E. fold np.
    by rewrite Z.mul_assoc.
  - set (max := nvm_dev_get_erase_naddrs_max dev) in *.
    destruct (count_down_le (nblks v) max) as (cmd & Ecmd & Hc & Hd & _); [lia|lia|].
    pose proof Hd as [q Hq']. exists cmd, q. split; [lia|]. split; [nia|]. split; [lia|]. intros s.
    replace q with (nblks v / cmd) by (rewrite Hq'; apply Z.div_mul; lia).
    unfold vblk_erase_s20. fold max. unfold cmd_nblks. rewrite Ecmd.
    unfold mbind at 1, M_bind at 1. cbn [lift]. replace (erase_cmds dev v cmd) with (erase_cmds dev v (cmd * 1)) by (f_equal; lia).
    apply (erase_loop cmd 1); [lia|done|lia|].
    intros k nerr s' Hk. assert (k * cmd + cmd <= nblks v) by (rewrite Hq', Z.div_mul in Hk by lia; nia).
    replace (0 + k * cmd) with (k * cmd) by lia. rewrite NVM_MIN_min, Z.min_l by nia.
    cbn zeta. rewrite (erase_addrs_s20 (k * cmd) cmd) by done || lia.
    unfold mbind, M_bind. cbn [lift]. unfold erase_flags. by_verid E.
    by rewrite Z.mul_1_r.
Qed.
End erase.

(** ** Allocation *)

(** The size of a virtual block of [n] members, by version. *)
Definition alloc_nbytes (dev : nvm_dev) (n : Z) : Z :=
  if verid dev =? NVM_SPEC_VERID_12 then nbytes_s12 dev n else nbytes_s20 dev n.

(** The virtual block on the members [l], for the handle at [d]. *)
Definition vblk_of (dev : nvm_dev) (d : Z) (l : list nvm_addr) (flags : Z) : nvm_vblk :=
  Vblk d (l ++ replicate (Z.to_nat VBLK_MAX - length l) 0) (Z.of_nat (length l))
    (alloc_nbytes dev (Z.of_nat (length l))) 0 0 flags None [] 0.

(** What allocating [l] promises. *)
Definition alloc_post {W} (dev : nvm_dev) (d : Z) (l : list nvm_addr) (s : sys W)
    (o : option (Z * nvm_vblk)) (s' : sys W) : Prop :=
  heap_wf s' /\ world s' = world s /\
  match o with
  | Some (p, v) => p <> 0 /\ (p ∉ live s) /\ live s' = {[p]} ∪ live s /\
      Forall (in_bounds dev) l /\ v = vblk_of dev d l NVM_VBLK_CMD_OPTS
  | None => live s' = live s /\
      (errno s' = ENOMEM \/ errno s' = EINVAL /\ ~ Forall (in_bounds dev) l)
  end.

Section alloc.
Context {W : Type} (spdk : spdk_env W) (dev : nvm_dev).
Context (Hver : verid dev = NVM_SPEC_VERID_12 \/ verid dev = NVM_SPEC_VERID_20).
Implicit Types s : sys W.

Lemma wp_check_member a s (Q : Z -> sys W -> Prop) :
  (in_bounds dev a -> Q 0 s) -> (forall r, ~ in_bounds dev a -> r <> 0 -> Q r s) ->
  wp (nvm_addr_check a dev) s Q.
Proof.
  intros HY HN. destruct (addr_check_ok a dev s Hver) as (r & E & Hr). eapply wp_intro; [exact E|].
  destruct (decide (r = 0)) as [->|Hne]; [by apply HY, Hr|]. apply HN; [|done]. tauto.
Qed.

(** Filling the next entry of the array. *)
Lemma insert_zeros (l : list nvm_addr) n a : (length l < n)%nat ->
  <[length l := a]> (l ++ replicate (n - length l) 0) = (l ++ [a]) ++ replicate (n - length (l ++ [a])) 0.
Proof.
  intros Hn. rewrite length_app. cbn. rewrite insert_app_r_alt, Nat.sub_diag by lia.
  replace (n - length l)%nat with (S (n - (length l + 1))) by lia. cbn. by rewrite <-app_assoc.
Qed.

Lemma take_next {A} (l : list A) (i : Z) a : 0 <= i -> l !! Z.to_nat i = Some a ->
  take (Z.to_nat (i + 1)) l = take (Z.to_nat i) l ++ [a].
Proof.
  intros Hi Ha. replace (Z.to_nat (i + 1)) with (S (Z.to_nat i)) by lia. by apply take_S_r.
Qed.

(** Releasing the block of a refused allocation. *)
Lemma free_refused p s s1 : p <> 0 -> p ∉ live s -> live s1 = {[p]} ∪ live s ->
  live s1 ∖ {[p]} = live s.
Proof. intros. set_solver. Qed.

Lemma wp_vblk_alloc d addrs naddrs s (Q : option (Z * nvm_vblk) -> sys W -> Prop) :
  heap_wf s -> 0 <= naddrs <= VBLK_MAX -> naddrs <= Z.of_nat (length addrs) ->
  (forall o s', alloc_post dev d (take (Z.to_nat naddrs) addrs) s o s' -> Q o s') ->
  wp (nvm_vblk_alloc dev d addrs naddrs) s Q.
Proof.
  intros Hwf Hn Hlen HQ. unfold nvm_vblk_alloc. rewrite (proj2 (Z.ltb_ge VBLK_MAX naddrs)) by lia.
  eapply wp_bind, wp_malloc; [done| |].
  - intros s1 H1 H2 H3 H4. apply HQ. split; [done|]. split; [done|]. split; [done|]. by left.
  - intros p s1 Hp Hfr Hwf1 Hl1 Hw1 _. rewrite (proj2 (Z.eqb_neq p 0)) by done. apply wp_bind.
    set (l := take (Z.to_nat naddrs) addrs) in *. unfold VBLK_MAX in Hn.
    assert (Hll : Z.of_nat (length l) = naddrs) by (unfold l; rewrite length_take; lia).
    apply (wp_mfold_ret _
      (fun pre v s => let k := take (length pre) addrs in
         s = s1 /\ v = with_blks (k ++ replicate (128 - length k) 0) 0 (vblk_zero d) /\
         Forall (in_bounds dev) k)
      (fun _ s' => alloc_post dev d l s None s')).
    + split; [done|]. by split.
    + intros pre x post v s2 E. apply seqZ_split in E as (_ & Hx & Hpre). cbn zeta.
      intros (-> & -> & Hall). unfold alloc_step.
      destruct (lookup_lt_is_Some_2 addrs (Z.to_nat x) ltac:(lia)) as [a Ha].
      apply wp_bind, (wp_intro _ _ a s1); [by rewrite Ha|]. apply wp_bind, wp_check_member.
      * intros Hin. cbn beta. rewrite Z.eqb_refl. cbn [negb]. apply wp_ret. split; [done|].
        rewrite length_app. cbn [length].
        assert (Et : take (length pre + 1) addrs = take (length pre) addrs ++ [a]).
        { replace (length pre) with (Z.to_nat x) by lia. rewrite <-(take_next addrs x) by done || lia.
          f_equal. lia. }
        rewrite Et. split; [|apply Forall_app; by split; [|apply Forall_singleton]].
        rewrite <-insert_zeros by (rewrite length_take; lia).
        rewrite length_take. replace (Z.to_nat x) with (length pre `min` length addrs)%nat by lia. done.
      * intros r Hout Hr. cbn beta. rewrite (proj2 (Z.eqb_neq r 0)) by done. cbn [negb].
        apply wp_bind. eapply wp_intro; [done|]. eapply wp_bind, wp_free; [exact Hwf1|right; cbn; set_solver|].
        intros s3 Hwf3 Hl3 Hw3 He3. apply wp_ret. split; [done|]. split; [by rewrite Hw3|].
        split; [rewrite Hl3; by apply free_refused|]. right. split; [done|]. intros Hfa. apply Hout.
        rewrite Forall_lookup in Hfa. apply (Hfa (Z.to_nat x)). unfold l.
        by rewrite lookup_take_lt by lia.
    + intros v s2 (-> & -> & Hall). rewrite length_seqZ in *.
      fold l in Hall |- *.
      assert (HP : forall nb, nb = alloc_nbytes dev naddrs ->
        alloc_post dev d l s (Some (p, with_vnbytes nb (with_vflags NVM_VBLK_CMD_OPTS
          (with_blks (l ++ replicate (128 - length l) 0) naddrs (vblk_zero d))))) s1).
      { intros nb ->. split; [done|]. split; [done|]. split; [done|]. split; [done|]. split; [done|].
        split; [done|]. unfold vblk_of. rewrite Hll. done. }
      cbn zeta. destruct Hver as [E|E]; by_verid E; apply wp_ret, HQ, HP; unfold alloc_nbytes; by_verid E; done.
    + intros [] s2 HK. apply wp_ret. by apply HQ.
Qed.

(** Pushing members one by one: past the array, undefined. *)
Lemma push_all d n flags (l k : list nvm_addr) s : (length k <= 128)%nat ->
  mfold (fun a v => lift (push_blk a v)) l
    (Vblk d (k ++ replicate (128 - length k) 0) (Z.of_nat (length k)) n 0 0 flags None [] 0) s =
  if bool_decide (length k + length l <= 128)%nat
  then Some (Vblk d ((k ++ l) ++ replicate (128 - length (k ++ l)) 0) (Z.of_nat (length (k ++ l))) n 0 0
               flags None [] 0, s)
  else None.
Proof.
  revert k. induction l as [|a l IH]; intros k Hk.
  - cbn. rewrite bool_decide_true by lia. by rewrite app_nil_r.
  - cbn [mfold]. unfold mbind, M_bind. unfold push_blk at 1. cbn [nblks].
    rewrite (proj2 (Z.leb_le 0 _)) by lia. cbn [andb]. unfold VBLK_MAX.
    destruct (Z.ltb_spec (Z.of_nat (length k)) 128) as [Hlt|Hge]; cbn [lift].
    + cbn [blks]. rewrite Nat2Z.id, insert_zeros by lia.
      replace (Z.of_nat (length k) + 1) with (Z.of_nat (length (k ++ [a]))) by (rewrite length_app; cbn; lia).
      unfold with_blks. cbn [vdev blks nblks vblk_nbytes pos_write pos_read vflags async_ctx rets retsp].
      rewrite IH by (rewrite length_app; cbn; lia).
      replace (k ++ a :: l) with ((k ++ [a]) ++ l) by (by rewrite <-app_assoc).
      assert (E : (length (k ++ [a]) + length l = length k + length (a :: l))%nat)
        by (rewrite length_app; cbn; lia). by rewrite E.
    + by rewrite bool_decide_false by (cbn; lia).
Qed.

(** The members of a line, in the order of the loops. *)
Definition line_grid (f : Z -> Z -> nvm_addr) (bgn1 end1 bgn2 end2 : Z) : list nvm_addr :=
  concat ((fun x => f x <$> int_range bgn2 end2) <$> int_range bgn1 end1).

Definition line_addr (blk : Z) : Z -> Z -> nvm_addr :=
  if verid dev =? NVM_SPEC_VERID_12 then line_addr_s12 blk else line_addr_s20 blk.

Lemma line_push_grid f b1 e1 b2 e2 v s :
  line_push f b1 e1 b2 e2 v s =
    mfold (fun a v => lift (push_blk a v)) (line_grid f b1 e1 b2 e2) v s.
Proof.
  unfold line_push, line_grid. rewrite <-mfold_concat. apply mfold_ext.
  intros x v' s' _. by rewrite mfold_fmap.
Qed.

Lemma wp_line_check p v s0 s (Q : unit + unit -> sys W -> Prop) :
  heap_wf s -> p <> 0 -> p ∉ live s0 -> live s = {[p]} ∪ live s0 -> world s = world s0 ->
  (length (blks v) >= Z.to_nat (nblks v))%nat ->
  (Forall (in_bounds dev) (take (Z.to_nat (nblks v)) (blks v)) -> Q (inl tt) s) ->
  (forall s', heap_wf s' -> live s' = live s0 -> world s' = world s0 -> errno s' = EINVAL ->
     ~ Forall (in_bounds dev) (take (Z.to_nat (nblks v)) (blks v)) -> Q (inr tt) s') ->
  wp (mfold_ret (line_check dev p v) (seqZ 0 (nblks v)) tt) s Q.
Proof.
  intros Hwf Hp Hfr Hl Hw Hlen HY HN.
  apply (wp_mfold_ret _
    (fun pre _ s' => s' = s /\ Forall (in_bounds dev) (take (length pre) (blks v)))
    (fun _ s' => heap_wf s' /\ live s' = live s0 /\ world s' = world s0 /\ errno s' = EINVAL /\
       ~ Forall (in_bounds dev) (take (Z.to_nat (nblks v)) (blks v)))).
  - by split.
  - intros pre x post [] s2 E [-> Hall]. apply seqZ_split in E as (_ & Hx & Hpre). unfold line_check.
    destruct (lookup_lt_is_Some_2 (blks v) (Z.to_nat x) ltac:(lia)) as [a Ha].
    apply wp_bind, (wp_intro _ _ a s); [by rewrite Ha|]. apply wp_bind, wp_check_member.
    + intros Hin. cbn beta. rewrite Z.eqb_refl. cbn [negb]. apply wp_ret. split; [done|]. rewrite length_app. cbn [length].
      replace (length pre + 1)%nat with (Z.to_nat (x + 1)) by lia.
      rewrite (take_next _ x a) by done || lia. replace (Z.to_nat x) with (length pre) by lia.
      apply Forall_app. by split; [|apply Forall_singleton].
    + intros r Hout Hr. cbn beta. rewrite (proj2 (Z.eqb_neq r 0)) by done. cbn [negb].
      eapply wp_bind, wp_free; [done|right; set_solver|]. intros s3 Hwf3 Hl3 Hw3 He3.
      apply wp_bind. eapply wp_intro; [done|]. apply wp_ret.
      split; [exact Hwf3|]. split; [|split; [|split; [done|]]].
      * change (live s3 = live s0). rewrite Hl3. by apply free_refused.
      * cbn. congruence.
      * intros Hfa. apply Hout. rewrite Forall_lookup in Hfa. apply (Hfa (Z.to_nat x)).
        by rewrite lookup_take_lt by lia.
  - intros [] s2 [-> Hall]. rewrite length_seqZ in Hall. by apply HY.
  - intros [] s2 (? & ? & ? & ? & ?). by apply HN.
Qed.

(** A line pushes the grid, and checks what it pushed. *)
Definition line_alloc (d : Z) (grid : list nvm_addr) : M W (option (boxed nvm_vblk)) :=
  r ← nvm_vblk_alloc dev d [] 0;
  match r with
  | None => mret None
  | Some (p, v) =>
      v ← mfold (fun a v => lift (push_blk a v)) grid v;
      let v := with_vnbytes (alloc_nbytes dev (nblks v)) v in
      r ← mfold_ret (line_check dev p v) (seqZ 0 (nblks v)) tt;
      match r with inl _ => mret (Some (p, v)) | inr _ => mret None end
  end.

Lemma alloc_line_eq d c1 c2 l1 l2 blk s :
  nvm_vblk_alloc_line spdk dev d c1 c2 l1 l2 blk s = line_alloc d (line_grid (line_addr blk) l1 l2 c1 c2) s.
Proof.
  unfold nvm_vblk_alloc_line, line_alloc, line_addr, alloc_nbytes.
  unfold mbind, M_bind. destruct (nvm_vblk_alloc dev d [] 0 s) as [[[[p v]|] s1]|]; [|done..].
  destruct Hver as [E|E]; by_verid E; cbv beta; by rewrite line_push_grid.
Qed.

(** The members past the end of the array are written there. *)
Lemma line_alloc_overflow d grid s : heap_wf s -> (128 < length grid)%nat -> hp_ok (hp s) (hp_next (hp s)) = true ->
  line_alloc d grid s = None.
Proof.
  intros Hwf Hn Hok. unfold line_alloc, mbind, M_bind.
  unfold nvm_vblk_alloc. change (VBLK_MAX <? 0) with false. cbv iota.
  unfold mbind, M_bind. unfold malloc. rewrite Hok.
  rewrite (proj2 (Z.eqb_neq (hp_next (hp s)) 0)) by (destruct Hwf as [[] _]; lia).
  assert (Ez : seqZ 0 0 = []) by done. rewrite Ez. cbn [mfold_ret mret M_ret].
  destruct Hver as [Ev|Ev]; by_verid Ev; unfold mret, M_ret;
    match goal with |- context [mfold _ grid ?v ?s0] =>
      change v with (Vblk d ([] ++ replicate (128 - length (@nil nvm_addr)) 0)
        (Z.of_nat (length (@nil nvm_addr))) (vblk_nbytes v) 0 0 (vflags v) None [] 0)
    end; rewrite push_all by (cbn; lia); by rewrite bool_decide_false by (cbn; lia).
Qed.
End alloc.

(** ** Properties *)

(** C20: erasing a virtual block erases every member exactly once. The
    commands issued, in order, cover exactly the targets (each member chunk on
    2.0, each plane of each member block on 1.2), each command holding the same
    number of addresses, at most the erase limit. The answer is the size of the
    virtual block with both positions reset when no command failed, and -1 with
    [EIO] and the positions kept otherwise. *)
Theorem vblk_erase_correct {W} (be : nvm_be W) (dev : nvm_dev) (v : nvm_vblk) (Hv : members_ok v)
    (Hver : verid dev = NVM_SPEC_VERID_12 \/ verid dev = NVM_SPEC_VERID_20) (Hlim : erase_limit_ok dev) :
  exists m k, 0 < m <= nvm_dev_get_erase_naddrs_max dev /\ 0 < k /\
    Forall (fun c => Z.of_nat (length c) = m) (erase_cmds dev v m k) /\
    concat (erase_cmds dev v m k) = erase_target dev v <$> seqZ 0 (erase_ntargets dev v) /\
    forall s : sys W,
      nvm_vblk_erase be dev v s =
        match erase_all be dev (erase_cmds dev v m k) s with
        | Some (nerr, s') =>
            if nerr =? 0 then Some (vblk_nbytes v, erased v, s')
            else Some (-1, v, Sys EIO (hp s') (world s'))
        | None => None
        end.
Proof.
  destruct (vblk_erase_cmds be dev v Hv Hver Hlim) as (m & k & Hm & Hk & Hmk & E).
  exists m, k. split; [done|]. split; [done|]. split; [|split].
  - unfold erase_cmds. apply Forall_fmap, list.Forall_forall. intros x _. cbn. apply run_of_len. lia.
  - rewrite <-Hmk. change (erase_target dev v <$> seqZ 0 (k * m)) with (run_of (erase_target dev v) 0 (k * m)).
    rewrite <-concat_runs by lia. f_equal.
  - intros s. rewrite E. unfold mbind, M_bind.
    destruct (erase_all be dev _ s) as [[nerr s']|]; [|done].
    unfold erase_done. by destruct (nerr =? 0).
Qed.

(** C21: allocating a virtual block. More than 128 addresses are refused with
    [EINVAL]. Otherwise the answer is a new block with the given members in
    order, the size of their sum and both positions at 0, every member inside
    the device; or [NULL], with [EINVAL] and an address outside the device or
    with [ENOMEM], and then nothing stays allocated. *)
Theorem vblk_alloc_correct {W} (dev : nvm_dev) (d : Z) (addrs : list nvm_addr) (naddrs : Z) (s : sys W)
    (Hver : verid dev = NVM_SPEC_VERID_12 \/ verid dev = NVM_SPEC_VERID_20)
    (Hwf : heap_wf s) (Hn : 0 <= naddrs) (Hlen : naddrs <= Z.of_nat (length addrs)) :
  (VBLK_MAX < naddrs ->
     nvm_vblk_alloc dev d addrs naddrs s = Some (None, Sys EINVAL (hp s) (world s))) /\
  (naddrs <= VBLK_MAX ->
     wp (nvm_vblk_alloc dev d addrs naddrs) s (alloc_post dev d (take (Z.to_nat naddrs) addrs) s)).
Proof.
  split.
  - intros H. unfold nvm_vblk_alloc. by rewrite (proj2 (Z.ltb_lt _ _) H).
  - intros H. by apply wp_vblk_alloc.
Qed.

(** C40: allocating a line. Over a range of channels and LUNs with at most 128
    members, the answer is that of allocating the grid they span, channels
    running fastest: a new block with exactly these members, or [NULL] and
    nothing kept when one of them is outside the device. Over a larger range
    the array of members is written past its 128 entries. *)
Theorem vblk_alloc_line_correct {W} (spdk : spdk_env W) (dev : nvm_dev) (d c1 c2 l1 l2 blk : Z) (s : sys W)
    (Hver : verid dev = NVM_SPEC_VERID_12 \/ verid dev = NVM_SPEC_VERID_20) (Hwf : heap_wf s) :
  let grid := line_grid (line_addr dev blk) l1 l2 c1 c2 in
  (Z.of_nat (length grid) <= VBLK_MAX ->
     wp (nvm_vblk_alloc_line spdk dev d c1 c2 l1 l2 blk) s (alloc_post dev d grid s)) /\
  (VBLK_MAX < Z.of_nat (length grid) -> hp_ok (hp s) (hp_next (hp s)) = true ->
     nvm_vblk_alloc_line spdk dev d c1 c2 l1 l2 blk s = None).
Proof.
  intros grid.
  split.
  - intros Hn. unfold VBLK_MAX in Hn. eapply wp_ext; [apply alloc_line_eq; exact Hver|]. apply wp_bind.
    apply (wp_vblk_alloc dev Hver); [done|done|done|]. intros [[p v]|] s1 (Hwf1 & Hw1 & Hpost).
    + destruct Hpost as (Hp & Hfr & Hl & _ & ->). apply wp_bind. unfold vblk_of. cbn [take app length].
      eapply wp_intro; [rewrite (push_all d _ _ grid []) by (cbn; lia)|].
      { rewrite bool_decide_true by (cbn; lia). done. }
      cbn [app]. apply wp_bind.
      assert (Et : forall r : list nvm_addr, take (Z.to_nat (Z.of_nat (length grid))) (grid ++ r) = grid).
      { intros r. by rewrite Nat2Z.id, take_app_length. }
      cbn [nblks]. eapply (wp_line_check dev Hver _ _ s); try done;
        cbn [with_vnbytes blks nblks vblk_nbytes].
      * rewrite length_app. lia.
      * rewrite Et. intros Hall. apply wp_ret. split; [done|]. split; [done|].
        split; [done|]. split; [done|]. split; [done|]. by split.
      * rewrite Et. intros s' H1 H2 H3 H4 H5. apply wp_ret. split; [done|]. split; [done|].
        split; [done|]. by right.
    + apply wp_ret. split; [done|]. split; [done|]. destruct Hpost as [Hl He].
      split; [done|]. destruct He as [He|[_ He]]; [by left|]. destruct He. constructor.
  - intros Hn Hok. unfold VBLK_MAX in Hn. rewrite (alloc_line_eq spdk dev Hver). apply line_alloc_overflow; [done|done|fold grid; lia|done].
Qed.

(** ** Witnesses *)

Lemma tiny_erase_limit : erase_limit_ok tiny20.
Proof. by split. Qed.

(** A failed command leaves the positions alone: [ram_be] never fails one, so
    its erase resets them. *)
Lemma vblk_erase_correct_witness :
  let v := with_pos_write 16 tiny_vblk in
  nvm_vblk_erase (ram_be tiny20) tiny20 v (Sys 0 (sample_heap 9) ∅) =
    Some (32, with_pos_write 0 v, Sys 0 (sample_heap 9) ∅).
Proof.
  intros v. destruct (vblk_erase_correct (ram_be tiny20) tiny20 v) as (m & k & Hm & Hk & _ & Hc & E).
  - apply (members_ext tiny_vblk); [done|done|apply tiny_members].
  - by right.
  - apply tiny_erase_limit.
  - rewrite E. assert (H : erase_all (ram_be tiny20) tiny20 (erase_cmds tiny20 v m k)
      (Sys 0 (sample_heap 9) ∅) = Some (0, Sys 0 (sample_heap 9) ∅)); [|by rewrite H].
    clear. unfold erase_all. induction (erase_cmds tiny20 v m k) as [|c l IH]; [done|exact IH].
Defined.

Lemma vblk_alloc_correct_witness :
  let addrs := [set_l_chunk 3 0; set_l_chunk 3 (set_l_pugrp 1 0)] in
  nvm_vblk_alloc tiny20 1 (replicate 129 0) 129 (Sys 0 (sample_heap 9) tt) =
    Some (None, Sys EINVAL (sample_heap 9) tt) /\
  nvm_vblk_alloc tiny20 1 addrs 2 (Sys 0 (sample_heap 9) tt) =
    Some (Some (7, vblk_of tiny20 1 addrs NVM_VBLK_CMD_OPTS),
      Sys 0 (Heap 8 ({[7]} ∪ {[3; 5]}) (fun n => n <? 9)) tt) /\
  wp (nvm_vblk_alloc tiny20 1 addrs 2) (Sys 0 (sample_heap 9) tt)
    (alloc_post tiny20 1 addrs (Sys 0 (sample_heap 9) tt)).
Proof.
  intros addrs. split; [|split].
  - by apply (vblk_alloc_correct tiny20 1 (replicate 129 0) 129 (Sys 0 (sample_heap 9) tt)
      (or_intror eq_refl) (sample_heap_wf _ _ _)).
  - by vm_compute.
  - by apply (vblk_alloc_correct tiny20 1 addrs 2 (Sys 0 (sample_heap 9) tt)
      (or_intror eq_refl) (sample_heap_wf _ _ _)).
Defined.

Lemma vblk_alloc_line_correct_witness :
  line_grid (line_addr tiny20 3) 0 1 0 1 =
    [set_l_chunk 3 0; set_l_chunk 3 (set_l_pugrp 1 0);
     set_l_chunk 3 (set_l_punit 1 0); set_l_chunk 3 (set_l_punit 1 (set_l_pugrp 1 0))] /\
  wp (nvm_vblk_alloc_line spdk_stub tiny20 1 0 1 0 1 3) (Sys 0 (sample_heap 9) tt)
    (alloc_post tiny20 1 (line_grid (line_addr tiny20 3) 0 1 0 1) (Sys 0 (sample_heap 9) tt)) /\
  nvm_vblk_alloc_line spdk_stub tiny20 1 0 0 0 128 3 (Sys 0 (sample_heap 9) tt) = None.
Proof.
  split; [by vm_compute|]. split.
  - by apply (vblk_alloc_line_correct spdk_stub tiny20 1 0 1 0 1 3 (Sys 0 (sample_heap 9) tt)
      (or_intror eq_refl) (sample_heap_wf _ _ _)).
  - by apply (vblk_alloc_line_correct spdk_stub tiny20 1 0 0 0 128 3 (Sys 0 (sample_heap 9) tt)
      (or_intror eq_refl) (sample_heap_wf _ _ _)).
Defined.
