(* ===== verification/VblkWhole.v ===== *)
(** A synchronous 2.0 virtual block used whole: written from the beginning,
    read whole, and erased. *)
From stdpp Require Import base numbers strings gmap option list.
From S2P Require Import Prelude Types Nvme Addr Dev Backend Buf Cmd Vblk Stripe Media Linear VblkIO VblkRead VblkOps.

(** ** Erase *)

(** The backend erases. [merased] says that the chunk of an address holds no
    data. Whatever it answers, a vector erase changes nothing outside the chunks
    it is given and makes no erased chunk hold data; when it answers 0, its
    chunks are erased. *)
Class EraseMedia {W} (be : nvm_be W) (dev : nvm_dev) `{!Media be dev} := {
  merased : W -> nvm_addr -> Prop;
  erase_law addrs flags ret s :
    good mok s -> 0 < Z.of_nat (length addrs) <= NVM_NADDR_MAX -> cmd_addr_opt dev flags = NVM_CMD_VECTOR ->
    mvector (Z.of_nat (length addrs)) ->
    wp (be_vector_erase be dev addrs (Z.of_nat (length addrs)) None flags ret) s (fun '(e, _, _) s' =>
      good mok s' /\ live s' = live s /\
      (forall a, mdom a -> (forall c, c ∈ addrs -> chunk_id c <> chunk_id a) -> media (world s') a = media (world s) a) /\
      (forall a, merased (world s) a -> merased (world s') a) /\
      (e = 0 -> Forall (merased (world s')) addrs)) }.

(** The world as it was in [w0], as far as sectors go. *)
Definition unchanged {W} {be : nvm_be W} {dev : nvm_dev} `{!Media be dev} (w0 w : W) : Prop :=
  mok w /\ forall a, mdom a -> media w a = media w0 a.

(** The sectors outside the chunks [l] are as they were. *)
Definition untouched {W} (be : nvm_be W) (dev : nvm_dev) `{!Media be dev} (l : list nvm_addr) (w0 w : W) : Prop :=
  forall a, mdom a -> (forall c, c ∈ l -> chunk_id c <> chunk_id a) -> media w a = media w0 a.

Lemma untouched_trans {W} (be : nvm_be W) (dev : nvm_dev) `{!Media be dev} l w0 w1 w2 :
  untouched be dev l w0 w1 -> untouched be dev l w1 w2 -> untouched be dev l w0 w2.
Proof. intros H1 H2 a Ha Hc. by rewrite H2, H1. Qed.

(** Moving its two positions changes nothing else. *)
Lemma moved_write_ok dev v ws x : vblk20_ok dev v ws -> vblk20_ok dev (with_pos_write x v) ws.
Proof. intros [? Hm]. split; try done. by eapply members_ext, Hm. Qed.

Lemma moved_read_ok dev v ws x : vblk20_ok dev v ws -> vblk20_ok dev (with_pos_read x v) ws.
Proof. intros [? Hm]. split; try done. by eapply members_ext, Hm. Qed.

Section whole.
Context {W : Type} (spdk : spdk_env W) (be : nvm_be W) (dev : nvm_dev) `{!Media be dev}.
Context (v : nvm_vblk) (ws : Z) (Hv : vblk20_ok dev v ws) (Hdom : on_device dev v ws mdom) (fuel : nat).
Context (Hasync : has_flag v NVM_CMD_ASYNC = false).
Implicit Types s : sys W.
#[local] Abbreviation nb := (nbytes (geo dev)).
#[local] Abbreviation size := (vblk_nbytes v).
#[local] Abbreviation L := (lin_size dev v).

Lemma block_sectors : size / nb = L /\ L * nb = size.
Proof using Hv.
  pose proof (vo_nb _ _ _ Hv). assert (E : size = L * nb) by exact (vo_size _ _ _ Hv).
  split; [rewrite E; apply Z.div_mul; lia|done].
Qed.

Lemma block_units : 0 < L /\ (ws | L) /\ 0 <= size < 2 ^ 62.
Proof using Hv.
  destruct (lin_size_range dev v ws Hv) as (H1 & _ & _). split; [done|]. split.
  - apply Z.divide_mul_r, (vo_unit _ _ _ Hv).
  - pose proof (vo_fits _ _ _ Hv). pose proof (vo_nb _ _ _ Hv). destruct block_sectors as [_ E]. nia.
Qed.

Lemma whole_request buf : nvm_dev_get_meta_mode dev = NVM_META_MODE_NONE -> size <= Z.of_nat (length buf) ->
  request_ok dev v ws (Some buf) size 0.
Proof using Hv.
  intros Hm Hf. destruct block_sectors as [E1 E2], block_units as (Hpos & Hdiv & Hsz).
  split; rewrite ?E1, ?Z.div_0_l by (pose proof (vo_nb _ _ _ Hv); lia); try done; try lia.
  by apply Z.divide_0_r.
Qed.

Lemma whole_read buf : (read_unit v ws | L) -> length buf = Z.to_nat size -> read_ok dev v ws buf size 0.
Proof using Hv.
  intros Hu Hb. destruct block_sectors as [E1 E2], block_units as (Hpos & Hdiv & Hsz).
  pose proof (read_unit_range dev v ws Hv). pose proof (vo_nb _ _ _ Hv) as Hnb.
  split; rewrite ?E1, ?read_span_whole, ?Z.div_0_l by (done || lia); try done; try lia. by apply Z.divide_0_r.
Qed.

(** Its members; outside them, a write changes nothing. *)
Definition members : list nvm_addr := take (Z.to_nat (nblks v)) (blks v).

Lemma member_in i : 0 <= i < nblks v -> member v i ∈ members.
Proof using Hv.
  intros Hi. apply list_elem_of_lookup. exists (Z.to_nat i). unfold members. rewrite lookup_take_lt by lia.
  apply member_lookup; [apply Hv|done].
Qed.

Lemma lin_run_chunk x n a : 0 <= x -> x + n <= L -> a ∈ lin_run v ws x n -> exists c, c ∈ members /\ chunk_id c = chunk_id a.
Proof using Hv.
  intros Hx Hn (i & Hi & ->)%lin_run_elem. pose proof (vo_ws_range _ _ _ Hv). pose proof (mo_n v (vo_members _ _ _ Hv)) as Hm.
  destruct (lin20_fields v ws (x + i) (lin_off dev v ws Hv (x + i) ltac:(lia))) as [_ E].
  exists (member v (stripe_idx ws (nblks v) (x + i))). split; [|done]. apply member_in, stripe_idx_range. lia.
Qed.

(** What the virtual block holds. *)
Definition holds (bytes : list Z) (w : W) : Prop := concat (media w <$> lin_run v ws 0 L) = bytes.

Lemma wp_whole_write buf s (Q : Z * nvm_vblk -> sys W -> Prop) :
  alloc_ok spdk dev -> nvm_dev_get_meta_mode dev = NVM_META_MODE_NONE -> pos_write v = 0 ->
  vblk_served (be := be) dev v ws -> size <= Z.of_nat (length buf) -> good mok s ->
  (forall s', good mok s' -> live s' = live s -> untouched be dev members (world s) (world s') ->
     holds (take (Z.to_nat size) buf) (world s') -> Q (size, with_pos_write size v) s') ->
  (forall s', good mok s' -> live s' = live s -> untouched be dev members (world s) (world s') ->
     errno s' = EIO -> ~ Reliable be dev -> Q (-1, v) s') ->
  wp (nvm_vblk_write spdk be dev fuel v (Some buf) size) s Q.
Proof using Hv Hdom Hasync.
  intros Halloc Hmeta Ep Hmode Hlen Hg HQ HE.
  destruct block_sectors as [E1 E2], block_units as (Hpos & _ & Hsz). pose proof (vo_nb _ _ _ Hv) as Hnb.
  unfold nvm_vblk_write, nvm_vblk_pwrite. apply wp_bind. rewrite Ep, (vo_verid _ _ _ Hv), Hasync.
  cbn [Z.eqb Pos.eqb NVM_SPEC_VERID_12 NVM_SPEC_VERID_20].
  apply wp_bind, (wp_pwrite spdk be dev v ws Hv Hdom Hmode Halloc); [lia|done|by apply whole_request|].
  rewrite E1, Z.div_0_l by lia. intros r s' G1 L1 Hfr Hres.
  assert (Hut : untouched be dev members (world s) (world s')).
  { intros a Ha Hc. apply Hfr; [done|]. intros (c & Hc1 & Hc2)%lin_run_chunk; [by eapply Hc|lia|lia]. }
  destruct Hres as [[-> Hd]|[-> [[F HR]|[_ [?|?]]]]]; try done.
  - apply wp_ret. rewrite (proj2 (Z.ltb_ge size 0)), Ep, Z.add_0_l, wrap_id by lia. apply wp_ret, HQ; [done|done|done|].
    unfold holds. rewrite <-E2. apply (sectors_back v ws nb); [lia|lia|lia|exact Hd].
  - apply wp_ret. cbn [Z.ltb]. by apply wp_ret, HE.
Qed.

Lemma wp_whole_read buf bytes s (Q : Z * nvm_vblk * mem -> sys W -> Prop) : pos_read v = 0 ->
  vblk_served (be := be) dev v (read_unit v ws) -> (read_unit v ws | L) ->
  length buf = Z.to_nat size -> good mok s -> holds bytes (world s) ->
  (forall s', good mok s' -> live s' = live s -> untouched be dev members (world s) (world s') ->
     Q (size, with_pos_read size v, Some bytes) s') ->
  (forall d s', good mok s' -> live s' = live s -> untouched be dev members (world s) (world s') ->
     errno s' = EIO -> ~ Reliable be dev -> Q (-1, v, Some d) s') ->
  wp (nvm_vblk_read be dev fuel v (Some buf) size) s Q.
Proof using Hv Hdom Hasync.
  intros Ep Hmode Hu Hlen Hg Hh HQ HE.
  destruct block_sectors as [E1 E2], block_units as (Hpos & _ & Hsz). pose proof (vo_nb _ _ _ Hv) as Hnb.
  unfold nvm_vblk_read, nvm_vblk_pread. apply wp_bind. rewrite Ep, (vo_verid _ _ _ Hv), Hasync.
  cbn [Z.eqb Pos.eqb NVM_SPEC_VERID_12 NVM_SPEC_VERID_20].
  apply wp_bind, (wp_pread be dev v ws Hv Hdom Hmode); [done|by apply whole_read|].
  rewrite E1, Z.div_0_l by lia. intros ok m s' G1 L1 Hfr (data & -> & Hdl & _ & Ht) HR.
  assert (Hut : untouched be dev members (world s) (world s')) by (intros a Ha _; by apply Hfr). destruct ok.
  - apply wp_ret. rewrite (proj2 (Z.ltb_ge size 0)), Ep, Z.add_0_l, wrap_id by lia. apply wp_ret.
    assert (data = bytes) as <-; [|by apply HQ].
    pose proof (read_unit_range dev v ws Hv).
    rewrite read_span_whole in Ht by (done || lia). rewrite <-Hh, <-Ht, E2 by done. rewrite take_ge; [done|lia].
  - destruct HR as [F HR]. apply wp_ret. cbn [Z.ltb]. by apply wp_ret, HE.
Qed.

Lemma wp_whole_erase `{!EraseMedia be dev} s (Q : Z * nvm_vblk -> sys W -> Prop) :
  erase_limit_ok dev -> cmd_addr_opt dev 0 = NVM_CMD_VECTOR -> (forall n, 0 < n <= NVM_NADDR_MAX -> mvector n) ->
  good mok s ->
  (forall s', good mok s' -> live s' = live s -> untouched be dev members (world s) (world s') ->
     Forall (merased (world s')) members -> Q (size, erased v) s') ->
  (forall s', good mok s' -> live s' = live s -> untouched be dev members (world s) (world s') -> errno s' = EIO ->
     Q (-1, v) s') ->
  wp (nvm_vblk_erase be dev v) s Q.
Proof using Hv.
  intros Hlim Hmode Hmv Hg HQ HE. pose proof (vo_verid _ _ _ Hv) as Hver. pose proof (mo_n v (vo_members _ _ _ Hv)) as Hn.
  destruct (vblk_erase_cmds be dev v (vo_members _ _ _ Hv) (or_intror Hver) Hlim) as (m & k & Hm & Hk & Hmk & E).
  unfold erase_ntargets in Hmk. rewrite Hver in Hmk. cbn [Z.eqb Pos.eqb NVM_SPEC_VERID_12 NVM_SPEC_VERID_20] in Hmk.
  assert (Ht : forall x, erase_target dev v x = member v x) by (intros x; unfold erase_target; by rewrite Hver).
  unfold VBLK_MAX in Hn. assert (k <= 128) by nia.
  eapply wp_ext; [apply E|]. apply wp_bind. unfold erase_all, erase_flags. rewrite Hver. cbn [Z.eqb Pos.eqb].
  apply (wp_mfold _ (fun pre nerr s' => good mok s' /\ live s' = live s /\ untouched be dev members (world s) (world s') /\
    0 <= nerr <= Z.of_nat (length pre) /\ (nerr = 0 -> Forall (Forall (merased (world s'))) pre))).
  - split; [done|]. split; [done|]. split; [by intros a|]. by split.
  - intros pre c post nerr s1 El (G1 & L1 & U1 & N1 & F1).
    assert (Hc : exists i, c = run_of (erase_target dev v) (i * m) m /\ 0 <= i < k /\ Z.of_nat (length pre) < k).
    { assert (Hin : c ∈ erase_cmds dev v m k) by (rewrite El; apply elem_of_app; right; left).
      apply list_elem_of_fmap in Hin as (i & -> & Hi%elem_of_seqZ). exists i. split; [done|]. split; [lia|].
      apply (f_equal length) in El. unfold erase_cmds in El. rewrite length_fmap, length_seqZ, length_app in El. cbn in El. lia. }
    destruct Hc as (i & Ec & Hi & Hpre). assert (Hc : Z.of_nat (length c) = m) by (rewrite Ec; apply run_of_len; lia).
    unfold erase_cmd, nvm_cmd_erase. change (NVM_SPEC_VERID_20 =? NVM_SPEC_VERID_12) with false. cbn iota. rewrite Hmode.
    cbn [Z.eqb Pos.eqb NVM_CMD_SCALAR NVM_CMD_VECTOR]. apply wp_bind. destruct Hlim as [Hlim _].
    eapply wp_mono; [apply erase_law; [done|lia|done|apply Hmv; lia]|].
    intros [[e me] re] s2 (G2 & L2 & U2 & M2 & F2). apply wp_ret. rewrite length_app. cbn [length].
    destruct (count_err nerr (Z.of_nat (length pre)) e N1 ltac:(lia)) as [Hcnt Hz].
    split; [done|]. split; [congruence|]. split; [|split; [lia|]].
    + eapply untouched_trans; [exact U1|]. intros a Ha Hno. apply U2; [done|]. intros c' Hc'. apply Hno.
      rewrite Ec in Hc'. apply run_of_elem in Hc' as (j & Hj & ->). rewrite Ht. apply member_in. nia.
    + intros [-> ->]%Hz. apply Forall_app. split; [|apply Forall_singleton; by apply F2].
      eapply Forall_impl; [by apply F1|]. intros c' H'. eapply Forall_impl; [exact H'|]. exact M2.
  - intros nerr s1 (G1 & L1 & U1 & N1 & F1). unfold erase_done. destruct (Z.eqb_spec nerr 0) as [->|].
    + apply wp_ret, HQ; [done|done|done|]. apply list.Forall_forall. intros c (i & Hi)%list_elem_of_lookup.
      assert (Hlt : Z.of_nat i < nblks v).
      { apply lookup_lt_Some in Hi. unfold members in Hi. rewrite length_take in Hi. lia. }
      unfold members in Hi. rewrite lookup_take_lt in Hi by lia.
      assert (Hmem : member v (Z.of_nat i) = c) by (unfold member; by rewrite Nat2Z.id, Hi). rewrite <-Hmem.
      pose proof (Z.div_mod (Z.of_nat i) m ltac:(lia)). pose proof (Z.mod_pos_bound (Z.of_nat i) m ltac:(lia)).
      specialize (F1 eq_refl). rewrite list.Forall_forall in F1. assert (0 <= Z.of_nat i / m < k) by (split; [apply Z.div_pos; lia|apply Z.div_lt_upper_bound; lia]).
      specialize (F1 (run_of (erase_target dev v) (Z.of_nat i / m * m) m)). rewrite list.Forall_forall in F1. apply F1.
      * unfold erase_cmds. apply list_elem_of_fmap. exists (Z.of_nat i / m). split; [done|]. apply elem_of_seqZ. lia.
      * apply run_of_elem. exists (Z.of_nat i mod m). split; [done|]. rewrite Ht. f_equal. lia.
    + eapply wp_intro; [done|]. apply HE; [eapply good_world; [exact G1|done|apply G1]|done|done|done].
Qed.
End whole.
