(* ===== verification/VblkFile.v ===== *)
(** A 2.0 virtual block with its two cursors, as a file that is appended to by
    [nvm_vblk_write] and [nvm_vblk_pad], read from a position that moves along,
    and repositioned for reading. *)
From stdpp Require Import base numbers strings gmap option list.
From S2P Require Import Prelude Types Nvme Addr Dev Backend Buf Cmd Vblk Stripe Media Linear VblkIO VblkRead.

(** ** The abstract file *)

(** The sectors written so far, and the position of the reader in bytes. *)
Record file := File { data : list (list Z); rpos : Z }.

Inductive file_op :=
  | FWrite (l : list Z)
  | FPad
  | FRead (l : list Z) (count : Z)
  | FSeek (pos : Z).

Record file_res := FileRes { fres : Z; fbuf : mem }.

(** [reliable] says that the device fails no command. *)
Section file.
Context (dev : nvm_dev) (v : nvm_vblk) (ws : Z) (reliable : Prop).
#[local] Abbreviation nb := (nbytes (geo dev)).

Definition wpos (f : file) : Z := nb * Z.of_nat (length (data f)).
Definition room (f : file) : Z := vblk_nbytes v - wpos f.

(** A request in whole write units; any other is refused. *)
Definition aligned (count offset : Z) : bool := (count / nb mod ws =? 0) && (offset / nb mod ws =? 0).

(** What an append is given, and the sectors it adds: a request that is not
    refused is whole sectors, and there is room for it. *)
Definition append_ok (f : file) (buf : mem) (count : Z) : Prop :=
  0 <= count < 2 ^ 62 /\ (aligned count (wpos f) = true -> (nb | count) /\ request_ok dev v ws buf count (wpos f)).
Definition appended (buf : mem) (count : Z) : list (list Z) :=
  request_src dev ws buf count <$> seqZ 0 (count / nb).
Definition append (f : file) (buf : mem) (count r : Z) (f' : file) : Prop :=
  if aligned count (wpos f)
  then r = count /\ f' = File (data f ++ appended buf count) (rpos f) \/
       r = -1 /\ f' = f /\ (~ reliable \/ buf = None \/ nvm_dev_get_meta_mode dev <> NVM_META_MODE_NONE)
  else r = -1 /\ f' = f.

Definition fop_ok (f : file) (op : file_op) : Prop :=
  match op with
  | FWrite l => append_ok f (Some l) (Z.of_nat (length l))
  | FPad => append_ok f None (room f)
  | FRead l count => aligned count (rpos f) = true ->
      (nb | count) /\ (nb | rpos f) /\ read_ok dev v ws l count (rpos f) /\
      rpos f / nb + count / nb <= Z.of_nat (length (data f))
  | FSeek pos => 0 <= pos
  end.

(** One operation. A refused request changes nothing, and a failed one neither.
    With metadata off and a buffer of the caller's, a write fails only on a
    device that fails commands, and so does any read. *)
Definition file_step (f : file) (op : file_op) (r : file_res) (f' : file) : Prop :=
  match op with
  | FWrite l => append f (Some l) (Z.of_nat (length l)) (fres r) f'
  | FPad => append f None (room f) (fres r) f'
  | FRead l count =>
      if aligned count (rpos f) then
        fres r = count /\ f' = File (data f) (rpos f + count) /\
          (exists d, fbuf r = Some d /\ length d = length l /\
             take (Z.to_nat count) d =
               concat (take (Z.to_nat (count / nb)) (drop (Z.to_nat (rpos f / nb)) (data f))) /\
             let span := Z.to_nat (read_span v ws (count / nb) * nb) in drop span d = drop span l) \/
        fres r = -1 /\ f' = f /\ ~ reliable
      else fres r = -1 /\ f' = f /\ fbuf r = Some l
  | FSeek pos =>
      if vblk_nbytes v <? pos then fres r = -1 /\ f' = f
      else fres r = 0 /\ f' = File (data f) pos
  end.

Fixpoint file_steps (f : file) (ops : list file_op) (rs : list file_res) (f' : file) : Prop :=
  match ops, rs with
  | [], [] => f' = f
  | op :: ops, r :: rs => exists f1, file_step f op r f1 /\ file_steps f1 ops rs f'
  | _, _ => False
  end.

(** Requests that are refused or in order whatever the outcome of the ones
    before. *)
Fixpoint fops_ok (f : file) (ops : list file_op) : Prop :=
  match ops with
  | [] => True
  | op :: ops => fop_ok f op /\ forall r f', file_step f op r f' -> fops_ok f' ops
  end.

Lemma aligned_spec count offset : 0 < ws ->
  if aligned count offset then (ws | count / nb) /\ (ws | offset / nb) else ~ (ws | count / nb) \/ ~ (ws | offset / nb).
Proof.
  intros Hw. unfold aligned. destruct (Z.eqb_spec (count / nb mod ws) 0) as [E1|E1], (Z.eqb_spec (offset / nb mod ws) 0) as [E2|E2];
    cbn [andb]; rewrite <-!Z.mod_divide by lia; tauto.
Qed.
End file.

(** ** The operations of the code *)

Section run.
Context {W : Type} (spdk : spdk_env W) (be : nvm_be W) (dev : nvm_dev).

Definition run_file_op (op : file_op) (v : nvm_vblk) : M W (file_res * nvm_vblk) :=
  match op with
  | FWrite l =>
      '(r, v) ← nvm_vblk_write spdk be dev 0 v (Some l) (Z.of_nat (length l)); mret (FileRes r None, v)
  | FPad => '(r, v) ← nvm_vblk_pad spdk be dev 0 v; mret (FileRes r None, v)
  | FRead l count =>
      '(r, v, buf) ← nvm_vblk_read be dev 0 v (Some l) count; mret (FileRes r buf, v)
  | FSeek pos => '(r, v) ← nvm_vblk_set_pos_read v pos; mret (FileRes r None, v)
  end.

Fixpoint run_file_ops (ops : list file_op) (v : nvm_vblk) : M W (list file_res * nvm_vblk) :=
  match ops with
  | [] => mret ([], v)
  | op :: ops =>
      '(r, v) ← run_file_op op v;
      '(rs, v) ← run_file_ops ops v;
      mret (r :: rs, v)
  end.
End run.

(** ** The simulation *)

Section sim.
Context {W : Type} (spdk : spdk_env W) (be : nvm_be W) (dev : nvm_dev) `{!Media be dev}.
Context (v : nvm_vblk) (ws : Z) (Hv : vblk20_ok dev v ws) (Hdom : on_device dev v ws mdom).
Context (Hmode : vblk_served (be := be) dev v ws) (Hread : vblk_served (be := be) dev v (read_unit v ws)).
Context (Halloc : alloc_ok spdk dev) (Hsync : has_flag v NVM_CMD_ASYNC = false).
Implicit Types (s : sys W) (f : file).
#[local] Abbreviation nb := (nbytes (geo dev)).
#[local] Abbreviation rel := (Reliable be dev).

(** The handle with its cursors. *)
Definition handle f : nvm_vblk := with_pos_read (rpos f) (with_pos_write (wpos dev f) v).

(** What every operation keeps: the cursors stay inside the block, the write
    cursor on a write unit, and the sectors below it hold what was written. *)
Record file_ok (base : gset Z) f s : Prop := {
  fo_heap : good mok s;
  fo_live : live s = base;
  fo_units : (ws | Z.of_nat (length (data f)));
  fo_len : wpos dev f <= vblk_nbytes v;
  fo_rpos : 0 <= rpos f <= vblk_nbytes v;
  fo_data i x : data f !! i = Some x -> media (world s) (lin20 v ws (Z.of_nat i)) = x }.

Lemma handle_ok f : vblk20_ok dev (handle f) ws.
Proof. destruct Hv as [? Hm]. split; try done. by eapply members_ext, Hm. Qed.

Lemma vblk_nbytes_lin : vblk_nbytes v = lin_size dev v * nb.
Proof. apply (vo_size _ _ _ Hv). Qed.

Lemma wpos_sector f : wpos dev f / nb = Z.of_nat (length (data f)).
Proof. pose proof (vo_nb _ _ _ Hv). unfold wpos. by rewrite Z.mul_comm, Z.div_mul by lia. Qed.

Lemma whole_sectors count : (nb | count) -> count = count / nb * nb.
Proof.
  pose proof (vo_nb _ _ _ Hv). intros Hd. rewrite Z.mul_comm. apply Z.div_exact; [lia|].
  apply Z.mod_divide; [lia|done].
Qed.

Lemma length_appended buf count : 0 <= count / nb ->
  Z.of_nat (length (appended dev ws buf count)) = count / nb.
Proof. intros. unfold appended. rewrite length_fmap, length_seqZ. lia. Qed.

Lemma wpos_append f buf count : (nb | count) -> 0 <= count / nb ->
  wpos dev (File (data f ++ appended dev ws buf count) (rpos f)) = wpos dev f + count.
Proof.
  intros Hd Hc. unfold wpos. cbn [data]. rewrite length_app, Nat2Z.inj_add, length_appended by done.
  rewrite (whole_sectors count Hd) at 2. lia.
Qed.

(** A failed append may have written past the cursor only. *)
Lemma file_ok_frame base f s s' : file_ok base f s -> good mok s' -> live s' = live s ->
  (forall i, 0 <= i < Z.of_nat (length (data f)) ->
     media (world s') (lin20 v ws i) = media (world s) (lin20 v ws i)) -> file_ok base f s'.
Proof.
  intros [H1 H2 H3 H4 H5 H6] Hwf Hl Hd. split; [done|by rewrite Hl|done..|].
  intros i x Hi. rewrite Hd; [by apply H6|]. pose proof (lookup_lt_Some _ _ _ Hi). lia.
Qed.

Lemma file_ok_append base f buf count s s' : file_ok base f s ->
  0 <= count -> (nb | count) -> request_ok dev v ws buf count (wpos dev f) ->
  good mok s' -> live s' = live s ->
  (forall i, 0 <= i < Z.of_nat (length (data f)) ->
     media (world s') (lin20 v ws i) = media (world s) (lin20 v ws i)) ->
  (forall i, 0 <= i < count / nb ->
     media (world s') (lin20 v ws (Z.of_nat (length (data f)) + i)) = request_src dev ws buf count i) ->
  file_ok base (File (data f ++ appended dev ws buf count) (rpos f)) s'.
Proof.
  intros Hf Hc Hd Hr Hwf Hl Hold Hnew. pose proof (vo_nb _ _ _ Hv).
  pose proof (rq_count _ _ _ _ _ _ Hr). pose proof (rq_bound _ _ _ _ _ _ Hr) as Hb.
  rewrite wpos_sector in Hb. destruct Hf as [H1 H2 H3 H4 H5 H6]. split; [done|by rewrite Hl| | |done|].
  - cbn [data]. rewrite length_app, Nat2Z.inj_add, length_appended by lia.
    apply Z.divide_add_r; [done|apply Hr].
  - rewrite wpos_append by (done || lia). unfold wpos. rewrite vblk_nbytes_lin, (whole_sectors count Hd). nia.
  - cbn [data]. intros i x [Hi|[Hi Hx]]%lookup_app_Some.
    + rewrite Hold; [by apply H6|]. pose proof (lookup_lt_Some _ _ _ Hi). lia.
    + unfold appended in Hx. apply list_lookup_fmap_Some in Hx as (k & -> & Hk).
      apply lookup_seqZ in Hk as [-> Hk]. rewrite <-Hnew by lia. do 2 f_equal. lia.
Qed.

(** An operation of the file is the synchronous 2.0 one at the cursor. *)
Lemma Hsync_at f : has_flag (handle f) NVM_CMD_ASYNC = false.
Proof. exact Hsync. Qed.

Ltac at_cursor :=
  unfold nvm_vblk_write, nvm_vblk_pwrite, nvm_vblk_read, nvm_vblk_pread; rewrite (vo_verid _ _ _ Hv);
  cbn [Z.eqb Pos.eqb NVM_SPEC_VERID_12 NVM_SPEC_VERID_20]; rewrite Hsync_at; apply wp_bind, wp_bind.

Lemma file_ok_same base f s e : file_ok base f s -> file_ok base f (Sys e (hp s) (world s)).
Proof. intros Hf. by eapply file_ok_frame; [exact Hf|apply Hf|..]. Qed.

Lemma wp_append base f buf count s (Q : Z * nvm_vblk -> sys W -> Prop) :
  file_ok base f s -> append_ok dev v ws f buf count ->
  (forall r f' s', file_ok base f' s' -> append dev ws rel f buf count r f' -> Q (r, handle f') s') ->
  wp (nvm_vblk_write spdk be dev 0 (handle f) buf count) s Q.
Proof.
  intros Hf [Hc Ha] HQ. pose proof (vo_nb _ _ _ Hv) as Hnb. pose proof (vo_ws_range _ _ _ Hv) as Hw.
  pose proof (aligned_spec dev ws count (wpos dev f) ltac:(lia)) as Hal.
  assert (Hwp : 0 <= wpos dev f) by (unfold wpos; nia).
  unfold append in HQ. destruct (aligned dev ws count (wpos dev f)) eqn:Eal.
  2: { at_cursor. eapply wp_intro; [apply (pwrite_refused spdk be dev (handle f) ws (handle_ok f)); [lia|exact Hwp|exact Hal]|].
    apply wp_ret. cbn [Z.ltb Z.compare]. apply wp_ret, HQ; [by apply file_ok_same|done]. }
  destruct (Ha eq_refl) as [Hd Hr]. pose proof (rq_count _ _ _ _ _ _ Hr) as Hc0. pose proof (rq_bound _ _ _ _ _ _ Hr) as Hb.
  rewrite wpos_sector in Hb. destruct (lin_size_range dev v ws Hv) as (_ & Hls & _).
  at_cursor. apply (wp_pwrite spdk be dev (handle f) ws (handle_ok f) Hdom Hmode Halloc);
    [lia|apply Hf|destruct Hr; by split|].
  change (pos_write (handle f)) with (wpos dev f). rewrite wpos_sector.
  intros r s' Hwf' Hl' Hfr Hres. apply wp_ret.
  assert (Hold : forall i, 0 <= i < Z.of_nat (length (data f)) ->
    media (world s') (lin20 v ws i) = media (world s) (lin20 v ws i)).
  { intros i Hi. apply Hfr; [apply Hdom; lia|]. intros (j & Hj & E)%lin_run_elem.
    apply (lin_inj dev v ws Hv) in E; lia. }
  destruct Hres as [[-> Hnew]|[-> Hwhy]].
  - rewrite (proj2 (Z.ltb_ge count 0)) by lia. apply wp_ret.
    set (f' := File (data f ++ appended dev ws buf count) (rpos f)).
    assert (Hf' : file_ok base f' s') by (eapply file_ok_append; [exact Hf|lia|done..]).
    change (pos_write (handle f)) with (wpos dev f). rewrite wrap_id.
    + rewrite <-(wpos_append f buf count Hd) by lia. apply (HQ count f'); [done|by left].
    + pose proof (fo_len _ _ _ Hf') as Hlen. unfold f' in Hlen. rewrite wpos_append in Hlen by (done || lia).
      pose proof (vo_fits _ _ _ Hv). unfold wpos in *. nia.
  - apply wp_ret, HQ; [by eapply file_ok_frame|]. right. tauto.
Qed.

(** The sectors read are those of the file. *)
Lemma run_data base f x n s : file_ok base f s -> 0 <= x -> 0 <= n -> x + n <= Z.of_nat (length (data f)) ->
  media (world s) <$> lin_run v ws x n = take (Z.to_nat n) (drop (Z.to_nat x) (data f)).
Proof.
  intros Hf Hx Hn Hb. apply list_eq_same_length with (n := Z.to_nat n).
  - rewrite length_take, length_drop. lia.
  - rewrite length_fmap. pose proof (lin_run_len v ws x n Hn). lia.
  - intros i y z Hi Hy Hz. rewrite list_lookup_fmap in Hy.
    replace i with (Z.to_nat (Z.of_nat i)) in Hy by lia. rewrite lin_run_lookup in Hy by lia.
    injection Hy as <-. rewrite lookup_take_lt, lookup_drop in Hz by lia.
    rewrite <-(fo_data _ _ _ Hf _ _ Hz). do 2 f_equal. lia.
Qed.

Lemma wp_file_read base f l count s (Q : Z * nvm_vblk * mem -> sys W -> Prop) :
  file_ok base f s -> fop_ok dev v ws f (FRead l count) ->
  (forall r m f' s', file_ok base f' s' -> file_step dev v ws rel f (FRead l count) (FileRes r m) f' ->
     Q (r, handle f', m) s') ->
  wp (nvm_vblk_read be dev 0 (handle f) (Some l) count) s Q.
Proof.
  intros Hf Ha HQ. pose proof (vo_nb _ _ _ Hv) as Hnb. pose proof (vo_ws_range _ _ _ Hv) as Hw.
  pose proof (aligned_spec dev ws count (rpos f) ltac:(lia)) as Hal. pose proof (fo_rpos _ _ _ Hf) as Hrp.
  cbn [fop_ok file_step fres fbuf] in Ha, HQ. destruct (aligned dev ws count (rpos f)) eqn:Eal.
  2: { at_cursor. eapply wp_intro; [by apply (pread_refused be dev (handle f) ws (handle_ok f))|].
    apply wp_ret. cbn [Z.ltb Z.compare]. apply wp_ret, HQ; [by apply file_ok_same|done]. }
  destruct (Ha eq_refl) as (Hd & Hdr & Hr & Hin). pose proof (rd_count _ _ _ _ _ _ Hr) as Hc0.
  pose proof (fo_len _ _ _ Hf) as Hlen. pose proof (whole_sectors _ Hd) as Ec.
  assert (Hsum : rpos f + count <= wpos dev f).
  { pose proof (whole_sectors _ Hdr) as Er. unfold wpos. nia. }
  pose proof (vo_fits _ _ _ Hv) as Hfit. at_cursor.
  apply (wp_pread be dev (handle f) ws (handle_ok f) Hdom Hread); [apply Hf|destruct Hr; by split|].
  change (pos_read (handle f)) with (rpos f).
  intros ok m s' Hwf' Hl' Hold Hinto Hok. apply wp_ret.
  assert (Hf' : file_ok base f s').
  { eapply file_ok_frame; [done..|]. intros i Hi. apply Hold, Hdom. unfold wpos in Hlen.
    rewrite vblk_nbytes_lin in Hlen. nia. }
  destruct ok; [|apply wp_ret, HQ; [done|right; tauto]].
  rewrite (proj2 (Z.ltb_ge count 0)) by nia. apply wp_ret.
  change (pos_read (handle f)) with (rpos f). rewrite wrap_id by nia.
  apply (HQ count m (File (data f) (rpos f + count))); [by destruct Hf'; split; try done; cbn; nia|].
  left. split; [done|]. split; [done|]. destruct Hinto as (d & -> & D1 & D2 & D3). exists d.
  split; [done|]. split; [done|]. split; [|exact D2]. rewrite Ec at 1.
  pose proof (read_span_range v ws (count / nb) ltac:(apply (read_unit_range dev v ws Hv))).
  rewrite (span_prefix be dev v ws Hv (world s) (rpos f / nb) (count / nb) (read_span v ws (count / nb)) d); [|lia|by apply D3].
  f_equal. eapply run_data; [done|apply Z.div_pos; lia|lia|done].
Qed.

Lemma wp_run_file_op base f op s (Q : file_res * nvm_vblk -> sys W -> Prop) :
  file_ok base f s -> fop_ok dev v ws f op ->
  (forall r f' s', file_ok base f' s' -> file_step dev v ws rel f op r f' -> Q (r, handle f') s') ->
  wp (run_file_op spdk be dev op (handle f)) s Q.
Proof.
  intros Hf Hop HQ. pose proof (vo_nb _ _ _ Hv) as Hnb. destruct op as [l| |l count|pos]; cbn [run_file_op]; apply wp_bind.
  - apply (wp_append base); [done..|]. intros r f' s' H1 H2. by apply wp_ret, HQ.
  - unfold nvm_vblk_pad. change (u64 _) with (u64 (room dev v f)).
    pose proof (fo_len _ _ _ Hf). pose proof (vo_fits _ _ _ Hv). rewrite wrap_id by (unfold room, wpos in *; nia).
    apply (wp_append base); [done..|]. intros r f' s' H1 H2. by apply wp_ret, HQ.
  - apply (wp_file_read base); [done..|]. intros r m f' s' H1 H2. by apply wp_ret, HQ.
  - cbn in Hop. unfold nvm_vblk_set_pos_read. change (vblk_nbytes (handle f)) with (vblk_nbytes v).
    assert (Hst : forall r f', (if vblk_nbytes v <? pos then r = -1 /\ f' = f else r = 0 /\ f' = File (data f) pos) ->
      file_step dev v ws rel f (FSeek pos) (FileRes r None) f') by (intros r f' E; exact E).
    destruct (Z.ltb_spec (vblk_nbytes v) pos).
    + eapply wp_intro; [done|]. apply wp_ret, HQ; [|by apply Hst]. by eapply file_ok_frame; [|apply Hf|..].
    + apply wp_ret, wp_ret. apply (HQ _ (File (data f) pos)); [|by apply Hst].
      destruct Hf; by split.
Qed.
End sim.

(** ** Properties *)

(** C5: a synchronous 2.0 virtual block with its two cursors implements a file.
    Over any sequence of [nvm_vblk_write], [nvm_vblk_pad], [nvm_vblk_read] and
    [nvm_vblk_set_pos_read] in which the requests in whole write units are whole
    sectors, at least one, and fit (a write in the room left; a read in what was
    written, its commands, rounded up in vector mode, in the block and in the
    buffer), the answers and the cursors are those of the abstract file, its
    content is in the sectors below the write cursor, in order, and no memory is
    kept: a request that is not in whole write units answers -1 and moves nothing;
    a write appends its bytes or, only when a command failed or it had a buffer to
    allocate, answers -1 and moves nothing; a read answers the next bytes of the
    file, or -1, only when a command failed; a seek past the end of the block
    answers -1. That the requests fit is a hypothesis: the code does not check
    it. *)
Theorem vblk_file_invariant {W} (spdk : spdk_env W) (be : nvm_be W) (dev : nvm_dev) `{!Media be dev}
    (v : nvm_vblk) (ws : Z) (Hv : vblk20_ok dev v ws) (Hdom : on_device dev v ws mdom)
    (Hmode : vblk_served (be := be) dev v ws) (Hread : vblk_served (be := be) dev v (read_unit v ws))
    (Halloc : alloc_ok spdk dev) (Hsync : has_flag v NVM_CMD_ASYNC = false)
    (base : gset Z) (ops : list file_op) (f : file) (s : sys W) (Hf : file_ok be dev v ws base f s)
    (Hops : fops_ok dev v ws (Reliable be dev) f ops) :
  wp (run_file_ops spdk be dev ops (handle dev v f)) s (fun '(rs, v') s' =>
    exists f', v' = handle dev v f' /\ file_ok be dev v ws base f' s' /\ file_steps dev v ws (Reliable be dev) f ops rs f').
Proof.
  revert f s Hf Hops. induction ops as [|op ops IH]; intros f s Hf Hops; cbn [run_file_ops].
  - apply wp_ret. by exists f.
  - destruct Hops as [Hop Hops]. apply wp_bind, (wp_run_file_op spdk be dev v ws Hv Hdom Hmode Hread Halloc Hsync base); [done..|].
    intros r f1 s1 Hf1 Hs1. apply wp_bind. eapply wp_mono; [apply IH; [done|by eapply Hops]|].
    intros [rs v'] s2 (f2 & -> & Hf2 & Hs2). apply wp_ret. exists f2. split; [done|]. split; [done|]. by exists f1.
Qed.

(** A block with four bytes of zeros written, then four more, an odd sector that
    is refused, a read and padding. *)
Lemma vblk_file_invariant_witness :
  let f := File [[0; 0]; [0; 0]] 0 in
  let ops := [FWrite [1; 2; 3; 4]; FWrite [5; 6]; FRead [9; 9; 9; 9; 9] 4; FPad] in
  wp (run_file_ops spdk_stub (ram_be tiny20) tiny20 ops (handle tiny20 tiny_scalar f)) (Sys 0 (sample_heap 9) ∅) (fun '(rs, v') s' =>
    rs = [FileRes 4 None; FileRes (-1) None; FileRes 4 (Some [0; 0; 0; 0; 9]); FileRes 24 None] /\
    pos_write v' = 32 /\ pos_read v' = 4 /\ media (world s') (lin20 tiny_scalar 2 3) = [3; 4]).
Proof.
  intros f ops.
  assert (Hf : file_ok (ram_be tiny20) tiny20 tiny_scalar 2 {[3; 5]} f (Sys 0 (sample_heap 9) ∅)).
  { split; [apply sample_heap_wf|done|by exists 1|done|done|]. intros i x Hi. by destruct i as [|[|i]]; simplify_eq/=. }
  assert (HR := ram_reliable tiny20).
  assert (Hops : fops_ok tiny20 tiny_scalar 2 (Reliable (ram_be tiny20) tiny20) f ops).
  { split; [split; [done|]; intros _; split; [by exists 2|split; try done; by exists 1]|].
    intros r f1 [[_ ->]|(_ & _ & [?|[?|[]]])]; try done. split; [by split|].
    intros r1 f2 [_ ->]. split; [intros _; split; [by exists 2|split; [by exists 0|split; [split; try done; by exists 0|done]]]|].
    intros r2 f3 [(_ & -> & _)|(_ & _ & [])]; [|done]. split; [|done].
    split; [done|]. intros _. split; [by exists 12|split; try done; (by exists 6) || by exists 2]. }
  pose proof (vblk_file_invariant spdk_stub (ram_be tiny20) tiny20 tiny_scalar 2 tiny_scalar_ok (tiny_on_device _)
    (conj I (or_intror eq_refl)) (conj I (or_intror eq_refl)) tiny_alloc eq_refl {[3; 5]} ops f _ Hf Hops) as C.
  apply wp_elim in C as ([rs v'] & s' & E & f' & -> & Hf' & Hst).
  assert (E2 : (fun r => (r.1.1, pos_write r.1.2, pos_read r.1.2)) <$> run_file_ops spdk_stub (ram_be tiny20) tiny20
      ops (handle tiny20 tiny_scalar f) (Sys 0 (sample_heap 9) ∅) =
    Some ([FileRes 4 None; FileRes (-1) None; FileRes 4 (Some [0; 0; 0; 0; 9]); FileRes 24 None], 32, 4)) by (by vm_compute).
  eapply wp_intro; [exact E|]. rewrite E in E2. cbn [fmap option_fmap option_map fst snd] in E2.
  injection E2 as -> Epw Epr. split; [done|]. split; [done|]. split; [done|].
  destruct Hst as (f1 & [[_ ->]|[H _]] & Hst); [|discriminate H]. destruct Hst as (f2 & [_ ->] & Hst).
  destruct Hst as (f3 & [(_ & -> & _)|[H _]] & Hst); [|discriminate H].
  destruct Hst as (f4 & [[_ ->]|[H _]] & ->); [|discriminate H].
  by apply (fo_data _ _ _ _ _ _ _ Hf' 3%nat [3; 4]).
Defined.
