(* ===== verification/VblkCopy.v ===== *)
(** The copy of a 2.0 virtual block into another, sector by sector of each
    member chunk. *)
From stdpp Require Import base numbers strings gmap option list.
From S2P Require Import Prelude Types Nvme Addr Dev Backend Buf Cmd Vblk Stripe Media Linear VblkIO.

(** ** The vector copy of a backend *)

(** The command copies sector [i] of [src] to sector [i] of [dst]. *)
Class CopyMedia {W} (be : nvm_be W) (dev : nvm_dev) `{!Media be dev} : Prop := {
  vector_copy_law src dst flags ret s :
    good mok s -> mflags flags -> mvector (Z.of_nat (length dst)) -> Forall mdom src -> Forall mdom dst -> NoDup dst -> length src = length dst ->
    0 < Z.of_nat (length dst) <= NVM_NADDR_MAX -> (forall a, a ∈ src -> a ∉ dst) ->
    wp (be_vector_copy be dev src dst (Z.of_nat (length dst)) flags ret) s (fun r s' =>
      write_post mok mdom media (nbytes (geo dev)) dst (concat (media (world s) <$> src)) s r.1 s') }.

#[export] Instance ram_copy dev (Hnb : TCEq (0 <=? nbytes (geo dev)) true) : CopyMedia (ram_be dev) dev.
Proof.
  split. intros src dst flags ret s Hwf _ _ _ _ Hnd Hlen _ _. pose proof Hnb as Hnb'. apply TCEq_eq, Z.leb_le in Hnb'. cbn.
  unfold ram_addrs. rewrite Nat2Z.id, firstn_all, <-Hlen, firstn_all.
  set (l := concat (ram_sector dev (world s) <$> src)).
  assert (Hl : Z.of_nat (length dst) * nbytes (geo dev) <= Z.of_nat (length l)).
  { unfold l. rewrite (length_concat_const _ (Z.to_nat (nbytes (geo dev)))) by apply ram_sector_len.
    rewrite Hlen, Nat2Z.inj_mul, Z2Nat.id; lia. }
  pose proof (ram_write_ok dev Hnb' dst l ret s Hwf Hnd Hl) as C.
  unfold wp, ram_write in C. by rewrite (proj2 (Z.ltb_ge _ _)) in C by lia.
Qed.

(** Sector [i] of sectors side by side. *)
Lemma sector_concat nb (l : list (list Z)) i x : 0 <= nb ->
  Forall (fun y => length y = Z.to_nat nb) l -> l !! i = Some x -> sector nb (concat l) (Z.of_nat i) = x.
Proof.
  intros Hnb Hl. revert i. induction Hl as [|y l Hy Hl IH]; intros i Hi; [done|].
  destruct i as [|i]; cbn in Hi; cbn [concat].
  - injection Hi as ->. unfold sector. rewrite drop_0. by apply take_app_length'.
  - replace (Z.of_nat (S i)) with (Z.of_nat i + 1) by lia. rewrite <-sector_drop by lia.
    rewrite drop_app_length' by done. by apply IH.
Qed.

(** ** The loop *)

Section copy.
Context {W : Type} (be : nvm_be W) (dev : nvm_dev) `{!Media be dev, !CopyMedia be dev}.
Context (src dst : nvm_vblk) (ws wm : Z).
Context (Hsrc : vblk20_ok dev src ws) (Hdst : vblk20_ok dev dst ws).
Context (Hmin : ws_min (s20_wrt (dev_idfy dev)) = wm) (Hwm : 0 < wm <= NVM_NADDR_MAX) (Hdiv : (wm | nsectr (geo dev))).
Context (Hsv : served (be := be) dev (u16 NVM_VBLK_CMD_OPTS) NVM_NADDR_MAX).
Context (Hn : nblks src = nblks dst) (Hint : lin_size dev src < 2 ^ 31).
Context (Hds : forall x, 0 <= x < lin_size dev src -> mdom (lin20 src wm x)).
Context (Hdd : forall x, 0 <= x < lin_size dev src -> mdom (lin20 dst wm x)).
Context (Hapart : forall i j, 0 <= i < nblks src -> 0 <= j < nblks src ->
  chunk_id (member src i) <> chunk_id (member dst j)).
Implicit Types s : sys W.
#[local] Abbreviation nb := (nbytes (geo dev)).
#[local] Abbreviation L := (lin_size dev src).

(** The same blocks in the order of the copy, whose unit is the minimal one. *)
Definition min_dev : nvm_dev :=
  with_idfy (Idfy (idfy_verid (dev_idfy dev)) (s12_grp0 (dev_idfy dev)) (s12_ppaf (dev_idfy dev))
    (s20_mccap (dev_idfy dev)) (s20_lbaf (dev_idfy dev)) (s20_lgeo (dev_idfy dev)) (Wrt wm wm 0)) dev.

Lemma min_ok v : vblk20_ok dev v ws -> vblk20_ok min_dev v wm.
Proof. intros [H1 H2 _ _ H5 _ H7 H8 H9 H10]. unfold NVM_NADDR_MAX in Hwm.
  constructor; [exact H1|exact H2|reflexivity|lia|exact H5|exact Hdiv|exact H7|exact H8|exact H9|exact H10].
Qed.

Lemma size_eq : lin_size dev dst = L.
Proof. unfold lin_size. by rewrite Hn. Qed.

Lemma lin_apart x y : 0 <= x < L -> 0 <= y < L -> lin20 src wm x <> lin20 dst wm y.
Proof.
  intros Hx Hy E. pose proof (lin_off min_dev src wm (min_ok src Hsrc) x Hx) as O1.
  pose proof (lin_off min_dev dst wm (min_ok dst Hdst) y ltac:(by change (lin_size min_dev dst) with (lin_size dev dst); rewrite size_eq)) as O2.
  destruct (lin20_fields src wm x O1) as [_ F]. destruct (lin20_fields dst wm y O2) as [_ G].
  pose proof (mo_n src (vo_members _ _ _ Hsrc)).
  pose proof (stripe_idx_range wm (nblks src) ltac:(lia) x) as R1.
  pose proof (stripe_idx_range wm (nblks dst) ltac:(lia) y) as R2. rewrite <-Hn in R2 at 3.
  apply (Hapart _ _ R1 R2). by rewrite <-F, E, G.
Qed.
(** One command copies the next [m] sectors. *)
Lemma wp_copy_cmd k n m nerr s0 s (Q : Z -> sys W -> Prop) :
  let data x := media (world s0) (lin20 src wm x) in
  written mok mdom media False (lin20 dst wm) 0 data s0 k n nerr s -> 0 <= n -> 0 <= k < 2 ^ 64 - 1 ->
  m = Z.min (L - n) (NVM_NADDR_MAX / wm * wm) -> 0 < m -> m <= NVM_NADDR_MAX ->
  (forall nerr' s', written mok mdom media False (lin20 dst wm) 0 data s0 (k + 1) (n + m) nerr' s' -> Q nerr' s') ->
  wp (copy_cmd be dev src dst wm (NVM_NADDR_MAX / wm * wm) (L - 1) n nerr) s Q.
Proof.
  intros data Hwr Hn0 Hk Em Hm Hm64 HQ. unfold copy_cmd.
  destruct (lin_size_range min_dev src wm (min_ok src Hsrc)) as (_ & Hls & _).
  change (lin_size min_dev src) with L in Hls. unfold NVM_NADDR_MAX in *.
  rewrite (wrap_id 64 (L - 1 - n + 1)) by lia. replace (L - 1 - n + 1) with (L - n) by lia.
  assert (Hmax : 0 <= 64 / wm * wm <= 64).
  { pose proof (Z.mul_div_le 64 wm ltac:(lia)). pose proof (Z.div_pos 64 wm ltac:(lia) ltac:(lia)). nia. }
  rewrite NVM_MIN_min by lia. rewrite <-Em, Hn.
  apply wp_bind. rewrite (stripe_addrs min_dev src wm (min_ok src Hsrc) n m) by (lia || (change (lin_size min_dev src) with L; lia)).
  eapply wp_intro; [done|]. apply wp_bind. change (build_addrs _ m) with (build_addrs (fun idx => stripe_addr dst wm (u64 (n + idx))) m).
  rewrite (stripe_addrs min_dev dst wm (min_ok dst Hdst) n m)
    by (lia || (change (lin_size min_dev dst) with (lin_size dev dst); rewrite size_eq; lia)).
  eapply wp_intro; [done|]. apply wp_bind.
  pose proof Hwr as (Hwf & Hl & _ & Hfr & _). unfold nvm_cmd_copy.
  replace m with (Z.of_nat (length (lin_run dst wm n m))) at 3 by (rewrite lin_run_len; lia).
  assert (Hsame : forall x, 0 <= x < L -> media (world s) (lin20 src wm x) = data x).
  { intros x Hx. apply Hfr; [by apply Hds|]. intros (j & Hj & E)%run_of_elem.
    apply lin_apart in E; [done|done|lia]. }
  assert (Hlen : forall v, length (lin_run v wm n m) = Z.to_nat m)
    by (intros v; pose proof (lin_run_len v wm n m); lia).
  eapply wp_mono; [apply vector_copy_law; [done|apply Hsv|..]|].
  - rewrite Hlen. apply Hsv. unfold NVM_NADDR_MAX. lia.
  - apply Forall_forall. intros a (i & Hi & ->)%lin_run_elem. apply Hds. lia.
  - apply Forall_forall. intros a (i & Hi & ->)%lin_run_elem. apply Hdd. lia.
  - apply (lin_run_NoDup min_dev); [by apply min_ok|done|].
    change (lin_size min_dev dst) with (lin_size dev dst). rewrite size_eq. lia.
  - by rewrite !Hlen.
  - rewrite Hlen. unfold NVM_NADDR_MAX. lia.
  - intros a (i & Hi & ->)%lin_run_elem (j & Hj & E)%lin_run_elem. apply lin_apart in E; lia.
  - intros [e ret] s' Hpost. cbn [fst] in Hpost. apply wp_ret, HQ.
    eapply (written_step _ _ _ nb _ _ 0 data s0 k n m nerr s e
      (concat (media (world s) <$> lin_run src wm n m))); [done|done|lia|lia|..].
    + intros i Hi. apply Hdd. lia.
    + intros i j Hi Hj. apply (lin_inj min_dev dst wm (min_ok dst Hdst));
        change (lin_size min_dev dst) with (lin_size dev dst); rewrite size_eq; lia.
    + intros i Hi. rewrite <-(Z2Nat.id i) by lia. apply sector_concat.
      * pose proof (vo_nb _ _ _ Hsrc). lia.
      * apply Forall_forall. intros y (a & -> & _)%list_elem_of_fmap. apply media_len.
      * rewrite list_lookup_fmap, lin_run_lookup, Z2Nat.id by lia. cbn. by rewrite Hsame by lia.
    + exact Hpost.
    + done.
Qed.
Lemma copy_trips k : 0 <= k < Z.of_nat (trips 0 L (NVM_NADDR_MAX / wm * wm)) ->
  let max := NVM_NADDR_MAX / wm * wm in
  Z.min L (k * max) = k * max /\ Z.min L (k * max) + Z.min (L - k * max) max = Z.min L ((k + 1) * max) /\
  0 < Z.min (L - k * max) max <= NVM_NADDR_MAX.
Proof.
  intros Hk max. assert (Hmax : 0 < max <= NVM_NADDR_MAX).
  { unfold max, NVM_NADDR_MAX in *. pose proof (Z.mul_div_le 64 wm ltac:(lia)).
    assert (0 < 64 / wm) by (apply Z.div_str_pos; lia). nia. }
  pose proof (trips_lt 0 L max k ltac:(lia) Hk). lia.
Qed.

Lemma wp_copy_s20 s (Q : Z -> sys W -> Prop) : good mok s ->
  (forall r s', good mok s' -> live s' = live s ->
     (forall a, mdom a -> a ∉ lin_run dst wm 0 L -> media (world s') a = media (world s) a) ->
     (r = vblk_nbytes src /\
        (forall x, 0 <= x < L -> media (world s') (lin20 dst wm x) = media (world s) (lin20 src wm x)) \/
      r = -1 /\ errno s' = EIO) -> Q r s') ->
  wp (vblk_copy_s20 be dev src dst) s Q.
Proof.
  intros Hwf HQ. unfold vblk_copy_s20, nvm_dev_get_ws_min. pose proof Hsrc as [Hver _ _ _ _ _ Hnb Hsz _ _].
  destruct (lin_size_range min_dev src wm (min_ok src Hsrc)) as (HL0 & Hls & _).
  change (lin_size min_dev src) with L in HL0, Hls.
  rewrite Hver. cbn [Z.eqb Pos.eqb NVM_SPEC_VERID_12 NVM_SPEC_VERID_20]. rewrite Hmin.
  unfold NVM_NADDR_MAX in Hwm. rewrite i32_id by lia. apply wp_bind, wp_ret. rewrite wrap_id by lia.
  assert (EL : vblk_nbytes src / nb = L) by (rewrite Hsz; apply Z.div_mul; lia).
  apply wp_bind. unfold zdiv at 1. rewrite (proj2 (Z.eqb_neq nb 0)), EL by lia. eapply wp_intro; [done|].
  unfold sectr_stop. rewrite Z.add_0_l, (wrap_id 64 (L - 1)) by lia.
  apply wp_bind. unfold zdiv at 1. rewrite (proj2 (Z.eqb_neq wm 0)) by lia. eapply wp_intro; [done|].
  assert (Hmod : L mod wm = 0).
  { apply Z.mod_divide; [lia|]. unfold lin_size. by apply Z.divide_mul_r. }
  rewrite Hmod. cbn [negb Z.eqb]. set (max := NVM_NADDR_MAX / wm * wm).
  assert (Hmax : 0 < max).
  { unfold max, NVM_NADDR_MAX. assert (0 < 64 / wm) by (apply Z.div_str_pos; lia). nia. }
  apply wp_bind. unfold sectr_range. replace (L - 1 + 1) with L by lia.
  assert (max <= 64) by (unfold max, NVM_NADDR_MAX; pose proof (Z.mul_div_le 64 wm ltac:(lia)); lia).
  rewrite range_le_steps by (try replace (L - 1 + 1) with L; lia). replace (L - 1 + 1) with L by lia.
  eapply wp_intro; [done|]. apply wp_bind.
  apply (wp_mfold_steps _ (fun k nerr s' => written mok mdom media False (lin20 dst wm) 0
    (fun x => media (world s) (lin20 src wm x)) s k (Z.min L (k * max)) nerr s')).
  - rewrite Z.min_r by lia. by apply written_0.
  - intros k nerr s1 Hk Hwr. destruct (copy_trips k Hk) as (E1 & E2 & E3).
    change (NVM_NADDR_MAX / wm * wm) with max in E1, E2, E3. rewrite Z.add_0_l.
    pose proof (trips_lt 0 L max k ltac:(lia) Hk).
    rewrite E1 in Hwr. eapply (wp_copy_cmd k (k * max)); [exact Hwr|lia|nia|reflexivity|apply E3..|].
    intros nerr' s2 Hwr'. rewrite <-E2, E1. exact Hwr'.
  - intros nerr s1 Hwr. pose proof (trips_ge 0 L max Hmax). rewrite Z.min_l in Hwr by lia.
    destruct Hwr as (Hwf1 & Hl1 & _ & Hfr & Hd). destruct (Z.eqb_spec nerr 0) as [->|].
    + apply wp_ret, HQ; [done..|]. left. split; [done|]. by apply Hd.
    + eapply wp_intro; [done|]. apply HQ; [done..|]. by right.
Qed.
End copy.

(** The sectors of the member chunks. *)
Definition chunk_sector (v : nvm_vblk) (i o : Z) : nvm_addr := set_l_sectr o (member v i).
Definition sectors_in (dev : nvm_dev) (v : nvm_vblk) (P : nvm_addr -> Prop) : Prop :=
  forall i o, 0 <= i < nblks v -> 0 <= o < nsectr (geo dev) -> P (chunk_sector v i o).

(** The linear order of any unit runs over them. *)
Lemma lin_sectors dev v ws wm P : vblk20_ok dev v ws -> 0 < wm -> (wm | nsectr (geo dev)) ->
  sectors_in dev v P <-> forall x, 0 <= x < lin_size dev v -> P (lin20 v wm x).
Proof.
  intros Hv Hwm Hd. pose proof (mo_n v (vo_members _ _ _ Hv)) as Hn.
  pose proof (vo_nsectr _ _ _ Hv). split.
  - intros HP x Hx. apply HP; [apply stripe_idx_range; lia|].
    split; [apply stripe_off_nonneg; lia|apply stripe_off_bound; done || lia].
  - intros HP i o Hi Ho. destruct (lin20_unstripe v wm _ i o (vo_members _ _ _ Hv) Hwm Hd Hi Ho) as [Hx E].
    unfold chunk_sector. rewrite <-E. by apply HP.
Qed.

(** ** The function *)

Lemma copy_refused {W} (be : nvm_be W) dev src dst flags s : vdev src <> vdev dst \/ nblks src <> nblks dst \/ vblk_nbytes src <> vblk_nbytes dst ->
  nvm_vblk_copy be dev src dst flags s = Some (-1, Sys ENOSYS (hp s) (world s)).
Proof.
  intros Hne. unfold nvm_vblk_copy. destruct (Z.eqb_spec (vdev src) (vdev dst)); [|done].
  destruct (Z.eqb_spec (nblks src) (nblks dst)); [|done].
  destruct (Z.eqb_spec (vblk_nbytes src) (vblk_nbytes dst)); [naive_solver|done].
Qed.

(** Blocks that agree are copied sector by sector of the member chunks. *)
Section whole.
Context {W : Type} (be : nvm_be W) (dev : nvm_dev) `{!Media be dev, !CopyMedia be dev}.
Context (src dst : nvm_vblk) (ws wm flags : Z) (Hsrc : vblk20_ok dev src ws) (Hdst : vblk20_ok dev dst ws).
Context (Hmin : ws_min (s20_wrt (dev_idfy dev)) = wm) (Hwm : 0 < wm <= NVM_NADDR_MAX) (Hdiv : (wm | nsectr (geo dev))).
Context (Hsv : served (be := be) dev (u16 NVM_VBLK_CMD_OPTS) NVM_NADDR_MAX).
Context (Hint : lin_size dev src < 2 ^ 31) (Hds : sectors_in dev src mdom) (Hdd : sectors_in dev dst mdom).
Context (Hapart : forall i j, 0 <= i < nblks src -> 0 <= j < nblks dst ->
  chunk_id (member src i) <> chunk_id (member dst j)).
#[local] Abbreviation run := (nvm_vblk_copy be dev src dst flags).

Lemma wp_vblk_copy s (Q : Z -> sys W -> Prop) : good mok s -> vdev src = vdev dst -> nblks src = nblks dst ->
  (forall r s', good mok s' -> live s' = live s ->
     (forall a, mdom a -> sectors_in dev dst (fun b => a <> b) -> media (world s') a = media (world s) a) ->
     (r = vblk_nbytes src /\ (forall i o, 0 <= i < nblks src -> 0 <= o < nsectr (geo dev) ->
        media (world s') (chunk_sector dst i o) = media (world s) (chunk_sector src i o)) \/
      r = -1 /\ errno s' = EIO) -> Q r s') ->
  wp run s Q.
Proof.
  intros Hwf Hv Hn HQ. pose proof (vo_nsectr _ _ _ Hsrc) as Hns. unfold nvm_vblk_copy.
  rewrite Hv, Z.eqb_refl, (proj2 (Z.eqb_eq (nblks src) _)) by done.
  rewrite (vo_size _ _ _ Hsrc), (vo_size _ _ _ Hdst), Hn, Z.eqb_refl, (vo_verid _ _ _ Hsrc).
  cbn [negb Z.eqb Pos.eqb NVM_SPEC_VERID_20].
  assert (HLd : lin_size dev dst = lin_size dev src) by (unfold lin_size; by rewrite Hn).
  pose proof (proj1 (lin_sectors dev src ws wm mdom Hsrc ltac:(lia) Hdiv) Hds) as Hds'.
  pose proof (proj1 (lin_sectors dev dst ws wm mdom Hdst ltac:(lia) Hdiv) Hdd) as Hdd'. rewrite HLd in Hdd'.
  apply (wp_copy_s20 be dev src dst ws wm Hsrc Hdst Hmin Hwm Hdiv Hsv Hn Hint Hds' Hdd'); [|done|].
  { intros i j Hi Hj. apply Hapart; [done|by rewrite <-Hn]. }
  intros r s' Hwf' Hl' Hfr Hres. apply HQ; [done|done|..].
  - intros a Ha Hout. apply Hfr; [done|]. intros (x & Hx & ->)%lin_run_elem.
    by apply (proj1 (lin_sectors dev dst ws wm _ Hdst ltac:(lia) Hdiv) Hout (0 + x)); [rewrite HLd|].
  - destruct Hres as [[-> Hd]|]; [left|by right]. split; [done|]. intros i o Hi Ho.
    destruct (lin20_unstripe src wm _ i o (vo_members _ _ _ Hsrc) ltac:(lia) Hdiv Hi Ho) as [Hx ES].
    destruct (lin20_unstripe dst wm _ i o (vo_members _ _ _ Hdst) ltac:(lia) Hdiv ltac:(by rewrite <-Hn) Ho) as [_ ED].
    unfold chunk_sector. rewrite <-ES, <-ED, <-Hn. by apply Hd.
Qed.
End whole.

(** ** Properties *)

(** C13: [nvm_vblk_copy]. Blocks of different devices, numbers of chunks or
    sizes are refused with [ENOSYS] and nothing changes. Otherwise, on blocks of
    fewer than 2^31 sectors with no chunk in common, the copy changes no sector
    outside the destination, keeps no memory, and answers the size of the
    source, every sector of every chunk of the destination then holding the
    sector of the source in the same place, or -1 with [EIO] when a command
    failed. *)
Theorem vblk_copy_correct {W} (be : nvm_be W) (dev : nvm_dev) `{!Media be dev, !CopyMedia be dev}
    (src dst : nvm_vblk) (ws wm flags : Z) (Hsrc : vblk20_ok dev src ws) (Hdst : vblk20_ok dev dst ws)
    (Hmin : ws_min (s20_wrt (dev_idfy dev)) = wm) (Hwm : 0 < wm <= NVM_NADDR_MAX) (Hdiv : (wm | nsectr (geo dev)))
    (Hsv : served (be := be) dev (u16 NVM_VBLK_CMD_OPTS) NVM_NADDR_MAX)
    (Hint : lin_size dev src < 2 ^ 31) (Hds : sectors_in dev src mdom) (Hdd : sectors_in dev dst mdom)
    (Hapart : forall i j, 0 <= i < nblks src -> 0 <= j < nblks dst ->
       chunk_id (member src i) <> chunk_id (member dst j)) (s : sys W) (Hwf : good mok s) :
  let run := nvm_vblk_copy be dev src dst flags in
  (vdev src <> vdev dst \/ nblks src <> nblks dst \/ vblk_nbytes src <> vblk_nbytes dst ->
     run s = Some (-1, Sys ENOSYS (hp s) (world s))) /\
  (vdev src = vdev dst -> nblks src = nblks dst -> wp run s (fun r s' =>
     good mok s' /\ live s' = live s /\
     (forall a, mdom a -> sectors_in dev dst (fun b => a <> b) -> media (world s') a = media (world s) a) /\
     (r = vblk_nbytes src /\ (forall i o, 0 <= i < nblks src -> 0 <= o < nsectr (geo dev) ->
        media (world s') (chunk_sector dst i o) = media (world s) (chunk_sector src i o)) \/
      r = -1 /\ errno s' = EIO))).
Proof.
  intros run. split; [intros Hne; by apply copy_refused|]. intros Hv Hn.
  apply (wp_vblk_copy be dev src dst ws wm flags); try done.
Qed.

(** The other two chunks numbered 2 of [tiny20], next to [tiny_vblk]. *)
Definition tiny_dst : nvm_vblk := with_blks (set_l_chunk 2 <$> blks tiny_vblk) 2 tiny_vblk.

Lemma tiny_dst_ok : vblk20_ok tiny20 tiny_dst 2.
Proof.
  split; try done; [|by exists 4]. split; [by split|by vm_compute|..].
  - intros i a Hi Ha. assert (i = 0 \/ i = 1) as [-> | ->] by (cbn in Hi; lia);
      vm_compute in Ha; simplify_eq; unfold addr_ok; lia.
  - intros i j a b Hi Hj Ha Hb. assert (i = 0 \/ i = 1) as [-> | ->] by (cbn in Hi; lia);
      assert (j = 0 \/ j = 1) as [-> | ->] by (cbn in Hj; lia);
      vm_compute in Ha, Hb; simplify_eq; by vm_compute.
Qed.

Lemma vblk_copy_correct_witness :
  let s := Sys 0 (sample_heap 9) (<[chunk_sector tiny_vblk 1 5 := [44; 45]]> ∅) in
  wp (nvm_vblk_copy (ram_be tiny20) tiny20 tiny_vblk tiny_dst 0) s (fun r s' =>
    r = 32 /\ media (world s') (chunk_sector tiny_dst 1 5) = [44; 45] /\
    media (world s') (chunk_sector tiny_dst 0 5) = [0; 0]).
Proof.
  intros s. destruct (vblk_copy_correct (ram_be tiny20) tiny20 tiny_vblk tiny_dst 2 2 0 tiny_vblk_ok tiny_dst_ok eq_refl
    ltac:(by split) ltac:(by exists 4) ltac:(done) ltac:(done) ltac:(done) ltac:(done)) with (s := s) as [_ C].
  { intros i j Hi Hj. cbn in Hi, Hj. assert (i = 0 \/ i = 1) as [-> | ->] by lia;
      assert (j = 0 \/ j = 1) as [-> | ->] by lia; by vm_compute. }
  { apply sample_heap_wf. }
  specialize (C eq_refl eq_refl). apply wp_elim in C as (r & s' & E & _ & _ & _ & Hres).
  eapply wp_intro; [exact E|]. assert (Er : r = 32) by (assert (E2 := E); vm_compute in E2; congruence).
  destruct Hres as [[_ Hd]|[? _]]; [|lia]. split; [done|].
  rewrite !Hd by (cbn; lia). by split; vm_compute.
Defined.
