(* ===== verification/VblkAsync.v ===== *)
(** Asynchronous writes to a 2.0 virtual block: the stack of result structures,
    the commands in flight, and the reaping of their completions. *)
From stdpp Require Import base numbers strings gmap option list.
From S2P Require Import Prelude Types Nvme Addr Dev Backend Buf Cmd Vblk Stripe Media Linear VblkIO.

(** ** A queue of commands *)

(** A command in flight: the structure it was submitted with, and its work. *)
Record acmd := Acmd { a_token : Z; a_addrs : list nvm_addr; a_data : list Z }.

(** No sector is written twice, and every command has its data. *)
Record apart (nb : Z) (l : list acmd) : Prop := {
  ap_cmd i c : l !! i = Some c ->
    NoDup (a_addrs c) /\ Z.of_nat (length (a_addrs c)) * nb <= Z.of_nat (length (a_data c));
  ap_cmds i j c c' a : l !! i = Some c -> l !! j = Some c' -> a ∈ a_addrs c -> a ∈ a_addrs c' -> i = j }.

Section posts.
Context {W : Type} (mdom : nvm_addr -> Prop) (media : W -> nvm_addr -> list Z) (nb : Z).
Context (inflight : W -> list acmd) (qok : W -> Prop) (qmem : W -> gset Z) (d : Z).

(** The memory held for the commands in flight is there. *)
Definition queue_wf (s : sys W) : Prop := heap_wf s /\ qok (world s) /\ qmem (world s) ⊆ live s.

(** What else is allocated. *)
Definition rest (s : sys W) : gset Z := live s ∖ qmem (world s).

(** A submission: the command is in flight, or it is refused, and with
    [EAGAIN] only on a full queue. *)
Definition submit_post (tok : Z) (addrs : list nvm_addr) (data : list Z) (s : sys W) (r : Z) (s' : sys W) : Prop :=
  queue_wf s' /\ rest s' = rest s /\ (forall a, mdom a -> media (world s') a = media (world s) a) /\
  (r = 0 /\ inflight (world s') = inflight (world s) ++ [Acmd tok addrs data] \/
   r < 0 /\ inflight (world s') = inflight (world s) /\
     (errno s' = EAGAIN -> Z.of_nat (length (inflight (world s))) = d)).

(** The completions [cpls] of the commands [done], in any order. *)
Definition reaped (done : list acmd) (cpls : list completion) (s s' : sys W) : Prop :=
  queue_wf s' /\ rest s' = rest s /\
  inflight (world s) ≡ₚ done ++ inflight (world s') /\
  cpl_ret <$> cpls = a_token <$> done /\
  (forall a, mdom a -> (forall c, c ∈ done -> a ∉ a_addrs c) -> media (world s') a = media (world s) a) /\
  (forall i c cmd, cpls !! i = Some c -> done !! i = Some cmd -> cpl_status c = 0 ->
     forall j a, a_addrs cmd !! j = Some a -> media (world s') a = sector nb (a_data cmd) (Z.of_nat j)).
End posts.

(** What asynchronous I/O relies on of a backend, for the queue [q] of depth
    [d]: a poke of a queue with commands in flight that delivers nothing brings
    the next delivery closer, [lag] counting the pokes left at most. Poke and
    wait may fail, whatever they delivered. The backend may hold memory for the
    commands in flight, and for no others; [qflags] are the options it takes
    for asynchronous commands, in vector commands of [n] addresses when
    [qvector n]. *)
Class AsyncQueue {W} (be : nvm_be W) (dev : nvm_dev) (q d : Z) := {
  adom : nvm_addr -> Prop;
  amedia : W -> nvm_addr -> list Z;
  inflight : W -> list acmd;
  qok : W -> Prop;
  qmem : W -> gset Z;
  qflags : Z -> Prop;
  qvector : Z -> Prop;
  qmem_idle w : qok w -> inflight w = [] -> qmem w = ∅;
  lag : W -> nat;
  lag_max : nat;
  lag_le w : (lag w <= lag_max)%nat;
  vector_submit_law addrs data meta flags ret s :
    queue_wf qok qmem s -> qflags flags -> Forall adom addrs -> NoDup addrs -> 0 < Z.of_nat (length addrs) <= 2 ^ 16 ->
    qvector (Z.of_nat (length addrs)) ->
    Z.of_nat (length addrs) * nbytes (geo dev) <= Z.of_nat (length data) ->
    (forall c a, c ∈ inflight (world s) -> a ∈ addrs -> a ∉ a_addrs c) ->
    wp (be_vector_write be dev addrs (Z.of_nat (length addrs)) (Some data) meta flags (Some ret)) s
      (fun r s' => submit_post adom amedia inflight qok qmem d (ret_async ret) addrs data s r.1 s');
  scalar_submit_law a n data meta flags ret s :
    queue_wf qok qmem s -> qflags flags -> Forall adom (run_addrs a n) -> 0 < n <= 2 ^ 16 -> l_sectr a + n <= 2 ^ 32 ->
    n * nbytes (geo dev) <= Z.of_nat (length data) ->
    (forall c b, c ∈ inflight (world s) -> b ∈ run_addrs a n -> b ∉ a_addrs c) ->
    wp (be_scalar_write be dev a n (Some data) meta flags (Some ret)) s
      (fun r s' => submit_post adom amedia inflight qok qmem d (ret_async ret) (run_addrs a n) data s r.1 s');
  poke_law ctx s : be_ctx ctx = q -> depth ctx = d -> queue_wf qok qmem s -> apart (nbytes (geo dev)) (inflight (world s)) ->
    wp (be_async_poke be dev ctx 0) s (fun '(r, ctx', cpls) s' =>
      be_ctx ctx' = q /\ depth ctx' = d /\
      exists done, reaped adom amedia (nbytes (geo dev)) inflight qok qmem done cpls s s' /\
        (r = Z.of_nat (length done) \/ r = -1) /\
        (r = 0 -> inflight (world s) <> [] -> (lag (world s') < lag (world s))%nat));
  wait_law ctx s : be_ctx ctx = q -> depth ctx = d -> queue_wf qok qmem s -> apart (nbytes (geo dev)) (inflight (world s)) ->
    wp (be_async_wait be dev ctx) s (fun '(r, ctx', cpls) s' =>
      be_ctx ctx' = q /\ depth ctx' = d /\
      exists done, reaped adom amedia (nbytes (geo dev)) inflight qok qmem done cpls s s' /\
        (r = Z.of_nat (length done) /\ inflight (world s') = [] \/ r = -1)) }.

(** A backend that holds nothing for its commands. *)
Lemma queue_wf_none {W} (qok : W -> Prop) (s : sys W) : heap_wf s -> qok (world s) -> queue_wf qok (fun _ => ∅) s.
Proof. intros H1 H2. split; [done|]. split; [done|]. set_solver +. Qed.

(** ** Reaping in parts *)

Section reaped.
Context {W : Type} (mdom : nvm_addr -> Prop) (media : W -> nvm_addr -> list Z) (nb : Z).
Context (inflight : W -> list acmd) (qok : W -> Prop) (qmem : W -> gset Z).
Implicit Types s : sys W.

Lemma apart_perm l l' : l ≡ₚ l' -> apart nb l -> apart nb l'.
Proof.
  intros Hp [A1 A2]. symmetry in Hp. apply Permutation_inj in Hp as [Hlen (f & Hf & Hl)]. split.
  - intros i c Hc. rewrite Hl in Hc. by eapply A1.
  - intros i j c c' b Hc Hc' Hb Hb'. rewrite Hl in Hc, Hc'. apply Hf. by eapply A2.
Qed.

Lemma apart_app l l' : apart nb (l ++ l') -> apart nb l' /\
  forall c c' b, c ∈ l -> c' ∈ l' -> b ∈ a_addrs c -> b ∉ a_addrs c'.
Proof.
  intros [A1 A2]. split; [split|].
  - intros i c Hc. apply (A1 (length l + i)%nat). by rewrite lookup_app_r, Nat.add_sub' by lia.
  - intros i j c c' b Hc Hc' Hb Hb'.
    enough (length l + i = length l + j)%nat by lia.
    eapply A2; [by rewrite lookup_app_r, Nat.add_sub' by lia|by rewrite lookup_app_r, Nat.add_sub' by lia|done..].
  - intros c c' b [i Hi]%list_elem_of_lookup [j Hj]%list_elem_of_lookup Hb Hb'.
    enough (i = length l + j)%nat by (apply lookup_lt_Some in Hi; lia).
    eapply A2; [by apply lookup_app_l_Some|by rewrite lookup_app_r, Nat.add_sub' by lia|done..].
Qed.

Lemma reaped_nil s : queue_wf qok qmem s -> reaped mdom media nb inflight qok qmem [] [] s s.
Proof. intros Hwf. split; [done|]. split; [done|]. split; [done|]. by split. Qed.

(** Reaping twice is reaping once. *)
Lemma reaped_app d1 c1 d2 c2 s s1 s2 : apart nb (inflight (world s)) ->
  (forall c b, c ∈ d1 -> b ∈ a_addrs c -> mdom b) ->
  reaped mdom media nb inflight qok qmem d1 c1 s s1 -> reaped mdom media nb inflight qok qmem d2 c2 s1 s2 ->
  reaped mdom media nb inflight qok qmem (d1 ++ d2) (c1 ++ c2) s s2.
Proof.
  intros Hap Hd (A1 & A3 & A4 & A5 & A6 & A7) (B1 & B3 & B4 & B5 & B6 & B7).
  assert (Elen : length c1 = length d1) by (apply (f_equal length) in A5; by rewrite !length_fmap in A5).
  rewrite B4 in A4. pose proof (apart_perm _ _ A4 Hap) as Hap'. apply apart_app in Hap' as [_ Hsep].
  split; [done|]. split; [by rewrite B3|]. split; [by rewrite A4, app_assoc|].
  split; [by rewrite !fmap_app, A5, B5|]. split.
  - intros a Ha Hn. rewrite B6, A6; [done..|set_solver|done|set_solver].
  - intros i c cmd Hc Hcmd Hst j a Hj. destruct (Nat.lt_ge_cases i (length d1)) as [Hi|Hi].
    + rewrite lookup_app_l in Hc by lia; rewrite lookup_app_l in Hcmd by lia. pose proof (list_elem_of_lookup_2 _ _ _ Hcmd) as Hin.
      pose proof (list_elem_of_lookup_2 _ _ _ Hj) as Ha. rewrite B6.
      * by eapply A7.
      * by eapply Hd.
      * intros c' Hc'. eapply Hsep; [exact Hin|apply elem_of_app; by left|exact Ha].
    + rewrite lookup_app_r in Hc by lia; rewrite lookup_app_r in Hcmd by lia. rewrite Elen in Hc. by eapply B7.
Qed.
End reaped.

(** ** The addresses of a stripe *)

Section stripe.
Context (dev : nvm_dev) (v : nvm_vblk) (ws : Z) (Hv : vblk20_ok dev v ws).

(** Stripe [k] of a range that begins with a row covers write unit [k] of the
    block, whatever row that is. *)
Lemma async_addrs_unit bgn k : (nblks v * ws | bgn) -> 0 <= bgn < 2 ^ 62 -> 0 <= k -> (k + 1) * ws <= lin_size dev v ->
  async_addrs v ws bgn k = Some (lin_run v ws (k * ws) ws).
Proof.
  intros [m ->] Hb Hk Hs. pose proof (vo_ws_range _ _ _ Hv) as Hw. pose proof (mo_n v (vo_members _ _ _ Hv)) as Hn.
  unfold VBLK_MAX in Hn. destruct (lin_size_range dev v ws Hv) as (_ & Hls & _).
  unfold async_addrs, zdiv, zmod. rewrite (proj2 (Z.eqb_neq ws 0)), (proj2 (Z.eqb_neq (nblks v) 0)) by lia. cbn.
  replace (m * (nblks v * ws)) with (m * nblks v * ws) by lia.
  rewrite Z.div_mul, Z.mod_mul by lia. rewrite Z.add_0_l, (wrap_id 64 k) by nia.
  unfold lin_run, run_of. rewrite <-(seqZ_shift (lin20 v ws) (k * ws)). apply build_addrs_some. intros i Hi.
  rewrite (member_lookup v (vo_members _ _ _ Hv)) by (apply Z.mod_pos_bound; lia). cbn.
  destruct (stripe_unit ws (nblks v) ltac:(lia) (k * ws) i ltac:(by exists k) Hi) as [E1 E2].
  pose proof (lin_off dev v ws Hv (k * ws) ltac:(nia)) as Ho.
  pose proof (lin_off dev v ws Hv (k * ws + i) ltac:(nia)) as Ho'. rewrite E2 in Ho'.
  unfold lin20. rewrite E1, E2. revert Ho Ho'. unfold stripe_idx, stripe_off.
  rewrite Z.mod_mul, Z.div_mul, Z.add_0_l by lia. intros Ho Ho'.
  by rewrite (wrap_id 64 (k / nblks v * ws)), wrap_id by lia.
Qed.
End stripe.

(** ** The stack of result structures *)

(** The completions push their structures back, and count errors. *)
Lemma callback_ok cpls nerr ctx rs sp v :
  0 <= nerr -> nerr + Z.of_nat (length cpls) < 2 ^ 64 -> sp < 2 ^ 32 ->
  Z.of_nat (length cpls) <= sp <= Z.of_nat (length rs) ->
  exists nerr' rs', vblk_async_callback cpls nerr (with_async ctx rs sp v) =
      Some (nerr', with_async ctx rs' (sp - Z.of_nat (length cpls)) v) /\
    nerr <= nerr' <= nerr + Z.of_nat (length cpls) /\ (nerr' = nerr -> Forall (fun c => cpl_status c = 0) cpls) /\
    length rs' = length rs /\
    drop (Z.to_nat (sp - Z.of_nat (length cpls))) rs' ≡ₚ (cpl_ret <$> cpls) ++ drop (Z.to_nat sp) rs.
Proof.
  revert nerr rs sp. induction cpls as [|c cpls IH]; intros nerr rs sp Hn Hn64 Hsp Hlen.
  - exists nerr, rs. cbn. rewrite Z.sub_0_r. repeat split; try done; lia.
  - cbn [length] in *. cbn [vblk_async_callback retsp with_async rets async_ctx].
    rewrite (wrap_id 32) by lia. destruct (lookup_lt_is_Some_2 rs (Z.to_nat (sp - 1)) ltac:(lia)) as [x Hx].
    rewrite Hx. cbn [mbind option_bind].
    change (with_async ctx ?l ?p (with_async ctx rs sp v)) with (with_async ctx l p v).
    set (n1 := if cpl_status c =? 0 then nerr else u64 (nerr + 1)).
    assert (E1 : nerr <= n1 <= nerr + 1 /\ (n1 = nerr -> cpl_status c = 0)).
    { unfold n1. destruct (Z.eqb_spec (cpl_status c) 0); [lia|]. rewrite wrap_id by lia. lia. }
    destruct (IH n1 (<[Z.to_nat (sp - 1) := cpl_ret c]> rs) (sp - 1)) as (n2 & rs2 & E & R & F & L & P);
      [lia|lia|lia|rewrite length_insert; lia|].
    exists n2, rs2. rewrite E. split; [do 3 f_equal; lia|]. split; [lia|]. split.
    { intros Eq. constructor; [apply E1; lia|apply F; lia]. }
    split; [by rewrite L, length_insert|].
    replace (sp - Z.of_nat (S (length cpls))) with (sp - 1 - Z.of_nat (length cpls)) by lia. rewrite P.
    rewrite (drop_S _ (cpl_ret c) (Z.to_nat (sp - 1))) by (apply list_lookup_insert_eq; lia).
    replace (S (Z.to_nat (sp - 1))) with (Z.to_nat sp) by lia.
    rewrite drop_insert_lt by lia. cbn. by rewrite Permutation_middle.
Qed.

(** ** The invariant *)

Section queue.
Context {W : Type} (be : nvm_be W) (dev : nvm_dev) (q d : Z) `{!AsyncQueue be dev q d}.
Context (v : nvm_vblk) (ws : Z) (Hv : vblk20_ok dev v ws) (Hdom : on_device dev v ws adom).
Context (Hmode : vblk_mode dev v = NVM_CMD_VECTOR /\ qvector ws \/ vblk_mode dev v = NVM_CMD_SCALAR).
Context (Hasync : qflags (vflags v)) (Hd : 2 <= d < 2 ^ 31).
Context (units : Z) (Hunits : units * ws <= lin_size dev v) (all : list Z) (Hall : Forall (fun t => t <> 0) all).
Context (src : Z -> list Z) (s0 : sys W).
Implicit Types s : sys W.
#[local] Abbreviation nb := (nbytes (geo dev)).

Definition unit_addrs (j : Z) : list nvm_addr := lin_run v ws (j * ws) ws.

(** Sector [i] of unit [j] is where it was meant to go. *)
Definition unit_done s (j : Z) : Prop :=
  forall i, 0 <= i < ws -> amedia (world s) (lin20 v ws (j * ws + i)) = src (j * ws + i).

(** The command writes unit [j]. *)
Definition writes_unit (c : acmd) (j : Z) : Prop :=
  a_addrs c = unit_addrs j /\ ws * nb <= Z.of_nat (length (a_data c)) /\
  forall i, 0 <= i < ws -> sector nb (a_data c) i = src (j * ws + i).

(** [k] units are submitted, [nerr] commands failed, [held] are the result
    structures taken off the stack and not yet submitted. Every structure is
    free, held or in flight, and every unit in flight or, without errors,
    written. *)
Record queue_ok (held : list Z) (k nerr : Z) (v' : nvm_vblk) s : Prop := {
  qo_wf : queue_wf qok qmem s;
  qo_rest : rest qmem s = rest qmem s0;
  qo_v : exists ctx rs sp, v' = with_async (Some ctx) rs sp v /\ be_ctx ctx = q /\ depth ctx = d;
  qo_len : Z.of_nat (length (rets v')) = d;
  qo_sp : retsp v' = Z.of_nat (length (inflight (world s))) + Z.of_nat (length held);
  qo_le : retsp v' <= d - 1;
  qo_toks : drop (Z.to_nat (retsp v')) (rets v') ++ held ++ (a_token <$> inflight (world s)) ≡ₚ all;
  qo_units : exists js, NoDup js /\ Forall (fun j => 0 <= j < k) js /\ Forall2 writes_unit (inflight (world s)) js /\
    (nerr = 0 -> forall j, 0 <= j < k -> j ∉ js -> unit_done s j);
  qo_frame : forall a, adom a -> a ∉ lin_run v ws 0 (units * ws) -> amedia (world s) a = amedia (world s0) a;
  qo_k : 0 <= k <= units;
  qo_nerr : 0 <= nerr <= k - Z.of_nat (length (inflight (world s))) }.

(** What holds when the operation gives up. *)
Definition gave_up s : Prop :=
  queue_wf qok qmem s /\ rest qmem s = rest qmem s0 /\
  (forall a, adom a -> a ∉ lin_run v ws 0 (units * ws) -> amedia (world s) a = amedia (world s0) a).

Lemma queue_gave_up held k nerr v' s : queue_ok held k nerr v' s -> gave_up s.
Proof. intros H. split; [apply H|split; apply H]. Qed.

(** Different units have no sector in common. *)
Lemma unit_addrs_apart j j' a : 0 <= j < units -> 0 <= j' < units ->
  a ∈ unit_addrs j -> a ∈ unit_addrs j' -> j = j'.
Proof.
  intros Hj Hj' (i & Hi & ->)%lin_run_elem (i' & Hi' & E)%lin_run_elem. pose proof (vo_ws_range _ _ _ Hv).
  apply (lin_inj dev v ws Hv) in E; [nia|nia|nia].
Qed.

Lemma units_apart k l js : k <= units -> NoDup js -> Forall (fun j => 0 <= j < k) js ->
  Forall2 writes_unit l js -> apart nb l.
Proof.
  intros Hk Hnd Hr Hl. pose proof (vo_ws_range _ _ _ Hv). split.
  { intros i c Hc. destruct (Forall2_lookup_l _ _ _ _ _ Hl Hc) as (j & Hj & -> & Hlen & _).
    rewrite Forall_lookup in Hr. pose proof (Hr _ _ Hj). unfold unit_addrs.
    rewrite lin_run_len by lia. split; [|done]. eapply lin_run_NoDup; [done|nia|nia]. }
  intros i i' c c' a Hc Hc' Ha Ha'.
  destruct (Forall2_lookup_l _ _ _ _ _ Hl Hc) as (j & Hj & E & _).
  destruct (Forall2_lookup_l _ _ _ _ _ Hl Hc') as (j' & Hj' & E' & _). rewrite E in Ha. rewrite E' in Ha'.
  rewrite Forall_lookup in Hr. pose proof (Hr _ _ Hj). pose proof (Hr _ _ Hj').
  assert (j = j') as <- by (eapply unit_addrs_apart; [| |exact Ha|exact Ha']; lia).
  by eapply NoDup_lookup.
Qed.

Lemma queue_apart held k nerr v' s : queue_ok held k nerr v' s -> apart nb (inflight (world s)).
Proof.
  intros H. destruct (qo_units _ _ _ _ _ H) as (js & H1 & H2 & H3 & _).
  eapply units_apart; [apply H|done..].
Qed.

(** Reaping completions of commands in flight. *)
Lemma reap_queue held k nerr v' s done cpls ctx' s' :
  queue_ok held k nerr v' s -> be_ctx ctx' = q -> depth ctx' = d ->
  reaped adom amedia nb inflight qok qmem done cpls s s' ->
  exists nerr' v'', vblk_async_callback cpls nerr (with_async (Some ctx') (rets v') (retsp v') v') = Some (nerr', v'') /\
    queue_ok held k nerr' v'' s' /\
    length (inflight (world s)) = (length done + length (inflight (world s')))%nat.
Proof.
  intros H Eq Ed (Hwf & Hl & Hp & Ht & Hfr & Hok). destruct H as [H1 H2 (ctx & rs & sp & -> & _) H4 H5 H6 H7 H8 H9 H10 H11].
  cbn [rets retsp with_async] in *.
  assert (Elen : length (inflight (world s)) = (length done + length (inflight (world s')))%nat)
    by (by rewrite Hp, length_app).
  assert (Ec : length cpls = length done) by (apply (f_equal length) in Ht; by rewrite !length_fmap in Ht).
  pose proof (lin_size_range dev v ws Hv) as (_ & Hls & _). pose proof (vo_ws_range _ _ _ Hv).
  destruct (callback_ok cpls nerr (Some ctx') rs sp v) as (nerr' & rs' & E & R & F & L & P); [lia|nia|lia|lia|].
  exists nerr', (with_async (Some ctx') rs' (sp - Z.of_nat (length cpls)) v). split; [exact E|]. split; [|done].
  destruct H8 as (js & J1 & J2 & J3 & J4). destruct (Permutation_Forall2 Hp J3) as (js' & Pj & J3').
  apply Forall2_app_inv_l in J3' as (jd & ji & Jd & Ji & ->).
  assert (Hjd : forall c, c ∈ done -> exists j, j ∈ js /\ writes_unit c j).
  { intros c Hc. apply list_elem_of_lookup in Hc as [i Hi]. destruct (Forall2_lookup_l _ _ _ _ _ Jd Hi) as (j & Hj & Hw).
    exists j. split; [|done]. rewrite Pj. apply elem_of_app. left. by eapply list_elem_of_lookup_2. }
  split; cbn [rets retsp with_async]; try done; [congruence|by eexists _, _, _|by rewrite L|lia|lia| | | |lia].
  - rewrite P, Ht, <-H7, Hp, fmap_app. solve_Permutation.
  - exists ji. rewrite Pj in J1. apply NoDup_app in J1 as (N1 & N2 & N3). split; [done|].
    split; [rewrite Pj in J2; by apply Forall_app in J2 as [_ ?]|]. split; [done|].
    intros E0 j Hj Hji. assert (nerr = 0) as En by lia. rewrite Forall_forall in J2.
    destruct (decide (j ∈ jd)) as [Hin|Hout].
    + apply list_elem_of_lookup in Hin as [i Hi]. destruct (Forall2_lookup_r _ _ _ _ _ Jd Hi) as (c & Hc & Ea & _ & Es).
      destruct (lookup_lt_is_Some_2 cpls i) as [cp Hcp]; [rewrite Ec; by eapply lookup_lt_Some|].
      specialize (F ltac:(lia)). rewrite Forall_lookup in F. specialize (F _ _ Hcp). intros x Hx.
      rewrite (Hok i cp c Hcp Hc F (Z.to_nat x)), Z2Nat.id by (lia || (rewrite Ea; by apply lin_run_lookup)). by apply Es.
    + intros x Hx. rewrite Hfr.
      * apply J4; [done|done| |done]. rewrite Pj. rewrite elem_of_app. tauto.
      * apply Hdom. nia.
      * intros c Hc Ha. destruct (Hjd c Hc) as (j' & Hj' & Ea & _). rewrite Ea in Ha.
        assert (j = j') as <-.
        { eapply (unit_addrs_apart j j'); [lia|pose proof (J2 _ Hj'); lia| |exact Ha]. apply lin_run_elem. by exists x. }
        rewrite Pj, elem_of_app in Hj'. tauto.
  - intros a Ha Hna. rewrite Hfr; [by apply H9|done|]. intros c Hc Hac. destruct (Hjd c Hc) as (j & Hj & Ea & _).
    rewrite Ea in Hac. apply Hna. apply lin_run_elem in Hac as (i & Hi & ->). apply lin_run_elem.
    rewrite Forall_forall in J2. pose proof (J2 _ Hj). exists (j * ws + i). split; [nia|done].
Qed.
Lemma wp_poke held k nerr v' s (Q : Z * Z * nvm_vblk -> sys W -> Prop) :
  queue_ok held k nerr v' s ->
  (forall n nerr' v'' s', queue_ok held k nerr' v'' s' ->
     Z.of_nat (length (inflight (world s))) = n + Z.of_nat (length (inflight (world s'))) -> 0 <= n ->
     (n = 0 -> inflight (world s) <> [] -> (lag (world s') < lag (world s))%nat) -> Q (n, nerr', v'') s') ->
  (forall nerr' v'' s', gave_up s' -> Q (-1, nerr', v'') s') ->
  wp (vblk_poke be dev nerr v') s Q.
Proof.
  intros H HQ HE. unfold vblk_poke. destruct (qo_v _ _ _ _ _ H) as (ctx & rs & sp & Ev & Eq & Ed).
  assert (Ectx : async_ctx v' = Some ctx) by (by rewrite Ev). rewrite Ectx.
  apply wp_bind. eapply wp_intro; [done|]. apply wp_bind.
  eapply wp_mono; [apply poke_law; [done|done|apply H|by eapply queue_apart]|].
  intros [[r ctx'] cpls] s' (Eq' & Ed' & done & Hr & Hres & Hlag).
  destruct (reap_queue held k nerr v' s done cpls ctx' s' H Eq' Ed' Hr) as (nerr' & v'' & E & H' & Hlen).
  apply wp_bind. rewrite E. eapply wp_intro; [reflexivity|]. apply wp_ret. destruct Hres as [->| ->].
  - apply HQ; [done|lia|lia|]. intros E0. by apply Hlag.
  - apply HE. by eapply queue_gave_up.
Qed.

Lemma wp_wait held k nerr v' s (Q : Z * Z * nvm_vblk -> sys W -> Prop) :
  queue_ok held k nerr v' s ->
  (forall n nerr' v'' s', 0 <= n -> queue_ok held k nerr' v'' s' -> inflight (world s') = [] -> Q (n, nerr', v'') s') ->
  (forall nerr' v'' s', gave_up s' -> Q (-1, nerr', v'') s') ->
  wp (vblk_wait be dev nerr v') s Q.
Proof.
  intros H HQ HE. unfold vblk_wait. destruct (qo_v _ _ _ _ _ H) as (ctx & rs & sp & Ev & Eq & Ed).
  assert (Ectx : async_ctx v' = Some ctx) by (by rewrite Ev). rewrite Ectx.
  apply wp_bind. eapply wp_intro; [done|]. apply wp_bind.
  eapply wp_mono; [apply wait_law; [done|done|apply H|by eapply queue_apart]|].
  intros [[r ctx'] cpls] s' (Eq' & Ed' & done & Hr & Hres).
  destruct (reap_queue held k nerr v' s done cpls ctx' s' H Eq' Ed' Hr) as (nerr' & v'' & E & H' & Hlen).
  apply wp_bind. rewrite E. eapply wp_intro; [reflexivity|]. apply wp_ret. destruct Hres as [[-> Hi]| ->].
  - apply HQ; [lia|done|done].
  - apply HE. by eapply queue_gave_up.
Qed.

(** ** The loops end *)

(** The spin ends within the pokes the device has left. *)
Lemma wp_spin fuel held k nerr v' s (Q : Z * Z * nvm_vblk -> sys W -> Prop) :
  queue_ok held k nerr v' s -> inflight (world s) <> [] -> (lag (world s) <= fuel)%nat ->
  (forall n nerr' v'' s', 0 < n -> queue_ok held k nerr' v'' s' ->
     Z.of_nat (length (inflight (world s))) = n + Z.of_nat (length (inflight (world s'))) -> Q (n, nerr', v'') s') ->
  (forall nerr' v'' s', gave_up s' -> Q (-1, nerr', v'') s') ->
  wp (reap_spin be dev fuel nerr v') s Q.
Proof.
  revert nerr v' s. induction fuel as [|fuel IH]; intros nerr v' s H Hne Hf HQ HE; cbn [reap_spin];
    apply wp_bind, (wp_poke held k); try done.
  - intros n nerr' v'' s' H' Hlen Hn Hlag. destruct (Z.eqb_spec n 0) as [E0|]; [specialize (Hlag E0 Hne); lia|].
    apply wp_ret, HQ; [lia|done|done].
  - intros n nerr' v'' s' H' Hlen Hn Hlag. destruct (Z.eqb_spec n 0) as [->|]; [|apply wp_ret, HQ; [lia|done|done]].
    specialize (Hlag eq_refl Hne). apply IH; [done| |lia|intros; apply HQ; [done|done|lia]|done].
    intros E. rewrite E in Hlen. cbn in Hlen. by destruct (inflight (world s)).
Qed.

(** The drain ends when a poke delivers nothing, at the latest with nothing
    in flight. *)
Lemma wp_drain fuel held k n0 nerr v' s (Q : Z * Z * nvm_vblk -> sys W -> Prop) :
  queue_ok held k nerr v' s -> (length (inflight (world s)) <= fuel)%nat ->
  0 < n0 -> n0 + Z.of_nat (length (inflight (world s))) < 2 ^ 31 ->
  (forall n nerr' v'' s', 0 < n -> queue_ok held k nerr' v'' s' ->
     (length (inflight (world s')) <= length (inflight (world s)))%nat -> Q (n, nerr', v'') s') ->
  (forall nerr' v'' s', gave_up s' -> Q (-1, nerr', v'') s') ->
  wp (reap_drain be dev fuel n0 nerr v') s Q.
Proof.
  revert n0 nerr v' s. induction fuel as [|fuel IH]; intros n0 nerr v' s H Hf Hn0 Hn HQ HE; cbn [reap_drain];
    apply wp_bind, (wp_poke held k); try done.
  - intros n nerr' v'' s' H' Hlen Hn' _. rewrite (proj2 (Z.eqb_neq n (-1))) by lia.
    assert (n = 0) as -> by lia. cbn. apply wp_ret. rewrite i32_id by lia. apply HQ; [lia|done|lia].
  - intros n nerr' v'' s' H' Hlen Hn' _. rewrite (proj2 (Z.eqb_neq n (-1))) by lia.
    rewrite i32_id by lia. destruct (Z.eqb_spec n 0) as [->|].
    + apply wp_ret, HQ; [lia|done|lia].
    + apply IH; [done|lia|lia|lia| |done]. intros n2 nerr2 v2 s2 G1 G2 G3. apply HQ; [done|done|lia].
Qed.

Lemma wp_greedy fuel held k nerr v' s (Q : Z * Z * nvm_vblk -> sys W -> Prop) :
  queue_ok held k nerr v' s -> inflight (world s) <> [] ->
  (lag_max <= fuel)%nat -> d <= Z.of_nat fuel ->
  (forall n nerr' v'' s', 0 < n -> queue_ok held k nerr' v'' s' ->
     (length (inflight (world s')) < length (inflight (world s)))%nat -> Q (n, nerr', v'') s') ->
  (forall nerr' v'' s', gave_up s' -> Q (-1, nerr', v'') s') ->
  wp (_vblk_async_greedy_reap be dev fuel nerr v') s Q.
Proof.
  intros H Hne Hlag Hf HQ HE. unfold _vblk_async_greedy_reap. pose proof (lag_le (world s)).
  pose proof (qo_le _ _ _ _ _ H) as Hle. pose proof (qo_sp _ _ _ _ _ H) as Hsp.
  apply wp_bind, (wp_spin _ held k); [done|done|lia| |].
  - intros n nerr' v'' s' Hn H' Hlen. rewrite (proj2 (Z.eqb_neq n (-1))) by lia.
    apply (wp_drain _ held k); [done|lia|lia|lia| |done].
    intros n2 nerr2 v2 s2 G1 G2 G3. apply HQ; [done|done|lia].
  - intros nerr' v'' s' Hg. rewrite Z.eqb_refl. apply wp_ret. by apply HE.
Qed.

(** ** Submission *)

Lemma wp_cmd_submit k data meta t v' s :
  queue_wf qok qmem s -> 0 <= k -> (k + 1) * ws <= lin_size dev v -> ws * nb <= Z.of_nat (length data) ->
  vflags v' = vflags v -> (forall c a, c ∈ inflight (world s) -> a ∈ unit_addrs k -> a ∉ a_addrs c) ->
  wp (nvm_cmd_write be dev (unit_addrs k) (i32 ws) (Some data) meta (u16 (vflags v')) (Some (Ret 0 0 t))) s
    (fun r s' => submit_post adom amedia inflight qok qmem d t (unit_addrs k) data s r.1 s').
Proof.
  intros Hwf Hk Hs Hl -> Hap. pose proof (vo_ws_range _ _ _ Hv) as Hw. pose proof (mo_n v (vo_members _ _ _ Hv)) as Hn.
  rewrite i32_id, (vblk_flags_id _ _ _ Hv) by lia. unfold nvm_cmd_write. fold (vblk_mode dev v).
  assert (Hkd : (ws | k * ws)) by apply Z.divide_factor_r.
  destruct Hmode as [[-> Hvec]| ->]; cbn.
  - pose proof (vector_submit_law (unit_addrs k) data meta (vflags v) (Ret 0 0 t) s) as L.
    assert (E : Z.of_nat (length (unit_addrs k)) = ws) by (apply lin_run_len; lia). rewrite E in L.
    apply L; [done|done|apply (lin_run_dom dev v ws); done || nia|eapply lin_run_NoDup; [done|nia|nia]|lia|done..].
  - unfold first_addr. pose proof (lin_run_lookup v ws (k * ws) ws 0 ltac:(lia)) as H0.
    rewrite Z.add_0_r in H0. change (Z.to_nat 0) with 0%nat in H0. unfold unit_addrs at 1. rewrite H0.
    apply wp_bind, (wp_intro _ _ (lin20 v ws (k * ws)) s); [done|].
    assert (E : run_addrs (lin20 v ws (k * ws)) ws = unit_addrs k) by (apply (lin_run_unit dev v ws Hv); done || nia).
    rewrite <-E. apply scalar_submit_law; rewrite ?E; [done|done|apply (lin_run_dom dev v ws); done || nia|lia| |done|done].
    apply (lin_run_sectr dev v ws Hv); done || nia.
Qed.

Lemma submit_queue k nerr v' t data s s' : queue_ok [t] k nerr v' s -> k < units ->
  ws * nb <= Z.of_nat (length data) -> (forall i, 0 <= i < ws -> sector nb data i = src (k * ws + i)) ->
  submit_post adom amedia inflight qok qmem d t (unit_addrs k) data s 0 s' -> queue_ok [] (k + 1) nerr v' s'.
Proof.
  intros H Hk Hdata Hsrc (Hwf & Hl & Hm & [[_ Ei]|[? _]]); [|lia].
  destruct H as [H1 H2 H3 H4 H5 H6 H7 (js & J1 & J2 & J3 & J4) H9 H10 H11]. cbn [length] in H5.
  assert (El : length (inflight (world s')) = S (length (inflight (world s)))) by (rewrite Ei, length_app; cbn; lia).
  rewrite Forall_forall in J2.
  split; try done; [congruence|rewrite El; cbn [length]; lia|..|lia|lia].
  - rewrite <-H7, Ei, fmap_app. cbn. solve_Permutation.
  - exists (js ++ [k]). rewrite Ei. split; [|split; [|split]].
    + apply NoDup_app. split; [done|]. split; [|apply NoDup_singleton].
      intros x Hx ->%list_elem_of_singleton. pose proof (J2 _ Hx). lia.
    + apply Forall_app. split; [|by constructor; [lia|]]. apply Forall_forall. intros x Hx. pose proof (J2 _ Hx). lia.
    + apply Forall2_app; [done|]. by constructor.
    + intros E0 j Hj Hnj. rewrite not_elem_of_app, list_elem_of_singleton in Hnj. destruct Hnj as [Hnj Hne].
      intros i Hi. pose proof (vo_ws_range _ _ _ Hv). rewrite Hm by (apply Hdom; nia). by apply J4; [|lia|..].
  - intros a Ha Hna. rewrite Hm by done. by apply H9.
Qed.

Lemma wp_async_submit fuel off pad meta t buf k nerr v' s (Q : Z * async_acc -> sys W -> Prop) :
  queue_ok [t] k nerr v' s -> k < units ->
  (exists data, match pad with Some _ => pad | None => mem_add buf off end = Some data /\
     ws * nb <= Z.of_nat (length data) /\ forall i, 0 <= i < ws -> sector nb data i = src (k * ws + i)) ->
  (forall s', queue_ok [] (k + 1) nerr v' s' -> Q (0, (nerr, v', buf)) s') ->
  (forall s', gave_up s' -> Q (-1, (nerr, v', buf)) s') ->
  wp (async_submit be dev fuel true (unit_addrs k) ws off pad meta t (nerr, v', buf)) s Q.
Proof.
  intros H Hk (data & Ed & Hl & Hsrc) HQ HE. pose proof (qo_k _ _ _ _ _ H) as Hk0.
  pose proof (qo_sp _ _ _ _ _ H) as Hsp. pose proof (qo_le _ _ _ _ _ H) as Hle. cbn [length] in Hsp.
  assert (Hap : forall c a, c ∈ inflight (world s) -> a ∈ unit_addrs k -> a ∉ a_addrs c).
  { destruct (qo_units _ _ _ _ _ H) as (js & _ & J2 & J3 & _). intros c a Hc Ha Hac.
    apply list_elem_of_lookup in Hc as [i Hi]. destruct (Forall2_lookup_l _ _ _ _ _ J3 Hi) as (j & Hj & Ea & _).
    rewrite Forall_lookup in J2. specialize (J2 _ _ Hj). rewrite Ea in Hac.
    pose proof (unit_addrs_apart j k a ltac:(lia) ltac:(lia) Hac Ha). lia. }
  assert (Hstep : forall Q' : Z * retp -> sys W -> Prop, (forall ret' s',
      submit_post adom amedia inflight qok qmem d t (unit_addrs k) data s 0 s' -> Q' (0, ret') s') ->
      (forall e ret' s', e < 0 -> errno s' <> EAGAIN -> gave_up s' -> Q' (e, ret') s') ->
      wp (nvm_cmd_write be dev (unit_addrs k) (i32 ws) (Some data) meta (u16 (vflags v')) (Some (Ret 0 0 t))) s Q').
  { intros Q' R0 RE. eapply wp_mono.
    - apply (wp_cmd_submit k data meta t v' s); [apply H|lia|pose proof (vo_ws_range _ _ _ Hv); nia|done| |done].
      destruct (qo_v _ _ _ _ _ H) as (? & ? & ? & -> & _). done.
    - intros [e ret'] s' Hpost. cbn in Hpost. pose proof Hpost as (Hwf & Hlv & Hm & [[-> _]|(He & Ei & Hag)]); [by apply R0|].
      apply RE; [done|intros E; specialize (Hag E); lia|]. split; [done|]. split; [by rewrite Hlv; apply H|].
      intros a Ha Hna. rewrite Hm by done. by apply H. }
  destruct fuel, pad as [pd|]; cbn [async_submit]; (injection Ed as -> || rewrite Ed); apply wp_bind, wp_bind, Hstep.
  1, 3, 5, 7: intros ret' s' Hpost; apply wp_ret, wp_ret, HQ; by eapply submit_queue.
  all: intros e ret' s' He Hne Hg; apply wp_ret; rewrite (proj2 (Z.ltb_lt e 0)) by done; cbn;
    apply wp_bind; (eapply wp_intro; [done|]); rewrite (proj2 (Z.eqb_neq _ _)) by done; by apply wp_ret, HE.
Qed.

(** A structure is taken off the stack. *)
Lemma queue_pop k nerr v' s : queue_ok [] k nerr v' s -> retsp v' < d - 1 ->
  exists t, rets v' !! Z.to_nat (retsp v') = Some t /\ t <> 0 /\
    queue_ok [t] k nerr (with_async (async_ctx v') (rets v') (u32 (retsp v' + 1)) v') s.
Proof.
  intros H Hlt. destruct H as [H1 H2 (ctx & rs & sp & -> & Ec) H4 H5 H6 H7 H8 H9 H10 H11].
  cbn [retsp rets with_async async_ctx length] in *.
  destruct (lookup_lt_is_Some_2 rs (Z.to_nat sp) ltac:(lia)) as [t Ht]. exists t. split; [done|].
  rewrite (drop_S _ _ _ Ht) in H7. split.
  - rewrite Forall_forall in Hall. apply Hall. rewrite <-H7. set_solver.
  - rewrite wrap_id by lia. split; cbn [retsp rets with_async async_ctx length]; try done; [|lia|lia|].
    + by exists ctx, rs, (sp + 1).
    + replace (Z.to_nat (sp + 1)) with (S (Z.to_nat sp)) by lia. rewrite <-H7. cbn. solve_Permutation.
Qed.

(** The reap before a submission makes room for it. *)
Lemma wp_make_room fuel k nerr v' s (Q : Z * Z * nvm_vblk -> sys W -> Prop) :
  queue_ok [] k nerr v' s -> (lag_max <= fuel)%nat -> d <= Z.of_nat fuel ->
  (forall n nerr' v'' s', 0 <= n -> queue_ok [] k nerr' v'' s' -> retsp v'' < d - 1 -> Q (n, nerr', v'') s') ->
  (forall nerr' v'' s', gave_up s' -> Q (-1, nerr', v'') s') ->
  wp (if retsp v' =? u32 (d - 1) then _vblk_async_greedy_reap be dev fuel nerr v' else mret (0, nerr, v')) s Q.
Proof.
  intros H Hlag Hf HQ HE. rewrite wrap_id by lia. pose proof (qo_sp _ _ _ _ _ H) as Hsp. pose proof (qo_le _ _ _ _ _ H) as Hle.
  cbn [length] in Hsp. destruct (Z.eqb_spec (retsp v') (d - 1)) as [E|].
  - apply (wp_greedy fuel [] k); try done.
    + intros E0. rewrite E0 in Hsp. cbn in Hsp. lia.
    + intros n nerr' v'' s' Hn H' Hlt. apply HQ; [lia|done|]. pose proof (qo_sp _ _ _ _ _ H'). cbn [length] in *. lia.
  - apply wp_ret, HQ; [done|done|lia].
Qed.

Lemma wp_async_stripe fuel bgn pad meta buf k nerr v' s (Q : async_acc + async_acc -> sys W -> Prop) :
  queue_ok [] k nerr v' s -> k < units -> (lag_max <= fuel)%nat -> d <= Z.of_nat fuel ->
  (nblks v * ws | bgn) -> 0 <= bgn < 2 ^ 62 ->
  (exists data, match pad with Some _ => pad | None => mem_add buf (k * ws * nb) end = Some data /\
     ws * nb <= Z.of_nat (length data) /\ forall i, 0 <= i < ws -> sector nb data i = src (k * ws + i)) ->
  (forall nerr' v'' s', queue_ok [] (k + 1) nerr' v'' s' -> Q (inl (nerr', v'', buf)) s') ->
  (forall nerr' v'' s', gave_up s' -> Q (inr (nerr', v'', buf)) s') ->
  wp (async_stripe be dev fuel true ws bgn pad meta k (nerr, v', buf)) s Q.
Proof.
  intros H Hk Hlag Hf Hdv Hb Hdata HQ HE. unfold async_stripe. pose proof (qo_k _ _ _ _ _ H).
  pose proof (vo_ws_range _ _ _ Hv) as Hw.
  assert (Eb : forall v', (exists ctx rs sp, v' = with_async (Some ctx) rs sp v /\ be_ctx ctx = q /\ depth ctx = d) ->
    async_addrs v' ws bgn k = Some (unit_addrs k) /\ nblks v' = nblks v /\
    exists ctx, async_ctx v' = Some ctx /\ nvm_async_get_depth ctx = d).
  { intros v1 (ctx & rs & sp & -> & _ & Ed). split; [|split; [done|by exists ctx]].
    apply (async_addrs_unit dev v ws Hv bgn k); [done|done|lia|nia]. }
  destruct (Eb _ (qo_v _ _ _ _ _ H)) as (Ea & _ & ctx & Ectx & Ed). rewrite Ea, Ectx.
  apply wp_bind. eapply wp_intro; [done|]. apply wp_bind. eapply wp_intro; [done|]. rewrite Ed.
  apply wp_bind, (wp_make_room fuel k); [done..| |].
  - intros n nerr1 v1 s1 Hn H1 Hlt. rewrite (proj2 (Z.ltb_ge n 0)) by lia.
    destruct (queue_pop _ _ _ _ H1 Hlt) as (t & Ht & Ht0 & H2). rewrite Ht.
    apply wp_bind. eapply wp_intro; [done|]. rewrite (proj2 (Z.eqb_neq t 0)) by done.
    replace (nb * ws * k) with (k * ws * nb) by lia. apply wp_bind.
    apply (wp_async_submit _ _ _ _ _ _ k); [exact H2|done|done| |].
    + intros s2 H3. cbn [Z.ltb Z.compare]. destruct (Eb _ (qo_v _ _ _ _ _ H3)) as (_ & En & _).
      rewrite En. destruct (_ =? 0).
      * apply wp_bind, (wp_wait [] (k + 1)); [done| |].
        -- intros m nerr2 v2 s3 Hm H4 _. rewrite (proj2 (Z.ltb_ge m 0)) by lia. by apply wp_ret, HQ.
        -- intros nerr2 v2 s3 Hg. by apply wp_ret, HE.
      * by apply wp_ret, HQ.
    + intros s2 Hg. by apply wp_ret, HE.
  - intros nerr1 v1 s1 Hg. by apply wp_ret, HE.
Qed.

(** ** The whole range *)

Lemma wp_io_async fuel bgn pad meta buf count s (Q : Z * nvm_vblk * mem -> sys W -> Prop) :
  queue_ok [] 0 0 v s -> (lag_max <= fuel)%nat -> d <= Z.of_nat fuel ->
  (nblks v * ws | bgn) -> 0 <= bgn < 2 ^ 62 -> count / nb = units * ws ->
  (forall k, 0 <= k < units -> exists data,
     match pad with Some _ => pad | None => mem_add buf (k * ws * nb) end = Some data /\
     ws * nb <= Z.of_nat (length data) /\ forall i, 0 <= i < ws -> sector nb data i = src (k * ws + i)) ->
  (forall nerr' v'' s', queue_ok [] units nerr' v'' s' -> inflight (world s') = [] -> Q (i32 nerr', v'', buf) s') ->
  (forall v'' s', gave_up s' -> Q (-1, v'', buf) s') ->
  wp (vblk_io_async be dev fuel v bgn count buf meta pad true) s Q.
Proof.
  intros H Hlag Hf Hdv Hb Hu Hdata HQ HE. pose proof (qo_k _ _ _ _ _ H). pose proof (vo_ws_range _ _ _ Hv) as Hw.
  pose proof (vo_nb _ _ _ Hv) as Hnb. pose proof (mo_n v (vo_members _ _ _ Hv)) as Hn.
  unfold vblk_io_async, zdiv, zmod. rewrite (proj2 (Z.eqb_neq nb 0)) by lia.
  apply wp_bind. eapply wp_intro; [done|]. apply wp_bind. eapply wp_intro; [by apply (ws_get dev v ws Hv)|].
  rewrite (wrap_id 64 ws), (proj2 (Z.eqb_neq ws 0)), (proj2 (Z.eqb_neq (nblks v) 0)) by lia.
  rewrite Hu, Z.div_mul by lia. do 3 (apply wp_bind; eapply wp_intro; [done|]). apply wp_bind.
  apply (wp_mfold_ret _ (fun pre acc s' => acc.2 = buf /\ queue_ok [] (Z.of_nat (length pre)) acc.1.1 acc.1.2 s')
    (fun acc s' => acc.2 = buf /\ gave_up s')).
  - by split.
  - intros pre k post [[nerr v'] buf'] s' E [Eb H']. cbn [fst snd] in *. subst buf'.
    apply seqZ_split in E as (_ & Hlt & Epre). rewrite Epre in H'.
    apply (wp_async_stripe fuel bgn pad meta buf k); [done|lia|done|done|done|done|apply Hdata; lia| |].
    + intros nerr' v'' s'' H''. split; [done|]. cbn [fst snd]. rewrite length_app. cbn [length].
      by replace (Z.of_nat (length pre + 1)) with (k + 1) by lia.
    + intros nerr' v'' s'' Hg. by split.
  - intros [[nerr v'] buf'] s' [Eb H']. cbn [fst snd] in *. subst buf'.
    rewrite length_seqZ, Z2Nat.id in H' by lia. apply wp_bind, (wp_wait [] units); [done| |].
    + intros n nerr' v'' s'' Hn0 H'' Hi. rewrite (proj2 (Z.ltb_ge n 0)) by lia. by apply wp_ret, HQ.
    + intros nerr' v'' s'' Hg. by apply wp_ret, HE.
  - intros [[nerr v'] buf'] s' [Eb Hg]. cbn [fst snd] in *. subst buf'. by apply wp_ret, HE.
Qed.
End queue.

(** ** The write *)

(** A virtual block whose queue is idle: every result structure is on the
    stack. *)
Record async_ready {W} (be : nvm_be W) (dev : nvm_dev) (q d : Z) `{!AsyncQueue be dev q d} (v : nvm_vblk) (s : sys W)
    : Prop := {
  ar_ctx : exists ctx, async_ctx v = Some ctx /\ be_ctx ctx = q /\ depth ctx = d;
  ar_depth : 2 <= d < 2 ^ 31;
  ar_rets : Z.of_nat (length (rets v)) = d /\ Forall (fun t => t <> 0) (rets v);
  ar_qok : qok (world s);
  ar_idle : retsp v = 0 /\ inflight (world s) = [] }.

Section write.
Context {W : Type} (spdk : spdk_env W) (be : nvm_be W) (dev : nvm_dev) (q d : Z) `{!AsyncQueue be dev q d}.
Context (v : nvm_vblk) (ws : Z) (Hv : vblk20_ok dev v ws) (Hdom : on_device dev v ws adom).
Context (Hmode : vblk_mode dev v = NVM_CMD_VECTOR /\ qvector ws \/ vblk_mode dev v = NVM_CMD_SCALAR).
Context (Hasync : qflags (vflags v)) (Halloc : alloc_ok spdk dev).
Implicit Types s : sys W.
#[local] Abbreviation nb := (nbytes (geo dev)).

Lemma ready_queue units src s : async_ready be dev q d v s -> heap_wf s -> 0 <= units ->
  queue_ok be dev q d v ws units (rets v) src s [] 0 0 v s.
Proof.
  intros [(ctx & Ec & Eq & Ed) Hd [Hlen _] Hqok [Hsp Hi]] Hwf Hu. split; try done.
  - split; [done|]. split; [done|]. rewrite qmem_idle by done. set_solver +.
  - exists ctx, (rets v), (retsp v). split; [|done]. rewrite <-Ec. by destruct v.
  - by rewrite Hsp, Hi.
  - lia.
  - rewrite Hsp, Hi. cbn. by rewrite drop_0, app_nil_r.
  - exists []. rewrite Hi. split; [constructor|]. split; [constructor|]. split; [constructor|]. intros _ j. lia.
  - by rewrite Hi.
Qed.

Lemma idle_mem s : async_ready be dev q d v s -> qmem (world s) = ∅.
Proof. intros [_ _ _ Hqok [_ Hi]]. by apply qmem_idle. Qed.

(** The buffers of the write, among the blocks that are not the queue's. *)
Lemma rest_bufs s buf n b s1 s2 : async_ready be dev q d v s1 -> bufs_ok (fun _ => True) buf n s b s1 ->
  qmem (world s2) ⊆ live s2 -> rest qmem s2 = rest qmem s1 ->
  live s2 = qmem (world s2) ∪ live s1 /\ qmem (world s2) ## live s1 /\ qmem (world s2) ## live s.
Proof.
  intros Hr Hb Hmem E. unfold rest in E. rewrite (idle_mem _ Hr), difference_empty_L in E. rewrite <-E.
  split; [by apply union_difference_L|]. split; [set_solver +|].
  assert (live s ⊆ live s2 ∖ qmem (world s2)) by (rewrite E, (bo_live _ _ _ _ _ _ Hb); set_solver +). set_solver.
Qed.

Lemma queue_others s s' M : heap_wf s' -> qok (world s') -> qmem (world s') = M -> M ## live s -> live s' = M ∪ live s ->
  queue_wf qok qmem s' /\ rest qmem s' = live s.
Proof.
  intros Hwf Hq EM HM El. unfold queue_wf, rest. rewrite EM, El.
  split; [split; [done|split; [done|set_solver +]]|]. set_solver.
Qed.

Lemma wp_async_pwrite fuel buf count offset s (Q : Z * nvm_vblk -> sys W -> Prop) :
  async_ready be dev q d v s -> heap_wf s -> 0 <= count -> request_ok dev v ws buf count offset ->
  (nblks v * ws | offset / nb) -> offset / nb < 2 ^ 62 -> count / nb < 2 ^ 31 ->
  (lag_max <= fuel)%nat -> d <= Z.of_nat fuel ->
  (forall r v' s', queue_wf qok qmem s' -> rest qmem s' = live s ->
     (forall a, adom a -> a ∉ lin_run v ws 0 (count / nb) -> amedia (world s') a = amedia (world s) a) ->
     (r = count /\ (forall i, 0 <= i < count / nb -> amedia (world s') (lin20 v ws i) = request_src dev ws buf count i) /\
        live s' = live s /\ inflight (world s') = [] /\ retsp v' = 0 /\ rets v' ≡ₚ rets v \/
      r = -1 /\ (errno s' = EIO \/ errno s' = ENOMEM)) -> Q (r, v') s') ->
  wp (vblk_async_pwrite_s20 spdk be dev fuel v buf count offset) s Q.
Proof.
  intros Hr Hwf Hc Hrq Hdv Hob Hc31 Hlag Hf HQ. pose proof Hrq as [R1 R2 [units Hu] R4 R5 R6 R7].
  pose proof (vo_ws_range _ _ _ Hv) as Hw. pose proof (vo_nb _ _ _ Hv) as Hnb.
  assert (Ho0 : 0 <= offset / nb) by (apply Z.div_pos; lia).
  destruct (lin_size_range dev v ws Hv) as (_ & Hls & _).
  unfold vblk_async_pwrite_s20. apply wp_bind. eapply wp_intro; [by apply (ws_get dev v ws Hv)|].
  rewrite (wrap_id 32 ws) by lia. unfold zdiv, zmod. rewrite (proj2 (Z.eqb_neq nb 0)), (proj2 (Z.eqb_neq ws 0)) by lia.
  do 4 (apply wp_bind; eapply wp_intro; [done|]).
  assert (E1 : (count / nb) mod ws = 0) by (rewrite Hu; apply Z.mod_mul; lia).
  assert (E2 : (offset / nb) mod ws = 0) by (apply Z.mod_divide; [lia|done]).
  rewrite E1, E2. cbn [negb Z.eqb]. apply wp_bind.
  eapply (wp_write_bufs spdk dev Halloc); [|intros ->|done| |].
  - intros Hm. specialize (R7 Hm). rewrite wrap_id; lia.
  - unfold pad_bytes in R6. rewrite (wrap_id 64 (ws * _)), wrap_id by nia. nia.
  - intros b s1 Hb.
    assert (Hb' : bufs_ok (fun _ => True) buf (pad_bytes dev ws count) s b s1).
    { destruct Hb as [B1 B2 B3 B4 B5 B6]. constructor; [exact B1|exact B2|exact B3|exact B4|exact B5|].
      rewrite B6. destruct buf; [done|]. unfold pad_bytes. by rewrite (wrap_id 64 (ws * _)), wrap_id by (unfold pad_bytes in *; nia). }
    pose proof (bo_world _ _ _ _ _ _ Hb) as Ew. pose proof (bo_wf _ _ _ _ _ _ Hb) as Hwf1.
    assert (Hr1 : async_ready be dev q d v s1) by (destruct Hr; split; by rewrite ?Ew).
    assert (Hu0 : 0 < units) by nia. assert (Hub : units * ws <= lin_size dev v) by lia.
    assert (Hend : forall nerr s2, gave_up be dev q d v ws units s1 s2 ->
      forall v', (nerr = 0 -> (forall i, 0 <= i < count / nb ->
          amedia (world s2) (lin20 v ws i) = request_src dev ws buf count i) /\
        inflight (world s2) = [] /\ retsp v' = 0 /\ rets v' ≡ₚ rets v) ->
      wp (r ← write_done spdk dev b count nerr; mret (r, v')) s2 Q).
    { intros nerr s2 ((Hwf2 & Hqk & Hmem) & Hl2 & Hfr) v' Hok. apply wp_bind. rewrite Ew, <-Hu in Hfr.
      destruct (rest_bufs s buf _ b s1 s2 Hr1 Hb Hmem Hl2) as (El2 & HM1 & HM).
      eapply (wp_write_done_held spdk dev Halloc (qmem (world s2))); [exact Hwf|exact Hb|done|exact El2|exact HM1|].
      intros s3 Hwf3 Hl3 Hw3. destruct (queue_others s s3 (qmem (world s2)) Hwf3) as [Hq3 Hq3']; [by rewrite Hw3|by rewrite Hw3|done|done|].
      destruct (Z.eqb_spec nerr 0) as [->|].
      + apply wp_ret, HQ; [done|done|by rewrite Hw3|]. left. destruct (Hok eq_refl) as (O1 & O2 & O3).
        rewrite Hw3. split; [done|]. split; [done|]. split; [|done].
        rewrite Hl3, qmem_idle by done. apply union_empty_l_L.
      + apply wp_ret, HQ; [exact Hq3|exact Hq3'|cbn; by rewrite Hw3|]. right. split; [done|by left]. }
    apply wp_bind. apply (wp_io_async be dev q d v ws Hv Hdom Hmode Hasync (ar_depth _ _ _ _ _ _ Hr) units Hub (rets v)
      (proj2 (ar_rets _ _ _ _ _ _ Hr)) (request_src dev ws buf count) s1); [|done|done|done|lia|done| | |].
    + apply ready_queue; [done|done|lia].
    + intros k Hk. eapply (source_request dev v ws Hv buf count offset); [done|done|done|lia|nia].
    + intros nerr' v'' s2 Hq Hi. pose proof (qo_nerr _ _ _ _ _ _ _ _ _ _ _ _ _ _ _ Hq) as Hne. rewrite i32_id by nia.
      apply Hend; [by eapply queue_gave_up|]. intros E0.
      destruct (qo_units _ _ _ _ _ _ _ _ _ _ _ _ _ _ _ Hq) as (js & _ & _ & J3 & J4). rewrite Hi in J3.
      inversion J3; subst js. split; [|split; [done|]].
      * intros i Hx. specialize (J4 E0 (i / ws)). pose proof (Z.div_mod i ws ltac:(lia)) as Edm.
        pose proof (Z.mod_pos_bound i ws ltac:(lia)).
        assert (Hj : 0 <= i / ws < units) by (split; [apply Z.div_pos; lia|apply Z.div_lt_upper_bound; nia]).
        specialize (J4 Hj (not_elem_of_nil _) (i mod ws) ltac:(lia)).
        replace (i / ws * ws + i mod ws) with i in J4 by lia. done.
      * pose proof (qo_sp _ _ _ _ _ _ _ _ _ _ _ _ _ _ _ Hq) as Hsp. rewrite Hi in Hsp. cbn in Hsp. split; [lia|].
        pose proof (qo_toks _ _ _ _ _ _ _ _ _ _ _ _ _ _ _ Hq) as Ht. rewrite Hsp, Hi in Ht. cbn in Ht.
        by rewrite drop_0, app_nil_r in Ht.
    + intros v'' s2 Hg. apply Hend; [done|]. lia.
  - intros s' Hwf' [Hl'|[? _]] Hw' He Hwhy; [|done].
    assert (Em : qmem (world s') = ∅) by (rewrite Hw'; by eapply idle_mem). apply wp_ret, HQ.
    + split; [done|]. split; [rewrite Hw'; apply Hr|]. rewrite Em. set_solver +.
    + unfold rest. by rewrite Em, Hl', difference_empty_L.
    + by rewrite Hw'.
    + right. split; [done|by right].
Qed.
End write.

(** ** Properties *)

(** C12: an asynchronous write to a 2.0 virtual block ends. On a backend whose
    queue of depth 2 or more delivers something after a bounded number of
    pokes, a write of whole write units from offset 0 answers after finitely
    many pokes, keeps no memory but what the backend holds for commands in
    flight, and changes no sector outside the range. When
    it answers [count], every command submitted was reaped, no memory at all is
    kept, every result
    structure is back on the stack, and sector [i] of the range is sector [i]
    of the caller's buffer; otherwise it answers -1 with [EIO] or [ENOMEM]. *)
Theorem async_pwrite_completes {W} (spdk : spdk_env W) (be : nvm_be W) (dev : nvm_dev) (q d : Z)
    {AQ : AsyncQueue be dev q d} (v : nvm_vblk) (ws : Z) (Hv : vblk20_ok dev v ws) (Hdom : on_device dev v ws adom)
    (Hmode : vblk_mode dev v = NVM_CMD_VECTOR /\ qvector ws \/ vblk_mode dev v = NVM_CMD_SCALAR)
    (Hasync : qflags (vflags v)) (Halloc : alloc_ok spdk dev)
    (buf : mem) (count : Z) (s : sys W) (Hwf : heap_wf s) (Hready : async_ready be dev q d v s)
    (Hc : 0 <= count) (Hr : request_ok dev v ws buf count 0) (Hn : count / nbytes (geo dev) < 2 ^ 31) :
  exists polls, forall fuel, (polls <= fuel)%nat ->
  wp (vblk_async_pwrite_s20 spdk be dev fuel v buf count 0) s (fun '(r, v') s' =>
    queue_wf qok qmem s' /\ live s' ∖ qmem (world s') = live s /\
    (forall a, adom a -> a ∉ lin_run v ws 0 (count / nbytes (geo dev)) -> amedia (world s') a = amedia (world s) a) /\
    (r = count /\ (forall i, 0 <= i < count / nbytes (geo dev) ->
        amedia (world s') (lin20 v ws i) = request_src dev ws buf count i) /\
       live s' = live s /\ inflight (world s') = [] /\ retsp v' = 0 /\ rets v' ≡ₚ rets v \/
     r = -1 /\ (errno s' = EIO \/ errno s' = ENOMEM))).
Proof.
  exists (lag_max + Z.to_nat d)%nat. intros fuel Hf. pose proof (ar_depth _ _ _ _ _ _ Hready).
  pose proof (vo_nb _ _ _ Hv). assert (E0 : 0 / nbytes (geo dev) = 0) by (apply Z.div_0_l; lia).
  apply (wp_async_pwrite spdk be dev q d v ws Hv Hdom Hmode Hasync Halloc); try done; rewrite ?E0; try lia.
  by exists 0.
Qed.

(** An asynchronous write forgets the row it begins in. A write that
    begins at a later row of the block ([offset] a positive multiple of one
    write unit of every chunk) and answers [count] has left the caller's
    sectors at the beginning of the block instead, and every sector of the
    requested range beyond the first [count] bytes as it was. *)
Theorem async_pwrite_forgets_row {W} (spdk : spdk_env W) (be : nvm_be W) (dev : nvm_dev) (q d : Z)
    {AQ : AsyncQueue be dev q d} (v : nvm_vblk) (ws : Z) (Hv : vblk20_ok dev v ws) (Hdom : on_device dev v ws adom)
    (Hmode : vblk_mode dev v = NVM_CMD_VECTOR /\ qvector ws \/ vblk_mode dev v = NVM_CMD_SCALAR)
    (Hasync : qflags (vflags v)) (Halloc : alloc_ok spdk dev)
    (buf : mem) (count offset : Z) (fuel : nat) (s : sys W) (Hwf : heap_wf s) (Hready : async_ready be dev q d v s)
    (Hc : 0 <= count) (Hr : request_ok dev v ws buf count offset) (Hn : count / nbytes (geo dev) < 2 ^ 31)
    (Hrow : (nblks v * ws | offset / nbytes (geo dev))) (Hlater : count / nbytes (geo dev) <= offset / nbytes (geo dev))
    (Hf : (lag_max <= fuel)%nat /\ d <= Z.of_nat fuel) :
  wp (vblk_async_pwrite_s20 spdk be dev fuel v buf count offset) s (fun '(r, _) s' =>
    (forall i, 0 <= i < count / nbytes (geo dev) ->
       amedia (world s') (lin20 v ws (offset / nbytes (geo dev) + i)) =
       amedia (world s) (lin20 v ws (offset / nbytes (geo dev) + i))) /\
    (r = count -> forall i, 0 <= i < count / nbytes (geo dev) ->
       amedia (world s') (lin20 v ws i) = request_src dev ws buf count i)).
Proof.
  destruct (lin_size_range dev v ws Hv) as (_ & Hls & _). pose proof (rq_bound _ _ _ _ _ _ Hr).
  pose proof (rq_count _ _ _ _ _ _ Hr).
  destruct Hf as [Hf1 Hf2].
  apply (wp_async_pwrite spdk be dev q d v ws Hv Hdom Hmode Hasync Halloc); try done; try lia.
  intros r v' s' _ _ Hfr Hres. split.
  - intros i Hi. apply Hfr; [apply Hdom; lia|]. intros (j & Hj & E)%lin_run_elem.
    apply (lin_inj dev v ws Hv) in E; lia.
  - intros Er. destruct Hres as [(_ & Hd & _)|[E _]]; [done|]. exfalso. rewrite E in Er. subst count.
    pose proof (vo_nb _ _ _ Hv). assert (-1 / nbytes (geo dev) < 0) by (apply Z.div_lt_upper_bound; lia). lia.
Qed.

(** A queue of depth 1 is taken to be full while it is empty: a poke that has
    nothing to deliver is repeated for ever, whatever the fuel. *)
Lemma async_depth_one_hangs {W} (be : nvm_be W) (dev : nvm_dev) (v : nvm_vblk) (ctx : nvm_async_ctx)
    (fuel : nat) (write : bool) (ws bgn stripe nerr : Z) (pad meta buf : mem) (s : sys W) :
  async_ctx v = Some ctx -> depth ctx = 1 -> retsp v = 0 ->
  (forall s, be_async_poke be dev ctx 0 s = Some (0, ctx, [], s)) ->
  async_stripe be dev fuel write ws bgn pad meta stripe (nerr, v, buf) s = None.
Proof.
  intros Ec Ed Es Hidle.
  assert (Ev : with_async (Some ctx) (rets v) (retsp v) v = v) by (rewrite <-Ec; by destruct v).
  assert (Hpoke : forall s, vblk_poke be dev nerr v s = Some (0, nerr, v, s)).
  { intros s'. unfold vblk_poke, nvm_async_poke, mbind, M_bind. rewrite Ec. cbn [lift]. rewrite Hidle.
    cbn [vblk_async_callback lift]. by rewrite Ev. }
  assert (Hspin : forall fuel s, reap_spin be dev fuel nerr v s = None).
  { intros f. induction f as [|f IH]; intros s'; cbn [reap_spin]; unfold mbind, M_bind; rewrite Hpoke; cbn;
      [done|apply IH]. }
  unfold async_stripe. unfold mbind, M_bind. destruct (async_addrs v ws bgn stripe); cbn [lift]; [|done].
  rewrite Ec. cbn [lift]. unfold nvm_async_get_depth. rewrite Ed, Es. change (0 =? u32 (1 - 1)) with true.
  cbn iota. unfold _vblk_async_greedy_reap, mbind, M_bind. by rewrite Hspin.
Qed.

(** ** A queue in memory *)

(** Every second poke delivers the oldest command. *)
Record ramq := RamQ { rq_ram : gmap nvm_addr (list Z); rq_cmds : list acmd; rq_busy : bool }.

Section ramq.
Context (dev : nvm_dev) (q d : Z).
#[local] Abbreviation nb := (nbytes (geo dev)).

Definition ramq_store (l : list acmd) (w : gmap nvm_addr (list Z)) : gmap nvm_addr (list Z) :=
  foldl (fun w c => ram_store dev (a_addrs c) (a_data c) w) w l.

Definition ramq_submit (addrs : list nvm_addr) (data : mem) (ret : retp) : M ramq (Z * retp) :=
  w ← get_world;
  match data, ret with
  | Some data, Some r =>
      if Z.of_nat (length (rq_cmds w)) =? d then fail EAGAIN (-1, ret)
      else _ ← modify_world (fun w => RamQ (rq_ram w) (rq_cmds w ++ [Acmd (ret_async r) addrs data]) true); mret (0, ret)
  | _, _ => crash
  end.

Definition ramq_reap (n : nat) (ctx : nvm_async_ctx) : M ramq (Z * nvm_async_ctx * list completion) :=
  w ← get_world;
  let done := take n (rq_cmds w) in
  _ ← modify_world (fun w => RamQ (ramq_store done (rq_ram w)) (drop n (rq_cmds w)) true);
  mret (Z.of_nat (length done), ctx, (fun c => Completion (a_token c) 0) <$> done).

Definition ramq_poke (ctx : nvm_async_ctx) : M ramq (Z * nvm_async_ctx * list completion) :=
  w ← get_world;
  if rq_busy w then _ ← modify_world (fun w => RamQ (rq_ram w) (rq_cmds w) false); mret (0, ctx, [])
  else ramq_reap 1 ctx.

Definition ramq_be : nvm_be ramq :=
  NvmBe ramq NVM_BE_LBD "NVM_BE_LBD" nvm_be_nosys_open
    nvm_be_nosys_close nvm_be_nosys_pass nvm_be_nosys_idfy nvm_be_nosys_rprt
    nvm_be_nosys_gfeat nvm_be_nosys_sfeat nvm_be_nosys_gbbt nvm_be_nosys_sbbt
    nvm_be_nosys_scalar_erase (fun _ a n data _ _ ret => ramq_submit (run_addrs a n) data ret)
    nvm_be_nosys_scalar_read nvm_be_nosys_vector_erase
    (fun _ addrs n data _ _ ret => ramq_submit (ram_addrs addrs n) data ret)
    nvm_be_nosys_vector_read nvm_be_nosys_vector_copy
    (fun _ depth _ => mret (Some (AsyncCtx depth 0 q))) nvm_be_nosys_async_term
    (fun _ ctx _ => ramq_poke ctx)
    (fun _ ctx => w ← get_world; ramq_reap (length (rq_cmds w)) ctx).

Lemma ramq_store_other l w a : (forall c, c ∈ l -> a ∉ a_addrs c) -> ramq_store l w !! a = w !! a.
Proof.
  revert w. induction l as [|c l IH]; intros w Ha; [done|].
  change (ramq_store (c :: l) w) with (ramq_store l (ram_store dev (a_addrs c) (a_data c) w)).
  rewrite IH by (intros c' Hc'; apply Ha; set_solver). apply ram_store_other, Ha. set_solver.
Qed.

Lemma ramq_store_at l w i c j a : 0 <= nb -> apart nb l -> l !! i = Some c -> a_addrs c !! j = Some a ->
  ramq_store l w !! a = Some (sector nb (a_data c) (Z.of_nat j)).
Proof.
  intros Hnb. revert w i. induction l as [|c0 l IH]; intros w i Hap Hi Hj; [done|].
  change (ramq_store (c0 :: l) w) with (ramq_store l (ram_store dev (a_addrs c0) (a_data c0) w)).
  destruct Hap as [A1 A2]. destruct i as [|i]; cbn in Hi.
  - injection Hi as ->. rewrite ramq_store_other.
    + apply ram_store_at; [done|by apply (A1 0%nat)|done].
    + intros c' Hc' Ha. apply list_elem_of_lookup in Hc' as [k Hk].
      pose proof (A2 0%nat (S k) c c' a eq_refl Hk (list_elem_of_lookup_2 _ _ _ Hj) Ha). done.
  - eapply IH; [|done|done]. split.
    + intros k c' Hk. by apply (A1 (S k)).
    + intros k k' c1 c2 b H1 H2 H3 H4. by injection (A2 (S k) (S k') c1 c2 b H1 H2 H3 H4).
Qed.

Definition ramq_media (w : ramq) : nvm_addr -> list Z := ram_sector dev (rq_ram w).

Lemma ramq_submit_ok addrs data ret s : heap_wf s ->
  wp (ramq_submit addrs (Some data) (Some ret)) s (fun r s' =>
    submit_post (fun _ => True) ramq_media rq_cmds (fun _ => True) (fun _ => ∅) d (ret_async ret) addrs data s r.1 s').
Proof.
  intros Hwf. unfold ramq_submit. apply wp_bind. eapply wp_intro; [done|].
  destruct (Z.eqb_spec (Z.of_nat (length (rq_cmds (world s)))) d);
    [eapply wp_intro; [done|]|apply wp_bind; eapply wp_intro; [done|]; apply wp_ret].
  - split; [by apply queue_wf_none|]. split; [done|]. split; [done|]. by right.
  - split; [by apply queue_wf_none|]. split; [done|]. split; [done|]. by left.
Qed.

Lemma ramq_reap_ok n ctx s : 0 <= nb -> heap_wf s -> apart nb (rq_cmds (world s)) ->
  wp (ramq_reap n ctx) s (fun '(r, ctx', cpls) s' => ctx' = ctx /\
    reaped (fun _ => True) ramq_media nb rq_cmds (fun _ => True) (fun _ => ∅) (take n (rq_cmds (world s))) cpls s s' /\
    r = Z.of_nat (length (take n (rq_cmds (world s)))) /\ rq_cmds (world s') = drop n (rq_cmds (world s))).
Proof.
  intros Hnb Hwf Hap. unfold ramq_reap, wp. cbn. split; [done|]. split; [|done].
  assert (Hap' : apart nb (take n (rq_cmds (world s)))).
  { destruct Hap as [A1 A2]. split.
    - intros i c [Hi _]%lookup_take_Some. by eapply A1.
    - intros i j c c' a [Hi _]%lookup_take_Some [Hj _]%lookup_take_Some. by eapply A2. }
  split; [by apply queue_wf_none|]. split; [done|]. split; [cbn; by rewrite take_drop|].
  split; [by rewrite <-list_fmap_compose|]. split.
  - intros a _ Ha. unfold ramq_media, ram_sector. cbn. by rewrite ramq_store_other.
  - intros i c cmd _ Hcmd _ j a Hj. unfold ramq_media, ram_sector. cbn.
    rewrite (ramq_store_at _ _ _ _ _ _ Hnb Hap' Hcmd Hj). destruct (ap_cmd _ _ Hap' _ _ Hcmd) as [_ Hl].
    pose proof (lookup_lt_Some _ _ _ Hj). apply take_app_length'. rewrite sector_len; nia.
Qed.
End ramq.

#[export] Program Instance ramq_queue dev q d (Hnb : TCEq (0 <=? nbytes (geo dev)) true) :
  AsyncQueue (ramq_be dev q d) dev q d :=
  {| adom := fun _ => True; amedia := ramq_media dev; inflight := rq_cmds; qok := fun _ => True; qmem := fun _ => ∅;
     qflags := fun _ => True; qvector := fun _ => True;
     lag := fun w => if rq_busy w then 1%nat else 0%nat; lag_max := 1 |}.
Next Obligation. done. Qed.
Next Obligation. intros dev q d _ w. cbn. destruct (rq_busy w); lia. Qed.
Next Obligation.
  intros dev q d Hnb addrs data meta flags ret s [Hwf _] _ _ _ _ _ _ _. cbn.
  unfold ram_addrs. rewrite Nat2Z.id, firstn_all. by apply ramq_submit_ok.
Qed.
Next Obligation. intros dev q d Hnb a n data meta flags ret s [Hwf _] _ _ _ _ _ _. cbn. by apply ramq_submit_ok. Qed.
Next Obligation.
  intros dev q d Hnb ctx s Eq Ed [Hwf _] Hap. apply TCEq_eq, Z.leb_le in Hnb. cbn.
  unfold ramq_poke. apply wp_bind. eapply wp_intro; [done|]. destruct (rq_busy (world s)) eqn:El.
  - apply wp_bind. eapply wp_intro; [done|]. apply wp_ret. split; [done|]. split; [done|].
    exists []. split; [|split; [by left|]].
    + split; [by apply queue_wf_none|]. split; [done|]. split; [done|]. by split; [|split].
    + intros _ _. cbn. lia.
  - eapply wp_mono; [by apply ramq_reap_ok|]. intros [[r ctx'] cpls] s' (-> & Hr & -> & Ei).
    split; [done|]. split; [done|]. eexists. split; [exact Hr|]. split; [by left|].
    destruct (rq_cmds (world s)) as [|c l]; [done|]. cbn. lia.
Qed.
Next Obligation.
  intros dev q d Hnb ctx s Eq Ed [Hwf _] Hap. apply TCEq_eq, Z.leb_le in Hnb. cbn.
  apply wp_bind. eapply wp_intro; [done|]. eapply wp_mono; [by apply ramq_reap_ok|].
  intros [[r ctx'] cpls] s' (-> & Hr & -> & Ei). split; [done|]. split; [done|]. eexists. split; [exact Hr|].
  left. split; [done|]. rewrite Ei. by apply drop_ge.
Qed.

#[export] Instance tiny_queue : AsyncQueue (ramq_be tiny20 11 3) tiny20 11 3 := ramq_queue tiny20 11 3 (TCEq_refl _).

(** Two chunks and a queue of depth 3. *)
Definition tiny_async : nvm_vblk :=
  with_async (Some (AsyncCtx 3 0 11)) [101; 102; 103] 0
    (with_vflags (Z.lor NVM_CMD_ASYNC (Z.lor NVM_CMD_VECTOR NVM_CMD_PRP)) tiny_vblk).

Lemma tiny_async_ok : vblk20_ok tiny20 tiny_async 2.
Proof. split; try done; [by eapply members_ext, tiny_members|by exists 4]. Qed.

Lemma tiny_async_ready e h w : async_ready (ramq_be tiny20 11 3) tiny20 11 3 tiny_async (Sys e h (RamQ w [] true)).
Proof. split; [by exists (AsyncCtx 3 0 11)|done|split; [done|by repeat constructor]|done|done]. Qed.

Lemma tiny_async_dom : on_device tiny20 tiny_async 2 (adom (AsyncQueue := tiny_queue)).
Proof. done. Qed.

Lemma tiny_async_alloc : alloc_ok (W := ramq) spdk_stub tiny20.
Proof. apply virt_alloc_ok. by left. Qed.

Definition tiny_data : list Z := [10; 11; 12; 13; 14; 15; 16; 17; 18; 19; 20; 21].

(** Three units, with one more than the queue takes between two reaps. *)
Lemma async_pwrite_completes_witness :
  let s := Sys 0 (sample_heap 9) (RamQ ∅ [] true) in
  exists polls, forall fuel, (polls <= fuel)%nat ->
  wp (vblk_async_pwrite_s20 spdk_stub (ramq_be tiny20 11 3) tiny20 fuel tiny_async (Some tiny_data) 12 0) s
    (fun '(r, v') s' => r = 12 ->
       ramq_media tiny20 (world s') (lin20 tiny_vblk 2 3) = [16; 17] /\
       ramq_media tiny20 (world s') (lin20 tiny_vblk 2 5) = [20; 21] /\ rets v' ≡ₚ [101; 102; 103]).
Proof.
  intros s. destruct (async_pwrite_completes spdk_stub (ramq_be tiny20 11 3) tiny20 11 3
    tiny_async 2 tiny_async_ok
    tiny_async_dom ltac:(by left) ltac:(done) tiny_async_alloc (Some tiny_data) 12 s
    (sample_heap_wf _ _ _) (tiny_async_ready _ _ _) ltac:(done)) as [polls C].
  { split; try done; [by exists 3|by exists 0]. }
  { done. }
  exists polls. intros fuel Hf. eapply wp_mono; [by apply C|].
  intros [r v'] s' (_ & _ & _ & Hres) ->. destruct Hres as [(_ & Hd & _ & _ & _ & Hp)|[? _]]; [|done].
  split; [exact (Hd 3 ltac:(by split))|]. split; [exact (Hd 5 ltac:(by split))|done].
Defined.

Lemma async_pwrite_forgets_row_witness :
  let s := Sys 0 (sample_heap 9) (RamQ ∅ [] true) in
  wp (vblk_async_pwrite_s20 spdk_stub (ramq_be tiny20 11 3) tiny20 9 tiny_async (Some tiny_data) 8 8) s
    (fun '(r, _) s' => r = 8 /\ ramq_media tiny20 (world s') (lin20 tiny_vblk 2 4) = [0; 0] /\
       ramq_media tiny20 (world s') (lin20 tiny_vblk 2 0) = [10; 11]).
Proof.
  intros s. pose proof (async_pwrite_forgets_row spdk_stub (ramq_be tiny20 11 3) tiny20 11 3
    tiny_async 2 tiny_async_ok
    tiny_async_dom ltac:(by left) ltac:(done) tiny_async_alloc (Some tiny_data) 8 8 9 s
    (sample_heap_wf _ _ _) (tiny_async_ready _ _ _) ltac:(done) ltac:(by split; try done; [exists 2|exists 2])
    ltac:(done) ltac:(by exists 1) ltac:(done) ltac:(split; [cbn; lia|done])) as C. cbn zeta in C.
  apply wp_elim in C as ([r v'] & s' & E & Hold & Hnew). eapply wp_intro; [exact E|].
  assert (Er : r = 8) by (assert (E2 := E); vm_compute in E2; congruence).
  split; [done|]. split; [exact (Hold 0 ltac:(by split))|exact (Hnew Er 0 ltac:(by split))].
Defined.
