(* ===== verification/Bbt.v ===== *)
(** Bad-block tables, [src/nvm_bbt.c]: the tables of the LUNs of a device,
    cached in its handle, and their write-back. *)
From stdpp Require Import base numbers strings gmap option list.
From S2P Require Import Prelude Types Nvme Addr Dev Backend Buf Cmd.

Section bbt.
Context {W : Type} (be : nvm_be W).

(** ** Indices *)

Definition _bbt_idx (dev : nvm_dev) (addr : nvm_addr) : Z :=
  i32 (u64 (g_ch addr * nluns (geo dev) + g_lun addr)).
Definition _blk_idx (dev : nvm_dev) (addr : nvm_addr) : Z :=
  i32 (u64 (g_blk addr * nplanes (geo dev) + g_pl addr)).

(** [dev->bbts[i] = x] *)
Definition set_entry (i : Z) (x : option (boxed nvm_bbt)) (dev : nvm_dev) : nvm_dev :=
  with_bbts (<[Z.to_nat i := x]> (bbts dev)) dev.

Definition with_blks_of (l : list Z) (b : nvm_bbt) : nvm_bbt :=
  Bbt (bbt_addr b) (bbt_nblks b) (nbad b) (ngbad b) (ndmrk b) (nhmrk b) l.
Definition with_counters (c : Z * Z * Z * Z) (b : nvm_bbt) : nvm_bbt :=
  let '(w, x, y, z) := c in Bbt (bbt_addr b) (bbt_nblks b) w x y z (bbt_blks b).

(** ** Counters *)

(** The [switch] of the loop: [None] is the [default] branch. *)
Fixpoint bbt_count (blks : list Z) (c : Z * Z * Z * Z) : option (Z * Z * Z * Z) :=
  match blks with
  | [] => Some c
  | x :: blks =>
      let '(nbad, ngbad, ndmrk, nhmrk) := c in
      if x =? NVM_BBT_FREE then bbt_count blks c
      else if x =? NVM_BBT_BAD then bbt_count blks (nbad + 1, ngbad, ndmrk, nhmrk)
      else if x =? NVM_BBT_GBAD then bbt_count blks (nbad, ngbad + 1, ndmrk, nhmrk)
      else if x =? NVM_BBT_DMRK then bbt_count blks (nbad, ngbad, ndmrk + 1, nhmrk)
      else if x =? NVM_BBT_HMRK then bbt_count blks (nbad, ngbad, ndmrk, nhmrk + 1)
      else None
  end.

Definition _refresh_counters (dev : nvm_dev) (b : nvm_bbt) : M W (Z * nvm_bbt) :=
  if Z.of_nat (length (bbt_blks b)) <? bbt_nblks b then crash
  else
    match bbt_count (take (Z.to_nat (bbt_nblks b)) (bbt_blks b)) (0, 0, 0, 0) with
    | None => fail EINVAL (-1, b)
    | Some (w, x, y, z) =>
        if verid dev =? NVM_SPEC_VERID_20 then
          w ← lift (zdiv w (nplanes (geo dev)));
          x ← lift (zdiv x (nplanes (geo dev)));
          y ← lift (zdiv y (nplanes (geo dev)));
          z ← lift (zdiv z (nplanes (geo dev)));
          mret (0, with_counters (w, x, y, z) b)
        else mret (0, with_counters (w, x, y, z) b)
    end.

(** ** Write-back *)

(** Entry [i] of the table: a changed state is sent to the device. *)
Definition flush_blk (dev : nvm_dev) (b : nvm_bbt) (p : Z) (spec : nvm_spec_bbt) (i : Z) (ret : retp)
    : M W (retp + retp) :=
  x ← lift (bbt_blks b !! Z.to_nat i);
  y ← lift (spec_blk spec !! Z.to_nat i);
  if x =? y then mret (inl ret)
  else
    blk ← lift (zdiv i (nplanes (geo dev)));
    pl ← lift (zmod i (nplanes (geo dev)));
    let blk_addr := set_g_pl pl (set_g_blk blk (bbt_addr b)) in
    '(err, ret) ← nvm_cmd_sbbt be dev [blk_addr] 1 (u16 x) ret;
    if negb (err =? 0) then _ ← free p; mret (inr ret) else mret (inl ret).

Definition nvm_bbt_free (bbt : option (boxed nvm_bbt)) : M W unit :=
  match bbt with None => mret tt | Some (p, _) => free p end.

Definition nvm_bbt_flush (dev : nvm_dev) (addr : nvm_addr) (ret : retp) : M W (Z * retp * nvm_dev) :=
  bad ← nvm_addr_check addr dev;
  if negb (bad =? 0) then fail EINVAL (-1, ret, dev)
  else
    let bbt_idx := _bbt_idx dev addr in
    entry ← lift (lookupZ (bbts dev) bbt_idx);
    match entry with
    | None => mret (0, ret, dev)
    | Some (q, cached) =>
        '(spec, ret) ← nvm_cmd_gbbt be dev addr ret;
        match spec with
        | None => mret (-1, ret, dev)
        | Some (p, spec) =>
            if negb (bbt_nblks cached =? tblks spec) then
              _ ← set_errno EINVAL; _ ← free p; mret (-1, ret, dev)
            else
              r ← mfold_ret (flush_blk dev cached p spec) (seqZ 0 (bbt_nblks cached)) ret;
              match r with
              | inr ret => mret (-1, ret, dev)
              | inl ret =>
                  _ ← free p;
                  _ ← nvm_bbt_free (Some (q, cached));
                  mret (0, ret, set_entry bbt_idx None dev)
              end
        end
    end.

(** The address of table [i] in the order of the loop. *)
Definition flush_addr (g : nvm_geo) (i : Z) : option nvm_addr :=
  ch ← zmod i (nchannels g);
  q ← zdiv i (nchannels g);
  lun ← zmod q (nluns g);
  Some (set_g_lun lun (set_g_ch ch 0)).

Definition flush_one (i : Z) (acc : retp * nvm_dev) : M W (retp * nvm_dev + Z * retp * nvm_dev) :=
  let '(ret, dev) := acc in
  addr ← lift (flush_addr (geo dev) i);
  '(err, ret, dev) ← nvm_bbt_flush dev addr ret;
  if negb (err =? 0) then mret (inr (err, ret, dev)) else mret (inl (ret, dev)).

Definition nvm_bbt_flush_all (dev : nvm_dev) (ret : retp) : M W (Z * retp * nvm_dev) :=
  r ← mfold_ret flush_one (seqZ 0 (nbbts dev)) (ret, dev);
  match r with
  | inl (ret, dev) => mret (0, ret, dev)
  | inr r => mret r
  end.

(** ** Reading *)

(** [for (i = 0; i < n; ++i) dst[i] = src[i]] *)
Definition copy_blks (n : Z) (src dst : list Z) : option (list Z) :=
  if (Z.of_nat (length src) <? n) || (Z.of_nat (length dst) <? n) then None
  else Some (take (Z.to_nat n) src ++ drop (Z.to_nat n) dst).

(** The entry [(q, b)] takes the table of the device, or is given up. *)
Definition bbt_refresh (dev : nvm_dev) (addr : nvm_addr) (bbt_idx : Z) (ret : retp) (q : Z) (b : nvm_bbt)
    : M W (option (boxed nvm_bbt) * retp * nvm_dev) :=
  '(spec, ret) ← nvm_cmd_gbbt be dev addr ret;
  match spec with
  | None => _ ← free q; mret (None, ret, set_entry bbt_idx None dev)
  | Some (p, spec) =>
      if negb (bbt_nblks b =? tblks spec) then
        _ ← free q; _ ← free p; mret (None, ret, set_entry bbt_idx None dev)
      else
        l ← lift (copy_blks (bbt_nblks b) (spec_blk spec) (bbt_blks b));
        let b := with_counters (tfact spec, tgrown spec, tdresv spec, thresv spec) (with_blks_of l b) in
        _ ← free p;
        mret (Some (q, b), ret, set_entry bbt_idx (Some (q, b)) dev)
  end.

(** The answer is the entry of the cache. [malloc] leaves the table with
    whatever the block holds, zeros here: each byte is written before the entry
    is answered. *)
Definition nvm_bbt_get (dev : nvm_dev) (addr : nvm_addr) (ret : retp)
    : M W (option (boxed nvm_bbt) * retp * nvm_dev) :=
  bad ← nvm_addr_check addr dev;
  if negb (bad =? 0) then fail EINVAL (None, ret, dev)
  else
    let bbt_idx := _bbt_idx dev addr in
    entry ← lift (lookupZ (bbts dev) bbt_idx);
    match entry with
    | Some (q, b) =>
        if negb (bbts_cached dev =? 0) then mret (Some (q, b), ret, dev)
        else bbt_refresh dev addr bbt_idx ret q b
    | None =>
        let nblks := i32 (u64 (nblocks (geo dev) * nplanes (geo dev))) in
        q ← malloc;
        if q =? 0 then fail ENOMEM (None, ret, dev)
        else
          let b := Bbt addr (u64 nblks) 0 0 0 0 (replicate (Z.to_nat nblks) 0) in
          bbt_refresh (set_entry bbt_idx (Some (q, b)) dev) addr bbt_idx ret q b
    end.

(** ** Updates *)

(** [bbt] is a table of the caller's own, not the entry of the cache. *)
Definition nvm_bbt_set (dev : nvm_dev) (bbt : nvm_bbt) (ret : retp) : M W (Z * retp * nvm_dev) :=
  let addr := bbt_addr bbt in
  bad ← nvm_addr_check (bbt_addr bbt) dev;
  if negb (bad =? 0) then fail EINVAL (-1, ret, dev)
  else
    '(r, ret, dev) ← nvm_bbt_get dev addr ret;
    match r with
    | None => mret (-1, ret, dev)
    | Some _ =>
        let bbt_idx := _bbt_idx dev addr in
        entry ← lift (lookupZ (bbts dev) bbt_idx);
        '(q, b) ← lift entry;
        l ← lift (copy_blks (bbt_nblks bbt) (bbt_blks bbt) (bbt_blks b));
        '(_, b) ← _refresh_counters dev (with_blks_of l b);
        let dev := set_entry bbt_idx (Some (q, b)) dev in
        if negb (bbts_cached dev =? 0) then mret (0, ret, dev) else nvm_bbt_flush dev addr ret
    end.

(** One address; [inr] is [return -1]. *)
Definition mark_one (flags : Z) (addr : nvm_addr) (acc : retp * nvm_dev)
    : M W (retp * nvm_dev + retp * nvm_dev) :=
  let '(ret, dev) := acc in
  let bbt_idx := _bbt_idx dev addr in
  let blk_idx := _blk_idx dev addr in
  '(r, ret, dev) ← nvm_bbt_get dev addr ret;
  match r with
  | None => mret (inr (ret, dev))
  | Some _ =>
      entry ← lift (lookupZ (bbts dev) bbt_idx);
      '(q, b) ← lift entry;
      _ ← lift (lookupZ (bbt_blks b) blk_idx);
      '(_, b) ← _refresh_counters dev (with_blks_of (<[Z.to_nat blk_idx := u8 flags]> (bbt_blks b)) b);
      mret (inl (ret, set_entry bbt_idx (Some (q, b)) dev))
  end.

Definition nvm_bbt_mark (dev : nvm_dev) (addrs : list nvm_addr) (naddrs flags : Z) (ret : retp)
    : M W (Z * retp * nvm_dev) :=
  if bbts_cached dev =? 0 then
    '(err, ret) ← nvm_cmd_sbbt be dev addrs naddrs flags ret; mret (err, ret, dev)
  else if Z.of_nat (length addrs) <? naddrs then crash
  else
    r ← mfold_ret (mark_one flags) (take (Z.to_nat naddrs) addrs) (ret, dev);
    match r with
    | inl (ret, dev) => mret (0, ret, dev)
    | inr (ret, dev) => mret (-1, ret, dev)
    end.

Definition nvm_bbt_alloc_cp (bbt : option nvm_bbt) : M W (option (boxed nvm_bbt)) :=
  match bbt with
  | None => fail EINVAL None
  | Some b =>
      q ← malloc; if q =? 0 then fail ENOMEM None else mret (Some (q, b))
  end.

End bbt.
