(* ===== verification/BbtCache.v ===== *)
(** The bad-block tables as a write-back cache: what each operation does to
    the tables a caller sees, against the tables of the device. *)
From stdpp Require Import base numbers strings gmap option list.
From S2P Require Import Prelude Types Nvme Addr Dev Backend Buf Cmd Bbt.

(** ** The device's tables *)

(** Block states of a LUN. *)
Definition bbt_len (g : nvm_geo) : Z := nblocks g * nplanes g.

(** The place of a block in its table. *)
Definition blk_of (g : nvm_geo) (a : nvm_addr) : Z := g_blk a * nplanes g + g_pl a.

(** What is relied on of a backend: [table w ch lun] are the states the device
    keeps; a table is handed out in a fresh block; setting one block changes
    that block only, and does so when it answers 0. *)
Class BbtMedia {W} (be : nvm_be W) (dev : nvm_dev) := {
  table : W -> Z -> Z -> list Z;
  table_len w c u : length (table w c u) = Z.to_nat (bbt_len (geo dev));
  table_byte w c u : Forall (fun x => 0 <= x < 2 ^ 8) (table w c u);
  gbbt_law l a ret s : heap_wf s ->
    wp (be_gbbt be (with_bbts l dev) a ret) s (fun '(o, _) s' =>
      heap_wf s' /\ (forall c u, table (world s') c u = table (world s) c u) /\
      match o with
      | None => live s' = live s
      | Some (p, b) => p <> 0 /\ (p ∉ live s) /\ live s' = {[p]} ∪ live s /\
          tblks b = bbt_len (geo dev) /\ spec_blk b = table (world s) (g_ch a) (g_lun a)
      end);
  sbbt_law l a st ret s : heap_wf s -> 0 <= st < 2 ^ 8 ->
    wp (be_sbbt be (with_bbts l dev) [a] 1 st ret) s (fun '(e, _) s' =>
      heap_wf s' /\ live s' = live s /\
      exists done : bool, (e = 0 -> done = true) /\
        forall c u, table (world s') c u =
          if done && bool_decide (c = g_ch a /\ u = g_lun a)
          then <[Z.to_nat (blk_of (geo dev) a) := st]> (table (world s) c u)
          else table (world s) c u) }.

(** A 1.2 device whose counts fit the address fields. *)
Record bbt_geo_ok (dev : nvm_dev) : Prop := {
  bg_verid : verid dev = NVM_SPEC_VERID_12;
  bg_ch : 0 < nchannels (geo dev) <= 2 ^ 8;
  bg_lun : 0 < nluns (geo dev) <= 2 ^ 8;
  bg_pl : 0 < nplanes (geo dev) <= 2 ^ 7;
  bg_blk : 0 < nblocks (geo dev) <= 2 ^ 16;
  bg_pg : 0 < npages (geo dev);
  bg_sec : 0 < nsectors (geo dev);
  bg_nbbts : nbbts dev = nchannels (geo dev) * nluns (geo dev) }.

(** Channel [c] and LUN [u] of the device, and the place of their table. *)
Definition lun_ok (dev : nvm_dev) (c u : Z) : Prop :=
  0 <= c < nchannels (geo dev) /\ 0 <= u < nluns (geo dev).
Definition lun_idx (dev : nvm_dev) (c u : Z) : nat := Z.to_nat (c * nluns (geo dev) + u).

#[export] Instance in_bounds_dec d a : Decision (in_bounds d a).
Proof. unfold in_bounds. destruct (_ =? _); apply _. Defined.

Section cache.
Context {W : Type} (be : nvm_be W) (dev : nvm_dev) `{!BbtMedia be dev} (Hg : bbt_geo_ok dev).
Implicit Types (s : sys W) (l : list (option (Z * nvm_bbt))).
#[local] Abbreviation N := (bbt_len (geo dev)).
#[local] Abbreviation entry l c u := (l !! lun_idx dev c u).

(** ** The cache *)

Record entry_ok (c u : Z) (b : nvm_bbt) : Prop := {
  en_ch : g_ch (bbt_addr b) = c;
  en_lun : g_lun (bbt_addr b) = u;
  en_nblks : bbt_nblks b = N;
  en_len : length (bbt_blks b) = Z.to_nat N;
  en_byte : Forall (fun x => 0 <= x < 2 ^ 8) (bbt_blks b) }.

(** The entries belong to their LUNs; besides the blocks of [base], exactly
    those of the entries are allocated. *)
Record cache_ok (base : gset Z) l s : Prop := {
  co_wf : heap_wf s;
  co_len : length l = Z.to_nat (nchannels (geo dev) * nluns (geo dev));
  co_entry : forall c u q b, lun_ok dev c u -> entry l c u = Some (Some (q, b)) -> entry_ok c u b;
  co_inj : forall i j q b b', l !! i = Some (Some (q, b)) -> l !! j = Some (Some (q, b')) -> i = j;
  co_base : forall i q b, l !! i = Some (Some (q, b)) -> (q ∉ base) /\ q <> 0;
  co_live : forall q, q ∈ live s <-> q ∈ base \/ exists i b, l !! i = Some (Some (q, b)) }.

(** The table a caller sees. *)
Definition view l (w : W) (c u : Z) : list Z :=
  match entry l c u with Some (Some (_, b)) => bbt_blks b | _ => table w c u end.

(** ** Indices *)

Lemma bbt_len_range : 0 < N < 2 ^ 31.
Proof. destruct Hg. unfold bbt_len. nia. Qed.

Lemma lun_idx_inj c u c' u' : lun_ok dev c u -> lun_ok dev c' u' ->
  lun_idx dev c u = lun_idx dev c' u' -> c = c' /\ u = u'.
Proof.
  unfold lun_ok, lun_idx. intros [H1 H2] [H3 H4] E. apply Z2Nat.inj in E; [|nia..].
  assert (c = c') by nia. split; [done|]. subst. lia.
Qed.

Lemma lun_idx_lt l base s c u : cache_ok base l s -> lun_ok dev c u -> (lun_idx dev c u < length l)%nat.
Proof. intros Hc [H1 H2]. rewrite (co_len _ _ _ Hc). unfold lun_idx. apply Z2Nat.inj_lt; nia. Qed.

Lemma in_bounds_lun a : in_bounds dev a ->
  lun_ok dev (g_ch a) (g_lun a) /\ 0 <= blk_of (geo dev) a < N.
Proof.
  unfold in_bounds. rewrite (bg_verid _ Hg). cbn. intros (H1 & H2 & H3 & H4 & _).
  destruct (g_fields_range a) as ((_ & _ & R3) & R4 & R5 & R6).
  unfold lun_ok, blk_of, bbt_len. split; [lia|]. nia.
Qed.

Lemma bbt_idx_lun l a : in_bounds dev a ->
  _bbt_idx (with_bbts l dev) a = g_ch a * nluns (geo dev) + g_lun a /\
  0 <= g_ch a * nluns (geo dev) + g_lun a.
Proof.
  intros [[H1 H2] _]%in_bounds_lun. destruct Hg. unfold _bbt_idx. cbn [geo with_bbts].
  rewrite wrap_id, i32_id by nia. split; [done|nia].
Qed.

Lemma lookup_entry l a base s : cache_ok base l s -> in_bounds dev a ->
  exists o, lookupZ (bbts (with_bbts l dev)) (_bbt_idx (with_bbts l dev) a) = Some o /\
    entry l (g_ch a) (g_lun a) = Some o.
Proof.
  intros Hc Ha. destruct (bbt_idx_lun l a Ha) as [-> H0].
  destruct (in_bounds_lun a Ha) as [Hl _]. unfold lookupZ. rewrite (proj2 (Z.ltb_ge _ 0)) by done.
  destruct (lookup_lt_is_Some_2 l (lun_idx dev (g_ch a) (g_lun a)) ltac:(by eapply lun_idx_lt)) as [o Ho].
  exists o. split; [exact Ho|exact Ho].
Qed.

Lemma set_entry_eq l a x : in_bounds dev a ->
  set_entry (_bbt_idx (with_bbts l dev) a) x (with_bbts l dev) =
    with_bbts (<[lun_idx dev (g_ch a) (g_lun a) := x]> l) dev.
Proof. intros Ha. destruct (bbt_idx_lun l a Ha) as [-> _]. done. Qed.

(** ** Changes of the cache *)

Lemma co_insert base l s s' c u q b : cache_ok base l s -> lun_ok dev c u ->
  entry l c u = Some None -> q <> 0 -> q ∉ live s -> heap_wf s' -> live s' = {[q]} ∪ live s ->
  entry_ok c u b -> cache_ok base (<[lun_idx dev c u := Some (q, b)]> l) s'.
Proof.
  intros Hc Hl He Hq Hf Hwf Hlive Hb. pose proof (lun_idx_lt _ _ _ _ _ Hc Hl) as Hlt.
  assert (Hq' : forall j b', l !! j = Some (Some (q, b')) -> False).
  { intros j b' Hj. apply Hf, (co_live _ _ _ Hc). right. eauto. }
  split; [done|by rewrite length_insert; apply Hc|..].
  - intros c' u' q' b' Hl' H'. destruct (decide (lun_idx dev c u = lun_idx dev c' u')) as [E|E].
    + destruct (lun_idx_inj _ _ _ _ Hl Hl' E) as [<- <-]. rewrite list_lookup_insert_eq in H' by done.
      by simplify_eq.
    + rewrite list_lookup_insert_ne in H' by done. by eapply (co_entry _ _ _ Hc).
  - intros i j q' b1 b2 H1 H2. apply list_lookup_insert_Some in H1, H2.
    destruct H1 as [(<- & E1 & _)|[N1 H1]], H2 as [(<- & E2 & _)|[N2 H2]]; simplify_eq; [done|..].
    + by apply Hq' in H2.
    + by apply Hq' in H1.
    + by eapply (co_inj _ _ _ Hc).
  - intros i q' b' H'. apply list_lookup_insert_Some in H' as [(<- & E & _)|[N1 H1]];
      [|by eapply (co_base _ _ _ Hc)]. simplify_eq. split; [|done]. intros Hin. apply Hf, (co_live _ _ _ Hc). by left.
  - intros q'. rewrite Hlive, elem_of_union, elem_of_singleton, (co_live _ _ _ Hc). split.
    + intros [->|[Hb'|(i & b' & Hi)]].
      * right. exists (lun_idx dev c u), b. by apply list_lookup_insert_eq.
      * by left.
      * right. exists i, b'. rewrite list_lookup_insert_ne; [done|]. intros E. rewrite E in He. simplify_eq.
    + intros [Hb'|(i & b' & Hi)]; [by right; left|].
      apply list_lookup_insert_Some in Hi as [(<- & E & _)|[N1 Hi]]; [left; by simplify_eq|]. right. right. eauto.
Qed.

Lemma co_update base l s s' c u q b b' : cache_ok base l s -> lun_ok dev c u ->
  entry l c u = Some (Some (q, b)) -> heap_wf s' -> live s' = live s ->
  entry_ok c u b' -> cache_ok base (<[lun_idx dev c u := Some (q, b')]> l) s'.
Proof.
  intros Hc Hl He Hwf Hlive Hb. pose proof (lun_idx_lt _ _ _ _ _ Hc Hl) as Hlt.
  split; [done|by rewrite length_insert; apply Hc|..].
  - intros c' u' q' b1 Hl' H'. destruct (decide (lun_idx dev c u = lun_idx dev c' u')) as [E|E].
    + destruct (lun_idx_inj _ _ _ _ Hl Hl' E) as [<- <-]. rewrite list_lookup_insert_eq in H' by done.
      by simplify_eq.
    + rewrite list_lookup_insert_ne in H' by done. by eapply (co_entry _ _ _ Hc).
  - intros i j q' b1 b2 H1 H2. apply list_lookup_insert_Some in H1, H2.
    destruct H1 as [(<- & E1 & _)|[N1 H1]], H2 as [(<- & E2 & _)|[N2 H2]]; simplify_eq; [done|..];
      by eapply (co_inj _ _ _ Hc).
  - intros i q' b1 H'. apply list_lookup_insert_Some in H' as [(<- & E & _)|[N1 H1]];
      [simplify_eq|]; by eapply (co_base _ _ _ Hc).
  - intros q'. rewrite Hlive, (co_live _ _ _ Hc). apply or_iff_compat_l. split.
    + intros (i & b1 & Hi). destruct (decide (i = lun_idx dev c u)) as [->|Hne].
      * exists (lun_idx dev c u), b'. rewrite list_lookup_insert_eq by done. by simplify_eq.
      * exists i, b1. by rewrite list_lookup_insert_ne.
    + intros (i & b1 & Hi). apply list_lookup_insert_Some in Hi as [(<- & E & _)|[N1 Hi]]; [|eauto].
      simplify_eq. eauto.
Qed.

Lemma co_remove base l s s' c u q b : cache_ok base l s -> lun_ok dev c u ->
  entry l c u = Some (Some (q, b)) -> heap_wf s' -> live s' = live s ∖ {[q]} ->
  cache_ok base (<[lun_idx dev c u := None]> l) s'.
Proof.
  intros Hc Hl He Hwf Hlive. pose proof (lun_idx_lt _ _ _ _ _ Hc Hl) as Hlt.
  assert (Hsome : forall i x, <[lun_idx dev c u := None]> l !! i = Some (Some x) ->
    i <> lun_idx dev c u /\ l !! i = Some (Some x)).
  { intros i x [(<- & ? & _)|[? ?]]%list_lookup_insert_Some; [done|]. split; [congruence|done]. }
  split; [done|by rewrite length_insert; apply Hc|..].
  - intros c' u' q' b1 Hl' [_ H']%Hsome. by eapply (co_entry _ _ _ Hc).
  - intros i j q' b1 b2 [_ H1]%Hsome [_ H2]%Hsome. by eapply (co_inj _ _ _ Hc).
  - intros i q' b1 [_ H1]%Hsome. by eapply (co_base _ _ _ Hc).
  - intros q'. rewrite Hlive, elem_of_difference, elem_of_singleton, (co_live _ _ _ Hc). split.
    + intros [[?|(i & b1 & Hi)] Hne]; [by left|]. right. exists i, b1.
      rewrite list_lookup_insert_ne; [done|]. intros E. rewrite E in He. simplify_eq.
    + intros [Hb|(i & b1 & [Hne Hi]%Hsome)].
      * split; [by left|]. intros ->. by destruct (co_base _ _ _ Hc _ _ _ He).
      * split; [right; eauto|]. intros ->. apply Hne. by eapply (co_inj _ _ _ Hc).
Qed.

Lemma co_same base l s s' : cache_ok base l s -> heap_wf s' -> live s' = live s -> cache_ok base l s'.
Proof. intros [H1 H2 H3 H4 H5 H6] Hwf Hl. split; [done..|]. by rewrite Hl. Qed.

Lemma view_insert_eq l w c u q b base s : cache_ok base l s -> lun_ok dev c u ->
  view (<[lun_idx dev c u := Some (q, b)]> l) w c u = bbt_blks b.
Proof. intros Hc Hl. unfold view. rewrite list_lookup_insert_eq; [done|by eapply lun_idx_lt]. Qed.

Lemma entry_insert_ne l x c u c' u' : lun_ok dev c u -> lun_ok dev c' u' ->
  (c', u') <> (c, u) -> entry (<[lun_idx dev c u := x]> l) c' u' = entry l c' u'.
Proof.
  intros Hl Hl' Hne. apply list_lookup_insert_ne. intros E. apply Hne.
  by destruct (lun_idx_inj _ _ _ _ Hl Hl' E) as [<- <-].
Qed.

Lemma view_insert_ne l x w c u c' u' : lun_ok dev c u -> lun_ok dev c' u' ->
  (c', u') <> (c, u) -> view (<[lun_idx dev c u := x]> l) w c' u' = view l w c' u'.
Proof. intros Hl Hl' Hne. unfold view. by rewrite entry_insert_ne. Qed.

Lemma view_insert_None l w c u base s : cache_ok base l s -> lun_ok dev c u ->
  view (<[lun_idx dev c u := None]> l) w c u = table w c u.
Proof. intros Hc Hl. unfold view. rewrite list_lookup_insert_eq; [done|by eapply lun_idx_lt]. Qed.

(** A table taken over from the device, or written over. *)
Lemma entry_refresh c u b w tc : entry_ok c u b ->
  copy_blks N (table w c u) (bbt_blks b) = Some (table w c u) /\
  entry_ok c u (with_counters tc (with_blks_of (table w c u) b)).
Proof.
  intros [H1 H2 H3 H4 H5]. pose proof (table_len w c u) as Ht. pose proof bbt_len_range. split.
  - unfold copy_blks. rewrite Ht, H4, Z2Nat.id, Z.ltb_irrefl by lia. cbn [orb].
    rewrite take_ge by (by rewrite Ht). rewrite drop_ge by (by rewrite H4). by rewrite app_nil_r.
  - destruct tc as [[[w0 x] y] z]. split; try done. apply table_byte.
Qed.

Definition quiet s s' : Prop := forall c u, table (world s') c u = table (world s) c u.

(** The first half of [nvm_bbt_get]: everything after the entry is there. *)
Lemma wp_refresh base l a ret q b s (Q : option (boxed nvm_bbt) * retp * nvm_dev -> sys W -> Prop) :
  let c := g_ch a in let u := g_lun a in
  in_bounds dev a -> cache_ok base l s -> entry l c u = Some (Some (q, b)) ->
  (forall ret' s', cache_ok base (<[lun_idx dev c u := None]> l) s' -> quiet s s' ->
     Q (None, ret', with_bbts (<[lun_idx dev c u := None]> l) dev) s') ->
  (forall b' ret' s', cache_ok base (<[lun_idx dev c u := Some (q, b')]> l) s' -> quiet s s' ->
     bbt_blks b' = table (world s) c u ->
     Q (Some (q, b'), ret', with_bbts (<[lun_idx dev c u := Some (q, b')]> l) dev) s') ->
  wp (bbt_refresh be (with_bbts l dev) a (_bbt_idx (with_bbts l dev) a) ret q b) s Q.
Proof.
  intros c u Ha Hc He HN HS. destruct (in_bounds_lun a Ha) as [Hl _]. fold c u in Hl.
  pose proof (co_entry _ _ _ Hc _ _ _ _ Hl He) as Hb. pose proof (co_wf _ _ _ Hc) as Hwf.
  unfold bbt_refresh. apply wp_bind. eapply wp_mono; [apply gbbt_law; exact Hwf|].
  intros [[[p spec]|] ret'] s1 (Hwf1 & Hq1 & Hpost).
  - destruct Hpost as (Hp & Hfr & Hlive & Ht & Hs).
    rewrite (en_nblks _ _ _ Hb), Ht, Z.eqb_refl. cbn [negb]. rewrite Hs.
    destruct (entry_refresh c u b (world s) (tfact spec, tgrown spec, tdresv spec, thresv spec) Hb)
      as [Ecp Hb']. fold c u. rewrite Ecp. apply wp_bind. eapply wp_intro; [done|].
    eapply wp_bind, wp_free; [done|right; rewrite Hlive; apply live_new|]. intros s2 Hwf2 Hlive2 Hw2 _. apply wp_ret.
    rewrite set_entry_eq by done. fold c u. apply HS.
    + eapply co_update; try done. by rewrite Hlive2, Hlive, live_undo.
    + intros c' u'. by rewrite Hw2.
    + by destruct spec.
  - eapply wp_bind, wp_free; [done|right|].
    { rewrite Hpost. apply (co_live _ _ _ Hc). right. eauto. }
    intros s2 Hwf2 Hlive2 Hw2 _. apply wp_ret. rewrite set_entry_eq by done. fold c u. apply HN.
    + eapply co_remove; try done. by rewrite Hlive2, Hpost.
    + intros c' u'. by rewrite Hw2.
Qed.

Lemma fresh_entry_ok a : entry_ok (g_ch a) (g_lun a)
  (Bbt a (u64 (i32 (u64 (nblocks (geo dev) * nplanes (geo dev))))) 0 0 0 0
     (replicate (Z.to_nat (i32 (u64 (nblocks (geo dev) * nplanes (geo dev))))) 0)).
Proof.
  pose proof bbt_len_range. fold N. rewrite (wrap_id 64 N), i32_id, wrap_id by lia.
  split; try done; cbn.
  - by rewrite length_replicate.
  - apply Forall_replicate. lia.
Qed.

(** [nvm_bbt_get]: the state seen does not change, but for the table itself
    when the cache is off. *)
Lemma wp_get base l a ret s (Q : option (boxed nvm_bbt) * retp * nvm_dev -> sys W -> Prop) :
  let c := g_ch a in let u := g_lun a in
  in_bounds dev a -> cache_ok base l s ->
  (forall l' ret' s', cache_ok base l' s' -> quiet s s' ->
     (forall c' u', lun_ok dev c' u' -> (c', u') <> (c, u) -> entry l' c' u' = entry l c' u') ->
     (entry l' c u = entry l c u \/ entry l' c u = Some None) ->
     (bbts_cached dev <> 0 -> entry l' c u = Some None -> entry l c u = Some None) ->
     Q (None, ret', with_bbts l' dev) s') ->
  (forall l' q b ret' s', cache_ok base l' s' -> quiet s s' ->
     (forall c' u', lun_ok dev c' u' -> (c', u') <> (c, u) -> entry l' c' u' = entry l c' u') ->
     entry l' c u = Some (Some (q, b)) ->
     bbt_blks b = (if bbts_cached dev =? 0 then table (world s) c u else view l (world s) c u) ->
     Q (Some (q, b), ret', with_bbts l' dev) s') ->
  wp (nvm_bbt_get be (with_bbts l dev) a ret) s Q.
Proof.
  intros c u Ha Hc HN HS. destruct (in_bounds_lun a Ha) as [Hl _]. fold c u in Hl.
  pose proof (co_wf _ _ _ Hc) as Hwf. pose proof (lun_idx_lt _ _ _ _ _ Hc Hl) as Hlt.
  destruct (lookup_entry l a base s Hc Ha) as (o & Eo & He). fold c u in He.
  assert (Hother : forall x c' u', lun_ok dev c' u' -> (c', u') <> (c, u) ->
    entry (<[lun_idx dev c u := x]> l) c' u' = entry l c' u').
  { intros x c' u' Hl' Hne. by apply entry_insert_ne. }
  unfold nvm_bbt_get. apply wp_bind.
  destruct (addr_check_ok a (with_bbts l dev) s (or_introl (bg_verid _ Hg))) as (r & Er & Hr).
  eapply wp_intro; [exact Er|]. rewrite (proj2 Hr Ha), Z.eqb_refl. cbn [negb].
  apply wp_bind. rewrite Eo. eapply wp_intro; [done|]. destruct o as [[q b]|].
  - cbn [bbts_cached with_bbts]. destruct (Z.eqb_spec (bbts_cached dev) 0) as [E0|E0]; cbn [negb].
    + eapply wp_refresh; try done.
      * intros ret' s' Hc' Hq'. apply HN; [done|done|auto| |done].
        right. by apply list_lookup_insert_eq.
      * intros b' ret' s' Hc' Hq' Hb'. apply (HS _ q b'); [done|done|auto|by apply list_lookup_insert_eq|done].
    + apply wp_ret, (HS l q b); [done|by intros ??|done|done|]. unfold view. by rewrite He.
  - eapply wp_bind, wp_malloc; [done| |].
    + intros s1 Hwf1 Hl1 Hw1 _. apply HN; [|intros c' u'; cbn; by rewrite Hw1|done|by left|done].
      destruct Hc. split; try done. intros q. cbn. change (live (Sys ENOMEM (hp s1) (world s1))) with (live s1).
      rewrite Hl1. apply co_live0.
    + intros q s1 Hq Hfr Hwf1 Hl1 Hw1 _. rewrite (proj2 (Z.eqb_neq q 0)) by done. cbn zeta.
      cbn [geo with_bbts].
      rewrite set_entry_eq by done. fold c u. set (b := Bbt a _ _ _ _ _ _).
      assert (Hc1 : cache_ok base (<[lun_idx dev c u := Some (q, b)]> l) s1).
      { eapply co_insert; try done. apply (fresh_entry_ok a). }
      change (_bbt_idx (with_bbts l dev) a) with
        (_bbt_idx (with_bbts (<[lun_idx dev c u := Some (q, b)]> l) dev) a).
      eapply wp_refresh; [done|exact Hc1|by apply list_lookup_insert_eq|..]; fold c u.
      * intros ret' s' Hc' Hq'. rewrite list_insert_insert_eq in Hc' |- *. apply HN; [done| |auto| |].
        -- intros c' u'. rewrite Hq'. by rewrite Hw1.
        -- right. by apply list_lookup_insert_eq.
        -- intros _ _. done.
      * intros b' ret' s' Hc' Hq' Hb'. rewrite list_insert_insert_eq in Hc' |- *.
        apply (HS _ q b'); [done| |auto|by apply list_lookup_insert_eq|].
        -- intros c' u'. rewrite Hq'. by rewrite Hw1.
        -- rewrite Hb', Hw1. unfold view. rewrite He. by destruct (_ =? 0).
Qed.

(** ** Writing a table back *)

(** The table of [c], [u] while it is written: [k] states of [new], then those
    of [old]; the other tables as they were. *)
Definition written_upto s0 s c u (k : nat) (new : list Z) : Prop :=
  forall c' u', table (world s) c' u' =
    if bool_decide (c' = c /\ u' = u) then take k new ++ drop k (table (world s0) c u)
    else table (world s0) c' u'.

Lemma written_upto_0 s0 s c u new : quiet s0 s -> written_upto s0 s c u 0 new.
Proof.
  intros Hq c' u'. rewrite Hq. case_bool_decide as E; [|done]. by destruct E as [-> ->].
Qed.

(** The address of state [i] of a table. *)
Lemma blk_addr_fields a i : 0 <= i < N ->
  let a' := set_g_pl (i mod nplanes (geo dev)) (set_g_blk (i / nplanes (geo dev)) a) in
  g_ch a' = g_ch a /\ g_lun a' = g_lun a /\ blk_of (geo dev) a' = i.
Proof.
  destruct Hg as [_ _ _ Hp Hb]. unfold bbt_len, blk_of. intros Hi.
  pose proof (Z.mod_pos_bound i (nplanes (geo dev)) ltac:(lia)).
  assert (0 <= i / nplanes (geo dev) < 2 ^ 16).
  { split; [apply Z.div_pos; lia|]. apply Z.div_lt_upper_bound; nia. }
  cbn zeta. addr_simpl. rewrite (wrap_id 16), (wrap_id 8) by lia. split; [done|]. split; [done|].
  rewrite Z.mul_comm. symmetry. apply Z.div_mod. lia.
Qed.

Lemma wp_flush_blk l b p spec i c u s0 s ret
    (Q : retp + retp -> sys W -> Prop) :
  lun_ok dev c u -> entry_ok c u b -> p <> 0 -> p ∈ live s -> heap_wf s ->
  spec_blk spec = table (world s0) c u -> 0 <= i < N ->
  written_upto s0 s c u (Z.to_nat i) (bbt_blks b) ->
  (forall ret' s', heap_wf s' -> live s' = live s ->
     written_upto s0 s' c u (S (Z.to_nat i)) (bbt_blks b) -> Q (inl ret') s') ->
  (forall ret' k s', heap_wf s' -> live s' = live s ∖ {[p]} ->
     written_upto s0 s' c u k (bbt_blks b) -> Q (inr ret') s') ->
  wp (flush_blk be (with_bbts l dev) b p spec i ret) s Q.
Proof.
  intros Hl Hb Hp Hin Hwf Hspec Hi Hw HS HE. pose proof (table_len (world s0) c u) as Ht.
  destruct (lookup_lt_is_Some_2 (bbt_blks b) (Z.to_nat i)) as [x Hx]; [rewrite (en_len _ _ _ Hb); lia|].
  destruct (lookup_lt_is_Some_2 (table (world s0) c u) (Z.to_nat i)) as [y Hy]; [lia|].
  assert (Hlen : length (bbt_blks b) = length (table (world s0) c u)) by (rewrite (en_len _ _ _ Hb); lia).
  pose proof (splice_S _ _ _ _ Hlen Hx) as Hsp.
  pose proof (Forall_lookup_1 _ _ _ _ (en_byte _ _ _ Hb) Hx) as Hxb. cbn in Hxb.
  unfold flush_blk. apply wp_bind. rewrite Hx. eapply wp_intro; [done|].
  apply wp_bind. rewrite Hspec, Hy. eapply wp_intro; [done|]. destruct (Z.eqb_spec x y) as [<-|Hne].
  { apply wp_ret, HS; [done..|]. intros c' u'. rewrite Hw, <-Hsp. case_bool_decide; [|done].
    symmetry. apply list_insert_id. rewrite lookup_app_r by (rewrite length_take; lia).
    rewrite lookup_drop, <-Hy. f_equal. rewrite length_take. lia. }
  cbn [geo with_bbts]. unfold zdiv, zmod. rewrite (proj2 (Z.eqb_neq (nplanes (geo dev)) 0)) by (destruct Hg; lia).
  apply wp_bind. eapply wp_intro; [done|]. apply wp_bind. eapply wp_intro; [done|].
  rewrite (wrap_id 16 x) by lia. destruct (blk_addr_fields (bbt_addr b) i Hi) as (Ec & Eu & Ei).
  apply wp_bind. eapply wp_mono; [by apply sbbt_law|]. cbn zeta.
  intros [e ret'] s' (Hwf' & Hlive & dn & He & Ht').
  rewrite Ec, Eu, Ei, (en_ch _ _ _ Hb), (en_lun _ _ _ Hb) in Ht'.
  assert (Hdn : dn = true -> written_upto s0 s' c u (S (Z.to_nat i)) (bbt_blks b)).
  { intros -> c' u'. rewrite Ht', <-Hsp, !Hw. cbn [andb]. by destruct (bool_decide _). }
  destruct (Z.eqb_spec e 0) as [->|Hne0]; cbn [negb].
  - apply wp_ret, HS; auto.
  - eapply wp_bind, wp_free; [done|right; by rewrite Hlive|]. intros s2 Hwf2 Hlive2 Hw2 _.
    assert (H2 : exists k, written_upto s0 s2 c u k (bbt_blks b)).
    { destruct dn; [exists (S (Z.to_nat i))|exists (Z.to_nat i)]; intros c' u'; rewrite Hw2; [by apply Hdn|].
      rewrite Ht'. cbn [andb]. apply Hw. }
    destruct H2 as [k Hk]. apply wp_ret, (HE _ k); [done| |done]. by rewrite Hlive2, Hlive.
Qed.

(** [nvm_bbt_flush]: the entry is written to the device and given up, or an
    error leaves it, and what is seen, as they were. *)
Lemma wp_flush base l a ret s (Q : Z * retp * nvm_dev -> sys W -> Prop) :
  let c := g_ch a in let u := g_lun a in
  in_bounds dev a -> cache_ok base l s ->
  (forall ret' s', cache_ok base (<[lun_idx dev c u := None]> l) s' ->
     table (world s') c u = view l (world s) c u ->
     (forall c' u', (c', u') <> (c, u) -> table (world s') c' u' = table (world s) c' u') ->
     Q (0, ret', with_bbts (<[lun_idx dev c u := None]> l) dev) s') ->
  (forall ret' s', cache_ok base l s' ->
     (forall c' u', lun_ok dev c' u' -> view l (world s') c' u' = view l (world s) c' u') ->
     (forall c' u', (c', u') <> (c, u) -> table (world s') c' u' = table (world s) c' u') ->
     Q (-1, ret', with_bbts l dev) s') ->
  wp (nvm_bbt_flush be (with_bbts l dev) a ret) s Q.
Proof.
  intros c u Ha Hc HS HE. destruct (in_bounds_lun a Ha) as [Hl _]. fold c u in Hl.
  pose proof (co_wf _ _ _ Hc) as Hwf.
  destruct (lookup_entry l a base s Hc Ha) as (o & Eo & He). fold c u in He.
  assert (HV : forall w w', (forall c' u', (c', u') <> (c, u) -> table w' c' u' = table w c' u') ->
    (exists q b, entry l c u = Some (Some (q, b))) ->
    forall c' u', lun_ok dev c' u' -> view l w' c' u' = view l w c' u').
  { intros w w' Hoth (q & b & E) c' u' Hl'. unfold view. destruct (decide ((c', u') = (c, u))) as [[= -> ->]|Hne].
    - by rewrite E. - by rewrite Hoth. }
  unfold nvm_bbt_flush. apply wp_bind.
  destruct (addr_check_ok a (with_bbts l dev) s (or_introl (bg_verid _ Hg))) as (r & Er & Hr).
  eapply wp_intro; [exact Er|]. rewrite (proj2 Hr Ha), Z.eqb_refl. cbn [negb].
  apply wp_bind. rewrite Eo. eapply wp_intro; [done|]. destruct o as [[q b]|].
  - pose proof (co_entry _ _ _ Hc _ _ _ _ Hl He) as Hb.
    assert (Hq : q ∈ live s) by (apply (co_live _ _ _ Hc); right; eauto).
    apply wp_bind. eapply wp_mono; [apply gbbt_law; exact Hwf|].
    intros [[[p spec]|] ret'] s1 (Hwf1 & Hq1 & Hpost).
    2:{ apply wp_ret, HE; [by eapply co_same| |by intros]. apply HV; [by intros|eauto]. }
    destruct Hpost as (Hp & Hfr & Hlive & Ht & Hs). rewrite (en_nblks _ _ _ Hb), Ht, Z.eqb_refl. cbn [negb].
    apply wp_bind, (wp_mfold_ret _
      (fun pre _ s' => heap_wf s' /\ live s' = live s1 /\ written_upto s s' c u (length pre) (bbt_blks b))
      (fun _ s' => heap_wf s' /\ live s' = live s /\ exists k, written_upto s s' c u k (bbt_blks b))).
    + split; [done|]. split; [done|]. by apply written_upto_0.
    + intros pre i post ret1 s2 E (Hwf2 & Hlive2 & Hw2). apply seqZ_split in E as (_ & Hi & <-).
      eapply wp_flush_blk; try done; [rewrite Hlive2, Hlive; apply live_new|by rewrite Nat2Z.id|..].
      * intros ret2 s3 H1 H2 H3. rewrite Nat2Z.id in H3. rewrite length_app, Nat.add_1_r.
        split; [done|]. split; [by rewrite H2|done].
      * intros ret2 k s3 H1 H2 H3. split; [done|]. split; [|by exists k].
        by rewrite H2, Hlive2, Hlive, live_undo.
    + intros ret1 s2 (Hwf2 & Hlive2 & Hw2). cbn.
      eapply wp_bind, wp_free; [done|right; rewrite Hlive2, Hlive; apply live_new|].
      intros s3 Hwf3 Hlive3 Hw3 _. rewrite Hlive2, Hlive, live_undo in Hlive3 by done.
      apply wp_bind. unfold nvm_bbt_free. eapply wp_free; [done|right; by rewrite Hlive3|].
      intros s4 Hwf4 Hlive4 Hw4 _. apply wp_ret. rewrite set_entry_eq by done. fold c u. apply HS.
      * eapply co_remove; try done. by rewrite Hlive4, Hlive3.
      * rewrite Hw4, Hw3, Hw2, bool_decide_true by done. unfold view. rewrite He.
        rewrite length_seqZ, take_ge, drop_ge, app_nil_r; [done| |by rewrite (en_len _ _ _ Hb)].
        by rewrite table_len.
      * intros c' u' Hne. rewrite Hw4, Hw3, Hw2, bool_decide_false; [done|]. by intros [-> ->].
    + intros ret1 s2 (Hwf2 & Hlive2 & k & Hw2). cbn.
      assert (Hoth : forall c' u', (c', u') <> (c, u) -> table (world s2) c' u' = table (world s) c' u').
      { intros c' u' Hne. rewrite Hw2, bool_decide_false; [done|]. by intros [-> ->]. }
      apply wp_ret, HE; [by eapply co_same|apply HV; [done|eauto]|done].
  - apply wp_ret. pose proof (HS ret s) as HS'. rewrite list_insert_id in HS' by done. apply HS'; [done| |done].
    unfold view. by rewrite He.
Qed.

(** ** Views *)

(** Two views that agree on the device's LUNs. *)
Definition veq (v v' : Z -> Z -> list Z) : Prop := forall c u, lun_ok dev c u -> v c u = v' c u.

#[local] Instance veq_equiv : Equivalence veq.
Proof.
  split; [done|intros v v' H c u Hl; symmetry; by apply H|].
  intros v1 v2 v3 H1 H2 c u Hl. by rewrite H1, H2.
Qed.

(** The table of [a]'s LUN is replaced by [t]; one state of it is. *)
Definition set_view (a : nvm_addr) (t : list Z) (v : Z -> Z -> list Z) : Z -> Z -> list Z :=
  fun c u => if bool_decide (c = g_ch a /\ u = g_lun a) then t else v c u.
Definition mark_view (st : Z) (a : nvm_addr) (v : Z -> Z -> list Z) : Z -> Z -> list Z :=
  set_view a (<[Z.to_nat (blk_of (geo dev) a) := st]> (v (g_ch a) (g_lun a))) v.
Definition mark_views (st : Z) (l : list nvm_addr) (v : Z -> Z -> list Z) : Z -> Z -> list Z :=
  foldl (fun v a => mark_view st a v) v l.

#[local] Instance set_view_proper a t : Proper (veq ==> veq) (set_view a t).
Proof. intros v v' H c u Hl. unfold set_view. case_bool_decide; [done|by apply H]. Qed.

Lemma mark_view_veq st a v v' : in_bounds dev a -> veq v v' -> veq (mark_view st a v) (mark_view st a v').
Proof.
  intros [Hl _]%in_bounds_lun H. unfold mark_view. rewrite (H _ _ Hl). by apply set_view_proper.
Qed.

(** A change of one entry, as the view sees it. *)
Lemma view_set base l s q b w a t : cache_ok base l s -> in_bounds dev a -> bbt_blks b = t ->
  veq (view (<[lun_idx dev (g_ch a) (g_lun a) := Some (q, b)]> l) w) (set_view a t (view l w)).
Proof.
  intros Hc Ha <- c u Hl. destruct (in_bounds_lun a Ha) as [Hl' _]. unfold set_view.
  case_bool_decide as E.
  - destruct E as [-> ->]. by eapply view_insert_eq.
  - apply view_insert_ne; [done..|]. intros [= -> ->]. by apply E.
Qed.

Lemma quiet_view l s s' : quiet s s' -> veq (view l (world s)) (view l (world s')).
Proof. intros H c u _. unfold view. destruct (entry l c u) as [[[? ?]|]|]; by rewrite ?H. Qed.

(** [nvm_bbt_get] through a cache that is on. *)
Lemma wp_get_cached base l a ret s (Q : option (boxed nvm_bbt) * retp * nvm_dev -> sys W -> Prop) :
  bbts_cached dev <> 0 -> in_bounds dev a -> cache_ok base l s ->
  (forall l' ret' s', cache_ok base l' s' -> veq (view l' (world s')) (view l (world s)) ->
     Q (None, ret', with_bbts l' dev) s') ->
  (forall l' q b ret' s', cache_ok base l' s' -> veq (view l' (world s')) (view l (world s)) ->
     entry l' (g_ch a) (g_lun a) = Some (Some (q, b)) ->
     bbt_blks b = view l (world s) (g_ch a) (g_lun a) -> Q (Some (q, b), ret', with_bbts l' dev) s') ->
  wp (nvm_bbt_get be (with_bbts l dev) a ret) s Q.
Proof.
  intros Hon Ha Hc HN HS. destruct (in_bounds_lun a Ha) as [Hl _].
  eapply wp_get; [done..| |].
  - intros l' ret' s' Hc' Hq Hoth Hat Hat'. apply HN; [done|]. intros c' u' Hl'. unfold view.
    destruct (decide ((c', u') = (g_ch a, g_lun a))) as [[= -> ->]|Hne].
    + destruct Hat as [->|Hat]; [destruct (entry l _ _) as [[[? ?]|]|]; by rewrite ?Hq|].
      by rewrite (Hat' Hon Hat), Hat, Hq.
    + rewrite Hoth by done. destruct (entry l _ _) as [[[? ?]|]|]; by rewrite ?Hq.
  - intros l' q b ret' s' Hc' Hq Hoth Hat Hb. rewrite (proj2 (Z.eqb_neq _ 0)) in Hb by done.
    apply (HS _ q b); [done| |done|done]. intros c' u' Hl'.
    destruct (decide ((c', u') = (g_ch a, g_lun a))) as [[= -> ->]|Hne].
    + rewrite <-Hb. unfold view. by rewrite Hat.
    + unfold view. rewrite Hoth by done. destruct (entry l _ _) as [[[? ?]|]|]; by rewrite ?Hq.
Qed.

Lemma wp_get_outside l a ret s (Q : option (boxed nvm_bbt) * retp * nvm_dev -> sys W -> Prop) :
  ~ in_bounds dev a -> Q (None, ret, with_bbts l dev) (Sys EINVAL (hp s) (world s)) ->
  wp (nvm_bbt_get be (with_bbts l dev) a ret) s Q.
Proof.
  intros Ha HQ. unfold nvm_bbt_get. apply wp_bind.
  destruct (addr_check_ok a (with_bbts l dev) s (or_introl (bg_verid _ Hg))) as (r & Er & Hr).
  eapply wp_intro; [exact Er|]. destruct (Z.eqb_spec r 0) as [->|Hne]; [|exact HQ].
  exfalso. by apply Ha, Hr.
Qed.

Lemma co_errno base l s e : cache_ok base l s -> cache_ok base l (Sys e (hp s) (world s)).
Proof. intros [H1 H2 H3 H4 H5 H6]. by split. Qed.

(** The counters are of no effect on the states. *)
Lemma wp_refresh_counters l b c u s (Q : Z * nvm_bbt -> sys W -> Prop) :
  entry_ok c u b ->
  (forall r b' e, entry_ok c u b' -> bbt_blks b' = bbt_blks b -> Q (r, b') (Sys e (hp s) (world s))) ->
  wp (_refresh_counters (with_bbts l dev) b) s Q.
Proof.
  intros Hb HQ. unfold _refresh_counters.
  rewrite (en_len _ _ _ Hb), (en_nblks _ _ _ Hb). pose proof bbt_len_range.
  rewrite Z2Nat.id, Z.ltb_irrefl by lia.
  destruct (bbt_count _ _) as [[[[w x] y] z]|].
  - cbn [verid with_bbts]. rewrite (bg_verid _ Hg). cbn. apply wp_ret.
    destruct s as [e h w']. apply HQ; [|done]. by destruct Hb.
  - by apply HQ.
Qed.

(** ** Updates *)

Lemma blk_idx_eq l a : in_bounds dev a -> _blk_idx (with_bbts l dev) a = blk_of (geo dev) a.
Proof.
  intros [_ Hb]%in_bounds_lun. pose proof bbt_len_range. unfold _blk_idx. cbn [geo with_bbts].
  change (g_blk a * nplanes (geo dev) + g_pl a) with (blk_of (geo dev) a).
  by rewrite wrap_id, i32_id by lia.
Qed.

Lemma wp_mark_one base l a st ret s (Q : retp * nvm_dev + retp * nvm_dev -> sys W -> Prop) :
  bbts_cached dev <> 0 -> cache_ok base l s ->
  (forall l' ret' s', cache_ok base l' s' -> veq (view l' (world s')) (view l (world s)) ->
     Q (inr (ret', with_bbts l' dev)) s') ->
  (forall l' ret' s', in_bounds dev a -> cache_ok base l' s' ->
     veq (view l' (world s')) (mark_view (u8 st) a (view l (world s))) ->
     Q (inl (ret', with_bbts l' dev)) s') ->
  wp (mark_one be st a (ret, with_bbts l dev)) s Q.
Proof.
  intros Hon Hc HE HS. unfold mark_one. apply wp_bind.
  destruct (decide (in_bounds dev a)) as [Ha|Ha].
  2:{ apply wp_get_outside; [done|]. apply wp_ret, HE; [by apply co_errno|done]. }
  apply (wp_get_cached base); [done..| |].
  { intros l' ret' s' Hc' Hv. by apply wp_ret, HE. }
  intros l' q b ret' s' Hc' Hv He Hb. destruct (in_bounds_lun a Ha) as [Hl Hblk].
  destruct (lookup_entry l' a base s' Hc' Ha) as (o & Eo & He'). rewrite He in He'. injection He' as <-.
  apply wp_bind. change (_bbt_idx (with_bbts l dev) a) with (_bbt_idx (with_bbts l' dev) a).
  rewrite Eo. eapply wp_intro; [done|]. apply wp_bind. eapply wp_intro; [done|].
  rewrite blk_idx_eq by done. pose proof (co_entry _ _ _ Hc' _ _ _ _ Hl He) as Hen.
  destruct (lookup_lt_is_Some_2 (bbt_blks b) (Z.to_nat (blk_of (geo dev) a))) as [x Hx];
    [rewrite (en_len _ _ _ Hen); lia|].
  apply wp_bind. unfold lookupZ. rewrite (proj2 (Z.ltb_ge _ 0)), Hx by lia. eapply wp_intro; [done|].
  apply wp_bind. eapply (wp_refresh_counters l' _ (g_ch a) (g_lun a)).
  { destruct Hen as [H1 H2 H3 H4 H5]. split; cbn; try done; [by rewrite length_insert|].
    apply Forall_insert; [done|]. apply wrap_range. lia. }
  intros r b' e Hen' Hb'. apply wp_ret. rewrite set_entry_eq by done. apply HS; [done| |].
  - eapply co_update; [exact Hc'|done|exact He| | |done]; [apply Hc'|done].
  - cbn [world]. etrans; [eapply view_set; [exact Hc'|done|exact Hb']|].
    unfold mark_view. cbn. rewrite Hb. by apply set_view_proper.
Qed.

(** The addresses marked are the first ones: all of them on success. *)
Lemma wp_mark base l addrs st ret s (Q : Z * retp * nvm_dev -> sys W -> Prop) :
  bbts_cached dev <> 0 -> cache_ok base l s ->
  (forall l' err ret' s' pre post, addrs = pre ++ post -> Forall (in_bounds dev) pre ->
     cache_ok base l' s' -> veq (view l' (world s')) (mark_views (u8 st) pre (view l (world s))) ->
     (err = 0 /\ post = [] \/ err = -1 /\ post <> []) ->
     Q (err, ret', with_bbts l' dev) s') ->
  wp (nvm_bbt_mark be (with_bbts l dev) addrs (Z.of_nat (length addrs)) st ret) s Q.
Proof.
  intros Hon Hc HQ. unfold nvm_bbt_mark. cbn [bbts_cached with_bbts].
  rewrite (proj2 (Z.eqb_neq _ 0)), Z.ltb_irrefl, Nat2Z.id, firstn_all by done.
  pose (I := fun pre d s' => exists l' : list (option (Z * nvm_bbt)), d = with_bbts l' dev /\
    Forall (in_bounds dev) pre /\ cache_ok base l' s' /\
    veq (view l' (world s')) (mark_views (u8 st) pre (view l (world s)))).
  apply wp_bind, (wp_mfold_ret _ (fun pre acc s' => I pre acc.2 s')
    (fun acc s' => exists pre post, addrs = pre ++ post /\ post <> [] /\ I pre acc.2 s')).
  - exists l. split; [done|]. split; [constructor|]. by split.
  - intros pre a post [ret1 d] s1 E (l1 & Ed & Hp & Hc1 & Hv1). cbn in Ed. subst d.
    apply (wp_mark_one base); [done..| |].
    + intros l2 ret2 s2 Hc2 Hv2. exists pre, (a :: post). split; [done|]. split; [done|].
      exists l2. split; [done|]. split; [done|]. split; [done|]. by etrans.
    + intros l2 ret2 s2 Ha Hc2 Hv2. exists l2. split; [done|]. split; [apply Forall_app; split; [done|by constructor]|].
      split; [done|]. etrans; [exact Hv2|]. unfold mark_views. rewrite foldl_app. cbn.
      by apply mark_view_veq.
  - intros [ret1 d] s1 (l1 & Ed & Hp & Hc1 & Hv1). cbn in Ed. subst d. apply wp_ret, (HQ _ _ _ _ addrs []); [|done..|by left].
    by rewrite app_nil_r.
  - intros [ret1 d] s1 (pre & post & -> & Hne & l1 & Ed & Hp & Hc1 & Hv1). cbn in Ed. subst d.
    apply wp_ret, (HQ _ _ _ _ pre post); [done..|by right].
Qed.

(** A table of the caller's for the device's block counts. *)
Definition given_ok (b : nvm_bbt) : Prop :=
  bbt_nblks b = N /\ length (bbt_blks b) = Z.to_nat N /\ Forall (fun x => 0 <= x < 2 ^ 8) (bbt_blks b).

Lemma wp_set base l b ret s (Q : Z * retp * nvm_dev -> sys W -> Prop) :
  bbts_cached dev <> 0 -> given_ok b -> cache_ok base l s ->
  (forall l' ret' s', in_bounds dev (bbt_addr b) -> cache_ok base l' s' ->
     veq (view l' (world s')) (set_view (bbt_addr b) (bbt_blks b) (view l (world s))) ->
     Q (0, ret', with_bbts l' dev) s') ->
  (forall l' ret' s', cache_ok base l' s' -> veq (view l' (world s')) (view l (world s)) ->
     Q (-1, ret', with_bbts l' dev) s') ->
  wp (nvm_bbt_set be (with_bbts l dev) b ret) s Q.
Proof.
  intros Hon (Hn & Hlen & Hby) Hc HS HE. set (a := bbt_addr b) in *. unfold nvm_bbt_set. apply wp_bind.
  destruct (addr_check_ok a (with_bbts l dev) s (or_introl (bg_verid _ Hg))) as (r & Er & Hr).
  eapply wp_intro; [exact Er|]. destruct (Z.eqb_spec r 0) as [E0|Hne]; cbn [negb].
  2:{ apply HE; [by apply co_errno|done]. }
  assert (Ha : in_bounds dev a) by (by apply Hr). destruct (in_bounds_lun a Ha) as [Hl _].
  apply wp_bind, (wp_get_cached base); [done..| |].
  { intros l' ret' s' Hc' Hv. by apply wp_ret, HE. }
  intros l' q b1 ret' s' Hc' Hv He Hb. fold a in He, Hb |- *.
  destruct (lookup_entry l' a base s' Hc' Ha) as (o & Eo & He'). rewrite He in He'. injection He' as <-.
  pose proof (co_entry _ _ _ Hc' _ _ _ _ Hl He) as Hen. pose proof bbt_len_range.
  apply wp_bind. rewrite Eo. eapply wp_intro; [done|]. apply wp_bind. eapply wp_intro; [done|].
  apply wp_bind. unfold copy_blks. rewrite Hlen, Hn, (en_len _ _ _ Hen), Z2Nat.id, Z.ltb_irrefl by lia.
  cbn [orb]. rewrite take_ge by (by rewrite Hlen).
  rewrite drop_ge, app_nil_r by (by rewrite (en_len _ _ _ Hen)).
  eapply wp_intro; [done|]. apply wp_bind, (wp_refresh_counters l' _ (g_ch a) (g_lun a)).
  { destruct Hen as [H1 H2 H3 H4 H5]. by split. }
  intros r1 b' e Hen' Hb'. rewrite set_entry_eq by done. cbn [bbts_cached with_bbts].
  rewrite (proj2 (Z.eqb_neq _ 0)) by done. cbn [negb]. apply wp_ret, HS; [done| |].
  - eapply co_update; [exact Hc'|done|exact He| | |done]; [apply Hc'|done].
  - cbn [world]. etrans; [eapply view_set; [exact Hc'|done|exact Hb']|]. cbn.
    by apply set_view_proper.
Qed.

(** ** Writing everything back *)

(** The LUN of round [i] of [nvm_bbt_flush_all]; every LUN has its round. *)
Lemma flush_addr_lun i : 0 <= i < nbbts dev -> exists a, flush_addr (geo dev) i = Some a /\
  in_bounds dev a /\ g_ch a = i mod nchannels (geo dev) /\ g_lun a = i / nchannels (geo dev).
Proof.
  destruct Hg as [H1 H2 H3 H4 H5 H6 H7 H8]. rewrite H8. intros Hi. unfold flush_addr, zmod, zdiv.
  rewrite (proj2 (Z.eqb_neq (nchannels (geo dev)) 0)), (proj2 (Z.eqb_neq (nluns (geo dev)) 0)) by lia.
  cbn. pose proof (Z.mod_pos_bound i (nchannels (geo dev)) ltac:(lia)).
  assert (0 <= i / nchannels (geo dev) < nluns (geo dev)).
  { split; [apply Z.div_pos; lia|]. apply Z.div_lt_upper_bound; lia. }
  rewrite (Z.mod_small (i / _)) by lia. eexists. split; [done|]. unfold in_bounds. rewrite H1. cbn.
  addr_simpl. rewrite !(wrap_id 8) by lia. lia.
Qed.

Lemma lun_round c u : lun_ok dev c u -> let i := u * nchannels (geo dev) + c in
  0 <= i < nbbts dev /\ i mod nchannels (geo dev) = c /\ i / nchannels (geo dev) = u.
Proof.
  unfold lun_ok. rewrite (bg_nbbts _ Hg). intros [Hc Hu]. split; [nia|]. split.
  - rewrite Z.add_comm, Z.mod_add, Z.mod_small by lia. done.
  - rewrite Z.add_comm, Z.div_add, Z.div_small by lia. lia.
Qed.

(** The rounds [0 .. k - 1] leave their entries empty. *)
Definition flushed_upto (k : Z) l : Prop := forall c u, lun_ok dev c u ->
  u * nchannels (geo dev) + c < k -> entry l c u = Some None.

Lemma flushed_step k l a : 0 <= k -> flushed_upto k l -> in_bounds dev a ->
  (lun_idx dev (g_ch a) (g_lun a) < length l)%nat ->
  g_ch a = k mod nchannels (geo dev) -> g_lun a = k / nchannels (geo dev) ->
  flushed_upto (k + 1) (<[lun_idx dev (g_ch a) (g_lun a) := None]> l).
Proof.
  intros Hk Hf [Ha _]%in_bounds_lun Hlt E1 E2 c u Hl Hlt'.
  destruct (decide ((c, u) = (g_ch a, g_lun a))) as [[= -> ->]|Hne].
  - by apply list_lookup_insert_eq.
  - rewrite entry_insert_ne by done. apply Hf; [done|]. destruct (lun_round c u Hl) as (_ & R1 & R2).
    enough (u * nchannels (geo dev) + c <> k) by lia. intros E. apply Hne. rewrite E1, E2, <-E. by rewrite R1, R2.
Qed.

Lemma all_flushed base l s : cache_ok base l s -> flushed_upto (nbbts dev) l ->
  Forall (fun e => e = None) l /\ live s = base /\ veq (view l (world s)) (table (world s)).
Proof.
  intros Hc Hf. assert (Hall : Forall (fun e => e = None) l).
  { apply Forall_lookup_2. intros i e Hi. pose proof (lookup_lt_Some _ _ _ Hi) as Hlt.
    rewrite (co_len _ _ _ Hc) in Hlt. destruct Hg as [H1 H2 H3 H4 H5 H6 H7 H8].
    assert (Hl : lun_ok dev (Z.of_nat i / nluns (geo dev)) (Z.of_nat i mod nluns (geo dev))).
    { split; [|apply Z.mod_pos_bound; lia]. split; [apply Z.div_pos; lia|].
      apply Z.div_lt_upper_bound; lia. }
    destruct (lun_round _ _ Hl) as ([_ Hr] & _). pose proof (Hf _ _ Hl Hr) as He.
    unfold lun_idx in He. rewrite Z.mul_comm, <-Z.div_mod, Nat2Z.id in He by lia. congruence. }
  split; [done|]. split.
  - apply set_eq. intros q. rewrite (co_live _ _ _ Hc). split; [|by left].
    intros [?|(i & b & Hi)]; [done|]. by apply (Forall_lookup_1 _ _ _ _ Hall) in Hi.
  - intros c u Hl. unfold view. destruct (lun_round _ _ Hl) as ([_ Hr] & _). by rewrite (Hf _ _ Hl Hr).
Qed.

Lemma wp_flush_view base l a ret s (Q : Z * retp * nvm_dev -> sys W -> Prop) :
  in_bounds dev a -> cache_ok base l s ->
  (forall l' err ret' s', cache_ok base l' s' -> veq (view l' (world s')) (view l (world s)) ->
     (err = 0 /\ l' = <[lun_idx dev (g_ch a) (g_lun a) := None]> l \/ err = -1) ->
     Q (err, ret', with_bbts l' dev) s') ->
  wp (nvm_bbt_flush be (with_bbts l dev) a ret) s Q.
Proof.
  intros Ha Hc HQ. destruct (in_bounds_lun a Ha) as [Hl _]. eapply wp_flush; [done..| |].
  - intros ret' s' Hc' Ht Hoth. apply HQ; [done| |by left].
    intros c u Hl'. destruct (decide ((c, u) = (g_ch a, g_lun a))) as [[= -> ->]|Hne].
    + by erewrite view_insert_None.
    + rewrite view_insert_ne by done. unfold view. destruct (entry l c u) as [[[? ?]|]|]; auto.
  - intros ret' s' Hc' Hv _. apply HQ; [done|done|by right].
Qed.

Lemma wp_flush_all base l ret s (Q : Z * retp * nvm_dev -> sys W -> Prop) :
  cache_ok base l s ->
  (forall l' err ret' s', cache_ok base l' s' -> veq (view l' (world s')) (view l (world s)) ->
     (err = 0 /\ flushed_upto (nbbts dev) l' \/ err = -1) -> Q (err, ret', with_bbts l' dev) s') ->
  wp (nvm_bbt_flush_all be (with_bbts l dev) ret) s Q.
Proof.
  intros Hc HQ. unfold nvm_bbt_flush_all. cbn [nbbts with_bbts].
  pose (I := fun d s' l' => d = with_bbts l' dev /\ cache_ok base l' s' /\
    veq (view l' (world s')) (view l (world s))).
  apply wp_bind, (wp_mfold_ret _
    (fun pre acc s' => exists l', I acc.2 s' l' /\ flushed_upto (Z.of_nat (length pre)) l')
    (fun r s' => r.1.1 = -1 /\ exists l', I r.2 s' l')).
  - exists l. split; [by split|]. intros c u [H1 H2] H3. destruct Hg. cbn in H3. nia.
  - intros pre i post [ret1 d] s1 E (l1 & (Ed & Hc1 & Hv1) & Hf1). cbn in Ed. subst d.
    apply seqZ_split in E as (_ & Hi & E). unfold flush_one.
    destruct (flush_addr_lun i Hi) as (a & Ea & Ha & E1 & E2).
    apply wp_bind. cbn [geo with_bbts]. rewrite Ea. eapply wp_intro; [done|].
    apply wp_bind, (wp_flush_view base); [done..|]. intros l2 err ret2 s2 Hc2 Hv2 [[-> ->]| ->]; cbn [negb Z.eqb].
    + apply wp_ret. eexists. split; [split; [done|]; split; [done|by etrans]|].
      rewrite length_app, Nat2Z.inj_add, E. rewrite E in Hf1. apply flushed_step; [lia|done|done| |done|done].
      eapply lun_idx_lt; [exact Hc1|]. by apply in_bounds_lun.
    + apply wp_ret. split; [done|]. exists l2. split; [done|]. split; [done|by etrans].
  - intros [ret1 d] s1 (l1 & (Ed & Hc1 & Hv1) & Hf1). cbn in Ed. subst d.
    apply wp_ret, HQ; [done|done|]. left. split; [done|]. rewrite length_seqZ, Z2Nat.id in Hf1; [done|].
    rewrite (bg_nbbts _ Hg). destruct Hg. nia.
  - intros [[err ret1] d] s1 (Eerr & l1 & (Ed & Hc1 & Hv1)). cbn in Ed, Eerr. subst d err.
    apply wp_ret, HQ; [done|done|by right].
Qed.
End cache.
