(* ===== verification/BbtSpec.v ===== *)
(** What the bad-block table operations promise: the tables a caller sees, one
    per LUN, are an abstract state that each operation changes in one step;
    the cache, its allocations and the write-back are invisible. *)
From stdpp Require Import base numbers strings gmap option list.
From S2P Require Import Prelude Types Nvme Addr Dev Backend Buf Cmd Bbt BbtCache.

(** ** The abstract state and its steps *)

Inductive bbt_op :=
  | OpGet (a : nvm_addr)
  | OpSet (b : nvm_bbt)
  | OpMark (addrs : list nvm_addr) (flags : Z)
  | OpFlush (a : nvm_addr)
  | OpFlushAll.

(** What a caller gets: a status, and the states of the table it asked for. *)
Record bbt_res := BbtRes { res : Z; res_blks : option (list Z) }.

Section spec.
Context (dev : nvm_dev).
Implicit Types v : Z -> Z -> list Z.

(** The first addresses of [addrs] are marked: all of them if the status is 0. *)
Definition marked (addrs : list nvm_addr) (st r : Z) v v' : Prop :=
  exists pre post, addrs = pre ++ post /\ Forall (in_bounds dev) pre /\
    veq dev v' (mark_views dev st pre v) /\ (r = 0 /\ post = [] \/ r = -1 /\ post <> []).

Definition bbt_step v (op : bbt_op) (r : bbt_res) v' : Prop :=
  match op with
  | OpGet a => veq dev v' v /\
      (r = BbtRes (-1) None \/ in_bounds dev a /\ r = BbtRes 0 (Some (v (g_ch a) (g_lun a))))
  | OpSet b =>
      r = BbtRes 0 None /\ in_bounds dev (bbt_addr b) /\
        veq dev v' (set_view (bbt_addr b) (bbt_blks b) v) \/
      r = BbtRes (-1) None /\ veq dev v' v
  | OpMark addrs flags => res_blks r = None /\ marked addrs (u8 flags) (res r) v v'
  | OpFlush _ | OpFlushAll => veq dev v' v /\ (r = BbtRes 0 None \/ r = BbtRes (-1) None)
  end.

Fixpoint bbt_steps v (ops : list bbt_op) (rs : list bbt_res) v' : Prop :=
  match ops, rs with
  | [], [] => veq dev v' v
  | op :: ops, r :: rs => exists v1, bbt_step v op r v1 /\ bbt_steps v1 ops rs v'
  | _, _ => False
  end.

(** Tables handed to [nvm_bbt_set] are of the device's size. *)
Definition op_ok (op : bbt_op) : Prop :=
  match op with OpSet b => given_ok dev b | _ => True end.
End spec.

(** ** The operations of the library *)

Section run.
Context {W : Type} (be : nvm_be W).

Definition run_op (op : bbt_op) (dev : nvm_dev) : M W (bbt_res * nvm_dev) :=
  match op with
  | OpGet a =>
      '(b, _, dev) ← nvm_bbt_get be dev a None;
      mret (match b with Some (_, b) => BbtRes 0 (Some (bbt_blks b)) | None => BbtRes (-1) None end, dev)
  | OpSet b => '(r, _, dev) ← nvm_bbt_set be dev b None; mret (BbtRes r None, dev)
  | OpMark addrs flags =>
      '(r, _, dev) ← nvm_bbt_mark be dev addrs (Z.of_nat (length addrs)) flags None;
      mret (BbtRes r None, dev)
  | OpFlush a => '(r, _, dev) ← nvm_bbt_flush be dev a None; mret (BbtRes r None, dev)
  | OpFlushAll => '(r, _, dev) ← nvm_bbt_flush_all be dev None; mret (BbtRes r None, dev)
  end.

Fixpoint run_ops (ops : list bbt_op) (dev : nvm_dev) : M W (list bbt_res * nvm_dev) :=
  match ops with
  | [] => mret ([], dev)
  | op :: ops => '(r, dev) ← run_op op dev; '(rs, dev) ← run_ops ops dev; mret (r :: rs, dev)
  end.
End run.

Section refine.
Context {W : Type} (be : nvm_be W) (dev : nvm_dev) `{!BbtMedia be dev} (Hg : bbt_geo_ok dev).
Implicit Types (s : sys W) (l : list (option (Z * nvm_bbt))).
#[local] Existing Instance veq_equiv.

Lemma wp_flush_outside l a ret s (Q : Z * retp * nvm_dev -> sys W -> Prop) :
  ~ in_bounds dev a -> Q (-1, ret, with_bbts l dev) (Sys EINVAL (hp s) (world s)) ->
  wp (nvm_bbt_flush be (with_bbts l dev) a ret) s Q.
Proof.
  intros Ha HQ. unfold nvm_bbt_flush. apply wp_bind.
  destruct (addr_check_ok a (with_bbts l dev) s (or_introl (bg_verid _ Hg))) as (r & Er & Hr).
  eapply wp_intro; [exact Er|]. destruct (Z.eqb_spec r 0) as [->|Hne]; [|exact HQ].
  exfalso. by apply Ha, Hr.
Qed.

(** One operation is one step. *)
Lemma wp_run_op base l op s (Q : bbt_res * nvm_dev -> sys W -> Prop) :
  bbts_cached dev <> 0 -> op_ok dev op -> cache_ok dev base l s ->
  (forall r l' s', cache_ok dev base l' s' ->
     bbt_step dev (view be dev l (world s)) op r (view be dev l' (world s')) ->
     Q (r, with_bbts l' dev) s') ->
  wp (run_op be op (with_bbts l dev)) s Q.
Proof.
  intros Hon Hop Hc HQ. destruct op as [a|b|addrs flags|a|]; cbn [run_op]; apply wp_bind.
  - destruct (decide (in_bounds dev a)) as [Ha|Ha].
    + apply (wp_get_cached be dev Hg base); [done..| |].
      * intros l' ret' s' Hc' Hv. apply wp_ret, HQ; [done|]. split; [done|by left].
      * intros l' q b ret' s' Hc' Hv _ Hb. apply wp_ret, HQ; [done|]. split; [done|right]. by rewrite Hb.
    + apply wp_get_outside; [done..|]. apply wp_ret, HQ; [by apply co_errno|]. split; [done|by left].
  - apply (wp_set be dev Hg base); [done..| |].
    + intros l' ret' s' Ha Hc' Hv. apply wp_ret, HQ; [done|]. by left.
    + intros l' ret' s' Hc' Hv. apply wp_ret, HQ; [done|]. by right.
  - apply (wp_mark be dev Hg base); [done..|]. intros l' err ret' s' pre post E Hp Hc' Hv He.
    apply wp_ret, HQ; [done|]. split; [done|]. by exists pre, post.
  - destruct (decide (in_bounds dev a)) as [Ha|Ha].
    + apply (wp_flush_view be dev Hg base); [done..|]. intros l' err ret' s' Hc' Hv He.
      apply wp_ret, HQ; [done|]. split; [done|]. destruct He as [[-> _]| ->]; [by left|by right].
    + apply wp_flush_outside; [done|]. apply wp_ret, HQ; [by apply co_errno|]. split; [done|by right].
  - apply (wp_flush_all be dev Hg base); [done|]. intros l' err ret' s' Hc' Hv He.
    apply wp_ret, HQ; [done|]. split; [done|]. destruct He as [[-> _]| ->]; [by left|by right].
Qed.

(** ** Properties *)

(** C7: with the cache of bad-block tables on, any sequence of [nvm_bbt_get],
    [nvm_bbt_set], [nvm_bbt_mark], [nvm_bbt_flush] and [nvm_bbt_flush_all], on
    any addresses and with any failures of the backend and of [malloc], runs
    without undefined behaviour, keeps the cache's invariant (every entry is
    the table of its own LUN in a block of its own, and no block is leaked) and
    is a run of the abstract tables: a [get] answers the table as the earlier
    [set]s and [mark]s left it, a [flush] changes nothing that is seen, a failed
    [mark] has marked a prefix of its addresses. *)
Theorem bbt_cache_refinement base l ops s :
  bbts_cached dev <> 0 -> Forall (op_ok dev) ops -> cache_ok dev base l s ->
  wp (run_ops be ops (with_bbts l dev)) s (fun '(rs, dev') s' =>
    exists l', dev' = with_bbts l' dev /\ cache_ok dev base l' s' /\
      bbt_steps dev (view be dev l (world s)) ops rs (view be dev l' (world s'))).
Proof.
  intros Hon Hops. revert l s. induction Hops as [|op ops Hop _ IH]; intros l s Hc; cbn [run_ops].
  - apply wp_ret. by exists l.
  - apply wp_bind, (wp_run_op base); [done..|]. intros r l1 s1 Hc1 Hs1.
    apply wp_bind. eapply wp_mono; [by apply IH|]. intros [rs d] s2 (l2 & -> & Hc2 & Hs2).
    apply wp_ret. exists l2. split; [done|]. split; [done|]. by exists (view be dev l1 (world s1)).
Qed.

(** C25: [nvm_bbt_flush_all] never changes the tables that are seen; when it
    answers 0, every entry is gone, its blocks are released, and the tables of
    the device are the ones that were seen. *)
Theorem flush_all_writes_back base l ret s :
  cache_ok dev base l s ->
  wp (nvm_bbt_flush_all be (with_bbts l dev) ret) s (fun '(err, _, dev') s' =>
    exists l', dev' = with_bbts l' dev /\ cache_ok dev base l' s' /\
      veq dev (view be dev l' (world s')) (view be dev l (world s)) /\
      (err = 0 /\ Forall (fun e => e = None) l' /\ live s' = base /\
         veq dev (table (world s')) (view be dev l (world s)) \/ err = -1)).
Proof.
  intros Hc. apply (wp_flush_all be dev Hg base); [done|]. intros l' err ret' s' Hc' Hv He.
  exists l'. split; [done|]. split; [done|]. split; [done|]. destruct He as [[-> Hf]| ->]; [left|by right].
  destruct (all_flushed be dev Hg base l' s' Hc' Hf) as (H1 & H2 & H3).
  split; [done|]. split; [done|]. split; [done|]. etrans; [symmetry; exact H3|done].
Qed.

(** With the cache off, [nvm_bbt_get] still leaves the table in the handle,
    and [nvm_bbt_mark] goes to the device past it: a later [nvm_bbt_flush] of
    the LUN, as [nvm_dev_close] does, undoes the mark. *)
Theorem uncached_mark_undone base l a st s :
  bbts_cached dev = 0 -> in_bounds dev a -> 0 <= st < 2 ^ 8 -> cache_ok dev base l s ->
  wp ('(b, _, dev1) ← nvm_bbt_get be (with_bbts l dev) a None;
      '(e1, _, dev2) ← nvm_bbt_mark be dev1 [a] 1 st None;
      '(e2, _, dev3) ← nvm_bbt_flush be dev2 a None;
      mret (b, e1, e2, dev3)) s (fun '(b, e1, e2, dev3) s' =>
    b <> None -> e2 = 0 ->
    table (world s') (g_ch a) (g_lun a) = table (world s) (g_ch a) (g_lun a)).
Proof.
  intros Hoff Ha Hst Hc. destruct (in_bounds_lun dev Hg a Ha) as [Hl _].
  apply wp_bind, (wp_get be dev Hg base); [done..| |].
  - intros l1 ret1 s1 Hc1 _ _ _ _. unfold nvm_bbt_mark. cbn [bbts_cached with_bbts]. rewrite Hoff.
    apply wp_bind, wp_bind. eapply wp_mono; [apply sbbt_law; [apply Hc1|done]|]. intros [e1 ret2] s2 (Hwf2 & Hl2 & _).
    apply wp_ret, wp_bind. eapply (wp_flush be dev Hg base); [done|by eapply co_same|..];
      intros; by apply wp_ret.
  - intros l1 q b ret1 s1 Hc1 Hq _ He Hb. unfold nvm_bbt_mark. cbn [bbts_cached with_bbts]. rewrite Hoff in *.
    apply wp_bind, wp_bind. eapply wp_mono; [apply sbbt_law; [apply Hc1|done]|]. intros [e1 ret2] s2 (Hwf2 & Hl2 & _).
    apply wp_ret, wp_bind. eapply (wp_flush be dev Hg base); [done|by eapply co_same|..].
    + intros ret3 s3 Hc3 Ht _. apply wp_ret. intros _ _. rewrite Ht. unfold view. by rewrite He, Hb.
    + intros ret3 s3 _ _ _. by apply wp_ret.
Qed.
End refine.

(** ** A device that keeps its tables *)

(** The changes made, the last one first: (channel, LUN, block, state). *)
Definition bbt_log : Type := list (Z * Z * Z * Z).

Section log.
Context (dev : nvm_dev).

Fixpoint log_table (w : bbt_log) (c u : Z) : list Z :=
  match w with
  | [] => replicate (Z.to_nat (bbt_len (geo dev))) NVM_BBT_FREE
  | (c', u', i, st) :: w =>
      if bool_decide (c = c' /\ u = u') then <[Z.to_nat i := u8 st]> (log_table w c u)
      else log_table w c u
  end.

Definition log_gbbt (a : nvm_addr) (ret : retp) : M bbt_log (option (boxed nvm_spec_bbt) * retp) :=
  p ← malloc;
  if p =? 0 then fail ENOMEM (None, ret)
  else fun s =>
    Some ((Some (p, SpecBbt (bbt_len (geo dev)) 0 0 0 0 (log_table (world s) (g_ch a) (g_lun a))), ret), s).
Definition log_mark (flags : Z) (w : bbt_log) (a : nvm_addr) : bbt_log :=
  (g_ch a, g_lun a, blk_of (geo dev) a, flags) :: w.
Definition log_sbbt (addrs : list nvm_addr) (flags : Z) (ret : retp) : M bbt_log (Z * retp) :=
  fun s => Some ((0, ret), Sys (errno s) (hp s) (foldl (log_mark flags) (world s) addrs)).

Lemma log_table_len w c u : length (log_table w c u) = Z.to_nat (bbt_len (geo dev)).
Proof.
  induction w as [|[[[c' u'] i] st] w IH]; cbn; [apply length_replicate|].
  case_bool_decide; [|done]. by rewrite length_insert.
Qed.

Lemma log_table_byte w c u : Forall (fun x => 0 <= x < 2 ^ 8) (log_table w c u).
Proof.
  induction w as [|[[[c' u'] i] st] w IH]; cbn; [by apply Forall_replicate|].
  case_bool_decide; [|done]. apply Forall_insert; [done|]. apply wrap_range. lia.
Qed.
End log.

Definition log_be (dev : nvm_dev) : nvm_be bbt_log :=
  NvmBe bbt_log NVM_BE_IOCTL "NVM_BE_IOCTL" nvm_be_nosys_open
    nvm_be_nosys_close nvm_be_nosys_pass nvm_be_nosys_idfy
    nvm_be_nosys_rprt nvm_be_nosys_gfeat nvm_be_nosys_sfeat
    (fun _ a ret => log_gbbt dev a ret) (fun _ addrs _ flags ret => log_sbbt dev addrs flags ret)
    nvm_be_nosys_scalar_erase
    nvm_be_nosys_scalar_write nvm_be_nosys_scalar_read nvm_be_nosys_vector_erase
    nvm_be_nosys_vector_write nvm_be_nosys_vector_read nvm_be_nosys_vector_copy
    nvm_be_nosys_async_init nvm_be_nosys_async_term nvm_be_nosys_async_poke
    nvm_be_nosys_async_wait.

#[export] Program Instance log_media dev : BbtMedia (log_be dev) dev := {| table := log_table dev |}.
Next Obligation. apply log_table_len. Qed.
Next Obligation. apply log_table_byte. Qed.
Next Obligation.
  intros dev l a ret s Hwf. cbn. unfold log_gbbt. eapply wp_bind, wp_malloc; [done| |].
  - intros s' Hwf' Hl Hw _. cbn. unfold wp, fail. split; [done|]. cbn. split; [by rewrite Hw|done].
  - intros p s' Hp Hf Hwf' Hl Hw _. rewrite (proj2 (Z.eqb_neq p 0)) by done. unfold wp.
    split; [done|]. rewrite Hw. split; [done|]. by repeat split.
Qed.
Next Obligation.
  intros dev l a st ret s Hwf Hst. cbn. unfold wp, log_sbbt. split; [done|]. split; [done|].
  exists true. split; [done|]. intros c u. cbn. by rewrite (wrap_id 8 st) by done.
Qed.

(** ** Witnesses *)

Definition tiny_bbt_dev (cached : Z) : nvm_dev := with_nbbts 4 (with_bbts_cached cached tiny12).
Definition no_tables : list (option (Z * nvm_bbt)) := replicate 4 None.

Lemma tiny_bbt_geo cached : bbt_geo_ok (tiny_bbt_dev cached).
Proof. by split. Qed.

(** Nothing is cached; the blocks 3 and 5 belong to others. *)
Lemma tiny_cache_ok cached (w : bbt_log) :
  cache_ok (tiny_bbt_dev cached) {[3; 5]} no_tables (Sys 0 (sample_heap 99) w).
Proof.
  assert (Hn : forall i x, no_tables !! i = Some (Some x) -> False).
  { intros i x [Hx _]%lookup_replicate. done. }
  split; [apply sample_heap_wf|done|..]; try (intros; exfalso; by eapply Hn).
  intros q. split; [by left|]. intros [?|(i & b & []%Hn)]. done.
Qed.

Definition blk1 : nvm_addr := set_g_blk 1 (set_g_ch 1 0).

(** A marked block is seen by the next [get], before the device knows. *)
Lemma bbt_cache_refinement_witness :
  let ops := [OpGet blk1; OpMark [blk1] NVM_BBT_DMRK; OpGet blk1] in
  wp (run_ops (log_be (tiny_bbt_dev 1)) ops (with_bbts no_tables (tiny_bbt_dev 1)))
    (Sys 0 (sample_heap 99) []) (fun '(rs, dev') s' => world s' = [] /\
      rs = [BbtRes 0 (Some [0; 0; 0; 0; 0; 0; 0; 0]); BbtRes 0 None;
            BbtRes 0 (Some [0; 0; 4; 0; 0; 0; 0; 0])] /\
      exists l', dev' = with_bbts l' (tiny_bbt_dev 1) /\
        cache_ok (tiny_bbt_dev 1) {[3; 5]} l' s').
Proof.
  intros ops.
  pose proof (bbt_cache_refinement (log_be (tiny_bbt_dev 1)) (tiny_bbt_dev 1) (tiny_bbt_geo 1)
    {[3; 5]} no_tables ops (Sys 0 (sample_heap 99) []) ltac:(done) ltac:(by repeat constructor)
    (tiny_cache_ok 1 [])) as H.
  apply wp_elim in H as ([rs dev'] & s' & E & l' & Hd & Hc & _).
  eapply wp_intro; [exact E|]. cbn beta iota. assert (E2 := E). vm_compute in E2.
  injection E2 as E2 E3 E4. split; [by subst s'|]. split; [by subst rs|]. by exists l'.
Defined.

(** A mark in the cache, written back. *)
Definition mark_and_close (dev : nvm_dev) : M bbt_log (Z * Z) :=
  '(e1, _, dev) ← nvm_bbt_mark (log_be dev) (with_bbts no_tables dev) [blk1] 1 NVM_BBT_DMRK None;
  '(e2, _, _) ← nvm_bbt_flush_all (log_be (tiny_bbt_dev 1)) dev None; mret (e1, e2).

Lemma flush_all_writes_back_witness :
  (exists s', mark_and_close (tiny_bbt_dev 1) (Sys 0 (sample_heap 99) []) = Some ((0, 0), s')) /\
  wp (mark_and_close (tiny_bbt_dev 1)) (Sys 0 (sample_heap 99) []) (fun '(e1, e2) s' =>
    e1 = 0 -> e2 = 0 -> live s' = {[3; 5]} /\
    log_table (tiny_bbt_dev 1) (world s') 1 0 = [0; 0; 4; 0; 0; 0; 0; 0]).
Proof.
  split; [eexists; vm_compute; reflexivity|]. unfold mark_and_close.
  apply wp_bind, (wp_mark _ _ (tiny_bbt_geo 1) {[3; 5]}); [done|apply tiny_cache_ok|].
  intros l' e1 ret' s1 pre post E _ Hc Hv He. apply wp_bind.
  eapply wp_mono; [apply (flush_all_writes_back (log_be (tiny_bbt_dev 1)) (tiny_bbt_dev 1)
    (tiny_bbt_geo 1) {[3; 5]} l' None s1 Hc)|].
  intros [[e2 r2] d2] s2 (l2 & _ & _ & _ & H2). apply wp_ret. intros -> ->.
  destruct He as [[_ ->]|[? _]]; [|done]. rewrite app_nil_r in E. subst pre.
  destruct H2 as [(_ & _ & H3 & H4)|?]; [|done]. split; [done|].
  assert (Hl : lun_ok (tiny_bbt_dev 1) 1 0) by done.
  etrans; [exact (H4 1 0 Hl)|]. by rewrite (Hv 1 0 Hl).
Defined.

(** The device loses the mark it was given. *)
Lemma uncached_mark_undone_witness :
  wp ('(b, _, dev1) ← nvm_bbt_get (log_be (tiny_bbt_dev 0)) (with_bbts no_tables (tiny_bbt_dev 0)) blk1 None;
      '(e1, _, dev2) ← nvm_bbt_mark (log_be (tiny_bbt_dev 0)) dev1 [blk1] 1 NVM_BBT_DMRK None;
      '(e2, _, dev3) ← nvm_bbt_flush (log_be (tiny_bbt_dev 0)) dev2 blk1 None;
      mret (b, e1, e2, dev3)) (Sys 0 (sample_heap 99) []) (fun '(b, e1, e2, dev3) s' =>
    b <> None /\ e1 = 0 /\ e2 = 0 /\
    log_table (tiny_bbt_dev 0) (world s') 1 0 = [0; 0; 0; 0; 0; 0; 0; 0]).
Proof.
  pose proof (uncached_mark_undone (log_be (tiny_bbt_dev 0)) (tiny_bbt_dev 0) (tiny_bbt_geo 0)
    {[3; 5]} no_tables blk1 NVM_BBT_DMRK (Sys 0 (sample_heap 99) []) eq_refl ltac:(done) ltac:(done)
    (tiny_cache_ok 0 [])) as H.
  apply wp_elim in H as ([[[b e1] e2] d] & s' & E & HT).
  eapply wp_intro; [exact E|]. cbn beta iota. assert (E2 := E). vm_compute in E2.
  injection E2 as E3 E4 E5 E6 E7. clear E6 E7. subst b e1 e2. split; [done|]. split; [done|]. split; [done|].
  by apply HT.
Defined.
