(* ===== verification/Open.v ===== *)
(** Opening and closing a device, [src/nvm_dev.c]: the handle a backend
    opened, its bad-block tables and its command options. *)
From stdpp Require Import base numbers strings gmap option list.
From S2P Require Import Prelude Types Nvme Addr Dev Backend Buf Be Cmd Bbt.

(** [dev->be] *)
Definition dev_be {W} (imps : list (nvm_be W)) (dev : nvm_dev) : option (nvm_be W) :=
  List.find (fun be => bid be =? be_id dev) imps.

Section open.
Context {W : Type} (be : nvm_be W).

(** [flags & mask], or the default. *)
Definition cmd_opt (flags mask def : Z) : Z :=
  if Z.land flags mask =? 0 then def else Z.land flags mask.

(** The block of the handle, that of its array of tables, and the handle. *)
Definition nvm_dev_openf (imps : list (nvm_be W)) (getenv_NVM_BE : option string)
    (dev_path : string) (flags : Z) : M W (option (Z * Z * nvm_dev)) :=
  dev ← nvm_be_factory imps getenv_NVM_BE dev_path flags;
  match dev with
  | None => e ← get_errno; fail (if e =? 0 then EIO else e) None
  | Some (d, dev) =>
      let dev := with_bbts_cached 0 dev in
      let dev := with_nbbts (u64 (nchannels (geo dev) * nluns (geo dev))) dev in
      p ← malloc;
      if p =? 0 then fail ENOMEM None
      else
        let dev := with_bbts (replicate (Z.to_nat (nbbts dev)) None) dev in
        let o := Z.lor 0 (cmd_opt flags NVM_CMD_MASK_IOMD NVM_CMD_DEF_IOMD) in
        let o := Z.lor o (cmd_opt flags NVM_CMD_MASK_ADDR NVM_CMD_DEF_ADDR) in
        let o := Z.lor o (cmd_opt flags NVM_CMD_MASK_PLOD NVM_CMD_DEF_PLOD) in
        mret (Some (d, p, with_cmd_opts o dev))
  end.

Definition nvm_dev_open (imps : list (nvm_be W)) (getenv_NVM_BE : option string)
    (dev_path : string) : M W (option (Z * Z * nvm_dev)) := nvm_dev_openf imps getenv_NVM_BE dev_path 0x0.

(** [d] is the block of the handle, [arr] that of its array of tables. *)
Definition nvm_dev_close (d arr : Z) (dev : option nvm_dev) : M W unit :=
  match dev with
  | None => mret tt
  | Some dev =>
      '(_, _, dev) ← nvm_bbt_flush_all be dev None;
      _ ← be_close be dev;
      _ ← free arr;
      free d
  end.
End open.

(** ** What opening keeps *)

Section opens.
Context {W : Type} (spdk : spdk_env W) (I : W -> Prop) (report : nvm_dev -> nvm_addr -> nvm_spec_rprt).
Context (ident : string) (flags : Z).
Implicit Types (s : sys W) (be : nvm_be W) (imps : list (nvm_be W)).

(** A handle of [be] that a search for chunks can use: on any handle with its
    geometry, buffers are blocks and reports are well formed. *)
Definition reports_on be (dev : nvm_dev) : Prop :=
  verid dev = NVM_SPEC_VERID_20 /\ geo_counts_ok (geo dev) /\
  forall dev', verid dev' = verid dev -> geo dev' = geo dev -> be_id dev' = bid be ->
    alloc_ok spdk dev' /\ rprt_law I be dev' (report dev').

(** The blocks [K] were taken, at most [n]. *)
Definition kept (n : nat) (K : gset Z) s s' : Prop :=
  live s' = K ∪ live s /\ K ## live s /\ (size K <= n)%nat.

(** What a backend promises of its [open]: a handle in two blocks (its own and
    that of the backend's state), or nothing, where one block may be lost. *)
Definition be_opens be : Prop :=
  forall s, good I s -> wp (be_open be ident flags) s (fun o s' => good I s' /\ exists K,
    match o with
    | None => kept 1 K s s'
    | Some (d, dev) => kept 2 K s s' /\ reports_on be dev
    end).

(** What [nvm_dev_openf] makes of it: three blocks for the handle, and one for
    each backend that refused. *)
Definition open_law imps (env : option string) : Prop :=
  forall s, good I s -> wp (nvm_dev_openf imps env ident flags) s (fun o s' => good I s' /\ exists K,
    kept (length imps + 2) K s s' /\
    match o with
    | None => True
    | Some (_, _, dev) => exists be, dev_be imps dev = Some be /\ reports_on be dev /\ be_id dev = bid be
    end).

Lemma kept_0 s s' : live s' = live s -> kept 0 ∅ s s'.
Proof. intros E. split; [by rewrite E, union_empty_l_L|]. split; [set_solver|by rewrite size_empty]. Qed.

Lemma kept_le m n K s s' : kept m K s s' -> (m <= n)%nat -> kept n K s s'.
Proof. intros (H1 & H2 & H3) Hn. split; [done|]. split; [done|lia]. Qed.

Lemma kept_1 p s s' : p ∉ live s -> live s' = {[p]} ∪ live s -> kept 1 {[p]} s s'.
Proof. intros Hp E. split; [done|]. split; [set_solver|by rewrite size_singleton]. Qed.

Lemma kept_trans m n K L s1 s2 s3 : kept m K s1 s2 -> kept n L s2 s3 -> kept (m + n) (L ∪ K) s1 s3.
Proof.
  intros (E1 & D1 & S1) (E2 & D2 & S2). rewrite E1 in E2, D2. split; [by rewrite E2, union_assoc_L|].
  split; [set_solver|]. rewrite size_union by set_solver. lia.
Qed.

(** A handle is found again by its identifier. *)
Lemma dev_be_of imps be dev : NoDup (bid <$> imps) -> be ∈ imps -> be_id dev = bid be -> dev_be imps dev = Some be.
Proof.
  intros Hnd Hin E. unfold dev_be. rewrite E. clear E. induction imps as [|b imps IH]; [by apply elem_of_nil in Hin|].
  cbn in *. apply NoDup_cons in Hnd as [Hb Hnd]. apply elem_of_cons in Hin as [->|Hin]; [by rewrite Z.eqb_refl|].
  destruct (Z.eqb_spec (bid b) (bid be)) as [Eb|]; [|by apply IH].
  destruct Hb. rewrite Eb. by apply list_elem_of_fmap_2.
Qed.

Lemma wp_loop_opens imps id s : Forall be_opens imps -> good I s ->
  wp (factory_loop imps id ident flags) s (fun o s' => good I s' /\ exists K,
    match o with
    | None => kept (length imps) K s s'
    | Some (_, dev) => kept (length imps + 1) K s s' /\ exists be, be ∈ imps /\ reports_on be dev /\ be_id dev = bid be
    end).
Proof.
  intros Hall. revert s. induction Hall as [|be imps Hbe _ IH]; intros s Hg; cbn [factory_loop length].
  - apply wp_ret. split; [done|]. exists ∅. by apply kept_0.
  - assert (Hrest : forall m K s1, (m <= 1)%nat -> good I s1 -> kept m K s s1 -> wp (factory_loop imps id ident flags) s1 (fun o s' => good I s' /\ exists K,
      match o with
      | None => kept (S (length imps)) K s s'
      | Some (_, dev) => kept (S (length imps) + 1) K s s' /\ exists be', be' ∈ be :: imps /\ reports_on be' dev /\ be_id dev = bid be'
      end)).
    { intros m K s1 Hm G1 K1. eapply wp_mono; [by apply IH|]. intros [[d dev]|] s2 [G2 [L H2]]; (split; [done|]); exists (L ∪ K).
      - destruct H2 as (K2 & be' & Hin & H2). split; [eapply kept_le; [by eapply kept_trans|lia]|].
        exists be'. split; [by right|done].
      - eapply kept_le; [by eapply kept_trans|lia]. }
    destruct (negb (id =? 0) && (Z.land (bid be) id =? 0)); [apply (Hrest 0%nat ∅); [lia|done|by apply kept_0]|].
    apply wp_bind. eapply wp_mono; [by apply Hbe|]. intros [[d dev]|] s1 [G1 [K H1]]; [|by apply (Hrest 1%nat K)].
    apply wp_ret. split; [done|]. destruct H1 as (K1 & Hv & Hgeo & Hl). exists K.
    split; [eapply kept_le; [done|lia]|]. exists be. split; [by left|]. by split.
Qed.

Lemma wp_openf imps env : NoDup (bid <$> imps) -> Forall be_opens imps -> open_law imps env.
Proof.
  intros Hnd Hall s Hg. unfold nvm_dev_openf. apply wp_bind.
  assert (HF : wp (nvm_be_factory imps env ident flags) s (fun o s' => good I s' /\ exists K,
    match o with
    | None => kept (length imps) K s s'
    | Some (_, dev) => kept (length imps + 1) K s s' /\ exists be, be ∈ imps /\ reports_on be dev /\ be_id dev = bid be
    end)).
  { unfold nvm_be_factory. destruct (_ || _); [by apply wp_loop_opens|]. apply wp_ret. split; [done|]. exists ∅.
    eapply kept_le; [by apply kept_0|lia]. }
  eapply wp_mono; [exact HF|]. intros [[d dev]|] s1 [G1 [K H1]].
  2: { apply wp_bind. eapply wp_intro; [reflexivity|]. eapply wp_intro; [reflexivity|].
       split; [eapply good_world; [exact G1|done|apply G1]|]. exists K. split; [|done]. eapply (kept_le _ _ _ _ s1); [done|lia]. }
  destruct H1 as (K1 & be & Hin & (Hv & Hgeo & Hl) & Eb). apply wp_bind. eapply wp_malloc; [done| |].
  - intros s2 G2 L2 _ _. eapply wp_intro; [reflexivity|]. split; [eapply good_world; [exact G2|done|apply G2]|]. exists K.
    split; [|done]. destruct K1 as (E1 & E2 & E3). split; [change (live s2 = K ∪ live s); congruence|]. split; [done|lia].
  - intros q s2 Hq Hf G2 L2 _ _. rewrite (proj2 (Z.eqb_neq q 0)) by done. apply wp_ret. split; [done|]. exists ({[q]} ∪ K). split.
    + eapply kept_le; [eapply kept_trans; [exact K1|by apply kept_1]|lia].
    + exists be. split; [by apply dev_be_of|]. split; [|done]. split; [done|]. split; [done|]. intros dev' E1 E2 E3. by apply Hl.
Qed.
End opens.
