(* ===== verification/Cli.v ===== *)
(** The command line of the tools, [src/nvm_cli.c]: the sub-command, its
    positional arguments and options, the environment variables that set up
    the device, and the files a command is passed through. *)
From Stdlib Require Import Ascii String.
From stdpp Require Import base numbers strings gmap option list.
From S2P Require Import Prelude Types Clib Nvme Addr Dev Backend Buf Be Cmd Bbt Open.

(** ** Data *)

Definition NVM_CLI_CMD_LEN : Z := 50.
(** The length of each array of arguments. *)
Definition ARGS_MAX : nat := 1024.

Inductive nvm_cli_cmd_arg_type :=
  | NVM_CLI_ARG_NONE | NVM_CLI_ARG_DEV_PATH
  | NVM_CLI_ARG_DECVAL | NVM_CLI_ARG_DECVAL_LIST | NVM_CLI_ARG_DECVAL_BEGIN_END
  | NVM_CLI_ARG_HEXVAL | NVM_CLI_ARG_HEXVAL_LIST
  | NVM_CLI_ARG_ADDR | NVM_CLI_ARG_ADDR_LIST | NVM_CLI_ARG_ADDR_SRC_DST
  | NVM_CLI_ARG_ADDR_LUN | NVM_CLI_ARG_ADDR_BLK | NVM_CLI_ARG_ADDR_PG | NVM_CLI_ARG_ADDR_SEC
  | NVM_CLI_ARG_ADDR_LUN_HEXVAL | NVM_CLI_ARG_ADDR_BLK_HEXVAL
  | NVM_CLI_ARG_ADDR_CHK_HEXVAL | NVM_CLI_ARG_ADDR_CHK_VAL_HEXVAL
  | NVM_CLI_ARG_VCOPY | NVM_CLI_ARG_VCOPY_S20 | NVM_CLI_ARG_ADDR_S12 | NVM_CLI_ARG_ADDR_S20
  | NVM_CLI_ARG_VBLK_LINE | NVM_CLI_ARG_VBLK_LINE_POS
  | NVM_CLI_ARG_REGISTER | NVM_CLI_ARG_REGISTER_VALUE | NVM_CLI_ARG_COUNT_OFFSET.

Definition NVM_CLI_OPT_HELP : Z := 1.
Definition NVM_CLI_OPT_BRIEF : Z := Z.shiftl 1 1.
Definition NVM_CLI_OPT_VERBOSE : Z := Z.shiftl 1 2.
Definition NVM_CLI_OPT_STATUS : Z := Z.shiftl 1 3.
Definition NVM_CLI_OPT_FILE_CMD : Z := Z.shiftl 1 4.
Definition NVM_CLI_OPT_FILE_DATA : Z := Z.shiftl 1 5.
Definition NVM_CLI_OPT_FILE_META : Z := Z.shiftl 1 6.
Definition NVM_CLI_OPT_FILE_INPUT : Z := Z.shiftl 1 7.
Definition NVM_CLI_OPT_FILE_OUTPUT : Z := Z.shiftl 1 8.
Definition NVM_CLI_OPT_VAL_DEC : Z := Z.shiftl 1 9.
Definition NVM_CLI_OPT_VAL_HEX : Z := Z.shiftl 1 10.
Definition NVM_CLI_OPT_TERSE : Z := Z.shiftl 1 11.

Definition NVM_CLI_OPTS_PFILE_CMD_NBYTES : Z := 64.
Definition NVM_CLI_OPTS_PFILE_MAX_NBYTES : Z := Z.shiftl 1 20.

(** [struct nvm_cli_cmd_args] but the device: each array has [ARGS_MAX]
    entries. *)
Record nvm_cli_cmd_args := CliArgs {
  dev_path : string;
  args_addrs : list nvm_addr; args_naddrs : Z;
  dec_vals : list Z; ndec_vals : Z;
  hex_vals : list Z; nhex_vals : Z }.

(** One file: the blocks of [bufs[i]] and [dups[i]] with their contents, the
    path and the size. *)
Record cli_pfile := CliPfile {
  pf_buf : Z * list Z; pf_dup : Z * list Z; pf_path : option string; pf_nbytes : Z }.

(** [struct nvm_cli_opts]; the files are those of the command, the meta data
    and the data. *)
Record nvm_cli_opts := CliOpts {
  opt_mask : Z; opt_help : Z; opt_brief : Z; opt_verbose : Z; opt_terse : Z; opt_status : Z;
  opt_pfiles : list cli_pfile;
  file_input : option string; file_output : option string; dec_val : Z; hex_val : Z }.

Record nvm_cli_evars := CliEvars {
  ev_pmode : Z; ev_meta_mode : Z; ev_noverify : Z; ev_erase_naddrs_max : Z; ev_read_naddrs_max : Z;
  ev_write_naddrs_max : Z; ev_meta_pr : Z; ev_cmd_opts : Z }.

(** [struct nvm_cli] but the commands, which do not change: [cli_cmd] is the
    place of the selected one, and [cli_dev] the device with the blocks of its
    handle and of its tables. *)
Record nvm_cli := Cli {
  cli_name : string; cli_cmd : nat; cli_args : nvm_cli_cmd_args; cli_dev : option (Z * Z * nvm_dev);
  cli_opts : nvm_cli_opts; cli_evars : nvm_cli_evars }.

Record nvm_cli_cmd (W : Type) := CliCmd {
  cmd_name : string; cmd_func : nvm_cli -> M W (Z * nvm_cli); arg_type : nvm_cli_cmd_arg_type; opt_types : Z }.
Arguments CliCmd {W} _ _ _ _.
Arguments cmd_name {W} _.
Arguments cmd_func {W} _.
Arguments arg_type {W} _.
Arguments opt_types {W} _.

(** The static structure of a tool. *)
Definition zero_args : nvm_cli_cmd_args := CliArgs "" (replicate ARGS_MAX 0) 0 (replicate ARGS_MAX 0) 0 (replicate ARGS_MAX 0) 0.
Definition zero_pfile : cli_pfile := CliPfile (0, []) (0, []) None 0.
Definition zero_opts : nvm_cli_opts := CliOpts 0 0 0 0 0 0 (replicate 3 zero_pfile) None None 0 0.
Definition zero_cli : nvm_cli := Cli "" 0 zero_args None zero_opts (CliEvars 0 0 0 0 0 0 0 0).

(** ** Assignments *)

Definition with_dev_path (x : string) (a : nvm_cli_cmd_args) : nvm_cli_cmd_args :=
  CliArgs x (args_addrs a) (args_naddrs a) (dec_vals a) (ndec_vals a) (hex_vals a) (nhex_vals a).
Definition with_naddrs (n : Z) (a : nvm_cli_cmd_args) : nvm_cli_cmd_args :=
  CliArgs (dev_path a) (args_addrs a) n (dec_vals a) (ndec_vals a) (hex_vals a) (nhex_vals a).
Definition with_ndec (n : Z) (a : nvm_cli_cmd_args) : nvm_cli_cmd_args :=
  CliArgs (dev_path a) (args_addrs a) (args_naddrs a) (dec_vals a) n (hex_vals a) (nhex_vals a).
Definition with_nhex (n : Z) (a : nvm_cli_cmd_args) : nvm_cli_cmd_args :=
  CliArgs (dev_path a) (args_addrs a) (args_naddrs a) (dec_vals a) (ndec_vals a) (hex_vals a) n.

(** [arr[i] = x]; outside the array it is undefined. *)
Definition set_at {A} (l : list A) (i : Z) (x : A) : option (list A) :=
  if (0 <=? i) && (i <? Z.of_nat (length l)) then Some (<[Z.to_nat i := x]> l) else None.

Definition set_arg_addr (i : Z) (x : nvm_addr) (a : nvm_cli_cmd_args) : option nvm_cli_cmd_args :=
  l ← set_at (args_addrs a) i x;
  Some (CliArgs (dev_path a) l (args_naddrs a) (dec_vals a) (ndec_vals a) (hex_vals a) (nhex_vals a)).
Definition set_dec (i : Z) (x : Z) (a : nvm_cli_cmd_args) : option nvm_cli_cmd_args :=
  l ← set_at (dec_vals a) i (u64 x);
  Some (CliArgs (dev_path a) (args_addrs a) (args_naddrs a) l (ndec_vals a) (hex_vals a) (nhex_vals a)).
Definition set_hex (i : Z) (x : Z) (a : nvm_cli_cmd_args) : option nvm_cli_cmd_args :=
  l ← set_at (hex_vals a) i (u64 x);
  Some (CliArgs (dev_path a) (args_addrs a) (args_naddrs a) (dec_vals a) (ndec_vals a) l (nhex_vals a)).

(** Addresses from their coordinates, in decimal, the fields not given 0. *)
Definition addr_lun (ch lun : string) : nvm_addr := set_g_lun (atoi lun) (set_g_ch (atoi ch) 0).
Definition addr_blk (ch lun blk : string) : nvm_addr := set_g_blk (atoi blk) (addr_lun ch lun).
Definition addr_chk (pugrp punit chunk : string) : nvm_addr :=
  set_l_chunk (atoi chunk) (set_l_punit (atoi punit) (set_l_pugrp (atoi pugrp) 0)).

(** ** Positional arguments *)

Section parse.
Context {W : Type}.
(** [argc] is the length of [argv]; the answer is what is returned, and the
    arguments parsed so far. *)
#[local] Abbreviation res := (M W (Z * nvm_cli_cmd_args)).
#[local] Abbreviation einval a := (fail EINVAL (-1, a) : res).

Definition parse_arg_count_offset (argv : list string) (a : nvm_cli_cmd_args) : res :=
  match argv with
  | v0 :: v1 :: _ => a ← lift (set_dec 0 (atoi v0) a ≫= set_dec 1 (atoi v1)); mret (2, with_ndec 2 a)
  | _ => einval a
  end.

Definition parse_arg_vcopy (argv : list string) (a : nvm_cli_cmd_args) : res :=
  match argv with
  | v0 :: v1 :: v2 :: v3 :: v4 :: v5 :: _ =>
      a ← lift (set_arg_addr 0 (addr_blk v0 v1 v2) a ≫= set_arg_addr 1 (addr_blk v3 v4 v5));
      mret (6, with_naddrs 2 a)
  | _ => einval a
  end.

Definition parse_arg_vcopy_s20 (argv : list string) (a : nvm_cli_cmd_args) : res :=
  match argv with
  | v0 :: v1 :: v2 :: v3 :: v4 :: v5 :: _ =>
      a ← lift (set_arg_addr 0 (addr_chk v0 v1 v2) a ≫= set_arg_addr 1 (addr_chk v3 v4 v5));
      mret (6, with_naddrs 2 a)
  | _ => einval a
  end.

Definition parse_arg_addr_s12 (argv : list string) (a : nvm_cli_cmd_args) : res :=
  match argv with
  | v0 :: v1 :: v2 :: v3 :: v4 :: v5 :: _ =>
      a ← lift (set_arg_addr 0 (set_g_sec (atoi v5) (set_g_pg (atoi v4) (set_g_pl (atoi v3) (addr_blk v0 v1 v2)))) a);
      mret (6, with_naddrs 1 a)
  | _ => einval a
  end.

Definition parse_arg_addr_s20 (argv : list string) (a : nvm_cli_cmd_args) : res :=
  match argv with
  | v0 :: v1 :: v2 :: v3 :: _ =>
      a ← lift (set_arg_addr 0 (set_l_sectr (atoi v3) (addr_chk v0 v1 v2)) a); mret (4, with_naddrs 1 a)
  | _ => einval a
  end.

Definition parse_arg_vblk_line (argv : list string) (a : nvm_cli_cmd_args) : res :=
  match argv with
  | v0 :: v1 :: v2 :: v3 :: v4 :: _ =>
      a ← lift (set_arg_addr 0 (addr_blk v0 v2 v4) a ≫= set_arg_addr 1 (addr_blk v1 v3 v4));
      mret (5, with_naddrs 2 a)
  | _ => einval a
  end.

Definition parse_arg_vblk_line_pos (argv : list string) (a : nvm_cli_cmd_args) : res :=
  match argv with
  | v0 :: v1 :: v2 :: v3 :: v4 :: v5 :: v6 :: _ =>
      a ← lift (set_arg_addr 0 (addr_blk v0 v2 v4) a ≫= set_arg_addr 1 (addr_blk v1 v3 v4));
      a ← lift (set_dec 0 (atol v5) (with_naddrs 2 a) ≫= set_dec 1 (atol v6));
      mret (7, with_ndec 2 a)
  | _ => einval a
  end.

Definition parse_arg_addr_sec (argv : list string) (a : nvm_cli_cmd_args) : res :=
  match argv with
  | v0 :: v1 :: v2 :: v3 :: v4 :: v5 :: _ =>
      a ← lift (set_arg_addr 0 (set_g_sec (atoi v5) (set_g_pg (atoi v4)
                 (set_g_blk (atoi v3) (set_g_pl (atoi v2) (addr_lun v0 v1))))) a);
      mret (6, with_naddrs 1 a)
  | _ => einval a
  end.

Definition parse_arg_addr_lun_hexval (argv : list string) (a : nvm_cli_cmd_args) : res :=
  match argv with
  | v0 :: v1 :: v2 :: _ =>
      a ← lift (set_arg_addr 0 (addr_lun v0 v1) a ≫= set_hex 0 (strtoll v2 16));
      mret (3, with_nhex 1 (with_naddrs 1 a))
  | _ => einval a
  end.

Definition parse_arg_addr_blk_hexval (argv : list string) (a : nvm_cli_cmd_args) : res :=
  match argv with
  | v0 :: v1 :: v2 :: v3 :: _ =>
      a ← lift (set_arg_addr 0 (addr_blk v0 v1 v2) a ≫= set_hex 0 (strtoll v3 16));
      mret (4, with_nhex 1 (with_naddrs 1 a))
  | _ => einval a
  end.

Definition parse_arg_addr_chk_hexval (argv : list string) (a : nvm_cli_cmd_args) : res :=
  match argv with
  | v0 :: v1 :: v2 :: v3 :: _ =>
      a ← lift (set_arg_addr 0 (addr_chk v0 v1 v2) a ≫= set_hex 0 (strtoll v3 16));
      mret (4, with_nhex 1 (with_naddrs 1 a))
  | _ => einval a
  end.

Definition parse_arg_addr_chk_val_hexval (argv : list string) (a : nvm_cli_cmd_args) : res :=
  match argv with
  | v0 :: v1 :: v2 :: v3 :: v4 :: _ =>
      a ← lift ((set_arg_addr 0 (addr_chk v0 v1 v2) a ≫= set_dec 0 (strtoll v3 10)) ≫= set_hex 0 (strtoll v4 16));
      mret (5, with_nhex 1 (with_ndec 1 (with_naddrs 1 a)))
  | _ => einval a
  end.

Definition parse_arg_addr_pg (argv : list string) (a : nvm_cli_cmd_args) : res :=
  match argv with
  | v0 :: v1 :: v2 :: v3 :: _ =>
      a ← lift (set_arg_addr 0 (set_g_pg (atoi v3) (addr_blk v0 v1 v2)) a); mret (4, with_naddrs 1 a)
  | _ => einval a
  end.

Definition parse_arg_addr_blk (argv : list string) (a : nvm_cli_cmd_args) : res :=
  match argv with
  | v0 :: v1 :: v2 :: _ => a ← lift (set_arg_addr 0 (addr_blk v0 v1 v2) a); mret (3, with_naddrs 1 a)
  | _ => einval a
  end.

Definition parse_arg_addr_lun (argv : list string) (a : nvm_cli_cmd_args) : res :=
  match argv with
  | v0 :: v1 :: _ => a ← lift (set_arg_addr 0 (addr_lun v0 v1) a); mret (2, with_naddrs 1 a)
  | _ => einval a
  end.

(** [arr[n++] = x] *)
Definition push_hex (x : Z) (a : nvm_cli_cmd_args) : option nvm_cli_cmd_args :=
  a' ← set_hex (nhex_vals a) x a; Some (with_nhex (nhex_vals a + 1) a').
Definition push_dec (x : Z) (a : nvm_cli_cmd_args) : option nvm_cli_cmd_args :=
  a' ← set_dec (ndec_vals a) x a; Some (with_ndec (ndec_vals a + 1) a').
Definition push_addr (x : nvm_addr) (a : nvm_cli_cmd_args) : option nvm_cli_cmd_args :=
  a' ← set_arg_addr (args_naddrs a) x a; Some (with_naddrs (args_naddrs a + 1) a').

Definition parse_arg_register (argv : list string) (a : nvm_cli_cmd_args) : res :=
  match argv with v0 :: _ => a ← lift (push_hex (strtoll v0 16) a); mret (1, a) | _ => einval a end.

Definition parse_arg_register_value (argv : list string) (a : nvm_cli_cmd_args) : res :=
  match argv with
  | v0 :: v1 :: _ => a ← lift (push_hex (strtoll v0 16) a ≫= push_hex (strtoll v1 16)); mret (1, a)
  | _ => einval a
  end.

(** An address in hexadecimal, as [uint64_t]. *)
Definition hex_addr (v : string) : nvm_addr := u64 (strtoll v 16).

Definition parse_arg_addr (argv : list string) (a : nvm_cli_cmd_args) : res :=
  match argv with v0 :: _ => a ← lift (push_addr (hex_addr v0) a); mret (1, a) | _ => einval a end.

(** The arguments before the first that begins with [-]. *)
Fixpoint positional (argv : list string) : list string :=
  match argv with
  | [] => []
  | String "-" _ :: _ => []
  | v :: argv => v :: positional argv
  end.

(** [for (i = 0; ...; ++i) arr[i] = f(argv[i])] *)
Fixpoint set_all {A} (set : Z -> A -> nvm_cli_cmd_args -> option nvm_cli_cmd_args) (i : Z) (l : list A)
    (a : nvm_cli_cmd_args) : option nvm_cli_cmd_args :=
  match l with [] => Some a | x :: l => a ← set i x a; set_all set (i + 1) l a end.

Definition parse_arg_addr_list (argv : list string) (a : nvm_cli_cmd_args) : res :=
  let l := positional argv in
  let n := Z.of_nat (length l) in
  a ← lift (set_all set_arg_addr 0 (hex_addr <$> l) a); mret (n, with_naddrs n a).

Definition parse_arg_addr_src_dst (argv : list string) (a : nvm_cli_cmd_args) : res :=
  match argv with
  | v0 :: v1 :: _ =>
      a ← lift (push_addr (hex_addr v0) a ≫= push_addr (hex_addr v1)); mret (2, with_naddrs 2 a)
  | _ => einval a
  end.

Definition parse_arg_decval (argv : list string) (a : nvm_cli_cmd_args) : res :=
  match argv with v0 :: _ => a ← lift (push_dec (atoi v0) a); mret (1, a) | _ => einval a end.

Definition parse_arg_decval_list (argv : list string) (a : nvm_cli_cmd_args) : res :=
  let l := positional argv in
  let n := Z.of_nat (length l) in
  a ← lift (set_all set_dec 0 (atoi <$> l) a); mret (n, with_ndec n a).

Definition parse_arg_decval_begin_end (argv : list string) (a : nvm_cli_cmd_args) : res :=
  match argv with
  | v0 :: v1 :: _ => a ← lift (set_dec 0 (atoi v0) a ≫= set_dec 1 (atoi v1)); mret (2, with_ndec 2 a)
  | _ => einval a
  end.

Definition parse_arg_hexval (argv : list string) (a : nvm_cli_cmd_args) : res :=
  match argv with v0 :: _ => a ← lift (push_hex (strtoll v0 16) a); mret (1, a) | _ => einval a end.

Definition parse_arg_hexval_list (argv : list string) (a : nvm_cli_cmd_args) : res :=
  let l := positional argv in
  let n := Z.of_nat (length l) in
  a ← lift (set_all set_hex 0 ((fun v => strtoll v 16) <$> l) a); mret (n, with_nhex n a).

Definition parse_arg_dev_path (argv : list string) (a : nvm_cli_cmd_args) : res :=
  match argv with
  | v0 :: _ =>
      if (strlen v0 <? 1) || (NVM_DEV_PATH_LEN <? strlen v0) then einval a else mret (1, with_dev_path v0 a)
  | _ => einval a
  end.

(** The parser of each type; [None] is a type without further arguments. *)
Definition arg_parser (t : nvm_cli_cmd_arg_type) : option (list string -> nvm_cli_cmd_args -> res) :=
  match t with
  | NVM_CLI_ARG_DECVAL => Some parse_arg_decval
  | NVM_CLI_ARG_DECVAL_LIST => Some parse_arg_decval_list
  | NVM_CLI_ARG_DECVAL_BEGIN_END => Some parse_arg_decval_begin_end
  | NVM_CLI_ARG_HEXVAL => Some parse_arg_hexval
  | NVM_CLI_ARG_HEXVAL_LIST => Some parse_arg_hexval_list
  | NVM_CLI_ARG_ADDR => Some parse_arg_addr
  | NVM_CLI_ARG_ADDR_LIST => Some parse_arg_addr_list
  | NVM_CLI_ARG_ADDR_SRC_DST => Some parse_arg_addr_src_dst
  | NVM_CLI_ARG_ADDR_LUN => Some parse_arg_addr_lun
  | NVM_CLI_ARG_ADDR_BLK => Some parse_arg_addr_blk
  | NVM_CLI_ARG_ADDR_PG => Some parse_arg_addr_pg
  | NVM_CLI_ARG_ADDR_SEC => Some parse_arg_addr_sec
  | NVM_CLI_ARG_ADDR_LUN_HEXVAL => Some parse_arg_addr_lun_hexval
  | NVM_CLI_ARG_ADDR_BLK_HEXVAL => Some parse_arg_addr_blk_hexval
  | NVM_CLI_ARG_ADDR_CHK_HEXVAL => Some parse_arg_addr_chk_hexval
  | NVM_CLI_ARG_ADDR_CHK_VAL_HEXVAL => Some parse_arg_addr_chk_val_hexval
  | NVM_CLI_ARG_VCOPY => Some parse_arg_vcopy
  | NVM_CLI_ARG_VCOPY_S20 => Some parse_arg_vcopy_s20
  | NVM_CLI_ARG_ADDR_S12 => Some parse_arg_addr_s12
  | NVM_CLI_ARG_ADDR_S20 => Some parse_arg_addr_s20
  | NVM_CLI_ARG_VBLK_LINE => Some parse_arg_vblk_line
  | NVM_CLI_ARG_VBLK_LINE_POS => Some parse_arg_vblk_line_pos
  | NVM_CLI_ARG_COUNT_OFFSET => Some parse_arg_count_offset
  | NVM_CLI_ARG_REGISTER => Some parse_arg_register
  | NVM_CLI_ARG_REGISTER_VALUE => Some parse_arg_register_value
  | NVM_CLI_ARG_DEV_PATH | NVM_CLI_ARG_NONE => None
  end.

Definition is_none (t : nvm_cli_cmd_arg_type) : bool := match t with NVM_CLI_ARG_NONE => true | _ => false end.

(** All commands but those of type [NVM_CLI_ARG_NONE] begin with the path. *)
Definition parse_args (t : nvm_cli_cmd_arg_type) (argv : list string) (a : nvm_cli_cmd_args) : res :=
  '(inc, a) ← (if is_none t then mret (0, a) else parse_arg_dev_path argv a);
  if inc <? 0 then mret (-1, a)
  else
    match arg_parser t with
    | None => mret (inc, a)
    | Some p =>
        '(ret, a) ← p (drop (Z.to_nat inc) argv) a;
        if ret <? 0 then mret (-1, a) else mret (inc + ret, a)
    end.
End parse.

(** ** Options *)

Definition with_mask (m : Z) (o : nvm_cli_opts) : nvm_cli_opts :=
  CliOpts (Z.lor (opt_mask o) m) (opt_help o) (opt_brief o) (opt_verbose o) (opt_terse o) (opt_status o) (opt_pfiles o)
    (file_input o) (file_output o) (dec_val o) (hex_val o).
Definition with_help (o : nvm_cli_opts) : nvm_cli_opts :=
  CliOpts (opt_mask o) 1 (opt_brief o) (opt_verbose o) (opt_terse o) (opt_status o) (opt_pfiles o)
    (file_input o) (file_output o) (dec_val o) (hex_val o).
Definition with_pfiles (l : list cli_pfile) (o : nvm_cli_opts) : nvm_cli_opts :=
  CliOpts (opt_mask o) (opt_help o) (opt_brief o) (opt_verbose o) (opt_terse o) (opt_status o) l
    (file_input o) (file_output o) (dec_val o) (hex_val o).

(** The path and the largest size of file [i]. *)
Definition set_pfile (i : nat) (path : option string) (n : Z) (o : nvm_cli_opts) : nvm_cli_opts :=
  with_pfiles (alter (fun p => CliPfile (pf_buf p) (pf_dup p) path n) i (opt_pfiles o)) o.

Definition PFILE_CMD : nat := 0.
Definition PFILE_META : nat := 1.
Definition PFILE_DATA : nat := 2.

(** The body of the switch on the answer of [getopt]; [None] is [return -1]. *)
Definition opt_step (ev : opt_event) (o : nvm_cli_opts) : option nvm_cli_opts :=
  match ev with
  | OptErr _ => None
  | Opt c arg =>
      let val := match arg with Some s => s | None => "" end in
      if Ascii.eqb c "h" then Some (with_help (with_mask NVM_CLI_OPT_HELP o))
      else if Ascii.eqb c "b" then
        let o := with_mask NVM_CLI_OPT_BRIEF o in
        Some (CliOpts (opt_mask o) (opt_help o) 1 (opt_verbose o) (opt_terse o) (opt_status o) (opt_pfiles o)
          (file_input o) (file_output o) (dec_val o) (hex_val o))
      else if Ascii.eqb c "v" then
        let o := with_mask NVM_CLI_OPT_VERBOSE o in
        Some (CliOpts (opt_mask o) (opt_help o) (opt_brief o) 1 (opt_terse o) (opt_status o) (opt_pfiles o)
          (file_input o) (file_output o) (dec_val o) (hex_val o))
      else if Ascii.eqb c "s" then
        let o := with_mask NVM_CLI_OPT_STATUS o in
        Some (CliOpts (opt_mask o) (opt_help o) (opt_brief o) (opt_verbose o) (opt_terse o) 1 (opt_pfiles o)
          (file_input o) (file_output o) (dec_val o) (hex_val o))
      else if Ascii.eqb c "t" then
        let o := with_mask NVM_CLI_OPT_TERSE o in
        Some (CliOpts (opt_mask o) (opt_help o) (opt_brief o) (opt_verbose o) 1 (opt_status o) (opt_pfiles o)
          (file_input o) (file_output o) (dec_val o) (hex_val o))
      else if Ascii.eqb c "c" then
        Some (set_pfile PFILE_CMD arg NVM_CLI_OPTS_PFILE_CMD_NBYTES (with_mask NVM_CLI_OPT_FILE_CMD o))
      else if Ascii.eqb c "m" then
        Some (set_pfile PFILE_META arg NVM_CLI_OPTS_PFILE_MAX_NBYTES (with_mask NVM_CLI_OPT_FILE_META o))
      else if Ascii.eqb c "d" then
        Some (set_pfile PFILE_DATA arg NVM_CLI_OPTS_PFILE_MAX_NBYTES (with_mask NVM_CLI_OPT_FILE_DATA o))
      else if Ascii.eqb c "i" then
        let o := with_mask NVM_CLI_OPT_FILE_INPUT o in
        Some (CliOpts (opt_mask o) (opt_help o) (opt_brief o) (opt_verbose o) (opt_terse o) (opt_status o) (opt_pfiles o)
          arg (file_output o) (dec_val o) (hex_val o))
      else if Ascii.eqb c "o" then
        let o := with_mask NVM_CLI_OPT_FILE_OUTPUT o in
        Some (CliOpts (opt_mask o) (opt_help o) (opt_brief o) (opt_verbose o) (opt_terse o) (opt_status o) (opt_pfiles o)
          (file_input o) arg (dec_val o) (hex_val o))
      else if Ascii.eqb c "n" then
        let o := with_mask NVM_CLI_OPT_VAL_DEC o in
        Some (CliOpts (opt_mask o) (opt_help o) (opt_brief o) (opt_verbose o) (opt_terse o) (opt_status o) (opt_pfiles o)
          (file_input o) (file_output o) (u64 (atoi val)) (hex_val o))
      else if Ascii.eqb c "x" then
        let o := with_mask NVM_CLI_OPT_VAL_HEX o in
        Some (CliOpts (opt_mask o) (opt_help o) (opt_brief o) (opt_verbose o) (opt_terse o) (opt_status o) (opt_pfiles o)
          (file_input o) (file_output o) (dec_val o) (u64 (strtoll val 16)))
      else Some o
  end.

Fixpoint opt_steps (l : list opt_event) (o : nvm_cli_opts) : bool * nvm_cli_opts :=
  match l with
  | [] => (true, o)
  | ev :: l => match opt_step ev o with Some o => opt_steps l o | None => (false, o) end
  end.

(** There is no [s] in the string: the status option is refused. *)
Definition cli_optstring : string := ":hbvc:m:d:ti:o:n:x:".

Definition parse_opts (argv : list string) (o : nvm_cli_opts) : Z * nvm_cli_opts :=
  let '(l, optind) := getopt argv cli_optstring in
  let '(ok, o) := opt_steps l o in
  (if ok : bool then optind else -1, o).

Definition help_is_wanted (argv : list string) : bool := existsb (fun v => String.eqb v "-h") argv.

(** ** The environment *)

Section cli.
Context {W : Type} (spdk : spdk_env W) (imps : list (nvm_be W)) (cmds : list (nvm_cli_cmd W)).
(** The variables of the environment, and the contents of the files. *)
Context (getenv : string -> option string) (read_file : string -> M W (option (list Z))).
Context (write_file : string -> list Z -> M W Z).

Definition evar_pmode (dev : nvm_dev) : M W (Z * Z) :=
  match getenv "NVM_CLI_PMODE" with
  | None => mret (0, nvm_dev_get_pmode dev)
  | Some s =>
      let x := strtoll s 16 in
      if x =? NVM_FLAG_PMODE_QUAD then
        if nplanes (geo dev) <? 4 then fail EINVAL (-1, 0) else mret (0, NVM_FLAG_PMODE_QUAD)
      else if x =? NVM_FLAG_PMODE_DUAL then
        if nplanes (geo dev) <? 2 then fail EINVAL (-1, 0) else mret (0, NVM_FLAG_PMODE_DUAL)
      else if x =? NVM_FLAG_PMODE_SNGL then mret (0, NVM_FLAG_PMODE_SNGL)
      else fail EINVAL (-1, 0)
  end.

Definition evar_noverify : Z := match getenv "NVM_CLI_NOVERIFY" with Some _ => 1 | None => 0 end.
Definition evar_meta_pr : Z := match getenv "NVM_CLI_META_PR" with Some _ => 1 | None => 0 end.

(** [atoi] of the variable, or the value of the device. *)
Definition evar_num (var : string) (def : Z) : Z := match getenv var with None => def | Some s => atoi s end.

Definition evar_erase_naddrs_max (dev : nvm_dev) : Z :=
  evar_num "NVM_CLI_ERASE_NADDRS_MAX" (nvm_dev_get_erase_naddrs_max dev).
Definition evar_write_naddrs_max (dev : nvm_dev) : Z :=
  evar_num "NVM_CLI_WRITE_NADDRS_MAX" (nvm_dev_get_write_naddrs_max dev).
Definition evar_read_naddrs_max (dev : nvm_dev) : Z :=
  evar_num "NVM_CLI_READ_NADDRS_MAX" (nvm_dev_get_read_naddrs_max dev).

Definition evar_meta_mode (dev : nvm_dev) : M W (Z * Z) :=
  match getenv "NVM_CLI_META_MODE" with
  | None => mret (0, nvm_dev_get_meta_mode dev)
  | Some s =>
      let x := strtoll s 16 in
      if x =? NVM_META_MODE_NONE then mret (0, NVM_META_MODE_NONE)
      else if x =? NVM_META_MODE_ALPHA then mret (0, NVM_META_MODE_ALPHA)
      else if x =? NVM_META_MODE_CONST then mret (0, NVM_META_MODE_CONST)
      else fail EINVAL (-1, 0)
  end.

(** Options of an [int]; without the variable those of the structure. *)
Definition evar_cmd_opts (def : Z) : Z := match getenv "NVM_CLI_CMD_OPTS" with Some s => i32 (strtoll s 16) | None => def end.

Definition with_cli_dev (d : option (Z * Z * nvm_dev)) (cli : nvm_cli) : nvm_cli :=
  Cli (cli_name cli) (cli_cmd cli) (cli_args cli) d (cli_opts cli) (cli_evars cli).
Definition with_cli_evars (e : nvm_cli_evars) (cli : nvm_cli) : nvm_cli :=
  Cli (cli_name cli) (cli_cmd cli) (cli_args cli) (cli_dev cli) (cli_opts cli) e.
Definition with_cli_opts (o : nvm_cli_opts) (cli : nvm_cli) : nvm_cli :=
  Cli (cli_name cli) (cli_cmd cli) (cli_args cli) (cli_dev cli) o (cli_evars cli).
Definition with_cli_args (a : nvm_cli_cmd_args) (cli : nvm_cli) : nvm_cli :=
  Cli (cli_name cli) (cli_cmd cli) a (cli_dev cli) (cli_opts cli) (cli_evars cli).

(** The settings of the device, each read and set in turn; the first that is
    refused ends them. *)
Definition evars_setup (ev : nvm_cli_evars) (dev : nvm_dev) : M W (bool * nvm_cli_evars * nvm_dev) :=
  '(e1, pm) ← evar_pmode dev;
  if e1 <? 0 then mret (false, ev, dev)
  else
    '(err, dev) ← nvm_dev_set_pmode dev pm;
    let ev := CliEvars pm (ev_meta_mode ev) (ev_noverify ev) (ev_erase_naddrs_max ev) (ev_read_naddrs_max ev)
                (ev_write_naddrs_max ev) (ev_meta_pr ev) (ev_cmd_opts ev) in
    if negb (err =? 0) then mret (false, ev, dev)
    else
      '(e2, mm) ← evar_meta_mode dev;
      if e2 <? 0 then mret (false, ev, dev)
      else
        '(err, dev) ← nvm_dev_set_meta_mode dev mm;
        let en := evar_erase_naddrs_max dev in
        let ev := CliEvars pm mm (ev_noverify ev) (ev_erase_naddrs_max ev) (ev_read_naddrs_max ev)
                    (ev_write_naddrs_max ev) (ev_meta_pr ev) (ev_cmd_opts ev) in
        if negb (err =? 0) then mret (false, ev, dev)
        else
          '(err, dev) ← nvm_dev_set_erase_naddrs_max dev en;
          let wn := evar_write_naddrs_max dev in
          let ev := CliEvars pm mm (ev_noverify ev) en (ev_read_naddrs_max ev) (ev_write_naddrs_max ev) (ev_meta_pr ev)
                      (ev_cmd_opts ev) in
          if negb (err =? 0) then mret (false, ev, dev)
          else
            '(err, dev) ← nvm_dev_set_write_naddrs_max dev wn;
            let rn := evar_read_naddrs_max dev in
            let ev := CliEvars pm mm (ev_noverify ev) en (ev_read_naddrs_max ev) wn (ev_meta_pr ev) (ev_cmd_opts ev) in
            if negb (err =? 0) then mret (false, ev, dev)
            else
              '(err, dev) ← nvm_dev_set_read_naddrs_max dev rn;
              let ev := CliEvars pm mm (ev_noverify ev) en rn wn (ev_meta_pr ev) (ev_cmd_opts ev) in
              if negb (err =? 0) then mret (false, ev, dev)
              else mret (true, CliEvars pm mm evar_noverify en rn wn evar_meta_pr (ev_cmd_opts ev), dev).

(** [inr] is an address outside the device. *)
Definition check_addrs (addrs : list nvm_addr) (naddrs : Z) (dev : nvm_dev) : M W (unit + unit) :=
  if Z.of_nat (length addrs) <? naddrs then crash
  else
    mfold_ret (fun a _ =>
      bounds ← nvm_addr_check a dev;
      if negb (bounds =? 0) then fail EINVAL (inr tt) else mret (inl tt)) (take (Z.to_nat naddrs) addrs) tt.

Definition evar_and_dev_setup (t : nvm_cli_cmd_arg_type) (cli : nvm_cli) : M W (Z * nvm_cli) :=
  let ev := cli_evars cli in
  let ev := CliEvars (ev_pmode ev) (ev_meta_mode ev) (ev_noverify ev) (ev_erase_naddrs_max ev) (ev_read_naddrs_max ev)
              (ev_write_naddrs_max ev) (ev_meta_pr ev) (evar_cmd_opts (ev_cmd_opts ev)) in
  let cli := with_cli_evars ev cli in
  if is_none t then mret (0, cli)
  else
    o ← nvm_dev_openf imps (getenv "NVM_BE") (dev_path (cli_args cli)) (ev_cmd_opts ev);
    let cli := with_cli_dev o cli in
    match o with
    | None => mret (-1, cli)
    | Some (d, arr, dev) =>
        '(ok, ev, dev) ← evars_setup ev dev;
        let cli := with_cli_dev (Some (d, arr, dev)) (with_cli_evars ev cli) in
        if negb ok then mret (-1, cli)
        else if negb (ev_noverify ev =? 0) then mret (0, cli)
        else
          r ← check_addrs (args_addrs (cli_args cli)) (args_naddrs (cli_args cli)) dev;
          match r with inl _ => mret (0, cli) | inr _ => mret (-1, cli) end
    end.

(** ** Files passed through *)

Definition nvm_cli_opts_pfile_unload (dev : nvm_dev) (o : nvm_cli_opts) : M W unit :=
  mfold (fun p _ => _ ← nvm_buf_free spdk dev (pf_buf p).1; nvm_buf_free spdk dev (pf_dup p).1) (opt_pfiles o) tt.

(** [fread(buf, 1, 4096, f)] until the file is read: every call stores at the
    beginning of the buffer, and is undefined past its end. *)
Fixpoint pfile_read (fuel : nat) (file buf : list Z) : option (list Z) :=
  match file, fuel with
  | [], _ => Some buf
  | _, O => None
  | _, S fuel =>
      let c := take (Z.to_nat 4096) file in
      if (length buf <? length c)%nat then None
      else pfile_read fuel (drop (Z.to_nat 4096) file) (c ++ drop (length c) buf)
  end.

Definition pfile_to_buf (fname : option string) (buf : list Z) (max_fsize : Z) : M W (Z * list Z) :=
  name ← lift fname;
  f ← read_file name;
  match f with
  | None => mret (-1, buf)
  | Some file =>
      let n := Z.of_nat (length file) in
      if max_fsize <? n then fail EINVAL (-1, buf)
      else buf ← lift (pfile_read (length file) file buf); mret (n, buf)
  end.

(** One file: the status, and the file as it is then. *)
Definition pfile_load_one (dev : nvm_dev) (p : cli_pfile) : M W (bool * cli_pfile) :=
  if pf_nbytes p =? 0 then mret (true, p)
  else
    d ← nvm_buf_alloc spdk dev (pf_nbytes p);
    if d =? 0 then mret (false, CliPfile (pf_buf p) (0, []) (pf_path p) (pf_nbytes p))
    else
      '(n, dup) ← pfile_to_buf (pf_path p) (replicate (Z.to_nat (pf_nbytes p)) 0) (pf_nbytes p);
      if n <? 0 then mret (false, CliPfile (pf_buf p) (d, dup) (pf_path p) (pf_nbytes p))
      else
        b ← nvm_buf_alloc spdk dev n;
        if b =? 0 then mret (false, CliPfile (0, []) (d, dup) (pf_path p) n)
        else mret (true, CliPfile (b, take (Z.to_nat n) dup) (d, dup) (pf_path p) n).

(** The loop over the files from [i] on; a failure releases the buffers of
    all of them. *)
Fixpoint pfile_load_from (dev : nvm_dev) (n i : nat) (o : nvm_cli_opts) : M W (Z * nvm_cli_opts) :=
  match n with
  | O => mret (0, o)
  | S n =>
      p ← lift (opt_pfiles o !! i);
      '(ok, p) ← pfile_load_one dev p;
      let o := with_pfiles (<[i := p]> (opt_pfiles o)) o in
      if ok : bool then pfile_load_from dev n (S i) o
      else _ ← nvm_cli_opts_pfile_unload dev o; mret (-1, o)
  end.

(** Without a device a file to load is a use of [NULL]. *)
Definition nvm_cli_opts_pfile_load (cli : nvm_cli) : M W (Z * nvm_cli) :=
  match cli_dev cli with
  | Some (_, _, dev) =>
      '(err, o) ← pfile_load_from dev 3 0 (cli_opts cli); mret (err, with_cli_opts o cli)
  | None => if forallb (fun p => pf_nbytes p =? 0) (opt_pfiles (cli_opts cli)) then mret (0, cli) else crash
  end.

(** The files whose buffer changed are written. *)
Definition nvm_cli_opts_pfile_dump (cli : nvm_cli) : M W Z :=
  r ← mfold_ret (fun p _ =>
        if ((pf_buf p).1 =? 0) || ((pf_dup p).1 =? 0) || (pf_nbytes p =? 0) then mret (inl tt)
        else
          diff ← lift (nvm_buf_diff (Z.to_nat (pf_nbytes p)) (pf_buf p).2 (pf_dup p).2);
          if diff =? 0 then mret (inl tt)
          else
            name ← lift (pf_path p);
            fcount ← write_file name (take (Z.to_nat (pf_nbytes p)) (pf_buf p).2);
            err ← buf_file_status fcount (pf_nbytes p);
            if negb (err =? 0) then mret (inr tt) else mret (inl tt)) (opt_pfiles (cli_opts cli)) tt;
  match r with inl _ => mret 0 | inr _ => mret (-1) end.

(** ** The tool *)

(** [strcpy] into an array of [NVM_CLI_CMD_LEN] bytes. *)
Definition parse_cli_name (argv : list string) (cli : nvm_cli) : M W (Z * nvm_cli) :=
  match argv with
  | [] => fail EINVAL (-1, cli)
  | v :: _ =>
      if NVM_CLI_CMD_LEN <=? strlen v then crash
      else mret (1, Cli v (cli_cmd cli) (cli_args cli) (cli_dev cli) (cli_opts cli) (cli_evars cli))
  end.

Fixpoint find_cmd (name : string) (i : nat) (l : list (nvm_cli_cmd W)) : option nat :=
  match l with
  | [] => None
  | c :: l => if String.eqb name (cmd_name c) then Some i else find_cmd name (S i) l
  end.

Definition parse (argv : list string) (cli : nvm_cli) : M W (Z * nvm_cli) :=
  match argv with
  | [] => fail EINVAL (-1, cli)
  | v :: _ =>
      match find_cmd v 0 cmds with
      | Some i => mret (1, Cli (cli_name cli) i (cli_args cli) (cli_dev cli) (cli_opts cli) (cli_evars cli))
      | None => fail EINVAL (-1, cli)
      end
  end.

Definition close_dev (cli : nvm_cli) : M W unit :=
  match cli_dev cli with
  | None => mret tt
  | Some (d, arr, dev) => be ← lift (dev_be imps dev); nvm_dev_close be d arr (Some dev)
  end.

(** [goto]-less error path: the device is closed when there is one. *)
Definition init_failed (cli : nvm_cli) : M W (Z * nvm_cli) := _ ← close_dev cli; fail EINVAL (-1, cli).

Definition nvm_cli_init (cli : nvm_cli) (argv : list string) : M W (Z * nvm_cli) :=
  '(ret, cli) ← parse_cli_name argv cli;
  if ret <? 0 then fail EINVAL (-1, cli)
  else if (length argv =? 1)%nat || help_is_wanted argv then mret (0, with_cli_opts (with_help (cli_opts cli)) cli)
  else
    let argv := drop 1 argv in
    '(ret, cli) ← parse argv cli;
    if ret <? 0 then fail EINVAL (-1, cli)
    else
      let argv := drop 1 argv in
      cmd ← lift (cmds !! cli_cmd cli);
      '(ret, args) ← parse_args (arg_type cmd) argv (cli_args cli);
      let cli := with_cli_args args cli in
      if ret <? 0 then fail EINVAL (-1, cli)
      else
        let '(ret, o) := parse_opts argv (cli_opts cli) in
        let cli := with_cli_opts o cli in
        if ret <? 0 then fail EINVAL (-1, cli)
        else
          '(ret, cli) ← evar_and_dev_setup (arg_type cmd) cli;
          if ret <? 0 then init_failed cli
          else
            '(ret, cli) ← nvm_cli_opts_pfile_load cli;
            if negb (ret =? 0) then init_failed cli else mret (0, cli).

(** Printing the usage is output only. *)
Definition nvm_cli_run (cli : option nvm_cli) : M W (Z * option nvm_cli) :=
  match cli with
  | None => fail EINVAL (-1, None)
  | Some cli =>
      if negb (opt_help (cli_opts cli) =? 0) then mret (0, Some cli)
      else
        cmd ← lift (cmds !! cli_cmd cli);
        '(res, cli) ← cmd_func cmd cli;
        mret (if res =? 0 then 0 else 1, Some cli)
  end.

Definition nvm_cli_destroy (cli : option nvm_cli) : M W unit :=
  match cli with
  | None => mret tt
  | Some cli =>
      _ ← (match cli_dev cli with
           | Some (_, _, dev) => nvm_cli_opts_pfile_unload dev (cli_opts cli)
           | None => mret tt
           end);
      close_dev cli
  end.
End cli.
