(* ===== verification/CliSpec.v ===== *)
(** The command line: addresses and options come out of it as they were
    written, and files come into memory as they are up to 4096 bytes. *)
From Stdlib Require Import Ascii String.
From stdpp Require Import base numbers strings gmap option list.
From S2P Require Import Prelude Types Clib Nvme Addr Dev Backend Buf Be Cmd Bbt Open Cli.

(** ** Writing numbers *)

Definition digit_char (d : Z) : ascii := ascii_of_N (Z.to_N (if d <? 10 then 48 + d else 87 + d)).

(** The digits of [x] before those of [s]. *)
Fixpoint show_go (base : Z) (fuel : nat) (x : Z) (s : string) : string :=
  match fuel with
  | O => s
  | S fuel =>
      let s := String (digit_char (x mod base)) s in
      if x / base =? 0 then s else show_go base fuel (x / base) s
  end.

(** A number below 2^64, in at most 64 digits. *)
Definition show (base x : Z) : string := show_go base 64 x "".
Definition dec (x : Z) : string := show 10 x.
Definition hex (x : Z) : string := String "0" (String "x" (show 16 x)).

Lemma digit_digit_char d : 0 <= d < 36 -> digit (digit_char d) = Some d.
Proof.
  intros Hd. assert (H : Forall (fun d => digit (digit_char d) = Some d) (seqZ 0 36))
    by (apply (bool_decide_eq_true_1 _); by vm_compute).
  rewrite Forall_forall in H. apply H, elem_of_seqZ. lia.
Qed.

Lemma digits_step base acc d s : 0 <= d < base -> base <= 36 ->
  digits base acc (String (digit_char d) s) = digits base (acc * base + d) s.
Proof. intros Hd Hb. cbn. rewrite digit_digit_char by lia. by rewrite (proj2 (Z.ltb_lt d base)) by lia. Qed.

Lemma digits_show_go base fuel x s : 2 <= base <= 36 -> 0 <= x < base ^ Z.of_nat fuel -> (0 < fuel)%nat ->
  digits base 0 (show_go base fuel x s) = digits base x s.
Proof.
  intros Hb. revert x s. induction fuel as [|fuel IH]; intros x s Hx Hf; [lia|]. cbn [show_go].
  pose proof (Z.mod_pos_bound x base ltac:(lia)) as Hm. pose proof (Z.div_mod x base ltac:(lia)) as E.
  destruct (Z.eqb_spec (x / base) 0) as [E0|E0].
  - rewrite digits_step by lia. f_equal. lia.
  - assert (Hq : 0 < x / base) by (pose proof (Z.div_pos x base ltac:(lia) ltac:(lia)); lia).
    rewrite Nat2Z.inj_succ, Z.pow_succ_r in Hx by lia.
    assert (x / base < base ^ Z.of_nat fuel) by (apply Z.div_lt_upper_bound; lia).
    destruct fuel as [|fuel]; [cbn in *; lia|]. rewrite IH by lia. rewrite digits_step by lia. f_equal. lia.
Qed.

Lemma digits_show base x : 2 <= base <= 36 -> 0 <= x < 2 ^ 64 -> digits base 0 (show base x) = x.
Proof.
  intros Hb Hx. unfold show. rewrite digits_show_go; [done|done| |lia].
  split; [lia|]. eapply Z.lt_le_trans; [apply Hx|]. apply Z.pow_le_mono_l. lia.
Qed.

(** Written numbers begin with a digit. *)
Lemma show_go_head base fuel x s : 2 <= base <= 36 -> (0 < fuel)%nat ->
  exists d t, 0 <= d < base /\ show_go base fuel x s = String (digit_char d) t.
Proof.
  intros Hb. revert x s. induction fuel as [|fuel IH]; intros x s Hf; [lia|]. cbn [show_go].
  pose proof (Z.mod_pos_bound x base ltac:(lia)) as Hm.
  destruct (x / base =? 0); [by eexists _, _|]. destruct fuel as [|fuel]; [by eexists _, _|]. apply IH. lia.
Qed.

Lemma skip_0x_10 s : skip_0x 10 s = s.
Proof. destruct s as [|[[] [] [] [] [] [] [] []] [|x s]]; done. Qed.

Lemma strtoll_digits d t : 0 <= d < 36 ->
  strtoll (String (digit_char d) t) 10 = clamp (digits 10 0 (String (digit_char d) t)).
Proof.
  intros Hd.
  assert (H : Forall (fun d => isspace (digit_char d) = false /\ digit_char d <> "-"%char /\ digit_char d <> "+"%char) (seqZ 0 36))
    by (apply (bool_decide_eq_true_1 _); by vm_compute).
  rewrite Forall_forall in H. destruct (H d ltac:(apply elem_of_seqZ; lia)) as (H1 & H2 & H3).
  unfold strtoll. cbn [skip_space]. rewrite H1.
  destruct (digit_char d) as [[] [] [] [] [] [] [] []]; try done; by rewrite skip_0x_10.
Qed.

Lemma clamp_id x : 0 <= x < 2 ^ 63 -> clamp x = x.
Proof. unfold clamp, LLONG_MAX, LLONG_MIN. lia. Qed.

Lemma atol_dec x : 0 <= x < 2 ^ 63 -> atol (dec x) = x.
Proof.
  intros Hx. unfold atol, dec, show. destruct (show_go_head 10 64 x "") as (d & t & Hd & E); [lia|lia|].
  rewrite E, strtoll_digits, <-E by lia. fold (show 10 x). rewrite digits_show by lia. by apply clamp_id.
Qed.

(** [atoi] is the value up to the width of the field it goes to. *)
Lemma atoi_dec x : 0 <= x < 2 ^ 63 -> atoi (dec x) = i32 x.
Proof. intros Hx. unfold atoi. fold (atol (dec x)). by rewrite atol_dec. Qed.

Lemma strtoll_hex x : 0 <= x < 2 ^ 64 -> strtoll (hex x) 16 = Z.min (2 ^ 63 - 1) x.
Proof.
  intros Hx. unfold strtoll, hex. cbn [skip_space]. change (isspace "0") with false. cbn iota. cbn [skip_0x].
  change ((16 =? 16) && (Ascii.eqb "x" "x" || Ascii.eqb "x" "X")) with true. cbn iota.
  rewrite (digits_show 16 x) by lia. unfold clamp, LLONG_MAX, LLONG_MIN. lia.
Qed.

(** ** Positional arguments *)

Lemma bf_set_i32 off w v x : 0 <= w <= 32 -> bf_set off w v (i32 x) = bf_set off w v x.
Proof.
  intros Hw. rewrite <-(bf_set_mod off w v (i32 x)), <-(bf_set_mod off w v x) by lia. f_equal.
  assert (E : 2 ^ 32 = 2 ^ (32 - w) * 2 ^ w) by (rewrite <-Z.pow_add_r by lia; f_equal; lia).
  assert (Ei : i32 x = x + - (2 ^ (32 - w) * ((x + 2 ^ 31) / 2 ^ 32)) * 2 ^ w).
  { unfold i32. rewrite Z.mod_eq by lia. rewrite E at 1. ring. }
  rewrite Ei, Z.mod_add by lia. done.
Qed.

(** A field from its decimal coordinate. *)
Lemma bf_set_atoi off w v x : 0 <= w <= 32 -> 0 <= x < 2 ^ w -> bf_set off w v (atoi (dec x)) = bf_set off w v x.
Proof.
  intros Hw Hx. assert (2 ^ w <= 2 ^ 32) by (apply Z.pow_le_mono_r; lia).
  rewrite atoi_dec by lia. by apply bf_set_i32.
Qed.

(** The fields of an address assigned from themselves, in decimal. *)
Ltac fields_back ext := unfold addr_chk, addr_blk, addr_lun; addr_unfold; rewrite !bf_set_atoi by lia;
  apply ext; [addr_wf|done|..]; addr_unfold; rewrite ?bf_get_set_ne, bf_get_set, wrap_id by lia; done.

Lemma addr_s20_back a : addr_ok a ->
  set_l_sectr (atoi (dec (l_sectr a))) (addr_chk (dec (l_pugrp a)) (dec (l_punit a)) (dec (l_chunk a))) = a.
Proof. intros Ha. destruct (l_fields_range a) as (R1 & R2 & R3 & R4). fields_back addr_ext_l. Qed.

Lemma addr_s12_back a : addr_ok a ->
  set_g_sec (atoi (dec (g_sec a))) (set_g_pg (atoi (dec (g_pg a))) (set_g_pl (atoi (dec (g_pl a)))
    (addr_blk (dec (g_ch a)) (dec (g_lun a)) (dec (g_blk a))))) = a.
Proof. intros Ha. destruct (g_fields_range a) as ((R1 & R2 & R3) & R4 & R5 & R6). fields_back addr_ext_g. Qed.

Lemma addr_sec_back a : addr_ok a ->
  set_g_sec (atoi (dec (g_sec a))) (set_g_pg (atoi (dec (g_pg a))) (set_g_blk (atoi (dec (g_blk a)))
    (set_g_pl (atoi (dec (g_pl a))) (addr_lun (dec (g_ch a)) (dec (g_lun a)))))) = a.
Proof. intros Ha. destruct (g_fields_range a) as ((R1 & R2 & R3) & R4 & R5 & R6). fields_back addr_ext_g. Qed.

(** The arrays of arguments have their lengths. *)
Definition args_ok (a : nvm_cli_cmd_args) : Prop :=
  length (args_addrs a) = ARGS_MAX /\ length (dec_vals a) = ARGS_MAX /\ length (hex_vals a) = ARGS_MAX.

Definition path_ok (path : string) : Prop := 1 <= strlen path <= NVM_DEV_PATH_LEN.

Lemma parse_path {W} t p path argv a (s : sys W) : path_ok path -> is_none t = false -> arg_parser t = Some p ->
  parse_args t (path :: argv) a s =
  ('(ret, a) ← p argv (with_dev_path path a); if ret <? 0 then mret (-1, a) else mret (1 + ret, a)) s.
Proof.
  intros [H1 H2] Ht Hp. unfold parse_args, parse_arg_dev_path, mbind, M_bind. rewrite Ht.
  rewrite (proj2 (Z.ltb_ge _ _) H1), (proj2 (Z.ltb_ge _ _) H2). cbn. by rewrite Hp.
Qed.

Lemma set_at_in {A} (l : list A) i x : 0 <= i < Z.of_nat (length l) -> set_at l i x = Some (<[Z.to_nat i := x]> l).
Proof. intros Hi. unfold set_at. by rewrite (proj2 (Z.leb_le _ _)), (proj2 (Z.ltb_lt _ _)) by lia. Qed.

Lemma set_at_out {A} (l : list A) i x : Z.of_nat (length l) <= i -> set_at l i x = None.
Proof. intros Hi. unfold set_at. by rewrite (proj2 (Z.ltb_ge _ _)), andb_false_r by lia. Qed.

Lemma set_arg_addr_in a i x : args_ok a -> 0 <= i < Z.of_nat ARGS_MAX ->
  set_arg_addr i x a = Some (CliArgs (dev_path a) (<[Z.to_nat i := x]> (args_addrs a)) (args_naddrs a) (dec_vals a)
    (ndec_vals a) (hex_vals a) (nhex_vals a)).
Proof. intros (H & _) Hi. unfold set_arg_addr. by rewrite set_at_in by (by rewrite H). Qed.

(** The addresses [l] stored from index [i] on. *)
Lemma set_all_addrs l : forall i a, args_ok a -> 0 <= i -> i + Z.of_nat (length l) <= Z.of_nat ARGS_MAX ->
  exists a', set_all set_arg_addr i l a = Some a' /\ args_ok a' /\ dev_path a' = dev_path a /\
    take (Z.to_nat i) (args_addrs a') = take (Z.to_nat i) (args_addrs a) /\
    take (length l) (drop (Z.to_nat i) (args_addrs a')) = l.
Proof.
  induction l as [|x l IH]; intros i a Ha Hi Hl; cbn [set_all length] in *.
  { exists a. split; [done|]. split; [done|]. split; [done|]. split; [done|]. by rewrite take_0. }
  rewrite set_arg_addr_in by (done || lia). cbn [mbind option_bind].
  assert (Ha1 : args_ok (CliArgs (dev_path a) (<[Z.to_nat i := x]> (args_addrs a)) (args_naddrs a) (dec_vals a)
    (ndec_vals a) (hex_vals a) (nhex_vals a))) by (destruct Ha as (H1 & H2 & H3); split; [cbn; by rewrite length_insert|done]).
  destruct (IH (i + 1) _ Ha1 ltac:(lia) ltac:(lia)) as (a' & E & Hok & Hp & Ht & Hd). exists a'.
  split; [exact E|]. split; [done|]. split; [done|]. cbn [args_addrs] in Ht.
  rewrite Z2Nat.inj_add, Nat.add_1_r in Ht, Hd by lia. destruct Ha as (Hlen & _).
  assert (Hin : args_addrs a' !! Z.to_nat i = Some x).
  { rewrite <-(lookup_take_lt _ (S (Z.to_nat i))), Ht, lookup_take_lt by lia. apply list_lookup_insert_eq. lia. }
  split.
  - apply (f_equal (take (Z.to_nat i))) in Ht. rewrite !take_take, Nat.min_l in Ht by lia. by rewrite Ht, take_insert_ge by lia.
  - rewrite (drop_S _ x) by done. cbn [take]. by rewrite Hd.
Qed.

Lemma set_all_overflow l : forall i a, args_ok a -> 0 <= i <= Z.of_nat ARGS_MAX -> Z.of_nat ARGS_MAX < i + Z.of_nat (length l) ->
  set_all set_arg_addr i l a = None.
Proof.
  induction l as [|x l IH]; intros i a Ha Hi Hl; cbn [set_all length] in *; [lia|].
  destruct (decide (i = Z.of_nat ARGS_MAX)) as [->|Hne].
  - unfold set_arg_addr. destruct Ha as (Hlen & _). by rewrite set_at_out by (by rewrite Hlen).
  - rewrite set_arg_addr_in by (done || lia). cbn [mbind option_bind]. apply IH; [|lia|lia].
    destruct Ha as (H1 & H2 & H3). split; [cbn; by rewrite length_insert|done].
Qed.

Lemma positional_hex l : positional (hex <$> l) = hex <$> l.
Proof. induction l as [|x l IH]; [done|]. cbn. by rewrite IH. Qed.

Lemma hex_addr_hex a : addr_ok a -> hex_addr (hex a) = Z.min (2 ^ 63 - 1) a.
Proof. intros Ha. unfold hex_addr. rewrite strtoll_hex by exact Ha. unfold addr_ok in Ha. apply wrap_id. lia. Qed.

(** A parser that stores one address first. *)
Lemma parse_first {W} t p path argv args (s : sys W) n a : path_ok path -> args_ok args -> is_none t = false ->
  arg_parser t = Some p -> 0 <= n ->
  p argv (with_dev_path path args) s =
    (b ← lift (set_arg_addr 0 a (with_dev_path path args)); mret (n, with_naddrs 1 b)) s ->
  exists args', parse_args t (path :: argv) args s = Some ((1 + n, args'), s) /\
    dev_path args' = path /\ args_naddrs args' = 1 /\ take 1 (args_addrs args') = [a].
Proof.
  intros Hpath Hok Ht Hp Hn E. pose proof (parse_path t p path argv args s Hpath Ht Hp) as Ep.
  unfold mbind, M_bind in *. rewrite E, set_arg_addr_in in Ep by done. cbn [lift] in Ep. unfold mret, M_ret in Ep.
  rewrite (proj2 (Z.ltb_ge n 0) Hn) in Ep. eexists. split; [exact Ep|]. split; [done|]. split; [done|].
  cbn. destruct Hok as (Hlen & _). by destruct (args_addrs args) as [|x l].
Qed.

(** ** Properties *)

(** C32: an address comes out of the command line as it was written: by its
    coordinates in decimal, in the orders of the three argument types, or as a
    word in hexadecimal, alone or in a list of up to 1024 addresses. A word of
    2^63 or more is cut to 2^63 - 1, and a longer list is written past the end
    of the array. *)
Theorem cli_addr_roundtrip {W} (path : string) (args : nvm_cli_cmd_args) (s : sys W)
    (Hpath : path_ok path) (Hargs : args_ok args) (Hn : args_naddrs args = 0) :
  let parsed t argv l := exists args',
    parse_args t (path :: argv) args s = Some ((1 + Z.of_nat (length argv), args'), s) /\
    dev_path args' = path /\ args_naddrs args' = Z.of_nat (length l) /\ take (length l) (args_addrs args') = l in
  let cut (a : nvm_addr) : nvm_addr := Z.min (2 ^ 63 - 1) a in
  (forall a, addr_ok a ->
     parsed NVM_CLI_ARG_ADDR_S20 [dec (l_pugrp a); dec (l_punit a); dec (l_chunk a); dec (l_sectr a)] [a] /\
     parsed NVM_CLI_ARG_ADDR_S12 [dec (g_ch a); dec (g_lun a); dec (g_blk a); dec (g_pl a); dec (g_pg a); dec (g_sec a)] [a] /\
     parsed NVM_CLI_ARG_ADDR_SEC [dec (g_ch a); dec (g_lun a); dec (g_pl a); dec (g_blk a); dec (g_pg a); dec (g_sec a)] [a] /\
     parsed NVM_CLI_ARG_ADDR [hex a] [cut a]) /\
  (forall l, Forall addr_ok l -> (length l <= ARGS_MAX)%nat -> parsed NVM_CLI_ARG_ADDR_LIST (hex <$> l) (cut <$> l)) /\
  (forall l, (ARGS_MAX < length l)%nat -> parse_args NVM_CLI_ARG_ADDR_LIST (path :: (hex <$> l)) args s = None).
Proof.
  intros parsed cut. split; [|split].
  - intros a Ha. repeat split.
    + apply (parse_first _ parse_arg_addr_s20 _ _ _ _ 4); try done. unfold parse_arg_addr_s20. cbv iota. by rewrite addr_s20_back.
    + apply (parse_first _ parse_arg_addr_s12 _ _ _ _ 6); try done. unfold parse_arg_addr_s12. cbv iota. by rewrite addr_s12_back.
    + apply (parse_first _ parse_arg_addr_sec _ _ _ _ 6); try done. unfold parse_arg_addr_sec. cbv iota. by rewrite addr_sec_back.
    + apply (parse_first _ parse_arg_addr _ _ _ _ 1); try done. unfold parse_arg_addr, push_addr. cbn [args_naddrs with_dev_path].
      rewrite Hn, hex_addr_hex by done. unfold cut. by destruct (set_arg_addr 0 _ _).
  - intros l Hl Hmax. unfold parsed. rewrite (parse_path _ parse_arg_addr_list) by done.
    unfold parse_arg_addr_list. rewrite positional_hex, <-list_fmap_compose.
    assert (E : (hex_addr ∘ hex) <$> l = cut <$> l).
    { apply list_fmap_ext. intros i x Hx. apply hex_addr_hex. by eapply Forall_lookup_1. }
    rewrite E. destruct (set_all_addrs (cut <$> l) 0 (with_dev_path path args) Hargs ltac:(lia)) as (b & Eb & _ & Hp & _ & Hd).
    { rewrite length_fmap. lia. }
    unfold mbind, M_bind. rewrite Eb. unfold lift, mret, M_ret. rewrite (proj2 (Z.ltb_ge _ 0)) by (rewrite length_fmap; lia).
    eexists. split; [done|]. rewrite !length_fmap in *. split; [exact Hp|]. by split.
  - intros l Hl. rewrite (parse_path _ parse_arg_addr_list) by done. unfold parse_arg_addr_list, mbind, M_bind.
    rewrite positional_hex. rewrite (set_all_overflow _ 0); [done|done|unfold ARGS_MAX; lia|]. rewrite !length_fmap. lia.
Qed.

(** ** Files *)

Lemma pfile_read_spec fuel : forall file buf, (length file <= fuel)%nat ->
  (length file `min` Z.to_nat 4096 <= length buf)%nat ->
  exists buf', pfile_read fuel file buf = Some buf' /\ length buf' = length buf /\
    drop (Z.to_nat 4096) buf' = drop (Z.to_nat 4096) buf /\
    ((length file <= Z.to_nat 4096)%nat -> buf' = file ++ drop (length file) buf).
Proof.
  induction fuel as [|fuel IH]; intros file buf Hf Hb.
  { destruct file; [|cbn in Hf; lia]. exists buf. cbn. by split. }
  destruct file as [|x file]; [exists buf; cbn; by split|].
  remember (x :: file) as l eqn:El. assert (Hpos : (0 < length l)%nat) by (subst l; cbn; lia).
  assert (E : pfile_read (S fuel) l buf =
    if (length buf <? length (take (Z.to_nat 4096) l))%nat then None
    else pfile_read fuel (drop (Z.to_nat 4096) l) (take (Z.to_nat 4096) l ++ drop (length (take (Z.to_nat 4096) l)) buf))
    by (by rewrite El).
  rewrite E. clear E El. set (c := take (Z.to_nat 4096) l).
  assert (Hc : length c = (Z.to_nat 4096 `min` length l)%nat) by (unfold c; apply length_take).
  rewrite (proj2 (Nat.ltb_ge _ _)) by lia.
  destruct (IH (drop (Z.to_nat 4096) l) (c ++ drop (length c) buf)) as (b & Eb & Hlb & Hd & Hs).
  { rewrite length_drop. lia. }
  { rewrite length_drop, length_app, length_drop. lia. }
  exists b. split; [exact Eb|]. rewrite length_app, length_drop in Hlb. split; [lia|]. split.
  - rewrite Hd. rewrite drop_app, drop_drop, (drop_ge c) by lia. cbn. f_equal. lia.
  - intros Hle. assert (Hcl : c = l) by (unfold c; apply take_ge; lia).
    rewrite Hs by (rewrite length_drop; lia). rewrite (drop_ge l) by lia. cbn. by rewrite drop_0, Hcl.
Qed.

(** The blocks of the files. *)
Definition pfile_blocks (l : list cli_pfile) : list Z := concat ((fun p => [(pf_buf p).1; (pf_dup p).1]) <$> l).

Lemma pfile_blocks_put pre p post : pfile_blocks (pre ++ p :: post) ≡ₚ (pf_buf p).1 :: (pf_dup p).1 :: pfile_blocks (pre ++ post).
Proof.
  unfold pfile_blocks. rewrite !fmap_app, !concat_app. cbn. rewrite (Permutation_app_comm _ (_ :: _)). cbn.
  do 2 apply perm_skip. apply Permutation_app_comm.
Qed.

Section files.
Context {W : Type} (spdk : spdk_env W) (dev : nvm_dev) (Halloc : alloc_ok spdk dev).
Context (read_file : string -> M W (option (list Z))) (fs : string -> option (list Z)).
Context (Hread : forall name s, read_file name s = Some (fs name, s)).
Implicit Types s : sys W.

(** A file not yet loaded. *)
Definition pfile_fresh (p : cli_pfile) : Prop :=
  (pf_buf p).1 = 0 /\ (pf_dup p).1 = 0 /\ 0 <= pf_nbytes p /\ (pf_nbytes p <> 0 -> exists name, pf_path p = Some name).

(** What loading file [p] leaves: a file that was not asked for stays; of
    another one the bytes up to 4096 are in the buffer, and of a longer one the
    buffer has no byte from 4096 on. *)
Definition loaded (p p' : cli_pfile) : Prop :=
  pf_nbytes p = 0 /\ p' = p \/
  exists name file, pf_path p = Some name /\ fs name = Some file /\ 0 < Z.of_nat (length file) <= pf_nbytes p /\
    pf_path p' = Some name /\ pf_nbytes p' = Z.of_nat (length file) /\
    length (pf_buf p').2 = length file /\ (pf_buf p').1 <> 0 /\
    (Z.of_nat (length file) <= 4096 -> (pf_buf p').2 = file) /\
    drop (Z.to_nat 4096) (pf_buf p').2 = replicate (length file - Z.to_nat 4096) 0.

Lemma unload_all o s : nvm_cli_opts_pfile_unload spdk dev o s = free_all (pfile_blocks (opt_pfiles o)) s.
Proof.
  destruct Halloc as [_ Hfree]. unfold nvm_cli_opts_pfile_unload, free_all, pfile_blocks. revert s.
  induction (opt_pfiles o) as [|p l IH]; intros s; [done|]. cbn. unfold mbind, M_bind.
  rewrite Hfree. destruct (free (pf_buf p).1 s) as [[[] s1]|]; [|done].
  rewrite Hfree. destruct (free (pf_dup p).1 s1) as [[[] s2]|]; [|done]. apply IH.
Qed.

Lemma wp_unload L o s (Q : unit -> sys W -> Prop) : heap_wf s -> owns L (pfile_blocks (opt_pfiles o)) s ->
  (forall s', heap_wf s' -> live s' = L -> world s' = world s -> Q tt s') ->
  wp (nvm_cli_opts_pfile_unload spdk dev o) s Q.
Proof.
  intros Hwf Ho HQ. eapply wp_ext; [by apply unload_all|]. eapply wp_free_owned; [done|done|]. intros. by apply HQ.
Qed.

Lemma wp_pfile_to_buf name n s (Q : Z * list Z -> sys W -> Prop) : 0 <= n -> heap_wf s ->
  (forall buf s', heap_wf s' -> live s' = live s -> world s' = world s -> Q (-1, buf) s') ->
  (forall file buf, fs name = Some file -> Z.of_nat (length file) <= n -> length buf = Z.to_nat n ->
     (Z.of_nat (length file) <= 4096 -> buf = file ++ drop (length file) (replicate (Z.to_nat n) 0)) ->
     drop (Z.to_nat 4096) buf = drop (Z.to_nat 4096) (replicate (Z.to_nat n) 0) ->
     Q (Z.of_nat (length file), buf) s) ->
  wp (pfile_to_buf read_file (Some name) (replicate (Z.to_nat n) 0) n) s Q.
Proof.
  intros Hn Hwf HE HS. unfold pfile_to_buf. apply wp_bind. eapply (wp_intro _ _ name s); [done|].
  apply wp_bind. eapply wp_intro; [apply Hread|]. destruct (fs name) as [file|] eqn:Ef; [|by apply wp_ret, HE].
  destruct (Z.ltb_spec n (Z.of_nat (length file))) as [Hlt|Hle]; [by eapply wp_intro; [done|]; apply HE|].
  destruct (pfile_read_spec (length file) file (replicate (Z.to_nat n) 0)) as (b & Eb & Hl & Hd & Hs); [lia| |].
  { rewrite length_replicate. lia. }
  apply wp_bind. rewrite Eb. eapply (wp_intro _ _ b s); [done|]. rewrite length_replicate in Hl.
  apply wp_ret, HS; [done|done|done| |done]. intros Hsm. apply Hs. lia.
Qed.

Lemma owns_frame_2 L p d B s s' : owns L (p :: d :: B) s -> heap_wf s -> p = 0 -> d = 0 -> live s' = live s -> owns L B s'.
Proof.
  intros Ho Hwf -> -> Hl.
  assert (H0 : live s ∖ {[0]} = live s).
  { assert (0 ∉ live s) by (intros H; apply (good_live _ _ Hwf) in H; lia). set_solver. }
  assert (H1 : owns L (0 :: B) s) by (by eapply owns_drop; [exact Hwf|exact Ho|rewrite H0]).
  eapply owns_drop; [exact Hwf|exact H1|by rewrite H0].
Qed.

(** One file among the others. *)
Lemma wp_load_one L p B s (Q : bool * cli_pfile -> sys W -> Prop) : pfile_fresh p -> heap_wf s ->
  owns L ((pf_buf p).1 :: (pf_dup p).1 :: B) s ->
  (forall ok p' s', heap_wf s' -> world s' = world s -> owns L ((pf_buf p').1 :: (pf_dup p').1 :: B) s' ->
     (ok = true -> loaded p p') -> Q (ok, p') s') ->
  wp (pfile_load_one spdk read_file dev p) s Q.
Proof.
  intros (F1 & F2 & F3 & F4) Hwf Ho HQ. unfold pfile_load_one.
  destruct (Z.eqb_spec (pf_nbytes p) 0) as [E0|E0]; [by apply wp_ret, HQ; [..|left]|].
  destruct (F4 E0) as [name En]. rewrite En.
  assert (HB : forall s1, live s1 = live s -> owns L B s1) by (intros s1; exact (owns_frame_2 L _ _ B s s1 Ho Hwf F1 F2)).
  apply wp_bind. eapply (wp_buf_alloc spdk dev Halloc); [done|done| |].
  - intros s1 H1 H2 H3 _. cbn [Z.eqb]. apply wp_ret, HQ; [done|done| |done]. cbn [pf_buf pf_dup]. rewrite F1.
    do 2 (eapply owns_null; [done|]). by apply HB.
  - intros d s1 Hd Hf H1 H2 H3 _. rewrite (proj2 (Z.eqb_neq d 0)) by done.
    assert (Ho1 : owns L (d :: B) s1) by (by eapply owns_new; [..|apply HB]).
    apply wp_bind, wp_pfile_to_buf; [done|done| |].
    + intros buf s2 K1 K2 K3. cbn [Z.ltb Z.compare]. apply wp_ret, HQ; [done|congruence| |done]. cbn [pf_buf pf_dup fst].
      rewrite F1. eapply owns_null; [done|]. by apply (owns_ext _ (d :: B) _ s1).
    + intros file buf Ef Hlen Hbl Hsm Hdr. rewrite (proj2 (Z.ltb_ge _ 0)) by lia. apply wp_bind.
      destruct (decide (Z.of_nat (length file) = 0)) as [El|El].
      { rewrite El. eapply wp_intro; [done|]. cbn [Z.eqb]. apply wp_ret, HQ; [done|done| |done]. cbn [pf_buf pf_dup fst]. 
        apply (owns_ext _ (0 :: d :: B) _ s1); [done|done|]. by eapply owns_null. }
      eapply (wp_buf_alloc spdk dev Halloc); [done|done| |].
      * intros s2 K1 K2 K3 _. cbn [Z.eqb]. apply wp_ret, HQ; [done|congruence| |done]. cbn [pf_buf pf_dup fst].
        eapply owns_null; [done|]. by apply (owns_ext _ (d :: B) _ s1).
      * intros b s2 Hb Hbf K1 K2 K3 _. rewrite (proj2 (Z.eqb_neq b 0)) by done. apply wp_ret, HQ; [done|congruence| |].
        { cbn [pf_buf pf_dup fst]. by eapply owns_new. }
        intros _. right. exists name, file. cbn [pf_buf pf_path pf_nbytes fst snd].
        do 5 (split; [done || lia|]). rewrite length_take, Nat2Z.id. split; [lia|]. split; [done|]. split.
        { intros Hle. rewrite (Hsm Hle), take_app_length. done. }
        rewrite skipn_firstn_comm, Hdr, drop_replicate, take_replicate. f_equal. lia.
Qed.

Lemma put_pfile (l : list cli_pfile) i p p' : l !! i = Some p ->
  exists pre post, l = pre ++ p :: post /\ <[i := p']> l = pre ++ p' :: post.
Proof.
  intros Hi. pose proof (lookup_lt_Some _ _ _ Hi). exists (take i l), (drop (S i) l).
  split; [by rewrite take_drop_middle|by apply insert_take_drop].
Qed.

(** The files from [i] on. *)
Lemma wp_pfile_load_from L n : forall i o s (Q : Z * nvm_cli_opts -> sys W -> Prop),
  (n + i = length (opt_pfiles o))%nat -> (forall j p, (i <= j)%nat -> opt_pfiles o !! j = Some p -> pfile_fresh p) ->
  heap_wf s -> owns L (pfile_blocks (opt_pfiles o)) s ->
  (forall o' s', heap_wf s' -> world s' = world s -> owns L (pfile_blocks (opt_pfiles o')) s' ->
     (forall j, (j < i)%nat -> opt_pfiles o' !! j = opt_pfiles o !! j) ->
     (forall j p, (i <= j)%nat -> opt_pfiles o !! j = Some p -> exists p', opt_pfiles o' !! j = Some p' /\ loaded p p') ->
     Q (0, o') s') ->
  (forall o' s', heap_wf s' -> world s' = world s -> live s' = L -> Q (-1, o') s') ->
  wp (pfile_load_from spdk read_file dev n i o) s Q.
Proof.
  induction n as [|n IH]; intros i o s Q Hn Hfr Hwf Ho HS HE; cbn [pfile_load_from].
  { apply wp_ret, HS; [done..|]. intros j p Hj Hp. pose proof (lookup_lt_Some _ _ _ Hp). lia. }
  destruct (lookup_lt_is_Some_2 (opt_pfiles o) i) as [p Hp]; [lia|].
  destruct (put_pfile _ _ _ p Hp) as (pre & post & El & _).
  apply wp_bind. rewrite Hp. eapply (wp_intro _ _ p s); [done|]. apply wp_bind.
  eapply (wp_load_one L p (pfile_blocks (pre ++ post))); [by eapply Hfr|done| |].
  { apply (owns_ext _ (pfile_blocks (opt_pfiles o)) _ s); [rewrite El; apply pfile_blocks_put|done|done]. }
  intros ok p' s1 Hwf1 Hw1 Ho1 Hl. set (o1 := with_pfiles _ o).
  destruct (put_pfile _ _ _ p' Hp) as (pre' & post' & El' & Ei).
  assert (Hpp : pre' ++ post' ≡ₚ pre ++ post).
  { apply (Permutation_cons_inv (a := p)). rewrite !Permutation_middle. by rewrite <-El', <-El. }
  assert (Ho1' : owns L (pfile_blocks (opt_pfiles o1)) s1).
  { apply (owns_ext _ ((pf_buf p').1 :: (pf_dup p').1 :: pfile_blocks (pre ++ post)) _ s1); [|done|done].
    cbn [o1 with_pfiles opt_pfiles]. rewrite Ei, pfile_blocks_put. do 2 apply perm_skip. unfold pfile_blocks.
    by rewrite Hpp. }
  destruct ok.
  - apply IH; [cbn; rewrite length_insert; lia| |done|done| |].
    + intros j q Hj Hq. cbn in Hq. rewrite list_lookup_insert_ne in Hq by lia. eapply (Hfr j); [lia|done].
    + intros o' s' X1 X2 X3 X4 X5. apply HS; [done|congruence|done| |].
      * intros j Hj. rewrite X4 by lia. cbn. by rewrite list_lookup_insert_ne by lia.
      * intros j q Hj Hq. destruct (decide (j = i)) as [->|Hne].
        -- exists p'. rewrite X4 by lia. cbn. rewrite list_lookup_insert_eq by lia. split; [done|].
           rewrite Hp in Hq. injection Hq as <-. by apply Hl.
        -- apply X5; [lia|]. cbn. by rewrite list_lookup_insert_ne by lia.
    + intros o' s' X1 X2 X3. apply HE; [done|congruence|done].
  - apply wp_bind. eapply wp_unload; [done|exact Ho1'|]. intros s2 X1 X2 X3. apply wp_ret, HE; [done|congruence|done].
Qed.
End files.

(** C33: loading the files a command is passed through. Files that are not
    asked for stay away; each of the others is read whole into a buffer of its
    size if it has up to 4096 bytes. A longer file has its size, but the buffer
    holds none of its bytes from offset 4096 on: every piece is read to the
    beginning. Releasing the files gives back every block taken; and when one
    cannot be opened, is too large, empty, or memory is short, the answer is -1
    and nothing is kept. *)
Theorem pfile_load_correct {W} (spdk : spdk_env W) (dev : nvm_dev) (Halloc : alloc_ok spdk dev)
    (read_file : string -> M W (option (list Z))) (fs : string -> option (list Z))
    (Hread : forall name s, read_file name s = Some (fs name, s))
    (cli : nvm_cli) (d arr : Z) (Hdev : cli_dev cli = Some (d, arr, dev)) (s : sys W) (Hwf : heap_wf s)
    (Hlen : length (opt_pfiles (cli_opts cli)) = 3%nat) (Hfresh : Forall pfile_fresh (opt_pfiles (cli_opts cli))) :
  wp (nvm_cli_opts_pfile_load spdk read_file cli) s (fun '(err, cli') s' =>
    world s' = world s /\ cli_dev cli' = Some (d, arr, dev) /\
    (err = 0 /\
     (forall i p, opt_pfiles (cli_opts cli) !! i = Some p -> exists p', opt_pfiles (cli_opts cli') !! i = Some p' /\
        (pf_nbytes p = 0 /\ p' = p \/
         exists name file, pf_path p = Some name /\ fs name = Some file /\ 0 < Z.of_nat (length file) <= pf_nbytes p /\
           pf_path p' = Some name /\ pf_nbytes p' = Z.of_nat (length file) /\
           length (pf_buf p').2 = length file /\ (pf_buf p').1 <> 0 /\
           (Z.of_nat (length file) <= 4096 -> (pf_buf p').2 = file) /\
           drop (Z.to_nat 4096) (pf_buf p').2 = replicate (length file - Z.to_nat 4096) 0)) /\
     wp (nvm_cli_opts_pfile_unload spdk dev (cli_opts cli')) s' (fun _ s2 => live s2 = live s) \/
     err = -1 /\ live s' = live s)).
Proof.
  assert (Ho : owns (live s) (pfile_blocks (opt_pfiles (cli_opts cli))) s).
  { assert (E : Forall (fun b => b = 0) (pfile_blocks (opt_pfiles (cli_opts cli)))).
    { unfold pfile_blocks. apply Forall_concat, Forall_fmap. eapply Forall_impl; [exact Hfresh|].
      intros p (H1 & H2 & _). cbn. by repeat constructor. }
    induction E as [|b l -> _ IH]; [apply owns_none|by eapply owns_null]. }
  unfold nvm_cli_opts_pfile_load. rewrite Hdev. apply wp_bind.
  eapply (wp_pfile_load_from spdk dev Halloc read_file fs Hread (live s)); [by rewrite Hlen| |done|exact Ho| |].
  - intros j p _ Hj. by eapply Forall_lookup_1.
  - intros o' s' H1 H2 H3 _ H5. apply wp_ret. split; [done|]. split; [done|]. left. split; [done|]. split.
    + intros i p Hp. by apply (H5 i p ltac:(lia)).
    + eapply (wp_unload spdk dev Halloc); [done|exact H3|]. by intros.
  - intros o' s' H1 H2 H3. apply wp_ret. split; [done|]. split; [done|]. by right.
Qed.

(** ** The device *)

(** The attributes a tool asks for: those of the environment, the rest as they
    are. *)
Definition wanted (getenv : string -> option string) (dev : nvm_dev) : vblk_opts :=
  let mode var def := match getenv var with Some s => strtoll s 16 | None => def end in
  VblkOpts (mode "NVM_CLI_PMODE" (pmode (opts dev)))
    (evar_num getenv "NVM_CLI_ERASE_NADDRS_MAX" (erase_naddrs_max (opts dev)))
    (evar_num getenv "NVM_CLI_READ_NADDRS_MAX" (read_naddrs_max (opts dev)))
    (evar_num getenv "NVM_CLI_WRITE_NADDRS_MAX" (write_naddrs_max (opts dev)))
    (mode "NVM_CLI_META_MODE" (meta_mode (opts dev))).

Lemma wp_setter {W} (m : M W (Z * nvm_dev)) dev dev' s ok (Q : Z * nvm_dev -> sys W -> Prop) :
  wp m s (setter_post dev dev' s ok) -> (ok -> Q (0, dev') s) -> (~ ok -> Q (-1, dev) (Sys EINVAL (hp s) (world s))) ->
  wp m s Q.
Proof. intros Hm HY HN. eapply wp_mono; [exact Hm|]. intros r s' [(-> & -> & H)|(-> & -> & H)]; auto. Qed.

(** The mode of the environment is checked before the device's is set. *)
Lemma wp_evar_pmode {W} getenv dev (s : sys W) (Q : Z * Z -> sys W -> Prop) :
  let p := pmode (wanted getenv dev) in
  Q (0, p) s -> (~ pmode_ok (with_pmode p dev) -> Q (-1, 0) (Sys EINVAL (hp s) (world s))) ->
  wp (evar_pmode getenv dev) s Q.
Proof.
  intros p HY HN. unfold evar_pmode, p, wanted, pmode_ok in *. cbn [pmode] in *.
  destruct (getenv "NVM_CLI_PMODE") as [v|]; [|by apply wp_ret]. cbn in HN.
  cbv [NVM_FLAG_PMODE_SNGL NVM_FLAG_PMODE_DUAL NVM_FLAG_PMODE_QUAD] in *.
  destruct (Z.eqb_spec (strtoll v 16) 2) as [E|]; [destruct (Z.ltb_spec (nplanes (geo dev)) 4); rewrite ?E in *; [apply HN; lia|by apply wp_ret]|].
  destruct (Z.eqb_spec (strtoll v 16) 1) as [E|]; [destruct (Z.ltb_spec (nplanes (geo dev)) 2); rewrite ?E in *; [apply HN; lia|by apply wp_ret]|].
  destruct (Z.eqb_spec (strtoll v 16) 0) as [E|]; [rewrite ?E in *; by apply wp_ret|apply HN; lia].
Qed.

Lemma wp_evar_meta {W} getenv dev (s : sys W) (Q : Z * Z -> sys W -> Prop) :
  let m := meta_mode (wanted getenv dev) in
  Q (0, m) s -> (~ meta_ok (with_meta_mode m dev) -> Q (-1, 0) (Sys EINVAL (hp s) (world s))) ->
  wp (evar_meta_mode getenv dev) s Q.
Proof.
  intros m HY HN. unfold evar_meta_mode, m, wanted, meta_ok in *. cbn [meta_mode] in *.
  destruct (getenv "NVM_CLI_META_MODE") as [v|]; [|by apply wp_ret]. cbn in HN.
  cbv [NVM_META_MODE_NONE NVM_META_MODE_ALPHA NVM_META_MODE_CONST] in *.
  destruct (Z.eqb_spec (strtoll v 16) 0) as [E|]; [rewrite ?E in *; by apply wp_ret|].
  destruct (Z.eqb_spec (strtoll v 16) 1) as [E|]; [rewrite ?E in *; by apply wp_ret|].
  destruct (Z.eqb_spec (strtoll v 16) 2) as [E|]; [rewrite ?E in *; by apply wp_ret|apply HN; lia].
Qed.

(** C34: a tool sets up its device exactly, whether it is a 1.2 or a 2.0
    device. The plane mode, the meta mode and
    the limits of commands of the environment are accepted precisely when the
    device that has them (and its own where the environment is silent)
    satisfies the ranges of all of them; the device is then that one, and the
    tool knows these values; otherwise [EINVAL] is set. Neither memory nor the
    world changes. The assumption on the device is that of the setters
    ([Dev.dev_counts_ok]), with less than 2^16 planes. *)
Theorem cli_setup_exact {W} (getenv : string -> option string) (ev : nvm_cli_evars) (dev : nvm_dev) (s : sys W)
    (Hc : dev_counts_ok dev) (Hp : nplanes (geo dev) < 2 ^ 16) :
  let o := wanted getenv dev in
  let dev1 := with_opts o dev in
  wp (evars_setup getenv ev dev) s (fun '(ok, ev', dev') s' =>
    hp s' = hp s /\ world s' = world s /\
    (ok = true <-> pmode_ok dev1 /\ meta_ok dev1 /\ erase_max_ok dev1 /\ write_max_ok dev1 /\ read_max_ok dev1) /\
    (ok = true -> dev' = dev1 /\
       ev' = CliEvars (pmode o) (meta_mode o) (evar_noverify getenv) (erase_naddrs_max o) (read_naddrs_max o)
               (write_naddrs_max o) (evar_meta_pr getenv) (ev_cmd_opts ev)) /\
    (ok = false -> errno s' = EINVAL)).
Proof.
  intros o dev1. unfold evars_setup.
  assert (HN : forall ev' dev', ~ (pmode_ok dev1 /\ meta_ok dev1 /\ erase_max_ok dev1 /\ write_max_ok dev1 /\ read_max_ok dev1) ->
    wp (mret (false, ev', dev')) (Sys EINVAL (hp s) (world s)) (fun '(ok, ev', dev') s' =>
      hp s' = hp s /\ world s' = world s /\
      (ok = true <-> pmode_ok dev1 /\ meta_ok dev1 /\ erase_max_ok dev1 /\ write_max_ok dev1 /\ read_max_ok dev1) /\
      (ok = true -> dev' = dev1 /\
         ev' = CliEvars (pmode o) (meta_mode o) (evar_noverify getenv) (erase_naddrs_max o) (read_naddrs_max o)
                 (write_naddrs_max o) (evar_meta_pr getenv) (ev_cmd_opts ev)) /\ (ok = false -> errno s' = EINVAL))).
  { intros ev' dev' Hno. apply wp_ret. split; [done|]. split; [done|]. split; [by split; [|intros ?]|]. by split. }
  apply wp_bind, wp_evar_pmode; fold o; [cbn [Z.ltb Z.compare]|intros Hno; apply HN; tauto].
  apply wp_bind. eapply wp_setter; [apply set_pmode_spec| |intros Hno; apply HN; tauto]. intros H1. cbn [Z.eqb negb].
  assert (Hc1 : forall d, pmode (opts d) = pmode o -> geo d = geo dev -> verid d = verid dev -> dev_counts_ok d).
  { intros d E1 E2 E3. split; rewrite ?E1, ?E2, ?E3; [|apply Hc]. intros Hne. split; [|done].
    destruct H1 as [H1|[[_ H1]|[_ H1]]]; [by destruct Hne|cbn in H1; lia..]. }
  apply wp_bind, wp_evar_meta; [cbn [Z.ltb Z.compare]|intros Hno; apply HN; tauto].
  apply wp_bind. eapply wp_setter; [apply set_meta_spec| |intros Hno; apply HN; tauto]. intros H2. cbn [Z.eqb negb].
  apply wp_bind. eapply wp_setter; [apply set_erase_spec| |intros Hno; apply HN; tauto]. intros H3. cbn [Z.eqb negb].
  apply wp_bind. eapply wp_setter; [by apply set_write_spec, Hc1| |intros Hno; apply HN; tauto]. intros H4. cbn [Z.eqb negb].
  apply wp_bind. eapply wp_setter; [by apply set_read_spec, Hc1| |intros Hno; apply HN; tauto]. intros H5. cbn [Z.eqb negb].
  apply wp_ret. split; [done|]. split; [done|]. split; [by split|]. by split.
Qed.

(** ** Witnesses *)

Lemma cli_addr_roundtrip_witness :
  path_ok "/dev/nvme0n1" /\ args_ok zero_args /\ addr_ok sample_lba /\
  (exists args', parse_args NVM_CLI_ARG_ADDR_S20
     ["/dev/nvme0n1"; dec (l_pugrp sample_lba); dec (l_punit sample_lba); dec (l_chunk sample_lba); dec (l_sectr sample_lba)]%string
     zero_args (Sys 0 (sample_heap 9) tt) = Some ((5, args'), Sys 0 (sample_heap 9) tt) /\
     dev_path args' = "/dev/nvme0n1" /\ args_naddrs args' = 1 /\ take 1 (args_addrs args') = [sample_lba]).
Proof.
  assert (H1 : path_ok "/dev/nvme0n1") by by_eval. assert (H2 : args_ok zero_args) by by_eval.
  assert (H3 : addr_ok sample_lba) by by_eval. do 3 (split; [done|]).
  apply (proj1 (cli_addr_roundtrip "/dev/nvme0n1" zero_args (Sys 0 (sample_heap 9) tt) H1 H2 eq_refl) sample_lba H3).
Defined.

(** A command with a file of data. *)
Definition sample_cli : nvm_cli :=
  with_cli_dev (Some (0, 0, sample20))
    (with_cli_opts (with_pfiles [zero_pfile; zero_pfile; CliPfile (0, []) (0, []) (Some "data.bin"%string) NVM_CLI_OPTS_PFILE_MAX_NBYTES] zero_opts)
       zero_cli).

Lemma pfile_load_correct_witness :
  let fs (name : string) := if String.eqb name "data.bin" then Some [1; 2; 3] else None in
  let s := Sys 0 (sample_heap 9) tt in
  wp (nvm_cli_opts_pfile_load spdk_stub (fun name => mret (fs name)) sample_cli) s (fun '(err, cli') s' =>
    world s' = world s /\ cli_dev cli' = Some (0, 0, sample20) /\
    (err = 0 /\
     (forall i p, opt_pfiles (cli_opts sample_cli) !! i = Some p -> exists p', opt_pfiles (cli_opts cli') !! i = Some p' /\
        (pf_nbytes p = 0 /\ p' = p \/
         exists name file, pf_path p = Some name /\ fs name = Some file /\ 0 < Z.of_nat (length file) <= pf_nbytes p /\
           pf_path p' = Some name /\ pf_nbytes p' = Z.of_nat (length file) /\
           length (pf_buf p').2 = length file /\ (pf_buf p').1 <> 0 /\
           (Z.of_nat (length file) <= 4096 -> (pf_buf p').2 = file) /\
           drop (Z.to_nat 4096) (pf_buf p').2 = replicate (length file - Z.to_nat 4096) 0)) /\
     wp (nvm_cli_opts_pfile_unload spdk_stub sample20 (cli_opts cli')) s' (fun _ s2 => live s2 = live s) \/
     err = -1 /\ live s' = live s)).
Proof.
  intros fs s. apply (pfile_load_correct spdk_stub sample20).
  - apply virt_alloc_ok. by left.
  - done.
  - done.
  - apply sample_heap_wf.
  - done.
  - repeat constructor; intros ?; try done. by exists "data.bin"%string.
Defined.

(** On a 1.2 device, and on a 2.0 one, which has no planes. *)
Lemma cli_setup_exact_witness :
  let getenv (var : string) := if String.eqb var "NVM_CLI_PMODE" then Some "0x0"%string else None in
  nplanes (geo sample20) = 0 /\
  Forall (fun dev => wp (evars_setup getenv (cli_evars zero_cli) dev) (Sys 0 no_heap tt) (fun '(ok, ev', dev') s' =>
    hp s' = no_heap /\ world s' = tt /\
    (ok = true <-> let dev1 := with_opts (wanted getenv dev) dev in
       pmode_ok dev1 /\ meta_ok dev1 /\ erase_max_ok dev1 /\ write_max_ok dev1 /\ read_max_ok dev1) /\
    (ok = true -> dev' = with_opts (wanted getenv dev) dev /\
       ev' = let o := wanted getenv dev in
             CliEvars (pmode o) (meta_mode o) 0 (erase_naddrs_max o) (read_naddrs_max o) (write_naddrs_max o) 0 0) /\
    (ok = false -> errno s' = EINVAL))) [sample12; sample20].
Proof.
  intros getenv. split; [done|]. apply Forall_cons. split; [|apply Forall_singleton].
  - apply (cli_setup_exact getenv (cli_evars zero_cli) sample12 (Sys 0 no_heap tt)); [apply counts_dev_ok; by_eval|done].
  - apply (cli_setup_exact getenv (cli_evars zero_cli) sample20 (Sys 0 no_heap tt)); [by apply s20_dev_counts|done].
Defined.
