(* ===== verification/Tools.v ===== *)
(** The commands of the tools of [src/cli]: [cli_vblk.c], [cli_cmd.c],
    [cli_bbt.c], [cli_addr.c] and [cli_dev.c], as functions of the parsed
    command line. What they print beside their answers is left out; the
    answers of the address tool, which are its purpose, are kept. *)
From Stdlib Require Import Ascii String.
From stdpp Require Import base numbers strings gmap option list.
From S2P Require Import Prelude Types Clib Nvme Addr Dev Backend Buf Be Cmd Vblk Bbt Open Cli.

(** ** Data *)

Definition NVM_CLI_OPT_DEFAULT : Z := Z.lor NVM_CLI_OPT_HELP NVM_CLI_OPT_VERBOSE.

(** What the conversions of [printf] are given. *)
Inductive value := VAddr (a : nvm_addr) | VHex (x : Z) | VDec (x : Z).

(** [sscanf(str, "%u", &depth)] on a [depth] of 0. *)
Definition sscanf_u32 (s : string) : Z :=
  match skip_space s with
  | String "-" s => u32 (- digits 10 0 s)
  | String "+" s => u32 (digits 10 0 s)
  | s => u32 (digits 10 0 s)
  end.

(** A zeroed [struct nvm_ret]. *)
Definition zero_ret : retp := Some (Ret 0 0 0).

Section tools.
Context {W : Type} (spdk : spdk_env W) (imps : list (nvm_be W)).
(** The environment, the files, and the lines of the address tool: each a list
    of labels and values. *)
Context (getenv : string -> option string) (read_file : string -> M W (option (list Z))).
Context (write_file : string -> list Z -> M W Z) (print : list (string * value) -> M W unit).
(** The bytes of fresh memory, and the polls after which a drained queue of
    the asynchronous interface is empty. *)
Context (fresh : Z -> list Z) (fuel : nat).
#[local] Abbreviation cmd := (nvm_cli -> M W (Z * nvm_cli)).

(** ** Files of buffers *)

(** A file that cannot be opened is read through [NULL]. *)
Definition nvm_buf_from_file (nbytes : Z) (buf : list Z) (path : string) : M W (Z * list Z) :=
  f ← read_file path;
  file ← lift f;
  let got := take (Z.to_nat nbytes) file in
  let n := Z.of_nat (length got) in
  err ← buf_file_status n nbytes;
  mret (err, got ++ drop (length got) buf).

Definition nvm_buf_to_file (nbytes : Z) (buf : list Z) (path : string) : M W Z :=
  fcount ← write_file path (take (Z.to_nat nbytes) buf); buf_file_status fcount nbytes.

(** The file given with [-i] or [-o]. *)
Definition option_file (mask : Z) (file : nvm_cli_opts -> option string) (cli : nvm_cli) : option string :=
  if Z.land (opt_mask (cli_opts cli)) mask =? 0 then None else file (cli_opts cli).
Definition input_file : nvm_cli -> option string := option_file NVM_CLI_OPT_FILE_INPUT file_input.
Definition output_file : nvm_cli -> option string := option_file NVM_CLI_OPT_FILE_OUTPUT file_output.

(** The payload of a write: the file, or the pattern. *)
Definition fill_input (cli : nvm_cli) (nbytes : Z) : M W (Z * list Z) :=
  match input_file cli with
  | Some path => nvm_buf_from_file nbytes (fresh nbytes) path
  | None => buf ← lift (nvm_buf_fill (fresh nbytes) nbytes); mret (0, buf)
  end.

Definition dump_output (cli : nvm_cli) (nbytes : Z) (buf : list Z) : M W unit :=
  match output_file cli with
  | Some path => _ ← nvm_buf_to_file nbytes buf path; mret tt
  | None => mret tt
  end.

(** The device of the command line, with the block of its handle. *)
Definition with_device {A} (cli : nvm_cli) (k : nvm_be W -> Z -> nvm_dev -> M W A) : M W A :=
  match cli_dev cli with
  | Some (d, _, dev) => be ← lift (dev_be imps dev); k be d dev
  | None => crash
  end.

(** ** Virtual blocks: cli_vblk.c *)

Section vblk.
Context (be : nvm_be W) (dev : nvm_dev).

Definition _vblk_cmd_mode (v : nvm_vblk) : M W nvm_vblk :=
  v ← (match getenv "NVM_CLI_VBLK_ASYNC" with
       | Some _ =>
           let depth := match getenv "NVM_CLI_VBLK_ASYNC_DEPTH" with Some s => sscanf_u32 s | None => 0 end in
           '(_, v) ← nvm_vblk_set_async be dev v depth; mret v
       | None => mret v
       end);
  mret (match getenv "NVM_CLI_VBLK_SCALAR" with Some _ => (nvm_vblk_set_scalar v).2 | None => v end).

Definition _vblk_erase (cli : nvm_cli) (v : nvm_vblk) : M W Z :=
  v ← _vblk_cmd_mode v;
  '(res, _) ← nvm_vblk_erase be dev v; mret res.

Definition _vblk_write (cli : nvm_cli) (v : nvm_vblk) : M W Z :=
  let nbytes := nvm_vblk_get_nbytes v in
  v ← _vblk_cmd_mode v;
  b ← nvm_buf_alloc spdk dev nbytes;
  if b =? 0 then mret (-1)
  else
    '(err, buf) ← fill_input cli nbytes;
    if negb (err =? 0) then _ ← nvm_buf_free spdk dev b; mret (-1)
    else
      '(res, _) ← nvm_vblk_write spdk be dev fuel v (Some buf) nbytes;
      _ ← nvm_buf_free spdk dev b;
      mret res.

Definition _vblk_read (cli : nvm_cli) (v : nvm_vblk) : M W Z :=
  let nbytes := nvm_vblk_get_nbytes v in
  v ← _vblk_cmd_mode v;
  b ← nvm_buf_alloc spdk dev nbytes;
  if b =? 0 then mret (-1)
  else
    buf ← lift (nvm_buf_fill (fresh nbytes) nbytes);
    '(res, _, buf) ← nvm_vblk_read be dev fuel v (Some buf) nbytes;
    buf ← lift buf;
    _ ← dump_output cli nbytes buf;
    _ ← nvm_buf_free spdk dev b;
    mret res.

Definition _vblk_pread (cli : nvm_cli) (v : nvm_vblk) : M W Z :=
  nbytes ← lift (dec_vals (cli_args cli) !! 0%nat);
  offset ← lift (dec_vals (cli_args cli) !! 1%nat);
  v ← _vblk_cmd_mode v;
  b ← nvm_buf_alloc spdk dev nbytes;
  if b =? 0 then mret (-1)
  else
    '(res, _, buf) ← nvm_vblk_pread be dev fuel v (Some (fresh nbytes)) nbytes offset;
    buf ← lift buf;
    _ ← dump_output cli nbytes buf;
    _ ← nvm_buf_free spdk dev b;
    mret res.

Definition _vblk_pad (cli : nvm_cli) (v : nvm_vblk) : M W Z :=
  v ← _vblk_cmd_mode v;
  '(res, _) ← nvm_vblk_pad spdk be dev fuel v; mret res.
End vblk.

(** The answer of a command: [failed] when the block was not made, otherwise
    from the sign of [run]'s. *)
Definition on_vblk (o : option (boxed nvm_vblk)) (failed : M W Z) (run : nvm_vblk -> M W Z) : M W Z :=
  match o with
  | None => failed
  | Some (p, v) => res ← run v; _ ← nvm_vblk_free p; mret (if res <? 0 then -1 else 0)
  end.

(** On the first address. *)
Definition vblk_cmd (run : nvm_be W -> nvm_dev -> nvm_cli -> nvm_vblk -> M W Z) : cmd := fun cli =>
  with_device cli (fun be d dev =>
    o ← nvm_vblk_alloc dev d (args_addrs (cli_args cli)) 1;
    res ← on_vblk o (mret (-1)) (run be dev cli); mret (res, cli)).
Definition cmd_vblk_erase : cmd := vblk_cmd _vblk_erase.
Definition cmd_vblk_write : cmd := vblk_cmd _vblk_write.
Definition cmd_vblk_read : cmd := vblk_cmd _vblk_read.
Definition cmd_vblk_pad : cmd := vblk_cmd _vblk_pad.

Definition cmd_vblk_copy : cmd := fun cli =>
  with_device cli (fun be d dev =>
    src ← nvm_vblk_alloc dev d (args_addrs (cli_args cli)) 1;
    match src with
    | None => mret (-1, cli)
    | Some (ps, src) =>
        dst ← nvm_vblk_alloc dev d (drop 1 (args_addrs (cli_args cli))) 1;
        match dst with
        | None => _ ← nvm_vblk_free ps; mret (-1, cli)
        | Some (pd, dst) =>
            res ← nvm_vblk_copy be dev src dst 0x0;
            _ ← nvm_vblk_free ps;
            _ ← nvm_vblk_free pd;
            mret (if res <? 0 then -1 else 0, cli)
        end
    end).

(** On the line from the first to the second address. *)
Definition line_cmd (run : nvm_be W -> nvm_dev -> nvm_cli -> nvm_vblk -> M W Z) : cmd := fun cli =>
  with_device cli (fun be d dev =>
    bgn ← lift (args_addrs (cli_args cli) !! 0%nat);
    stop ← lift (args_addrs (cli_args cli) !! 1%nat);
    o ← nvm_vblk_alloc_line spdk dev d (g_ch bgn) (g_ch stop) (g_lun bgn) (g_lun stop) (g_blk bgn);
    res ← on_vblk o (mret (-1)) (run be dev cli); mret (res, cli)).
Definition cmd_vblk_line_erase : cmd := line_cmd _vblk_erase.
Definition cmd_vblk_line_write : cmd := line_cmd _vblk_write.
Definition cmd_vblk_line_read : cmd := line_cmd _vblk_read.
Definition cmd_vblk_line_pread : cmd := line_cmd _vblk_pread.
Definition cmd_vblk_line_pad : cmd := line_cmd _vblk_pad.

(** On all addresses; all but the erase answer [errno]. *)
Definition set_cmd (failed : M W Z) (run : nvm_be W -> nvm_dev -> nvm_cli -> nvm_vblk -> M W Z) : cmd := fun cli =>
  with_device cli (fun be d dev =>
    o ← nvm_vblk_alloc dev d (args_addrs (cli_args cli)) (args_naddrs (cli_args cli));
    res ← on_vblk o failed (run be dev cli); mret (res, cli)).
Definition cmd_vblk_set_erase : cmd := set_cmd (mret (-1)) _vblk_erase.
Definition cmd_vblk_set_write : cmd := set_cmd get_errno _vblk_write.
Definition cmd_vblk_set_read : cmd := set_cmd get_errno _vblk_read.
Definition cmd_vblk_set_pad : cmd := set_cmd get_errno _vblk_pad.

Definition vblk_cmds : list (nvm_cli_cmd W) :=
  let opt_in := Z.lor NVM_CLI_OPT_DEFAULT NVM_CLI_OPT_FILE_INPUT in
  let opt_out := Z.lor NVM_CLI_OPT_DEFAULT NVM_CLI_OPT_FILE_OUTPUT in
  [ CliCmd "erase" cmd_vblk_erase NVM_CLI_ARG_ADDR NVM_CLI_OPT_DEFAULT;
    CliCmd "write" cmd_vblk_write NVM_CLI_ARG_ADDR opt_in;
    CliCmd "read" cmd_vblk_read NVM_CLI_ARG_ADDR opt_out;
    CliCmd "pad" cmd_vblk_pad NVM_CLI_ARG_ADDR NVM_CLI_OPT_DEFAULT;
    CliCmd "copy" cmd_vblk_copy NVM_CLI_ARG_ADDR_SRC_DST NVM_CLI_OPT_DEFAULT;
    CliCmd "set_erase" cmd_vblk_set_erase NVM_CLI_ARG_ADDR_LIST NVM_CLI_OPT_DEFAULT;
    CliCmd "set_write" cmd_vblk_set_write NVM_CLI_ARG_ADDR_LIST opt_in;
    CliCmd "set_read" cmd_vblk_set_read NVM_CLI_ARG_ADDR_LIST opt_out;
    CliCmd "set_pad" cmd_vblk_set_pad NVM_CLI_ARG_ADDR_LIST NVM_CLI_OPT_DEFAULT;
    CliCmd "line_erase" cmd_vblk_line_erase NVM_CLI_ARG_VBLK_LINE NVM_CLI_OPT_DEFAULT;
    CliCmd "line_write" cmd_vblk_line_write NVM_CLI_ARG_VBLK_LINE opt_in;
    CliCmd "line_read" cmd_vblk_line_read NVM_CLI_ARG_VBLK_LINE opt_out;
    CliCmd "line_pread" cmd_vblk_line_pread NVM_CLI_ARG_VBLK_LINE_POS opt_out;
    CliCmd "line_pad" cmd_vblk_line_pad NVM_CLI_ARG_VBLK_LINE NVM_CLI_OPT_DEFAULT ].

(** ** Commands: cli_cmd.c *)

(** The first [n] of an array. *)
Definition upto {A} (n : Z) (l : list A) : option (list A) :=
  if Z.of_nat (length l) <? n then None else Some (take (Z.to_nat n) l).

(** A structure of the device, obtained, shown and released. *)
Definition show_boxed {A} (dev : nvm_dev) (cli : nvm_cli) (get : M W (option (boxed A) * retp)) : M W (Z * nvm_cli) :=
  '(o, _) ← get;
  match o with
  | None => mret (-1, cli)
  | Some (p, _) => _ ← nvm_buf_free spdk dev p; mret (0, cli)
  end.

Definition cmd_idfy : cmd := fun cli =>
  with_device cli (fun be _ dev => show_boxed dev cli (nvm_cmd_idfy be dev None)).

Definition cmd_rprt : cmd := fun cli =>
  with_device cli (fun be _ dev =>
    a ← lift (args_addrs (cli_args cli) !! 0%nat);
    let addr := if args_naddrs (cli_args cli) =? 0 then None else Some a in
    show_boxed dev cli (nvm_cmd_rprt be dev addr 0x0 None)).

Definition cmd_gbbt : cmd := fun cli =>
  with_device cli (fun be _ dev =>
    a ← lift (args_addrs (cli_args cli) !! 0%nat);
    show_boxed dev cli (nvm_cmd_gbbt be dev a None)).

Definition cmd_sbbt : cmd := fun cli =>
  with_device cli (fun be _ dev =>
    flags ← lift (hex_vals (cli_args cli) !! 0%nat);
    _ ← nvm_cmd_sbbt be dev (args_addrs (cli_args cli)) (args_naddrs (cli_args cli)) (u16 flags) None;
    mret (0, cli)).

Definition cmd_erase : cmd := fun cli =>
  with_device cli (fun be _ dev =>
    '(err, _, _) ← nvm_cmd_erase be dev (args_addrs (cli_args cli)) (args_naddrs (cli_args cli)) None
                     (u16 (ev_pmode (cli_evars cli))) zero_ret;
    mret (if err =? 0 then 0 else 1, cli)).

(** The sizes of the buffers, as [int]. *)
Definition tool_nbytes (cli : nvm_cli) (unit : Z) : Z := i32 (u64 (args_naddrs (cli_args cli) * unit)).

(** The zeroed buffer of the meta data, when there is any: its block, 0
    without one. [None] is an allocation that failed. *)
Definition tool_meta (dev : nvm_dev) (meta_tbytes : Z) : M W (option (Z * mem)) :=
  if meta_tbytes =? 0 then mret (Some (0, None))
  else
    m ← nvm_buf_alloc spdk dev (u64 meta_tbytes);
    mret (if m =? 0 then None else Some (m, Some (replicate (Z.to_nat (u64 meta_tbytes)) 0))).

Definition cmd_write : cmd := fun cli =>
  with_device cli (fun be _ dev =>
    let nbytes := u64 (tool_nbytes cli (sector_nbytes (geo dev))) in
    b ← nvm_buf_alloc spdk dev nbytes;
    if b =? 0 then mret (-1, cli)
    else
      '(err, buf) ← fill_input cli nbytes;
      if negb (err =? 0) then _ ← nvm_buf_free spdk dev b; mret (-1, cli)
      else
        o ← tool_meta dev (tool_nbytes cli (meta_nbytes (geo dev)));
        match o with
        | None => _ ← nvm_buf_free spdk dev b; mret (-1, cli)
        | Some (m, meta) =>
            '(err, _) ← nvm_cmd_write be dev (args_addrs (cli_args cli)) (args_naddrs (cli_args cli)) (Some buf) meta
                          (u16 (ev_pmode (cli_evars cli))) zero_ret;
            _ ← nvm_buf_free spdk dev b;
            _ ← nvm_buf_free spdk dev m;
            mret (err, cli)
        end).

Definition cmd_read : cmd := fun cli =>
  with_device cli (fun be _ dev =>
    let nbytes := u64 (tool_nbytes cli (sector_nbytes (geo dev))) in
    b ← nvm_buf_alloc spdk dev nbytes;
    if b =? 0 then mret (-1, cli)
    else
      o ← tool_meta dev (tool_nbytes cli (meta_nbytes (geo dev)));
      match o with
      | None => _ ← nvm_buf_free spdk dev b; mret (-1, cli)
      | Some (m, meta) =>
          r ← nvm_cmd_read be dev (args_addrs (cli_args cli)) (args_naddrs (cli_args cli)) (Some (fresh nbytes)) meta
                (u16 (ev_pmode (cli_evars cli))) zero_ret;
          buf ← lift (io_data r);
          _ ← dump_output cli nbytes buf;
          _ ← nvm_buf_free spdk dev b;
          _ ← nvm_buf_free spdk dev m;
          mret (rc r, cli)
      end).

(** The sectors from [bgn] on of the chunk at [a], with one chunk the units of
    [ws] sectors in a row. *)
Definition tool_copy_addrs (a : nvm_addr) (ws bgn n : Z) : option (list nvm_addr) :=
  build_addrs (fun idx =>
    let sectr := u64 (bgn + idx) in
    wunit ← zdiv sectr ws;
    rnd ← zdiv wunit 1;
    off ← zmod sectr ws;
    Some (set_l_sectr (u64 (off + u64 (rnd * ws))) a)) n.

Definition tool_copy_cmd (be : nvm_be W) (dev : nvm_dev) (src dst : nvm_addr) (ws stop max ofz nerr : Z) : M W Z :=
  let n := NVM_MIN (u64 (stop - ofz + 1)) max in
  addrs_src ← lift (tool_copy_addrs src ws ofz n);
  addrs_dst ← lift (tool_copy_addrs dst ws ofz n);
  '(err, _) ← nvm_cmd_copy be dev addrs_src addrs_dst n 0x0 zero_ret;
  mret (if err =? 0 then nerr else u64 (nerr + 1)).

(** The whole first chunk to the second; on success it answers the number of
    bytes. *)
Definition cmd_copy : cmd := fun cli =>
  with_device cli (fun be _ dev =>
    ws ← nvm_dev_get_ws_min dev;
    let ws := u32 ws in
    src ← lift (args_addrs (cli_args cli) !! 0%nat);
    dst ← lift (args_addrs (cli_args cli) !! 1%nat);
    let count := u64 (nbytes (geo dev) * nsectr (geo dev)) in
    n ← lift (zdiv count (nbytes (geo dev)));
    let stop := sectr_stop 0 n in
    max ← lift (zdiv NVM_NADDR_MAX ws);
    let max := max * ws in
    bad ← lift (zmod n ws);
    if negb (bad =? 0) then fail EINVAL (-1, cli)
    else
      ofzs ← lift (sectr_range 0 stop max);
      nerr ← mfold (tool_copy_cmd be dev src dst ws stop max) ofzs 0;
      if nerr =? 0 then mret (i32 count, cli) else fail EIO (-1, cli)).

(** ** Bad-block tables: cli_bbt.c *)

(** The command with the device a call left. *)
Definition with_dev_of (dev : nvm_dev) (cli : nvm_cli) : nvm_cli :=
  with_cli_dev ((fun '(d, arr, _) => (d, arr, dev)) <$> cli_dev cli) cli.

Definition bbt_get : cmd := fun cli =>
  with_device cli (fun be _ dev =>
    a ← lift (args_addrs (cli_args cli) !! 0%nat);
    '(o, _, dev) ← nvm_bbt_get be dev a zero_ret;
    mret (match o with None => -1 | Some _ => 0 end, with_dev_of dev cli)).

(** A copy of the table with every block in [state], set on the device. *)
Definition bbt_set (state : Z) : cmd := fun cli =>
  with_device cli (fun be _ dev =>
    a ← lift (args_addrs (cli_args cli) !! 0%nat);
    '(o, ret, dev) ← nvm_bbt_get be dev a zero_ret;
    cp ← nvm_bbt_alloc_cp (snd <$> o);
    match cp with
    | None => mret (-1, with_dev_of dev cli)
    | Some (p, b) =>
        let b := with_blks_of (replicate (Z.to_nat (bbt_nblks b)) (u8 state) ++ drop (Z.to_nat (bbt_nblks b)) (bbt_blks b)) b in
        '(_, _, dev) ← nvm_bbt_set be dev b ret;
        _ ← nvm_bbt_free (Some (p, b));
        mret (0, with_dev_of dev cli)
    end).

Definition bbt_mark (state : Z) : cmd := fun cli =>
  with_device cli (fun be _ dev =>
    '(err, _, dev) ← nvm_bbt_mark be dev (args_addrs (cli_args cli)) (args_naddrs (cli_args cli)) state zero_ret;
    mret (err, with_dev_of dev cli)).

Definition bbt_cmds : list (nvm_cli_cmd W) :=
  let lun name f := CliCmd name f NVM_CLI_ARG_ADDR_LUN NVM_CLI_OPT_DEFAULT in
  let list name f := CliCmd name f NVM_CLI_ARG_ADDR_LIST NVM_CLI_OPT_DEFAULT in
  [ lun "get" bbt_get;
    lun "set_f" (bbt_set NVM_BBT_FREE); lun "set_b" (bbt_set NVM_BBT_BAD); lun "set_g" (bbt_set NVM_BBT_GBAD);
    lun "set_d" (bbt_set NVM_BBT_DMRK); lun "set_h" (bbt_set NVM_BBT_HMRK);
    list "mark_f" (bbt_mark NVM_BBT_FREE); list "mark_b" (bbt_mark NVM_BBT_BAD); list "mark_g" (bbt_mark NVM_BBT_GBAD);
    list "mark_d" (bbt_mark NVM_BBT_DMRK); list "mark_h" (bbt_mark NVM_BBT_HMRK) ]%string.

(** ** Addresses: cli_addr.c *)

(** A line per element: the result alone when the output is terse, and what it
    comes from before it otherwise. *)
Definition print_conv {A} (terse : bool) (from to : string) (show_from show_to : A -> option value) (l : list A) : M W unit :=
  mfold (fun x _ =>
    a ← lift (show_from x);
    b ← lift (show_to x);
    print (if terse then [(EmptyString, b)] else [(from, a); (to, b)])) l tt.

Definition is_terse (cli : nvm_cli) : bool := negb (opt_terse (cli_opts cli) =? 0).

(** The coordinates of an address on a device of either version. *)
Definition nvm_addr_prn (dev : nvm_dev) (a : nvm_addr) : list (string * value) :=
  if verid dev =? NVM_SPEC_VERID_12 then
    [("val", VHex a); ("ch", VDec (g_ch a)); ("lun", VDec (g_lun a)); ("blk", VDec (g_blk a)); ("pl", VDec (g_pl a));
     ("pg", VDec (g_pg a)); ("sec", VDec (g_sec a))]%string
  else if verid dev =? NVM_SPEC_VERID_20 then
    [("val", VHex a); ("pugrp", VDec (l_pugrp a)); ("punit", VDec (l_punit a)); ("chunk", VDec (l_chunk a));
     ("sectr", VDec (l_sectr a))]%string
  else [("UNSUPPORTED_VERID"%string, VHex a)].

Definition cmd_fmt : cmd := fun cli =>
  if is_terse cli then
    a ← lift (args_addrs (cli_args cli) !! 0%nat);
    _ ← print [(EmptyString, VAddr a)]; mret (0, cli)
  else
    with_device cli (fun _ _ dev =>
      l ← lift (upto (args_naddrs (cli_args cli)) (args_addrs (cli_args cli)));
      _ ← mfold (fun a _ => print (nvm_addr_prn dev a)) l tt; mret (0, cli)).

(** Device addresses, stored in place of the generic ones. *)
Definition cmd_dfmt : cmd := fun cli =>
  with_device cli (fun _ _ dev =>
    l ← lift (upto (nhex_vals (cli_args cli)) (hex_vals (cli_args cli)));
    args ← lift (set_all set_arg_addr 0 (nvm_addr_dev2gen dev <$> l) (cli_args cli));
    let cli := with_cli_args (with_naddrs (nhex_vals (cli_args cli)) args) cli in
    _ ← mfold (fun a _ => print (nvm_addr_prn dev a)) (nvm_addr_dev2gen dev <$> l) tt; mret (0, cli)).

(** A conversion of the addresses of the command line. *)
Definition gen2_cmd (to : string) (f : nvm_dev -> nvm_addr -> value) : cmd := fun cli =>
  with_device cli (fun _ _ dev =>
    l ← lift (upto (args_naddrs (cli_args cli)) (args_addrs (cli_args cli)));
    _ ← print_conv (is_terse cli) "gen" to (fun a => Some (VAddr a)) (fun a => Some (f dev a)) l; mret (0, cli)).
Definition cmd_gen2dev : cmd := gen2_cmd "dev" (fun dev a => VHex (nvm_addr_gen2dev dev a)).
Definition cmd_gen2off : cmd := gen2_cmd "off" (fun dev a => VDec (nvm_addr_gen2off dev a)).
Definition cmd_gen2lpo : cmd := gen2_cmd "lpo" (fun dev a => VDec (nvm_addr_gen2lpo dev a)).

(** A conversion to addresses of [n] of the values [l]. *)
Definition to_gen_cmd (from : string) (n : nvm_cli -> Z) (l : nvm_cli -> list Z) (show : Z -> value)
    (f : nvm_dev -> Z -> option nvm_addr) : cmd := fun cli =>
  with_device cli (fun _ _ dev =>
    xs ← lift (upto (n cli) (l cli));
    _ ← print_conv (is_terse cli) from "gen" (fun x => Some (show x)) (fun x => VAddr <$> f dev x) xs; mret (0, cli)).
Definition cmd_dev2gen : cmd :=
  to_gen_cmd "dev" (fun cli => nhex_vals (cli_args cli)) (fun cli => hex_vals (cli_args cli)) VHex
    (fun dev x => Some (nvm_addr_dev2gen dev x)).
Definition cmd_off2gen : cmd :=
  to_gen_cmd "off" (fun cli => ndec_vals (cli_args cli)) (fun cli => dec_vals (cli_args cli)) VDec
    (fun dev x => Some (nvm_addr_off2gen dev x)).
(** The source labels the offset of a descriptor [off] too. *)
Definition cmd_lpo2gen : cmd :=
  to_gen_cmd "off" (fun cli => ndec_vals (cli_args cli)) (fun cli => dec_vals (cli_args cli)) VDec nvm_addr_lpo2gen.

Definition addr_cmds : list (nvm_cli_cmd W) :=
  let terse := Z.lor NVM_CLI_OPT_DEFAULT NVM_CLI_OPT_TERSE in
  [ CliCmd "s12_to_gen" cmd_fmt NVM_CLI_ARG_ADDR_S12 terse;
    CliCmd "s20_to_gen" cmd_fmt NVM_CLI_ARG_ADDR_S20 terse;
    CliCmd "gen2dev" cmd_gen2dev NVM_CLI_ARG_ADDR_LIST terse;
    CliCmd "dev2gen" cmd_dev2gen NVM_CLI_ARG_HEXVAL_LIST terse;
    CliCmd "gen2off" cmd_gen2off NVM_CLI_ARG_ADDR_LIST terse;
    CliCmd "off2gen" cmd_off2gen NVM_CLI_ARG_DECVAL_LIST terse;
    CliCmd "gen2lpo" cmd_gen2lpo NVM_CLI_ARG_ADDR_LIST terse;
    CliCmd "lpo2gen" cmd_lpo2gen NVM_CLI_ARG_DECVAL_LIST terse;
    CliCmd "gen_as_geo" cmd_fmt NVM_CLI_ARG_ADDR_LIST NVM_CLI_OPT_DEFAULT;
    CliCmd "dev_as_geo" cmd_dfmt NVM_CLI_ARG_HEXVAL_LIST NVM_CLI_OPT_DEFAULT ]%string.

(** ** Running a tool: main *)

(** The answer of the process. *)
Definition tool_main (cmds : list (nvm_cli_cmd W)) (argv : list string) : M W Z :=
  '(err, cli) ← nvm_cli_init spdk imps cmds getenv read_file zero_cli argv;
  if err <? 0 then mret 1
  else
    '(res, cli) ← nvm_cli_run cmds (Some cli);
    _ ← nvm_cli_destroy spdk imps cli;
    mret res.
End tools.
