(* ===== verification/ToolsSpec.v ===== *)
(** The tools, end to end: a file written to a virtual block with one command
    comes back from it with another. *)
From Stdlib Require Import Ascii String.
From stdpp Require Import base numbers strings gmap option list.
From S2P Require Import Prelude Types Clib Nvme Addr Dev Backend Buf Be Cmd Vblk Stripe Media Linear VblkIO VblkRead VblkOps VblkWhole Bbt Open Cli Tools.

(** The virtual block of the tools on the members [l]: scalar commands when
    the environment asks for them. *)
Definition tool_vblk (getenv : string -> option string) (dev : nvm_dev) (d : Z) (l : list nvm_addr) : nvm_vblk :=
  let v := vblk_of dev d l NVM_VBLK_CMD_OPTS in
  match getenv "NVM_CLI_VBLK_SCALAR" with Some _ => (nvm_vblk_set_scalar v).2 | None => v end.

Section vblk_tool.
Context {W : Type} (spdk : spdk_env W) (imps : list (nvm_be W)) (getenv : string -> option string).
Context (be : nvm_be W) (dev : nvm_dev) `{!Media be dev, !Reliable be dev}.
Context (read_file : string -> M W (option (list Z))) (write_file : string -> list Z -> M W Z).
Context (fresh : Z -> list Z) (fuel : nat) (d : Z) (l : list nvm_addr) (ws : Z).
Context (Hsync : getenv "NVM_CLI_VBLK_ASYNC" = None) (Halloc : alloc_ok spdk dev).
#[local] Abbreviation v := (tool_vblk getenv dev d l).
#[local] Abbreviation v0 := (vblk_of dev d l NVM_VBLK_CMD_OPTS).
Context (Hv : vblk20_ok dev v ws) (Hdom : on_device dev v ws mdom).
Context (Hmeta : nvm_dev_get_meta_mode dev = NVM_META_MODE_NONE).
Implicit Types s : sys W.
#[local] Abbreviation nb := (nbytes (geo dev)).
#[local] Abbreviation size := (vblk_nbytes v).

Lemma cmd_mode_sync s : _vblk_cmd_mode getenv be dev v0 s = Some (v, s).
Proof using Hsync. unfold _vblk_cmd_mode, tool_vblk. by rewrite Hsync. Qed.

Lemma tool_size : vblk_nbytes v0 = size /\ pos_write v = 0 /\ pos_read v = 0 /\ has_flag v NVM_CMD_ASYNC = false.
Proof using. unfold tool_vblk. by destruct (getenv "NVM_CLI_VBLK_SCALAR"). Qed.

(** The commands with a buffer in between, the virtual block being [p]. *)
Lemma wp_tool_write cli inp file L p s (Q : Z -> sys W -> Prop) :
  vblk_served (be := be) dev v ws -> input_file cli = Some inp -> (forall s1, read_file inp s1 = Some (Some file, s1)) ->
  size <= Z.of_nat (length file) -> good mok s -> owns L [p] s ->
  (forall r s', good mok s' -> owns L [p] s' ->
     0 <= r /\ holds be dev v ws (take (Z.to_nat size) file) (world s') \/ r = -1 /\ errno s' = ENOMEM -> Q r s') ->
  wp (_vblk_write spdk getenv read_file fresh fuel be dev cli v0) s Q.
Proof using Hsync Halloc Hv Hdom Hmeta Reliable0.
  intros Hmode Hin Hread Hlen Hg Ho HQ. destruct tool_size as (E0 & Ep & _ & Ea).
  destruct (block_units dev v ws Hv) as (Hpos & _ & Hsz). destruct (block_sectors dev v ws Hv) as [_ E2]. pose proof (vo_nb _ _ _ Hv).
  unfold _vblk_write, nvm_vblk_get_nbytes. rewrite E0. apply wp_bind. eapply wp_intro; [apply cmd_mode_sync|].
  apply wp_bind. eapply (wp_buf_alloc spdk dev Halloc); [done|nia| |].
  { intros s1 G1 L1 W1 F1. cbn [Z.eqb]. apply wp_ret, HQ; [done|by apply (owns_ext _ [p] _ s)|by right]. }
  intros b s1 Hb Hf G1 L1 W1 _. rewrite (proj2 (Z.eqb_neq b 0)) by done.
  assert (Ho1 : owns L [b; p] s1) by by eapply owns_new.
  assert (Elen : length (take (Z.to_nat size) file) = Z.to_nat size) by (rewrite length_take; lia).
  unfold fill_input. rewrite Hin. unfold nvm_buf_from_file. apply wp_bind, wp_bind. eapply wp_intro; [apply Hread|].
  apply wp_bind. eapply (wp_intro _ _ file s1); [done|]. apply wp_bind. unfold buf_file_status.
  rewrite Elen, Z2Nat.id, Z.eqb_refl by lia. apply wp_ret, wp_ret. cbn [negb Z.eqb].
  apply wp_bind, (wp_whole_write spdk be dev v ws Hv Hdom fuel Ea); [done|done|done|done|rewrite length_app; lia|done| |by intros].
  intros s2 G2 L2 _ H2.
  rewrite take_app_le, take_ge in H2 by lia.
  assert (Ho2 : owns L [b; p] s2) by by apply (owns_ext _ [b; p] _ s1).
  apply wp_bind. eapply (wp_buf_free spdk dev Halloc); [done|by eapply owns_mem|]. intros s3 G3 L3 W3 _.
  apply wp_ret, HQ; [done|by eapply owns_drop; [exact G2|exact Ho2|]|]. left. split; [lia|]. by rewrite W3.
Qed.

Lemma wp_tool_read cli out bytes (stored : W -> Prop) L p s (Q : Z -> sys W -> Prop) :
  vblk_served (be := be) dev v (read_unit v ws) -> (read_unit v ws | lin_size dev v) ->
  (forall n, 0 <= n -> length (fresh n) = Z.to_nat n) ->
  output_file cli = Some out ->
  (forall s1, good mok s1 -> wp (write_file out bytes) s1 (fun n s2 => n = size /\ hp s2 = hp s1 /\ mok (world s2) /\ stored (world s2))) ->
  length bytes = Z.to_nat size -> good mok s -> holds be dev v ws bytes (world s) -> owns L [p] s ->
  (forall r s', good mok s' -> owns L [p] s' ->
     0 <= r /\ stored (world s') \/ r = -1 /\ errno s' = ENOMEM -> Q r s') ->
  wp (_vblk_read spdk getenv write_file fresh fuel be dev cli v0) s Q.
Proof using Hsync Halloc Hv Hdom Reliable0.
  intros Hmode Hu Hfresh Hout Hwrite Hbytes Hg Hh Ho HQ. destruct tool_size as (E0 & _ & Ep & Ea).
  destruct (block_units dev v ws Hv) as (Hpos & _ & Hsz). destruct (block_sectors dev v ws Hv) as [_ E2]. pose proof (vo_nb _ _ _ Hv).
  unfold _vblk_read, nvm_vblk_get_nbytes. rewrite E0. apply wp_bind. eapply wp_intro; [apply cmd_mode_sync|].
  apply wp_bind. eapply (wp_buf_alloc spdk dev Halloc); [done|nia| |].
  { intros s1 G1 L1 W1 F1. cbn [Z.eqb]. apply wp_ret, HQ; [done|by apply (owns_ext _ [p] _ s)|by right]. }
  intros b s1 Hb Hf G1 L1 W1 _. rewrite (proj2 (Z.eqb_neq b 0)) by done.
  assert (Ho1 : owns L [b; p] s1) by by eapply owns_new.
  unfold nvm_buf_fill. rewrite Hfresh, (proj2 (Z.ltb_ge _ _)) by lia. apply wp_bind, wp_ret.
  apply wp_bind, (wp_whole_read be dev v ws Hv Hdom fuel Ea _ bytes); [done|done|done| |done|by rewrite W1| |by intros].
  { rewrite length_app, length_fmap, length_seqZ, length_drop, Hfresh by lia. lia. }
  intros s2 G2 L2 _. apply wp_bind, wp_ret. unfold dump_output. rewrite Hout. unfold nvm_buf_to_file.
  apply wp_bind, wp_bind, wp_bind. rewrite take_ge by lia. eapply wp_mono; [by apply Hwrite|].
  intros n s3 (-> & Hh3 & Hm3 & Hs3). unfold buf_file_status. rewrite Z.eqb_refl. do 2 apply wp_ret.
  assert (G3 : good mok s3) by by eapply good_world.
  assert (Ho3 : owns L [b; p] s3) by (apply (owns_ext _ [b; p] _ s1); [done|unfold live in *; congruence|done]).
  apply wp_bind. eapply (wp_buf_free spdk dev Halloc); [done|by eapply owns_mem|]. intros s4 G4 L4 W4 _.
  apply wp_ret, HQ; [done|by eapply owns_drop; [exact G3|exact Ho3|]|]. left. split; [lia|]. by rewrite W4.
Qed.

(** A command on all the addresses of the command line. *)
Lemma wp_set_cmd cli arr failed run (P : W -> Prop) s (Q : Z * nvm_cli -> sys W -> Prop) :
  dev_be imps dev = Some be -> cli_dev cli = Some (d, arr, dev) -> verid dev = NVM_SPEC_VERID_20 ->
  0 <= args_naddrs (cli_args cli) <= VBLK_MAX -> args_naddrs (cli_args cli) <= Z.of_nat (length (args_addrs (cli_args cli))) ->
  take (Z.to_nat (args_naddrs (cli_args cli))) (args_addrs (cli_args cli)) = l -> Forall (in_bounds dev) l ->
  good mok s ->
  (forall s1, good mok s1 -> live s1 = live s -> errno s1 = ENOMEM ->
     wp failed s1 (fun r s2 => good mok s2 /\ live s2 = live s /\ errno s2 = ENOMEM /\ r <> 0)) ->
  (forall p s1, good mok s1 -> owns (live s) [p] s1 -> world s1 = world s ->
     wp (run be dev cli v0) s1 (fun r s2 => good mok s2 /\ owns (live s) [p] s2 /\
       (0 <= r /\ P (world s2) \/ r = -1 /\ errno s2 = ENOMEM))) ->
  (forall r s', good mok s' -> live s' = live s -> r = 0 /\ P (world s') \/ r <> 0 /\ errno s' = ENOMEM -> Q (r, cli) s') ->
  wp (set_cmd imps failed run cli) s Q.
Proof using.
  intros Hbe Hd Hver Hn Hlen Hl Hin Hg Hfail Hrun HQ. unfold set_cmd, with_device. rewrite Hd. apply wp_bind.
  rewrite Hbe. eapply (wp_intro _ _ be s); [done|].
  apply wp_bind, wp_vblk_alloc; [by right|by split; [apply Hg|]|done|done|]. rewrite Hl.
  intros [[p v']|] s1 (H1 & W1 & H2); apply wp_bind.
  - destruct H2 as (Hp & Hf & L1 & _ & ->). cbn [on_vblk]. apply wp_bind.
    assert (G1 : good mok s1) by (eapply good_world; [exact H1|done|rewrite W1; apply Hg]).
    assert (Ho1 : owns (live s) [p] s1) by (eapply owns_new; [done..|apply owns_none]).
    eapply wp_mono; [by apply Hrun|]. intros r s2 (G2 & Ho2 & Hr). apply wp_bind.
    eapply wp_free; [done|by eapply owns_mem|]. intros s3 G3 L3 W3 F3. do 2 apply wp_ret.
    assert (live s3 = live s) as E3.
    { destruct (owns_drop (live s) [] p s2 s3 G2 Ho2 L3) as [_ _ E]. rewrite E. apply union_empty_l_L. }
    apply HQ; [done|done|]. destruct Hr as [[Hr HP]|[-> HE]].
    + left. rewrite (proj2 (Z.ltb_ge r 0)) by done. split; [done|]. by rewrite W3.
    + right. cbn. split; [done|congruence].
  - destruct H2 as [L1 [F1|[_ []]]]; [|done]. cbn [on_vblk].
    eapply wp_mono; [apply Hfail; [|done|done]|]. { eapply good_world; [exact H1|done|rewrite W1; apply Hg]. }
    intros r s2 (G2 & L2 & F2 & Hr). apply wp_ret, HQ; [done|done|]. by right.
Qed.
End vblk_tool.

(** [tool set_write -i inp] and, when it succeeds, [tool set_read -o out]. *)
Definition write_then_read {W} (spdk : spdk_env W) (imps : list (nvm_be W)) (getenv : string -> option string)
    (read_file : string -> M W (option (list Z))) (write_file : string -> list Z -> M W Z) (fresh : Z -> list Z)
    (fuel : nat) (icli ocli : nvm_cli) : M W Z :=
  '(r, _) ← cmd_vblk_set_write spdk imps getenv read_file fresh fuel icli;
  if r =? 0 then '(r, _) ← cmd_vblk_set_read spdk imps getenv write_file fresh fuel ocli; mret r else mret r.

(** C4: a file stored with the virtual block tool comes back. On a 2.0 device
    on which no command fails and with metadata off, with a synchronous virtual
    block on addresses inside the device, whose size is a whole number of the
    commands that read it (64 sectors each in vector mode), and a file [inp] at
    least as long as the block: writing [inp] with [set_write] and then reading
    with [set_read] into the file [out] either answers 0, and then [out] was
    written with exactly the first bytes of [inp], as many as the block holds, or
    memory was short and the answer is not 0. No memory is kept either way. *)
Theorem vblk_tool_roundtrip {W} (spdk : spdk_env W) (imps : list (nvm_be W)) (getenv : string -> option string)
    (be : nvm_be W) (dev : nvm_dev) `{!Media be dev, !Reliable be dev} (d arr : Z) (l : list nvm_addr) (ws : Z)
    (read_file : string -> M W (option (list Z))) (write_file : string -> list Z -> M W Z)
    (fresh : Z -> list Z) (fuel : nat) (inp out : string) (file : list Z) (stored : W -> Prop)
    (icli ocli : nvm_cli) (s : sys W) (Hsync : getenv "NVM_CLI_VBLK_ASYNC" = None) (Halloc : alloc_ok spdk dev)
    (Hbe : dev_be imps dev = Some be) :
  let v := tool_vblk getenv dev d l in
  let bytes := take (Z.to_nat (vblk_nbytes v)) file in
  forall (Hv : vblk20_ok dev v ws) (Hdom : on_device dev v ws mdom)
    (Hmode : vblk_served (be := be) dev v ws) (Hread : vblk_served (be := be) dev v (read_unit v ws))
    (Hunit : (read_unit v ws | lin_size dev v)) (Hmeta : nvm_dev_get_meta_mode dev = NVM_META_MODE_NONE)
    (Hin : Forall (in_bounds dev) l) (Hl : Z.of_nat (length l) <= VBLK_MAX)
    (Hcli : Forall (fun cli => cli_dev cli = Some (d, arr, dev) /\ args_naddrs (cli_args cli) = Z.of_nat (length l) /\
       take (length l) (args_addrs (cli_args cli)) = l) [icli; ocli])
    (Hinp : input_file icli = Some inp) (Hout : output_file ocli = Some out)
    (Hrf : forall s1, read_file inp s1 = Some (Some file, s1)) (Hlen : vblk_nbytes v <= Z.of_nat (length file))
    (Hwf : forall s1, good mok s1 -> wp (write_file out bytes) s1 (fun n s2 =>
       n = Z.of_nat (length bytes) /\ hp s2 = hp s1 /\ mok (world s2) /\ stored (world s2)))
    (Hfresh : forall n, 0 <= n -> length (fresh n) = Z.to_nat n) (Hg : good mok s),
  wp (write_then_read spdk imps getenv read_file write_file fresh fuel icli ocli) s (fun r s' =>
    live s' = live s /\ (r = 0 /\ stored (world s') \/ r <> 0 /\ errno s' = ENOMEM)).
Proof.
  intros v bytes. intros. apply Forall_cons_1 in Hcli as [(D1 & N1 & T1) [(D2 & N2 & T2) _]%Forall_cons_1].
  assert (Hb : length bytes = Z.to_nat (vblk_nbytes v)) by (unfold bytes; rewrite length_take; lia).
  assert (Hr : forall cli, take (length l) (args_addrs (cli_args cli)) = l ->
    Z.of_nat (length l) <= Z.of_nat (length (args_addrs (cli_args cli)))).
  { intros cli E. apply (f_equal length) in E. rewrite length_take in E. lia. }
  assert (Herr : forall (s0 s1 : sys W), good mok s1 -> live s1 = live s0 -> errno s1 = ENOMEM ->
    wp get_errno s1 (fun r s2 => good mok s2 /\ live s2 = live s0 /\ errno s2 = ENOMEM /\ r <> 0)).
  { intros s0 s1 G1 L1 F1. eapply wp_intro; [done|]. rewrite F1. split; [done|]. split; [done|]. by split. }
  pose proof (vo_verid _ _ _ Hv) as Hver. unfold write_then_read, cmd_vblk_set_write, cmd_vblk_set_read.
  apply wp_bind, (wp_set_cmd imps be dev d l icli arr _ _ (holds be dev v ws bytes));
    try done; rewrite ?N1, ?Nat2Z.id; [lia|by apply Hr|exact T1|by apply Herr| |].
  { intros p s1 G1 O1 W1. eapply wp_tool_write; [done..|]. intros r s2 G2 O2 H2. by split. }
  intros r s1 G1 L1 [[-> Hh]|[Hne F1]]; [|by rewrite (proj2 (Z.eqb_neq r 0)) by done; apply wp_ret; split; [|right]].
  cbn [Z.eqb]. apply wp_bind, (wp_set_cmd imps be dev d l ocli arr _ _ stored);
    try done; rewrite ?N2, ?Nat2Z.id; [lia|by apply Hr|exact T2|by apply Herr| |].
  { intros p s2 G2 O2 W2. apply (wp_tool_read spdk getenv be dev write_file fresh fuel d l ws Hsync Halloc Hv Hdom ocli out bytes stored (live s1) p);
      try done.
    - intros s3 G3. eapply wp_mono; [by apply Hwf|]. intros n s4 (-> & ?). split; [|done]. rewrite Hb. apply Z2Nat.id.
      by destruct (block_units dev v ws Hv) as (_ & _ & ? & _).
    - by rewrite W2. }
  intros r s2 G2 L2 H2. apply wp_ret. split; [congruence|]. destruct H2 as [[-> H2]|[H2 F2]]; [by left|by right].
Qed.

(** The copy command answers the number of bytes when it succeeds, which
    [nvm_cli_run] takes for a failure: it never answers 0. *)
Lemma cmd_copy_never_zero {W} (imps : list (nvm_be W)) (cli : nvm_cli) d arr dev (s : sys W) :
  cli_dev cli = Some (d, arr, dev) -> i32 (u64 (nbytes (geo dev) * nsectr (geo dev))) <> 0 ->
  forall r cli' s', cmd_copy imps cli s = Some (r, cli', s') -> r <> 0.
Proof.
  intros Hd Hc r cli' s'. unfold cmd_copy, with_device. rewrite Hd. unfold mbind, M_bind, lift, mret, M_ret, fail.
  repeat case_match; intros; simplify_eq; done.
Qed.

(** ** Witnesses *)

(** Chunks 3 of the first units of both groups. *)
Definition tool_addrs : list nvm_addr := [set_l_chunk 3 0; set_l_chunk 3 (set_l_pugrp 1 0)].

Definition tool_cli (dev : nvm_dev) (mask : Z) : nvm_cli :=
  Cli "nvm_vblk" 0 (CliArgs "/dev/nvme0n1" (tool_addrs ++ replicate 1022 0) 2 [] 0 [] 0) (Some (1, 2, dev))
    (CliOpts mask 0 0 0 0 0 (replicate 3 zero_pfile) (Some "in.bin"%string) (Some "out.bin"%string) 0 0) (cli_evars zero_cli).

Definition tool_getenv (scalar : bool) (name : string) : option string :=
  if String.eqb name "NVM_CLI_VBLK_SCALAR" && scalar then Some "1"%string else None.
Definition tool_read_file {W} (file : list Z) (name : string) : M W (option (list Z)) :=
  mret (if String.eqb name "in.bin" then Some file else None).
Definition tool_write_file {W} (bytes : list Z) (name : string) (data : list Z) : M W Z :=
  if String.eqb name "out.bin" && bool_decide (data = bytes) then mret (Z.of_nat (length bytes)) else crash.

(** A block of 32 bytes in scalar commands, and one of 256 bytes in vector
    commands of 64 sectors. *)
Lemma vblk_tool_roundtrip_witness :
  let s := Sys 0 (sample_heap 9) (∅ : gmap nvm_addr (list Z)) in
  let run scalar dev file bytes := write_then_read spdk_stub [ram_be dev] (tool_getenv scalar) (tool_read_file file)
    (tool_write_file bytes) (fun n => replicate (Z.to_nat n) 0) 0
    (tool_cli dev NVM_CLI_OPT_FILE_INPUT) (tool_cli dev NVM_CLI_OPT_FILE_OUTPUT) in
  let done_or_short r (s' : sys (gmap nvm_addr (list Z))) := live s' = live s /\ (r = 0 /\ True \/ r <> 0 /\ errno s' = ENOMEM) in
  let f1 := Z.of_nat <$> seq 10 40 in
  let f2 := Z.of_nat <$> seq 0 300 in
  wp (run true tiny20 f1 (take 32 f1)) s done_or_short /\ wp (run false wide20 f2 (take 256 f2)) s done_or_short.
Proof.
  intros s run done_or_short f1 f2. split.
  - apply (vblk_tool_roundtrip spdk_stub [ram_be tiny20] (tool_getenv true) (ram_be tiny20) tiny20 1 2 tool_addrs 2
      (tool_read_file f1) (tool_write_file (take 32 f1)) (fun n => replicate (Z.to_nat n) 0) 0 "in.bin" "out.bin" f1 (fun _ => True)); try done.
    + apply tiny_alloc.
    + apply tiny_scalar_ok.
    + exact (conj I (or_intror eq_refl)).
    + exact (conj I (or_intror eq_refl)).
    + by exists 8.
    + do 2 (apply Forall_cons; split; [by vm_compute|]). done.
    + by repeat constructor.
    + intros n _. apply length_replicate.
    + apply sample_heap_wf.
  - apply (vblk_tool_roundtrip spdk_stub [ram_be wide20] (tool_getenv false) (ram_be wide20) wide20 1 2 tool_addrs 2
      (tool_read_file f2) (tool_write_file (take 256 f2)) (fun n => replicate (Z.to_nat n) 0) 0 "in.bin" "out.bin" f2 (fun _ => True)); try done.
    + by apply virt_alloc_ok; left.
    + apply wide_vblk_ok.
    + apply wide_served.
    + apply wide_served.
    + by exists 2.
    + do 2 (apply Forall_cons; split; [by vm_compute|]). done.
    + by repeat constructor.
    + intros n _. apply length_replicate.
    + apply sample_heap_wf.
Defined.
