(* ===== verification/Ioctl.v ===== *)
(** The Linux backend, [src/nvm_be_ioctl.c], built with its [ioctl] interface:
    each operation as the commands it hands to the kernel. The kernel is code
    outside the library, a [kernel] of system calls. *)
From stdpp Require Import base numbers strings gmap option list.
From S2P Require Import Prelude Types Nvme Addr Dev Backend Buf Be.

Definition NVM_FLAG_SCRBL : Z := 0x200.
Definition NVM_FLAG_DEFAULT : Z := Z.lor NVM_FLAG_PMODE_SNGL NVM_FLAG_SCRBL.
Definition NVM_BE_IOCTL_WRITABLE : Z := 0x1.
Definition NVM_DEV_NAME_LEN : Z := 32.
Definition NVM_DEV_PATH_LEN : Z := NVM_DEV_NAME_LEN + 5.

(** ** Commands *)

(** The member [ppa_list]: one device address, or a pointer to several. *)
Inductive ppas := PpaInline (a : Z) | PpaList (l : list Z).

(** The views of [struct nvm_cmd], with the members the backend assigns; the
    others are 0. *)
Record vuser := Vuser {
  vu_opcode : Z; vu_control : Z; vu_nppas : Z; vu_metadata : mem; vu_addr : kdata;
  vu_ppa_list : ppas; vu_metadata_len : Z; vu_data_len : Z }.
Record vadmin := Vadmin {
  va_opcode : Z; va_addr : kdata; va_data_len : Z; va_ppa_list : ppas; va_nppas : Z;
  va_control : Z }.
Record admin := Admin {
  ad_opcode : Z; ad_nsid : Z; ad_addr : kdata; ad_data_len : Z;
  ad_cdw10 : Z; ad_cdw11 : Z; ad_cdw12 : Z; ad_cdw13 : Z }.
Record user_io := UserIo {
  ui_opcode : Z; ui_nblocks : Z; ui_metadata : mem; ui_addr : kdata; ui_slba : Z }.
Record passthru := Passthru {
  pt_opcode : Z; pt_nsid : Z; pt_metadata : mem; pt_addr : kdata;
  pt_metadata_len : Z; pt_data_len : Z; pt_cdw10 : Z; pt_cdw11 : Z; pt_cdw12 : Z }.

(** What a call leaves: its value, the members [status] and [result] of the
    command, and the memory its pointers refer to. *)
Record krep := Krep { k_err : Z; k_status : Z; k_result : Z; k_addr : kdata; k_meta : mem }.

(** ** The kernel *)

(** Each call on a file descriptor; [sys_fstat] answers [S_ISBLK] too. *)
Record kernel (W : Type) := Kernel {
  sys_open : string -> Z -> M W Z;
  sys_close : Z -> M W unit;
  sys_fstat : Z -> M W (Z * bool);
  ioctl_id : Z -> M W Z;
  ioctl_submit_vio : Z -> vuser -> M W krep;
  ioctl_admin_vio : Z -> vadmin -> M W krep;
  ioctl_admin_cmd : Z -> admin -> M W krep;
  ioctl_submit_io : Z -> user_io -> M W krep;
  ioctl_io_cmd : Z -> passthru -> M W krep;
  ioctl_blkdiscard : Z -> Z -> Z -> M W Z;
  sys_pread : Z -> mem -> Z -> Z -> M W (Z * mem);
  sys_pwrite : Z -> mem -> Z -> Z -> M W Z }.
Arguments sys_open {W} _.
Arguments sys_close {W} _.
Arguments sys_fstat {W} _.
Arguments ioctl_id {W} _.
Arguments ioctl_submit_vio {W} _.
Arguments ioctl_admin_vio {W} _.
Arguments ioctl_admin_cmd {W} _.
Arguments ioctl_submit_io {W} _.
Arguments ioctl_io_cmd {W} _.
Arguments ioctl_blkdiscard {W} _.
Arguments sys_pread {W} _.
Arguments sys_pwrite {W} _.

Definition O_RDONLY : Z := 0x0.
Definition O_RDWR_DIRECT : Z := 0x4002.

Section ioctl.
Context {W : Type} (k : kernel W) (spdk : spdk_env W).

(** ** Issuing commands *)

(** [ret->result.vio.cs = cs; ret->status = status;] *)
Definition set_vio (cs status : Z) (ret : retp) : retp :=
  (fun r => Ret cs (u16 status) (ret_async r)) <$> ret.

Definition ioctl_vio (dev : nvm_dev) (cmd : vuser) (ret : retp) : M W (Z * krep * retp) :=
  rep ← ioctl_submit_vio k (dev_fd dev) cmd;
  let ret := set_vio (k_status rep) (k_result rep) ret in
  if negb (k_err rep =? 0) then mret (-1, rep, ret)
  else if negb (k_result rep =? 0) then fail EIO (-1, rep, ret)
  else mret (0, rep, ret).

Definition ioctl_vam (dev : nvm_dev) (cmd : vadmin) (ret : retp) : M W (Z * krep * retp) :=
  rep ← ioctl_admin_vio k (dev_fd dev) cmd;
  let ret := set_vio (k_status rep) (k_result rep) ret in
  if negb (k_err rep =? 0) then mret (-1, rep, ret)
  else if negb (k_result rep =? 0) then fail EIO (-1, rep, ret)
  else mret (0, rep, ret).

(** [req] and [cmd] are the call. *)
Definition ioctl_wrap (call : M W krep) (ret : retp) : M W (Z * krep * retp) :=
  rep ← call;
  let err := k_err rep in
  if err =? 0 then mret (0, rep, ret)
  else
    match ret with
    | None => mret (-1, rep, None)
    | Some r =>
        e ← get_errno;
        let err := if (err =? -1) && (e =? EINVAL) then 0x2 else err in
        mret (-1, rep, Some (if 0 <? err then Ret (result r) (u16 err) (ret_async r) else r))
    end.

(** ** Identification and features *)

Definition nvm_be_ioctl_idfy (dev : nvm_dev) (ret : retp)
    : M W (option (boxed nvm_spec_idfy) * retp) :=
  p ← nvm_buf_alloc spdk dev SIZEOF_IDFY;
  if p =? 0 then fail ENOMEM (None, ret)
  else
    '(err, rep, ret) ← ioctl_vam dev
      (Vadmin NVM_AOPC_IDFY (KIdfy zero_idfy) SIZEOF_IDFY (PpaInline 0) 0 0) ret;
    if negb (err =? 0) then _ ← nvm_buf_free spdk dev p; mret (None, ret)
    else
      match k_addr rep with
      | KIdfy i => mret (Some (p, i), ret)
      | _ => crash
      end.

Definition nvm_be_ioctl_gfeat (dev : nvm_dev) (id feat : Z) (ret : retp) : M W (Z * Z * retp) :=
  '(err, rep, ret) ← ioctl_wrap (ioctl_admin_cmd k (dev_fd dev)
    (Admin NVM_AOPC_GFEAT (u32 (dev_nsid dev)) (KMem None) 0 id 0 0 0)) ret;
  if negb (err =? 0) then mret (-1, feat, ret) else mret (0, k_result rep, ret).

Definition nvm_be_ioctl_sfeat (dev : nvm_dev) (id feat : Z) (ret : retp) : M W (Z * retp) :=
  '(err, _, ret) ← ioctl_wrap (ioctl_admin_cmd k (dev_fd dev)
    (Admin NVM_AOPC_SFEAT (u32 (dev_nsid dev)) (KMem None) 0 id feat 0 0)) ret;
  if negb (err =? 0) then mret (-1, ret) else mret (0, ret).

(** ** Chunk reports *)

(** [0x1000 * 4 / descr_len] *)
Definition max_descr_pr_call : Z := 0x1000 * 4 / SIZEOF_DESCR.

(** The command for [count] descriptors at [lpo] of the log. *)
Definition rprt_cmd (dev : nvm_dev) (l : list nvm_spec_rprt_descr) (count lpo : Z) : admin :=
  let data_len := u64 (count * SIZEOF_DESCR) in
  let numd := u32 (Z.shiftr data_len 2 - 1) in
  let numdu := u16 (Z.shiftr numd 16) in
  let numdl := u16 (Z.land numd 0xffff) in
  Admin NVM_AOPC_RPRT (u32 (dev_nsid dev)) (KDescr l) (u32 data_len)
    (u32 (Z.lor 0xCA (Z.shiftl numdl 16))) numdu (u32 lpo) (u32 (Z.shiftr lpo 32)).

(** One round: the descriptors from [i] on, at most 512. *)
Definition rprt_round (dev : nvm_dev) (p ndescr lpo_off i : Z)
    (acc : list nvm_spec_rprt_descr * retp)
    : M W (list nvm_spec_rprt_descr * retp + retp) :=
  let '(l, ret) := acc in
  let count := NVM_MIN max_descr_pr_call (u64 (ndescr - i)) in
  let lpo := u64 (lpo_off + u64 (i * SIZEOF_DESCR)) in
  '(err, rep, ret) ← ioctl_wrap (ioctl_admin_cmd k (dev_fd dev)
    (rprt_cmd dev (take (Z.to_nat count) (drop (Z.to_nat i) l)) count lpo)) ret;
  if negb (err =? 0) then _ ← nvm_buf_free spdk dev p; mret (inr ret)
  else
    match k_addr rep with
    | KDescr l' => mret (inl (take (Z.to_nat i) l ++ l' ++ drop (Z.to_nat i + length l') l, ret))
    | _ => crash
    end.

(** The fuel of the rounds is their number; past the last multiple of 512, the
    32-bit counter wraps and the rounds start over. *)
Definition nvm_be_ioctl_rprt (dev : nvm_dev) (addr : option nvm_addr) (opt : Z) (ret : retp)
    : M W (option (boxed nvm_spec_rprt) * retp) :=
  if negb (verid dev =? NVM_SPEC_VERID_20) then fail EINVAL (None, ret)
  else
    let g := geo dev in
    let lpo_off := match addr with Some a => nvm_addr_gen2lpo dev a | None => 0 end in
    let ndescr := match addr with
                  | Some _ => nchunk g
                  | None => mul64 [nchunk g; npunit g; npugrp g]
                  end in
    let rprt_len := u64 (u64 (ndescr * SIZEOF_DESCR) + SIZEOF_NDESCR) in
    p ← nvm_buf_alloc spdk dev rprt_len;
    if p =? 0 then fail ENOMEM (None, ret)
    else
      rounds ← lift (if 2 ^ 32 - max_descr_pr_call <? ndescr then None
                      else range_lt (trips 0 ndescr max_descr_pr_call) 0 ndescr max_descr_pr_call);
      r ← mfold_ret (rprt_round dev p ndescr lpo_off) rounds (replicate (Z.to_nat ndescr) zero_descr, ret);
      match r with
      | inr ret => mret (None, ret)
      | inl (l, ret) => mret (Some (p, Rprt ndescr l), ret)
      end.

(** ** Bad-block tables *)

Definition BBLT : list Z := [0x42; 0x42; 0x4C; 0x54].

Definition nvm_be_ioctl_gbbt (dev : nvm_dev) (addr : nvm_addr) (ret : retp)
    : M W (option (boxed nvm_spec_bbt) * retp) :=
  let nblks := u32 (nblocks (geo dev) * nplanes (geo dev)) in
  let spec_bbt_sz := SIZEOF_SPEC_BBT + nblks in
  p ← nvm_buf_alloc spdk dev spec_bbt_sz;
  if p =? 0 then fail ENOMEM (None, ret)
  else
    '(err, rep, ret) ← ioctl_vam dev
      (Vadmin NVM_AOPC_GBBT (KBlock p) (u32 spec_bbt_sz)
        (PpaInline (nvm_addr_gen2dev dev addr)) 0 0) ret;
    if negb (err =? 0) then
      _ ← set_errno EIO; _ ← nvm_buf_free spdk dev p; mret (None, ret)
    else
      match k_addr rep with
      | KBbt tblid b =>
          if negb (tblks b =? nblks) then
            _ ← set_errno EIO; _ ← nvm_buf_free spdk dev p; mret (None, ret)
          else if negb (bool_decide (tblid = BBLT)) then
            _ ← set_errno EIO; _ ← nvm_buf_free spdk dev p; mret (None, ret)
          else mret (Some (p, b), ret)
      | _ => crash
      end.

Definition bbt_mark_ok (flags : Z) : bool :=
  bool_decide (flags ∈ [NVM_BBT_FREE; NVM_BBT_BAD; NVM_BBT_DMRK; NVM_BBT_GBAD; NVM_BBT_HMRK]).

(** Address [i] is checked and converted; [inr] is [return -1]. *)
Definition sbbt_addr (dev : nvm_dev) (addrs : list nvm_addr) (i : Z) (acc : list Z)
    : M W (list Z + unit) :=
  a ← lift (lookupZ addrs i);
  bad ← nvm_addr_check a dev;
  if negb (bad =? 0) then fail EINVAL (inr tt) else mret (inl (acc ++ [nvm_addr_gen2dev dev a])).

(** [naddrs == 1 ? dev_addrs[0] : (uint64_t)dev_addrs] *)
Definition ppa_list_of (naddrs : Z) (l : list Z) : option ppas :=
  if naddrs =? 1 then PpaInline <$> l !! 0%nat else Some (PpaList l).

(** An array of no elements is undefined. *)
Definition nvm_be_ioctl_sbbt (dev : nvm_dev) (addrs : list nvm_addr) (naddrs flags : Z) (ret : retp)
    : M W (Z * retp) :=
  if naddrs <=? 0 then crash
  else if negb (bbt_mark_ok flags) then fail EINVAL (-1, ret)
  else if NVM_NADDR_MAX <? naddrs then fail EINVAL (-1, ret)
  else
    r ← mfold_ret (sbbt_addr dev addrs) (seqZ 0 naddrs) [];
    match r with
    | inr _ => mret (-1, ret)
    | inl l =>
        ppa ← lift (ppa_list_of naddrs l);
        '(err, _, ret) ← ioctl_vam dev
          (Vadmin NVM_AOPC_SBBT (KMem None) 0 ppa (u16 (naddrs - 1)) flags) ret;
        if negb (err =? 0) then fail EIO (-1, ret) else mret (0, ret)
    end.

(** ** Scalar commands *)

Definition nvm_be_ioctl_scalar_erase (dev : nvm_dev) (addrs : list nvm_addr) (naddrs flags : Z)
    (ret : retp) : M W (Z * retp) :=
  if is_async flags then fail EINVAL (-1, ret)
  else if (naddrs =? 0) || (NVM_NADDR_MAX <? naddrs) then fail EINVAL (-1, ret)
  else
    p ← nvm_buf_alloc spdk dev (u64 (SIZEOF_DSMR * naddrs));
    if p =? 0 then mret (-1, ret)
    else
      l ← lift (dev_addrs dev addrs naddrs);
      let dsmr := (fun d => Dsmr 0 (u32 (nsectr (geo dev))) d) <$> l in
      '(err, _, ret) ← ioctl_wrap (ioctl_io_cmd k (dev_fd dev)
        (Passthru NVM_DOPC_SCALAR_ERASE (u32 (dev_nsid dev)) None (KDsm dsmr) 0
          (u32 (naddrs * SIZEOF_DSMR)) (u32 (naddrs - 1)) (Z.shiftl 0x1 2) 0)) ret;
      if negb (err =? 0) then _ ← nvm_buf_free spdk dev p; mret (-1, ret)
      else _ ← nvm_buf_free spdk dev p; mret (0, ret).

(** What a command with the buffers [data] and [meta] left in them. *)
Definition kmem (d : kdata) : M W mem := match d with KMem m => mret m | _ => crash end.

Definition cmd_scalar_wr_dep_ioc (dev : nvm_dev) (addr : nvm_addr) (naddrs : Z) (data meta : mem)
    (opcode : Z) (ret : retp) : M W io_res :=
  '(err, rep, ret) ← ioctl_wrap (ioctl_submit_io k (dev_fd dev)
    (UserIo opcode (u16 (naddrs - 1)) meta (KMem data) (nvm_addr_gen2dev dev addr))) ret;
  data ← kmem (k_addr rep);
  if negb (err =? 0) then mret (IoRes (-1) data (k_meta rep) ret)
  else mret (IoRes 0 data (k_meta rep) ret).

Definition cmd_scalar_wr (dev : nvm_dev) (addr : nvm_addr) (naddrs : Z) (data meta : mem)
    (flags opcode : Z) (ret : retp) : M W io_res :=
  if is_async flags then fail EINVAL (IoRes (-1) data meta ret)
  else
    match meta with
    | Some _ => cmd_scalar_wr_dep_ioc dev addr naddrs data meta opcode ret
    | None =>
        let slba := nvm_addr_gen2dev dev addr in
        '(err, rep, ret) ← ioctl_wrap (ioctl_io_cmd k (dev_fd dev)
          (Passthru opcode (u32 (dev_nsid dev)) None (KMem data) 0
            (u32 (sector_nbytes (geo dev) * naddrs)) (u32 slba) (u32 (Z.shiftr slba 32))
            (u32 (naddrs - 1)))) ret;
        data ← kmem (k_addr rep);
        if negb (err =? 0) then mret (IoRes (-1) data (k_meta rep) ret)
        else mret (IoRes 0 data (k_meta rep) ret)
    end.

Definition nvm_be_ioctl_scalar_write (dev : nvm_dev) (addr : nvm_addr) (naddrs : Z)
    (data meta : mem) (flags : Z) (ret : retp) : M W (Z * retp) :=
  r ← cmd_scalar_wr dev addr naddrs data meta flags NVM_DOPC_SCALAR_WRITE ret;
  mret (rc r, io_ret r).
Definition nvm_be_ioctl_scalar_read (dev : nvm_dev) (addr : nvm_addr) (naddrs : Z)
    (data meta : mem) (flags : Z) (ret : retp) : M W io_res :=
  cmd_scalar_wr dev addr naddrs data meta flags NVM_DOPC_SCALAR_READ ret.

(** ** Vector commands *)

(** The command of [naddrs] addresses. *)
Definition vector_cmd (dev : nvm_dev) (naddrs : Z) (ppa : ppas) (data meta : mem)
    (flags opcode : Z) : vuser :=
  let hack := (opcode =? NVM_DOPC_VECTOR_ERASE) && is_some meta in
  Vuser opcode (u16 (Z.lor flags NVM_FLAG_DEFAULT)) (u16 (naddrs - 1)) meta
    (if hack then KBlock (be_state dev) else KMem data) ppa
    (if hack then u32 (SIZEOF_DESCR * naddrs)
     else if is_some meta then u32 (meta_nbytes (geo dev) * naddrs) else 0)
    (if hack then u32 (nbytes (geo dev))
     else if is_some data then u32 (sector_nbytes (geo dev) * naddrs) else 0).

(** The results that are acceptable errors. *)
Definition vio_ignored (result : Z) : bool := (result =? 0x700) || (result =? 0x4700).

Definition cmd_vector_ewr (dev : nvm_dev) (addrs : list nvm_addr) (naddrs : Z) (data meta : mem)
    (flags opcode : Z) (ret : retp) : M W io_res :=
  if is_async flags then fail EINVAL (IoRes (-1) data meta ret)
  else if naddrs <=? 0 then crash
  else if NVM_NADDR_MAX <? naddrs then fail EINVAL (IoRes (-1) data meta ret)
  else
    l ← lift (dev_addrs dev addrs naddrs);
    ppa ← lift (ppa_list_of naddrs l);
    let cmd := vector_cmd dev naddrs ppa data meta flags opcode in
    '(err, rep, ret) ← ioctl_vio dev cmd ret;
    data ← (match vu_addr cmd with KMem _ => kmem (k_addr rep) | _ => mret data end);
    if err =? 0 then mret (IoRes 0 data (k_meta rep) ret)
    else if vio_ignored (k_result rep) then mret (IoRes 0 data (k_meta rep) ret)
    else mret (IoRes (-1) data (k_meta rep) ret).

Definition nvm_be_ioctl_vector_erase (dev : nvm_dev) (addrs : list nvm_addr) (naddrs : Z)
    (meta : mem) (flags : Z) (ret : retp) : M W (Z * mem * retp) :=
  r ← cmd_vector_ewr dev addrs naddrs None meta flags NVM_DOPC_VECTOR_ERASE ret;
  mret (rc r, io_meta r, io_ret r).
Definition nvm_be_ioctl_vector_write (dev : nvm_dev) (addrs : list nvm_addr) (naddrs : Z)
    (data meta : mem) (flags : Z) (ret : retp) : M W (Z * retp) :=
  r ← cmd_vector_ewr dev addrs naddrs data meta flags NVM_DOPC_VECTOR_WRITE ret;
  mret (rc r, io_ret r).
Definition nvm_be_ioctl_vector_read (dev : nvm_dev) (addrs : list nvm_addr) (naddrs : Z)
    (data meta : mem) (flags : Z) (ret : retp) : M W io_res :=
  cmd_vector_ewr dev addrs naddrs data meta flags NVM_DOPC_VECTOR_READ ret.

(** ** Opening and closing *)

Definition nvm_be_ioctl_close (dev : nvm_dev) : M W unit :=
  _ ← nvm_buf_free spdk dev (be_state dev); sys_close k (dev_fd dev).

(** The table of the backend, opened by [open]. *)
Definition ioctl_table (open : string -> Z -> M W (option (boxed nvm_dev))) : nvm_be W :=
  NvmBe W NVM_BE_IOCTL "NVM_BE_IOCTL" open nvm_be_ioctl_close nvm_be_nosys_pass
    nvm_be_ioctl_idfy nvm_be_ioctl_rprt nvm_be_ioctl_gfeat nvm_be_ioctl_sfeat
    nvm_be_ioctl_gbbt nvm_be_ioctl_sbbt
    nvm_be_ioctl_scalar_erase nvm_be_ioctl_scalar_write nvm_be_ioctl_scalar_read
    nvm_be_ioctl_vector_erase nvm_be_ioctl_vector_write nvm_be_ioctl_vector_read
    nvm_be_nosys_vector_copy
    nvm_be_nosys_async_init nvm_be_nosys_async_term nvm_be_nosys_async_poke nvm_be_nosys_async_wait.

(** [nvm_be_populate] calls the table's [idfy] only. *)
Definition nvm_be_ioctl_open (dev_path : string) (flags : Z) : M W (option (boxed nvm_dev)) :=
  if NVM_DEV_PATH_LEN <? Z.of_nat (String.length dev_path) then fail EINVAL None
  else
    d ← malloc;
    if d =? 0 then mret None
    else if Z.of_nat (String.length dev_path) <? 5 then crash
    else
      fd ← sys_open k dev_path (if flags =? NVM_BE_IOCTL_WRITABLE then O_RDWR_DIRECT else O_RDONLY);
      if fd <? 0 then _ ← free d; mret None
      else
        '(err, isblk) ← sys_fstat k fd;
        if err <? 0 then mret None
        else if negb isblk then fail ENOTBLK None
        else
          nsid ← ioctl_id k fd;
          if nsid <? 1 then mret None
          else
            '(err, rep, _) ← ioctl_wrap (ioctl_admin_cmd k fd
              (Admin 0x06 nsid (KNs (dev_ns zero_dev)) 0x1000 0 0 0 0)) None;
            if negb (err =? 0) then mret None
            else
              match k_addr rep with
              | KNs ns =>
                  let dev := with_ns ns (with_nsid nsid (with_fd fd zero_dev)) in
                  '(err, dev) ← nvm_be_populate spdk dev (ioctl_table nvm_be_nosys_open);
                  if negb (err =? 0) then _ ← sys_close k fd; _ ← free d; mret None
                  else
                    b ← nvm_buf_alloc spdk dev (nbytes (geo dev));
                    if b =? 0 then _ ← sys_close k fd; _ ← free d; mret None
                    else mret (Some (d, with_be_state b dev))
              | _ => crash
              end.

Definition nvm_be_ioctl : nvm_be W := ioctl_table nvm_be_ioctl_open.
End ioctl.
