(* ===== verification/DevMedia.v ===== *)
(** From generic addresses to device addresses: the sectors of a 2.0 device by
    their device address, for backends whose commands carry those. *)
From stdpp Require Import base numbers strings gmap option list.
From S2P Require Import Prelude Types Nvme Addr Dev Backend Buf Be Cmd Vblk Stripe Media Linear VblkIO.

(** The sectors of a scalar command. *)
Definition run_from (d n : Z) : list Z := Z.add d <$> seqZ 0 n.

Lemma run_from_len d n : 0 <= n -> Z.of_nat (length (run_from d n)) = n.
Proof. intros. unfold run_from. rewrite length_fmap, length_seqZ. lia. Qed.

Lemma run_from_NoDup d n : NoDup (run_from d n).
Proof. unfold run_from. apply NoDup_fmap_2; [intros ???; lia|apply NoDup_seqZ]. Qed.

Lemma failed_write {W} (mok : W -> Prop) nb dom km addrs data s e : good mok s ->
  write_post mok dom km nb addrs data s (-1) (Sys e (hp s) (world s)).
Proof. intros Hwf. split; [done|]. split; [done|]. by split. Qed.

Lemma failed_read {W} (mok : W -> Prop) nb dom (km : W -> nvm_addr -> list Z) addrs data meta ret s e : good mok s ->
  read_post mok dom km nb addrs data s (IoRes (-1) (Some data) meta ret) (Sys e (hp s) (world s)).
Proof. intros Hwf. split; [done|]. split; [done|]. split; [done|]. by exists data. Qed.

(** A 2.0 device with a well-formed format and ordinary sectors. *)
Record lba_dev_ok (dev : nvm_dev) : Prop := {
  id_fmt : lba_fmt_ok dev;
  id_nb : 0 < nbytes (geo dev) < 2 ^ 16 }.

(** ** From device addresses to generic ones *)

Definition lba_dom (dev : nvm_dev) (a : nvm_addr) : Prop := addr_ok a /\ lba_fits dev a.

Section translate.
Context (dev : nvm_dev) (Hok : lba_dev_ok dev).
#[local] Abbreviation gen2dev := (nvm_addr_gen2dev dev).

Lemma gen2dev_inj a b : lba_dom dev a -> lba_dom dev b -> gen2dev a = gen2dev b -> a = b.
Proof.
  intros [Ha1 Ha2] [Hb1 Hb2] E.
  rewrite <-(dev2gen_gen2dev_lba dev a), <-(dev2gen_gen2dev_lba dev b), E; done || apply Hok.
Qed.

Lemma gen2dev_NoDup addrs : Forall (lba_dom dev) addrs -> NoDup addrs -> NoDup (gen2dev <$> addrs).
Proof.
  intros Hd Hnd. apply NoDup_fmap_2_strong; [|done]. intros a b Ha Hb.
  rewrite Forall_forall in Hd. apply gen2dev_inj; auto.
Qed.

(** The converted addresses of a run of sectors run too. *)
Lemma gen2dev_run a n : Forall (lba_dom dev) (run_addrs a n) -> l_sectr a + n <= 2 ^ 32 ->
  gen2dev <$> run_addrs a n = run_from (gen2dev a) n.
Proof.
  intros Hd Hn. pose proof (id_fmt _ Hok) as Hf. destruct (l_fields_range a) as (R & _).
  unfold run_addrs, run_from. rewrite <-list_fmap_compose. apply list_fmap_ext.
  intros k i Hi. cbn. apply lookup_seqZ in Hi as [-> Hk]. set (i := 0 + Z.of_nat k) in *.
  rewrite Forall_forall in Hd.
  assert (Hs : forall j, 0 <= j < n -> lba_fits dev (sectr_at a j)).
  { intros j Hj. apply Hd. unfold run_addrs. apply list_elem_of_fmap_2, elem_of_seqZ. lia. }
  assert (Hsec : forall j, 0 <= j < n -> l_sectr a + j < 2 ^ lbaf_sectr (lbaf dev)).
  { intros j Hj. destruct (Hs j Hj) as [H1 _]. destruct (sectr_at_fields a j) as (E & _).
    rewrite E, wrap_id in H1 by lia. done. }
  assert (Hfit : lba_fits dev a).
  { destruct (Hs 0 ltac:(lia)) as (_ & H2 & H3 & H4). destruct (sectr_at_fields a 0) as (_ & E2 & E3 & E4).
    rewrite E2, E3, E4 in *. pose proof (Hsec 0 ltac:(lia)). split; [lia|done]. }
  assert (E0 : gen2dev a = gen2dev (set_l_sectr (l_sectr a) a)).
  { apply gen2dev_fields; [apply Hf|by addr_simpl..|]. addr_simpl. symmetry. apply wrap_id. exact R. }
  assert (Hi : 0 <= l_sectr a + i < 2 ^ lbaf_sectr (lbaf dev)) by (split; [lia|apply Hsec; lia]).
  assert (H0 : 0 <= l_sectr a < 2 ^ lbaf_sectr (lbaf dev)) by (split; [lia|apply Hfit]).
  rewrite E0. unfold sectr_at. rewrite (gen2dev_sectr dev a _ Hf Hfit Hi), (gen2dev_sectr dev a _ Hf Hfit H0).
  by rewrite Z.add_assoc.
Qed.

Lemma dev_addrs_all addrs : dev_addrs dev addrs (Z.of_nat (length addrs)) = Some (gen2dev <$> addrs).
Proof. unfold dev_addrs. by rewrite Z.ltb_irrefl, Nat2Z.id, firstn_all. Qed.

Lemma gen2dev_range a : lba_fits dev a -> 0 <= gen2dev a < 2 ^ 64.
Proof.
  intros Hf. pose proof (lba_bound dev a (id_fmt _ Hok) Hf) as H.
  assert (2 ^ lba_width dev <= 2 ^ 64); [|lia]. apply Z.pow_le_mono_r; [lia|].
  destruct (id_fmt _ Hok). unfold lba_width, field_ok in *. lia.
Qed.

Lemma run_addrs_fits a n : 0 < n -> Forall (lba_dom dev) (run_addrs a n) -> lba_fits dev a.
Proof.
  intros Hn Hd. rewrite Forall_forall in Hd. destruct (Hd (sectr_at a 0)) as [_ (H1 & H2 & H3 & H4)].
  { unfold run_addrs. apply list_elem_of_fmap_2, elem_of_seqZ. lia. }
  destruct (sectr_at_fields a 0) as (E1 & E2 & E3 & E4). destruct (l_fields_range a) as (R & _).
  rewrite E1, E2, E3, E4 in *. rewrite Z.add_0_r, wrap_id in H1 by lia. done.
Qed.

Lemma run_from_fmap a n : Forall (lba_dom dev) (run_addrs a n) -> l_sectr a + n <= 2 ^ 32 ->
  run_from (gen2dev a) n = gen2dev <$> run_addrs a n.
Proof. intros. symmetry. by apply gen2dev_run. Qed.

Section posts.
Context {W : Type} (mok : W -> Prop) (km : W -> Z -> list Z).
#[local] Abbreviation med := (fun w a => km w (gen2dev a)).

Lemma write_post_gen nb addrs data s e s' : Forall (lba_dom dev) addrs ->
  write_post mok (fun _ => True) km nb (gen2dev <$> addrs) data s e s' ->
  write_post mok (lba_dom dev) med nb addrs data s e s'.
Proof.
  intros Hd (H1 & H2 & H3 & H4). split; [done|]. split; [done|]. split.
  - intros a Ha Hn. apply H3; [done|]. intros (b & E & Hb)%list_elem_of_fmap. apply Hn.
    rewrite Forall_forall in Hd. apply gen2dev_inj in E; [by subst|done|by apply Hd].
  - intros E i a Hi. apply H4; [done|]. by rewrite list_lookup_fmap, Hi.
Qed.

Lemma read_post_gen nb addrs data s r s' :
  read_post mok (fun _ => True) km nb (gen2dev <$> addrs) data s r s' ->
  read_post mok (lba_dom dev) med nb addrs data s r s'.
Proof.
  unfold read_post. rewrite length_fmap. intros (H1 & H2 & H3 & d & H4 & H5 & H6 & H7).
  split; [done|]. split; [done|]. split; [intros a _; by apply H3|]. exists d.
  split; [done|]. split; [done|]. split; [done|]. intros E. rewrite H7 by done.
  by rewrite <-list_fmap_compose.
Qed.

Lemma read_post_rc dom nb addrs data s r r' s' : io_data r = io_data r' -> (rc r' = 0 -> rc r = 0) ->
  read_post mok dom km nb addrs data s r s' -> read_post mok dom km nb addrs data s r' s'.
Proof.
  intros E Er (H1 & H2 & H3 & d & H4 & H5 & H6 & H7). split; [done|]. split; [done|].
  split; [done|]. exists d. rewrite <-E. split; [done|]. split; [done|]. split; [done|]. auto.
Qed.

Lemma write_post_rc dom nb addrs data s e e' s' : (e' = 0 -> e = 0) ->
  write_post mok dom km nb addrs data s e s' -> write_post mok dom km nb addrs data s e' s'.
Proof. intros Er (H1 & H2 & H3 & H4). split; [done|]. split; [done|]. split; [done|]. auto. Qed.
End posts.
End translate.

(** ** Virtual blocks *)

(** Every device address is the address of a sector. *)
Lemma dev2gen_dom dev (Hok : lba_dev_ok dev) d : 0 <= d < 2 ^ lba_width dev ->
  lba_dom dev (nvm_addr_dev2gen dev d) /\ nvm_addr_gen2dev dev (nvm_addr_dev2gen dev d) = d.
Proof.
  intros Hd. pose proof (id_fmt _ Hok) as Hf. split; [|by apply gen2dev_dev2gen_lba].
  split; [|by apply dev2gen_fits_lba]. unfold nvm_addr_dev2gen. rewrite (lf_verid _ Hf). cbn. addr_wf.
Qed.

(** A write to a 2.0 virtual block, by device addresses, on a backend whose
    sectors have the contents [km] there. *)
Section dev_pwrite.
Context {W : Type} (spdk : spdk_env W) (be : nvm_be W) (dev : nvm_dev) `{!Media be dev}.
Context (Hok : lba_dev_ok dev) (km : W -> Z -> list Z).
Context (Hmd : forall a, lba_dom dev a -> mdom a).
Context (Hmedia : forall w a, media w a = km w (nvm_addr_gen2dev dev a)).

Lemma dev_pwrite v ws buf count offset s : vblk20_ok dev v ws -> on_device dev v ws (lba_dom dev) ->
  vblk_served (be := be) dev v ws -> alloc_ok spdk dev -> 0 <= count -> good mok s ->
  request_ok dev v ws buf count offset ->
  let nb := nbytes (geo dev) in
  let at_ i := nvm_addr_gen2dev dev (lin20 v ws (offset / nb + i)) in
  wp (vblk_sync_pwrite_s20 spdk be dev v buf count offset) s (fun r s' =>
    good mok s' /\ live s' = live s /\
    (forall d, 0 <= d < 2 ^ lba_width dev -> (forall i, 0 <= i < count / nb -> d <> at_ i) ->
       km (world s') d = km (world s) d) /\
    (r = count /\ (forall i, 0 <= i < count / nb -> km (world s') (at_ i) = request_src dev ws buf count i) \/
     r = -1 /\ (errno s' = EIO \/ errno s' = ENOMEM))).
Proof.
  intros Hv Hdom Hsv Ha Hc Hwf Hr nb at_.
  apply (wp_pwrite spdk be dev v ws Hv (fun x Hx => Hmd _ (Hdom x Hx)) Hsv Ha); [done..|].
  intros r s' Hwf' Hl Hfr Hd. split; [done|]. split; [done|]. split.
  - intros d Hrange Hne. destruct (dev2gen_dom dev Hok d Hrange) as [Hdm E].
    rewrite <-E, <-!Hmedia. apply (Hfr _ (Hmd _ Hdm)). intros (i & Hi & Ea)%lin_run_elem. apply (Hne i Hi).
    unfold at_. by rewrite <-E, Ea.
  - destruct Hd as [[-> Hd]|[-> [[? _]|[? _]]]]; [left|right; auto..]. split; [done|].
    intros i Hi. unfold at_. by rewrite <-Hmedia, Hd.
Qed.
End dev_pwrite.

(** ** The sample device *)

#[export] Instance lba_dom_dec d a : Decision (lba_dom d a).
Proof. unfold lba_dom, addr_ok, lba_fits. apply _. Defined.

Lemma tiny_lba_ok : lba_dev_ok tiny20.
Proof. split; [|by split]. split; try done; vm_compute; intuition congruence. Qed.

Lemma tiny_lba_dom : on_device tiny20 tiny_vblk 2 (lba_dom tiny20).
Proof.
  intros x Hx. assert (H : Forall (lba_dom tiny20) (lin20 tiny_vblk 2 <$> seqZ 0 16))
    by (apply (bool_decide_eq_true_1 _); by vm_compute).
  rewrite Forall_forall in H. by apply H, list_elem_of_fmap_2, elem_of_seqZ.
Qed.
