(* ===== verification/Reports.v ===== *)
(** Chunk reports: the part of a device's log of chunk information that a report
    covers, and the rounds that assemble it from several commands. *)
From stdpp Require Import base numbers strings gmap option list.
From S2P Require Import Prelude Types Nvme Addr Dev Backend Buf Be Cmd.

(** ** The range of a chunk report *)

Section reports.
Context (dev : nvm_dev) (Hver : verid dev = NVM_SPEC_VERID_20) (Hg : geo_counts_ok (geo dev)).
#[local] Abbreviation total := (npugrp (geo dev) * npunit (geo dev) * nchunk (geo dev)).

(** What a report may be asked for: a unit by its first chunk, or the device. *)
Definition rprt_unit (addr : option nvm_addr) : Prop :=
  match addr with Some a => in_bounds dev a /\ l_chunk a = 0 | None => True end.

(** Its first chunk, and how many. *)
Definition rprt_off (addr : option nvm_addr) : Z :=
  match addr with Some a => chunk_idx (geo dev) a | None => 0 end.
Definition rprt_n (addr : option nvm_addr) : Z :=
  match addr with Some _ => nchunk (geo dev) | None => total end.

Lemma rprt_range addr : rprt_unit addr ->
  0 <= rprt_off addr /\ 0 < rprt_n addr /\ rprt_off addr + rprt_n addr <= total.
Proof.
  intros Ha. pose proof Hg as (G1 & G2 & G3). unfold rprt_off, rprt_n. destruct addr as [a|]; [|nia].
  destruct Ha as [Hb H0]. unfold in_bounds in Hb. rewrite Hver in Hb. cbn in Hb.
  unfold chunk_idx. rewrite H0. destruct (l_fields_range a) as (_ & _ & R3 & R4).
  destruct Hb as (B1 & B2 & B3 & _).
  assert (Hi : 0 <= l_pugrp a * npunit (geo dev) + l_punit a /\
    l_pugrp a * npunit (geo dev) + l_punit a + 1 <= npugrp (geo dev) * npunit (geo dev)) by nia.
  revert Hi. generalize (l_pugrp a * npunit (geo dev) + l_punit a) (npugrp (geo dev) * npunit (geo dev)).
  intros. nia.
Qed.

Lemma total_range : 0 < total <= 2 ^ 32.
Proof.
  destruct Hg as (H1 & H2 & H3). split; [nia|].
  assert (npugrp (geo dev) * npunit (geo dev) <= 2 ^ 16) by nia. nia.
Qed.

Lemma mul64_3 a b c : 0 < a -> 0 < b -> 0 < c -> a * b * c < 2 ^ 64 -> mul64 [a; b; c] = a * b * c.
Proof.
  intros. unfold mul64. cbn [foldl]. assert (a <= a * b) by nia. assert (a * b <= a * b * c) by nia.
  rewrite Z.mul_1_l, (wrap_id 64 a), (wrap_id 64 (a * b)), wrap_id by lia. done.
Qed.

(** As the backends compute them. *)
Lemma rprt_lpo addr : rprt_unit addr ->
  match addr with Some a => nvm_addr_gen2lpo dev a | None => 0 end = rprt_off addr * SIZEOF_DESCR.
Proof. destruct addr as [a|]; [|done]. intros [Hb _]. by apply gen2lpo_idx. Qed.

Lemma rprt_count addr :
  match addr with Some _ => nchunk (geo dev) | None => mul64 [nchunk (geo dev); npunit (geo dev); npugrp (geo dev)] end
  = rprt_n addr.
Proof.
  destruct addr as [a|]; [done|]. pose proof total_range. destruct Hg as (H1 & H2 & H3).
  assert (nchunk (geo dev) * npunit (geo dev) * npugrp (geo dev) = total) as E by ring.
  rewrite mul64_3 by lia. exact E.
Qed.
End reports.

(** ** The rounds *)

(** The part of a log. *)
Lemma log_part_len (log : list nvm_spec_rprt_descr) off n : 0 <= off -> 0 <= n -> off + n <= Z.of_nat (length log) ->
  Z.of_nat (length (take (Z.to_nat n) (drop (Z.to_nat off) log))) = n.
Proof. intros. rewrite length_take, length_drop. lia. Qed.

(** After the rounds on the first [d] of [n] descriptors. *)
Definition report_upto (D : list nvm_spec_rprt_descr) (d : Z) : list nvm_spec_rprt_descr :=
  take (Z.to_nat d) D ++ replicate (length D - Z.to_nat d) zero_descr.

Lemma report_upto_step D i c : 0 <= i -> 0 <= c -> i + c <= Z.of_nat (length D) ->
  let l := report_upto D i in
  take (Z.to_nat i) l ++ take (Z.to_nat c) (drop (Z.to_nat i) D) ++
    drop (Z.to_nat i + length (take (Z.to_nat c) (drop (Z.to_nat i) D))) l = report_upto D (i + c).
Proof.
  intros Hi Hc Hl l. unfold l, report_upto.
  rewrite take_app_length' by (rewrite length_take; lia).
  rewrite drop_app_add' by (rewrite length_take; lia).
  rewrite length_take, length_drop, Nat.min_l, drop_replicate by lia.
  rewrite app_assoc, take_take_drop. f_equal; [f_equal; lia|f_equal; lia].
Qed.

Lemma report_upto_len D d : 0 <= d <= Z.of_nat (length D) -> length (report_upto D d) = length D.
Proof. intros. unfold report_upto. rewrite length_app, length_take, length_replicate. lia. Qed.

(** A round that brings [c] descriptors of the log from [off + i] on. *)
Lemma log_part_step log off n i c : 0 <= off -> off + n <= Z.of_nat (length log) -> 0 <= i -> 0 <= c -> i + c <= n ->
  let l := report_upto (take (Z.to_nat n) (drop (Z.to_nat off) log)) i in
  let l' := take (Z.to_nat c) (drop (Z.to_nat (off + i)) log) in
  take (Z.to_nat i) l ++ l' ++ drop (Z.to_nat i + length l') l =
    report_upto (take (Z.to_nat n) (drop (Z.to_nat off) log)) (i + c).
Proof.
  intros Ho Hn Hi Hc Hb. cbn zeta. set (D := take (Z.to_nat n) (drop (Z.to_nat off) log)).
  assert (E : take (Z.to_nat c) (drop (Z.to_nat (off + i)) log) = take (Z.to_nat c) (drop (Z.to_nat i) D)).
  { unfold D. rewrite skipn_firstn_comm, take_take, drop_drop. f_equal; [lia|f_equal; lia]. }
  rewrite E. apply report_upto_step; [lia..|]. unfold D. rewrite log_part_len; lia.
Qed.

(** The loop over rounds of [m] descriptors: each brings its part or ends the
    report, whose buffer [p] it has released. *)
Lemma wp_report_rounds {W} (J : W -> Prop) (D : list nvm_spec_rprt_descr) (m n p : Z)
    (f : Z -> list nvm_spec_rprt_descr * retp -> M W (list nvm_spec_rprt_descr * retp + retp)) ret (s0 : sys W)
    (Q : list nvm_spec_rprt_descr * retp + retp -> sys W -> Prop) :
  0 < m -> Z.of_nat (length D) = n -> good J s0 ->
  (forall i l ret s, good J s -> live s = live s0 -> 0 <= i < n -> l = report_upto D i ->
     wp (f i (l, ret)) s (fun r s' => good J s' /\
       match r with
       | inl (l', _) => live s' = live s0 /\ l' = report_upto D (Z.min n (i + m))
       | inr _ => live s' = live s0 ∖ {[p]}
       end)) ->
  (forall ret' s', good J s' -> live s' = live s0 -> Q (inl (D, ret')) s') ->
  (forall ret' s', good J s' -> live s' = live s0 ∖ {[p]} -> Q (inr ret') s') ->
  wp (mfold_ret f (steps 0 m (trips 0 n m)) (replicate (Z.to_nat n) zero_descr, ret)) s0 Q.
Proof.
  intros Hm HlD Hwf Hf HS HE. apply (wp_mfold_ret _
    (fun pre acc s' => good J s' /\ live s' = live s0 /\ acc.1 = report_upto D (Z.min n (Z.of_nat (length pre) * m)))
    (fun _ s' => good J s' /\ live s' = live s0 ∖ {[p]})).
  - split; [done|]. split; [done|]. cbn [fst length Z.of_nat]. rewrite Z.min_r by lia. unfold report_upto.
    rewrite take_0. cbn [app]. f_equal. lia.
  - intros pre i post [l ret1] s2 E (Hwf2 & Hl2 & El). cbn [fst] in El. apply steps_split in E as [Ei Hlt].
    pose proof (trips_lt 0 n m (Z.of_nat (length pre)) ltac:(lia) ltac:(lia)). rewrite Z.min_r in El by lia.
    eapply wp_mono; [apply Hf; [done|done|nia|by rewrite El; f_equal; lia]|]. intros [[l' ret']|ret'] s3 [Hwf3 H3].
    + destruct H3 as [Hl3 ->]. split; [done|]. split; [done|]. cbn [fst]. rewrite length_app. cbn [length].
      f_equal. lia.
    + by split.
  - intros [l ret1] s2 (Hwf2 & Hl2 & El). cbn [fst] in El. rewrite steps_length in El.
    pose proof (trips_ge 0 n m Hm). rewrite Z.min_l in El by lia. unfold report_upto in El.
    rewrite take_ge in El by lia. replace (length D - Z.to_nat n)%nat with 0%nat in El by lia.
    cbn [replicate] in El. rewrite app_nil_r in El. subst l. by apply HS.
  - intros ret1 s2 [Hwf2 Hl2]. by apply HE.
Qed.

(** ** The search for chunks in a log *)

Section search.
Context {W : Type} (spdk : spdk_env W) (be : nvm_be W) (dev : nvm_dev).
Context (Hver : verid dev = NVM_SPEC_VERID_20) (Hg : geo_counts_ok (geo dev)) (Hsec : 0 < nsectr (geo dev)).
Context (log : list nvm_spec_rprt_descr) (I : W -> Prop).
Implicit Types s : sys W.
#[local] Abbreviation g := (geo dev).
#[local] Abbreviation total := (npugrp g * npunit g * nchunk g).

Lemma unit_addr_rprt a : unit_addr g a -> rprt_unit dev (Some a).
Proof.
  intros (H1 & H2 & H3 & H4). pose proof Hg as (_ & _ & G3). split; [|done]. unfold in_bounds. rewrite Hver.
  cbn. rewrite H3, H4. lia.
Qed.

(** The report of a unit. *)
Definition log_report (a : nvm_addr) : nvm_spec_rprt :=
  Rprt (nchunk g) (take (Z.to_nat (nchunk g)) (drop (Z.to_nat (chunk_idx g a)) log)).

(** A backend that answers it. *)
Lemma log_rprt_law : Z.of_nat (length log) = total ->
  (forall a s (Q : option (boxed nvm_spec_rprt) * retp -> sys W -> Prop), good I s -> rprt_unit dev (Some a) ->
     (forall ret' s', good I s' -> live s' = live s -> Q (None, ret') s') ->
     (forall p ret' s', good I s' -> p <> 0 -> p ∉ live s -> live s' = {[p]} ∪ live s ->
        Q (Some (p, log_report a), ret') s') ->
     wp (be_rprt be dev (Some a) 0 None) s Q) ->
  rprt_law I be dev log_report.
Proof.
  intros Hlog Hb a s Hwf Hu. pose proof (unit_addr_rprt a Hu) as Ha. apply Hb; [done|done|by intros|].
  intros p ret s' Hwf' Hp Hf Hl. split; [done|]. split; [done|]. cbn [ndescr descr log_report].
  destruct (rprt_range dev Hver Hg (Some a) Ha) as (R1 & R2 & R3). cbn [rprt_off rprt_n] in R1, R2, R3.
  pose proof Hg as (_ & _ & G3). split; [lia|]. split; [|done]. apply log_part_len; lia.
Qed.

(** The first [n] of [addrs] are chunks in state [cst], all in different
    units. *)
Definition chunks_found (cst n : Z) (addrs : list nvm_addr) : Prop :=
  (forall i, 0 <= i < n -> exists a d, addrs !! Z.to_nat i = Some a /\ addr_ok a /\ in_bounds dev a /\ l_sectr a = 0 /\
     log !! Z.to_nat (chunk_idx g a) = Some d /\ cs d = cst) /\
  (forall i j a b, 0 <= i < n -> 0 <= j < n -> i <> j -> addrs !! Z.to_nat i = Some a -> addrs !! Z.to_nat j = Some b ->
     (l_pugrp a, l_punit a) <> (l_pugrp b, l_punit b)).

Lemma wp_log_arbs cst n arb addrs0 s (Q : Z * list nvm_addr -> sys W -> Prop) :
  alloc_ok spdk dev -> rprt_law I be dev log_report -> 0 <= arb -> arb + n < 2 ^ 31 -> good I s ->
  0 <= n <= npugrp g * npunit g -> n <= Z.of_nat (length addrs0) ->
  (forall addrs s', good I s' -> live s' = live s -> length addrs = length addrs0 ->
     (forall i, n <= i -> addrs !! Z.to_nat i = addrs0 !! Z.to_nat i) -> chunks_found cst n addrs -> Q (0, addrs) s') ->
  (forall addrs s', good I s' -> live s' = live s -> errno s' = EINVAL -> Q (-1, addrs) s') ->
  wp (nvm_cmd_rprt_arbs spdk be dev cst n arb addrs0) s Q.
Proof.
  intros Ha Hlaw H0 Hb Hwf Hn Hlen HS HE.
  eapply wp_mono; [by apply (wp_rprt_arbs spdk be dev I log_report Ha Hlaw Hg cst n arb)|].
  intros [r addrs] s' (Hwf' & Hl & [(-> & Hf)|(-> & He)]); [|by apply HE].
  apply HS; [done|done|apply Hf|apply Hf|]. split.
  - intros i Hi. destruct (arbs_filled_entry dev log_report Hg cst n arb addrs0 addrs i Hf Hlen Hi)
      as (a & H1 & Hw & (U1 & U2 & _ & _) & H3 & H4 & d & Hd & Hc).
    assert (E : chunk_idx g a = chunk_idx g (set_l_chunk 0 a) + l_chunk a).
    { unfold chunk_idx. addr_simpl. change (u16 0) with 0. lia. }
    destruct (l_fields_range a) as (_ & R2 & _). cbn [log_report descr] in Hd.
    rewrite lookup_take_lt, lookup_drop in Hd by lia. exists a, d. split; [done|]. split; [done|]. split.
    { revert U1 U2. unfold in_bounds. rewrite Hver. addr_simpl. cbn. rewrite H3. lia. }
    split; [done|]. split; [|done]. rewrite <-Hd. f_equal.
    assert (0 <= chunk_idx g (set_l_chunk 0 a)); [|lia]. destruct (l_fields_range (set_l_chunk 0 a)) as (_ & X2 & X3 & X4).
    pose proof Hg as (G1 & G2 & G3). unfold chunk_idx. nia.
  - intros i j a b Hi Hj Hne E1 E2.
    eapply (arbs_filled_apart dev log_report Hg cst n arb addrs0 addrs i j); [exact Hf|lia|done..].
Qed.
End search.

(** ** A log in memory *)

(** The list, cut or filled up to the device's chunks. *)
Definition log_of (dev : nvm_dev) (w : list nvm_spec_rprt_descr) : list nvm_spec_rprt_descr :=
  let total := Z.to_nat (npugrp (geo dev) * npunit (geo dev) * nchunk (geo dev)) in
  take total (w ++ replicate total zero_descr).

Lemma log_of_len dev w : geo_counts_ok (geo dev) ->
  Z.of_nat (length (log_of dev w)) = npugrp (geo dev) * npunit (geo dev) * nchunk (geo dev).
Proof. intros (G1 & G2 & G3). unfold log_of. rewrite length_take, length_app, length_replicate. nia. Qed.
