(* ===== verification/WrapSpec.v ===== *)
(** What the submission entries of [Wrap] ask a device for, and the memory
    they hold until they are released. *)
From stdpp Require Import base numbers strings gmap option list.
From S2P Require Import Prelude Types Nvme Addr Dev Backend Buf Be Sgl Cmd Wrap.
From S2P Require Import Media Vblk Stripe Linear VblkIO DevMedia.

(** ** Reading an entry *)

Section decode.
Context {W : Type} (spdk : spdk_env W).

(** The list of [n] addresses in DMA memory at the physical address [phys]. *)
Fixpoint find_addrs (phys n : Z) (dmas : list (Z * dma)) : option (list Z) :=
  match dmas with
  | [] => None
  | (q, DmaAddrs l) :: dmas =>
      if (spdk_vtophys spdk q =? phys) && (Z.of_nat (length l) =? n) then Some l else find_addrs phys n dmas
  | _ :: dmas => find_addrs phys n dmas
  end.

(** The addresses of a vector command of a 2.0 device: one is in the entry,
    several are in memory. *)
Definition vector_sectors (cmd : nvm_nvme_cmd) (dmas : list (Z * dma)) : option (list Z) :=
  let n := bf_get 0 6 (cdw12 cmd) + 1 in
  if n =? 1 then Some [cmd_addrs cmd] else find_addrs (cmd_addrs cmd) n dmas.

(** Whether a read or write command writes, and the device sectors it names,
    as a device of version 2.0 reads the entry. *)
Definition io_decode (cmd : nvm_nvme_cmd) (dmas : list (Z * dma)) : option (bool * list Z) :=
  let op := opcode_of cmd in
  let run := run_from (cmd_addrs cmd) (bf_get 0 16 (cdw12 cmd) + 1) in
  if negb (psdt_of cmd =? NVM_NVME_PSDT_PRP) then None
  else if op =? NVM_DOPC_SCALAR_WRITE then Some (true, run)
  else if op =? NVM_DOPC_SCALAR_READ then Some (false, run)
  else if op =? NVM_DOPC_VECTOR_WRITE then l ← vector_sectors cmd dmas; Some (true, l)
  else if op =? NVM_DOPC_VECTOR_READ then l ← vector_sectors cmd dmas; Some (false, l)
  else None.

(** The sectors of the source and of the destination of a copy: both lists have
    the number of addresses of dword 12. *)
Definition copy_decode (cmd : nvm_nvme_cmd) (dmas : list (Z * dma)) : option (list Z * list Z) :=
  if negb (psdt_of cmd =? NVM_NVME_PSDT_PRP) then None
  else if opcode_of cmd =? NVM_DOPC_VECTOR_COPY then
    src ← vector_sectors cmd dmas;
    dst ← vector_sectors (with_cmd_addrs (addrs_dst cmd) cmd) dmas;
    Some (src, dst)
  else None.

(** Blocks apart in memory are apart on the bus. *)
Definition phys_apart : Prop :=
  forall p q, p <> 0 -> q <> 0 -> spdk_vtophys spdk p = spdk_vtophys spdk q -> p = q.
End decode.

(** The opcode of a read or write. *)
Definition rw_op (write vector : bool) : Z :=
  match write, vector with
  | true, false => NVM_DOPC_SCALAR_WRITE
  | false, false => NVM_DOPC_SCALAR_READ
  | true, true => NVM_DOPC_VECTOR_WRITE
  | false, true => NVM_DOPC_VECTOR_READ
  end.

(** ** The memory of a wrap *)

Definition wrap_blocks (p : Z) (w : nvm_cmd_wrap) : list Z := [w_dsmr w; w_addrs_dma w; w_dst_dma w; p].

(** The wrap at [p] holds its blocks on top of [L]. *)
Definition wrap_owned {W} (L : gset Z) (p : Z) (w : nvm_cmd_wrap) (s : sys W) : Prop := owns L (wrap_blocks p w) s.

Section wrap.
Context {W : Type} (spdk : spdk_env W) (ptr_of : mem -> Z) (dev : nvm_dev) (Halloc : alloc_ok spdk dev).
Implicit Types s : sys W.
#[local] Abbreviation nb := (nbytes (geo dev)).
#[local] Abbreviation gen2dev := (nvm_addr_gen2dev dev).

Lemma wrap_term_all p w s : nvm_cmd_wrap_term spdk dev (p, w) s = free_all (wrap_blocks p w) s.
Proof.
  destruct Halloc as [_ Hfree]. unfold nvm_cmd_wrap_term, free_all, wrap_blocks. cbn. unfold mbind, M_bind.
  rewrite Hfree. destruct (free (w_dsmr w) s) as [[? s1]|]; [|done].
  rewrite Hfree. destruct (free (w_addrs_dma w) s1) as [[? s2]|]; [|done].
  rewrite Hfree. destruct (free (w_dst_dma w) s2) as [[? s3]|]; [|done].
  by destruct (free p s3) as [[[] ?]|].
Qed.

Lemma wp_wrap_term {I} L p w s (Q : unit -> sys W -> Prop) : good I s -> wrap_owned L p w s ->
  (forall s', good I s' -> live s' = L -> world s' = world s -> errno s' = errno s -> Q tt s') ->
  wp (nvm_cmd_wrap_term spdk dev (p, w)) s Q.
Proof.
  intros Hwf Ho HQ. eapply wp_ext; [apply wrap_term_all|]. by eapply wp_free_owned.
Qed.

(** Ownership only looks at the blocks. *)
Lemma wrap_owned_ext L p w w' s s' : wrap_blocks p w = wrap_blocks p w' -> live s' = live s ->
  wrap_owned L p w s -> wrap_owned L p w' s'.
Proof. intros E. unfold wrap_owned. rewrite E. by apply owns_ext. Qed.

(** ** Reads and writes *)

Context (Hbe : be_id dev = NVM_BE_SPDK \/ be_id dev = NVM_BE_NOCD).
Context (Hok : lba_dev_ok dev).

(** The device sectors a command on [addrs] is about. *)
Definition rw_sectors (vector : bool) (addrs : list nvm_addr) (a : nvm_addr) (n : Z) : list Z :=
  if vector then gen2dev <$> addrs else run_from (gen2dev a) n.

(** The entry before the addresses. *)
Definition rw_entry (write vector : bool) (n : Z) : nvm_nvme_cmd :=
  let c := with_cmd_nsid (dev_nsid dev) (set_opcode (rw_op write vector) zero_cmd) in
  if vector then set_s20_naddrs (n - 1) c else set_nvme_naddrs (n - 1) c.

(** The wrap a successful setup answers. *)
Record wrap_rw (write vector : bool) (addrs : list nvm_addr) (a : nvm_addr) (n : Z) (d : list Z) (meta : mem)
    (ret : retp) (w : nvm_cmd_wrap) : Prop := {
  wr_ret : w_ret w = ret;
  wr_completed : w_completed w = 0;
  wr_data : w_data w = KMem (Some d);
  wr_len : w_data_len w = n * nb;
  wr_meta : w_meta w = meta;
  wr_cmd : w_cmd w = with_cmd_addrs (if vector && (1 <? n) then spdk_vtophys spdk (w_addrs_dma w) else gen2dev a)
    (rw_entry write vector n);
  wr_dma : w_dma w = if vector && (1 <? n) then [(w_addrs_dma w, DmaAddrs (gen2dev <$> addrs))] else [] }.

Lemma rw_entry_fields write vector n :
  opcode_of (rw_entry write vector n) = rw_op write vector /\ psdt_of (rw_entry write vector n) = NVM_NVME_PSDT_PRP /\
  cmd_nsid (rw_entry write vector n) = u32 (dev_nsid dev) /\
  cdw12 (rw_entry write vector n) = bf_set 0 (if vector then 6 else 16) 0 (n - 1).
Proof. by destruct write, vector. Qed.

Lemma decode_scalar write n c dmas d : 0 < n <= 2 ^ 16 -> c = with_cmd_addrs d (rw_entry write false n) ->
  io_decode spdk c dmas = Some (write, run_from d n).
Proof.
  intros Hn ->. destruct (rw_entry_fields write false n) as (E1 & E2 & _ & E4). unfold io_decode.
  change (psdt_of (with_cmd_addrs d ?c)) with (psdt_of c). change (opcode_of (with_cmd_addrs d ?c)) with (opcode_of c).
  change (cdw12 (with_cmd_addrs d ?c)) with (cdw12 c). change (cmd_addrs (with_cmd_addrs d _)) with d.
  rewrite E1, E2, E4, bf_get_set, wrap_id by lia. replace (n - 1 + 1) with n by lia. by destruct write.
Qed.

Lemma decode_vector write n c dmas d l : 0 < n <= NVM_NADDR_MAX -> c = with_cmd_addrs d (rw_entry write true n) ->
  Z.of_nat (length l) = n -> (if n =? 1 then l = [d] else exists q, dmas = [(q, DmaAddrs l)] /\ d = spdk_vtophys spdk q) ->
  io_decode spdk c dmas = Some (write, l).
Proof.
  intros Hn -> Hlen Hl. destruct (rw_entry_fields write true n) as (E1 & E2 & _ & E4). unfold io_decode, vector_sectors.
  change (psdt_of (with_cmd_addrs d ?c)) with (psdt_of c). change (opcode_of (with_cmd_addrs d ?c)) with (opcode_of c).
  change (cdw12 (with_cmd_addrs d ?c)) with (cdw12 c). change (cmd_addrs (with_cmd_addrs d _)) with d.
  unfold NVM_NADDR_MAX in Hn. rewrite E1, E2, E4, bf_get_set, wrap_id by lia. replace (n - 1 + 1) with n by lia.
  assert (E : (if n =? 1 then Some [d] else find_addrs spdk d n dmas) = Some l).
  { destruct (n =? 1); [by rewrite Hl|]. destruct Hl as (q & -> & ->). cbn. by rewrite Hlen, !Z.eqb_refl. }
  destruct write; cbn; by rewrite E.
Qed.

(** Within the limits of the fields the device reads the sectors meant. *)
Lemma wrap_rw_decode write vector addrs a n d meta ret w : wrap_rw write vector addrs a n d meta ret w ->
  0 < n <= 2 ^ 16 -> addrs !! 0%nat = Some a -> (vector = true -> n <= NVM_NADDR_MAX /\ Z.of_nat (length addrs) = n) ->
  io_decode spdk (w_cmd w) (w_dma w) = Some (write, rw_sectors vector addrs a n).
Proof.
  intros [_ _ _ _ _ -> ->] Hn Ha Hv. destruct vector; cbn [andb rw_sectors]; [|by eapply decode_scalar].
  destruct (Hv eq_refl) as [Hn' Hlen]. eapply decode_vector; [|reflexivity|by rewrite length_fmap|]; [lia|].
  destruct (Z.eqb_spec n 1) as [E|E].
  - rewrite E. destruct addrs as [|? [|]]; cbn in Hlen, Ha; [done| |lia]. by simplify_eq.
  - rewrite (proj2 (Z.ltb_lt 1 n)) by lia. by eexists.
Qed.

Lemma wrap_owned_new {I} s p (s' : sys W) w : good I s' -> p <> 0 -> p ∉ live s -> live s' = {[p]} ∪ live s ->
  w_dsmr w = 0 -> w_addrs_dma w = 0 -> w_dst_dma w = 0 -> wrap_owned (live s) p w s'.
Proof.
  intros Hwf Hp Hf Hl E1 E2 E3. unfold wrap_owned, wrap_blocks. rewrite E1, E2, E3.
  do 3 (eapply owns_null; [done|]). eapply owns_new; [done..|apply owns_none].
Qed.

(** The block of the address list joins the others. *)
Lemma wrap_owned_addrs {I} s p w q l s' s1 : good I s1 -> q <> 0 -> q ∉ live s1 -> live s' = {[q]} ∪ live s1 ->
  w_dsmr w = 0 -> w_addrs_dma w = 0 -> w_dst_dma w = 0 -> p <> 0 ->
  wrap_owned (live s) p w s1 -> wrap_owned (live s) p (w_with_addrs q l w) s'.
Proof.
  intros Hwf Hq Hf Hl E1 E2 E3 Hp. unfold wrap_owned, wrap_blocks. cbn [w_dsmr w_addrs_dma w_dst_dma w_with_addrs].
  rewrite E1, E2, E3. intros Ho.
  assert (Ho' : owns (live s) [0; 0; p] s1).
  { eapply owns_drop; [exact Hwf|exact Ho|]. pose proof (live_not_0 _ Hwf). set_solver. }
  eapply (owns_ext _ (q :: [0; 0; p])); [apply Permutation_swap|reflexivity|]. by eapply owns_new.
Qed.

Lemma dma_phys_vtophys q : dma_phys spdk dev q = spdk_vtophys spdk q.
Proof. unfold dma_phys. by destruct Hbe as [-> | ->]. Qed.

(** The addresses of a vector command. *)
Lemma wp_wrap_addrs {I} addrs a n s (Q : option (Z * option (Z * list Z)) -> sys W -> Prop) : good I s ->
  0 < n <= 2 ^ 16 -> Z.of_nat (length addrs) = n -> addrs !! 0%nat = Some a ->
  (forall s', good I s' -> live s' = live s -> world s' = world s -> errno s' = ENOMEM -> Q None s') ->
  (n = 1 -> Q (Some (gen2dev a, None)) s) ->
  (forall q s', n <> 1 -> q <> 0 -> q ∉ live s -> good I s' -> live s' = {[q]} ∪ live s -> world s' = world s ->
     errno s' = errno s -> Q (Some (spdk_vtophys spdk q, Some (q, gen2dev <$> addrs))) s') ->
  wp (wrap_addrs spdk dev addrs n) s Q.
Proof.
  intros Hwf Hn Hlen Ha HE H1 HS. unfold wrap_addrs. destruct (Z.ltb_spec 1 n).
  - apply wp_bind. eapply (wp_buf_alloc spdk dev Halloc); [done|rewrite wrap_id; lia| |].
    + intros s' ????. cbn. by apply wp_ret, HE.
    + intros q s' Hq ?????. rewrite (proj2 (Z.eqb_neq q 0)) by done. rewrite <-Hlen, dev_addrs_all.
      apply wp_bind. eapply wp_intro; [done|]. apply wp_ret. rewrite dma_phys_vtophys. apply HS; done || lia.
  - rewrite Ha. apply wp_bind. eapply wp_intro; [done|]. apply wp_ret, H1. lia.
Qed.

(** ** Setup *)

Lemma wp_wrap_setup {I} write vector addrs a n d meta flags ret s (Q : option (boxed nvm_cmd_wrap) * payload -> sys W -> Prop) :
  good I s -> flag_set flags NVM_CMD_SGL = false -> 0 < n <= 2 ^ 16 -> addrs !! 0%nat = Some a ->
  (vector = true -> Z.of_nat (length addrs) = n) ->
  (forall s', good I s' -> live s' = live s -> world s' = world s -> errno s' = ENOMEM -> Q (None, PMem meta) s') ->
  (forall p w s', p <> 0 -> good I s' -> wrap_owned (live s) p w s' -> world s' = world s ->
     wrap_rw write vector addrs a n d meta ret w -> Q (Some (p, w), PMem meta) s') ->
  wp (nvm_cmd_wrap_setup spdk ptr_of dev (rw_op write vector) (PMem (Some d)) (PMem meta) addrs None n flags ret) s Q.
Proof.
  intros Hwf Hf Hn Ha Hv HE HS. pose proof (lf_verid _ (id_fmt _ Hok)) as Hver. pose proof (id_nb _ Hok) as Hnb.
  unfold nvm_cmd_wrap_setup. apply wp_bind. eapply wp_malloc; [done| |].
  { intros s' ????. cbn. by apply wp_ret, HE. }
  intros p s1 Hp Hfr Hwf1 Hl1 Hw1 He1. rewrite (proj2 (Z.eqb_neq p 0)) by done.
  rewrite Hf. cbn [andb payload_data]. apply wp_bind. eapply wp_intro; [done|]. apply wp_bind. eapply wp_intro; [done|].
  rewrite (proj2 (Z.eqb_neq (rw_op write vector) _)) by (by destruct write, vector).
  set (w0 := wrap_init _ _ _ _ _).
  assert (Ew : wrap_sizes dev (rw_op write vector) n flags (PMem (Some d)) (PMem meta) w0 =
    Some (w_with_cmd (rw_entry write vector n) (w_with_meta meta (if is_null (PMem meta) then 0 else u64 (nbytes_oob (geo dev) * n))
      (w_with_data (KMem (Some d)) (n * nb) w0)))).
  { unfold wrap_sizes. rewrite Hver. change (NVM_SPEC_VERID_20 =? NVM_SPEC_VERID_12) with false.
    rewrite Z.eqb_refl. cbn [is_null w_data]. rewrite (wrap_id 64 (nb * n)) by nia. rewrite (Z.mul_comm nb n).
    by destruct write, vector. }
  rewrite Ew. set (w1 := w_with_cmd _ _). apply wp_bind. unfold wrap_erase_meta.
  rewrite (proj2 (Z.eqb_neq (rw_op write vector) NVM_DOPC_VECTOR_ERASE)) by (by destruct write, vector).
  cbn [andb]. apply wp_ret. cbn [negb]. apply wp_bind. unfold cmd_wrap_setup_sgl.
  unfold flag_set in Hf. destruct (Z.land flags NVM_CMD_SGL =? 0); [|done]. apply wp_ret.
  assert (Ho : wrap_owned (live s) p w1 s1) by (by eapply wrap_owned_new).
  destruct vector.
  - specialize (Hv eq_refl). replace ((rw_op write true =? _) || _) with false by (by destruct write).
    apply wp_bind. unfold wrap_vector. apply wp_bind. eapply wp_wrap_addrs; [exact Hwf1|lia|done|exact Ha|..].
    + intros s2 Hwf2 Hl2 Hw2 He2. apply wp_bind. eapply wp_wrap_term; [done|by eapply wrap_owned_ext; [..|exact Ho]|].
      intros s3 W3 L3 X3 Y3. cbn. apply wp_ret, wp_ret, HE; [done|done|congruence|by rewrite Y3].
    + intros E1. apply wp_ret, wp_ret, HS; [done|done|by eapply wrap_owned_ext; [..|exact Ho]|congruence|].
      assert (El : (1 <? n) = false) by lia. split; try done; by rewrite El.
    + intros q s2 Hn1 Hq Hqf Hwf2 Hl2 Hw2 He2. apply wp_ret, wp_ret, HS; [done|done| |congruence|].
      * eapply wrap_owned_addrs; [exact Hwf1|done|exact Hqf|done..|]. by eapply wrap_owned_ext; [..|exact Ho].
      * split; try done; cbn [andb]; rewrite (proj2 (Z.ltb_lt 1 n)) by lia; reflexivity.
  - replace ((rw_op write false =? _) || _) with true by (by destruct write).
    rewrite Ha. apply wp_bind. eapply wp_intro; [done|]. apply wp_ret, HS; [done|done|by eapply wrap_owned_ext; [..|exact Ho]|done|].
    by split.
Qed.
End wrap.

(** ** Properties *)

(** C18: the submission entry of a read or write on a 2.0 device, scalar on at
    most 2^16 sectors or vector on at most 64 addresses. The setup answers [NULL] with [ENOMEM] and nothing kept, or a wrap
    that carries the caller's buffers and result, whose entry the device reads
    as that command on exactly the device addresses of [addrs] (the sectors
    from the first one on for a scalar command), and whose release gives back
    every block the setup took. *)
Theorem wrap_setup_correct {W} (spdk : spdk_env W) (ptr_of : mem -> Z) (dev : nvm_dev) (Halloc : alloc_ok spdk dev)
    (Hbe : be_id dev = NVM_BE_SPDK \/ be_id dev = NVM_BE_NOCD) (Hok : lba_dev_ok dev)
    (write vector : bool) (addrs : list nvm_addr) (a : nvm_addr) (n : Z) (d : list Z) (meta : mem) (flags : Z)
    (ret : retp) (s : sys W) (Hwf : heap_wf s) (Hflags : flag_set flags NVM_CMD_SGL = false) (Hn : 0 < n <= 2 ^ 16)
    (Ha : addrs !! 0%nat = Some a) (Hv : vector = true -> n <= NVM_NADDR_MAX /\ Z.of_nat (length addrs) = n) :
  wp (nvm_cmd_wrap_setup spdk ptr_of dev (rw_op write vector) (PMem (Some d)) (PMem meta) addrs None n flags ret) s
    (fun '(r, m) s' => world s' = world s /\ m = PMem meta /\
       match r with
       | None => live s' = live s /\ errno s' = ENOMEM
       | Some (p, w) =>
           w_ret w = ret /\ w_data w = KMem (Some d) /\ w_data_len w = n * nbytes (geo dev) /\ w_meta w = meta /\
           io_decode spdk (w_cmd w) (w_dma w) = Some (write, rw_sectors dev vector addrs a n) /\
           wp (nvm_cmd_wrap_term spdk dev (p, w)) s' (fun _ s2 => live s2 = live s /\ world s2 = world s)
       end).
Proof.
  eapply (wp_wrap_setup spdk ptr_of dev Halloc Hbe Hok); [done|done|done|exact Ha|by intros E; apply Hv| |].
  - intros s' ????. by split.
  - intros p w s' _ Hwf' Ho Hw Hr. split; [done|]. split; [done|]. destruct Hr as [E1 E2 E3 E4 E5 E6 E7] eqn:Er.
    split; [done|]. split; [done|]. split; [done|]. split; [done|]. split; [by eapply wrap_rw_decode|].
    eapply (wp_wrap_term spdk dev Halloc); [done|done|]. intros s2 ? ? ? _. split; [done|]. congruence.
Qed.

(** The field for the number of addresses of a 2.0 vector command has 6
    bits, and nothing limits the number before it is stored there. A command on
    [n] addresses, [64 < n], asks the device for [(n - 1) mod 64 + 1]; when that
    is 1 the device takes the address of the list in memory for the address of
    the sector. *)
Theorem wrap_vector_overflow {W} (spdk : spdk_env W) (ptr_of : mem -> Z) (dev : nvm_dev) (Halloc : alloc_ok spdk dev)
    (Hbe : be_id dev = NVM_BE_SPDK \/ be_id dev = NVM_BE_NOCD) (Hok : lba_dev_ok dev)
    (write : bool) (addrs : list nvm_addr) (n : Z) (d : list Z) (meta : mem) (flags : Z)
    (ret : retp) (s : sys W) (Hwf : heap_wf s) (Hflags : flag_set flags NVM_CMD_SGL = false)
    (Hn : NVM_NADDR_MAX < n <= 2 ^ 16) (Hlen : Z.of_nat (length addrs) = n) :
  wp (nvm_cmd_wrap_setup spdk ptr_of dev (rw_op write true) (PMem (Some d)) (PMem meta) addrs None n flags ret) s
    (fun '(r, _) s' =>
       match r with
       | None => errno s' = ENOMEM
       | Some (p, w) =>
           bf_get 0 6 (cdw12 (w_cmd w)) + 1 = (n - 1) mod 64 + 1 /\
           ((n - 1) mod 64 = 0 ->
              io_decode spdk (w_cmd w) (w_dma w) = Some (write, [spdk_vtophys spdk (w_addrs_dma w)]))
       end).
Proof.
  unfold NVM_NADDR_MAX in Hn. destruct (addrs !! 0%nat) as [a|] eqn:Ha; [|by destruct addrs; cbn in *; [lia|]].
  eapply (wp_wrap_setup spdk ptr_of dev Halloc Hbe Hok); [done|done|lia|exact Ha|done|done|].
  intros p w s' _ _ _ _ [_ _ _ _ _ Ec _]. destruct (rw_entry_fields dev write true n) as (F1 & F2 & _ & F4).
  rewrite Ec. rewrite (proj2 (Z.ltb_lt 1 n)) by lia. cbn [andb].
  assert (E : bf_get 0 6 (cdw12 (with_cmd_addrs (spdk_vtophys spdk (w_addrs_dma w)) (rw_entry dev write true n))) = (n - 1) mod 64).
  { change (cdw12 (with_cmd_addrs ?d ?c)) with (cdw12 c). rewrite F4. by rewrite bf_get_set by lia. }
  rewrite E. split; [done|]. intros E0. unfold io_decode, vector_sectors. rewrite E, E0.
  change (psdt_of (with_cmd_addrs ?d ?c)) with (psdt_of c). change (opcode_of (with_cmd_addrs ?d ?c)) with (opcode_of c).
  rewrite F1, F2. by destruct write.
Qed.

(** ** Witnesses *)

(** DMA memory from the heap, a page per block. *)
Definition page_spdk {W} : spdk_env W :=
  SpdkEnv (fun _ _ => malloc) (fun _ _ _ => fail ENOMEM 0) (fun p => free p) (fun p => 4096 * p).

Definition tiny_spdk : nvm_dev := with_be_id NVM_BE_SPDK tiny20.

Lemma page_alloc {W} dev : be_id dev = NVM_BE_SPDK \/ be_id dev = NVM_BE_NOCD -> alloc_ok (W := W) page_spdk dev.
Proof. apply dma_alloc_ok. by split. Qed.

Lemma tiny_spdk_alloc {W} : alloc_ok (W := W) page_spdk tiny_spdk.
Proof. by apply page_alloc; left. Qed.

Lemma tiny_spdk_lba : lba_dev_ok tiny_spdk.
Proof. destruct tiny_lba_ok as [[] ?]. by split. Qed.

(** A vector write of two sectors. *)
Lemma wrap_setup_correct_witness :
  let run := nvm_cmd_wrap_setup page_spdk (fun _ => 0) tiny_spdk NVM_DOPC_VECTOR_WRITE (PMem (Some [1; 2; 3; 4])) (PMem None)
    [set_l_pugrp 1 0; set_l_sectr 3 0] None 2 NVM_CMD_SYNC None (Sys 0 (sample_heap 9) tt) in
  exists p w s', run = Some (Some (p, w), PMem None, s') /\
    io_decode (W := unit) page_spdk (w_cmd w) (w_dma w) = Some (true, [nvm_addr_gen2dev tiny_spdk (set_l_pugrp 1 0); 3]).
Proof.
  intros run. pose proof (wrap_setup_correct page_spdk (fun _ => 0) tiny_spdk tiny_spdk_alloc (or_introl eq_refl)
    tiny_spdk_lba true true [set_l_pugrp 1 0; set_l_sectr 3 0] (set_l_pugrp 1 0) 2 [1; 2; 3; 4] None NVM_CMD_SYNC None
    (Sys 0 (sample_heap 9) tt) (sample_heap_wf _ _ _) eq_refl ltac:(by split) eq_refl ltac:(done)) as C.
  apply wp_elim in C as ([[[p w]|] m] & s' & E & _ & -> & C); [|by vm_compute in E].
  exists p, w, s'. split; [exact E|]. destruct C as (_ & _ & _ & _ & -> & _). by vm_compute.
Defined.

(** 65 addresses. *)
Lemma wrap_vector_overflow_witness :
  wp (nvm_cmd_wrap_setup page_spdk (fun _ => 0) tiny_spdk NVM_DOPC_VECTOR_WRITE (PMem (Some [])) (PMem None)
    (replicate 65 0) None 65 NVM_CMD_SYNC None) (Sys 0 (sample_heap 9) tt)
    (fun '(r, _) s' => match r with
       | None => errno s' = ENOMEM
       | Some (p, w) => io_decode (W := unit) page_spdk (w_cmd w) (w_dma w) = Some (true, [4096 * w_addrs_dma w])
       end).
Proof.
  eapply wp_mono; [apply (wrap_vector_overflow page_spdk (fun _ => 0) tiny_spdk tiny_spdk_alloc (or_introl eq_refl)
    tiny_spdk_lba true (replicate 65 0) 65 [] None NVM_CMD_SYNC None (Sys 0 (sample_heap 9) tt) (sample_heap_wf _ _ _)
    eq_refl ltac:(by split) eq_refl)|].
  intros [[[p w]|] m] s' H; [|exact H]. by apply H.
Defined.
