(* ===== verification/SglSpec.v ===== *)
(** Scatter/gather lists as sequences of segments: what adding a segment does
    to a list, and what a device reads in a command that carries one. *)
From stdpp Require Import base numbers strings gmap option list.
From S2P Require Import Prelude Types Nvme Addr Dev Backend Buf Be Sgl Cmd Wrap WrapSpec.

(** ** Lists *)

(** A segment: its physical address and its length, of 32 bits. *)
Definition sgl_seg (d : nvm_nvme_sgl_descriptor) : Z * Z := (sgl_addr d, sgl_dlen d).

Definition used (s : nvm_sgl) : list nvm_nvme_sgl_descriptor := take (Z.to_nat (sgl_ndescr s)) (sgl_list s).
Definition segs (s : nvm_sgl) : list (Z * Z) := sgl_seg <$> used s.

(** The array has [sgl_nalloc] entries, of which [sgl_ndescr] describe data. *)
Record sgl_ok (s : nvm_sgl) : Prop := {
  so_n : 0 <= sgl_ndescr s <= 256;
  so_cap : sgl_ndescr s <= sgl_nalloc s < 2 ^ 31;
  so_list : Z.of_nat (length (sgl_list s)) = sgl_nalloc s;
  so_type : Forall (fun d => sgl_type d = NVM_NVME_SGL_DESCR_TYPE_DATA_BLOCK) (used s) }.

(** The blocks of the list at [p]. *)
Definition sgl_blocks (p : Z) (s : nvm_sgl) : list Z := [sgl_descriptors s; sgl_indirect s; p].

(** A DMA allocator whose reallocation moves a block or leaves it. *)
Definition realloc_ok {W} (spdk : spdk_env W) : Prop := forall (I : W -> Prop) p n a s,
  good I s -> n <> 0 -> p = 0 \/ p ∈ live s ->
  wp (spdk_dma_realloc spdk p n a) s (fun q s' => good I s' /\ world s' = world s /\
    (q = 0 /\ live s' = live s \/ q <> 0 /\ (q ∉ live s ∖ {[p]}) /\ live s' = {[q]} ∪ live s ∖ {[p]})).

Section sgl.
Context {W : Type} (spdk : spdk_env W) (junk : Z -> Z -> nvm_nvme_sgl_descriptor) (dev : nvm_dev).
Context (Halloc : alloc_ok spdk dev) (Hrealloc : realloc_ok spdk).
Context (Hbe : be_id dev = NVM_BE_SPDK \/ be_id dev = NVM_BE_NOCD).
Implicit Types s : sys W.

Lemma wp_buf_realloc {I} p n s (Q : Z -> sys W -> Prop) : good I s -> n <> 0 -> p = 0 \/ p ∈ live s ->
  (forall s', good I s' -> live s' = live s -> world s' = world s -> Q 0 s') ->
  (forall q s', q <> 0 -> q ∉ live s ∖ {[p]} -> good I s' -> live s' = {[q]} ∪ live s ∖ {[p]} ->
     world s' = world s -> Q q s') ->
  wp (nvm_buf_realloc spdk dev p n) s Q.
Proof.
  intros Hwf Hn Hp HN HS. unfold nvm_buf_realloc. cbn zeta. rewrite (proj2 (Z.eqb_neq n 0)) by done.
  replace ((be_id dev =? NVM_BE_IOCTL) || (be_id dev =? NVM_BE_LBD)) with false by (by destruct Hbe as [-> | ->]).
  replace ((be_id dev =? NVM_BE_SPDK) || (be_id dev =? NVM_BE_NOCD)) with true by (by destruct Hbe as [-> | ->]).
  eapply wp_mono; [by apply Hrealloc|]. intros q s' (H1 & H2 & [[-> H3]|(H3 & H4 & H5)]); [by apply HN|by apply HS].
Qed.

(** A translation stores an address, or sets [EIO]. *)
Lemma wp_vtophys buf x s (Q : Z * option Z -> sys W -> Prop) :
  (spdk_vtophys spdk buf = SPDK_VTOPHYS_ERROR -> Q (-1, Some (spdk_vtophys spdk buf)) (Sys EIO (hp s) (world s))) ->
  (spdk_vtophys spdk buf <> SPDK_VTOPHYS_ERROR -> Q (0, Some (spdk_vtophys spdk buf)) s) ->
  wp (nvm_buf_vtophys spdk dev buf (Some x)) s Q.
Proof.
  intros HE HS. unfold wp, nvm_buf_vtophys. cbn zeta.
  destruct Hbe as [-> | ->]; cbn; destruct (Z.eqb_spec (spdk_vtophys spdk buf) SPDK_VTOPHYS_ERROR); cbn; auto.
Qed.

(** ** Adding a segment *)

(** The first unused descriptor is assigned, and counted. *)
Lemma used_put sgl d : sgl_ok sgl -> sgl_ndescr sgl < sgl_nalloc sgl ->
  take (Z.to_nat (sgl_ndescr sgl + 1)) (<[Z.to_nat (sgl_ndescr sgl) := d]> (sgl_list sgl)) = used sgl ++ [d].
Proof.
  intros [Hn Hc Hl _] Hlt. rewrite Z2Nat.inj_add, Nat.add_1_r by lia.
  rewrite (take_S_r _ _ d) by (apply list_lookup_insert_eq; lia). by rewrite take_insert_ge by lia.
Qed.

Lemma put_type d len addr : sgl_type (SglDescr addr (bf_set 0 32 (bf_set 60 4 (sgl_word d) NVM_NVME_SGL_DESCR_TYPE_DATA_BLOCK) len))
  = NVM_NVME_SGL_DESCR_TYPE_DATA_BLOCK.
Proof. unfold sgl_type. cbn [sgl_word]. rewrite bf_get_set_ne, bf_get_set by lia. done. Qed.

Lemma put_dlen w len addr : sgl_dlen (SglDescr addr (bf_set 0 32 w len)) = u32 len.
Proof. unfold sgl_dlen. cbn [sgl_word]. by rewrite bf_get_set by lia. Qed.

(** What adding a segment of [len] bytes at [addr] to [sgl] promises, where the
    list is at [p] and the other blocks are those of [L]. *)
Definition add_post (L : gset Z) (p : Z) (sgl : nvm_sgl) (addr len : Z) s (r : Z * nvm_sgl) (s' : sys W) : Prop :=
  let '(err, sgl') := r in
  heap_wf s' /\ world s' = world s /\
  (err = 0 /\ sgl_ok sgl' /\ owns L (sgl_blocks p sgl') s' /\ sgl_ndescr sgl < 256 /\
     segs sgl' = segs sgl ++ [(spdk_vtophys spdk addr, u32 len)] /\ sgl_len sgl' = u64 (sgl_len sgl + len) /\
     sgl_nalloc sgl <= sgl_nalloc sgl' \/
   err = -1 /\ sgl_ok sgl' /\ owns L (sgl_blocks p sgl') s' /\ segs sgl' = segs sgl /\ sgl_len sgl' = sgl_len sgl /\
     (sgl_ndescr sgl = 256 /\ errno s' = EINVAL \/ spdk_vtophys spdk addr = SPDK_VTOPHYS_ERROR /\ errno s' = EIO) \/
   err = -1 /\ sgl_ndescr sgl = sgl_nalloc sgl /\ owns L (sgl_blocks p sgl) s' /\ sgl_descriptors sgl' = 0 /\
     forall addr' len', nvm_sgl_add spdk junk dev sgl' addr' len' s' = None).

Lemma wp_sgl_put L p sgl addr len s (Q : Z * nvm_sgl -> sys W -> Prop) :
  heap_wf s -> sgl_ok sgl -> owns L (sgl_blocks p sgl) s -> sgl_ndescr sgl < sgl_nalloc sgl -> sgl_ndescr sgl < 256 ->
  (forall sgl' s', heap_wf s' -> world s' = world s -> sgl_ok sgl' -> owns L (sgl_blocks p sgl') s' ->
     segs sgl' = segs sgl ++ [(spdk_vtophys spdk addr, u32 len)] -> sgl_len sgl' = u64 (sgl_len sgl + len) ->
     sgl_nalloc sgl' = sgl_nalloc sgl -> Q (0, sgl') s') ->
  (forall sgl' s', heap_wf s' -> world s' = world s -> sgl_ok sgl' -> owns L (sgl_blocks p sgl') s' ->
     segs sgl' = segs sgl -> sgl_len sgl' = sgl_len sgl -> spdk_vtophys spdk addr = SPDK_VTOPHYS_ERROR -> errno s' = EIO ->
     Q (-1, sgl') s') ->
  wp (sgl_put spdk dev sgl addr len) s Q.
Proof.
  intros Hwf Hok Ho Hlt H256 HS HE. pose proof Hok as [Hn Hc Hl Ht]. unfold sgl_put. cbn zeta.
  destruct (lookup_lt_is_Some_2 (sgl_list sgl) (Z.to_nat (sgl_ndescr sgl))) as [d Hd]; [lia|].
  apply wp_bind. rewrite Hd. eapply (wp_intro _ _ d s); [done|]. apply wp_bind.
  assert (Hu : forall w, take (Z.to_nat (sgl_ndescr sgl)) (<[Z.to_nat (sgl_ndescr sgl) := w]> (sgl_list sgl)) = used sgl)
    by (intros w; by rewrite take_insert_ge by lia).
  apply wp_vtophys; intros E.
  - apply wp_ret, HE; try done.
    + split; cbn; [done|done|by rewrite length_insert|]. unfold used. cbn. by rewrite Hu.
    + by apply (owns_ext _ (sgl_blocks p sgl) _ s).
    + unfold segs at 1, used at 1. cbn. by rewrite Hu.
  - cbn [negb Z.eqb]. apply wp_bind. eapply wp_intro; [done|]. apply wp_ret, HS; try done.
    + split; [cbn; lia|cbn; lia|cbn; by rewrite length_insert|].
      unfold used. cbn [sgl_ndescr sgl_list]. rewrite used_put by done. apply Forall_app_2; [done|].
      apply Forall_singleton, put_type.
    + unfold segs at 1, used at 1. cbn [sgl_ndescr sgl_list]. rewrite used_put by done. rewrite fmap_app. cbn [fmap list_fmap].
      unfold sgl_seg at 2. by rewrite put_dlen.
Qed.

Lemma grow_list sgl q : sgl_ok sgl -> sgl_ndescr sgl = sgl_nalloc sgl ->
  let n := if sgl_nalloc sgl =? 0 then 1 else 2 * sgl_nalloc sgl in
  let l := sgl_list sgl ++ junk_list junk q (sgl_nalloc sgl) (n - sgl_nalloc sgl) in
  Z.of_nat (length l) = n /\ take (Z.to_nat (sgl_ndescr sgl)) l = used sgl.
Proof.
  intros [Hn Hc Hl Ht] E n l. unfold l, junk_list. rewrite length_app, length_fmap, length_seqZ.
  assert (sgl_nalloc sgl < n) by (unfold n; destruct (Z.eqb_spec (sgl_nalloc sgl) 0); lia).
  split; [lia|]. by rewrite take_app_le by lia.
Qed.

Lemma wp_sgl_grow L p sgl s (Q : bool * nvm_sgl -> sys W -> Prop) :
  heap_wf s -> sgl_ok sgl -> owns L (sgl_blocks p sgl) s -> sgl_ndescr sgl = sgl_nalloc sgl -> sgl_ndescr sgl < 256 ->
  (forall sgl' s', heap_wf s' -> world s' = world s -> sgl_ok sgl' -> owns L (sgl_blocks p sgl') s' ->
     segs sgl' = segs sgl -> sgl_len sgl' = sgl_len sgl -> sgl_ndescr sgl' = sgl_ndescr sgl ->
     sgl_nalloc sgl < sgl_nalloc sgl' -> Q (true, sgl') s') ->
  (forall sgl' s', heap_wf s' -> world s' = world s -> owns L (sgl_blocks p sgl) s' -> sgl_descriptors sgl' = 0 ->
     sgl_list sgl' = [] -> sgl_ndescr sgl' = sgl_ndescr sgl -> sgl_ndescr sgl' < sgl_nalloc sgl' -> Q (false, sgl') s') ->
  wp (sgl_grow spdk junk dev sgl) s Q.
Proof.
  intros Hwf Hok Ho E H256 HS HE. pose proof Hok as [Hn Hc Hl Ht]. unfold sgl_grow. cbn zeta.
  set (n := if sgl_nalloc sgl =? 0 then 1 else 2 * sgl_nalloc sgl).
  assert (Hlt : sgl_nalloc sgl < n <= 512) by (unfold n; destruct (Z.eqb_spec (sgl_nalloc sgl) 0); lia).
  unfold SIZEOF_SGL_DESCR. rewrite wrap_id by lia. apply wp_bind. eapply wp_buf_realloc; [done|lia|by eapply owns_mem|..].
  - intros s' H1 H2 H3. apply wp_ret. cbn [Z.eqb negb]. apply HE; try done; [by apply (owns_ext _ (sgl_blocks p sgl) _ s)|cbn; lia].
  - intros q s' H1 H2 H3 H4 H5. rewrite (proj2 (Z.eqb_neq q 0)) by done. apply wp_ret. cbn [negb].
    destruct (grow_list sgl q Hok E) as [G1 G2]. fold n in G1, G2.
    apply HS; try done.
    + split; cbn [sgl_ndescr sgl_nalloc sgl_list]; [done|lia|done|]. unfold used. cbn [sgl_ndescr sgl_list]. by rewrite G2.
    + eapply (owns_move _ _ (sgl_descriptors sgl) q s); [exact Hwf|done|done|done|exact Ho].
    + unfold segs at 1, used at 1. cbn [sgl_ndescr sgl_list]. by rewrite G2.
    + cbn. lia.
Qed.

Lemma wp_sgl_add L p sgl addr len s : heap_wf s -> sgl_ok sgl -> owns L (sgl_blocks p sgl) s ->
  wp (nvm_sgl_add spdk junk dev sgl addr len) s (add_post L p sgl addr len s).
Proof.
  intros Hwf Hok Ho. pose proof Hok as [Hn Hc _ _]. unfold nvm_sgl_add.
  destruct (Z.eqb_spec (sgl_ndescr sgl) 256) as [E|E].
  { eapply wp_intro; [done|]. split; [done|]. split; [done|]. right; left. do 2 (split; [done|]).
    split; [by apply (owns_ext _ (sgl_blocks p sgl) _ s)|]. auto. }
  destruct (Z.eqb_spec (sgl_ndescr sgl) (sgl_nalloc sgl)) as [En|En].
  - apply wp_bind. eapply wp_sgl_grow; [done|exact Hok|exact Ho|done|lia|..].
    + intros sgl1 s1 H1 H2 H3 H4 H5 H6 H7 H8. eapply wp_sgl_put; [done|exact H3|exact H4|lia|lia|..].
      * intros sgl2 s2 K1 K2 K3 K4 K5 K6 K7. split; [done|]. split; [congruence|]. left.
        rewrite K5, K6, H5, H6. do 3 (split; [done|]). do 3 (split; [done || lia|]). lia.
      * intros sgl2 s2 K1 K2 K3 K4 K5 K6 K7 K8. split; [done|]. split; [congruence|]. right; left.
        rewrite K5, K6, H5, H6. auto 10.
    + intros sgl1 s1 H1 H2 H3 H4 H5 H6 H7. apply wp_ret. split; [done|]. split; [done|]. right; right.
      do 4 (split; [done|]). intros addr' len'. unfold nvm_sgl_add.
      rewrite (proj2 (Z.eqb_neq _ _)), (proj2 (Z.eqb_neq _ _)) by lia. unfold sgl_put. by rewrite H5.
  - eapply wp_sgl_put; [done|exact Hok|exact Ho|lia|lia|..].
    + intros sgl2 s2 K1 K2 K3 K4 K5 K6 K7. split; [done|]. split; [done|]. left. do 3 (split; [done|]). do 3 (split; [done || lia|]). lia.
    + intros sgl2 s2 K1 K2 K3 K4 K5 K6 K7 K8. split; [done|]. split; [done|]. right; left. auto 10.
Qed.

(** ** Life cycle *)

Lemma wp_sgl_create hint s (Q : option (boxed nvm_sgl) -> sys W -> Prop) : heap_wf s -> 0 <= hint < 2 ^ 31 ->
  (forall s', heap_wf s' -> live s' = live s -> errno s' = ENOMEM -> Q None s') ->
  (forall p sgl s', heap_wf s' -> sgl_ok sgl -> owns (live s) (sgl_blocks p sgl) s' -> segs sgl = [] -> sgl_len sgl = 0 ->
     sgl_nalloc sgl = hint -> Q (Some (p, sgl)) s') ->
  wp (nvm_sgl_create spdk junk dev hint) s Q.
Proof.
  intros Hwf Hh HN HS. unfold nvm_sgl_create. apply wp_bind. eapply wp_malloc; [done|by intros; apply wp_ret, HN|].
  intros p s1 Hp Hf1 Hwf1 Hl1 _ _. rewrite (proj2 (Z.eqb_neq p 0)) by done.
  assert (Ho1 : owns (live s) [p] s1) by (by eapply owns_new; [..|apply owns_none]).
  assert (Hind : forall q s2, heap_wf s2 -> owns (live s) [q; p] s2 ->
    wp (ind ← nvm_buf_alloc spdk dev SIZEOF_SGL_DESCR;
        mret (Some (p, Sgl ind (junk ind 0) q (junk_list junk q 0 hint) 0 hint 0))) s2 Q).
  { intros q s2 Hwf2 Ho2.
    assert (Hend : forall ind s3, heap_wf s3 -> owns (live s) [ind; q; p] s3 ->
      Q (Some (p, Sgl ind (junk ind 0) q (junk_list junk q 0 hint) 0 hint 0)) s3).
    { intros ind s3 Hwf3 Ho3. apply HS; try done.
      - split; cbn; [lia|lia| |constructor]. unfold junk_list. rewrite length_fmap, length_seqZ. lia.
      - unfold sgl_blocks. cbn. eapply owns_ext; [apply Permutation_swap|reflexivity|done]. }
    apply wp_bind. eapply (wp_buf_alloc spdk dev Halloc); [done|done| |].
    - intros s3 Hwf3 Hl3 _ _. apply wp_ret, Hend; [done|]. eapply owns_null; [done|]. by apply (owns_ext _ [q; p] _ s2).
    - intros ind s3 H0 Hf3 Hwf3 Hl3 _ _. apply wp_ret, Hend; [done|]. by eapply owns_new. }
  apply wp_bind. destruct (Z.eqb_spec hint 0) as [->|H0].
  - apply wp_ret, Hind; [done|]. by eapply owns_null.
  - unfold SIZEOF_SGL_DESCR in *. rewrite wrap_id by lia. apply wp_bind.
    eapply (wp_buf_alloc spdk dev Halloc); [done|lia| |].
    + intros s2 Hwf2 Hl2 _ He2. cbn [Z.eqb]. apply wp_bind.
      eapply wp_free; [done|right; rewrite Hl2, Hl1; apply live_new|]. intros s3 Hwf3 Hl3 _ He3.
      apply wp_ret, wp_ret, HN; [done|by rewrite Hl3, Hl2, Hl1, live_undo|by rewrite He3].
    + intros q s2 Hq Hf2 Hwf2 Hl2 _ _. rewrite (proj2 (Z.eqb_neq q 0)) by done. apply wp_ret, Hind; [done|].
      by eapply owns_new.
Qed.

Lemma wp_sgl_destroy {I} L p sgl s (Q : unit -> sys W -> Prop) : good I s -> owns L (sgl_blocks p sgl) s ->
  (forall s', good I s' -> live s' = L -> world s' = world s -> errno s' = errno s -> Q tt s') ->
  wp (nvm_sgl_destroy spdk dev (p, sgl)) s Q.
Proof.
  intros Hwf Ho HQ. eapply wp_ext; [|by eapply wp_free_owned]. destruct Halloc as [_ Hfree].
  unfold nvm_sgl_destroy, free_all, sgl_blocks. cbn. unfold mbind, M_bind.
  rewrite Hfree. destruct (free (sgl_descriptors sgl) s) as [[? s1]|]; [|done].
  rewrite Hfree. destruct (free (sgl_indirect sgl) s1) as [[? s2]|]; [|done].
  by destruct (free p s2) as [[[] ?]|].
Qed.

(** A list made of the buffers [bufs], as a client does; the first failure
    ends it. *)
Definition sgl_build (hint : Z) (bufs : list (Z * Z)) : M W (option (Z * boxed nvm_sgl)) :=
  o ← nvm_sgl_create spdk junk dev hint;
  match o with
  | None => mret None
  | Some (p, sgl) =>
      r ← mfold_ret (fun '(addr, len) sgl =>
            '(err, sgl) ← nvm_sgl_add spdk junk dev sgl addr len;
            mret (if err =? 0 then inl sgl else inr (err, sgl))) bufs sgl;
      mret (Some (match r with inl sgl => (0, (p, sgl)) | inr (err, sgl) => (err, (p, sgl)) end))
  end.

(** The segment of a buffer. *)
Definition buf_seg (b : Z * Z) : Z * Z := (spdk_vtophys spdk b.1, u32 b.2).

Lemma segs_length sgl : sgl_ok sgl -> Z.of_nat (length (segs sgl)) = sgl_ndescr sgl.
Proof. intros [Hn Hc Hl _]. unfold segs, used. rewrite length_fmap, length_take. lia. Qed.

Lemma wp_sgl_build hint bufs s (Q : option (Z * boxed nvm_sgl) -> sys W -> Prop) :
  heap_wf s -> 0 <= hint < 2 ^ 31 -> Z.of_nat (length bufs) <= 256 ->
  Forall (fun b => spdk_vtophys spdk b.1 <> SPDK_VTOPHYS_ERROR) bufs ->
  (forall s', heap_wf s' -> live s' = live s -> errno s' = ENOMEM -> Q None s') ->
  (forall p sgl s', heap_wf s' -> sgl_ok sgl -> owns (live s) (sgl_blocks p sgl) s' -> segs sgl = buf_seg <$> bufs ->
     Q (Some (0, (p, sgl))) s') ->
  (forall p sgl s', hint < Z.of_nat (length bufs) -> Q (Some (-1, (p, sgl))) s') ->
  wp (sgl_build hint bufs) s Q.
Proof.
  intros Hwf Hh Hlen Hphys HN HS HE. unfold sgl_build. apply wp_bind.
  apply wp_sgl_create; [done|done|by intros; apply wp_ret, HN|].
  intros p sgl0 s1 Hwf1 Hok1 Ho1 Hs1 _ Hn1. apply wp_bind.
  apply (wp_mfold_ret _ (fun pre sgl s' => heap_wf s' /\ sgl_ok sgl /\ owns (live s) (sgl_blocks p sgl) s' /\
      segs sgl = buf_seg <$> pre /\ hint <= sgl_nalloc sgl)
    (fun r _ => r.1 = -1 /\ hint < Z.of_nat (length bufs))).
  - split; [done|]. split; [done|]. split; [done|]. split; [done|lia].
  - intros pre [addr len] post sgl s2 E (H1 & H2 & H3 & H4 & H5).
    assert (Ha : spdk_vtophys spdk addr <> SPDK_VTOPHYS_ERROR).
    { rewrite E in Hphys. by apply Forall_app in Hphys as [_ [? _]%Forall_cons]. }
    pose proof (segs_length _ H2) as Hk. rewrite H4, length_fmap in Hk.
    assert (Hpre : Z.of_nat (length pre) < Z.of_nat (length bufs)) by (rewrite E, length_app; cbn; lia).
    apply wp_bind. eapply wp_mono; [by apply (wp_sgl_add (live s) p)|]. intros [err sgl'] s3 (K1 & K2 & K3). apply wp_ret.
    destruct K3 as [(-> & K3 & K4 & _ & K5 & _ & K6)|[(-> & _ & _ & _ & _ & [[? _]|[? _]])|(-> & K3 & _)]]; cbn; [|lia|done|].
    + split; [done|]. split; [done|]. split; [done|]. split; [by rewrite K5, H4, fmap_app|lia].
    + split; [done|]. lia.
  - intros sgl s2 (H1 & H2 & H3 & H4 & H5). by apply wp_ret, HS.
  - intros [err sgl] s2 [H1 H2]. cbn in H1. subst err. by apply wp_ret, HE.
Qed.

(** ** Commands *)

(** The [n] descriptors in DMA memory at the physical address [phys]. *)
Fixpoint find_sgl (phys : Z) (n : nat) (dmas : list (Z * dma)) : option (list nvm_nvme_sgl_descriptor) :=
  match dmas with
  | [] => None
  | (q, DmaSgl l) :: dmas =>
      if (spdk_vtophys spdk q =? phys) && (n <=? length l)%nat then Some (take n l) else find_sgl phys n dmas
  | _ :: dmas => find_sgl phys n dmas
  end.

(** The segments of a command's data, as a device reads the entry: its data
    pointer is a descriptor of data, or of the one segment of the list. *)
Definition sgl_decode (cmd : nvm_nvme_cmd) (dmas : list (Z * dma)) : option (list (Z * Z)) :=
  let d := dptr cmd in
  if psdt_of cmd =? NVM_NVME_PSDT_PRP then None
  else if sgl_type d =? NVM_NVME_SGL_DESCR_TYPE_DATA_BLOCK then Some [sgl_seg d]
  else if (sgl_type d =? NVM_NVME_SGL_DESCR_TYPE_LAST_SEGMENT) && negb (sgl_addr d =? SPDK_VTOPHYS_ERROR) then
    l ← find_sgl (sgl_addr d) (Z.to_nat (sgl_dlen d / SIZEOF_SGL_DESCR)) dmas;
    if forallb (fun d => sgl_type d =? NVM_NVME_SGL_DESCR_TYPE_DATA_BLOCK) l then Some (sgl_seg <$> l) else None
  else None.

Lemma psdt_set x c : 0 <= x < 4 -> psdt_of (set_psdt x c) = x.
Proof. intros. unfold psdt_of, set_psdt. cbn [with_cdw00 cdw00]. rewrite bf_get_set, wrap_id by lia. done. Qed.

Lemma last_segment_fields sgl phys d : 0 <= sgl_ndescr sgl <= 256 ->
  sgl_type (last_segment sgl phys d) = NVM_NVME_SGL_DESCR_TYPE_LAST_SEGMENT /\
  sgl_dlen (last_segment sgl phys d) = sgl_ndescr sgl * 16 /\ sgl_addr (last_segment sgl phys d) = phys.
Proof.
  intros Hn. unfold last_segment, set_sgl, sgl_type, sgl_dlen, SIZEOF_SGL_DESCR. cbn [sgl_word sgl_addr].
  rewrite bf_get_set_ne, !bf_get_set, (wrap_id 64), (wrap_id 32) by lia. done.
Qed.

(** What [cmd_wrap_setup_sgl] puts in the entry for the data. *)
Lemma wp_setup_sgl sgl meta flags w s (Q : nvm_cmd_wrap * payload -> sys W -> Prop) :
  sgl_ok sgl -> flag_set flags NVM_CMD_SGL = true -> flag_set flags NVM_CMD_SGL_META = false -> w_dma w = [] ->
  spdk_vtophys spdk (sgl_descriptors sgl) <> SPDK_VTOPHYS_ERROR ->
  (forall w', sgl_decode (w_cmd w') (w_dma w') = Some (segs sgl) -> w_data w' = KMem None -> w_data_len w' = 0 ->
     w_meta w' = w_meta w -> Q (w', meta) s) ->
  wp (cmd_wrap_setup_sgl spdk dev (PSgl sgl) meta flags w) s Q.
Proof.
  intros Hok Hf Hm Hw Hphys HQ. pose proof Hok as [Hn Hc Hl Ht]. unfold flag_set in Hf, Hm.
  unfold cmd_wrap_setup_sgl. apply negb_true_iff in Hf. apply negb_false_iff in Hm. rewrite Hf, Hm. cbn zeta.
  apply wp_bind. destruct (Z.eqb_spec (sgl_ndescr sgl) 1) as [E1|E1].
  - destruct (lookup_lt_is_Some_2 (sgl_list sgl) 0) as [d Hd]; [lia|]. apply wp_bind. rewrite Hd.
    eapply (wp_intro _ _ d s); [done|]. apply wp_ret, wp_ret, HQ; [|done..].
    assert (Eu : used sgl = [d]).
    { unfold used. rewrite E1. destruct (sgl_list sgl) as [|d' l]; [done|]. cbn in Hd |- *. by simplify_eq. }
    unfold segs. rewrite Eu in *. rewrite Forall_singleton in Ht. unfold sgl_decode. cbn [w_with_sgl w_with_data w_with_cmd w_cmd].
    change (psdt_of (with_dptr d ?c)) with (psdt_of c). rewrite psdt_set by done. cbn [with_dptr dptr]. by rewrite Ht.
  - apply wp_bind. unfold phys_of.
    replace ((be_id dev =? NVM_BE_SPDK) || (be_id dev =? NVM_BE_NOCD)) with true by (by destruct Hbe as [-> | ->]).
    apply wp_bind, wp_vtophys; [done|]. intros _. eapply wp_intro; [done|]. apply wp_ret, wp_ret, HQ; [|done..].
    unfold sgl_decode. cbn [w_with_sgl w_with_data w_with_cmd w_cmd w_dma]. rewrite Hw. cbn [app].
    set (d := last_segment _ _ _). change (psdt_of (with_dptr d ?c)) with (psdt_of c). rewrite psdt_set by done.
    destruct (last_segment_fields sgl (spdk_vtophys spdk (sgl_descriptors sgl)) (dptr (set_psdt NVM_NVME_PSDT_SGL_MPTR_CONTIGUOUS (w_cmd w))) Hn)
      as (F1 & F2 & F3). fold d in F1, F2, F3. cbn [with_dptr dptr]. rewrite F1, F2, F3, (proj2 (Z.eqb_neq _ _) Hphys).
    unfold SIZEOF_SGL_DESCR. rewrite Z.div_mul by done. cbn [find_sgl]. rewrite Z.eqb_refl, (proj2 (Nat.leb_le _ _)) by lia.
    assert (Hb : forallb (fun d => sgl_type d =? NVM_NVME_SGL_DESCR_TYPE_DATA_BLOCK) (used sgl) = true).
    { apply forallb_forall. intros x Hx. rewrite Forall_forall in Ht. apply Z.eqb_eq, Ht. by apply list_elem_of_In. }
    change (NVM_NVME_PSDT_SGL_MPTR_CONTIGUOUS =? NVM_NVME_PSDT_PRP) with false.
    change (NVM_NVME_SGL_DESCR_TYPE_LAST_SEGMENT =? NVM_NVME_SGL_DESCR_TYPE_DATA_BLOCK) with false.
    rewrite Z.eqb_refl. cbn [andb negb mbind option_bind]. fold (used sgl). by rewrite Hb.
Qed.
End sgl.

(** ** Properties *)

(** C30: what adding a segment to a scatter/gather list does. A list of fewer
    than 256 segments gets the physical address and length (of 32 bits) of the
    buffer at its end, whether or not its array had to double, keeps the
    others in their order and owns no more blocks than before; a full list
    ([EINVAL]) and one whose buffer has no physical address ([EIO]) keep their
    segments. When the array cannot grow the answer is -1 too, but the list
    has lost it: the old array is still allocated, and the next segment is
    written through [NULL]. *)
Theorem nvm_sgl_add_appends {W} (spdk : spdk_env W) (junk : Z -> Z -> nvm_nvme_sgl_descriptor) (dev : nvm_dev)
    (Hrealloc : realloc_ok spdk) (Hbe : be_id dev = NVM_BE_SPDK \/ be_id dev = NVM_BE_NOCD)
    (L : gset Z) (p : Z) (sgl : nvm_sgl) (addr len : Z) (s : sys W)
    (Hwf : heap_wf s) (Hok : sgl_ok sgl) (Ho : owns L (sgl_blocks p sgl) s) :
  wp (nvm_sgl_add spdk junk dev sgl addr len) s (fun '(err, sgl') s' =>
    heap_wf s' /\ world s' = world s /\
    (err = 0 /\ sgl_ok sgl' /\ owns L (sgl_blocks p sgl') s' /\ sgl_ndescr sgl < 256 /\
       segs sgl' = segs sgl ++ [(spdk_vtophys spdk addr, len mod 2 ^ 32)] /\ sgl_len sgl' = u64 (sgl_len sgl + len) /\
       sgl_nalloc sgl <= sgl_nalloc sgl' \/
     err = -1 /\ sgl_ok sgl' /\ owns L (sgl_blocks p sgl') s' /\ segs sgl' = segs sgl /\ sgl_len sgl' = sgl_len sgl /\
       (sgl_ndescr sgl = 256 /\ errno s' = EINVAL \/
        spdk_vtophys spdk addr = SPDK_VTOPHYS_ERROR /\ errno s' = EIO) \/
     err = -1 /\ sgl_ndescr sgl = sgl_nalloc sgl /\ owns L (sgl_blocks p sgl) s' /\ sgl_descriptors sgl' = 0 /\
       forall addr' len', nvm_sgl_add spdk junk dev sgl' addr' len' s' = None)).
Proof. eapply wp_mono; [by apply (wp_sgl_add spdk junk dev Hrealloc Hbe L p)|]. by intros [err sgl'] s'. Qed.

(** C19: from a client's buffers to the segments a device reads. A list created
    with any hint and given up to 256 buffers with physical addresses is either
    complete, or its creation failed with nothing kept, or -1 was answered
    because it outgrew the hint and could not be reallocated. Of a complete
    list, the entry of a command that carries it is read by the device as the
    buffers' segments in their order (in the entry itself for one, through the
    array for others), and its destruction gives back all its blocks. *)
Theorem sgl_payload_roundtrip {W} (spdk : spdk_env W) (junk : Z -> Z -> nvm_nvme_sgl_descriptor) (dev : nvm_dev)
    (Hspdk : spdk_ok spdk) (Hrealloc : realloc_ok spdk) (Hbe : be_id dev = NVM_BE_SPDK \/ be_id dev = NVM_BE_NOCD)
    (hint : Z) (bufs : list (Z * Z)) (s : sys W) (Hwf : heap_wf s) (Hhint : 0 <= hint < 2 ^ 31)
    (Hlen : Z.of_nat (length bufs) <= 256)
    (Hphys : Forall (fun b => spdk_vtophys spdk b.1 <> SPDK_VTOPHYS_ERROR) bufs) :
  wp (sgl_build spdk junk dev hint bufs) s (fun r s1 =>
    match r with
    | None => live s1 = live s /\ errno s1 = ENOMEM
    | Some (err, (p, sgl)) =>
        err = 0 /\
        (forall meta flags w, flag_set flags NVM_CMD_SGL = true -> flag_set flags NVM_CMD_SGL_META = false ->
           w_dma w = [] -> spdk_vtophys spdk (sgl_descriptors sgl) <> SPDK_VTOPHYS_ERROR ->
           wp (cmd_wrap_setup_sgl spdk dev (PSgl sgl) meta flags w) s1 (fun '(w', meta') s2 =>
             sgl_decode spdk (w_cmd w') (w_dma w') = Some ((fun b => (spdk_vtophys spdk b.1, b.2 mod 2 ^ 32)) <$> bufs) /\
             meta' = meta /\ s2 = s1)) /\
        wp (nvm_sgl_destroy spdk dev (p, sgl)) s1 (fun _ s2 => live s2 = live s) \/
        err = -1 /\ hint < Z.of_nat (length bufs)
    end).
Proof.
  assert (Halloc : alloc_ok spdk dev) by (by apply dma_alloc_ok).
  apply wp_sgl_build; try done; [|by right].
  intros p sgl s1 H1 H2 H3 H4. left. split; [done|]. split.
  - intros meta flags w X1 X2 X3 X4. apply wp_setup_sgl; try done.
    intros w' E _ _ _. by rewrite E, H4.
  - eapply wp_sgl_destroy; [done|done|exact H3|]. by intros.
Qed.

(** ** Witnesses *)

(** DMA memory from the heap, reallocated by a copy. *)
Definition copy_spdk {W} : spdk_env W :=
  SpdkEnv (fun _ _ => malloc) (fun p _ _ => q ← malloc; if q =? 0 then mret 0 else _ ← free p; mret q)
    (fun p => free p) (fun p => 4096 * p).

Lemma copy_realloc {W} : realloc_ok (W := W) copy_spdk.
Proof.
  intros I p n a s Hwf Hn Hp. cbn. apply wp_bind. eapply wp_malloc; [done| |].
  - intros s' H1 H2 H3 _. apply wp_ret. auto.
  - intros q s1 Hq Hf H1 H2 H3 _. rewrite (proj2 (Z.eqb_neq q 0)) by done. apply wp_bind.
    eapply wp_free; [done|rewrite H2; set_solver|]. intros s2 X1 X2 X3 _. apply wp_ret.
    split; [done|]. split; [congruence|]. right. split; [done|]. split; [set_solver|]. rewrite X2, H2.
    destruct Hp as [->|Hp]; [|by apply live_move].
    assert (0 ∉ {[q]} ∪ live s) by (intros H0; rewrite <-H2 in H0; apply (good_live _ _ H1) in H0; lia). set_solver.
Qed.

Definition tiny_sgl_dev : nvm_dev := with_be_id NVM_BE_SPDK tiny20.
Definition sgl_junk (p i : Z) : nvm_nvme_sgl_descriptor := SglDescr p (7 * 2 ^ 56).

(** The second segment of a list of one entry. *)
Definition one_seg : nvm_sgl := Sgl 3 (SglDescr 0 0) 5 [SglDescr 4096 512] 1 1 512.

Lemma one_seg_ok : sgl_ok one_seg.
Proof. split; [done|done|done|by apply Forall_singleton]. Qed.

Lemma one_seg_owned : owns {[1]} (sgl_blocks 6 one_seg) (Sys 0 (Heap 7 {[1; 3; 5; 6]} (fun _ => true)) tt).
Proof.
  split; [|intros p Hp|by apply (bool_decide_eq_true_1 _); vm_compute].
  - apply (bool_decide_eq_true_1 _). by vm_compute.
  - unfold sgl_blocks in Hp. cbn in Hp. set_solver.
Qed.

Lemma nvm_sgl_add_appends_witness :
  let s := Sys 0 (Heap 7 {[1; 3; 5; 6]} (fun _ => true)) tt in
  wp (nvm_sgl_add copy_spdk sgl_junk tiny_sgl_dev one_seg 9 (2 ^ 32 + 4)) s (fun '(err, sgl) s' =>
    err = 0 /\ segs sgl = [(4096, 512); (4096 * 9, 4)] /\ sgl_nalloc sgl = 2).
Proof.
  intros s. pose proof (nvm_sgl_add_appends copy_spdk sgl_junk tiny_sgl_dev copy_realloc (or_introl eq_refl) {[1]} 6 one_seg 9
    (2 ^ 32 + 4) s ltac:(split; [split; [done|unfold live; cbn; set_solver by lia]|done]) one_seg_ok one_seg_owned) as C.
  apply wp_elim in C as ([err sgl] & s' & E & _ & _ & C). eapply wp_intro; [exact E|].
  assert (E2 := E). vm_compute in E2. injection E2 as E3 E4 _. rewrite <-E4.
  destruct C as [(C1 & _ & _ & _ & C2 & _)|[[C1 _]|[C1 _]]]; [|by rewrite C1 in E3..].
  split; [done|]. rewrite E4, C2. rewrite <-E4. by vm_compute.
Defined.

(** Three buffers in a list of one entry, which doubles twice. *)
Lemma sgl_payload_roundtrip_witness :
  let s := Sys 0 (sample_heap 99) tt in
  wp (sgl_build copy_spdk sgl_junk tiny_sgl_dev 1 [(10, 8); (20, 16); (30, 24)]) s (fun r s1 =>
    match r with
    | Some (0, (_, sgl)) => sgl_nalloc sgl = 4 /\ forall ret,
        wp (cmd_wrap_setup_sgl copy_spdk tiny_sgl_dev (PSgl sgl) (PMem None) NVM_CMD_SGL
              (wrap_init tiny_sgl_dev NVM_DOPC_SCALAR_WRITE None None ret)) s1 (fun '(w, _) _ =>
          sgl_decode (W := unit) copy_spdk (w_cmd w) (w_dma w) = Some [(40960, 8); (81920, 16); (122880, 24)])
    | _ => False
    end).
Proof.
  intros s. pose proof (sgl_payload_roundtrip copy_spdk sgl_junk tiny_sgl_dev ltac:(by split) copy_realloc (or_introl eq_refl)
    1 [(10, 8); (20, 16); (30, 24)] s (sample_heap_wf _ _ _) ltac:(lia) ltac:(cbn; lia)
    ltac:(apply (bool_decide_eq_true_1 _); by vm_compute)) as C.
  apply wp_elim in C as (r & s1 & E & C). eapply wp_intro; [exact E|].
  assert (E2 := E). vm_compute in E2. injection E2 as <- <-. destruct C as [(_ & C & _)|[? _]]; [|done].
  split; [done|]. intros ret. eapply wp_mono; [apply C; done|]. by intros [w m] s2 [-> _].
Defined.
