(* ===== verification/SpdkSpec.v ===== *)
(** The SPDK backend implements the interface of [Media]: over a device that
    executes the entries it is given, its synchronous commands act on generic
    addresses as the interface promises. *)
From stdpp Require Import base numbers strings gmap option list.
From S2P Require Import Prelude Types Nvme Addr Dev Backend Buf Be Sgl Cmd Wrap Spdk Nocd.
From S2P Require Import Vblk Stripe Media Linear VblkIO DevMedia WrapSpec.

(** ** What SPDK and the device do *)

Definition with_os {W} (o : W) (w : spdk_world W) : spdk_world W :=
  SpdkWorld (do_env_init w) (sw_states w) (sw_nocd w) (sw_ctxs w) (sw_wraps w) o.

(** A completion without an error. *)
Definition cpl_ok (e : cpl_event) : Prop := sc (status (ce_cpl e)) = 0 /\ sct (status (ce_cpl e)) = 0.

Section steps.
Context {W : Type} (media : W -> Z -> list Z) (nb : Z).
Implicit Types s : sys (spdk_world W).
#[local] Abbreviation os s := (sw_os (world s)).

(** The library ran, and changed no sector but those of [l] and nothing of the
    backend. *)
Record lib_step (l : list Z) s s' : Prop := {
  ls_wf : heap_wf s';
  ls_live : live s' = live s;
  ls_world : world s' = with_os (os s') (world s);
  ls_media d : d ∉ l -> media (os s') d = media (os s) d }.

Lemma lib_step_trans l s1 s2 s3 : lib_step l s1 s2 -> lib_step l s2 s3 -> lib_step l s1 s3.
Proof.
  intros [A1 A2 A3 A4] [B1 B2 B3 B4]. split; [done|congruence| |intros d Hd; by rewrite B4, A4].
  rewrite B3, A3. done.
Qed.

Lemma lib_step_nil l s s' : lib_step [] s s' -> lib_step l s s'.
Proof. intros [A1 A2 A3 A4]. split; try done. intros d _. apply A4, not_elem_of_nil. Qed.

(** What a completed command did: a write left its data in the sectors, a read
    has them in the buffer. *)
Definition io_done (write : bool) (l data : list Z) (s : sys (spdk_world W)) (e : cpl_event) (s' : sys (spdk_world W)) : Prop :=
  exists data', ce_data e = KMem (Some data') /\
    if write then data' = data /\
      (cpl_ok e -> forall i d, l !! i = Some d -> media (os s') d = sector nb data (Z.of_nat i))
    else
      let n := Z.to_nat (Z.of_nat (length l) * nb) in
      length data' = length data /\ drop n data' = drop n data /\
      (cpl_ok e -> take n data' = concat (media (os s) <$> l)).
End steps.

(** The sectors a command may change. *)
Definition io_target (write : bool) (l : list Z) : list Z := if write then l else [].

(** The queue pair [q] of the controller [ctrlr]: an entry that names sectors
    of the name-space is accepted or refused; after at most [dk_lag] calls that
    process completions, an accepted one is completed. *)
Class NvmeDisk {W} (spdk : spdk_env (spdk_world W)) (lib : spdk_nvme (spdk_world W)) (dev : nvm_dev) (ctrlr q : Z) := {
  dk_media : W -> Z -> list Z;
  dk_media_len w d : length (dk_media w d) = Z.to_nat (nbytes (geo dev));
  dk_idle : W -> Prop;
  dk_pending : W -> Z -> bool -> list Z -> list Z -> nat -> Prop;
  dk_lag : nat;
  dk_submit_law cmd dmas write l data meta p (s : sys (spdk_world W)) :
    heap_wf s -> dk_idle (sw_os (world s)) -> cmd_nsid cmd = u32 (dev_nsid dev) ->
    io_decode spdk cmd dmas = Some (write, l) -> 0 < Z.of_nat (length l) -> (write = true -> NoDup l) ->
    Z.of_nat (length l) * nbytes (geo dev) <= Z.of_nat (length data) ->
    wp (spdk_nvme_ctrlr_cmd_io_raw_with_md lib ctrlr q cmd dmas (KMem (Some data))
          (Z.of_nat (length l) * nbytes (geo dev)) meta p) s (fun err s' =>
      lib_step dk_media [] s s' /\
      (err <> 0 /\ dk_idle (sw_os (world s')) \/
       err = 0 /\ exists k, (k <= dk_lag)%nat /\ dk_pending (sw_os (world s')) p write l data k));
  dk_process_law p write l data k (s : sys (spdk_world W)) :
    heap_wf s -> dk_pending (sw_os (world s)) p write l data k ->
    wp (spdk_nvme_qpair_process_completions lib q 0) s (fun '(_, events) s' =>
      lib_step dk_media (io_target write l) s s' /\
      ((events = [] /\ exists k', (k' < k)%nat /\ dk_pending (sw_os (world s')) p write l data k') \/
       exists e, events = [e] /\ ce_arg e = p /\ dk_idle (sw_os (world s')) /\
         io_done dk_media (nbytes (geo dev)) write l data s e s')) }.

(** ** Synchronous commands *)

Section sync.
Context {W : Type}.
#[local] Abbreviation SW := (spdk_world W).
Context (spdk : spdk_env SW) (lib : spdk_nvme SW) (ptr_of : mem -> Z) (ret_ctx : Z -> Z) (polls : nat).
Context (dev : nvm_dev) (ctrlr q : Z) `{!NvmeDisk spdk lib dev ctrlr q}.
Context (Halloc : alloc_ok spdk dev) (Hbe : be_id dev = NVM_BE_SPDK \/ be_id dev = NVM_BE_NOCD).
Context (Hok : lba_dev_ok dev) (Hpolls : (dk_lag < polls)%nat).
Implicit Types s : sys SW.
#[local] Abbreviation nb := (nbytes (geo dev)).
#[local] Abbreviation os s := (sw_os (world s)).
#[local] Abbreviation gen2dev := (nvm_addr_gen2dev dev).

(** The handle is open on the controller, with nothing on its queue pair. *)
Definition spdk_ready (w : SW) : Prop :=
  (exists st, sw_states w !! be_state dev = Some st /\ st_ctrlr st = ctrlr /\ st_qpair st = q) /\ dk_idle (sw_os w).

Lemma ready_step l s s' : lib_step dk_media l s s' -> spdk_ready (world s) -> dk_idle (os s') -> spdk_ready (world s').
Proof. intros H [Hst _] Hi. split; [|done]. by rewrite (ls_world _ _ _ _ H). Qed.

Lemma good_heap {I : SW -> Prop} s : good I s -> heap_wf s.
Proof. by intros [H _]. Qed.

Lemma good_intro (I : SW -> Prop) s : heap_wf s -> I (world s) -> good I s.
Proof. by intros [H _] HI. Qed.

(** [if (wrap->completed < 0) errno = EIO;] *)
Lemma wp_done (b : bool) s (Q : unit -> sys SW -> Prop) :
  (forall s', hp s' = hp s /\ world s' = world s -> Q tt s') -> wp (if b then set_errno EIO else mret tt) s Q.
Proof. intros HQ. destruct b; by apply HQ. Qed.

(** *** One command in flight

    [pend o k]: the command of the wrap at [p] is completed after at most [k]
    more calls; until then only the sectors of [l] change. [did] says what it
    has done. *)
Section command.
Context (p : Z) (l : list Z) (pend : W -> nat -> Prop) (did : sys SW -> cpl_event -> sys SW -> Prop).
Context (Hproc : forall k s, heap_wf s -> pend (os s) k ->
  wp (spdk_nvme_qpair_process_completions lib q 0) s (fun '(_, events) s' =>
    lib_step dk_media l s s' /\
    ((events = [] /\ exists k', (k' < k)%nat /\ pend (os s') k') \/
     exists e, events = [e] /\ ce_arg e = p /\ dk_idle (os s') /\ did s e s'))).
Context (Hdid : forall s0 s e s', lib_step dk_media l s0 s -> did s e s' -> did s0 e s').

Lemma wp_sync_wait fuel k w dat m s s0 (Q : nvm_cmd_wrap * kdata * mem -> sys SW -> Prop) :
  (k < fuel)%nat -> pend (os s) k -> w_completed w = 0 -> heap_wf s -> lib_step dk_media l s0 s ->
  (forall e s', lib_step dk_media l s0 s' -> dk_idle (os s') -> did s0 e s' ->
     Q (w_with_cpl (nvm_cmd_wrap_cpl (w_ret w) (ce_cpl e)).1 (nvm_cmd_wrap_cpl (w_ret w) (ce_cpl e)).2 w, ce_data e, ce_meta e) s') ->
  wp (sync_wait lib fuel q p (w, dat, m)) s Q.
Proof.
  revert k s. induction fuel as [|fuel IH]; intros k s Hk Hp Hc Hwf Hst HQ; [lia|].
  cbn [sync_wait fst]. rewrite Hc. cbn [Z.eqb negb]. apply wp_bind.
  eapply wp_mono; [by apply (Hproc k)|]. intros [res events] s' [Hs' Hev].
  assert (Hst' : lib_step dk_media l s0 s') by (by eapply lib_step_trans).
  destruct Hev as [(-> & k' & Hk' & Hp')|(e & -> & Ha & Hi & Hd)].
  - apply wp_bind, wp_ret. eapply (IH k'); [lia|done|done|apply Hs'|done|done].
  - apply wp_bind. cbn [mfold]. unfold cmd_sync_cb. rewrite (proj2 (Z.eqb_eq _ _) Ha).
    apply wp_bind. destruct (nvm_cmd_wrap_cpl (w_ret w) (ce_cpl e)) as [ret completed] eqn:Ec.
    apply wp_ret, wp_ret. specialize (HQ e s' Hst' Hi). rewrite Ec in HQ. cbn [fst snd] in HQ.
    assert (Hne : completed <> 0).
    { unfold nvm_cmd_wrap_cpl in Ec. destruct (negb _ || negb _); simplify_eq; lia. }
    assert (E : (w_completed (w_with_cpl ret completed w) =? 0) = false) by (by apply Z.eqb_neq).
    destruct fuel; cbn [sync_wait fst]; rewrite E; apply wp_ret, HQ; by eapply Hdid; [exact Hst|].
Qed.

(** The caller's data buffer afterwards: the command's when it had one. *)
Definition data_after (w : nvm_cmd_wrap) (e : cpl_event) (data : mem) : option mem :=
  match w_data w with
  | KMem (Some _) => match ce_data e with KMem d => Some d | _ => None end
  | _ => Some data
  end.

Lemma wp_sync_run w data meta s L (Q : io_res -> sys SW -> Prop) :
  good spdk_ready s -> wrap_owned L p w s -> w_completed w = 0 ->
  (forall s0 e s', did s0 e s' -> is_Some (data_after w e data)) ->
  wp (submit_ioc lib ctrlr q (w_cmd w) w p) s (fun err s' => lib_step dk_media [] s s' /\
    (err <> 0 /\ dk_idle (os s') \/ err = 0 /\ exists k, (k < polls)%nat /\ pend (os s') k)) ->
  (forall s', good spdk_ready s' -> live s' = L -> (forall d, dk_media (os s') d = dk_media (os s) d) ->
     Q (IoRes (-1) data meta (w_ret w)) s') ->
  (forall r e s1 s', lib_step dk_media l s s1 -> did s e s1 -> good spdk_ready s' -> live s' = L -> os s' = os s1 ->
     data_after w e data = Some (io_data r) -> (rc r = 0 -> cpl_ok e) -> Q r s') ->
  wp (sync_run spdk lib polls dev (w_cmd w) p w data meta) s Q.
Proof.
  intros Hwf Ho Hcpl Hdat Hsub HE HS. pose proof Hwf as [_ [(st & Est & Ec & Eq) Hidle]].
  unfold sync_run. apply wp_bind. unfold get_state. apply wp_bind.
  eapply (wp_intro _ _ (world s) s); [done|]. rewrite Est. eapply (wp_intro _ _ st s); [done|].
  apply wp_bind. rewrite Ec, Eq. eapply wp_mono; [exact Hsub|]. intros err s1 [Hs1 Hres].
  assert (Ho' : forall w' s', wrap_blocks p w = wrap_blocks p w' -> live s' = live s -> wrap_owned L p w' s')
    by (intros w' s' E1 E2; by eapply wrap_owned_ext).
  destruct Hres as [[Hne Hi]|(-> & k & Hk & Hp)].
  - rewrite (proj2 (Z.eqb_neq err 0)) by done. cbn [negb].
    assert (Hwf1 : good spdk_ready s1) by (apply good_intro; [apply Hs1|by eapply ready_step; [|apply Hwf|]]).
    apply wp_bind. eapply (wp_wrap_term spdk dev Halloc); [done|apply Ho'; [done|apply Hs1]|].
    intros s2 Hwf2 Hl2 Hw2 _. apply wp_ret, HE; [done|done|].
    intros x. rewrite Hw2. apply Hs1, not_elem_of_nil.
  - cbn [Z.eqb negb]. apply wp_bind.
    eapply (wp_sync_wait polls k w _ _ s1 s); [done|done|done|apply Hs1|by apply lib_step_nil|].
    intros e s2 Hs2 Hi Hd. cbn [w_with_cpl w_data w_completed w_ret].
    assert (Hwf2 : good spdk_ready s2) by (apply good_intro; [apply Hs2|by eapply ready_step; [|apply Hwf|]]).
    destruct (Hdat _ _ _ Hd) as [d' Ed]. apply wp_bind. unfold data_after in Ed. rewrite Ed.
    eapply (wp_intro _ _ d' s2); [done|]. set (cpl := nvm_cmd_wrap_cpl (w_ret w) (ce_cpl e)).
    assert (Hrc : cpl.2 = if bool_decide (cpl_ok e) then 1 else -1).
    { unfold cpl, nvm_cmd_wrap_cpl, cpl_ok. cbn [snd]. case_bool_decide as Hb.
      - by destruct Hb as [-> ->].
      - destruct (Z.eqb_spec (sc (status (ce_cpl e))) 0), (Z.eqb_spec (sct (status (ce_cpl e))) 0); tauto. }
    apply wp_bind. apply (wp_done (cpl.2 <? 0) s2). intros s3 Hs3. apply wp_bind.
    assert (Hwf3 : good spdk_ready s3) by (eapply good_world; [exact Hwf2|by destruct Hs3 as [-> _]|]; destruct Hs3 as [_ ->]; apply Hwf2).
    eapply (wp_wrap_term spdk dev Halloc); [exact Hwf3|apply Ho'; [done|]|].
    { unfold live. destruct Hs3 as [-> _]. apply Hs2. }
    intros s4 Hwf4 Hl4 Hw4 _. apply wp_ret. eapply HS; [exact Hs2|exact Hd|done|done| |exact Ed|].
    + rewrite Hw4. by destruct Hs3 as [_ ->].
    + cbn [rc]. rewrite Hrc. by case_bool_decide.
Qed.
End command.

(** The outcome of a command on the device sectors [l]. *)
Definition dev_post (write : bool) (l data : list Z) s (r : io_res) s' : Prop :=
  let km w := dk_media (sw_os w) in
  if write then write_post spdk_ready (fun _ => True) km nb l data s (rc r) s'
  else read_post spdk_ready (fun _ => True) km nb l data s r s'.

Lemma dev_post_failed write l data meta ret s s' : good spdk_ready s' -> live s' = live s ->
  (forall d, d ∉ io_target write l -> dk_media (os s') d = dk_media (os s) d) ->
  dev_post write l data s (IoRes (-1) (Some data) meta ret) s'.
Proof.
  intros Hwf Hl Hm. unfold dev_post. destruct write; cbn [io_target] in Hm.
  - split; [done|]. split; [done|]. split; [intros d _; apply Hm|done].
  - split; [done|]. split; [done|]. split; [intros d _; apply Hm, not_elem_of_nil|by exists data].
Qed.

(** The data in the caller's buffer, and the status. *)
Lemma dev_post_done write l data e r s s0 s1 s' : good spdk_ready s' -> live s' = live s -> os s0 = os s -> os s' = os s1 ->
  (forall d, d ∉ io_target write l -> dk_media (os s1) d = dk_media (os s0) d) ->
  io_done dk_media nb write l data s0 e s1 -> KMem (io_data r) = ce_data e -> (rc r = 0 -> cpl_ok e) ->
  dev_post write l data s r s'.
Proof.
  intros Hwf Hl E0 E1 Hm (d' & Ed & Hd) Er Hrc. rewrite Ed in Er. simplify_eq. unfold dev_post.
  rewrite E0 in *. destruct write; cbn [io_target] in Hm.
  - destruct Hd as [-> Hd]. split; [done|]. split; [done|]. split; [intros d _; rewrite E1; apply Hm|].
    intros E i d Hi. rewrite E1. by apply Hd; auto.
  - destruct Hd as (D1 & D2 & D3). split; [done|]. split; [done|].
    split; [intros d _; rewrite E1; apply Hm, not_elem_of_nil|]. exists d'.
    split; [done|]. split; [done|]. split; [done|]. intros E. by apply D3, Hrc.
Qed.

(** What a read or write has done does not depend on the calls before. *)
Lemma io_done_from write l data s0 s e s' : lib_step dk_media (io_target write l) s0 s ->
  io_done dk_media nb write l data s e s' -> io_done dk_media nb write l data s0 e s'.
Proof.
  intros Hst (data' & E1 & Hd). exists data'. split; [done|]. destruct write; [done|].
  destruct Hd as (? & ? & Hd). split; [done|]. split; [done|]. intros Hc'. rewrite Hd by done. f_equal.
  apply list_fmap_ext. intros i d _. apply Hst, not_elem_of_nil.
Qed.

Lemma wp_sync_rw write vector addrs a n d meta ret p w s0 s (Q : io_res -> sys SW -> Prop) :
  good spdk_ready s -> wrap_owned (live s0) p w s -> world s = world s0 ->
  wrap_rw spdk dev write vector addrs a n d meta ret w -> 0 < n <= 2 ^ 16 -> addrs !! 0%nat = Some a ->
  (vector = true -> n <= NVM_NADDR_MAX /\ Z.of_nat (length addrs) = n) ->
  (write = true -> NoDup (rw_sectors dev vector addrs a n)) -> n * nb <= Z.of_nat (length d) ->
  (forall r s', dev_post write (rw_sectors dev vector addrs a n) d s0 r s' -> Q r s') ->
  wp (sync_run spdk lib polls dev (w_cmd w) p w (Some d) meta) s Q.
Proof.
  intros Hwf Ho Hw0 Hr Hn Ha Hv Hnd Hl HQ. set (l := rw_sectors dev vector addrs a n) in *.
  pose proof (wrap_rw_decode spdk dev _ _ _ _ _ _ _ _ _ Hr Hn Ha Hv) as Hdec. fold l in Hdec.
  destruct Hr as [Eret Hcpl Hdata Hlen Hmeta Hcmd _]. pose proof (id_nb _ Hok) as Hnb.
  assert (Ell : Z.of_nat (length l) = n).
  { unfold l, rw_sectors. destruct vector; [rewrite length_fmap; by apply Hv|by apply run_from_len; lia]. }
  assert (Hm0 : os s = os s0) by (by rewrite Hw0).
  eapply (wp_sync_run p (io_target write l) (fun o k => dk_pending o p write l d k) (io_done dk_media nb write l d));
    [intros k s1 Hwf1 Hp; by apply (dk_process_law p write l d k)|intros; by eapply io_done_from|exact Hwf|exact Ho|done|..].
  - intros s1 e s' (d' & Ed & _). unfold data_after. rewrite Hdata, Ed. by eexists.
  - unfold submit_ioc. rewrite Hdata, Hlen, wrap_id by nia. rewrite <-Ell at 1.
    eapply wp_mono.
    { apply (dk_submit_law _ _ write l d); [by eapply good_heap|apply Hwf| |done|lia|done|lia].
      rewrite Hcmd. exact (proj1 (proj2 (proj2 (rw_entry_fields dev write vector n)))). }
    intros err s1 [Hs1 [Hres|(-> & k & Hk & Hp)]]; (split; [done|]); [by left|right; split; [done|]].
    exists k. split; [lia|done].
  - intros s' Hwf' Hl' Hm. apply HQ, dev_post_failed; [done|done|]. intros x _. by rewrite Hm, Hm0.
  - intros r e s1 s' Hs1 Hd Hwf' Hl' Hos Er Hrc. apply HQ.
    eapply (dev_post_done write l d e _ s0 s s1); [done..|apply Hs1|exact Hd| |done].
    destruct Hd as (d' & Ed & _). unfold data_after in Er. rewrite Hdata, Ed in Er. rewrite Ed. by injection Er as ->.
Qed.

Lemma wp_cmd_sync write vector addrs a n d meta flags ret s (Q : io_res -> sys SW -> Prop) :
  good spdk_ready s -> flag_set flags NVM_CMD_SGL = false -> 0 < n <= 2 ^ 16 -> addrs !! 0%nat = Some a ->
  (vector = true -> n <= NVM_NADDR_MAX /\ Z.of_nat (length addrs) = n) ->
  (write = true -> NoDup (rw_sectors dev vector addrs a n)) -> n * nb <= Z.of_nat (length d) ->
  (forall r s', dev_post write (rw_sectors dev vector addrs a n) d s r s' -> Q r s') ->
  wp (cmd_sync_ewrc spdk lib ptr_of polls dev addrs None n (Some d) meta flags (rw_op write vector) ret) s Q.
Proof.
  intros Hwf Hf Hn Ha Hv Hnd Hl HQ. unfold cmd_sync_ewrc. apply wp_bind.
  eapply (wp_wrap_setup spdk ptr_of dev Halloc Hbe Hok); [done|done|done|exact Ha|by intros E; apply Hv|..].
  - intros s' Hwf' Hl' Hw' _. apply wp_ret, HQ, dev_post_failed; [done|done|]. intros x _. by rewrite Hw'.
  - intros p w s' _ Hwf' Ho Hw' Hr. by eapply wp_sync_rw.
Qed.

(** ** The interface *)

(** Options of synchronous commands on buffers. *)
Definition sync_flags (flags : Z) : Prop :=
  Z.land flags NVM_CMD_MASK_IOMD <> NVM_CMD_ASYNC /\ flag_set flags NVM_CMD_SGL = false.

(** The content of a sector, by its generic address. *)
Definition spdk_media (w : SW) (a : nvm_addr) : list Z := dk_media (sw_os w) (gen2dev a).

Lemma ewrc_sync addrs n data meta flags op ret s : sync_flags flags ->
  spdk_ewrc spdk lib ptr_of ret_ctx polls dev addrs None n data meta flags op ret s =
  cmd_sync_ewrc spdk lib ptr_of polls dev addrs None n data meta flags op ret s.
Proof. intros [Hf _]. unfold spdk_ewrc. by rewrite (proj2 (Z.eqb_neq _ _) Hf). Qed.

(** A vector command, by generic addresses. *)
Lemma wp_sync_vector write addrs d meta flags ret s (Q : io_res -> sys SW -> Prop) :
  good spdk_ready s -> sync_flags flags -> 0 < Z.of_nat (length addrs) <= NVM_NADDR_MAX ->
  (write = true -> NoDup (gen2dev <$> addrs)) -> Z.of_nat (length addrs) * nb <= Z.of_nat (length d) ->
  (forall r s', dev_post write (gen2dev <$> addrs) d s r s' -> Q r s') ->
  wp (spdk_ewrc spdk lib ptr_of ret_ctx polls dev addrs None (Z.of_nat (length addrs)) (Some d) meta flags (rw_op write true) ret) s Q.
Proof.
  intros Hwf Hf Hn Hnd Hl HQ. eapply wp_ext; [by apply ewrc_sync|]. unfold NVM_NADDR_MAX in Hn.
  destruct (addrs !! 0%nat) as [a|] eqn:Ha; [|by destruct addrs; cbn in *; [lia|]].
  eapply (wp_cmd_sync write true addrs a); [done|apply Hf|lia|done| |done|done|done].
  intros _. unfold NVM_NADDR_MAX. split; [lia|done].
Qed.

(** A scalar one. *)
Lemma wp_sync_scalar write a n d meta flags ret s (Q : io_res -> sys SW -> Prop) :
  good spdk_ready s -> sync_flags flags -> 0 < n <= 2 ^ 16 -> n * nb <= Z.of_nat (length d) ->
  Forall (lba_dom dev) (run_addrs a n) -> l_sectr a + n <= 2 ^ 32 ->
  (forall r s', dev_post write (gen2dev <$> run_addrs a n) d s r s' -> Q r s') ->
  wp (spdk_ewrc spdk lib ptr_of ret_ctx polls dev [a] None n (Some d) meta flags (rw_op write false) ret) s Q.
Proof.
  intros Hwf Hf Hn Hl Hd Hs HQ. eapply wp_ext; [by apply ewrc_sync|].
  eapply (wp_cmd_sync write false [a] a n); [done|apply Hf|done|done|done| |done|].
  - intros _. apply run_from_NoDup.
  - intros r s'. cbn [rw_sectors]. rewrite (run_from_fmap dev Hok) by done. apply HQ.
Qed.

Context (junk : Z -> Z -> Z).

#[export] Program Instance spdk_implements_media : Media (nvm_be_spdk spdk lib ptr_of ret_ctx junk polls) dev :=
  {| mok := spdk_ready; mdom := lba_dom dev; mflags := sync_flags; mvector := fun n => n <= NVM_NADDR_MAX; media := spdk_media |}.
Next Obligation. intros w a. apply dk_media_len. Qed.
Next Obligation.
  intros addrs data meta flags ret s Hwf Hf Hn Hd Hnd H0 Hl. cbn. apply wp_bind.
  apply (wp_sync_vector true); [done..|by split|intros _; by apply gen2dev_NoDup|done|].
  intros r s' Hp. apply wp_ret. by apply (write_post_gen dev Hok _ (fun w => dk_media (sw_os w))).
Qed.
Next Obligation.
  intros addrs data flags ret s Hwf Hf Hn Hd H0 Hl. cbn.
  apply (wp_sync_vector false); [done..|by split|done|done|].
  intros r s' Hp. by apply (read_post_gen dev _ (fun w => dk_media (sw_os w))).
Qed.
Next Obligation.
  intros a n data meta flags ret s Hwf Hf Hd Hn Hs Hl. cbn. apply wp_bind.
  apply (wp_sync_scalar true); [done..|].
  intros r s' Hp. apply wp_ret. by apply (write_post_gen dev Hok _ (fun w => dk_media (sw_os w))).
Qed.
Next Obligation.
  intros a n data flags ret s Hwf Hf Hd Hn Hs Hl. cbn.
  apply (wp_sync_scalar false); [done..|].
  intros r s' Hp. by apply (read_post_gen dev _ (fun w => dk_media (sw_os w))).
Qed.
End sync.

(** ** Properties *)

(** C3: the stack from virtual blocks to the NVMe device. On the SPDK backend,
    over a device that executes the submission entries it is given within
    [dk_lag] polls, a synchronous write to a 2.0 virtual block leaves sector
    [i] of the caller's buffer at the device address of linear sector [i] of
    the range and every other device address as it was, or answers -1 with
    [EIO] or [ENOMEM]; it keeps neither memory nor DMA memory, and leaves the
    queue pair idle for the next command. *)
Theorem spdk_vblk_write {W} (spdk : spdk_env (spdk_world W)) (lib : spdk_nvme (spdk_world W)) (ptr_of : mem -> Z)
    (ret_ctx : Z -> Z) (junk : Z -> Z -> Z) (polls : nat) (dev : nvm_dev) (ctrlr q : Z) `{!NvmeDisk spdk lib dev ctrlr q}
    (Hspdk : spdk_ok spdk) (Hbe : be_id dev = NVM_BE_SPDK) (Hok : lba_dev_ok dev) (Hpolls : (dk_lag < polls)%nat)
    (v : nvm_vblk) (ws : Z) (Hv : vblk20_ok dev v ws) (Hdom : on_device dev v ws (lba_dom dev))
    (Hflags : sync_flags (vflags v))
    (Hmode : vblk_mode dev v = NVM_CMD_VECTOR /\ ws <= NVM_NADDR_MAX \/ vblk_mode dev v = NVM_CMD_SCALAR)
    (buf : mem) (count offset : Z) (s : sys (spdk_world W)) (Hcount : 0 <= count)
    (Hwf : heap_wf s) (Hready : spdk_ready spdk lib dev ctrlr q (world s)) (Hr : request_ok dev v ws buf count offset) :
  let nb := nbytes (geo dev) in
  let at_ i := nvm_addr_gen2dev dev (lin20 v ws (offset / nb + i)) in
  let sect (s : sys (spdk_world W)) d := dk_media (sw_os (world s)) d in
  wp (vblk_sync_pwrite_s20 spdk (nvm_be_spdk spdk lib ptr_of ret_ctx junk polls) dev v buf count offset) s (fun r s' =>
    live s' = live s /\ spdk_ready spdk lib dev ctrlr q (world s') /\
    (forall d, 0 <= d < 2 ^ lba_width dev -> (forall i, 0 <= i < count / nb -> d <> at_ i) -> sect s' d = sect s d) /\
    (r = count /\ (forall i, 0 <= i < count / nb -> sect s' (at_ i) = request_src dev ws buf count i) \/
     r = -1 /\ (errno s' = EIO \/ errno s' = ENOMEM))).
Proof.
  intros nb at_ sect. assert (Halloc : alloc_ok spdk dev) by (by apply dma_alloc_ok; [|left]).
  pose (I0 := spdk_implements_media spdk lib ptr_of ret_ctx polls dev ctrlr q Halloc (or_introl Hbe) Hok Hpolls junk).
  eapply wp_mono; [apply (dev_pwrite (Media0 := I0) spdk (nvm_be_spdk spdk lib ptr_of ret_ctx junk polls) dev Hok
    (fun w => dk_media (sw_os w))); try done|].
  - exact (good_intro (spdk_ready spdk lib dev ctrlr q) s Hwf Hready).
  - intros r s' (Hwf' & H1 & H2). split; [done|]. split; [apply Hwf'|done].
Qed.

(** ** A device in memory *)

(** The sectors, and the command in flight: its argument, whether it writes,
    its sectors, the caller's buffers, and the polls it will still take. *)
Record nvmd := Nvmd { nd_ram : gmap Z (list Z); nd_pend : option (Z * bool * list Z * list Z * mem * nat) }.

Section nvmd.
Context (dev : nvm_dev) (lag : nat).
#[local] Abbreviation SW := (spdk_world nvmd).
#[local] Abbreviation nb := (nbytes (geo dev)).

Definition nvmd_accept (p : Z) (write : bool) (l d : list Z) (meta : mem) : M SW Z :=
  _ ← modify_world (fun w => with_os (Nvmd (nd_ram (sw_os w)) (Some (p, write, l, d, meta, lag))) w); mret 0.

(** A copy is a write of what the sectors of the source have. *)
Definition nvmd_submit (cmd : nvm_nvme_cmd) (dmas : list (Z * dma)) (data : kdata) (meta : mem) (p : Z) : M SW Z :=
  w ← get_world;
  match nd_pend (sw_os w), data with
  | None, KMem (Some d) =>
      match io_decode (W := SW) page_spdk cmd dmas with
      | Some (write, l) =>
          if Z.of_nat (length d) <? Z.of_nat (length l) * nb then mret (-22) else nvmd_accept p write l d meta
      | None => mret (-22)
      end
  | None, KMem None =>
      match copy_decode (W := SW) page_spdk cmd dmas with
      | Some (src, dst) => nvmd_accept p true dst (concat (ram_sector dev (nd_ram (sw_os w)) <$> src)) meta
      | None => mret (-22)
      end
  | _, _ => mret (-22)
  end.

Definition nvmd_event (p : Z) (data meta : mem) : cpl_event := CplEvent p (Cpl 0 (Status 0 0 0 0)) (KMem data) meta.

Definition nvmd_process : M SW (Z * list cpl_event) :=
  w ← get_world;
  let ram := nd_ram (sw_os w) in
  match nd_pend (sw_os w) with
  | None => mret (0, [])
  | Some (p, write, l, d, meta, S k) =>
      _ ← modify_world (with_os (Nvmd ram (Some (p, write, l, d, meta, k)))); mret (0, [])
  | Some (p, write, l, d, meta, O) =>
      _ ← modify_world (with_os (Nvmd (if write : bool then ram_store dev l d ram else ram) None));
      let d' := if write then d else concat (ram_sector dev ram <$> l) ++ drop (Z.to_nat (Z.of_nat (length l) * nb)) d in
      mret (1, [nvmd_event p (Some d') meta])
  end.

(** One controller, 7, with one name-space, 8; admin commands are refused. *)
Definition nvmd_lib : spdk_nvme SW :=
  SpdkNvme SW (mret 0) (fun _ => mret (0, 6)) (fun a b => if a =? b then 0 else 1)
    (fun _ cb => mret (0, if cb 6 then [7] else [])) (fun _ => 1) (fun _ _ => 8) (fun _ => true)
    (fun _ => Some (dev_ns dev)) (fun _ => (256, 512)) (fun _ _ => mret 9) (fun _ => mret 0) (fun _ => mret tt)
    (fun _ _ _ _ _ => mret (-22)) (fun _ => mret None)
    (fun _ _ cmd dmas data _ meta p => nvmd_submit cmd dmas data meta p) (fun _ _ => nvmd_process).

Definition nvmd_pending (w : nvmd) (p : Z) (write : bool) (l d : list Z) (k : nat) : Prop :=
  (exists meta, nd_pend w = Some (p, write, l, d, meta, k)) /\ (write = true -> NoDup l) /\
  Z.of_nat (length l) * nb <= Z.of_nat (length d).

Lemma nvmd_step (s : sys SW) o l : heap_wf s ->
  (forall d, d ∉ l -> ram_sector dev (nd_ram o) d = ram_sector dev (nd_ram (sw_os (world s))) d) ->
  lib_step (fun w d => ram_sector dev (nd_ram w) d) l s (Sys (errno s) (hp s) (with_os o (world s))).
Proof. intros Hwf Hm. split; [by eapply good_world|done|done|exact Hm]. Qed.

#[export] Program Instance nvmd_disk (Hnb : TCEq (0 <=? nb) true) : NvmeDisk page_spdk nvmd_lib dev 7 9 :=
  {| dk_media := fun w d => ram_sector dev (nd_ram w) d; dk_idle := fun w => nd_pend w = None;
     dk_pending := nvmd_pending; dk_lag := lag |}.
Next Obligation. intros Hnb w d. apply TCEq_eq, Z.leb_le in Hnb. by apply ram_sector_len. Qed.
Next Obligation.
  intros Hnb cmd dmas write l data meta p s Hwf Hi _ Hdec H0 Hnd Hl. cbn. unfold nvmd_submit.
  apply wp_bind. eapply (wp_intro _ _ (world s) s); [done|]. rewrite Hi, Hdec.
  rewrite (proj2 (Z.ltb_ge _ _)) by done. split; [by apply nvmd_step|]. right. split; [done|].
  exists lag. split; [done|]. split; [by eexists|done].
Qed.
Next Obligation.
  intros Hnb p write l data k s Hwf ((meta & Hp) & Hnd & Hl). apply TCEq_eq, Z.leb_le in Hnb. cbn.
  unfold nvmd_process. apply wp_bind. eapply (wp_intro _ _ (world s) s); [done|]. rewrite Hp. destruct k as [|k].
  - assert (Hs : lib_step (fun w d => ram_sector dev (nd_ram w) d) (io_target write l) s
      (Sys (errno s) (hp s) (with_os (Nvmd (if write then ram_store dev l data (nd_ram (sw_os (world s))) else nd_ram (sw_os (world s))) None) (world s)))).
    { apply nvmd_step; [done|]. intros d Hd. destruct write; [|done]. cbn [nd_ram io_target] in *. unfold ram_sector.
      by rewrite ram_store_other. }
    split; [exact Hs|]. right. eexists. split; [done|]. split; [done|]. split; [done|]. eexists. split; [done|].
    destruct write.
    + split; [done|]. intros _ i d Hi. cbn. unfold ram_sector. rewrite (ram_store_at dev Hnb _ _ _ i) by auto.
      pose proof (lookup_lt_Some _ _ _ Hi). apply take_app_length'. rewrite sector_len; nia.
    + assert (Hc : length (concat (ram_sector dev (nd_ram (sw_os (world s))) <$> l)) = Z.to_nat (Z.of_nat (length l) * nb)).
      { rewrite (length_concat_const _ (Z.to_nat nb)) by (by apply ram_sector_len). by rewrite Z2Nat.inj_mul, Nat2Z.id by lia. }
      split; [rewrite length_app, Hc, length_drop; lia|]. split; [by rewrite drop_app_length' by done|].
      intros _. by rewrite take_app_length' by done.
  - split; [by apply nvmd_step|]. left. split; [done|]. exists k. split; [lia|]. split; [by eexists|done].
Qed.
End nvmd.

(** ** Witness *)

Definition tiny_nvme_world : spdk_world nvmd :=
  SpdkWorld false {[ 0 := SpdkState 6 7 8 (dev_ns tiny20) 1 true 9 ]} ∅ ∅ ∅ (Nvmd ∅ None).

Definition tiny_sync_vblk : nvm_vblk := with_vflags (Z.lor NVM_CMD_SYNC (Z.lor NVM_CMD_VECTOR NVM_CMD_PRP)) tiny_vblk.

#[export] Instance tiny_nvme_disk : NvmeDisk page_spdk (nvmd_lib tiny_spdk 3) tiny_spdk 7 9 := nvmd_disk tiny_spdk 3 (TCEq_refl _).

Lemma tiny_sync_ok : vblk20_ok tiny_spdk tiny_sync_vblk 2.
Proof. split; try done; [by eapply members_ext, tiny_members|by exists 4]. Qed.

(** Two vector commands on units in different chunks, each completed by the
    fourth poll. *)
Lemma spdk_vblk_write_witness :
  let s := Sys 0 (sample_heap 99) tiny_nvme_world in
  wp (vblk_sync_pwrite_s20 page_spdk (nvm_be_spdk page_spdk (nvmd_lib tiny_spdk 3) (fun _ => 0) (fun _ => 0) (fun _ _ => 0) 4)
        tiny_spdk tiny_sync_vblk (Some [10; 11; 12; 13; 14; 15; 16; 17]) 8 4) s (fun r s' =>
    r = 8 /\ live s' = live s /\
    ram_sector tiny_spdk (nd_ram (sw_os (world s'))) (nvm_addr_gen2dev tiny_spdk (lin20 tiny_sync_vblk 2 5)) = [16; 17]).
Proof.
  intros s. pose proof (spdk_vblk_write page_spdk (nvmd_lib tiny_spdk 3) (fun _ => 0) (fun _ => 0) (fun _ _ => 0) 4 tiny_spdk 7 9
    ltac:(by split) eq_refl tiny_spdk_lba ltac:(cbn; lia) tiny_sync_vblk 2 tiny_sync_ok tiny_lba_dom ltac:(by split)
    ltac:(by left) (Some [10; 11; 12; 13; 14; 15; 16; 17]) 8 4 s ltac:(done) (sample_heap_wf _ _ _)
    ltac:(split; [by eexists|done]) ltac:(split; try done; by exists 2)) as C. cbn zeta in C.
  apply wp_elim in C as (r & s' & E & Hl & _ & _ & Hres). eapply wp_intro; [exact E|].
  assert (Er : r = 8) by (assert (E2 := E); vm_compute in E2; congruence).
  destruct Hres as [[_ Hd]|[? _]]; [|lia]. split; [done|]. split; [done|].
  etrans; [exact (Hd 3 ltac:(by split))|by vm_compute].
Defined.
