(* ===== verification/NocdSpec.v ===== *)
(** The vector commands and chunk reports of the backend for devices without an
    Open-Channel interface. *)
From stdpp Require Import base numbers strings gmap option list.
From S2P Require Import Prelude Types Nvme Addr Dev Backend Buf Be Sgl Cmd Wrap Spdk Nocd.
From S2P Require Import Vblk Stripe Media Linear VblkIO DevMedia Reports WrapSpec SpdkSpec.

(** ** Contiguous addresses *)

(** Sector [i] of [addrs] is [i] after the first, whatever the chunks. *)
Definition sectors_run (addrs : list nvm_addr) (a : nvm_addr) : Prop :=
  forall i b, addrs !! i = Some b -> l_sectr b = u32 (l_sectr a + Z.of_nat i).

Lemma contig_from_spec a l : contig_from a l = true <->
  forall i b, l !! i = Some b -> l_sectr b = u32 (l_sectr a + (Z.of_nat i + 1)).
Proof.
  revert a. induction l as [|b l IH]; intros a; cbn [contig_from].
  - split; [|done]. by intros _ i b Hi.
  - rewrite andb_true_iff, IH, Z.eqb_eq. split.
    + intros [E H] [|i] c Hc; cbn in Hc; [by simplify_eq|]. rewrite (H i c Hc), E. unfold wrap.
      rewrite Zplus_mod_idemp_l. f_equal. lia.
    + intros H. pose proof (H 0%nat b eq_refl) as E. split; [exact E|]. intros i c Hc.
      rewrite (H (S i) c Hc), E. unfold wrap. rewrite Zplus_mod_idemp_l. f_equal. lia.
Qed.

Lemma contig_spec addrs a l : addrs = a :: l ->
  contig addrs (Z.of_nat (length addrs)) = Some (contig_from a l).
Proof. intros ->. unfold contig. by rewrite Z.ltb_irrefl, Nat2Z.id, firstn_all. Qed.

Lemma contig_run addrs a : addrs !! 0%nat = Some a -> l_sectr a < 2 ^ 32 -> 0 <= l_sectr a ->
  contig addrs (Z.of_nat (length addrs)) = Some true <-> sectors_run addrs a.
Proof.
  intros Ha H1 H2. destruct addrs as [|a' l]; [done|]. cbn in Ha. simplify_eq. rewrite (contig_spec _ a l) by done.
  rewrite (inj_iff Some), contig_from_spec. unfold sectors_run. split.
  - intros H [|i] b Hb; cbn in Hb; [simplify_eq; by rewrite Z.add_0_r, wrap_id|].
    rewrite (H i b Hb). do 2 f_equal. lia.
  - intros H i b Hb. rewrite (H (S i) b Hb). do 2 f_equal. lia.
Qed.

(** ** Vector commands *)

Section vector.
Context {W : Type}.
#[local] Abbreviation SW := (spdk_world W).
Context (spdk : spdk_env SW) (lib : spdk_nvme SW) (ptr_of : mem -> Z) (ret_ctx : Z -> Z) (polls : nat).
Context (dev : nvm_dev) (ctrlr q : Z) `{!NvmeDisk spdk lib dev ctrlr q}.
Context (Halloc : alloc_ok spdk dev) (Hbe : be_id dev = NVM_BE_SPDK \/ be_id dev = NVM_BE_NOCD).
Context (Hok : lba_dev_ok dev) (Hpolls : (dk_lag < polls)%nat).
Implicit Types s : sys SW.
#[local] Abbreviation nb := (nbytes (geo dev)).
#[local] Abbreviation ready := (spdk_ready spdk lib dev ctrlr q).
#[local] Abbreviation content := (spdk_media spdk lib dev ctrlr q).

(** A scalar write of the backend, by generic addresses. *)
Lemma wp_scalar_write a n d meta flags ret s (Q : Z * retp -> sys SW -> Prop) :
  good ready s -> sync_flags flags -> 0 < n <= 2 ^ 16 -> n * nb <= Z.of_nat (length d) ->
  Forall (lba_dom dev) (run_addrs a n) -> l_sectr a + n <= 2 ^ 32 ->
  (forall r s', write_post ready (lba_dom dev) content nb (run_addrs a n) d s r.1 s' -> Q r s') ->
  wp (nvm_be_spdk_scalar_write spdk lib ptr_of ret_ctx polls dev a n (Some d) meta flags ret) s Q.
Proof.
  intros Hwf Hf Hn Hl Hd Hs HQ. unfold nvm_be_spdk_scalar_write. apply wp_bind.
  eapply (wp_sync_scalar spdk lib ptr_of ret_ctx polls dev ctrlr q Halloc Hbe Hok Hpolls true); [done..|].
  intros r s' Hp. apply wp_ret, HQ. by apply (write_post_gen dev Hok _ (fun w => dk_media (sw_os w))).
Qed.

Lemma run_addrs_1 a : addr_ok a -> run_addrs a 1 = [a].
Proof. intros Ha. change (run_addrs a 1) with [sectr_at a 0]. by rewrite sectr_at_0. Qed.

Lemma nocd_contig_write addrs a n d meta flags ret s (Q : Z * retp -> sys SW -> Prop) :
  good ready s -> sync_flags flags -> addrs !! 0%nat = Some a -> Z.of_nat (length addrs) = n -> sectors_run addrs a ->
  0 < n <= 2 ^ 16 -> n * nb <= Z.of_nat (length d) -> Forall (lba_dom dev) (run_addrs a n) -> l_sectr a + n <= 2 ^ 32 ->
  (forall r s', write_post ready (lba_dom dev) content nb (run_addrs a n) d s r.1 s' -> Q r s') ->
  wp (nvm_be_nocd_vector_write spdk lib ptr_of ret_ctx polls dev addrs n (Some d) meta flags ret) s Q.
Proof.
  intros Hwf Hf Ha Hlen Hrun Hn Hl Hd Hs HQ. unfold nvm_be_nocd_vector_write. destruct (l_fields_range a) as (R & _).
  rewrite <-Hlen, (proj2 (contig_run addrs a Ha ltac:(lia) ltac:(lia)) Hrun), Hlen.
  apply wp_bind. eapply wp_intro; [done|]. cbn [negb]. rewrite Ha. apply wp_bind. eapply wp_intro; [done|].
  by apply wp_scalar_write.
Qed.

(** What the first [k] rounds of the split left. *)
Definition split_done (addrs : list nvm_addr) (d : list Z) s (k : nat) s' : Prop :=
  good ready s' /\ live s' = live s /\
  (forall b, lba_dom dev b -> b ∉ addrs -> content (world s') b = content (world s) b) /\
  forall i a, (i < k)%nat -> addrs !! i = Some a -> content (world s') a = sector nb d 0.

Lemma split_step addrs d s k s1 a e s2 : split_done addrs d s k s1 -> NoDup addrs -> Forall (lba_dom dev) addrs ->
  addrs !! k = Some a -> write_post ready (lba_dom dev) content nb [a] d s1 e s2 ->
  if e =? 0 then split_done addrs d s (S k) s2
  else good ready s2 /\ live s2 = live s /\
    (forall b, lba_dom dev b -> b ∉ addrs -> content (world s2) b = content (world s) b).
Proof.
  intros (H1 & H2 & H3 & H4) Hnd Hd Ha (P1 & P2 & P3 & P4).
  assert (Hin : forall i b, addrs !! i = Some b -> lba_dom dev b) by (intros i b; by apply Forall_lookup_1).
  assert (F : good ready s2 /\ live s2 = live s /\
    (forall b, lba_dom dev b -> b ∉ addrs -> content (world s2) b = content (world s) b)).
  { split; [done|]. split; [congruence|]. intros b Hb Hn. rewrite P3, H3; [done|done|done|done|].
    rewrite list_elem_of_singleton. intros ->. apply Hn. by eapply list_elem_of_lookup_2. }
  destruct (Z.eqb_spec e 0) as [E|]; [|exact F]. destruct F as (F1 & F2 & F3). split; [done|]. split; [done|]. split; [done|].
  intros i b Hi Hb. destruct (decide (i = k)) as [->|Hne].
  - simplify_eq. by apply (P4 eq_refl 0%nat).
  - rewrite P3, (H4 i b); [done|lia|done|by eapply Hin|]. rewrite list_elem_of_singleton. intros ->.
    apply Hne. by eapply NoDup_lookup.
Qed.

Lemma nocd_split_write addrs n d meta flags ret s (Q : Z * retp -> sys SW -> Prop) :
  good ready s -> sync_flags flags -> flag_set flags NVM_CMD_ASYNC = false -> Z.of_nat (length addrs) = n ->
  contig addrs n = Some false -> nb <= Z.of_nat (length d) -> Forall (lba_dom dev) addrs -> NoDup addrs ->
  (forall r s', good ready s' -> live s' = live s ->
     (forall b, lba_dom dev b -> b ∉ addrs -> content (world s') b = content (world s) b) ->
     (r.1 = 0 -> forall a, a ∈ addrs -> content (world s') a = sector nb d 0) -> Q r s') ->
  wp (nvm_be_nocd_vector_write spdk lib ptr_of ret_ctx polls dev addrs n (Some d) meta flags ret) s Q.
Proof.
  intros Hwf Hf Ha Hlen Hc Hl Hd Hnd HQ. unfold nvm_be_nocd_vector_write. rewrite Hc, Ha.
  apply wp_bind. eapply wp_intro; [done|]. apply wp_bind.
  apply (wp_mfold_ret _ (fun pre _ s' => split_done addrs d s (length pre) s')
    (fun r s' => r.1 <> 0 /\ good ready s' /\ live s' = live s /\
      (forall b, lba_dom dev b -> b ∉ addrs -> content (world s') b = content (world s) b))).
  - split; [done|]. split; [done|]. split; [done|]. intros i a Hi. cbn in Hi. lia.
  - intros pre x post r s1 E Hinv.
    assert (Hx : seqZ 0 n !! length pre = Some x) by (by rewrite E, lookup_app_r, Nat.sub_diag by lia).
    apply lookup_seqZ in Hx as [-> Hk]. rewrite Z.add_0_l. unfold lookupZ. rewrite (proj2 (Z.ltb_ge _ _)), Nat2Z.id by lia.
    destruct (lookup_lt_is_Some_2 addrs (length pre)) as [a Hak]; [lia|]. rewrite Hak.
    pose proof (proj1 (Forall_lookup _ _) Hd _ _ Hak) as Hda. destruct Hda as [Hao Hfit].
    apply wp_bind. eapply wp_intro; [done|]. apply wp_bind. destruct (l_fields_range a) as (R & _).
    eapply wp_scalar_write; [apply Hinv|done|lia|lia|rewrite run_addrs_1 by done; by apply Forall_singleton|lia|].
    intros [err r'] s2 Hp. cbn [fst] in Hp. rewrite run_addrs_1 in Hp by done.
    pose proof (split_step _ _ _ _ _ _ _ _ Hinv Hnd Hd Hak Hp) as Hst.
    destruct (Z.eqb_spec err 0); cbn [negb]; apply wp_ret; [|by split].
    rewrite length_app, Nat.add_1_r. exact Hst.
  - intros r s1 (H1 & H2 & H3 & H4). apply wp_ret, HQ; [done|done|done|]. intros _ a [i Hi]%list_elem_of_lookup_1.
    apply (H4 i a); [|done]. pose proof (lookup_lt_Some _ _ _ Hi). rewrite length_seqZ. lia.
  - intros r s1 (H0 & H1 & H2 & H3). apply wp_ret, HQ; [done|done|done|]. by intros E.
Qed.
End vector.

(** ** Chunk reports *)

Lemma nocd_descrs dev off n total : 0 <= off -> 0 <= n -> off + n <= total -> total < 2 ^ 32 ->
  take (Z.to_nat n) (drop (Z.to_nat off) (nocd_descr dev <$> seqZ 0 (u32 total))) = nocd_descr dev <$> seqZ off n.
Proof.
  intros. rewrite wrap_id by lia. rewrite <-fmap_drop, <-fmap_take. f_equal. apply list_eq. intros i.
  destruct (decide (i < Z.to_nat n)%nat) as [Hi|Hi].
  - rewrite lookup_take_lt by done. rewrite lookup_drop, !lookup_seqZ_lt by lia. f_equal. lia.
  - rewrite lookup_take_ge, lookup_seqZ_ge by lia. done.
Qed.

(** A report of a device whose log has been made up. *)
Lemma wp_nocd_rprt {W} (spdk : spdk_env (spdk_world W)) dev addr opt ret s
    (Q : option (boxed nvm_spec_rprt) * retp -> sys (spdk_world W) -> Prop) :
  let total := npugrp (geo dev) * npunit (geo dev) * nchunk (geo dev) in
  alloc_ok spdk dev -> verid dev = NVM_SPEC_VERID_20 -> geo_counts_ok (geo dev) -> total < 2 ^ 32 ->
  heap_wf s -> sw_nocd (world s) !! be_state dev = Some (nocd_descr dev <$> seqZ 0 (u32 total)) -> rprt_unit dev addr ->
  (forall s', heap_wf s' -> live s' = live s -> world s' = world s -> errno s' = ENOMEM -> Q (None, ret) s') ->
  (forall p s', heap_wf s' -> p ∉ live s -> live s' = {[p]} ∪ live s -> world s' = world s ->
     Q (Some (p, Rprt (rprt_n dev addr) (nocd_descr dev <$> seqZ (rprt_off dev addr) (rprt_n dev addr))), ret) s') ->
  wp (nvm_be_nocd_rprt spdk dev addr opt ret) s Q.
Proof.
  intros total Halloc Hver Hg Ht Hwf Hlog Hu HN HS. destruct (rprt_range dev Hver Hg addr Hu) as (H1 & H2 & H3).
  fold total in H3. unfold nvm_be_nocd_rprt. cbn zeta.
  rewrite Hver, Z.eqb_refl, (rprt_lpo dev Hver Hg addr Hu), (rprt_count dev Hg addr), Z.div_mul by done.
  cbn [negb]. unfold SIZEOF_DESCR, SIZEOF_NDESCR. rewrite (wrap_id 64 (_ * 32)), wrap_id by lia.
  apply wp_bind. eapply (wp_buf_alloc spdk dev Halloc); [done|lia| |].
  - intros s1 Hwf1 Hl1 Hw1 _. rewrite Z.eqb_refl. by apply HN.
  - intros p s1 Hp Hf Hwf1 Hl1 Hw1 _. rewrite (proj2 (Z.eqb_neq p 0)) by done.
    apply wp_bind. eapply (wp_intro _ _ (world s1) s1); [done|]. rewrite Hw1, Hlog.
    apply wp_bind. eapply wp_intro; [done|]. rewrite length_fmap, length_seqZ, (wrap_id 32) by lia.
    rewrite (proj2 (Z.ltb_ge _ _)) by lia. apply wp_ret. 
    assert (Hn : 0 <= rprt_n dev addr) by lia. rewrite <-(wrap_id 32 total), (nocd_descrs dev _ _ _ H1 Hn H3 Ht) by lia.
    by apply HS.
Qed.

(** The state moves to the block that also holds the descriptors. *)
Lemma wp_nocd_reinit {W} dev st s (Q : Z -> sys (spdk_world W) -> Prop) :
  let total := npugrp (geo dev) * npunit (geo dev) * nchunk (geo dev) in
  geo_counts_ok (geo dev) -> heap_wf s -> be_state dev <> 0 -> be_state dev ∈ live s ->
  sw_states (world s) !! be_state dev = Some st ->
  (forall s', heap_wf s' -> live s' = live s -> world s' = world s -> errno s' = ENOMEM -> Q 0 s') ->
  (forall q s', q <> 0 -> q ∉ live s -> heap_wf s' -> live s' = {[q]} ∪ live s ∖ {[be_state dev]} ->
     sw_states (world s') !! q = Some st ->
     sw_nocd (world s') !! q = Some (nocd_descr dev <$> seqZ 0 (u32 total)) -> Q q s') ->
  wp (nvm_be_nocd_reinit dev) s Q.
Proof.
  intros total Hg Hwf H0 Hp Hst HN HS. pose proof (total_range dev Hg) as Ht. fold total in Ht. pose proof Hg as (G1 & G2 & G3).
  unfold nvm_be_nocd_reinit. cbn zeta. rewrite mul64_3 by lia. fold total. unfold SIZEOF_DESCR.
  rewrite (proj2 (Z.eqb_neq _ _) H0), (wrap_id 64), !(proj2 (Z.eqb_neq _ _)) by lia. cbn [orb].
  unfold realloc_state. apply wp_bind. eapply wp_malloc; [done| |].
  - intros s1 Hwf1 Hl1 Hw1 He1. cbn [Z.eqb]. apply wp_ret. by apply HN.
  - intros q s1 Hq Hf Hwf1 Hl1 Hw1 _. rewrite (proj2 (Z.eqb_neq q 0)) by done.
    apply wp_bind. eapply (wp_intro _ _ (world s1) s1); [done|].
    apply wp_bind. rewrite Hw1, Hst. eapply (wp_intro _ _ st s1); [done|].
    apply wp_bind. eapply wp_free; [done|right; rewrite Hl1; set_solver|]. intros s2 Hwf2 Hl2 Hw2 _.
    apply wp_bind. eapply wp_intro; [done|]. apply wp_ret. apply HS; [done|done| | | |].
    + by eapply good_world.
    + change (live s2 = {[q]} ∪ live s ∖ {[be_state dev]}). rewrite Hl2, Hl1. by apply live_move.
    + apply lookup_insert_eq.
    + apply lookup_insert_eq.
Qed.

(** ** Properties *)

(** C29: what a synchronous vector write of a device without an Open-Channel
    interface does. Addresses whose sectors follow one another become one scalar write
    from the first address, whatever the chunks of the others: the caller's
    sectors go to the run that starts at the first address, and nothing else
    changes. Any other list becomes one scalar write per address, each given
    the beginning of the buffer: on success every address holds sector 0 of the
    caller's data, and no address off the list changes. *)
Theorem nocd_vector_write_exact {W} (spdk : spdk_env (spdk_world W)) (lib : spdk_nvme (spdk_world W)) (ptr_of : mem -> Z)
    (ret_ctx : Z -> Z) (polls : nat) (dev : nvm_dev) (ctrlr q : Z) `{!NvmeDisk spdk lib dev ctrlr q}
    (Hspdk : spdk_ok spdk) (Hbe : be_id dev = NVM_BE_NOCD) (Hok : lba_dev_ok dev) (Hpolls : (dk_lag < polls)%nat)
    (addrs : list nvm_addr) (a0 : nvm_addr) (data : list Z) (meta : mem) (flags : Z) (ret : retp)
    (s : sys (spdk_world W)) (Hwf : heap_wf s) (Hready : spdk_ready spdk lib dev ctrlr q (world s))
    (Hflags : sync_flags flags) (Hsync : flag_set flags NVM_CMD_ASYNC = false) (Ha0 : addrs !! 0%nat = Some a0) :
  let n := Z.of_nat (length addrs) in
  let nb := nbytes (geo dev) in
  let sect (s : sys (spdk_world W)) a := dk_media (sw_os (world s)) (nvm_addr_gen2dev dev a) in
  let write := nvm_be_nocd_vector_write spdk lib ptr_of ret_ctx polls dev addrs n (Some data) meta flags ret in
  (sectors_run addrs a0 -> n <= 2 ^ 16 -> n * nb <= Z.of_nat (length data) -> l_sectr a0 + n <= 2 ^ 32 ->
   Forall (lba_dom dev) (run_addrs a0 n) ->
   wp write s (fun r s' => live s' = live s /\ spdk_ready spdk lib dev ctrlr q (world s') /\
     (forall b, lba_dom dev b -> b ∉ run_addrs a0 n -> sect s' b = sect s b) /\
     (r.1 = 0 -> forall i b, run_addrs a0 n !! i = Some b -> sect s' b = sector nb data (Z.of_nat i)))) /\
  (~ sectors_run addrs a0 -> nb <= Z.of_nat (length data) -> NoDup addrs -> Forall (lba_dom dev) addrs ->
   wp write s (fun r s' => live s' = live s /\ spdk_ready spdk lib dev ctrlr q (world s') /\
     (forall b, lba_dom dev b -> b ∉ addrs -> sect s' b = sect s b) /\
     (r.1 = 0 -> forall b, b ∈ addrs -> sect s' b = sector nb data 0))).
Proof.
  intros n nb sect write. assert (Halloc : alloc_ok spdk dev) by (by apply dma_alloc_ok; [|right]).
  assert (Hg : good (spdk_ready spdk lib dev ctrlr q) s) by (by apply good_intro).
  assert (Hn : 0 < n) by (pose proof (lookup_lt_Some _ _ _ Ha0); lia).
  destruct (l_fields_range a0) as (R & _). split.
  - intros Hrun Hmax Hl Hs Hd. eapply (nocd_contig_write spdk lib ptr_of ret_ctx polls dev ctrlr q Halloc); try done; [by right|].
    intros r s' (H1 & H2 & H3 & H4). split; [done|]. split; [apply H1|]. by split.
  - intros Hrun Hl Hnd Hd. eapply (nocd_split_write spdk lib ptr_of ret_ctx polls dev ctrlr q Halloc); try done; [by right| |].
    + unfold n. destruct addrs as [|a l]; [done|]. cbn in Ha0. simplify_eq. rewrite (contig_spec _ a0 l) by done.
      f_equal. apply not_true_is_false. intros Hc. apply Hrun. apply (contig_run (a0 :: l) a0); [done|lia|lia|].
      by rewrite (contig_spec _ a0 l), Hc.
    + intros r s' H1 H2 H3 H4. split; [done|]. split; [apply H1|]. by split.
Qed.

(** C31: opening such a device makes up a log of free chunks, and reports are
    parts of it: after [nvm_be_nocd_reinit] the state is in one block with a
    descriptor per chunk, and a report of a unit or of the device has a free,
    randomly writable chunk of [nsectr] sectors for each chunk asked for, with
    the device address its index has as a chunk of unit 0 (the index is cut to
    16 bits); without memory both answer [NULL], and the state is as it was. *)
Theorem nocd_report {W} (spdk : spdk_env (spdk_world W)) (dev : nvm_dev) (st : nvm_be_spdk_state)
    (Hspdk : spdk_ok spdk) (Hbe : be_id dev = NVM_BE_NOCD) (Hver : verid dev = NVM_SPEC_VERID_20)
    (Hg : geo_counts_ok (geo dev)) (s : sys (spdk_world W)) (Hwf : heap_wf s)
    (Hp : be_state dev <> 0 /\ be_state dev ∈ live s) (Hst : sw_states (world s) !! be_state dev = Some st) :
  let total := npugrp (geo dev) * npunit (geo dev) * nchunk (geo dev) in
  total < 2 ^ 32 ->
  wp (nvm_be_nocd_reinit dev) s (fun q s1 =>
    q = 0 /\ errno s1 = ENOMEM /\ world s1 = world s /\ live s1 = live s \/
    q <> 0 /\ live s1 = {[q]} ∪ live s ∖ {[be_state dev]} /\ sw_states (world s1) !! q = Some st /\
    forall addr opt ret, rprt_unit dev addr ->
    let off := match addr with Some a => chunk_idx (geo dev) a | None => 0 end in
    let n := match addr with Some _ => nchunk (geo dev) | None => total end in
    wp (nvm_be_nocd_rprt spdk (with_be_state q dev) addr opt ret) s1 (fun r s2 =>
      world s2 = world s1 /\
      match r.1 with
      | None => errno s2 = ENOMEM /\ live s2 = live s1
      | Some (p, rprt) => (p ∉ live s1) /\ live s2 = {[p]} ∪ live s1 /\ ndescr rprt = n /\
          Z.of_nat (length (descr rprt)) = n /\
          forall i d, descr rprt !! i = Some d ->
            d = Descr NVM_CHUNK_STATE_FREE NVM_CHUNK_TYPE_ARWR 0
                  (nvm_addr_gen2dev dev (set_l_chunk ((off + Z.of_nat i) mod 2 ^ 16) 0)) (nsectr (geo dev)) 0
      end)).
Proof.
  intros total Ht. apply (wp_nocd_reinit dev st); [done|done|apply Hp|apply Hp|done| |].
  { intros s' H1 H2 H3 H4. by left. }
  intros q s1 Hq Hf Hwf1 Hl1 Hst1 Hlog. right. split; [done|]. split; [done|]. split; [done|].
  intros addr opt ret Hu off n. destruct (rprt_range dev Hver Hg addr Hu) as (H1 & H2 & H3).
  apply (wp_nocd_rprt spdk (with_be_state q dev)); try done; [by apply dma_alloc_ok; [|right]|..].
  intros p s' X1 X2 X3 X4. split; [done|]. cbn [fst]. split; [done|]. split; [done|]. split; [done|]. split.
  - cbn [descr]. rewrite length_fmap, length_seqZ. change (rprt_n (with_be_state q dev) addr) with n. change (rprt_n dev addr) with n in H2. clearbody n. lia.
  - intros i d. cbn [descr]. rewrite list_lookup_fmap. intros (x & Hx & ->)%fmap_Some. apply lookup_seqZ in Hx as [-> Hi].
    unfold nocd_descr, set_l_chunk. f_equal. f_equal. symmetry. by apply bf_set_mod.
Qed.

(** ** Witnesses *)

Definition tiny_nocd : nvm_dev := with_be_state 3 (with_be_id NVM_BE_NOCD tiny20).
Definition tiny_nocd_lib : spdk_nvme (spdk_world nvmd) := nvmd_lib tiny_nocd 1.
Definition tiny_nocd_world : spdk_world nvmd :=
  SpdkWorld false {[ 3 := SpdkState 6 7 8 (dev_ns tiny20) 1 true 9 ]} ∅ ∅ ∅ (Nvmd ∅ None).

#[export] Instance tiny_nocd_disk : NvmeDisk page_spdk tiny_nocd_lib tiny_nocd 7 9 := nvmd_disk tiny_nocd 1 (TCEq_refl _).

Lemma tiny_nocd_lba : lba_dev_ok tiny_nocd.
Proof. destruct tiny_lba_ok as [[] ?]. by split. Qed.

Definition nocd_data : list Z := [1; 2; 3; 4].
Definition nocd_write (addrs : list nvm_addr) :=
  nvm_be_nocd_vector_write page_spdk tiny_nocd_lib (fun _ => 0) (fun _ => 0) 2 tiny_nocd addrs (Z.of_nat (length addrs))
    (Some nocd_data) None NVM_CMD_SYNC None.

(** Sectors 0 and 1, of different chunks, go to sectors 0 and 1 of the first
    chunk; two sectors 0 both get the first sector of the data. *)
Lemma nocd_vector_write_exact_witness :
  let s := Sys 0 (sample_heap 99) tiny_nocd_world in
  let c i := set_l_chunk i 0 in
  let sect (s : sys (spdk_world nvmd)) a := ram_sector tiny_nocd (nd_ram (sw_os (world s))) (nvm_addr_gen2dev tiny_nocd a) in
  wp (nocd_write [c 0; set_l_sectr 1 (c 1)]) s (fun r s' => r.1 = 0 /\ live s' = live s /\
    sect s' (set_l_sectr 1 (c 0)) = [3; 4] /\ sect s' (set_l_sectr 1 (c 1)) = sect s (set_l_sectr 1 (c 1))) /\
  wp (nocd_write [c 0; c 1]) s (fun r s' => r.1 = 0 /\ live s' = live s /\ sect s' (c 0) = [1; 2] /\ sect s' (c 1) = [1; 2]).
Proof.
  intros s c sect.
  pose proof (fun (addrs : list nvm_addr) (Ha0 : addrs !! 0%nat = Some (c 0)) =>
    nocd_vector_write_exact page_spdk tiny_nocd_lib (fun _ => 0) (fun _ => 0) 2 tiny_nocd 7 9
      ltac:(by split) eq_refl tiny_nocd_lba ltac:(cbn; lia) addrs (c 0) nocd_data None NVM_CMD_SYNC None s
      (sample_heap_wf _ _ _) ltac:(split; [by eexists|done]) ltac:(by split) eq_refl Ha0) as X.
  split.
  - pose proof (proj1 (X [c 0; set_l_sectr 1 (c 1)] eq_refl)) as C. cbn zeta in C.
    assert (Hrun : sectors_run [c 0; set_l_sectr 1 (c 1)] (c 0)) by (by intros [|[|i]] b Hb; cbn in Hb; simplify_eq).
    specialize (C Hrun ltac:(done) ltac:(done) ltac:(done) ltac:(apply (bool_decide_eq_true_1 _); by vm_compute)).
    apply wp_elim in C as (r & s' & E & Hl & _ & Hout & Hin). eapply wp_intro; [exact E|].
    assert (Er : r.1 = 0) by (assert (E2 := E); vm_compute in E2; injection E2 as <- _; done).
    split; [done|]. split; [done|]. split.
    + etrans; [exact (Hin Er 1%nat (set_l_sectr 1 (c 0)) ltac:(by vm_compute))|by vm_compute].
    + apply Hout; [apply (bool_decide_eq_true_1 _); by vm_compute|apply (bool_decide_eq_false_1 _); by vm_compute].
  - pose proof (proj2 (X [c 0; c 1] eq_refl)) as C. cbn zeta in C.
    assert (Hrun : ~ sectors_run [c 0; c 1] (c 0)) by (intros H; specialize (H 1%nat (c 1) eq_refl); by vm_compute in H).
    specialize (C Hrun ltac:(done) ltac:(apply (bool_decide_eq_true_1 _); by vm_compute)
      ltac:(apply (bool_decide_eq_true_1 _); by vm_compute)).
    apply wp_elim in C as (r & s' & E & Hl & _ & _ & Hin). eapply wp_intro; [exact E|].
    assert (Er : r.1 = 0) by (assert (E2 := E); vm_compute in E2; injection E2 as <- _; done).
    split; [done|]. split; [done|].
    split; (etrans; [apply (Hin Er); apply (bool_decide_eq_true_1 _); by vm_compute|by vm_compute]).
Defined.

(** The descriptors of unit 0 of group 1, chunks 2 and 3 of the device. *)
Lemma nocd_report_witness :
  let s := Sys 0 (sample_heap 99) tiny_nocd_world in
  npugrp (geo tiny_nocd) * npunit (geo tiny_nocd) * nchunk (geo tiny_nocd) < 2 ^ 32 /\
  wp (nvm_be_nocd_reinit tiny_nocd) s (fun q s1 => q <> 0 /\
    wp (nvm_be_nocd_rprt page_spdk (with_be_state q tiny_nocd) (Some (set_l_punit 1 0)) 0 None) s1 (fun r s2 =>
      match r.1 with Some (_, rprt) => ndescr rprt = nchunk (geo tiny_nocd) | None => False end)).
Proof.
  intros s. split; [done|].
  pose proof (nocd_report page_spdk tiny_nocd (SpdkState 6 7 8 (dev_ns tiny20) 1 true 9) ltac:(by split) eq_refl eq_refl
    ltac:(by vm_compute) s (sample_heap_wf _ _ _) ltac:(by split) eq_refl ltac:(done)) as C.
  apply wp_elim in C as (q & s1 & E & C). eapply wp_intro; [exact E|].
  assert (Eq : q <> 0) by (assert (E2 := E); vm_compute in E2; injection E2 as <- _; done).
  destruct C as [[-> _]|(_ & _ & _ & C)]; [done|]. split; [done|].
  specialize (C (Some (set_l_punit 1 0)) 0 None ltac:(by split)). apply wp_elim in C as (r & s2 & Er & Hr).
  eapply wp_intro; [exact Er|]. assert (E2 := E). assert (E3 := Er). vm_compute in E2. injection E2 as <- <-. vm_compute in E3.
  injection E3 as <- <-. cbn [fst]. apply Hr.
Defined.
