(* ===== verification/IoctlMedia.v ===== *)
(** The Linux backend implements the interface of [Media]: its commands, for a
    kernel that executes NVMe commands on device addresses, act on generic
    addresses as the interface promises. *)
From stdpp Require Import base numbers strings gmap option list.
From S2P Require Import Prelude Types Nvme Addr Dev Backend Buf Be Cmd Vblk Stripe Media DevMedia Linear VblkIO Ioctl.

(** ** What the kernel does *)

(** [cmd] addresses the device sectors [l]. *)
Definition ppas_of (l : list Z) : ppas := match l with [a] => PpaInline a | _ => PpaList l end.
Definition vio_addrs (cmd : vuser) (l : list Z) : Prop :=
  0 < Z.of_nat (length l) /\ vu_nppas cmd = Z.of_nat (length l) - 1 /\ vu_ppa_list cmd = ppas_of l.

(** A vector command that went through: without an error, or with a warning
    that the data needed correction. *)
Definition vio_rc (rep : krep) : Z :=
  if (k_err rep =? 0) && (k_result rep =? 0) || vio_ignored (k_result rep) then 0 else -1.

(** [cmd] addresses the device sectors [d, d + n). *)
Definition pt_addrs (cmd : passthru) (d n : Z) : Prop :=
  0 < n <= 2 ^ 16 /\ pt_cdw12 cmd = n - 1 /\ pt_cdw10 cmd + Z.shiftl (pt_cdw11 cmd) 32 = d.

(** The kernel keeps the sectors by device address, and executes a command on
    the sectors it names, whose data the buffer must hold. *)
Class KernelMedia {W} (k : kernel W) (dev : nvm_dev) := {
  kmedia : W -> Z -> list Z;
  kmedia_len w d : length (kmedia w d) = Z.to_nat (nbytes (geo dev));
  vio_write_law cmd l data s :
    vu_opcode cmd = NVM_DOPC_VECTOR_WRITE -> vio_addrs cmd l -> vu_addr cmd = KMem (Some data) ->
    vu_data_len cmd = Z.of_nat (length l) * nbytes (geo dev) ->
    Z.of_nat (length l) * nbytes (geo dev) <= Z.of_nat (length data) -> NoDup l -> heap_wf s ->
    wp (ioctl_submit_vio k (dev_fd dev) cmd) s (fun rep s' => k_addr rep = KMem (Some data) /\
      write_post (fun _ => True) (fun _ => True) kmedia (nbytes (geo dev)) l data s (vio_rc rep) s');
  vio_read_law cmd l data s :
    vu_opcode cmd = NVM_DOPC_VECTOR_READ -> vio_addrs cmd l -> vu_addr cmd = KMem (Some data) ->
    vu_data_len cmd = Z.of_nat (length l) * nbytes (geo dev) ->
    Z.of_nat (length l) * nbytes (geo dev) <= Z.of_nat (length data) -> heap_wf s ->
    wp (ioctl_submit_vio k (dev_fd dev) cmd) s (fun rep s' => exists m, k_addr rep = KMem m /\
      read_post (fun _ => True) (fun _ => True) kmedia (nbytes (geo dev)) l data s (IoRes (vio_rc rep) m None None) s');
  io_write_law cmd d n data s :
    pt_opcode cmd = NVM_DOPC_SCALAR_WRITE -> pt_addrs cmd d n -> pt_addr cmd = KMem (Some data) ->
    pt_data_len cmd = n * nbytes (geo dev) -> n * nbytes (geo dev) <= Z.of_nat (length data) ->
    heap_wf s ->
    wp (ioctl_io_cmd k (dev_fd dev) cmd) s (fun rep s' => k_addr rep = KMem (Some data) /\
      write_post (fun _ => True) (fun _ => True) kmedia (nbytes (geo dev)) (run_from d n) data s (k_err rep) s');
  io_read_law cmd d n data s :
    pt_opcode cmd = NVM_DOPC_SCALAR_READ -> pt_addrs cmd d n -> pt_addr cmd = KMem (Some data) ->
    pt_data_len cmd = n * nbytes (geo dev) -> n * nbytes (geo dev) <= Z.of_nat (length data) ->
    heap_wf s ->
    wp (ioctl_io_cmd k (dev_fd dev) cmd) s (fun rep s' => exists m, k_addr rep = KMem m /\
      read_post (fun _ => True) (fun _ => True) kmedia (nbytes (geo dev)) (run_from d n) data s
        (IoRes (k_err rep) m None None) s');
  uio_write_law cmd d n data s :
    ui_opcode cmd = NVM_DOPC_SCALAR_WRITE -> 0 < n <= 2 ^ 16 -> ui_nblocks cmd = n - 1 ->
    ui_slba cmd = d -> ui_addr cmd = KMem (Some data) ->
    n * nbytes (geo dev) <= Z.of_nat (length data) -> heap_wf s ->
    wp (ioctl_submit_io k (dev_fd dev) cmd) s (fun rep s' => k_addr rep = KMem (Some data) /\
      write_post (fun _ => True) (fun _ => True) kmedia (nbytes (geo dev)) (run_from d n) data s (k_err rep) s') }.

(** ** The operations of the backend *)

Section instance.
Context {W : Type} (k : kernel W) (spdk : spdk_env W) (dev : nvm_dev) `{!KernelMedia k dev}.
Context (Hok : lba_dev_ok dev).
Implicit Types s : sys W.
#[local] Abbreviation nb := (nbytes (geo dev)).
#[local] Abbreviation gen2dev := (nvm_addr_gen2dev dev).

(** The content of a sector, by its generic address. *)
Definition ioctl_media (w : W) (a : nvm_addr) : list Z := kmedia w (gen2dev a).

Lemma ppa_list_of_all l : ppa_list_of (Z.of_nat (length l)) l = Some (ppas_of l).
Proof. destruct l as [|a [|b l]]; [done..|]. unfold ppa_list_of. by rewrite (proj2 (Z.eqb_neq _ _)) by (cbn; lia). Qed.

Lemma wp_ioctl_vio cmd ret s (Q : Z * krep * retp -> sys W -> Prop) :
  wp (ioctl_submit_vio k (dev_fd dev) cmd) s (fun rep s' => forall err ret' e,
    (vio_rc rep = 0 <-> err = 0 \/ vio_ignored (k_result rep) = true) ->
    Q (err, rep, ret') (Sys e (hp s') (world s'))) ->
  wp (ioctl_vio k dev cmd ret) s Q.
Proof.
  intros H. unfold ioctl_vio. apply wp_bind. eapply wp_mono; [exact H|]. clear H. cbn beta.
  intros rep [e h w] H. cbn [hp world] in H. cbn zeta. unfold vio_rc in H.
  destruct (k_err rep =? 0); cbn [negb andb] in *.
  - destruct (k_result rep =? 0); cbn [negb orb] in *.
    + apply wp_ret, H. tauto.
    + apply H. destruct (vio_ignored _); split; intros; (by right) || (by destruct H0) || done || lia.
  - apply wp_ret, H. destruct (vio_ignored _); cbn; split; intros; (by right) || (by destruct H0) || done || lia.
Qed.

(** The command of a write or read. *)
Lemma wp_vector_rw (opcode : Z) addrs data meta flags ret s
    (Q : io_res -> sys W -> Prop) :
  opcode <> NVM_DOPC_VECTOR_ERASE -> 0 < Z.of_nat (length addrs) ->
  (forall e, Q (IoRes (-1) (Some data) meta ret) (Sys e (hp s) (world s))) ->
  (forall cmd, vu_opcode cmd = opcode -> vio_addrs cmd (gen2dev <$> addrs) ->
     vu_addr cmd = KMem (Some data) -> vu_data_len cmd = Z.of_nat (length addrs) * nb ->
     wp (ioctl_submit_vio k (dev_fd dev) cmd) s (fun rep s' => exists m, k_addr rep = KMem m /\
       forall r e, io_data r = m -> (rc r = 0 -> vio_rc rep = 0) -> Q r (Sys e (hp s') (world s')))) ->
  wp (cmd_vector_ewr k dev addrs (Z.of_nat (length addrs)) (Some data) meta flags opcode ret) s Q.
Proof.
  intros Hop Hn HE HS. unfold cmd_vector_ewr. destruct (is_async flags); [apply HE|].
  rewrite (proj2 (Z.leb_gt _ 0)) by done. destruct (Z.ltb_spec NVM_NADDR_MAX (Z.of_nat (length addrs))); [apply HE|].
  rewrite dev_addrs_all. apply wp_bind. eapply wp_intro; [done|].
  rewrite <-(length_fmap gen2dev addrs), ppa_list_of_all, length_fmap.
  apply wp_bind. eapply wp_intro; [done|]. cbn zeta. apply wp_bind. apply wp_ioctl_vio.
  unfold vector_cmd. rewrite (proj2 (Z.eqb_neq opcode _)) by done. cbn [andb is_some].
  pose proof (id_nb _ Hok) as Hnb. unfold NVM_NADDR_MAX in *. change (sector_nbytes (geo dev)) with nb.
  eapply wp_mono; [apply HS; cbn; [done|split; [by rewrite length_fmap|split; [|done]]|done|]|].
  - rewrite length_fmap. apply wrap_id. lia.
  - rewrite wrap_id; nia.
  - cbn beta. intros rep s' (m & Em & HQ) err ret' e Hrc. cbn [vu_addr]. rewrite Em.
    apply wp_bind. eapply wp_intro; [done|]. destruct (Z.eqb_spec err 0) as [->|Hne].
    + apply wp_ret, HQ; [done|]. intros _. apply Hrc. by left.
    + destruct (vio_ignored (k_result rep)) eqn:Ei; apply wp_ret, HQ; try done.
      intros _. apply Hrc. by right.
Qed.

Lemma wp_ioctl_wrap call ret s (Q : Z * krep * retp -> sys W -> Prop) :
  wp call s (fun rep s' => forall err ret', (err = 0 <-> k_err rep = 0) -> Q (err, rep, ret') s') ->
  wp (ioctl_wrap call ret) s Q.
Proof.
  intros H. unfold ioctl_wrap. apply wp_bind. eapply wp_mono; [exact H|]. cbn beta.
  intros rep s' HQ. destruct (Z.eqb_spec (k_err rep) 0) as [E|E]; [by apply wp_ret, HQ|].
  destruct ret as [r|]; [|by apply wp_ret, HQ]. unfold wp, mbind, M_bind, get_errno. by apply HQ.
Qed.

Lemma slba_split d : 0 <= d < 2 ^ 64 -> u32 d + Z.shiftl (u32 (Z.shiftr d 32)) 32 = d.
Proof.
  intros Hd. rewrite Z.shiftr_div_pow2, Z.shiftl_mul_pow2 by lia.
  rewrite (wrap_id 32 (d / _)) by (split; [apply Z.div_pos; lia|apply Z.div_lt_upper_bound; lia]).
  unfold wrap. pose proof (Z.div_mod d (2 ^ 32) ltac:(lia)). lia.
Qed.

(** The command of a scalar write or read without meta data. *)
Lemma wp_scalar_rw (opcode : Z) a n data flags ret s (Q : io_res -> sys W -> Prop) :
  0 < n <= 2 ^ 16 -> lba_fits dev a ->
  (forall e, Q (IoRes (-1) (Some data) None ret) (Sys e (hp s) (world s))) ->
  (forall cmd, pt_opcode cmd = opcode -> pt_addrs cmd (gen2dev a) n ->
     pt_addr cmd = KMem (Some data) -> pt_data_len cmd = n * nb ->
     wp (ioctl_io_cmd k (dev_fd dev) cmd) s (fun rep s' => exists m, k_addr rep = KMem m /\
       forall r, io_data r = m -> (rc r = 0 -> k_err rep = 0) -> Q r s')) ->
  wp (cmd_scalar_wr k dev a n (Some data) None flags opcode ret) s Q.
Proof.
  intros Hn Ha HE HS. unfold cmd_scalar_wr. destruct (is_async flags); [apply HE|]. cbn zeta.
  apply wp_bind, wp_ioctl_wrap. pose proof (id_nb _ Hok). change (sector_nbytes (geo dev)) with nb.
  eapply wp_mono; [apply HS; cbn; [done|split; [done|split]|done|]|].
  - apply wrap_id. lia.
  - apply slba_split, (gen2dev_range dev Hok), Ha.
  - rewrite wrap_id; nia.
  - cbn beta. intros rep s' (m & Em & HQ) err ret' Hrc. rewrite Em. apply wp_bind. eapply wp_intro; [done|].
    destruct (Z.eqb_spec err 0) as [->|Hne]; apply wp_ret, HQ; try done. intros _. by apply Hrc.
Qed.

#[export] Program Instance ioctl_implements_media : Media (nvm_be_ioctl k spdk) dev :=
  {| mok := fun _ => True; mdom := lba_dom dev; mflags := fun _ => True; mvector := fun _ => True; media := ioctl_media |}.
Next Obligation. intros w a. apply kmedia_len. Qed.
Next Obligation.
  intros addrs data meta flags ret s Hwf _ _ Hd Hnd Hn Hl. cbn. unfold nvm_be_ioctl_vector_write.
  apply wp_bind, wp_vector_rw; [done|done|intros e; by apply wp_ret, failed_write|].
  intros cmd H1 H2 H3 H4. eapply wp_mono; [eapply (vio_write_law cmd); try done|].
  - by rewrite length_fmap.
  - by rewrite length_fmap.
  - by apply gen2dev_NoDup.
  - intros rep s' [E Hp]. eexists. split; [exact E|]. intros r e _ Hrc. apply wp_ret.
    eapply (write_post_gen dev Hok _ kmedia); [done|]. eapply write_post_rc; [|exact Hp]. exact Hrc.
Qed.
Next Obligation.
  intros addrs data flags ret s Hwf _ _ Hd Hn Hl. cbn. unfold nvm_be_ioctl_vector_read.
  apply wp_vector_rw; [done|done|intros e; by apply failed_read|].
  intros cmd H1 H2 H3 H4. eapply wp_mono; [eapply (vio_read_law cmd); try done|].
  - by rewrite length_fmap.
  - by rewrite length_fmap.
  - intros rep s' (m & E & Hp). eexists. split; [exact E|]. intros r e Er Hrc.
    apply (read_post_gen dev _ kmedia).
    eapply read_post_rc; [| |exact Hp]; [by rewrite Er|exact Hrc].
Qed.
Next Obligation.
  intros a n data meta flags ret s Hwf _ Hd Hn Hsec Hl. cbn. unfold nvm_be_ioctl_scalar_write.
  pose proof (run_addrs_fits dev a n (proj1 Hn) Hd) as Hfit. apply wp_bind. destruct meta as [m|].
  - unfold cmd_scalar_wr. destruct (is_async flags); [by apply wp_ret, failed_write|].
    unfold cmd_scalar_wr_dep_ioc. apply wp_bind, wp_ioctl_wrap.
    eapply wp_mono; [apply (uio_write_law _ (gen2dev a) n); try done; apply wrap_id; lia|].
    intros rep s' [E Hp] err ret' Hrc. rewrite E. apply wp_bind. eapply wp_intro; [done|].
    rewrite (run_from_fmap dev Hok) in Hp by done. apply (write_post_gen dev Hok _ kmedia) in Hp; [|done].
    destruct (Z.eqb_spec err 0) as [->|Hne]; apply wp_ret, wp_ret; (eapply write_post_rc; [|exact Hp]).
    + intros _. by apply Hrc.
    + done.
  - apply wp_scalar_rw; [done|done|intros e; by apply wp_ret, failed_write|].
    intros cmd H1 H2 H3 H4. eapply wp_mono; [by eapply (io_write_law cmd)|].
    intros rep s' [E Hp]. eexists. split; [exact E|]. intros r _ Hrc. apply wp_ret.
    rewrite (run_from_fmap dev Hok) in Hp by done. apply (write_post_gen dev Hok _ kmedia); [done|].
    eapply write_post_rc; [|exact Hp]. exact Hrc.
Qed.
Next Obligation.
  intros a n data flags ret s Hwf _ Hd Hn Hsec Hl. cbn. unfold nvm_be_ioctl_scalar_read.
  pose proof (run_addrs_fits dev a n (proj1 Hn) Hd) as Hfit.
  apply wp_scalar_rw; [done|done|intros e; by apply failed_read|].
  intros cmd H1 H2 H3 H4. eapply wp_mono; [by eapply (io_read_law cmd)|].
  intros rep s' (m & E & Hp). eexists. split; [exact E|]. intros r Er Hrc.
  rewrite (run_from_fmap dev Hok) in Hp by done. apply (read_post_gen dev _ kmedia).
    eapply read_post_rc; [| |exact Hp]; [by rewrite Er|exact Hrc].
Qed.
End instance.
