(* ===== verification/IoctlSpec.v ===== *)
(** Virtual blocks on the Linux backend, from the caller's buffer down to the
    device addresses of the kernel, and the chunk reports and the opening of
    the backend. *)
From stdpp Require Import base numbers strings gmap option list.
From S2P Require Import Prelude Types Nvme Addr Dev Backend Buf Be Cmd Vblk Stripe Media Linear VblkIO VblkRead.
From S2P Require Import Ioctl DevMedia Reports IoctlMedia.

(** ** Writes *)

(** C2: the stack from virtual blocks to the kernel. On the Linux backend,
    over a kernel that executes vector and scalar commands on device addresses,
    a synchronous write to a 2.0 virtual block, in either mode, leaves sector
    [i] of the caller's buffer at the device address of linear sector [i] of
    the range and every other device address as it was, or answers -1 with
    [EIO] or [ENOMEM]; and it keeps no memory. *)
Theorem ioctl_vblk_write {W} (k : kernel W) (spdk : spdk_env W) (dev : nvm_dev) `{!KernelMedia k dev}
    (Hok : lba_dev_ok dev) (v : nvm_vblk) (ws : Z) (Hv : vblk20_ok dev v ws)
    (Hdom : on_device dev v ws (lba_dom dev))
    (Hmode : vblk_mode dev v = NVM_CMD_VECTOR \/ vblk_mode dev v = NVM_CMD_SCALAR)
    (Hbe : be_id dev = NVM_BE_IOCTL) (buf : mem) (count offset : Z) (s : sys W)
    (Hcount : 0 <= count) (Hwf : heap_wf s) (Hr : request_ok dev v ws buf count offset) :
  let nb := nbytes (geo dev) in
  let at_ i := nvm_addr_gen2dev dev (lin20 v ws (offset / nb + i)) in
  wp (vblk_sync_pwrite_s20 spdk (nvm_be_ioctl k spdk) dev v buf count offset) s (fun r s' =>
    live s' = live s /\
    (forall d, 0 <= d < 2 ^ lba_width dev -> (forall i, 0 <= i < count / nb -> d <> at_ i) ->
       kmedia (world s') d = kmedia (world s) d) /\
    (r = count /\ (forall i, 0 <= i < count / nb -> kmedia (world s') (at_ i) = request_src dev ws buf count i) \/
     r = -1 /\ (errno s' = EIO \/ errno s' = ENOMEM))).
Proof.
  intros nb at_. pose (I0 := ioctl_implements_media k spdk dev Hok).
  eapply wp_mono; [apply (dev_pwrite (Media0 := I0) spdk (nvm_be_ioctl k spdk) dev Hok kmedia); try done|].
  - split; [exact I|]. destruct Hmode; [by left|by right].
  - apply virt_alloc_ok. by left.
  - intros r s' (_ & H). exact H.
Qed.


(** ** Chunk reports *)

(** What is relied on of the kernel: the log page of chunk information is
    [chunk_log], one descriptor per chunk, and a command for it answers the
    descriptors it names when it succeeds. *)
Definition log_cmd (cmd : admin) (off count : Z) : Prop :=
  let numd := bf_get 16 16 (ad_cdw10 cmd) + ad_cdw11 cmd * 2 ^ 16 in
  let lpo := ad_cdw12 cmd + ad_cdw13 cmd * 2 ^ 32 in
  ad_opcode cmd = NVM_AOPC_RPRT /\ bf_get 0 8 (ad_cdw10 cmd) = 0xCA /\
  (numd + 1) * 4 = count * SIZEOF_DESCR /\ ad_data_len cmd = count * SIZEOF_DESCR /\
  lpo = off * SIZEOF_DESCR /\
  exists l, ad_addr cmd = KDescr l /\ Z.of_nat (length l) = count.

Class KernelLog {W} (k : kernel W) (dev : nvm_dev) := {
  chunk_log : W -> list nvm_spec_rprt_descr;
  chunk_log_len w :
    Z.of_nat (length (chunk_log w)) = npugrp (geo dev) * npunit (geo dev) * nchunk (geo dev);
  log_law cmd off count s : heap_wf s -> log_cmd cmd off count -> 0 <= off -> 0 < count ->
    off + count <= npugrp (geo dev) * npunit (geo dev) * nchunk (geo dev) ->
    wp (ioctl_admin_cmd k (dev_fd dev) cmd) s (fun rep s' =>
      heap_wf s' /\ live s' = live s /\ chunk_log (world s') = chunk_log (world s) /\
      (k_err rep = 0 -> k_addr rep =
         KDescr (take (Z.to_nat count) (drop (Z.to_nat off) (chunk_log (world s)))))) }.

Section rprt.
Context {W : Type} (k : kernel W) (spdk : spdk_env W) (dev : nvm_dev) `{!KernelLog k dev}.
Context (Hver : verid dev = NVM_SPEC_VERID_20) (Hg : geo_counts_ok (geo dev)).
Implicit Types s : sys W.
#[local] Abbreviation total := (npugrp (geo dev) * npunit (geo dev) * nchunk (geo dev)).

(** The command names the descriptors it is built for. *)
Lemma rprt_cmd_ok l off count : 0 < count <= max_descr_pr_call -> 0 <= off -> off + count < 2 ^ 31 ->
  Z.of_nat (length l) = count ->
  log_cmd (rprt_cmd dev l count (u64 (off * SIZEOF_DESCR))) off count.
Proof.
  change max_descr_pr_call with 512. intros Hc Ho Hs Hl. unfold rprt_cmd, log_cmd, SIZEOF_DESCR.
  rewrite (wrap_id 64 (count * 32)), (wrap_id 64 (off * 32)) by lia.
  rewrite (Z.shiftr_div_pow2 (count * 32)) by lia. replace (count * 32 / 2 ^ 2) with (count * 8)
    by (replace (count * 32) with (count * 8 * 2 ^ 2) by lia; by rewrite Z.div_mul).
  rewrite (wrap_id 32 (count * 8 - 1)), (wrap_id 32 (count * 32)) by lia.
  change 0xffff with (Z.ones 16). rewrite Z.land_ones, (Z.mod_small (count * 8 - 1)), (wrap_id 16 (count * 8 - 1)) by lia.
  rewrite (Z.shiftr_div_pow2 (count * 8 - 1)), (Z.div_small (count * 8 - 1)) by lia.
  assert (Hcdw : 0 <= Z.lor 0xCA (Z.shiftl (count * 8 - 1) 16) < 2 ^ 32).
  { apply lor_range; [lia|done|]. apply (shiftl_range 32 _ 16 16); lia. }
  cbn [ad_opcode ad_cdw10 ad_cdw11 ad_cdw12 ad_cdw13 ad_data_len ad_addr].
  rewrite (wrap_id 32 (Z.lor _ _)) by done. split; [done|]. split; [|split; [|split; [|split]]].
  - rewrite bf_get_lor, (bf_get_shiftl_ne _ _ _ 16) by lia. done.
  - rewrite bf_get_lor, bf_get_shiftl by lia. change (bf_get 16 16 202) with 0.
    change (u16 0) with 0. rewrite Z.lor_0_l. lia.
  - done.
  - rewrite Z.shiftr_div_pow2 by lia.
    rewrite (wrap_id 32 (off * 32 / _)) by (split; [apply Z.div_pos; lia|apply Z.div_lt_upper_bound; lia]).
    unfold wrap. pose proof (Z.div_mod (off * 32) (2 ^ 32) ltac:(lia)). lia.
  - by exists l.
Qed.

(** The log as it was in [w0]. *)
#[local] Abbreviation same w0 := (fun w => chunk_log w = chunk_log w0).
#[local] Abbreviation part w0 off n := (take (Z.to_nat n) (drop (Z.to_nat off) (chunk_log w0))).

Lemma wp_rprt_round w0 p off n i l ret s (Q : list nvm_spec_rprt_descr * retp + retp -> sys W -> Prop) :
  alloc_ok spdk dev -> good (same w0) s -> p <> 0 -> p ∈ live s ->
  0 <= off -> 0 <= i < n -> off + n <= total -> total < 2 ^ 31 -> l = report_upto (part w0 off n) i ->
  (forall ret' s', good (same w0) s' -> live s' = live s -> Q (inl (report_upto (part w0 off n) (Z.min n (i + 512)), ret')) s') ->
  (forall ret' s', good (same w0) s' -> live s' = live s ∖ {[p]} -> Q (inr ret') s') ->
  wp (rprt_round k spdk dev p n (off * SIZEOF_DESCR) i (l, ret)) s Q.
Proof.
  intros Halloc Hwf Hp Hin Ho Hi Hn Ht -> HS HE. unfold rprt_round.
  assert (HlD : Z.of_nat (length (part w0 off n)) = n) by (apply log_part_len; rewrite ?chunk_log_len; lia).
  rewrite (wrap_id 64 (n - i)) by lia. change max_descr_pr_call with 512.
  rewrite NVM_MIN_min by lia. set (c := Z.min 512 (n - i)).
  assert (Hc : 0 < c <= 512 /\ i + c <= n) by (unfold c; lia).
  replace (u64 (off * SIZEOF_DESCR + u64 (i * SIZEOF_DESCR))) with (u64 ((off + i) * SIZEOF_DESCR))
    by (unfold SIZEOF_DESCR; rewrite (wrap_id 64 (i * 32)) by lia; f_equal; lia).
  apply wp_bind, wp_ioctl_wrap. pose proof Hwf as [Hh Hlog]. eapply wp_mono.
  { apply (log_law _ (off + i) c); [by split| |lia..].
    apply rprt_cmd_ok; [change max_descr_pr_call with 512; lia|lia|lia|].
    rewrite length_take, length_drop, report_upto_len by lia. lia. }
  intros rep s' ([Hh' _] & Hl' & Hlog' & Hrep) err ret' Herr. rewrite Hlog in Hlog'.
  assert (Hwf' : good (same w0) s') by by split.
  destruct (Z.eqb_spec err 0) as [->|Hne]; cbn [negb].
  - rewrite (Hrep (proj1 Herr eq_refl)), Hlog. apply wp_ret.
    rewrite log_part_step by (rewrite ?chunk_log_len; lia). replace (i + c) with (Z.min n (i + 512)) by (unfold c; lia).
    by apply HS.
  - apply wp_bind. eapply (wp_buf_free spdk dev Halloc); [done|right; by rewrite Hl'|].
    intros s2 Hwf2 Hl2 Hw2 _. apply wp_ret, HE; [done|by rewrite Hl2, Hl'].
Qed.

(** The report of a unit, or of the device. *)
Lemma wp_rprt addr opt ret w0 s (Q : option (boxed nvm_spec_rprt) * retp -> sys W -> Prop) :
  alloc_ok spdk dev -> good (same w0) s -> total < 2 ^ 31 -> rprt_unit dev addr ->
  (forall ret' s', good (same w0) s' -> live s' = live s -> Q (None, ret') s') ->
  (forall p ret' s', good (same w0) s' -> p <> 0 -> p ∉ live s -> live s' = {[p]} ∪ live s ->
     Q (Some (p, Rprt (rprt_n dev addr) (part w0 (rprt_off dev addr) (rprt_n dev addr))), ret') s') ->
  wp (nvm_be_ioctl_rprt k spdk dev addr opt ret) s Q.
Proof.
  intros Halloc Hwf Ht Ha HN HS. destruct (rprt_range dev Hver Hg addr Ha) as (H1 & H2 & H3).
  pose proof Hg as (G1 & G2 & G3). unfold nvm_be_ioctl_rprt. rewrite Hver. cbn [negb Z.eqb Pos.eqb].
  change (negb (NVM_SPEC_VERID_20 =? NVM_SPEC_VERID_20)) with false. cbn iota zeta.
  rewrite (rprt_lpo dev Hver Hg addr Ha), (rprt_count dev Hg addr).
  set (n := rprt_n dev addr) in *. set (off := rprt_off dev addr) in *.
  apply wp_bind. unfold SIZEOF_DESCR, SIZEOF_NDESCR. rewrite (wrap_id 64 (n * 32)), (wrap_id 64 (n * 32 + 8)) by lia.
  eapply (wp_buf_alloc spdk dev Halloc); [done|lia| |].
  { intros s1 Hwf1 Hl1 _ _. rewrite Z.eqb_refl. by apply HN. }
  intros p s1 Hp Hf Hwf1 Hl1 _ _. rewrite (proj2 (Z.eqb_neq p 0)) by done.
  change max_descr_pr_call with 512. rewrite (proj2 (Z.ltb_ge _ n)) by lia.
  apply wp_bind. rewrite range_lt_steps by lia. eapply wp_intro; [done|]. apply wp_bind.
  apply (wp_report_rounds (same w0) (part w0 off n) 512 n p); [lia|apply log_part_len; rewrite ?chunk_log_len; lia|done|..].
  - intros i l ret1 s2 Hwf2 Hl2 Hi El. apply (wp_rprt_round w0); try done; [rewrite Hl2, Hl1; apply live_new|..].
    + intros ret' s' X1 X2. split; [done|]. by rewrite X2.
    + intros ret' s' X1 X2. split; [done|]. by rewrite X2, Hl2.
  - intros ret1 s2 Hwf2 Hl2. apply wp_ret, HS; [done|done|done|by rewrite Hl2].
  - intros ret1 s2 Hwf2 Hl2. apply wp_ret, HN; [done|]. by rewrite Hl2, Hl1, live_undo.
Qed.
End rprt.

(** What the search for chunks relies on. *)
Lemma ioctl_rprt_law {W} (k : kernel W) (spdk : spdk_env W) (dev : nvm_dev) `{!KernelLog k dev} (Halloc : alloc_ok spdk dev)
    (Hver : verid dev = NVM_SPEC_VERID_20) (Hg : geo_counts_ok (geo dev)) (Hsec : 0 < nsectr (geo dev))
    (Ht : npugrp (geo dev) * npunit (geo dev) * nchunk (geo dev) < 2 ^ 31) w0 :
  rprt_law (fun w => chunk_log w = chunk_log w0) (nvm_be_ioctl k spdk) dev (log_report dev (chunk_log w0)).
Proof.
  apply log_rprt_law; [done|done|done|apply chunk_log_len|].
  intros a s Q Hwf Ha HN HS. by apply (wp_rprt k spdk dev Hver Hg _ _ _ w0).
Qed.

(** C28: the report of a parallel unit, given by an address of its chunk 0 (or,
    without an address, of the device), the Linux backend answers is that part of the device's log of chunk
    information, every descriptor in its place, however many commands of 512
    descriptors it took; when a command fails the buffer is released and there
    is no report. *)
Theorem ioctl_rprt_correct {W} (k : kernel W) (spdk : spdk_env W) (dev : nvm_dev) {HL : KernelLog k dev}
    (Hver : verid dev = NVM_SPEC_VERID_20) (Hg : geo_counts_ok (geo dev)) (Hbe : be_id dev = NVM_BE_IOCTL)
    (Ht : npugrp (geo dev) * npunit (geo dev) * nchunk (geo dev) < 2 ^ 31)
    (addr : option nvm_addr) (opt : Z) (ret : retp) (s : sys W) (Hwf : heap_wf s)
    (Ha : match addr with Some a => in_bounds dev a /\ l_chunk a = 0 | None => True end) :
  let off := match addr with Some a => chunk_idx (geo dev) a | None => 0 end in
  let n := match addr with Some _ => nchunk (geo dev)
           | None => npugrp (geo dev) * npunit (geo dev) * nchunk (geo dev) end in
  wp (nvm_be_ioctl_rprt k spdk dev addr opt ret) s (fun '(o, _) s' =>
    heap_wf s' /\ chunk_log (world s') = chunk_log (world s) /\
    match o with
    | None => live s' = live s
    | Some (p, r) => ndescr r = n /\
        descr r = take (Z.to_nat n) (drop (Z.to_nat off) (chunk_log (world s))) /\
        (p ∉ live s) /\ live s' = {[p]} ∪ live s
    end).
Proof.
  intros off n. pose proof Hwf as [Hh _].
  apply (wp_rprt k spdk dev Hver Hg _ _ _ (world s)); [apply virt_alloc_ok; by left|by split|done..| |].
  - intros ret' s' [H1 H2] H3. split; [by split|done].
  - intros p ret' s' [H1 H2] H3 H4 H5. split; [by split|]. split; [done|]. by split.
Qed.

(** The search for chunks on the Linux backend: chunks that the device's log
    has in the wanted state, each in another parallel unit, or -1 with
    [EINVAL]; it keeps no memory. *)
Theorem ioctl_rprt_arbs {W} (k : kernel W) (spdk : spdk_env W) (dev : nvm_dev) `{!KernelLog k dev}
    (Hbe : be_id dev = NVM_BE_IOCTL) (Hver : verid dev = NVM_SPEC_VERID_20) (Hg : geo_counts_ok (geo dev))
    (Hsec : 0 < nsectr (geo dev)) (Ht : npugrp (geo dev) * npunit (geo dev) * nchunk (geo dev) < 2 ^ 31)
    (cst n arb : Z) (addrs0 : list nvm_addr) (s : sys W) (Hwf : heap_wf s) (Harb : 0 <= arb /\ arb + n < 2 ^ 31)
    (Hn : 0 <= n <= npugrp (geo dev) * npunit (geo dev)) (Hlen : n <= Z.of_nat (length addrs0)) :
  wp (nvm_cmd_rprt_arbs spdk (nvm_be_ioctl k spdk) dev cst n arb addrs0) s (fun '(r, addrs) s' =>
    live s' = live s /\ chunk_log (world s') = chunk_log (world s) /\
    (r = 0 /\ length addrs = length addrs0 /\ chunks_found dev (chunk_log (world s)) cst n addrs /\
       (forall i, n <= i -> addrs !! Z.to_nat i = addrs0 !! Z.to_nat i) \/
     r = -1 /\ errno s' = EINVAL)).
Proof.
  assert (Halloc : alloc_ok spdk dev) by (by apply virt_alloc_ok; left). destruct Harb as [H0 Hb].
  apply (wp_log_arbs spdk _ dev Hver Hg Hsec (chunk_log (world s)) (fun w => chunk_log w = chunk_log (world s))); try done.
  - by apply ioctl_rprt_law.
  - by destruct Hwf.
  - intros addrs s' [_ Hr] Hl H1 H2 H3. split; [done|]. split; [done|]. by left.
  - intros addrs s' [_ Hr] Hl He. split; [done|]. split; [done|]. by right.
Qed.

(** ** A kernel that keeps sectors in memory *)

Section ram_kernel.
Context (dev : nvm_dev).
Abbreviation ram := (gmap Z (list Z)).

Definition ram_rw (write : bool) (l : list Z) (a : kdata) (meta : mem) : M ram krep :=
  match a with
  | KMem data =>
      if write then _ ← ram_write dev l data None; mret (Krep 0 0 0 a meta)
      else r ← ram_read dev l data meta None; mret (Krep 0 0 0 (KMem (io_data r)) meta)
  | _ => crash
  end.

Definition ram_kernel : kernel ram :=
  Kernel ram (fun _ _ => mret 3) (fun _ => mret tt) (fun _ => mret (0, true)) (fun _ => mret 1)
    (fun _ cmd => ram_rw (vu_opcode cmd =? NVM_DOPC_VECTOR_WRITE)
       (match vu_ppa_list cmd with PpaInline a => [a] | PpaList l => l end) (vu_addr cmd) (vu_metadata cmd))
    (fun _ cmd => mret (Krep 0 0 0 (va_addr cmd) None))
    (fun _ cmd => mret (Krep 0 0 0 (ad_addr cmd) None))
    (fun _ cmd => ram_rw (ui_opcode cmd =? NVM_DOPC_SCALAR_WRITE)
       (run_from (ui_slba cmd) (ui_nblocks cmd + 1)) (ui_addr cmd) (ui_metadata cmd))
    (fun _ cmd => ram_rw (pt_opcode cmd =? NVM_DOPC_SCALAR_WRITE)
       (run_from (pt_cdw10 cmd + Z.shiftl (pt_cdw11 cmd) 32) (pt_cdw12 cmd + 1)) (pt_addr cmd) (pt_metadata cmd))
    (fun _ _ _ => mret 0) (fun _ m _ _ => mret (0, m)) (fun _ _ _ _ => mret 0).

Lemma ppas_of_addrs l : match ppas_of l with PpaInline a => [a] | PpaList l' => l' end = l.
Proof. by destruct l as [|? [|? ?]]. Qed.

Context (Hnb : 0 <= nbytes (geo dev)).

Lemma ram_rw_write l data meta s : heap_wf s -> NoDup l ->
  Z.of_nat (length l) * nbytes (geo dev) <= Z.of_nat (length data) ->
  wp (ram_rw true l (KMem (Some data)) meta) s (fun rep s' => k_addr rep = KMem (Some data) /\
    k_err rep = 0 /\ k_result rep = 0 /\
    write_post (fun _ => True) (fun _ => True) (ram_sector dev) (nbytes (geo dev)) l data s 0 s').
Proof.
  intros Hwf Hnd Hl. cbn [ram_rw]. apply wp_bind.
  eapply wp_mono; [apply wp_strengthen with (R := fun r _ => r.1 = 0); [by apply (ram_write_ok dev Hnb)|]|].
  - intros r s'. unfold ram_write. destruct (_ <? _); [done|]. by intros [= <- <-].
  - intros r s' [Hp E]. rewrite E in Hp. by apply wp_ret.
Qed.

Lemma ram_rw_read l data meta s : heap_wf s ->
  Z.of_nat (length l) * nbytes (geo dev) <= Z.of_nat (length data) ->
  wp (ram_rw false l (KMem (Some data)) meta) s (fun rep s' => exists m, k_addr rep = KMem m /\
    k_err rep = 0 /\ k_result rep = 0 /\
    read_post (fun _ => True) (fun _ => True) (ram_sector dev) (nbytes (geo dev)) l data s (IoRes 0 m None None) s').
Proof.
  intros Hwf Hl. cbn [ram_rw]. apply wp_bind.
  eapply wp_mono; [apply wp_strengthen with (R := fun r _ => rc r = 0); [by apply (ram_read_ok dev _ _ meta None)|]|].
  - intros r s'. unfold ram_read. destruct (_ <? _); [done|]. by intros [= <- <-].
  - intros r s' [Hp E]. apply wp_ret. eexists. split; [reflexivity|]. split; [done|]. split; [done|].
    eapply read_post_rc; [| |exact Hp]; [done|]. by rewrite E.
Qed.
End ram_kernel.

#[export] Program Instance ram_kernel_media dev (Hnb : TCEq (0 <=? nbytes (geo dev)) true) :
  KernelMedia (ram_kernel dev) dev := {| kmedia := ram_sector dev |}.
Next Obligation. intros dev Hnb w d. apply TCEq_eq, Z.leb_le in Hnb. by apply ram_sector_len. Qed.
Next Obligation.
  intros dev Hnb cmd l data s Eo (Hn & _ & El) Ea _ Hl Hnd Hwf. apply TCEq_eq, Z.leb_le in Hnb.
  cbn. rewrite Eo, Ea, El, ppas_of_addrs. eapply wp_mono; [by apply ram_rw_write|].
  intros rep s' (E & E1 & E2 & Hp). split; [done|]. unfold vio_rc. by rewrite E1, E2.
Qed.
Next Obligation.
  intros dev Hnb cmd l data s Eo (Hn & _ & El) Ea _ Hl Hwf. apply TCEq_eq, Z.leb_le in Hnb.
  cbn. rewrite Eo, Ea, El, ppas_of_addrs. eapply wp_mono; [by apply ram_rw_read|].
  intros rep s' (m & E & E1 & E2 & Hp). exists m. split; [done|]. unfold vio_rc. by rewrite E1, E2.
Qed.
Next Obligation.
  intros dev Hnb cmd d n data s Eo (Hn & E12 & E10) Ea _ Hl Hwf. apply TCEq_eq, Z.leb_le in Hnb.
  cbn. rewrite Eo, Ea, E10, E12, Z.sub_add. eapply wp_mono.
  { apply ram_rw_write; [done|done|apply run_from_NoDup|by rewrite run_from_len by lia]. }
  intros rep s' (E & E1 & E2 & Hp). split; [done|]. by rewrite E1.
Qed.
Next Obligation.
  intros dev Hnb cmd d n data s Eo (Hn & E12 & E10) Ea _ Hl Hwf. apply TCEq_eq, Z.leb_le in Hnb.
  cbn. rewrite Eo, Ea, E10, E12, Z.sub_add. eapply wp_mono.
  { apply ram_rw_read; [done|by rewrite run_from_len by lia]. }
  intros rep s' (m & E & E1 & E2 & Hp). exists m. split; [done|]. by rewrite E1.
Qed.
Next Obligation.
  intros dev Hnb cmd d n data s Eo Hn En Es Ea Hl Hwf. apply TCEq_eq, Z.leb_le in Hnb.
  cbn. rewrite Eo, Ea, Es, En, Z.sub_add. eapply wp_mono.
  { apply ram_rw_write; [done|done|apply run_from_NoDup|by rewrite run_from_len by lia]. }
  intros rep s' (E & E1 & E2 & Hp). split; [done|]. by rewrite E1.
Qed.

(** ** Witnesses *)

#[export] Instance tiny_kernel_media : KernelMedia (ram_kernel tiny20) tiny20 :=
  ram_kernel_media tiny20 (TCEq_refl _).

(** The second command's units land in the other chunk. *)
Lemma ioctl_vblk_write_witness :
  let s := Sys 0 (sample_heap 9) (∅ : gmap Z (list Z)) in
  wp (vblk_sync_pwrite_s20 spdk_stub (nvm_be_ioctl (ram_kernel tiny20) spdk_stub) tiny20 tiny_vblk
        (Some [10; 11; 12; 13; 14; 15; 16; 17]) 8 4) s (fun r s' =>
    r = 8 /\ kmedia (world s') (nvm_addr_gen2dev tiny20 (lin20 tiny_vblk 2 5)) = [16; 17] /\
    kmedia (world s') (nvm_addr_gen2dev tiny20 (lin20 tiny_vblk 2 6)) = [0; 0]).
Proof.
  intros s. pose proof (ioctl_vblk_write (ram_kernel tiny20) spdk_stub tiny20 tiny_lba_ok tiny_vblk 2
    tiny_vblk_ok tiny_lba_dom (or_introl eq_refl) eq_refl (Some [10; 11; 12; 13; 14; 15; 16; 17]) 8 4 s
    ltac:(done) (sample_heap_wf _ _ _) tiny_request) as C. cbn zeta in C.
  apply wp_elim in C as (r & s' & E & _ & Hfr & Hd). eapply wp_intro; [exact E|].
  assert (Er : r = 8) by (assert (E2 := E); vm_compute in E2; congruence).
  destruct Hd as [[_ Hd]|[? _]]; [|lia]. split; [done|]. split; [exact (Hd 3 ltac:(by split))|].
  rewrite Hfr; [done|by vm_compute|]. intros i Hi.
  change (0 <= i < 4) in Hi. change (4 / nbytes (geo tiny20)) with 2. intros Eq.
  apply (gen2dev_inj tiny20 tiny_lba_ok) in Eq; [|apply tiny_lba_dom..];
    [|by vm_compute|change (lin_size tiny20 tiny_vblk) with 16; lia].
  apply (lin_inj _ _ _ tiny_vblk_ok) in Eq; change (lin_size tiny20 tiny_vblk) with 16; lia.
Defined.

(** ** A kernel that keeps a log of chunk information *)

Section log_kernel.
Context (dev : nvm_dev).

Definition log_answer (cmd : admin) : M (list nvm_spec_rprt_descr) krep :=
  w ← get_world;
  let count := (bf_get 16 16 (ad_cdw10 cmd) + ad_cdw11 cmd * 2 ^ 16 + 1) * 4 / SIZEOF_DESCR in
  let off := (ad_cdw12 cmd + ad_cdw13 cmd * 2 ^ 32) / SIZEOF_DESCR in
  mret (Krep 0 0 0 (KDescr (take (Z.to_nat count) (drop (Z.to_nat off) (log_of dev w)))) None).

Definition log_kernel : kernel (list nvm_spec_rprt_descr) :=
  Kernel _ (fun _ _ => mret 3) (fun _ => mret tt) (fun _ => mret (0, true)) (fun _ => mret 1)
    (fun _ _ => crash) (fun _ _ => crash) (fun _ => log_answer) (fun _ _ => crash) (fun _ _ => crash)
    (fun _ _ _ => crash) (fun _ _ _ _ => crash) (fun _ _ _ _ => crash).
End log_kernel.

#[export] Program Instance log_kernel_log dev (Hg : geo_counts_ok (geo dev)) : KernelLog (log_kernel dev) dev :=
  {| chunk_log := log_of dev |}.
Next Obligation. intros dev Hg w. by apply log_of_len. Qed.
Next Obligation.
  intros dev Hg cmd off count s Hwf (_ & _ & E1 & _ & E2 & _) Ho Hc _. cbn. unfold log_answer.
  rewrite E1, E2. unfold SIZEOF_DESCR. rewrite !Z.div_mul by done. by split.
Qed.

(** ** Opening *)

(** The descriptors open are the world; the answers are the parameters. *)
Definition fd_kernel (fd : Z) (st : Z * bool) (nsid err : Z) : kernel (gset Z) :=
  Kernel _ (fun _ _ => _ ← modify_world (union {[fd]}); mret fd)
    (fun fd => modify_world (fun w => w ∖ {[fd]})) (fun _ => mret st) (fun _ => mret nsid)
    (fun _ _ => crash) (fun _ _ => crash) (fun _ cmd => mret (Krep err 0 0 (ad_addr cmd) None))
    (fun _ _ => crash) (fun _ _ => crash)
    (fun _ _ _ => crash) (fun _ _ _ _ => crash) (fun _ _ _ _ => crash).

Lemma wp_fd_open fd st nsid err path flags s Q :
  Q fd (Sys (errno s) (hp s) ({[fd]} ∪ world s)) -> wp (sys_open (fd_kernel fd st nsid err) path flags) s Q.
Proof. done. Qed.

Lemma wp_fd_identify fd st nsid err cmd s Q :
  Q (if err =? 0 then 0 else -1, Krep err 0 0 (ad_addr cmd) None, None) s ->
  wp (ioctl_wrap (ioctl_admin_cmd (fd_kernel fd st nsid err) fd cmd) None) s Q.
Proof. intros HQ. unfold ioctl_wrap, wp, mbind, M_bind. cbn. by destruct (err =? 0). Qed.

(** An opening that fails at the status of the descriptor, at the namespace
    or at the identification returns [NULL] with the descriptor open and the
    handle never released. *)
Theorem ioctl_open_leaks (spdk : spdk_env (gset Z)) (fd : Z) (st : Z * bool) (nsid err : Z)
    (path : string) (flags : Z) (s : sys (gset Z)) (Hwf : heap_wf s)
    (Hpath : 5 <= Z.of_nat (String.length path) <= NVM_DEV_PATH_LEN) (Hfd : 0 <= fd)
    (Hbad : st.1 < 0 \/ st.2 = false \/ nsid < 1 \/ err <> 0) :
  wp (nvm_be_ioctl_open (fd_kernel fd st nsid err) spdk path flags) s (fun o s' =>
    o = None /\
    ((live s' = live s /\ world s' = world s /\ errno s' = ENOMEM) \/
     exists d, (d ∉ live s) /\ live s' = {[d]} ∪ live s /\ world s' = {[fd]} ∪ world s)).
Proof.
  unfold nvm_be_ioctl_open. rewrite (proj2 (Z.ltb_ge _ _)) by lia.
  eapply wp_bind, wp_malloc; [done| |].
  { intros s1 _ H1 H2 H3. rewrite Z.eqb_refl. apply wp_ret. split; [done|]. by left. }
  intros d s1 Hd Hf Hwf1 Hl1 Hw1 _. rewrite (proj2 (Z.eqb_neq d 0)), (proj2 (Z.ltb_ge _ 5)) by lia.
  assert (HL : forall s', live s' = live s1 -> world s' = {[fd]} ∪ world s1 ->
    None = None :> option (boxed nvm_dev) /\
    ((live s' = live s /\ world s' = world s /\ errno s' = ENOMEM) \/
     exists d, (d ∉ live s) /\ live s' = {[d]} ∪ live s /\ world s' = {[fd]} ∪ world s)).
  { intros s' E1 E2. split; [done|]. right. exists d. split; [done|]. by rewrite E1, E2, Hl1, Hw1. }
  destruct st as [serr blk]. cbn [fst snd] in Hbad.
  apply wp_bind, wp_fd_open. rewrite (proj2 (Z.ltb_ge fd 0)) by lia.
  apply wp_bind, wp_ret. destruct (Z.ltb_spec serr 0); [by apply wp_ret, HL|].
  destruct blk; [|by eapply wp_intro; [done|]; apply HL].
  apply wp_bind, wp_ret. destruct (Z.ltb_spec nsid 1); [by apply wp_ret, HL|].
  apply wp_bind, wp_fd_identify. destruct (Z.eqb_spec err 0); [naive_solver lia|].
  by apply wp_ret, HL.
Qed.

Lemma ioctl_open_leaks_witness :
  wp (nvm_be_ioctl_open (fd_kernel 7 (0, false) 1 0) spdk_stub "/dev/nvme0n1" 0)
    (Sys 0 (sample_heap 9) ∅) (fun o s' => o = None /\ live s' = {[3; 5; 7]} /\ world s' = {[7]}).
Proof.
  pose proof (ioctl_open_leaks spdk_stub 7 (0, false) 1 0 "/dev/nvme0n1" 0 (Sys 0 (sample_heap 9) ∅)
    (sample_heap_wf _ _ _) ltac:(by vm_compute) ltac:(lia) (or_intror (or_introl eq_refl))) as C.
  apply wp_elim in C as (o & s' & E & Ho & [(_ & _ & Herr)|(d & _ & El & Ew)]); vm_compute in E;
    injection E as <- <-; [discriminate|].
  eapply wp_intro; [by vm_compute|]. split; [done|]. by split; vm_compute.
Defined.

(** The unit (1, 1), its four chunks the last of the log. *)
Lemma ioctl_rprt_correct_witness :
  let w := (fun i => Descr 0 0 0 (8 * i) 4 0) <$> seqZ 0 16 in
  wp (nvm_be_ioctl_rprt (log_kernel tiny20) spdk_stub tiny20 (Some (set_l_pugrp 1 (set_l_punit 1 0))) 0 None)
    (Sys 0 (sample_heap 9) w) (fun '(o, _) s' =>
    exists p, o = Some (p, Rprt 4 ((fun i => Descr 0 0 0 (8 * i) 4 0) <$> [12; 13; 14; 15])) /\
      live s' = {[3; 5; p]}).
Proof.
  intros w.
  assert (Hg : geo_counts_ok (geo tiny20)) by (split; [|split]; split; done).
  pose proof (ioctl_rprt_correct (HL := log_kernel_log tiny20 Hg) (log_kernel tiny20) spdk_stub tiny20 eq_refl Hg eq_refl ltac:(done)
    (Some (set_l_pugrp 1 (set_l_punit 1 0))) 0 None (Sys 0 (sample_heap 9) w) (sample_heap_wf _ _ _)
    ltac:(by split; vm_compute)) as C. cbn zeta in C.
  apply wp_elim in C as ([o r] & s' & E & _ & _ & Ho). assert (E2 := E). vm_compute in E2.
  eapply wp_intro; [exact E|]. destruct o as [[p [n l]]|]; [|by injection E2].
  destruct Ho as (En & El & Hp & Hl). cbn in En, El. subst n l. exists p. split; [by vm_compute|].
  rewrite Hl. change (live (Sys 0 (sample_heap 9) w)) with ({[3; 5]} : gset Z).
  apply set_eq. intros x. rewrite !elem_of_union, !elem_of_singleton. tauto.
Defined.
