(* ===== verification/IoctlOpen.v ===== *)
(** Opening a device on the Linux backend: what [nvm_be_ioctl_open] keeps, and
    that its handles are ones a search for chunks can use, over a kernel that
    identifies a 2.0 device and answers its log of chunk information. *)
From Stdlib Require Import String.
From stdpp Require Import base numbers strings gmap option list.
From S2P Require Import Prelude Types Nvme Addr Dev Backend Buf Be Cmd Open Ioctl Reports IoctlMedia IoctlSpec.

(** ** What is relied on of the kernel *)

(** A call that takes no memory, leaves the log alone and answers [R]. *)
Definition quiet {W A} (log : W -> list nvm_spec_rprt_descr) (m : M W A) (s : sys W) (R : A -> Prop) : Prop :=
  wp m s (fun a s' => heap_wf s' /\ live s' = live s /\ log (world s') = log (world s) /\ R a).

(** The device behind a kernel: its namespace, its identify data and its log of
    chunk information. Descriptors come and go as the kernel likes, and any call
    may fail; a command that succeeds answers what it names. *)
Class KernelDevice {W} (k : kernel W) := {
  kd_ns : nvm_nvme_ns;
  kd_idfy : nvm_spec_idfy;
  kd_lbaf : nvm_nvme_lbaf;
  kd_log : W -> list nvm_spec_rprt_descr;
  kd_verid : idfy_verid kd_idfy = NVM_SPEC_VERID_20 \/ idfy_verid kd_idfy = 3;
  kd_idfy_ok : s20_idfy_ok kd_ns kd_idfy kd_lbaf;
  kd_total : Z := lgeo_npugrp (s20_lgeo kd_idfy) * lgeo_npunit (s20_lgeo kd_idfy) * lgeo_nchunk (s20_lgeo kd_idfy);
  kd_geo : 0 < lgeo_npugrp (s20_lgeo kd_idfy) <= 2 ^ 8 /\ 0 < lgeo_npunit (s20_lgeo kd_idfy) <= 2 ^ 8 /\
    0 < lgeo_nchunk (s20_lgeo kd_idfy) <= 2 ^ 16 /\ 0 < lgeo_nsectr (s20_lgeo kd_idfy) /\ kd_total < 2 ^ 31;
  kd_log_len w : Z.of_nat (length (kd_log w)) = kd_total;
  kd_open path fl s : heap_wf s -> quiet kd_log (sys_open k path fl) s (fun _ => True);
  kd_close fd s : heap_wf s -> quiet kd_log (sys_close k fd) s (fun _ => True);
  kd_fstat fd s : heap_wf s -> quiet kd_log (sys_fstat k fd) s (fun _ => True);
  kd_id fd s : heap_wf s -> quiet kd_log (ioctl_id k fd) s (fun _ => True);
  (** the command that identifies a namespace, and that for an Open-Channel device *)
  kd_ns_law fd nsid ns s : heap_wf s ->
    quiet kd_log (ioctl_admin_cmd k fd (Admin 0x06 nsid (KNs ns) 0x1000 0 0 0 0)) s (fun rep =>
      k_err rep = 0 -> k_addr rep = KNs kd_ns);
  kd_idfy_law fd i s : heap_wf s ->
    quiet kd_log (ioctl_admin_vio k fd (Vadmin NVM_AOPC_IDFY (KIdfy i) SIZEOF_IDFY (PpaInline 0) 0 0)) s (fun rep =>
      k_err rep = 0 -> k_result rep = 0 -> k_addr rep = KIdfy kd_idfy);
  kd_log_law fd cmd off count s : heap_wf s -> log_cmd cmd off count -> 0 <= off -> 0 < count ->
    off + count <= kd_total ->
    quiet kd_log (ioctl_admin_cmd k fd cmd) s (fun rep =>
      k_err rep = 0 -> k_addr rep = KDescr (take (Z.to_nat count) (drop (Z.to_nat off) (kd_log (world s))))) }.

(** ** Opening *)

Section open.
Context {W : Type} (k : kernel W) (spdk : spdk_env W) `{!KernelDevice k} (w0 : W).
Implicit Types s : sys W.
#[local] Abbreviation same := (fun w => kd_log w = kd_log w0).

Lemma wp_quiet {A} (m : M W A) s (R : A -> Prop) (Q : A -> sys W -> Prop) : good same s ->
  (heap_wf s -> quiet kd_log m s R) ->
  (forall a s', good same s' -> live s' = live s -> R a -> Q a s') ->
  wp m s Q.
Proof.
  intros Hg Hm HQ. eapply wp_mono; [apply Hm; by eapply good_world|]. intros a s' (G & L & E & HR).
  apply HQ; try done. eapply good_world; [exact G|done|]. rewrite E. apply Hg.
Qed.

(** The handle of the device. *)
Definition of_device (dev : nvm_dev) : Prop :=
  verid dev = NVM_SPEC_VERID_20 /\ npugrp (geo dev) = lgeo_npugrp (s20_lgeo kd_idfy) /\
  npunit (geo dev) = lgeo_npunit (s20_lgeo kd_idfy) /\ nchunk (geo dev) = lgeo_nchunk (s20_lgeo kd_idfy) /\
  nsectr (geo dev) = lgeo_nsectr (s20_lgeo kd_idfy).

#[local] Program Definition of_device_log dev (Hd : of_device dev) : KernelLog k dev := {| chunk_log := kd_log |}.
Next Obligation. intros dev (_ & E1 & E2 & E3 & _) w. by rewrite kd_log_len, E1, E2, E3. Qed.
Next Obligation. intros dev (_ & E1 & E2 & E3 & _) cmd off count s Hwf Hc Ho Hn Hb. rewrite E1, E2, E3 in Hb. by apply kd_log_law. Qed.

Lemma of_device_reports dev : of_device dev ->
  reports_on spdk same (fun dev => log_report dev (kd_log w0)) (nvm_be_ioctl k spdk) dev.
Proof.
  intros Hd. pose proof Hd as (Hv & E1 & E2 & E3 & E4). pose proof kd_geo as (H1 & H2 & H3 & H4 & H5). unfold kd_total in H5.
  assert (Hg : geo_counts_ok (geo dev)) by (split; [|split]; lia).
  split; [done|]. split; [done|]. intros dev' V G B. rewrite <-G in E1, E2, E3, E4.
  assert (Hd' : of_device dev') by (split; [congruence|done]).
  assert (Ha : alloc_ok spdk dev') by (apply virt_alloc_ok; by left). split; [done|].
  assert (Ht : npugrp (geo dev') * npunit (geo dev') * nchunk (geo dev') < 2 ^ 31) by (rewrite E1, E2, E3; exact H5).
  exact (ioctl_rprt_law (KernelLog0 := of_device_log dev' Hd') k spdk dev' Ha (eq_trans V Hv)
    (eq_ind_r geo_counts_ok Hg G) ltac:(lia) Ht w0).
Qed.

(** Identification takes a block or nothing. *)
Lemma wp_kd_idfy dev s (Q : option (boxed nvm_spec_idfy) * retp -> sys W -> Prop) : good same s -> alloc_ok spdk dev ->
  (forall r s', good same s' -> live s' = live s -> Q (None, r) s') ->
  (forall p r s', good same s' -> p <> 0 -> p ∉ live s -> live s' = {[p]} ∪ live s -> Q (Some (p, kd_idfy), r) s') ->
  wp (nvm_be_ioctl_idfy k spdk dev None) s Q.
Proof.
  intros Hg Halloc HN HS. unfold nvm_be_ioctl_idfy. apply wp_bind. eapply (wp_buf_alloc spdk dev Halloc); [done|done| |].
  { intros s1 G1 L1 _ _. rewrite Z.eqb_refl. eapply wp_intro; [reflexivity|]. apply HN; [by eapply good_world; [exact G1|done|apply G1]|done]. }
  intros p s1 Hp Hf G1 L1 _ _. rewrite (proj2 (Z.eqb_neq p 0)) by done. apply wp_bind. unfold ioctl_vam. apply wp_bind.
  eapply wp_quiet; [exact G1|intros H; by apply kd_idfy_law|]. intros rep s2 G2 L2 HR.
  assert (Hfree : forall r s3, good same s3 -> live s3 = live s2 -> wp (_ ← nvm_buf_free spdk dev p; mret (None, r)) s3 Q).
  { intros r s3 G3 L3. apply wp_bind. eapply (wp_buf_free spdk dev Halloc); [done|right; rewrite L3, L2, L1; apply live_new|].
    intros s4 G4 L4 _ _. apply wp_ret, HN; [done|]. rewrite L4, L3, L2, L1. by apply live_undo. }
  destruct (Z.eqb_spec (k_err rep) 0) as [E1|E1]; cbn [negb]; [|by apply wp_ret, Hfree].
  destruct (Z.eqb_spec (k_result rep) 0) as [E2|E2]; cbn [negb].
  - apply wp_ret. cbn [Z.eqb negb]. rewrite (HR E1 E2). apply wp_ret, HS; [done|done|done|congruence].
  - eapply wp_intro; [reflexivity|]. apply Hfree; [by eapply good_world; [exact G2|done|apply G2]|done].
Qed.

(** [nvm_be_populate] fails with nothing kept, or gives a handle of the device. *)
Lemma wp_kd_populate dev s (Q : Z * nvm_dev -> sys W -> Prop) : good same s ->
  dev_ns dev = kd_ns -> quirks dev = 0 /\ pmode (opts dev) = 0 ->
  (forall dev' s', good same s' -> live s' = live s -> Q (-1, dev') s') ->
  (forall dev' s', good same s' -> live s' = live s -> of_device dev' -> be_id dev' = NVM_BE_IOCTL -> 0 < nbytes (geo dev') ->
     Q (0, dev') s') ->
  wp (nvm_be_populate spdk dev (ioctl_table k spdk nvm_be_nosys_open)) s Q.
Proof.
  intros Hg Hns Hnew HN HS. set (be := ioctl_table k spdk nvm_be_nosys_open).
  assert (Ha : alloc_ok spdk (with_be_id (bid be) dev)) by (apply virt_alloc_ok; by left).
  pose proof (wp_kd_idfy (with_be_id (bid be) dev) s (fun o s' => good same s' /\
    match o.1 with
    | None => live s' = live s
    | Some (p, i) => i = kd_idfy /\ p <> 0 /\ (p ∉ live s) /\ live s' = {[p]} ∪ live s
    end) Hg Ha ltac:(by split) ltac:(intros; cbn; by repeat (split; [done|]))) as C.
  apply wp_elim in C as ([o r] & s1 & E & G1 & H1). cbn [fst] in H1. destruct o as [[p i]|].
  - destruct H1 as (-> & Hp & Hf & L1).
    eapply (wp_populate_s20 _ spdk be dev p kd_idfy kd_lbaf r s s1); [exact E|apply kd_verid|rewrite Hns; apply kd_idfy_ok|done|by left|
      by eapply good_world|rewrite L1; apply live_new|].
    intros dev' s' G' L' W' Hfmt _ Hid (F1 & F2 & F3 & F4) _ Hnb _. apply HS; try done.
    + eapply good_world; [exact G'|done|]. rewrite W'. apply G1.
    + rewrite L', L1. by apply live_undo.
    + split; [apply Hfmt|done].
    + rewrite Hnb. apply Z.pow_pos_nonneg; [lia|]. apply kd_idfy_ok.
  - unfold nvm_be_populate. apply wp_bind. eapply wp_intro; [exact E|]. by apply wp_ret, HN.
Qed.

Lemma ioctl_opens ident flags : 5 <= Z.of_nat (String.length ident) ->
  be_opens spdk same (fun dev => log_report dev (kd_log w0)) ident flags (nvm_be_ioctl k spdk).
Proof.
  intros Hlen s Hg. cbn [be_open nvm_be_ioctl ioctl_table]. unfold nvm_be_ioctl_open.
  assert (HE : forall e s1, good same s1 -> live s1 = live s -> good same (Sys e (hp s1) (world s1)) /\ exists K, kept 1 K s (Sys e (hp s1) (world s1))).
  { intros e s1 G1 L1. split; [eapply good_world; [exact G1|done|apply G1]|]. exists ∅. eapply kept_le; [by apply kept_0|lia]. }
  destruct (NVM_DEV_PATH_LEN <? _); [eapply wp_intro; [reflexivity|]; by apply HE|].
  apply wp_bind. eapply wp_malloc; [done| |].
  { intros s1 G1 L1 _ _. apply wp_ret. split; [done|]. exists ∅. eapply kept_le; [by apply kept_0|lia]. }
  intros d s1 Hd Hf G1 L1 _ _. rewrite (proj2 (Z.eqb_neq d 0)), (proj2 (Z.ltb_ge _ 5)) by lia.
  assert (HL : forall s2, good same s2 -> live s2 = live s1 -> good same s2 /\ exists K, kept 1 K s s2).
  { intros s2 G2 L2. split; [done|]. exists {[d]}. apply kept_1; [done|congruence]. }
  assert (HF : forall s2, good same s2 -> live s2 = live s1 -> wp (_ ← free d; mret (None : option (boxed nvm_dev))) s2
    (fun o s' => good same s' /\ exists K, match o with None => kept 1 K s s' | Some (d, dev) => kept 2 K s s' /\
       reports_on spdk same (fun dev => log_report dev (kd_log w0)) (nvm_be_ioctl k spdk) dev end)).
  { intros s2 G2 L2. apply wp_bind. eapply wp_free; [done|right; rewrite L2, L1; apply live_new|].
    intros s3 G3 L3 _ _. apply wp_ret. split; [done|]. exists ∅. eapply kept_le; [apply kept_0|lia].
    rewrite L3, L2, L1. by apply live_undo. }
  assert (HC : forall fd s2, good same s2 -> live s2 = live s1 -> wp (_ ← sys_close k fd; _ ← free d; mret (None : option (boxed nvm_dev))) s2
    (fun o s' => good same s' /\ exists K, match o with None => kept 1 K s s' | Some (d, dev) => kept 2 K s s' /\
       reports_on spdk same (fun dev => log_report dev (kd_log w0)) (nvm_be_ioctl k spdk) dev end)).
  { intros fd s2 G2 L2. apply wp_bind. eapply wp_quiet; [exact G2|intros H; by apply kd_close|].
    intros _ s3 G3 L3 _. apply HF; [done|congruence]. }
  apply wp_bind. eapply wp_quiet; [exact G1|intros H; by apply kd_open|]. intros fd s2 G2 L2 _.
  destruct (fd <? 0); [by apply HF|]. apply wp_bind. eapply wp_quiet; [exact G2|intros H; by apply kd_fstat|].
  intros [err blk] s3 G3 L3 _. destruct (err <? 0); [apply wp_ret, HL; [done|congruence]|].
  destruct blk; cbn [negb]; [|eapply wp_intro; [reflexivity|]; apply HL; [by eapply good_world; [exact G3|done|apply G3]|change (live s3 = live s1); congruence]].
  apply wp_bind. eapply wp_quiet; [exact G3|intros H; by apply kd_id|]. intros nsid s4 G4 L4 _.
  destruct (nsid <? 1); [apply wp_ret, HL; [done|congruence]|]. apply wp_bind. unfold ioctl_wrap. apply wp_bind.
  eapply wp_quiet; [exact G4|intros H; by apply kd_ns_law|]. intros rep s5 G5 L5 HR.
  destruct (Z.eqb_spec (k_err rep) 0) as [E|E]; apply wp_ret; cbn [Z.eqb negb]; [|apply wp_ret, HL; [done|congruence]].
  rewrite (HR E). apply wp_bind. apply wp_kd_populate; [done|done|by split| |].
  { intros dev' s6 G6 L6. cbn [Z.eqb negb]. apply HC; [done|congruence]. }
  intros dev' s6 G6 L6 Hdev Hid Hnb. cbn [Z.eqb negb]. apply wp_bind.
  eapply (wp_buf_alloc spdk dev'); [apply virt_alloc_ok; by left|done|lia| |].
  { intros s7 G7 L7 _ _. cbn [Z.eqb]. apply HC; [done|congruence]. }
  intros b s7 Hb Hfb G7 L7 _ _. rewrite (proj2 (Z.eqb_neq b 0)) by done. apply wp_ret. split; [done|].
  assert (E6 : live s6 = live s1) by congruence. rewrite E6 in Hfb, L7. exists ({[b]} ∪ {[d]}). split.
  - eapply (kept_trans 1 1 _ _ s s1); [by apply kept_1|by apply kept_1].
  - by apply of_device_reports.
Qed.
End open.

(** ** A device in memory behind a kernel *)

(** The log is the world; every call succeeds. *)
Definition idfy_geo (i : nvm_spec_idfy) : nvm_dev :=
  with_geo (Geo (lgeo_npugrp (s20_lgeo i)) (lgeo_npunit (s20_lgeo i)) (lgeo_nchunk (s20_lgeo i))
    (lgeo_nsectr (s20_lgeo i)) 0 0 0 0 0 0 0) sample20.

Definition idfy_kernel (ns : nvm_nvme_ns) (i : nvm_spec_idfy) : kernel (list nvm_spec_rprt_descr) :=
  Kernel _ (fun _ _ => mret 3) (fun _ => mret tt) (fun _ => mret (0, true)) (fun _ => mret 1)
    (fun _ _ => crash) (fun _ _ => mret (Krep 0 0 0 (KIdfy i) None))
    (fun _ cmd => if ad_opcode cmd =? 0x06 then mret (Krep 0 0 0 (KNs ns) None) else log_answer (idfy_geo i) cmd)
    (fun _ _ => crash) (fun _ _ => crash)
    (fun _ _ _ => crash) (fun _ _ _ _ => crash) (fun _ _ _ _ => crash).

Program Definition idfy_kernel_device ns i nlbaf (Hv : idfy_verid i = NVM_SPEC_VERID_20) (Hok : s20_idfy_ok ns i nlbaf)
    (Hg : let g := s20_lgeo i in 0 < lgeo_npugrp g <= 2 ^ 8 /\ 0 < lgeo_npunit g <= 2 ^ 8 /\ 0 < lgeo_nchunk g <= 2 ^ 16 /\
      0 < lgeo_nsectr g /\ lgeo_npugrp g * lgeo_npunit g * lgeo_nchunk g < 2 ^ 31) : KernelDevice (idfy_kernel ns i) :=
  {| kd_ns := ns; kd_idfy := i; kd_lbaf := nlbaf; kd_log := log_of (idfy_geo i) |}.
Next Obligation. intros ns i nlbaf Hv Hok Hg. by left. Qed.
Next Obligation. by intros. Qed.
Next Obligation. by intros. Qed.
Next Obligation. intros ns i nlbaf Hv Hok Hg w. destruct Hg as (H1 & H2 & H3 & _). by apply (log_of_len (idfy_geo i)). Qed.
Next Obligation. by intros. Qed.
Next Obligation. by intros. Qed.
Next Obligation. by intros. Qed.
Next Obligation. by intros. Qed.
Next Obligation. by intros. Qed.
Next Obligation. by intros. Qed.
Next Obligation.
  intros ns i nlbaf Hv Hok Hg fd cmd off count s Hwf (E0 & _ & E1 & _ & E2 & _) Ho Hc _. unfold quiet. cbn.
  rewrite E0. cbn [Z.eqb Pos.eqb NVM_AOPC_RPRT]. unfold log_answer. rewrite E1, E2. unfold SIZEOF_DESCR. rewrite !Z.div_mul by done. by split.
Qed.
