(* ===== verification/Bp.v ===== *)
(** The boilerplate of programs that use the library, [src/nvm_bp.c]: a device,
    free chunks of it, a virtual block on them and a set of buffers, set up in
    one call. *)
From Stdlib Require Import String.
From stdpp Require Import base numbers strings gmap option list.
From S2P Require Import Prelude Types Clib Nvme Addr Dev Backend Buf Be Cmd Vblk VblkOps Open.
From S2P Require Import Ioctl Reports IoctlSpec IoctlOpen.

(** [struct nvm_bp]: the device with its blocks, the buffer set with the
    contents of its write and read buffer, the virtual block. The geometry is
    that of the device. *)
Record nvm_bp := Bp {
  bp_dev : option (Z * Z * nvm_dev); bp_bufs : option (boxed nvm_buf_set); bp_data : list Z * list Z;
  bp_vblk : option (boxed nvm_vblk); bp_ws_opt : Z; bp_naddrs : Z; bp_addrs : list nvm_addr }.

Section bp.
Context {W : Type} (spdk : spdk_env W) (imps : list (nvm_be W)) (getenv_NVM_BE : option string).
(** The answer of [rand()] for the search, and the bytes of fresh memory. *)
Context (arb : Z) (fresh : Z -> list Z).

(** A buffer set holds the device it is for. *)
Definition nvm_bp_term (bp : option (boxed nvm_bp)) : M W unit :=
  match bp with
  | None => mret tt
  | Some (p, bp) =>
      _ ← (match bp_dev bp, bp_bufs bp with
           | Some (_, _, dev), Some b => nvm_buf_set_free spdk dev (Some b)
           | None, Some _ => crash
           | _, None => mret tt
           end);
      _ ← nvm_vblk_free (match bp_vblk bp with Some (q, _) => q | None => 0 end);
      free p
  end.

Definition bp_failed (p : Z) (bp : nvm_bp) : M W (option (boxed nvm_bp)) :=
  _ ← nvm_bp_term (Some (p, bp)); mret None.

Definition nvm_bp_init (dev_ident : string) (flags naddrs : Z) : M W (option (boxed nvm_bp)) :=
  p ← malloc;
  if p =? 0 then fail ENOMEM None
  else
    let addrs := replicate (Z.to_nat naddrs) 0 in
    o ← nvm_dev_openf imps getenv_NVM_BE dev_ident flags;
    match o with
    | None => bp_failed p (Bp None None ([], []) None 0 (u64 naddrs) addrs)
    | Some (d, arr, dev) =>
        be ← lift (dev_be imps dev);
        ws ← nvm_dev_get_ws_opt dev;
        let ws := u64 ws in
        '(err, addrs) ← nvm_cmd_rprt_arbs spdk be dev NVM_CHUNK_STATE_FREE naddrs arb addrs;
        let bp := Bp (Some (d, arr, dev)) None ([], []) None ws (u64 naddrs) addrs in
        if negb (err =? 0) then bp_failed p bp
        else
          v ← nvm_vblk_alloc dev d addrs naddrs;
          let bp := Bp (Some (d, arr, dev)) None ([], []) v ws (u64 naddrs) addrs in
          match v with
          | None => bp_failed p bp
          | Some (_, v) =>
              let n := nvm_vblk_get_nbytes v in
              b ← nvm_buf_set_alloc spdk dev n 0;
              match b with
              | None => bp_failed p bp
              | Some b =>
                  data ← lift (nvm_buf_set_fill n (fresh n) (fresh n));
                  mret (Some (p, Bp (bp_dev bp) (Some b) data (bp_vblk bp) ws (u64 naddrs) addrs))
              end
          end
    end.

(** [argv] without the name of the program. *)
Definition nvm_bp_init_from_args (argv : list string) : M W (option (boxed nvm_bp)) :=
  let init ident be_id naddrs :=
    if NVM_DEV_PATH_LEN <? strlen ident then fail EINVAL None else nvm_bp_init ident be_id naddrs in
  match argv with
  | [ident] => init ident NVM_BE_ANY 1
  | [ident; be_id] => init ident (i32 (strtoll be_id 16)) 1
  | [ident; be_id; naddrs] => init ident (i32 (strtoll be_id 16)) (i32 (strtoll naddrs 10))
  | _ => fail EINVAL None
  end.
End bp.

(** ** Properties *)

(** What setting up promises, when [L] was live before and opening a device
    keeps at most [m] blocks. *)
Definition bp_post {W} (spdk : spdk_env W) (report : nvm_dev -> nvm_addr -> nvm_spec_rprt) (arb naddrs : Z)
    (m : nat) (L : gset Z) (r : option (boxed nvm_bp)) (s : sys W) : Prop :=
  exists K, K ## L /\ (size K <= m)%nat /\
  match r with
  | None => live s = K ∪ L
  | Some (_, bp) => exists d arr dev q b,
      bp_dev bp = Some (d, arr, dev) /\ bp_vblk bp = Some (q, vblk_of dev d (bp_addrs bp) NVM_VBLK_CMD_OPTS) /\
      bp_bufs bp = Some b /\ bs_nbytes b.2 = alloc_nbytes dev naddrs /\
      Forall (in_bounds dev) (bp_addrs bp) /\
      arbs_filled dev (report dev) NVM_CHUNK_STATE_FREE naddrs arb (replicate (Z.to_nat naddrs) 0) naddrs (bp_addrs bp) /\
      wp (nvm_bp_term spdk r) s (fun _ s' => live s' = K ∪ L)
  end.

Section term.
Context {W : Type} (spdk : spdk_env W).
Implicit Types s : sys W.

(** Releasing the virtual block and the boilerplate. *)
Lemma wp_bp_blocks L p q s (Q : unit -> sys W -> Prop) : heap_wf s -> owns L [q; p] s ->
  (forall s', heap_wf s' -> live s' = L -> Q tt s') -> wp (_ ← nvm_vblk_free q; free p) s Q.
Proof.
  intros Hwf Ho HQ. apply wp_bind. eapply wp_free; [done|by eapply owns_mem|]. intros s1 G1 L1 W1 _.
  pose proof (owns_drop _ _ _ _ _ Hwf Ho L1) as Ho1.
  eapply wp_free; [done|by eapply owns_mem|]. intros s2 G2 L2 W2 _. apply HQ; [done|].
  destruct (owns_drop _ _ _ _ _ G1 Ho1 L2) as [_ _ E]. rewrite E. apply union_empty_l_L.
Qed.

(** A boilerplate without buffers, whose blocks are [p] and [q]. *)
Lemma wp_bp_failed L p q bp s (Q : option (boxed nvm_bp) -> sys W -> Prop) : heap_wf s -> owns L [q; p] s ->
  bp_bufs bp = None -> q = match bp_vblk bp with Some (q, _) => q | None => 0 end ->
  (forall s', heap_wf s' -> live s' = L -> Q None s') -> wp (bp_failed spdk p bp) s Q.
Proof.
  intros Hwf Ho Hb Hq HQ. unfold bp_failed, nvm_bp_term. rewrite Hb, <-Hq. apply wp_bind, wp_bind.
  eapply (wp_intro _ _ tt s); [by destruct (bp_dev bp) as [[[??]?]|]|].
  eapply wp_bp_blocks; [done|done|]. intros s1 G1 L1. by apply wp_ret, HQ.
Qed.
End term.

Section init.
Context {W : Type} (spdk : spdk_env W) (I : W -> Prop) (imps : list (nvm_be W)) (env : option string).
Context (report : nvm_dev -> nvm_addr -> nvm_spec_rprt) (arb naddrs : Z) (fresh : Z -> list Z).
Context (Hn : 0 <= naddrs) (Harb : 0 <= arb /\ arb + naddrs < 2 ^ 31).
Context (Hfresh : forall n, n <= Z.of_nat (length (fresh n))).
Implicit Types s : sys W.

Lemma wp_bp_init ident flags s : open_law spdk I report ident flags imps env -> good I s ->
  wp (nvm_bp_init spdk imps env arb fresh ident flags naddrs) s (bp_post spdk report arb naddrs (length imps + 2) (live s)).
Proof using Hn Harb Hfresh.
  intros Hopen Hwf. unfold nvm_bp_init. apply wp_bind. eapply wp_malloc; [done| |].
  { intros s1 G1 L1 _ _. eapply wp_intro; [done|]. exists ∅. split; [set_solver|]. split; [rewrite size_empty; lia|].
    change (live s1 = ∅ ∪ live s). by rewrite L1, union_empty_l_L. }
  intros p s1 Hp Hf G1 L1 _ _. rewrite (proj2 (Z.eqb_neq p 0)) by done. apply wp_bind.
  eapply wp_mono; [by apply Hopen|]. intros o s2 (G2 & K & (L2 & HK & HK2) & Ho).
  assert (HKs : K ## live s) by (rewrite L1 in HK; set_solver).
  assert (O2 : owns (K ∪ live s) [p] s2).
  { split.
    - rewrite filter_cons_True by done. apply NoDup_singleton.
    - intros r ->%list_elem_of_singleton. rewrite L1 in HK. set_solver.
    - rewrite filter_cons_True, L2, L1 by done. cbn. set_solver. }
  assert (HN : forall s3, heap_wf s3 -> live s3 = K ∪ live s -> bp_post spdk report arb naddrs (length imps + 2) (live s) None s3).
  { intros s3 G3 L3. exists K. by split. }
  destruct o as [[[d arr] dev]|].
  2: { eapply wp_bp_failed; [by eapply good_world|by eapply owns_null|done|done|done]. }
  destruct Ho as (be & Hbe & (Hver & Hg & Hrep) & Eb). destruct (Hrep dev eq_refl eq_refl Eb) as [Halloc Hr]. rewrite Hbe. apply wp_bind.
  eapply (wp_intro _ _ be s2); [done|]. apply wp_bind. unfold nvm_dev_get_ws_opt. by_verid Hver. apply wp_ret.
  apply wp_bind, (wp_rprt_arbs_any spdk be dev I (report dev) Halloc Hr Hg NVM_CHUNK_STATE_FREE naddrs arb Harb);
    [done|done|rewrite length_replicate; lia| |].
  2: { intros l s3 G3 L3 _. cbn [Z.eqb negb]. eapply wp_bp_failed; [by eapply good_world| |done|done|done]. eapply owns_null; [done|].
       by apply (owns_ext _ [p] _ s2). }
  intros l s3 G3 L3 Hl. cbn [Z.eqb negb]. apply wp_bind.
  assert (O3 : owns (K ∪ live s) [p] s3) by by apply (owns_ext _ [p] _ s2).
  assert (Hll : Z.of_nat (length l) = naddrs) by (destruct Hl as [-> _]; rewrite length_replicate; lia).
  destruct (decide (naddrs <= VBLK_MAX)) as [Hmax|Hmax].
  2: { unfold nvm_vblk_alloc. rewrite (proj2 (Z.ltb_lt VBLK_MAX naddrs)) by lia. eapply wp_intro; [done|].
       eapply wp_bp_failed; [| |done|done|done]; [by eapply (good_world _ s3)|]. eapply owns_null; [exact G3|].
       by apply (owns_ext _ [p] _ s3). }
  apply wp_vblk_alloc; [by right|by eapply good_world|done|lia|].
  rewrite take_ge by lia. intros [[q v]|] s4 (G4 & W4 & H4).
  2: { eapply wp_bp_failed; [done| |done|done|done]. eapply owns_null; [done|].
       apply (owns_ext _ [p] _ s3); [done|apply H4|done]. }
  destruct H4 as (Hq & Hfq & L4 & Hin & ->).
  assert (O4 : owns (K ∪ live s) [q; p] s4) by by eapply owns_new.
  cbn zeta. apply wp_bind. eapply wp_mono; [by apply wp_set_alloc|]. intros [[bp b]|] s5 H5.
  2: { destruct H5 as [G5 L5]. eapply wp_bp_failed; [done| |done|done|done].
       by apply (owns_ext _ [q; p] _ s4). }
  destruct H5 as ([Hb1 _] & _ & _ & _ & Hfree). apply wp_bind.
  unfold nvm_vblk_get_nbytes in *. cbn [vblk_nbytes vblk_of] in *. rewrite Hll in *.
  set (n := alloc_nbytes dev naddrs) in *.
  assert (exists w r, nvm_buf_set_fill n (fresh n) (fresh n) = Some (w, r)) as (w & r & E).
  { unfold nvm_buf_set_fill, nvm_buf_fill. destruct (n =? 0); [by eauto|].
    rewrite (proj2 (Z.ltb_ge _ _)) by apply Hfresh. cbn. eauto. }
  rewrite E. eapply wp_intro; [done|]. apply wp_ret. exists K. split; [done|]. split; [done|].
  exists d, arr, dev, q, (bp, b). split; [done|]. split; [cbn [bp_vblk bp_addrs]; unfold vblk_of; by rewrite Hll|].
  split; [done|]. split; [done|]. split; [done|]. split; [done|].
  cbn [nvm_bp_term bp_dev bp_bufs bp_vblk]. apply wp_bind. eapply wp_mono; [exact Hfree|].
  intros [] s6 [G6 L6]. eapply wp_bp_blocks; [done| |].
  - by apply (owns_ext _ [q; p] _ s4).
  - done.
Qed.
End init.

(** ** The property *)

(** C37: setting up a boilerplate, for a number of addresses that is not
    negative, on backends whose [open] gives a 2.0 handle in two blocks or
    nothing ([Open.be_opens], which [IoctlOpen] proves of the Linux backend).
    Either the answer is [NULL] and the boilerplate and everything
    obtained for it were released, except for the blocks of a device that was
    opened, which is never closed: its handle, its backend's state and its
    array of tables (and one block for each backend that refused); or it holds
    the device, that many addresses of free chunks inside it, each in a
    parallel unit of its own, a virtual block on exactly these addresses and
    buffers of its size, and [nvm_bp_term] releases everything but the
    device. *)
Theorem bp_init_correct {W} (spdk : spdk_env W) (I : W -> Prop) (imps : list (nvm_be W)) (env : option string)
    (report : nvm_dev -> nvm_addr -> nvm_spec_rprt) (arb : Z) (fresh : Z -> list Z)
    (ident : string) (flags naddrs : Z) (s : sys W)
    (Hopen : Forall (be_opens spdk I report ident flags) imps) (Hids : NoDup (bid <$> imps)) (Hwf : good I s)
    (Hn : 0 <= naddrs) (Harb : 0 <= arb /\ arb + naddrs < 2 ^ 31)
    (Hfresh : forall n, n <= Z.of_nat (length (fresh n))) :
  wp (nvm_bp_init spdk imps env arb fresh ident flags naddrs) s
    (bp_post spdk report arb naddrs (length imps + 2) (live s)).
Proof. apply wp_bp_init with I; try done. by apply wp_openf. Qed.

(** ** Witness *)

(** The Linux backend over a device of four units, whose chunks are all free. *)
Definition bp_idfy : nvm_spec_idfy := dev_idfy tiny20.
Definition bp_ns : nvm_nvme_ns := Ns 0 0 [NvmeLbaf 0 1].
Definition bp_kernel : kernel (list nvm_spec_rprt_descr) := idfy_kernel bp_ns bp_idfy.
Definition bp_log : list nvm_spec_rprt_descr := replicate 16 (Descr NVM_CHUNK_STATE_FREE 2 0 0 8 0).

#[export] Instance bp_kernel_device : KernelDevice bp_kernel.
Proof. apply (idfy_kernel_device bp_ns bp_idfy (NvmeLbaf 0 1)); [done|by split|by repeat split]. Defined.

Lemma bp_init_correct_witness :
  let be := nvm_be_ioctl bp_kernel spdk_stub in
  let report dev := log_report dev (log_of (idfy_geo bp_idfy) bp_log) in
  let s := Sys 0 (sample_heap 100) bp_log in
  let run := nvm_bp_init spdk_stub [be] None 5 (fun n => replicate (Z.to_nat n) 0) "/dev/nvme0n1" NVM_BE_IOCTL 2 in
  wp run s (bp_post spdk_stub report 5 2 3 {[3; 5]}) /\ wp run s (fun r _ => is_Some r).
Proof.
  intros be report s run. split; [|vm_compute; by eexists].
  apply (bp_init_correct spdk_stub (fun w => kd_log w = kd_log bp_log) [be] None report 5 (fun n => replicate (Z.to_nat n) 0)
    "/dev/nvme0n1" NVM_BE_IOCTL 2 s).
  - apply Forall_singleton. exact (ioctl_opens bp_kernel spdk_stub bp_log "/dev/nvme0n1" NVM_BE_IOCTL ltac:(by vm_compute)).
  - apply NoDup_singleton.
  - by split; [apply (sample_heap_wf 100)|].
  - lia.
  - lia.
  - intros n. rewrite length_replicate. lia.
Defined.

(** More addresses than the device has units: the answer is [NULL], and the
    three blocks of the device stay. *)
Example bp_init_leaks_device :
  wp (nvm_bp_init spdk_stub [nvm_be_ioctl bp_kernel spdk_stub] None 5 (fun n => replicate (Z.to_nat n) 0)
        "/dev/nvme0n1" NVM_BE_IOCTL 5)
    (Sys 0 (sample_heap 100) bp_log) (fun r s' => r = None /\ errno s' = EINVAL /\ size (live s') = 5%nat).
Proof. vm_compute. done. Qed.
