(* ===== verification/Lbd.v ===== *)
(** The Linux block-device backend ([src/nvm_be_lbd.c], with libaio): scalar
    commands as reads, writes and discards of byte ranges, asynchronous ones
    through a ring of control blocks; everything else is the Linux backend's. *)
From stdpp Require Import base numbers strings gmap option list.
From S2P Require Import Prelude Types Nvme Addr Dev Backend Buf Be Cmd Ioctl.

(** ** libaio *)

(** What [io_prep_pread] or [io_prep_pwrite] puts in a control block, with its
    member [data], and an entry of the array [io_getevents] fills. *)
Record iocb := Iocb { ib_write : bool; ib_fd : Z; ib_buf : mem; ib_nbytes : Z; ib_offset : Z; ib_data : Z }.
Record io_event := IoEvent { ev_obj : Z; ev_data : Z; ev_res2 : Z }.

(** The library, a control block given by the address of its block and its
    content; [io_getevents] takes [min], [max] and whether there is a timeout,
    of no time. *)
Record libaio (W : Type) := LibAio {
  io_queue_init : Z -> M W (Z * Z);
  io_queue_release : Z -> M W Z;
  io_submit : Z -> Z -> iocb -> M W Z;
  io_getevents : Z -> Z -> Z -> bool -> M W (Z * list io_event) }.
Arguments io_queue_init {W} _.
Arguments io_queue_release {W} _.
Arguments io_submit {W} _.
Arguments io_getevents {W} _.

(** ** The state of the backend *)

(** A context with its [struct nvm_be_lbd_async_state]: the blocks of the
    context, of the array of events and of the array of control blocks, and
    that array. *)
Record lbd_queue := LbdQueue {
  lq_depth : Z; lq_outstanding : Z; lq_ctx : Z; lq_aio : Z;
  lq_events : Z; lq_iocbs_p : Z; lq_iocbs : list Z }.

(** The queues by the address of their state, [ctx->be_ctx]. *)
Record lbd_world (W : Type) := LbdWorld { lbd_queues : gmap Z lbd_queue; lbd_os : W }.
Arguments LbdWorld {W} _ _.
Arguments lbd_queues {W} _.
Arguments lbd_os {W} _.

Definition NVM_BE_LBD_ASYNC_DEFAULT_IODEPTH : Z := 256.

Definition lq_set (n : Z) (l : list Z) (q : lbd_queue) : lbd_queue :=
  LbdQueue (lq_depth q) n (lq_ctx q) (lq_aio q) (lq_events q) (lq_iocbs_p q) l.

(** [k] and [aio] are the kernel's and the library's calls; [ret_ctx t] is the
    context the result structure [t] names, [ret->async.ctx->be_ctx]. *)
Section lbd.
Context {W : Type}.
#[local] Abbreviation LW := (lbd_world W).
Context (k : kernel LW) (aio : libaio LW) (spdk : spdk_env LW) (ret_ctx : Z -> Z).

Definition get_queue (q : Z) : M LW lbd_queue := w ← get_world; lift (lbd_queues w !! q).
Definition put_queue (q : Z) (x : lbd_queue) : M LW unit :=
  modify_world (fun w => LbdWorld (<[q := x]> (lbd_queues w)) (lbd_os w)).
Definition drop_queue (q : Z) : M LW unit :=
  modify_world (fun w => LbdWorld (delete q (lbd_queues w)) (lbd_os w)).

Definition ctx_of (q : Z) (x : lbd_queue) : nvm_async_ctx := AsyncCtx (lq_depth x) (lq_outstanding x) q.

(** ** Contexts *)

(** [state->iocbs[i] = calloc(1, sizeof(struct iocb))] *)
Definition alloc_iocbs (n : Z) : M LW (list Z) :=
  mfold (fun _ l => p ← malloc; mret (l ++ [p])) (seqZ 0 n) [].

(** None of the allocations is tested: the members of a [NULL] are assigned. *)
Definition nvm_be_lbd_async_init (dev : nvm_dev) (depth flags : Z) : M LW (option nvm_async_ctx) :=
  state ← malloc;
  ctx ← malloc;
  let depth := if depth =? 0 then NVM_BE_LBD_ASYNC_DEFAULT_IODEPTH else depth in
  if ctx =? 0 then crash
  else
    if state =? 0 then crash
    else
      events ← malloc;
      iocbs ← malloc;
      if (iocbs =? 0) && (0 <? depth) then crash
      else
        l ← alloc_iocbs depth;
        '(err, a) ← io_queue_init aio depth;
        if negb (err =? 0) then fail (i32 (- err)) None
        else
          let x := LbdQueue depth 0 ctx a events iocbs l in
          _ ← put_queue state x; mret (Some (ctx_of state x)).

Definition nvm_be_lbd_async_term (dev : nvm_dev) (ctx : nvm_async_ctx) : M LW Z :=
  let state := be_ctx ctx in
  x ← get_queue state;
  _ ← free_all (take (Z.to_nat (lq_depth x)) (lq_iocbs x));
  _ ← free (lq_events x);
  _ ← free (lq_iocbs_p x);
  err ← io_queue_release aio (lq_aio x);
  if negb (err =? 0) then fail (i32 (- err)) (-1)
  else
    _ ← drop_queue state;
    _ ← free state;
    _ ← free (lq_ctx x);
    mret 0.

(** ** Completions *)

(** One event: the control block goes back on the ring. *)
Definition put_event (x : lbd_queue) (e : io_event) : option lbd_queue :=
  let n := u32 (lq_outstanding x - 1) in
  _ ← lq_iocbs x !! Z.to_nat n;
  Some (lq_set n (<[Z.to_nat n := ev_obj e]> (lq_iocbs x)) x).

Definition event_cpl (e : io_event) : completion := Completion (ev_data e) (u16 (ev_res2 e)).

Definition put_events (x : lbd_queue) (l : list io_event) : option lbd_queue :=
  foldl (fun x e => x ← x; put_event x e) (Some x) l.

(** [fuel] is for the rounds: a round without an event ends the loop. The
    completions are answered for the caller to run their callbacks. *)
Fixpoint getevents_loop (fuel : nat) (q min max : Z) (timeout : bool) (nevents : Z) (cpls : list completion)
    : M LW (Z * list completion) :=
  x ← get_queue q;
  if lq_outstanding x =? 0 then mret (nevents, cpls)
  else
    match fuel with
    | O => crash
    | S fuel =>
        '(r, events) ← io_getevents aio (lq_aio x) min max timeout;
        if r =? 0 then mret (nevents, cpls)
        else if r <? 0 then mret (i32 (- r), cpls)
        else
          x ← lift (put_events x events);
          _ ← put_queue q x;
          getevents_loop fuel q min max timeout (i32 (nevents + r)) (cpls ++ (event_cpl <$> events))
    end.

Definition cmd_async_getevents (ctx : nvm_async_ctx) (min max : Z) (timeout : bool)
    : M LW (Z * nvm_async_ctx * list completion) :=
  let q := be_ctx ctx in
  x ← get_queue q;
  '(r, cpls) ← getevents_loop (S (Z.to_nat (lq_outstanding x))) q min max timeout 0 [];
  x ← get_queue q;
  mret (r, ctx_of q x, cpls).

Definition nvm_be_lbd_async_poke (dev : nvm_dev) (ctx : nvm_async_ctx) (max : Z)
    : M LW (Z * nvm_async_ctx * list completion) :=
  x ← get_queue (be_ctx ctx);
  cmd_async_getevents ctx 0 (if max =? 0 then lq_depth x else max) true.

Definition nvm_be_lbd_async_wait (dev : nvm_dev) (ctx : nvm_async_ctx)
    : M LW (Z * nvm_async_ctx * list completion) :=
  x ← get_queue (be_ctx ctx);
  cmd_async_getevents ctx (lq_outstanding x) (lq_depth x) false.

(** ** Scalar commands *)

(** [const off_t offset = nvm_addr_gen2off(dev, addr);] *)
Definition off_t (x : Z) : Z := if x <? 2 ^ 63 then x else x - 2 ^ 64.

Definition io_nbytes (dev : nvm_dev) (naddrs : Z) : Z := u64 (nbytes (geo dev) * naddrs).

(** A control block is taken, filled in and submitted. *)
Definition cmd_async_scalar_wr (dev : nvm_dev) (naddrs : Z) (data : mem) (offset : Z) (ret : retp) (opcode : Z)
    : M LW Z :=
  match ret with
  | None => crash
  | Some r =>
      let q := ret_ctx (ret_async r) in
      x ← get_queue q;
      if lq_outstanding x =? lq_depth x then fail EAGAIN (-1)
      else
        p ← lift (lq_iocbs x !! Z.to_nat (lq_outstanding x));
        _ ← put_queue q (lq_set (u32 (lq_outstanding x + 1)) (lq_iocbs x) x);
        if (opcode =? NVM_DOPC_SCALAR_WRITE) || (opcode =? NVM_DOPC_SCALAR_READ) then
          if p =? 0 then crash
          else
            r2 ← io_submit aio (lq_aio x) p
              (Iocb (opcode =? NVM_DOPC_SCALAR_WRITE) (dev_fd dev) data (io_nbytes dev naddrs) offset (ret_async r));
            if r2 <? 0 then fail (i32 (- r2)) (-1) else mret 0
        else fail EINVAL (-1)
  end.

(** One range; [inr] is [return -1]. *)
Definition lbd_discard (dev : nvm_dev) (addrs : list nvm_addr) (i : Z) (_ : unit) : M LW (unit + unit) :=
  a ← lift (lookupZ addrs i);
  err ← ioctl_blkdiscard k (dev_fd dev) (nvm_addr_gen2off dev a) (shl64 (nsectr (geo dev)) (ssw dev));
  if negb (err =? 0) then mret (inr tt) else mret (inl tt).

Definition nvm_be_lbd_scalar_erase (dev : nvm_dev) (addrs : list nvm_addr) (naddrs flags : Z) (ret : retp)
    : M LW (Z * retp) :=
  if is_async flags then fail EINVAL (-1, ret)
  else
    r ← mfold_ret (lbd_discard dev addrs) (seqZ 0 naddrs) tt;
    match r with inl _ => mret (0, ret) | inr _ => mret (-1, ret) end.

Definition nvm_be_lbd_scalar_read (dev : nvm_dev) (addr : nvm_addr) (naddrs : Z) (data meta : mem) (flags : Z)
    (ret : retp) : M LW io_res :=
  let offset := off_t (nvm_addr_gen2off dev addr) in
  if is_some meta then fail ENOSYS (IoRes (-1) data meta ret)
  else if is_async flags then
    err ← cmd_async_scalar_wr dev naddrs data offset ret NVM_DOPC_SCALAR_READ;
    mret (IoRes err data meta ret)
  else
    '(res, data) ← sys_pread k (dev_fd dev) data (io_nbytes dev naddrs) offset;
    if res <? 0 then mret (IoRes (-1) data meta ret) else mret (IoRes 0 data meta ret).

Definition nvm_be_lbd_scalar_write (dev : nvm_dev) (addr : nvm_addr) (naddrs : Z) (data meta : mem) (flags : Z)
    (ret : retp) : M LW (Z * retp) :=
  let offset := off_t (nvm_addr_gen2off dev addr) in
  if is_some meta then fail ENOSYS (-1, ret)
  else if is_async flags then
    err ← cmd_async_scalar_wr dev naddrs data offset ret NVM_DOPC_SCALAR_WRITE; mret (err, ret)
  else
    res ← sys_pwrite k (dev_fd dev) data (io_nbytes dev naddrs) offset;
    if res <? 0 then mret (-1, ret) else mret (0, ret).

(** ** The backend *)

Definition nvm_be_lbd_open (dev_path : string) (flags : Z) : M LW (option (boxed nvm_dev)) :=
  nvm_be_ioctl_open k spdk dev_path NVM_BE_IOCTL_WRITABLE.

Definition nvm_be_lbd : nvm_be LW :=
  NvmBe LW NVM_BE_LBD "NVM_BE_LBD" nvm_be_lbd_open (nvm_be_ioctl_close k spdk) nvm_be_nosys_pass
    (nvm_be_ioctl_idfy k spdk) (nvm_be_ioctl_rprt k spdk) (nvm_be_ioctl_gfeat k) (nvm_be_ioctl_sfeat k)
    (nvm_be_ioctl_gbbt k spdk) (nvm_be_ioctl_sbbt k)
    nvm_be_lbd_scalar_erase nvm_be_lbd_scalar_write nvm_be_lbd_scalar_read
    (nvm_be_ioctl_vector_erase k) (nvm_be_ioctl_vector_write k) (nvm_be_ioctl_vector_read k)
    nvm_be_nosys_vector_copy
    nvm_be_lbd_async_init nvm_be_lbd_async_term nvm_be_lbd_async_poke nvm_be_lbd_async_wait.
End lbd.
