(* ===== verification/LbdSpec.v ===== *)
(** Asynchronous I/O on the block-device backend: over a disk that carries out
    the transfers handed to libaio, its ring of control blocks implements the
    queue of commands of [VblkAsync]. *)
From stdpp Require Import base numbers strings gmap option list.
From S2P Require Import Prelude Types Nvme Addr Dev Backend Buf Be Cmd Vblk Stripe Media Linear VblkIO.
From S2P Require Import VblkAsync Ioctl DevMedia IoctlMedia IoctlSpec Lbd.

(** ** The disk *)

(** The blocks and the bytes of a transfer. *)
Definition iocb_blocks (nb : Z) (c : iocb) : list Z := run_from (ib_offset c / nb) (ib_nbytes c / nb).
Definition iocb_bytes (c : iocb) : list Z := default [] (ib_buf c).

(** A write of whole blocks of the disk, with its data. *)
Record write_iocb (dev : nvm_dev) (c : iocb) : Prop := {
  wi_op : ib_write c = true /\ ib_fd c = dev_fd dev;
  wi_data : is_Some (ib_buf c) /\ ib_nbytes c <= Z.of_nat (length (iocb_bytes c));
  wi_range : exists b n, ib_offset c = b * nbytes (geo dev) /\ ib_nbytes c = n * nbytes (geo dev) /\
    0 <= b /\ 0 < n /\ b + n <= 2 ^ lba_width dev }.

(** No block is in two transfers. *)
Definition xfers_apart (nb : Z) (l : list (Z * iocb)) : Prop :=
  forall i j x y b, l !! i = Some x -> l !! j = Some y -> b ∈ iocb_blocks nb x.2 -> b ∈ iocb_blocks nb y.2 -> i = j.

Section posts.
Context {W : Type} (disk : W -> Z -> list Z) (queued : W -> list (Z * iocb)) (nb : Z).

(** Calls of the library leave the backend's own state alone. *)
Definition aio_keeps (s s' : sys (lbd_world W)) : Prop :=
  heap_wf s' /\ live s' = live s /\ lbd_queues (world s') = lbd_queues (world s).

(** The events [l] of the transfers [done], whose data is on the disk. *)
Definition transferred (done : list (Z * iocb)) (l : list io_event) (w w' : W) : Prop :=
  queued w ≡ₚ done ++ queued w' /\
  ev_obj <$> l = done.*1 /\ ev_data <$> l = (fun x => ib_data x.2) <$> done /\
  (forall b, (forall x, x ∈ done -> b ∉ iocb_blocks nb x.2) -> disk w' b = disk w b) /\
  (forall x j b, x ∈ done -> iocb_blocks nb x.2 !! j = Some b ->
     disk w' b = sector nb (iocb_bytes x.2) (Z.of_nat j)).
End posts.

(** What is relied on of libaio, for the context [a] of depth [d] of a disk
    without faults: a submission within the depth is accepted; events are those
    of submitted transfers, at least [min] of them without a timeout, a call is
    not interrupted, and calls that deliver nothing cannot go on for ever. *)
Class AioDisk {W} (aio : libaio (lbd_world W)) (dev : nvm_dev) (a d : Z) := {
  disk : W -> Z -> list Z;
  queued : W -> list (Z * iocb);
  aio_lag : W -> nat;
  aio_lag_max : nat;
  aio_lag_le w : (aio_lag w <= aio_lag_max)%nat;
  submit_law p c s : heap_wf s -> write_iocb dev c -> Z.of_nat (length (queued (lbd_os (world s)))) < d ->
    wp (io_submit aio a p c) s (fun r s' => r = 1 /\ aio_keeps s s' /\
      disk (lbd_os (world s')) = disk (lbd_os (world s)) /\
      queued (lbd_os (world s')) = queued (lbd_os (world s)) ++ [(p, c)]);
  getevents_law mn mx timeout s : heap_wf s -> xfers_apart (nbytes (geo dev)) (queued (lbd_os (world s))) ->
    Forall (fun x => write_iocb dev x.2) (queued (lbd_os (world s))) ->
    0 <= mn <= Z.of_nat (length (queued (lbd_os (world s)))) -> mn <= mx ->
    wp (io_getevents aio a mn mx timeout) s (fun '(r, l) s' => aio_keeps s s' /\
      exists done, transferred disk queued (nbytes (geo dev)) done l (lbd_os (world s)) (lbd_os (world s')) /\
        r = Z.of_nat (length done) /\ (timeout = false -> mn <= r) /\
        (done = [] -> queued (lbd_os (world s)) <> [] ->
           (aio_lag (lbd_os (world s')) < aio_lag (lbd_os (world s)))%nat)) }.

(** Block addresses are byte addresses over the size of a sector. *)
Record lbd_dev_ok (dev : nvm_dev) : Prop := {
  ld_ok : lba_dev_ok dev;
  ld_ssw : 0 <= ssw dev /\ nbytes (geo dev) = 2 ^ ssw dev;
  ld_width : lba_width dev + ssw dev <= 63 }.

(** ** The ring of control blocks *)

Lemma put_events_cons x e y l : put_event x e = Some y -> put_events x (e :: l) = put_events y l.
Proof. intros E. unfold put_events. cbn. by rewrite E. Qed.

(** Events put their control blocks back above the ones still in use. *)
Lemma put_events_ok l x : 0 <= lq_outstanding x - Z.of_nat (length l) -> lq_outstanding x < 2 ^ 32 ->
  lq_outstanding x <= Z.of_nat (length (lq_iocbs x)) ->
  exists ring, put_events x l = Some (lq_set (lq_outstanding x - Z.of_nat (length l)) ring x) /\
    length ring = length (lq_iocbs x) /\
    drop (Z.to_nat (lq_outstanding x - Z.of_nat (length l))) ring ≡ₚ
      (ev_obj <$> l) ++ drop (Z.to_nat (lq_outstanding x)) (lq_iocbs x).
Proof.
  revert x. induction l as [|e l IH]; intros x H0 H1 H2.
  - exists (lq_iocbs x). cbn. rewrite Z.sub_0_r. split; [by destruct x|done].
  - cbn [length] in *. set (n := lq_outstanding x - 1) in *.
    destruct (lookup_lt_is_Some_2 (lq_iocbs x) (Z.to_nat n) ltac:(lia)) as [p Hp].
    rewrite (put_events_cons _ _ (lq_set n (<[Z.to_nat n := ev_obj e]> (lq_iocbs x)) x))
      by (unfold put_event; rewrite (wrap_id 32) by lia; fold n; by rewrite Hp).
    destruct (IH (lq_set n (<[Z.to_nat n := ev_obj e]> (lq_iocbs x)) x)) as (ring & E & L & P);
      cbn; [lia|lia|rewrite length_insert; lia|].
    exists ring. rewrite E. cbn in L, P |- *. rewrite length_insert in L.
    replace (lq_outstanding x - Z.of_nat (S (length l))) with (n - Z.of_nat (length l)) by lia.
    split; [done|]. split; [done|]. rewrite P.
    rewrite (drop_S _ (ev_obj e) (Z.to_nat n)) by (apply list_lookup_insert_eq; lia).
    replace (S (Z.to_nat n)) with (Z.to_nat (lq_outstanding x)) by lia.
    rewrite drop_insert_lt by lia. cbn. by rewrite Permutation_middle.
Qed.

Section ring.
Context {W : Type} (k : kernel (lbd_world W)) (aio : libaio (lbd_world W)) (spdk : spdk_env (lbd_world W)).
Context (ret_ctx : Z -> Z) (dev : nvm_dev) (q a d : Z) `{!AioDisk aio dev a d}.
Context (Hok : lbd_dev_ok dev) (Hret : forall t, ret_ctx t = q) (Hd : d < 2 ^ 31).
Context (cbs : list Z) (Hcbs : Z.of_nat (length cbs) = d /\ Forall (fun p => p <> 0) cbs).
#[local] Abbreviation LW := (lbd_world W).
#[local] Abbreviation nb := (nbytes (geo dev)).
#[local] Abbreviation gen2dev := (nvm_addr_gen2dev dev).
#[local] Abbreviation dev2gen := (nvm_addr_dev2gen dev).
Implicit Types s : sys LW.

Definition in_queue (w : LW) : list (Z * iocb) := queued (lbd_os w).

(** The ring holds the control blocks not in flight from [outstanding] up, and
    the transfers in flight are writes of whole blocks. *)
Definition ring_ok (w : LW) (x : lbd_queue) : Prop :=
  lbd_queues w !! q = Some x /\ lq_depth x = d /\ lq_aio x = a /\
  lq_outstanding x = Z.of_nat (length (in_queue w)) /\ Z.of_nat (length (lq_iocbs x)) = d /\
  drop (Z.to_nat (lq_outstanding x)) (lq_iocbs x) ++ (in_queue w).*1 ≡ₚ cbs /\
  Forall (fun y => write_iocb dev y.2) (in_queue w).
Definition lbd_qok (w : LW) : Prop := exists x, ring_ok w x.
Definition lbd_mem (_ : LW) : gset Z := ∅.

(** The commands in flight and the sectors, by generic address. *)
Definition acmd_of (y : Z * iocb) : acmd := Acmd (ib_data y.2) (dev2gen <$> iocb_blocks nb y.2) (iocb_bytes y.2).
Definition lbd_inflight (w : LW) : list acmd := acmd_of <$> in_queue w.
Definition lbd_media (w : LW) (b : nvm_addr) : list Z := disk (lbd_os w) (gen2dev b).

Lemma ring_le w x : ring_ok w x -> 0 <= lq_outstanding x <= d.
Proof.
  intros (_ & _ & _ & E & _ & Hp & _). apply Permutation_length in Hp.
  rewrite length_app, length_fmap in Hp. destruct Hcbs. lia.
Qed.

Lemma write_blocks c : write_iocb dev c -> Forall (fun b => 0 <= b < 2 ^ lba_width dev) (iocb_blocks nb c).
Proof.
  intros [_ _ (b & n & E1 & E2 & H1 & H2 & H3)]. pose proof (id_nb _ (ld_ok _ Hok)).
  unfold iocb_blocks. rewrite E1, E2, !Z.div_mul by lia. apply Forall_forall.
  intros y (i & -> & Hi%elem_of_seqZ)%list_elem_of_fmap. lia.
Qed.

Lemma acmd_dom y b : write_iocb dev y.2 -> b ∈ a_addrs (acmd_of y) -> lba_dom dev b.
Proof.
  intros Hy Hb. cbn in Hb. apply list_elem_of_fmap in Hb as (c & -> & Hc).
  pose proof (write_blocks _ Hy) as Hf. rewrite Forall_forall in Hf.
  by apply (dev2gen_dom dev (ld_ok _ Hok)), Hf.
Qed.

Lemma inflight_apart w : apart nb (lbd_inflight w) -> xfers_apart nb (in_queue w).
Proof.
  intros [_ A2] i j y z b Hy Hz Hb Hb'. eapply (A2 i j (acmd_of y) (acmd_of z) (dev2gen b));
    unfold lbd_inflight; [by rewrite list_lookup_fmap, Hy|by rewrite list_lookup_fmap, Hz|cbn; by apply list_elem_of_fmap_2..].
Qed.

(** What the disk has transferred is reaped. *)
Lemma transferred_reaped done l s s' :
  Forall (fun y => write_iocb dev y.2) (in_queue (world s)) -> heap_wf s' -> lbd_qok (world s') -> live s' = live s ->
  transferred disk queued nb done l (lbd_os (world s)) (lbd_os (world s')) ->
  reaped (lba_dom dev) lbd_media nb lbd_inflight lbd_qok lbd_mem (acmd_of <$> done) (event_cpl <$> l) s s'.
Proof.
  intros Hw Hwf Hqok Hl (Hp & _ & Ht & Hfr & Hdata). pose proof (id_fmt _ (ld_ok _ Hok)) as Hf.
  assert (Hdone : forall y, y ∈ done -> write_iocb dev y.2).
  { intros y Hy. rewrite Forall_forall in Hw. apply Hw. unfold in_queue. rewrite Hp. apply elem_of_app. by left. }
  split; [by apply queue_wf_none|]. split; [unfold rest; by rewrite Hl|].
  split; [unfold lbd_inflight, in_queue; by rewrite Hp, fmap_app|].
  split; [rewrite <-!list_fmap_compose; exact Ht|]. split.
  - intros b [Hb1 Hb2] Hn. apply Hfr. intros y Hy Hb. apply (Hn (acmd_of y)); [by apply list_elem_of_fmap_2|].
    cbn. rewrite <-(dev2gen_gen2dev_lba dev b) by done. by apply list_elem_of_fmap_2.
  - intros i c cmd _ Hcmd _ j b Hj. rewrite list_lookup_fmap in Hcmd.
    destruct (done !! i) as [y|] eqn:Hy; [|done]. injection Hcmd as <-. cbn in Hj |- *.
    pose proof (list_elem_of_lookup_2 _ _ _ Hy) as Hin. rewrite list_lookup_fmap in Hj.
    destruct (iocb_blocks nb y.2 !! j) as [p|] eqn:Ep; [|done]. injection Hj as <-.
    pose proof (write_blocks _ (Hdone _ Hin)) as Hr. rewrite Forall_lookup in Hr. specialize (Hr _ _ Ep).
    unfold lbd_media. rewrite gen2dev_dev2gen_lba by done. by apply Hdata.
Qed.

Lemma wp_get_queue x s (Q : lbd_queue -> sys LW -> Prop) :
  lbd_queues (world s) !! q = Some x -> Q x s -> wp (get_queue q) s Q.
Proof. intros E HQ. unfold get_queue. apply wp_bind. eapply wp_intro; [done|]. by rewrite E. Qed.

Lemma get_queue_run x s : lbd_queues (world s) !! q = Some x -> get_queue q s = Some (x, s).
Proof. intros E. unfold get_queue, mbind, M_bind, get_world. by rewrite E. Qed.

Definition with_queue (x : lbd_queue) s : sys LW :=
  Sys (errno s) (hp s) (LbdWorld (<[q := x]> (lbd_queues (world s))) (lbd_os (world s))).

Lemma wp_put_queue x s (Q : unit -> sys LW -> Prop) : Q tt (with_queue x s) -> wp (put_queue q x) s Q.
Proof. done. Qed.

Lemma ring_put n ring x s : lbd_queues (world s) !! q = Some x -> lq_depth x = d -> lq_aio x = a ->
  n = Z.of_nat (length (in_queue (world s))) -> Z.of_nat (length ring) = d ->
  drop (Z.to_nat n) ring ++ (in_queue (world s)).*1 ≡ₚ cbs -> Forall (fun y => write_iocb dev y.2) (in_queue (world s)) ->
  ring_ok (world (with_queue (lq_set n ring x) s)) (lq_set n ring x).
Proof. intros. split; [cbn; by rewrite lookup_insert_eq|done]. Qed.

(** One round of the completion loop. *)
Lemma wp_getevents_round fuel mn timeout n cpls x s (Q : Z * list completion -> sys LW -> Prop) :
  ring_ok (world s) x -> heap_wf s -> apart nb (lbd_inflight (world s)) ->
  0 <= mn <= lq_outstanding x -> lq_outstanding x <> 0 ->
  (forall s', reaped (lba_dom dev) lbd_media nb lbd_inflight lbd_qok lbd_mem [] [] s s' -> (timeout = false -> mn = 0) ->
     (aio_lag (lbd_os (world s')) < aio_lag (lbd_os (world s)))%nat -> Q (n, cpls) s') ->
  (forall done l s' x', ring_ok (world s') x' -> 0 < Z.of_nat (length done) ->
     lq_outstanding x = Z.of_nat (length done) + lq_outstanding x' -> (timeout = false -> mn <= Z.of_nat (length done)) ->
     reaped (lba_dom dev) lbd_media nb lbd_inflight lbd_qok lbd_mem (acmd_of <$> done) (event_cpl <$> l) s s' ->
     wp (getevents_loop aio fuel q mn d timeout (i32 (n + Z.of_nat (length done))) (cpls ++ (event_cpl <$> l))) s' Q) ->
  wp (getevents_loop aio (S fuel) q mn d timeout n cpls) s Q.
Proof.
  intros Hx Hwf Hap Hmn Hne H0 HS. pose proof (ring_le _ _ Hx) as Hle.
  destruct Hx as (X1 & X2 & X3 & X4 & X5 & X6 & X7). cbn [getevents_loop]. apply wp_bind, (wp_get_queue x); [done|].
  rewrite (proj2 (Z.eqb_neq _ 0)), X3 by done. apply wp_bind.
  eapply wp_mono; [apply getevents_law; [done|by apply inflight_apart|exact X7|unfold in_queue in X4; lia|lia]|].
  intros [r l] s1 ((Hwf1 & Hl1 & Hq1) & done & Ht & -> & Hmin & Hlag). pose proof Ht as (Hp & Ho & _).
  assert (Elen : length (in_queue (world s)) = (length done + length (in_queue (world s1)))%nat)
    by (unfold in_queue; by rewrite Hp, length_app).
  assert (El : length l = length done) by (apply (f_equal length) in Ho; by rewrite !length_fmap in Ho).
  assert (X7' : Forall (fun y => write_iocb dev y.2) (in_queue (world s1))).
  { unfold in_queue in X7. rewrite Hp in X7. by apply Forall_app in X7 as [_ ?]. }
  destruct (Z.eqb_spec (Z.of_nat (length done)) 0) as [E0|E0].
  - destruct done as [|? ?]; [|done]. destruct l as [|? ?]; [|done]. apply wp_ret, H0.
    + change (@nil acmd) with (acmd_of <$> @nil (Z * iocb)). change (@nil completion) with (event_cpl <$> @nil io_event).
      apply transferred_reaped; [exact X7|done| |done|exact Ht]. exists x. cbn in Hp, Elen.
      split; [by rewrite Hq1|]. split; [done|]. split; [done|]. split; [lia|]. split; [done|]. split; [|done].
      rewrite <-X6. unfold in_queue. by rewrite Hp.
    + intros E. specialize (Hmin E). cbn in Hmin. lia.
    + apply Hlag; [done|]. intros E. unfold in_queue in X4. rewrite E in X4. cbn in X4. lia.
  - rewrite (proj2 (Z.ltb_ge _ 0)) by lia.
    destruct (put_events_ok l x) as (ring & E & L & P); [lia|lia|lia|].
    rewrite E. apply wp_bind. eapply wp_intro; [done|]. apply wp_bind, wp_put_queue.
    assert (Hr : ring_ok (world (with_queue (lq_set (lq_outstanding x - Z.of_nat (length l)) ring x) s1))
      (lq_set (lq_outstanding x - Z.of_nat (length l)) ring x)).
    { apply ring_put; [by rewrite Hq1|done|done|lia|lia| |done].
      rewrite P, Ho, <-X6. unfold in_queue. rewrite Hp, fmap_app. solve_Permutation. }
    eapply HS; [exact Hr|lia|cbn; lia|done|].
    apply transferred_reaped; [exact X7|done|eexists; exact Hr|done|exact Ht].
Qed.

Lemma wp_getevents_idle fuel mn timeout n cpls x s (Q : Z * list completion -> sys LW -> Prop) :
  ring_ok (world s) x -> lq_outstanding x = 0 -> Q (n, cpls) s ->
  wp (getevents_loop aio fuel q mn d timeout n cpls) s Q.
Proof.
  intros Hx E0 HQ. destruct fuel; cbn [getevents_loop]; apply wp_bind, (wp_get_queue x);
    (apply Hx || (rewrite E0; by apply wp_ret)).
Qed.

Lemma inflight_idle w x : ring_ok w x -> lq_outstanding x = 0 -> lbd_inflight w = [].
Proof.
  intros (_ & _ & _ & X4 & _) E0. unfold lbd_inflight. by rewrite (nil_length_inv (in_queue w)) by lia.
Qed.

Lemma inflight_dom w x c b : ring_ok w x -> c ∈ lbd_inflight w -> b ∈ a_addrs c -> lba_dom dev b.
Proof.
  intros (_ & _ & _ & _ & _ & _ & X7) (y & -> & Hy)%list_elem_of_fmap Hb.
  eapply (acmd_dom y); [|exact Hb]. rewrite Forall_forall in X7. by apply X7.
Qed.

(** Polling: the loop ends when a call delivers nothing, at the latest with
    nothing in flight. *)
Lemma wp_getevents_poll fuel n cpls x s (Q : Z * list completion -> sys LW -> Prop) :
  ring_ok (world s) x -> heap_wf s -> apart nb (lbd_inflight (world s)) ->
  lq_outstanding x <= Z.of_nat fuel -> 0 <= n -> n + lq_outstanding x < 2 ^ 31 ->
  (forall cmds l s', reaped (lba_dom dev) lbd_media nb lbd_inflight lbd_qok lbd_mem cmds l s s' ->
     (cmds = [] -> lbd_inflight (world s) <> [] -> (aio_lag (lbd_os (world s')) < aio_lag (lbd_os (world s)))%nat) ->
     Q (n + Z.of_nat (length cmds), cpls ++ l) s') ->
  wp (getevents_loop aio fuel q 0 d true n cpls) s Q.
Proof.
  revert n cpls x s. induction fuel as [|fuel IH]; intros n cpls x s Hx Hwf Hap Hf Hn0 Hn HQ;
    pose proof (ring_le _ _ Hx) as Hle; destruct (Z.eqb_spec (lq_outstanding x) 0) as [E0|E0].
  1, 3: apply (wp_getevents_idle _ _ _ _ _ x); [done|done|];
    rewrite <-(app_nil_r cpls), <-(Z.add_0_r n); apply (HQ [] []);
    [apply reaped_nil, queue_wf_none; [done|by exists x]|intros _ Hne; destruct Hne; by eapply inflight_idle].
  - lia.
  - apply (wp_getevents_round fuel 0 true n cpls x s); [done|done|done|lia|done| |].
    + intros s' Hr _ Hlag. rewrite <-(app_nil_r cpls), <-(Z.add_0_r n). by apply (HQ [] []).
    + intros done l s' x' Hx' Hpos Hout _ Hr. rewrite i32_id by (pose proof (ring_le _ _ Hx'); lia).
      pose proof Hr as ((Hwf' & _) & _ & Hp & _). pose proof (ring_le _ _ Hx') as Hle'.
      apply (IH _ _ x'); [done|done| |lia|lia|lia|].
      { pose proof (apart_perm _ _ _ Hp Hap) as Hap'. by apply apart_app in Hap' as [? _]. }
      intros cmds l' s2 Hr2 _. rewrite <-app_assoc.
      replace (n + Z.of_nat (length done) + Z.of_nat (length cmds))
        with (n + Z.of_nat (length ((acmd_of <$> done) ++ cmds))) by (rewrite length_app, length_fmap; lia).
      apply HQ.
      * eapply reaped_app; [done| |exact Hr|exact Hr2].
        intros c b Hc Hb. eapply inflight_dom; [exact Hx| |exact Hb]. rewrite Hp. apply elem_of_app. by left.
      * intros E. apply app_nil in E as [E _]. destruct done; [cbn in Hpos; lia|done].
Qed.

(** Waiting for all that is outstanding: one call delivers it. *)
Lemma wp_getevents_wait fuel x s (Q : Z * list completion -> sys LW -> Prop) :
  ring_ok (world s) x -> heap_wf s -> apart nb (lbd_inflight (world s)) -> (0 < fuel)%nat ->
  (forall cmds l s', reaped (lba_dom dev) lbd_media nb lbd_inflight lbd_qok lbd_mem cmds l s s' ->
     lbd_inflight (world s') = [] -> Q (Z.of_nat (length cmds), l) s') ->
  wp (getevents_loop aio fuel q (lq_outstanding x) d false 0 []) s Q.
Proof.
  intros Hx Hwf Hap Hf HQ. pose proof (ring_le _ _ Hx) as Hle. destruct (Z.eqb_spec (lq_outstanding x) 0) as [E0|E0].
  - apply (wp_getevents_idle _ _ _ _ _ x); [done|done|]. apply (HQ [] []); [apply reaped_nil, queue_wf_none; [done|by exists x]|].
    by eapply inflight_idle.
  - destruct fuel as [|fuel]; [lia|].
    apply (wp_getevents_round fuel _ false 0 [] x s); [done|done|done|lia|done| |].
    + intros s' _ Hmn _. specialize (Hmn eq_refl). lia.
    + intros done l s' x' Hx' Hpos Hout Hmn Hr. specialize (Hmn eq_refl). pose proof (ring_le _ _ Hx').
      assert (E1 : lq_outstanding x' = 0) by lia.
      apply (wp_getevents_idle _ _ _ _ _ x'); [done|done|]. rewrite Z.add_0_l, i32_id by lia.
      rewrite <-(length_fmap acmd_of done). apply HQ; [exact Hr|]. by eapply inflight_idle.
Qed.

(** ** Submission *)

(** The bytes of a run of sectors are the blocks from its device address. *)
Lemma scalar_iocb addr n data t : Forall (lba_dom dev) (run_addrs addr n) -> 0 < n <= 2 ^ 16 -> l_sectr addr + n <= 2 ^ 32 ->
  n * nb <= Z.of_nat (length data) ->
  let c := Iocb true (dev_fd dev) (Some data) (io_nbytes dev n) (off_t (nvm_addr_gen2off dev addr)) t in
  write_iocb dev c /\ forall p, acmd_of (p, c) = Acmd t (run_addrs addr n) data.
Proof.
  intros Hdm Hn Hs Hl c. destruct Hok as [[Hf Hnb] [Hw Enb] Hwd].
  pose proof (run_addrs_fits dev addr n (proj1 Hn) Hdm) as Hfit. pose proof (lba_bound _ _ Hf Hfit) as Hb.
  assert (Eo : off_t (nvm_addr_gen2off dev addr) = gen2dev addr * nb).
  { rewrite gen2off_exact, Enb by (done || lia). unfold off_t.
    assert (0 <= lba_width dev) by (destruct Hf; unfold field_ok, lba_width in *; lia).
    assert (2 ^ lba_width dev * 2 ^ ssw dev <= 2 ^ 63)
      by (rewrite <-Z.pow_add_r by lia; apply Z.pow_le_mono_r; lia).
    rewrite (proj2 (Z.ltb_lt _ _)) by nia. done. }
  assert (En : io_nbytes dev n = n * nb) by (unfold io_nbytes; rewrite wrap_id by nia; lia).
  pose proof (gen2dev_run dev (ld_ok _ Hok) addr n Hdm Hs) as Erun.
  assert (Hlast : gen2dev addr + n <= 2 ^ lba_width dev).
  { assert (Hin : gen2dev addr + (n - 1) ∈ run_from (gen2dev addr) n)
      by (apply list_elem_of_fmap_2, elem_of_seqZ; lia).
    rewrite <-Erun in Hin. apply list_elem_of_fmap in Hin as (y & Ey & Hy).
    rewrite Forall_forall in Hdm. pose proof (lba_bound _ _ Hf (proj2 (Hdm y Hy))). lia. }
  split.
  - unfold c. split; cbn; [done|by rewrite En|]. exists (gen2dev addr), n. repeat split; done || lia.
  - intros p. unfold acmd_of, c, iocb_blocks, iocb_bytes. cbn. rewrite Eo, En, !Z.div_mul, <-Erun by lia. f_equal.
    rewrite <-list_fmap_compose. rewrite <-(list_fmap_id (run_addrs addr n)) at 2. apply list_fmap_ext.
    intros i y Hi. cbn. rewrite Forall_lookup in Hdm. destruct (Hdm i y Hi). by apply dev2gen_gen2dev_lba.
Qed.

(** A refusal. *)
Lemma refused tok addrs data s e : heap_wf s -> lbd_qok (world s) ->
  (e = EAGAIN -> Z.of_nat (length (lbd_inflight (world s))) = d) ->
  submit_post (lba_dom dev) lbd_media lbd_inflight lbd_qok lbd_mem d tok addrs data s (-1) (Sys e (hp s) (world s)).
Proof. intros Hwf Hq He. split; [by apply queue_wf_none|]. split; [done|]. split; [done|]. by right. Qed.

Lemma wp_lbd_submit addr n data ret s (Q : Z -> sys LW -> Prop) : heap_wf s -> lbd_qok (world s) ->
  Forall (lba_dom dev) (run_addrs addr n) -> 0 < n <= 2 ^ 16 -> l_sectr addr + n <= 2 ^ 32 ->
  n * nb <= Z.of_nat (length data) ->
  (forall r s', submit_post (lba_dom dev) lbd_media lbd_inflight lbd_qok lbd_mem d (ret_async ret) (run_addrs addr n) data s r s' -> Q r s') ->
  wp (cmd_async_scalar_wr aio ret_ctx dev n (Some data) (off_t (nvm_addr_gen2off dev addr)) (Some ret) NVM_DOPC_SCALAR_WRITE) s Q.
Proof.
  intros Hwf Hq Hdm Hn Hs Hl HQ. pose proof Hq as [x Hx]. pose proof (ring_le _ _ Hx) as Hle.
  pose proof Hx as (X1 & X2 & X3 & X4 & X5 & X6 & X7). unfold cmd_async_scalar_wr. rewrite Hret.
  apply wp_bind, (wp_get_queue x); [done|]. rewrite X2. destruct (Z.eqb_spec (lq_outstanding x) d) as [Ef|Ef].
  - apply HQ, refused; [done|done|]. intros _. unfold lbd_inflight. rewrite length_fmap. lia.
  - destruct (lookup_lt_is_Some_2 (lq_iocbs x) (Z.to_nat (lq_outstanding x)) ltac:(lia)) as [p Hp].
    rewrite Hp. apply wp_bind. eapply wp_intro; [done|]. apply wp_bind, wp_put_queue.
    rewrite (drop_S _ _ _ Hp) in X6. cbn [Z.eqb orb NVM_DOPC_SCALAR_WRITE].
    destruct (Z.eqb_spec p 0) as [->|].
    { destruct Hcbs as [_ Hc]. rewrite <-X6 in Hc. by inversion Hc. }
    destruct (scalar_iocb addr n data (ret_async ret) Hdm Hn Hs Hl) as [Hw Ea].
    apply wp_bind. eapply wp_mono; [rewrite X3; apply submit_law; [done|exact Hw|cbn; unfold in_queue in X4; lia]|].
    intros r s' (-> & (Hwf' & Hlv & Hqs) & Hdk & Hqu). cbn in Hqs, Hdk, Hqu. apply wp_ret, HQ.
    rewrite (wrap_id 32) in Hqs by lia.
    assert (Eq : in_queue (world s') = in_queue (world s) ++ [(p, Iocb true (dev_fd dev) (Some data) (io_nbytes dev n)
      (off_t (nvm_addr_gen2off dev addr)) (ret_async ret))]) by exact Hqu.
    split; [apply queue_wf_none; [done|]|split; [unfold rest, live in *; by rewrite Hlv|split]].
    + exists (lq_set (lq_outstanding x + 1) (lq_iocbs x) x). split; [by rewrite Hqs, lookup_insert_eq|].
      split; [done|]. split; [done|]. cbn. rewrite Eq, length_app. cbn. split; [lia|]. split; [done|]. split.
      * replace (Z.to_nat (lq_outstanding x + 1)) with (S (Z.to_nat (lq_outstanding x))) by lia.
        rewrite <-X6, fmap_app. cbn. solve_Permutation.
      * apply Forall_app. split; [done|]. by constructor.
    + intros b Hb. unfold lbd_media. by rewrite Hdk.
    + left. split; [done|]. unfold lbd_inflight. rewrite Eq, fmap_app. cbn [fmap list_fmap]. by rewrite Ea.
Qed.

#[export] Program Instance lbd_async_queue : AsyncQueue (nvm_be_lbd k aio spdk ret_ctx) dev q d :=
  {| adom := lba_dom dev; amedia := lbd_media; inflight := lbd_inflight; qok := lbd_qok; qmem := lbd_mem;
     qflags := fun flags => Z.land flags NVM_CMD_ASYNC <> 0; qvector := fun _ => True;
     lag := fun w => aio_lag (lbd_os w); lag_max := aio_lag_max |}.
Next Obligation. done. Qed.
Next Obligation. intros w. apply aio_lag_le. Qed.
Next Obligation.
  intros addrs data meta flags ret s (Hwf & Hq & _) Has Hdm Hnd Hn _ Hl Hap. cbn in *.
  unfold nvm_be_ioctl_vector_write, cmd_vector_ewr, is_async. rewrite (proj2 (Z.eqb_neq _ 0)) by done.
  apply wp_bind. eapply wp_intro; [done|]. apply wp_ret. by apply refused.
Qed.
Next Obligation.
  intros addr n data meta flags ret s (Hwf & Hq & _) Has Hdm Hn Hs Hl Hap. cbn in *. unfold nvm_be_lbd_scalar_write, is_async.
  destruct meta as [m|]; cbn [is_some]; [eapply wp_intro; [done|]; by apply refused|].
  rewrite (proj2 (Z.eqb_neq _ 0)) by done. cbn [negb]. by apply wp_bind, wp_lbd_submit.
Qed.
Next Obligation.
  intros ctx s Eq Ed (Hwf & [x Hx] & _) Hap. cbn. unfold nvm_be_lbd_async_poke, cmd_async_getevents. rewrite Eq.
  pose proof (ring_le _ _ Hx) as Hle. pose proof Hx as (X1 & X2 & _).
  do 2 (apply wp_bind, (wp_get_queue x); [done|]). rewrite X2. cbn [Z.eqb]. apply wp_bind.
  apply (wp_getevents_poll _ 0 [] x); [done|done|done|lia|lia|lia|]. intros cmds l s' Hr Hlag.
  pose proof Hr as ((_ & [x' Hx'] & _) & _). apply wp_bind, (wp_get_queue x'); [apply Hx'|]. apply wp_ret.
  split; [done|]. split; [apply Hx'|]. exists cmds. split; [exact Hr|]. split; [left; lia|].
  intros E. apply Hlag. by apply nil_length_inv, Nat2Z.inj.
Qed.
Next Obligation.
  intros ctx s Eq Ed (Hwf & [x Hx] & _) Hap. cbn. unfold nvm_be_lbd_async_wait, cmd_async_getevents. rewrite Eq.
  pose proof Hx as (X1 & X2 & _). do 2 (apply wp_bind, (wp_get_queue x); [done|]). rewrite X2. apply wp_bind.
  apply (wp_getevents_wait _ x); [done|done|done|lia|]. intros cmds l s' Hr Hi.
  pose proof Hr as ((_ & [x' Hx'] & _) & _). apply wp_bind, (wp_get_queue x'); [apply Hx'|]. apply wp_ret.
  split; [done|]. split; [apply Hx'|]. exists cmds. split; [exact Hr|]. by left.
Qed.
End ring.

(** ** Properties *)

(** An idle context [q] of the backend, with all its control blocks. *)
Record lbd_idle {W} (aio : libaio (lbd_world W)) (dev : nvm_dev) (a d : Z) `{!AioDisk aio dev a d}
    (q : Z) (x : lbd_queue) (w : lbd_world W) : Prop := {
  li_queue : lbd_queues w !! q = Some x /\ lq_depth x = d /\ lq_aio x = a /\ lq_outstanding x = 0;
  li_iocbs : Z.of_nat (length (lq_iocbs x)) = d /\ Forall (fun p => p <> 0) (lq_iocbs x);
  li_empty : queued (lbd_os w) = [] }.

(** C8: an asynchronous write through the block-device backend ends, and lands
    at the beginning of the block. Over a disk without faults and a queue of depth
    2 or more, an asynchronous write of whole write units inside a 2.0 virtual
    block in scalar mode, from offset 0 or from any later row (a write unit of
    every chunk), ends after finitely many pokes. When it answers [count], block
    [gen2dev] of linear sector [i], counted from the beginning of the virtual
    block whatever the offset, holds sector [i] of the caller's buffer: at offset
    0 that is the range asked for, at a later row it is not (see
    [VblkAsync.async_pwrite_forgets_row]). No other block of the disk has changed,
    nothing is left in flight, every result structure is back on the stack and
    every control block back on the ring. Otherwise it answers -1 with [EIO] or
    [ENOMEM] and has changed no other block. *)
Theorem lbd_async_write {W} (k : kernel (lbd_world W)) (aio : libaio (lbd_world W)) (spdk : spdk_env (lbd_world W))
    (ret_ctx : Z -> Z) (dev : nvm_dev) (q a d : Z) {AD : AioDisk aio dev a d}
    (Hok : lbd_dev_ok dev) (Hbe : be_id dev = NVM_BE_LBD) (Hret : forall t, ret_ctx t = q) (Hd : 2 <= d < 2 ^ 31)
    (v : nvm_vblk) (ws : Z) (Hv : vblk20_ok dev v ws) (Hdom : on_device dev v ws (lba_dom dev))
    (Hmode : vblk_mode dev v = NVM_CMD_SCALAR) (Hasync : Z.land (vflags v) NVM_CMD_ASYNC <> 0)
    (buf : mem) (count offset : Z) (s : sys (lbd_world W)) (Hwf : heap_wf s)
    (x : lbd_queue) (Hx : lbd_idle aio dev a d q x (world s))
    (Hctx : exists ctx, async_ctx v = Some ctx /\ be_ctx ctx = q /\ depth ctx = d)
    (Hrets : Z.of_nat (length (rets v)) = d /\ Forall (fun t => t <> 0) (rets v) /\ retsp v = 0)
    (Hc : 0 <= count) (Hr : request_ok dev v ws buf count offset) (Hrow : (nblks v * ws | offset / nbytes (geo dev)))
    (Hn : count / nbytes (geo dev) < 2 ^ 31) :
  let n := count / nbytes (geo dev) in
  let block i := nvm_addr_gen2dev dev (lin20 v ws i) in
  exists polls, forall fuel, (polls <= fuel)%nat ->
  wp (vblk_async_pwrite_s20 spdk (nvm_be_lbd k aio spdk ret_ctx) dev fuel v buf count offset) s (fun '(r, v') s' =>
    live s' = live s /\
    (forall b, 0 <= b < 2 ^ lba_width dev -> (forall i, 0 <= i < n -> b <> block i) ->
       disk (lbd_os (world s')) b = disk (lbd_os (world s)) b) /\
    (r = count /\ (forall i, 0 <= i < n -> disk (lbd_os (world s')) (block i) = request_src dev ws buf count i) /\
       queued (lbd_os (world s')) = [] /\ retsp v' = 0 /\ rets v' ≡ₚ rets v /\
       (exists x', lbd_queues (world s') !! q = Some x' /\ lq_outstanding x' = 0 /\ lq_iocbs x' ≡ₚ lq_iocbs x) \/
     r = -1 /\ (errno s' = EIO \/ errno s' = ENOMEM))).
Proof.
  intros n block. destruct Hx as [(X1 & X2 & X3 & X4) [X5 X6] X7]. destruct Hrets as (R1 & R2 & R3).
  pose (I := lbd_async_queue k aio spdk ret_ctx dev q a d Hok Hret (proj2 Hd) (lq_iocbs x) (conj X5 X6)).
  assert (Hq : qok (world s)).
  { exists x. split; [done|]. split; [done|]. split; [done|]. unfold in_queue. rewrite X4, X7. split; [done|].
    split; [done|]. split; [cbn; by rewrite drop_0, app_nil_r|done]. }
  assert (Hready : async_ready (nvm_be_lbd k aio spdk ret_ctx) dev q d v s).
  { split; [done|done|done|exact Hq|]. split; [done|]. cbn. unfold lbd_inflight, in_queue. by rewrite X7. }
  exists (aio_lag_max + Z.to_nat d)%nat. intros fuel Hf. pose proof (vo_nb _ _ _ Hv) as Hnb.
  pose proof (rq_bound _ _ _ _ _ _ Hr). pose proof (rq_count _ _ _ _ _ _ Hr). destruct (lin_size_range dev v ws Hv) as (_ & Hls & _).
  apply (wp_async_pwrite (AsyncQueue0 := I) spdk _ dev q d v ws Hv Hdom (or_intror Hmode) Hasync); try done; try (cbn; lia).
  { apply virt_alloc_ok. by right. }
  intros r v' s' (_ & [x' Hx'] & _) Hl Hfr Hres. split; [rewrite <-Hl; symmetry; apply difference_empty_L|]. split.
  - intros b Hb Hne. destruct (dev2gen_dom dev (ld_ok _ Hok) b Hb) as [Hdm E].
    rewrite <-E. apply (Hfr _ Hdm). intros (i & Hi & Ea)%lin_run_elem. apply (Hne i Hi). unfold block. by rewrite <-E, Ea.
  - destruct Hres as [(-> & Hdata & _ & Hi & H1 & H2)|?]; [left|by right].
    apply fmap_nil_inv in Hi. split; [done|]. split; [done|]. split; [done|]. split; [done|]. split; [done|].
    exists x'. destruct Hx' as (Y1 & _ & _ & Y4 & _ & Y6 & _). rewrite Hi in Y4, Y6. split; [done|]. split; [done|].
    rewrite Y4 in Y6. cbn in Y6. by rewrite drop_0, app_nil_r in Y6.
Qed.

(** C39: a submission libaio refuses is not taken back. When [io_submit] fails,
    the command is answered with -1 and its error, but stays counted as
    outstanding with its control block off the ring; a wait for the context's
    commands then asks for one event more than there are transfers, and never
    returns. *)
Theorem lbd_failed_submit {W} (aio : libaio (lbd_world W)) (ret_ctx : Z -> Z) (dev : nvm_dev) (q : Z)
    (queued : W -> list (Z * iocb)) (x : lbd_queue) (n e : Z) (data : mem) (off : Z) (ret : nvm_ret) (opcode : Z)
    (s : sys (lbd_world W))
    (Hblock : forall mn mx s, Z.of_nat (length (queued (lbd_os (world s)))) < mn ->
       io_getevents aio (lq_aio x) mn mx false s = None)
    (Hfail : forall p c s, io_submit aio (lq_aio x) p c s = Some (- e, s)) (He : 0 < e < 2 ^ 31)
    (Hop : opcode = NVM_DOPC_SCALAR_WRITE \/ opcode = NVM_DOPC_SCALAR_READ)
    (Hret : ret_ctx (ret_async ret) = q) (Hx : lbd_queues (world s) !! q = Some x)
    (Hout : lq_outstanding x = Z.of_nat (length (queued (lbd_os (world s)))))
    (Hroom : lq_outstanding x < lq_depth x < 2 ^ 32)
    (Hring : Z.of_nat (length (lq_iocbs x)) = lq_depth x /\ Forall (fun p => p <> 0) (lq_iocbs x)) :
  wp (cmd_async_scalar_wr aio ret_ctx dev n data off (Some ret) opcode) s (fun r s' =>
    r = -1 /\ errno s' = e /\ lbd_os (world s') = lbd_os (world s) /\
    (exists x', lbd_queues (world s') !! q = Some x' /\ lq_outstanding x' = lq_outstanding x + 1) /\
    forall ctx, be_ctx ctx = q -> nvm_be_lbd_async_wait aio dev ctx s' = None).
Proof.
  destruct Hring as [R1 R2]. unfold cmd_async_scalar_wr. rewrite Hret.
  apply wp_bind, (wp_get_queue q x); [done|]. rewrite (proj2 (Z.eqb_neq _ _)) by lia.
  destruct (lookup_lt_is_Some_2 (lq_iocbs x) (Z.to_nat (lq_outstanding x)) ltac:(lia)) as [p Hp].
  rewrite Hp. apply wp_bind. eapply wp_intro; [done|]. apply wp_bind, wp_put_queue.
  assert (E : ((opcode =? NVM_DOPC_SCALAR_WRITE) || (opcode =? NVM_DOPC_SCALAR_READ))%bool = true)
    by (by destruct Hop as [-> | ->]).
  rewrite E. rewrite Forall_lookup in R2. rewrite (proj2 (Z.eqb_neq p 0)) by (by eapply R2).
  apply wp_bind. eapply wp_intro; [apply Hfail|]. rewrite (proj2 (Z.ltb_lt _ _)) by lia.
  eapply wp_intro; [done|]. split; [done|]. split; [cbn; rewrite Z.opp_involutive; apply i32_id; lia|].
  split; [done|]. rewrite (wrap_id 32) by lia. set (x1 := lq_set _ _ x).
  assert (E1 : <[q := x1]> (lbd_queues (world s)) !! q = Some x1) by apply lookup_insert_eq.
  split; [by exists x1|]. intros ctx Ec. unfold nvm_be_lbd_async_wait, cmd_async_getevents. rewrite Ec.
  match goal with |- _ ?t = None => pose proof (get_queue_run q x1 t E1) as G end.
  do 2 rewrite (bind_run _ _ _ _ _ G). apply bind_diverge. cbn [getevents_loop].
  rewrite (bind_run _ _ _ _ _ G), (proj2 (Z.eqb_neq _ 0)) by (cbn; lia).
  apply bind_diverge, Hblock. cbn. lia.
Qed.

(** ** A disk in memory *)

(** With a timeout, every second call delivers the oldest transfer; without,
    a call delivers all of them, or waits for ever. *)
Record ramd := RamD { rd_ram : gmap Z (list Z); rd_queue : list (Z * iocb); rd_busy : bool }.

Section ramd.
Context (dev : nvm_dev) (d : Z).
#[local] Abbreviation nb := (nbytes (geo dev)).

Definition xfer_cmd (y : Z * iocb) : acmd := Acmd (ib_data y.2) (iocb_blocks nb y.2) (iocb_bytes y.2).

Definition set_os (w : ramd) : M (lbd_world ramd) unit := modify_world (fun lw => LbdWorld (lbd_queues lw) w).

Definition ramd_submit (p : Z) (c : iocb) : M (lbd_world ramd) Z :=
  lw ← get_world;
  let w := lbd_os lw in
  if Z.of_nat (length (rd_queue w)) <? d
  then _ ← set_os (RamD (rd_ram w) (rd_queue w ++ [(p, c)]) true); mret 1
  else mret (- EAGAIN).

Definition ramd_getevents (mn : Z) (timeout : bool) : M (lbd_world ramd) (Z * list io_event) :=
  lw ← get_world;
  let w := lbd_os lw in
  if timeout && rd_busy w then _ ← set_os (RamD (rd_ram w) (rd_queue w) false); mret (0, [])
  else if negb timeout && (Z.of_nat (length (rd_queue w)) <? mn) then crash
  else
    let done := take (if timeout then 1%nat else length (rd_queue w)) (rd_queue w) in
    let rest := drop (if timeout then 1%nat else length (rd_queue w)) (rd_queue w) in
    _ ← set_os (RamD (ramq_store dev (xfer_cmd <$> done) (rd_ram w)) rest true);
    mret (Z.of_nat (length done), (fun y => IoEvent y.1 (ib_data y.2) 0) <$> done).

Definition ramd_aio : libaio (lbd_world ramd) :=
  LibAio _ (fun _ => mret (0, 77)) (fun _ => mret 0) (fun _ => ramd_submit)
    (fun _ mn _ timeout => ramd_getevents mn timeout).

Lemma xfers_cmd_apart l : 0 < nb -> xfers_apart nb l -> Forall (fun y => write_iocb dev y.2) l ->
  VblkAsync.apart nb (xfer_cmd <$> l).
Proof.
  intros Hnb Ha Hw. split.
  - intros i c Hc. rewrite list_lookup_fmap in Hc. destruct (l !! i) as [y|] eqn:Hy; [|done]. injection Hc as <-.
    rewrite Forall_lookup in Hw. destruct (Hw _ _ Hy) as [_ [_ Hl] (b & n & E1 & E2 & H1 & H2 & H3)].
    cbn. unfold iocb_blocks. split; [apply run_from_NoDup|]. rewrite run_from_len by (rewrite E2, Z.div_mul; lia).
    rewrite E2, Z.div_mul in * by lia. lia.
  - intros i j c c' b Hc Hc' Hb Hb'. rewrite list_lookup_fmap in Hc, Hc'.
    destruct (l !! i) as [y|] eqn:Hy; [|done]. destruct (l !! j) as [z|] eqn:Hz; [|done].
    injection Hc as <-. injection Hc' as <-. by eapply Ha.
Qed.

Lemma ramd_stored l w x j b : 0 < nb -> VblkAsync.apart nb (xfer_cmd <$> l) -> x ∈ l -> iocb_blocks nb x.2 !! j = Some b ->
  ram_sector dev (ramq_store dev (xfer_cmd <$> l) w) b = sector nb (iocb_bytes x.2) (Z.of_nat j).
Proof.
  intros Hnb Hap [i Hi]%list_elem_of_lookup Hj. unfold ram_sector.
  assert (Hc : (xfer_cmd <$> l) !! i = Some (xfer_cmd x)) by (by rewrite list_lookup_fmap, Hi).
  rewrite (ramq_store_at dev _ _ _ _ j b ltac:(lia) Hap Hc Hj). destruct (ap_cmd _ _ Hap _ _ Hc) as [_ Hl].
  pose proof (lookup_lt_Some _ _ _ Hj). cbn in Hl. apply take_app_length'. cbn. rewrite sector_len; nia.
Qed.

Lemma xfers_apart_take n l : xfers_apart nb l -> xfers_apart nb (take n l).
Proof. intros H i j x y b [Hi _]%lookup_take_Some [Hj _]%lookup_take_Some. by eapply H. Qed.

Lemma ramd_transferred n w : 0 < nb -> xfers_apart nb (rd_queue w) -> Forall (fun y => write_iocb dev y.2) (rd_queue w) ->
  let done := take n (rd_queue w) in
  transferred (fun w => ram_sector dev (rd_ram w)) rd_queue nb done ((fun y => IoEvent y.1 (ib_data y.2) 0) <$> done) w
    (RamD (ramq_store dev (xfer_cmd <$> done) (rd_ram w)) (drop n (rd_queue w)) true).
Proof.
  intros Hnb Ha Hw done. assert (Hap : VblkAsync.apart nb (xfer_cmd <$> done)).
  { apply xfers_cmd_apart; [done|by apply xfers_apart_take|by apply Forall_take]. }
  split; [cbn; unfold done; by rewrite take_drop|]. split; [by rewrite <-list_fmap_compose|].
  split; [by rewrite <-list_fmap_compose|]. split.
  - intros b Hn. cbn. unfold ram_sector. rewrite ramq_store_other; [done|].
    intros c (y & -> & Hy)%list_elem_of_fmap. by apply Hn.
  - intros x j b Hx Hj. cbn. by apply ramd_stored.
Qed.
End ramd.

#[export] Program Instance ramd_disk dev a d (Hnb : TCEq (0 <? nbytes (geo dev)) true) :
  AioDisk (ramd_aio dev d) dev a d :=
  {| disk := fun w => ram_sector dev (rd_ram w); queued := rd_queue;
     aio_lag := fun w => if rd_busy w then 1%nat else 0%nat; aio_lag_max := 1 |}.
Next Obligation. intros dev a d _ w. cbn. destruct (rd_busy w); lia. Qed.
Next Obligation.
  intros dev a d _ p c s Hwf Hw Hlt. cbn. unfold ramd_submit. apply wp_bind. eapply wp_intro; [done|]. cbn in Hlt |- *.
  rewrite (proj2 (Z.ltb_lt _ _)) by done. apply wp_bind. eapply wp_intro; [done|]. by apply wp_ret.
Qed.
Next Obligation.
  intros dev a d Hnb mn mx timeout s Hwf Ha Hw Hmn Hmx. apply TCEq_eq, Z.ltb_lt in Hnb. cbn in *.
  unfold ramd_getevents. apply wp_bind. eapply wp_intro; [done|].
  pose proof (ramd_transferred dev (if timeout then 1%nat else length (rd_queue (lbd_os (world s)))) (lbd_os (world s)) Hnb Ha Hw) as Ht.
  cbn zeta in Ht. destruct timeout; cbn [andb negb].
  - destruct (rd_busy (lbd_os (world s))) eqn:Eb; apply wp_bind; (eapply wp_intro; [done|]); apply wp_ret.
    + split; [done|]. exists []. split; [by split; [|split; [|split; [|split; [|intros ??? ?%not_elem_of_nil]]]]|].
      split; [done|]. split; [done|]. intros _ _. cbn. lia.
    + split; [done|]. eexists. split; [exact Ht|]. split; [done|]. split; [done|].
      intros E Hne. by destruct (rd_queue (lbd_os (world s))).
  - rewrite (proj2 (Z.ltb_ge _ _)) by lia. apply wp_bind. eapply wp_intro; [done|]. apply wp_ret.
    split; [done|]. eexists. split; [exact Ht|]. split; [done|]. rewrite firstn_all. split; [lia|].
    intros E Hne. by rewrite E in Hne.
Qed.

(** ** Witnesses *)

(** The sample device as a block device, its sectors of 2 bytes. *)
Definition tiny_lbd : nvm_dev := with_be_id NVM_BE_LBD (with_ssw 1 tiny20).

#[export] Instance tiny_disk : AioDisk (ramd_aio tiny_lbd 3) tiny_lbd 77 3 := ramd_disk tiny_lbd 77 3 (TCEq_refl _).

Definition tiny_ring : lbd_queue := LbdQueue 3 0 8 77 9 10 [201; 202; 203].

Definition tiny_lbd_world : lbd_world ramd := LbdWorld {[ 11 := tiny_ring ]} (RamD ∅ [] true).

(** The two chunks of [tiny_async], in scalar mode. *)
Definition tiny_lbd_vblk : nvm_vblk :=
  with_vflags (Z.lor NVM_CMD_ASYNC (Z.lor NVM_CMD_SCALAR NVM_CMD_PRP)) tiny_async.

(** The kernel is not called. *)
Definition no_kernel {W} : kernel W :=
  Kernel W (fun _ _ => crash) (fun _ => crash) (fun _ => crash) (fun _ => crash) (fun _ _ => crash) (fun _ _ => crash)
    (fun _ _ => crash) (fun _ _ => crash) (fun _ _ => crash) (fun _ _ _ => crash) (fun _ _ _ _ => crash) (fun _ _ _ _ => crash).

Lemma tiny_lbd_ok : lbd_dev_ok tiny_lbd.
Proof. split; [|by split|by vm_compute]. split; [|by split]. split; try done; vm_compute; intuition congruence. Qed.

Lemma tiny_lbd_vblk_ok : vblk20_ok tiny_lbd tiny_lbd_vblk 2.
Proof. split; try done; [by eapply members_ext, tiny_members|by exists 4]. Qed.

Lemma tiny_lbd_dom : on_device tiny_lbd tiny_lbd_vblk 2 (lba_dom tiny_lbd).
Proof. intros x Hx. apply (tiny_lba_dom x Hx). Qed.

Lemma tiny_lbd_idle : lbd_idle (ramd_aio tiny_lbd 3) tiny_lbd 77 3 11 tiny_ring tiny_lbd_world.
Proof. split; [done|split; [done|by repeat constructor]|done]. Qed.

(** Three units in a ring of three control blocks. *)
Lemma lbd_async_write_witness :
  let s := Sys 0 (sample_heap 9) tiny_lbd_world in
  let be := nvm_be_lbd no_kernel (ramd_aio tiny_lbd 3) spdk_stub (fun _ => 11) in
  exists polls, forall fuel, (polls <= fuel)%nat ->
  wp (vblk_async_pwrite_s20 spdk_stub be tiny_lbd fuel tiny_lbd_vblk (Some tiny_data) 12 0) s
    (fun '(r, v') s' => r = 12 ->
       ram_sector tiny_lbd (rd_ram (lbd_os (world s'))) (nvm_addr_gen2dev tiny_lbd (lin20 tiny_vblk 2 5)) = [20; 21] /\
       (exists x', lbd_queues (world s') !! 11 = Some x' /\ lq_iocbs x' ≡ₚ [201; 202; 203])).
Proof.
  intros s be. destruct (lbd_async_write no_kernel (ramd_aio tiny_lbd 3) spdk_stub (fun _ => 11) tiny_lbd 11 77 3
    tiny_lbd_ok eq_refl (fun _ => eq_refl) ltac:(done) tiny_lbd_vblk 2 tiny_lbd_vblk_ok tiny_lbd_dom
    eq_refl ltac:(done) (Some tiny_data) 12 0 s (sample_heap_wf _ _ _) tiny_ring tiny_lbd_idle
    ltac:(by exists (AsyncCtx 3 0 11)) ltac:(split; [done|split; [by repeat constructor|done]]) ltac:(done)) as [polls C].
  { split; try done; [by exists 3|by exists 0]. }
  { by exists 0. }
  { done. }
  exists polls. intros fuel Hf. eapply wp_mono; [by apply C|]. intros [r v'] s' (_ & _ & Hres) Er.
  destruct Hres as [(_ & Hd & _ & _ & _ & x' & E1 & _ & E2)|[E _]]; [|by rewrite E in Er].
  split; [exact (Hd 5 ltac:(by split))|by exists x'].
Defined.

(** A library that has no room. *)
Lemma lbd_failed_submit_witness :
  let aio := LibAio (lbd_world ramd) (fun _ => mret (0, 77)) (fun _ => mret 0) (fun _ _ _ => mret (- EAGAIN))
    (fun _ mn _ timeout => ramd_getevents tiny_lbd mn timeout) in
  let s := Sys 0 (sample_heap 9) tiny_lbd_world in
  wp (cmd_async_scalar_wr aio (fun _ => 11) tiny_lbd 1 (Some [1; 2]) 0 (Some (Ret 0 0 101)) NVM_DOPC_SCALAR_WRITE) s
    (fun r s' => r = -1 /\ errno s' = EAGAIN /\ nvm_be_lbd_async_wait aio tiny_lbd (AsyncCtx 3 0 11) s' = None).
Proof.
  intros aio s.
  assert (Hblock : forall (mn mx : Z) s', Z.of_nat (length (rd_queue (lbd_os (world s')))) < mn ->
    io_getevents aio (lq_aio tiny_ring) mn mx false s' = None).
  { intros mn mx s' H. unfold aio, ramd_getevents. cbn [io_getevents]. rewrite (bind_run _ _ _ _ _ eq_refl).
    cbn [andb negb]. by rewrite (proj2 (Z.ltb_lt _ _) H). }
  eapply wp_mono; [apply (lbd_failed_submit aio (fun _ => 11) tiny_lbd 11 rd_queue tiny_ring 1 EAGAIN (Some [1; 2]) 0
    (Ret 0 0 101) NVM_DOPC_SCALAR_WRITE s Hblock (fun _ _ _ => eq_refl) ltac:(done) (or_introl eq_refl) eq_refl
    eq_refl eq_refl ltac:(done) ltac:(split; [done|by repeat constructor]))|].
  intros r s' (-> & He & _ & _ & Hw). split; [done|]. split; [done|]. by apply Hw.
Defined.
