(* ===== verification/SpdkAsync.v ===== *)
(** Asynchronous I/O on the SPDK backend: over a controller that executes the
    writes in flight on a queue pair, the contexts of the backend, with a wrap
    in memory for each command, implement the queue of commands of
    [VblkAsync]. *)
From stdpp Require Import base numbers strings gmap option list.
From S2P Require Import Prelude Types Nvme Addr Dev Backend Buf Be Cmd Wrap Spdk Vblk Stripe Media Linear VblkIO.
From S2P Require Import VblkAsync DevMedia WrapSpec SpdkSpec.

(** ** The controller *)

(** The fields of a completion's status in their widths. *)
Definition status_ok (e : cpl_event) : Prop :=
  let st := status (ce_cpl e) in 0 <= sc st < 2 ^ 8 /\ 0 <= sct st < 2 ^ 3 /\ 0 <= st_m st < 2 /\ 0 <= dnr st < 2.

(** The events of the commands [done], whose data is in the sectors unless
    there was an error. *)
Definition executed {W} (media : W -> Z -> list Z) (nb : Z) (done : list acmd) (events : list cpl_event) (w w' : W) : Prop :=
  ce_arg <$> events = a_token <$> done /\ Forall status_ok events /\
  (forall d, (forall c, c ∈ done -> d ∉ a_addrs c) -> media w' d = media w d) /\
  (forall i e c, events !! i = Some e -> done !! i = Some c -> cpl_ok e ->
     forall j d, a_addrs c !! j = Some d -> media w' d = sector nb (a_data c) (Z.of_nat j)).

(** A call of the library leaves the heap and the backend's own state alone. *)
Definition lib_keeps {W} (s s' : sys (spdk_world W)) : Prop :=
  heap_wf s' /\ live s' = live s /\ world s' = with_os (sw_os (world s')) (world s).

(** What is relied on for the queue pair [q] of depth [d] of the controller
    [ctrlr]: writes of sectors not already being written are accepted up to the
    depth; a call that processes completions delivers those of some commands in
    flight, in any order, and calls that deliver nothing cannot go on for
    ever. [a_token] is the argument of the callback, [a_addrs] are device
    addresses. *)
Class NvmeQueue {W} (spdk : spdk_env (spdk_world W)) (lib : spdk_nvme (spdk_world W)) (dev : nvm_dev) (ctrlr q d : Z) := {
  nq_media : W -> Z -> list Z;
  nq_cmds : W -> list acmd;
  nq_lag : W -> nat;
  nq_lag_max : nat;
  nq_lag_le w : (nq_lag w <= nq_lag_max)%nat;
  nq_submit_law cmd dmas l data meta p (s : sys (spdk_world W)) :
    heap_wf s -> cmd_nsid cmd = u32 (dev_nsid dev) -> io_decode spdk cmd dmas = Some (true, l) ->
    0 < Z.of_nat (length l) -> NoDup l -> Z.of_nat (length l) * nbytes (geo dev) <= Z.of_nat (length data) ->
    (forall c b, c ∈ nq_cmds (sw_os (world s)) -> b ∈ l -> b ∉ a_addrs c) ->
    Z.of_nat (length (nq_cmds (sw_os (world s)))) < d ->
    wp (spdk_nvme_ctrlr_cmd_io_raw_with_md lib ctrlr q cmd dmas (KMem (Some data))
          (Z.of_nat (length l) * nbytes (geo dev)) meta p) s (fun err s' =>
      err = 0 /\ lib_keeps s s' /\ nq_media (sw_os (world s')) = nq_media (sw_os (world s)) /\
      nq_cmds (sw_os (world s')) = nq_cmds (sw_os (world s)) ++ [Acmd p l data]);
  nq_process_law (s : sys (spdk_world W)) : heap_wf s -> apart (nbytes (geo dev)) (nq_cmds (sw_os (world s))) ->
    wp (spdk_nvme_qpair_process_completions lib q 0) s (fun '(res, events) s' => lib_keeps s s' /\
      exists done, executed nq_media (nbytes (geo dev)) done events (sw_os (world s)) (sw_os (world s')) /\
        nq_cmds (sw_os (world s)) ≡ₚ done ++ nq_cmds (sw_os (world s')) /\
        (res = Z.of_nat (length done) \/ res < 0) /\
        (done = [] -> nq_cmds (sw_os (world s)) <> [] ->
           (nq_lag (sw_os (world s')) < nq_lag (sw_os (world s)))%nat)) }.

(** A status word of 0 is a success. *)
Lemma status_word_0 e : status_ok e -> status_word (status (ce_cpl e)) = 0 -> cpl_ok e.
Proof.
  intros (H1 & H2 & H3 & H4). unfold status_word, cpl_ok.
  assert (R : 0 <= Z.lor (sc (status (ce_cpl e))) (Z.lor (Z.shiftl (sct (status (ce_cpl e))) 8)
    (Z.lor (Z.shiftl (st_m (status (ce_cpl e))) 13) (Z.shiftl (dnr (status (ce_cpl e))) 14))) < 2 ^ 16).
  { rewrite !Z.shiftl_mul_pow2 by lia. repeat apply lor_range; lia. }
  rewrite wrap_id by exact R. intros [E1 [E2 _]%Z.lor_eq_0_iff]%Z.lor_eq_0_iff.
  apply Z.shiftl_eq_0_iff in E2; [|lia]. done.
Qed.

(** ** Blocks held for commands *)

Section held.
Context {W : Type}.
Implicit Types s : sys W.

(** The non-null blocks. *)
Definition blocks_set (ps : list Z) : gset Z := list_to_set (filter (fun p => p <> 0) ps).

(** Blocks that are live and apart are owned on top of the others. *)
Lemma owns_rest ps s : heap_wf s -> NoDup (filter (fun p => p <> 0) ps) -> blocks_set ps ⊆ live s ->
  owns (live s ∖ blocks_set ps) ps s.
Proof.
  intros Hwf Hnd Hs. split; [done| |].
  - intros p Hp [Hl Hn]%elem_of_difference. destruct (decide (p = 0)) as [->|Hne]; [by apply (live_not_0 s Hwf)|].
    apply Hn, elem_of_list_to_set, list_elem_of_filter. by split.
  - by apply union_difference_L.
Qed.

Lemma owns_rest_inv L ps s : owns L ps s ->
  NoDup (filter (fun p => p <> 0) ps) /\ blocks_set ps ⊆ live s /\ live s ∖ blocks_set ps = L.
Proof.
  intros [H1 H2 H3]. split; [done|]. rewrite H3. fold (blocks_set ps). split; [set_solver +|].
  assert (blocks_set ps ## L); [|set_solver].
  intros p [_ Hp]%elem_of_list_to_set%list_elem_of_filter. by apply H2.
Qed.

Lemma owns_app L ps qs s s' : owns L ps s -> owns (live s) qs s' -> owns L (ps ++ qs) s'.
Proof.
  intros [A1 A2 A3] [B1 B2 B3]. split.
  - rewrite filter_app. apply NoDup_app. split; [done|]. split; [|done].
    intros p Hp [_ Hq]%list_elem_of_filter. apply (B2 p Hq). rewrite A3.
    apply elem_of_union_l. by apply elem_of_list_to_set.
  - intros p [Hp|Hp]%elem_of_app; [by apply A2|]. intros HL. apply (B2 p Hp). rewrite A3. by apply elem_of_union_r.
  - rewrite B3, A3, filter_app, list_to_set_app_L. set_solver +.
Qed.

Lemma owns_split L ps qs s : owns L (ps ++ qs) s -> owns (blocks_set qs ∪ L) ps s.
Proof.
  intros [A1 A2 A3]. rewrite filter_app in A1, A3. apply NoDup_app in A1 as (N1 & N2 & N3). split; [done| |].
  - intros p Hp [Hq|HL]%elem_of_union; [|by apply (A2 p); [apply elem_of_app; left|]].
    apply elem_of_list_to_set in Hq. apply (N2 p); [|done]. apply list_elem_of_filter in Hq as [H0 _].
    by apply list_elem_of_filter.
  - rewrite A3, list_to_set_app_L. unfold blocks_set. set_solver +.
Qed.

(** Releasing the first of them. *)
Lemma owns_release L ps qs s s' : owns L (ps ++ qs) s -> live s' = blocks_set qs ∪ L -> owns L qs s'.
Proof.
  intros [A1 A2 A3] E. rewrite filter_app in A1. apply NoDup_app in A1 as (N1 & N2 & N3). split; [done| |done].
  intros p Hp. apply A2, elem_of_app. by right.
Qed.
End held.

(** ** Commands and their wraps *)

Section wraps.
Context {W : Type}.
#[local] Abbreviation SW := (spdk_world W).
Implicit Types (w : SW) (c : acmd).

(** The blocks of the wrap of a command in flight, and the result structure of
    the command. *)
Definition cmd_blocks w c : list Z :=
  match sw_wraps w !! a_token c with Some x => wrap_blocks (a_token c) x | None => [] end.
Definition cmd_token w c : Z :=
  match sw_wraps w !! a_token c with Some x => match w_ret x with Some r => ret_async r | None => 0 end | None => 0 end.

Definition cmds_blocks w (l : list acmd) : list Z := concat (cmd_blocks w <$> l).

(** Every command has its wrap, with a result structure. *)
Definition wrapped w c : Prop := exists x r, sw_wraps w !! a_token c = Some x /\ w_ret x = Some r.

(** The wraps of [l] are the same in [w']. *)
Definition same_wraps (l : list acmd) w w' : Prop :=
  forall c, c ∈ l -> sw_wraps w' !! a_token c = sw_wraps w !! a_token c.

Lemma same_wraps_blocks l w w' : same_wraps l w w' -> cmds_blocks w' l = cmds_blocks w l.
Proof.
  intros H. unfold cmds_blocks. f_equal. apply list_fmap_ext. intros i c Hc.
  unfold cmd_blocks. by rewrite (H c (list_elem_of_lookup_2 _ _ _ Hc)).
Qed.

Lemma same_wraps_token l w w' c : same_wraps l w w' -> c ∈ l -> cmd_token w' c = cmd_token w c.
Proof. intros H Hc. unfold cmd_token. by rewrite (H c Hc). Qed.

Lemma same_wraps_wrapped l w w' : same_wraps l w w' -> Forall (wrapped w) l -> Forall (wrapped w') l.
Proof.
  intros H. rewrite !Forall_forall. intros Hw c Hc. destruct (Hw c Hc) as (x & r & E & Er).
  exists x, r. by rewrite (H c Hc).
Qed.

Lemma cmds_blocks_app w l l' : cmds_blocks w (l ++ l') = cmds_blocks w l ++ cmds_blocks w l'.
Proof. unfold cmds_blocks. by rewrite fmap_app, concat_app. Qed.

Lemma cmds_blocks_perm w l l' : l ≡ₚ l' -> cmds_blocks w l ≡ₚ cmds_blocks w l'.
Proof. intros E. unfold cmds_blocks. by rewrite E. Qed.

(** The argument of a command is a block of it. *)
Lemma wrapped_block w c : wrapped w c -> a_token c ∈ cmd_blocks w c.
Proof. intros (x & r & E & _). unfold cmd_blocks. rewrite E. unfold wrap_blocks. set_solver +. Qed.

Lemma cmds_block w l c p : c ∈ l -> p ∈ cmd_blocks w c -> p ∈ cmds_blocks w l.
Proof. intros Hc Hp. unfold cmds_blocks. apply list_elem_of_In, in_concat. exists (cmd_blocks w c).
  rewrite <-!list_elem_of_In. split; [by apply list_elem_of_fmap_2|done]. Qed.
End wraps.

(** ** The completions *)

Section async.
Context {W : Type}.
#[local] Abbreviation SW := (spdk_world W).
Context (spdk : spdk_env SW) (lib : spdk_nvme SW) (ptr_of : mem -> Z) (ret_ctx : Z -> Z) (junk : Z -> Z -> Z) (polls : nat).
Context (dev : nvm_dev) (ctrlr q d : Z) `{!NvmeQueue spdk lib dev ctrlr q d}.
Context (Halloc : alloc_ok spdk dev) (Hbe : be_id dev = NVM_BE_SPDK \/ be_id dev = NVM_BE_NOCD).
Context (Hok : lba_dev_ok dev) (Hret : forall t, ret_ctx t = q) (Hq0 : q <> 0) (Hd : d < 2 ^ 31).
Context (Hpolls : (Z.to_nat d * S nq_lag_max <= polls)%nat).
Implicit Types s : sys SW.
#[local] Abbreviation nb := (nbytes (geo dev)).
#[local] Abbreviation gen2dev := (nvm_addr_gen2dev dev).
#[local] Abbreviation dev2gen := (nvm_addr_dev2gen dev).
#[local] Abbreviation cmds w := (nq_cmds (sw_os w)).

(** The context counts [n] commands. *)
Definition ctx_counts (n : Z) (w : SW) : Prop := exists x, sw_ctxs w !! q = Some x /\ sc_depth x = d /\ sc_outstanding x = n.

(** The backend with the commands [l] in flight, on top of the blocks [L]. *)
Record holds_cmds (L : gset Z) (l : list acmd) s : Prop := {
  hc_wf : heap_wf s;
  hc_state : exists st, sw_states (world s) !! be_state dev = Some st /\ st_ctrlr st = ctrlr;
  hc_ctx : ctx_counts (Z.of_nat (length l)) (world s);
  hc_len : Z.of_nat (length l) <= d;
  hc_args : NoDup (a_token <$> l);
  hc_wraps : Forall (wrapped (world s)) l;
  hc_owns : owns L (cmds_blocks (world s) l) s }.

(** What the callbacks answer. *)
Definition callback_cpls (w : SW) (events : list cpl_event) (done : list acmd) : list completion :=
  zip_with (fun e c => Completion (cmd_token w c) (status_word (status (ce_cpl e)))) events done.

Lemma wp_async_cb L e c l cpls s (Q : list completion -> sys SW -> Prop) :
  holds_cmds L (c :: l) s -> ce_arg e = a_token c ->
  (forall s', holds_cmds L l s' -> sw_os (world s') = sw_os (world s) -> same_wraps l (world s) (world s') ->
     Q (cpls ++ [Completion (cmd_token (world s) c) (status_word (status (ce_cpl e)))]) s') ->
  wp (cmd_async_cb spdk ret_ctx dev e cpls) s Q.
Proof.
  intros [H1 H2 (x & X1 & X2 & X3) H4 H5 H6 H7] Ea HQ. apply Forall_cons in H6 as [(y & r & Ey & Er) H6].
  rewrite fmap_cons in H5. apply NoDup_cons in H5 as [Hn H5].
  unfold cmd_async_cb, take_wrap. rewrite Ea. apply wp_bind, wp_bind. eapply wp_intro; [done|].
  rewrite Ey. apply wp_bind. eapply wp_intro; [done|]. apply wp_bind. eapply wp_intro; [done|]. apply wp_ret.
  unfold nvm_cmd_wrap_cpl. rewrite Er. cbn [ret_async ret_status]. rewrite Hret. unfold get_ctx.
  apply wp_bind, wp_bind. eapply wp_intro; [done|]. cbn [world sw_ctxs]. rewrite X1. eapply wp_intro; [done|].
  apply wp_bind. eapply wp_intro; [done|]. apply wp_bind. cbn [errno hp world].
  set (w1 := SpdkWorld _ _ _ _ _ _).
  assert (Hsame : same_wraps l (world s) w1).
  { intros c' Hc'. cbn. rewrite lookup_delete_ne; [done|]. intros E. apply Hn. rewrite E. by apply list_elem_of_fmap_2. }
  assert (Eb : cmd_blocks (world s) c = wrap_blocks (a_token c) y) by (unfold cmd_blocks; by rewrite Ey).
  assert (Ho : owns L (wrap_blocks (a_token c) y ++ cmds_blocks (world s) l) s).
  { rewrite <-Eb. exact H7. }
  pose proof (owns_split _ _ _ _ Ho) as Hoy.
  eapply (wp_wrap_term spdk dev Halloc (I := fun _ => True)); [exact H1|unfold wrap_owned; eapply owns_ext; [reflexivity| |exact Hoy]; reflexivity|].
  intros s' Hwf' Hl' Hw' _. change (world s' = w1) in Hw'. apply wp_ret. replace (cmd_token (world s) c) with (ret_async r)
    in HQ by (unfold cmd_token; by rewrite Ey, Er).
  apply HQ; [|by rewrite Hw'|by rewrite Hw']. cbn [length] in *. split; rewrite ?Hw'; try done; [|lia|by eapply same_wraps_wrapped|].
  - exists (SpdkCtx (sc_depth x) (u32 (sc_outstanding x - 1)) (sc_block x)). cbn. rewrite lookup_insert_eq.
    split; [done|]. split; [done|]. rewrite X3, wrap_id; lia.
  - rewrite (same_wraps_blocks _ _ _ Hsame). eapply owns_release; [exact Ho|done].
Qed.

Lemma wp_async_cbs L events done l cpls s (Q : list completion -> sys SW -> Prop) :
  holds_cmds L (done ++ l) s -> ce_arg <$> events = a_token <$> done ->
  (forall s', holds_cmds L l s' -> sw_os (world s') = sw_os (world s) -> same_wraps l (world s) (world s') ->
     Q (cpls ++ callback_cpls (world s) events done) s') ->
  wp (mfold (cmd_async_cb spdk ret_ctx dev) events cpls) s Q.
Proof.
  revert done cpls s. induction events as [|e events IH]; intros [|c done] cpls s H Ea HQ; try discriminate Ea.
  - cbn [mfold]. apply wp_ret. unfold callback_cpls in HQ. cbn in HQ. rewrite app_nil_r in HQ. by apply HQ.
  - rewrite !fmap_cons in Ea. injection Ea as Ea Eas. cbn [mfold]. apply wp_bind.
    apply (wp_async_cb L e c (done ++ l)); [exact H|done|]. intros s1 H1 E1 S1.
    apply (IH done); [done|done|]. intros s2 H2 E2 S2. rewrite <-app_assoc. cbn [app].
    assert (Et : callback_cpls (world s1) events done = callback_cpls (world s) events done).
    { unfold callback_cpls. clear -S1 Eas. revert events Eas. induction done as [|c' done IH]; intros [|e' events] E; try discriminate E; [done|].
      cbn [zip_with]. rewrite !fmap_cons in E. injection E as _ E. f_equal.
      - f_equal. eapply same_wraps_token; [exact S1|]. set_solver +.
      - apply IH; [|done]. intros c0 Hc0. apply S1. set_solver. }
    rewrite Et. apply HQ; [done|congruence|]. intros c' Hc'. rewrite (S2 c' Hc'). apply S1. set_solver.
Qed.

(** ** The queue *)

(** Device addresses of the name-space. *)
Definition sectors_ok (c : acmd) : Prop := Forall (fun b => 0 <= b < 2 ^ lba_width dev) (a_addrs c).

(** The commands in flight and the sectors, by generic address. *)
Definition gen_cmd (w : SW) (c : acmd) : acmd := Acmd (cmd_token w c) (dev2gen <$> a_addrs c) (a_data c).
Definition spdk_inflight (w : SW) : list acmd := gen_cmd w <$> cmds w.
Definition spdk_amedia (w : SW) (b : nvm_addr) : list Z := nq_media (sw_os w) (gen2dev b).
Definition spdk_mem (w : SW) : gset Z := blocks_set (cmds_blocks w (cmds w)).

Record spdk_qok (w : SW) : Prop := {
  sq_state : exists st, sw_states w !! be_state dev = Some st /\ st_ctrlr st = ctrlr;
  sq_ctx : ctx_counts (Z.of_nat (length (cmds w))) w;
  sq_len : Z.of_nat (length (cmds w)) <= d;
  sq_args : NoDup (a_token <$> cmds w);
  sq_wraps : Forall (wrapped w) (cmds w);
  sq_blocks : NoDup (filter (fun p => p <> 0) (cmds_blocks w (cmds w)));
  sq_sectors : Forall sectors_ok (cmds w) }.

#[local] Abbreviation spdk_wf := (queue_wf spdk_qok spdk_mem).
#[local] Abbreviation others := (rest spdk_mem).

Lemma queue_holds s : spdk_wf s -> holds_cmds (others s) (cmds (world s)) s.
Proof. intros (H1 & [] & H3). split; try done. by apply owns_rest. Qed.

Lemma holds_queue L s : holds_cmds L (cmds (world s)) s -> Forall sectors_ok (cmds (world s)) -> spdk_wf s /\ others s = L.
Proof. intros [H1 H2 H3 H4 H5 H6 H7] Hs. apply owns_rest_inv in H7 as (N1 & N2 & N3). by split. Qed.

Lemma holds_perm L l l' s : l ≡ₚ l' -> holds_cmds L l s -> holds_cmds L l' s.
Proof.
  intros E [H1 H2 H3 H4 H5 H6 H7]. pose proof (Permutation_length E) as El. rewrite El in H3, H4. split; try done.
  - by rewrite <-E.
  - by rewrite <-E.
  - eapply owns_ext; [by apply cmds_blocks_perm|done|done].
Qed.

(** A call of the library touches nothing of it. *)
Lemma holds_keeps L l s s' : lib_keeps s s' -> holds_cmds L l s -> holds_cmds L l s'.
Proof.
  intros (K1 & K2 & K3) [H1 H2 H3 H4 H5 H6 H7].
  assert (Hs : same_wraps l (world s) (world s')) by (intros c _; by rewrite K3).
  split; try done; [by rewrite K3|unfold ctx_counts; by rewrite K3|by eapply same_wraps_wrapped|].
  rewrite (same_wraps_blocks _ _ _ Hs). by eapply owns_ext.
Qed.

Lemma spdk_cmds_apart w : Forall sectors_ok (cmds w) -> apart nb (spdk_inflight w) -> apart nb (cmds w).
Proof.
  intros Hs [A1 A2]. unfold spdk_inflight in *. split.
  - intros i c Hc. destruct (A1 i (gen_cmd w c)) as [H1 H2]; [by rewrite list_lookup_fmap, Hc|].
    cbn in H1, H2. rewrite length_fmap in H2. split; [by eapply NoDup_fmap_1|done].
  - intros i j c c' b Hc Hc' Hb Hb'. eapply (A2 i j (gen_cmd w c) (gen_cmd w c') (dev2gen b));
      [by rewrite list_lookup_fmap, Hc|by rewrite list_lookup_fmap, Hc'|cbn; by apply list_elem_of_fmap_2..].
Qed.

Lemma gen_cmd_dom w c b : sectors_ok c -> b ∈ a_addrs (gen_cmd w c) -> lba_dom dev b.
Proof.
  intros Hs Hb. cbn in Hb. apply list_elem_of_fmap in Hb as (x & -> & Hx). unfold sectors_ok in Hs.
  rewrite Forall_forall in Hs. by apply (dev2gen_dom dev Hok), Hs.
Qed.

Lemma gen_cmd_same w w' l : same_wraps l w w' -> gen_cmd w' <$> l = gen_cmd w <$> l.
Proof.
  intros H. apply list_fmap_ext. intros i c Hc. unfold gen_cmd. f_equal.
  eapply same_wraps_token; [exact H|by eapply list_elem_of_lookup_2].
Qed.

Lemma callback_cpls_ret w events done : ce_arg <$> events = a_token <$> done ->
  cpl_ret <$> callback_cpls w events done = a_token <$> (gen_cmd w <$> done).
Proof.
  intros E. unfold callback_cpls. revert events E. induction done as [|c done IH]; intros [|e events] E; try discriminate E; [done|].
  rewrite !fmap_cons in E. injection E as _ E. cbn [zip_with]. rewrite !fmap_cons. f_equal. by apply IH.
Qed.

(** What was executed is reaped. *)
Lemma executed_reaped done events s o1 s2 : Forall sectors_ok done -> spdk_wf s2 -> others s2 = others s ->
  cmds (world s) ≡ₚ done ++ cmds (world s2) -> same_wraps (cmds (world s2)) (world s) (world s2) ->
  sw_os (world s2) = o1 -> executed nq_media nb done events (sw_os (world s)) o1 ->
  reaped (lba_dom dev) spdk_amedia nb spdk_inflight spdk_qok spdk_mem (gen_cmd (world s) <$> done)
    (callback_cpls (world s) events done) s s2.
Proof.
  intros Hs Hwf Ho Hp Hsame Eos (Ha & Hst & Hfr & Hdata). pose proof (id_fmt _ Hok) as Hf.
  split; [done|]. split; [done|].
  split; [unfold spdk_inflight; by rewrite Hp, fmap_app, (gen_cmd_same _ _ _ Hsame)|].
  split; [by apply callback_cpls_ret|]. split.
  - intros b [Hb1 Hb2] Hn. unfold spdk_amedia. rewrite Eos. apply Hfr. intros c Hc Hb.
    apply (Hn (gen_cmd (world s) c)); [by apply list_elem_of_fmap_2|].
    cbn. rewrite <-(dev2gen_gen2dev_lba dev b) by done. by apply list_elem_of_fmap_2.
  - intros i c cmd Hc Hcmd H0 j b Hj. rewrite list_lookup_fmap in Hcmd.
    destruct (done !! i) as [x|] eqn:Hx; [|done]. injection Hcmd as <-. cbn in Hj |- *.
    unfold callback_cpls in Hc. apply lookup_zip_with_Some in Hc as (e & x' & -> & He & Hx').
    rewrite Hx in Hx'. injection Hx' as <-. rewrite list_lookup_fmap in Hj.
    apply fmap_Some in Hj as (y & Ey & ->).
    pose proof (Forall_lookup_1 _ _ _ _ Hs Hx) as Hsx. pose proof (Forall_lookup_1 _ _ _ _ Hsx Ey) as Hy. cbn in Hy.
    pose proof (Forall_lookup_1 _ _ _ _ Hst He) as Hste.
    unfold spdk_amedia. rewrite gen2dev_dev2gen_lba, Eos by done.
    eapply Hdata; [exact He|exact Hx| |exact Ey]. by apply status_word_0.
Qed.

(** ** Poke and wait *)

(** The context [ctx] as the backend answers it. *)
Definition ctx_now (ctx : nvm_async_ctx) (w : SW) : Prop :=
  be_ctx ctx = q /\ depth ctx = d /\ outstanding ctx = Z.of_nat (length (spdk_inflight w)).

#[local] Abbreviation spdk_reaped := (reaped (lba_dom dev) spdk_amedia nb spdk_inflight spdk_qok spdk_mem).

Lemma wp_spdk_poke ctx s (Q : Z * nvm_async_ctx * list completion -> sys SW -> Prop) :
  be_ctx ctx = q -> spdk_wf s -> apart nb (spdk_inflight (world s)) ->
  (forall r ctx' cpls done s', ctx_now ctx' (world s') -> spdk_reaped done cpls s s' ->
     (forall c b, c ∈ done -> b ∈ a_addrs c -> lba_dom dev b) -> r = Z.of_nat (length done) \/ r = -1 ->
     (done = [] -> spdk_inflight (world s) <> [] -> (nq_lag (sw_os (world s')) < nq_lag (sw_os (world s)))%nat) ->
     Q (r, ctx', cpls) s') ->
  wp (nvm_be_spdk_async_poke spdk lib ret_ctx dev ctx 0) s Q.
Proof.
  intros Eq Hwf Hap HQ. pose proof (queue_holds s Hwf) as Hh. pose proof (sq_sectors _ (proj1 (proj2 Hwf))) as Hs.
  unfold nvm_be_spdk_async_poke. rewrite Eq. apply wp_bind.
  eapply wp_mono; [apply nq_process_law; [apply Hwf|by apply spdk_cmds_apart]|].
  intros [res events] s1 (Hk & done & Hex & Hp & Hres & Hlag). apply wp_bind.
  pose proof (holds_keeps _ _ _ _ Hk Hh) as Hh1. apply (holds_perm _ _ _ _ Hp) in Hh1.
  apply (wp_async_cbs (others s) events done (cmds (world s1))); [done|apply Hex|]. intros s2 Hh2 Eos Hsame.
  assert (Es : same_wraps (cmds (world s2)) (world s) (world s2)).
  { intros c Hc. rewrite Eos in Hc. rewrite (Hsame c Hc). destruct Hk as (_ & _ & ->). done. }
  rewrite <-Eos in Hh2, Hp, Hlag, Hex. rewrite Hp in Hs. apply Forall_app in Hs as [Hsd Hsc].
  destruct (holds_queue _ _ Hh2 Hsc) as [Hwf2 Ho2]. destruct (hc_ctx _ _ _ Hh2) as (x & X1 & X2 & X3).
  unfold get_ctx. apply wp_bind, wp_bind. eapply wp_intro; [done|]. rewrite X1. eapply wp_intro; [done|].
  apply wp_ret, (HQ _ _ _ (gen_cmd (world s) <$> done)).
  - split; [done|]. split; [done|]. unfold spdk_inflight. by rewrite length_fmap.
  - cbn [app]. assert (Ec : callback_cpls (world s1) events done = callback_cpls (world s) events done).
    { destruct Hk as (_ & _ & ->). done. }
    rewrite Ec. apply (executed_reaped done events s (sw_os (world s2)) s2 Hsd Hwf2 Ho2 Hp Es eq_refl Hex).
  - intros c b (y & -> & Hy)%list_elem_of_fmap Hb. eapply gen_cmd_dom; [|exact Hb]. rewrite Forall_forall in Hsd. by apply Hsd.
  - rewrite length_fmap. destruct Hres as [->|Hr].
    + left. destruct (Z.ltb_spec (Z.of_nat (length done)) 0); lia.
    + right. destruct (Z.ltb_spec res 0); lia.
  - intros E Hne. apply Hlag; [by eapply fmap_nil_inv|]. intros E0. apply Hne. unfold spdk_inflight. by rewrite E0.
Qed.

(** Each round of the wait delivers a command or uses up one of the polls the
    controller has left. *)
Lemma wp_wait_loop fuel ctx acc cpls s (Q : Z * nvm_async_ctx * list completion -> sys SW -> Prop) :
  ctx_now ctx (world s) -> spdk_wf s -> apart nb (spdk_inflight (world s)) ->
  (length (spdk_inflight (world s)) * S nq_lag_max + nq_lag (sw_os (world s)) < fuel + S nq_lag_max)%nat ->
  0 <= acc -> acc + Z.of_nat (length (spdk_inflight (world s))) < 2 ^ 31 ->
  (forall r ctx' l done s', be_ctx ctx' = q -> depth ctx' = d -> spdk_reaped done l s s' ->
     r = acc + Z.of_nat (length done) /\ spdk_inflight (world s') = [] \/ r = -1 -> Q (r, ctx', cpls ++ l) s') ->
  wp (wait_loop spdk lib ret_ctx fuel dev ctx acc cpls) s Q.
Proof.
  revert ctx acc cpls s. induction fuel as [|fuel IH]; intros ctx acc cpls s (C1 & C2 & C3) Hwf Hap Hf H0 Hacc HQ;
    cbn [wait_loop]; rewrite C3; destruct (Z.eqb_spec (Z.of_nat (length (spdk_inflight (world s)))) 0) as [E|E].
  1, 3: apply wp_ret; rewrite <-(app_nil_r cpls), <-(Z.add_0_r acc); apply (HQ _ _ _ []); [done|done|by apply reaped_nil|];
    left; split; [done|]; apply nil_length_inv; lia.
  - nia.
  - apply wp_bind, wp_spdk_poke; [done|done|done|]. intros r ctx' l done s1 Hc1 Hr Hdm Hres Hlag.
    pose proof Hr as (Hwf1 & _ & Hp & _). pose proof (Permutation_length Hp) as Hlen. rewrite length_app in Hlen.
    destruct (Z.ltb_spec r 0).
    { apply wp_ret, (HQ _ _ _ done); [apply Hc1|apply Hc1|done|by right]. }
    assert (r = Z.of_nat (length done)) as -> by lia. rewrite i32_id by lia.
    apply IH; [done|done| | |lia|lia|].
    + pose proof (apart_perm _ _ _ Hp Hap) as Hap'. by apply apart_app in Hap' as [? _].
    + pose proof (nq_lag_le (sw_os (world s1))). destruct done as [|c done].
      * cbn [length] in Hlen. specialize (Hlag eq_refl). rewrite <-Hlen at 1.
        assert (nq_lag (sw_os (world s1)) < nq_lag (sw_os (world s)))%nat; [|lia].
        apply Hlag. intros E0. by rewrite E0 in E.
      * cbn [length] in Hlen. nia.
    + intros r' ctx2 l2 done2 s2 B1 B2 Hr2 Hres2. rewrite <-app_assoc. apply (HQ _ _ _ (done ++ done2)); [done|done| |].
      * by eapply reaped_app.
      * rewrite length_app. destruct Hres2 as [[-> ?]|?]; [left; split; [lia|done]|by right].
Qed.

(** ** Submission *)

(** Options of asynchronous commands on buffers. *)
Definition async_flags (flags : Z) : Prop :=
  Z.land flags NVM_CMD_MASK_IOMD = NVM_CMD_ASYNC /\ flag_set flags NVM_CMD_SGL = false.

(** One more command, with its context counted and its wrap put. *)
Lemma holds_add L l c x r s s1 s' : holds_cmds L l s -> heap_wf s' -> live s' = live s1 -> a_token c <> 0 ->
  owns (live s) (wrap_blocks (a_token c) x) s1 -> w_ret x = Some r -> Z.of_nat (length l) < d ->
  sw_states (world s') = sw_states (world s) -> sw_wraps (world s') = <[a_token c := x]> (sw_wraps (world s)) ->
  (forall y, sw_ctxs (world s) !! q = Some y ->
     exists z, sw_ctxs (world s') !! q = Some z /\ sc_depth z = sc_depth y /\ sc_outstanding z = u32 (sc_outstanding y + 1)) ->
  holds_cmds L (l ++ [c]) s' /\ same_wraps l (world s) (world s').
Proof.
  intros [H1 H2 (y & Y1 & Y2 & Y3) H4 H5 H6 H7] Hwf El Hc0 Ho Er Hlt Es Ew Hctx.
  assert (Hn : a_token c ∉ a_token <$> l).
  { intros (c' & E & Hc')%list_elem_of_fmap. rewrite Forall_forall in H6.
    pose proof (wrapped_block _ _ (H6 c' Hc')) as Hb. rewrite <-E in Hb. destruct Ho as [_ O2 _].
    apply (O2 (a_token c)); [unfold wrap_blocks; set_solver +|]. destruct H7 as [_ _ ->].
    apply elem_of_union_l, elem_of_list_to_set, list_elem_of_filter. split; [done|]. by eapply cmds_block. }
  assert (Hsame : same_wraps l (world s) (world s')).
  { intros c' Hc'. rewrite Ew, lookup_insert_ne; [done|]. intros E. apply Hn. rewrite E. by apply list_elem_of_fmap_2. }
  assert (Hl : Z.of_nat (length (l ++ [c])) = Z.of_nat (length l) + 1) by (rewrite length_app; cbn; lia).
  assert (Eb : cmd_blocks (world s') c = wrap_blocks (a_token c) x) by (unfold cmd_blocks; by rewrite Ew, lookup_insert_eq).
  split; [|done]. split; [done|by rewrite Es| |lia| | |].
  - destruct (Hctx y Y1) as (z & Z1 & Z2 & Z3). exists z. split; [done|]. split; [congruence|].
    rewrite Z3, Y3, Hl, wrap_id; lia.
  - rewrite fmap_app. apply NoDup_app. split; [done|]. split; [|apply NoDup_singleton].
    intros t Ht ->%list_elem_of_singleton. done.
  - apply Forall_app. split; [by eapply same_wraps_wrapped|]. constructor; [|done].
    exists x, r. by rewrite Ew, lookup_insert_eq.
  - rewrite cmds_blocks_app, (same_wraps_blocks _ _ _ Hsame). eapply owns_app; [exact H7|].
    unfold cmds_blocks. cbn [fmap list_fmap concat]. rewrite app_nil_r, Eb. by eapply owns_ext.
Qed.

Lemma spdk_refused tok addrs data s s' : spdk_wf s -> heap_wf s' -> live s' = live s -> world s' = world s ->
  (errno s' = EAGAIN -> Z.of_nat (length (spdk_inflight (world s))) = d) ->
  submit_post (lba_dom dev) spdk_amedia spdk_inflight spdk_qok spdk_mem d tok addrs data s (-1) s'.
Proof.
  intros (H1 & H2 & H3) Hwf El Ew He. unfold submit_post, queue_wf, rest. rewrite Ew, El.
  split; [done|]. split; [done|]. split; [done|]. by right.
Qed.

(** The sectors of a command, by generic address. *)
Definition cmd_sectors (vector : bool) (addrs : list nvm_addr) (a : nvm_addr) (n : Z) : list nvm_addr :=
  if vector then addrs else run_addrs a n.

Lemma rw_sectors_gen vector addrs a n : Forall (lba_dom dev) (cmd_sectors vector addrs a n) ->
  (vector = false -> l_sectr a + n <= 2 ^ 32) ->
  rw_sectors dev vector addrs a n = gen2dev <$> cmd_sectors vector addrs a n.
Proof. destruct vector; [done|]. intros H1 H2. apply (run_from_fmap dev Hok); auto. Qed.

(** A write of [addrs] (of [n] sectors from [a] on, for a scalar command) that
    meets no command in flight. *)
Record write_ok (vector : bool) (addrs : list nvm_addr) (a : nvm_addr) (n : Z) (data : list Z) s : Prop := {
  wo_n : 0 < n <= 2 ^ 16;
  wo_first : addrs !! 0%nat = Some a;
  wo_vector : vector = true -> n <= NVM_NADDR_MAX /\ Z.of_nat (length addrs) = n;
  wo_scalar : vector = false -> l_sectr a + n <= 2 ^ 32;
  wo_dom : Forall (lba_dom dev) (cmd_sectors vector addrs a n);
  wo_nodup : NoDup (cmd_sectors vector addrs a n);
  wo_len : Z.of_nat (length (cmd_sectors vector addrs a n)) = n;
  wo_data : n * nb <= Z.of_nat (length data);
  wo_apart : forall c b, c ∈ spdk_inflight (world s) -> b ∈ cmd_sectors vector addrs a n -> b ∉ a_addrs c }.

(** No sector of it is being written. *)
Lemma write_apart vector addrs a n data s c b : write_ok vector addrs a n data s -> c ∈ cmds (world s) ->
  b ∈ gen2dev <$> cmd_sectors vector addrs a n -> b ∉ a_addrs c.
Proof.
  intros Hw Hc (x & -> & Hx)%list_elem_of_fmap Hb.
  apply (wo_apart _ _ _ _ _ _ Hw (gen_cmd (world s) c) x); [by apply list_elem_of_fmap_2|done|].
  pose proof (wo_dom _ _ _ _ _ _ Hw) as Hdm. rewrite Forall_forall in Hdm. destruct (Hdm x Hx).
  cbn. rewrite <-(dev2gen_gen2dev_lba dev x (id_fmt _ Hok)) by done. by apply list_elem_of_fmap_2.
Qed.

Lemma gen_cmd_new w p r x l data : sw_wraps w !! p = Some x -> w_ret x = Some r -> Forall (lba_dom dev) l ->
  gen_cmd w (Acmd p (gen2dev <$> l) data) = Acmd (ret_async r) l data.
Proof.
  intros E Er Hl. unfold gen_cmd, cmd_token. cbn [a_token a_addrs a_data]. rewrite E, Er. f_equal.
  rewrite <-list_fmap_compose. rewrite <-(list_fmap_id l) at 2. apply list_fmap_ext. intros i b Hb.
  pose proof (Forall_lookup_1 _ _ _ _ Hl Hb) as [H1 H2]. cbn. by apply (dev2gen_gen2dev_lba dev b (id_fmt _ Hok)).
Qed.

Lemma wp_async_run vector addrs a n data meta r p x s0 s (Q : Z -> sys SW -> Prop) :
  spdk_wf s0 -> heap_wf s -> p <> 0 -> wrap_owned (live s0) p x s -> world s = world s0 ->
  wrap_rw spdk dev true vector addrs a n data meta (Some r) x -> write_ok vector addrs a n data s0 ->
  Z.of_nat (length (cmds (world s0))) < d ->
  (forall s', submit_post (lba_dom dev) spdk_amedia spdk_inflight spdk_qok spdk_mem d (ret_async r)
     (cmd_sectors vector addrs a n) data s0 0 s' -> Q 0 s') ->
  wp (async_run spdk lib dev (w_cmd x) q p x) s Q.
Proof.
  intros Hwf Hh Hp Ho Ew Hrw Hw Hlt HQ. pose proof (queue_holds s0 Hwf) as Hc. pose proof Hw as [W1 W2 W3 W4 W5 W6 W7 W8 W9].
  pose proof (sq_sectors _ (proj1 (proj2 Hwf))) as Hs. pose proof (id_nb _ Hok) as Hnb.
  pose proof (wrap_rw_decode spdk dev _ _ _ _ _ _ _ _ _ Hrw W1 W2 W3) as Hdec.
  rewrite rw_sectors_gen in Hdec by done. set (l := gen2dev <$> cmd_sectors vector addrs a n) in *.
  assert (Ell : Z.of_nat (length l) = n) by (unfold l; by rewrite length_fmap).
  pose proof Hrw as [Hwr _ Hdata Hlen Hmeta Hcmd _].
  destruct (hc_state _ _ _ Hc) as (st & Est & Ec). destruct (hc_ctx _ _ _ Hc) as (y & Y1 & Y2 & Y3).
  unfold async_run, get_state, get_ctx. apply wp_bind, wp_bind. eapply wp_intro; [done|]. rewrite Ew, Est.
  eapply wp_intro; [done|]. apply wp_bind, wp_bind. eapply wp_intro; [done|]. rewrite Ew, Y1. eapply wp_intro; [done|].
  apply wp_bind. eapply wp_intro; [done|]. apply wp_bind. eapply wp_intro; [done|]. apply wp_bind.
  unfold submit_ioc. rewrite Ec, Hdata, Hlen, wrap_id by nia. rewrite <-Ell at 1. rewrite Ew.
  eapply wp_mono.
  { apply (nq_submit_law _ _ l data); [done| |exact Hdec|lia|by apply (gen2dev_NoDup dev Hok)|lia| |done].
    - rewrite Hcmd. exact (proj1 (proj2 (proj2 (rw_entry_fields dev true vector n)))).
    - intros c b Hcc Hb. by eapply write_apart. }
  intros err s' (-> & (K1 & K2 & K3) & Em & Eq). cbn [Z.eqb negb]. apply wp_ret, HQ. cbn [world sw_os] in Em, Eq.
  assert (Hwraps : sw_wraps (world s') = <[p := x]> (sw_wraps (world s0))) by (by rewrite K3).
  destruct (holds_add (others s0) (cmds (world s0)) (Acmd p l data) x r s0 s s') as [Hc' Hsame]; try done.
  { by rewrite K3. }
  { intros y' E. rewrite Y1 in E. injection E as <-. rewrite K3. cbn. rewrite lookup_insert_eq. by eexists. }
  rewrite <-Eq in Hc'. destruct (holds_queue _ _ Hc') as [Hq' Ho'].
  { rewrite Eq. apply Forall_app. split; [done|]. constructor; [|done]. apply Forall_forall. cbn [a_addrs]. unfold l.
    intros b (g & -> & Hg)%list_elem_of_fmap. rewrite Forall_forall in W5. apply (lba_bound dev g (id_fmt _ Hok)). by apply W5. }
  split; [done|]. split; [done|]. split; [intros b _; unfold spdk_amedia; by rewrite Em|]. left. split; [done|].
  unfold spdk_inflight. rewrite Eq, fmap_app, (gen_cmd_same _ _ _ Hsame). f_equal. cbn [fmap list_fmap]. f_equal.
  eapply gen_cmd_new; [by rewrite Hwraps, lookup_insert_eq|done|done].
Qed.

Lemma wp_spdk_submit vector addrs a n data meta flags r s (Q : io_res -> sys SW -> Prop) :
  spdk_wf s -> async_flags flags -> write_ok vector addrs a n data s ->
  (forall x s', submit_post (lba_dom dev) spdk_amedia spdk_inflight spdk_qok spdk_mem d (ret_async r)
     (cmd_sectors vector addrs a n) data s (rc x) s' -> Q x s') ->
  wp (spdk_ewrc spdk lib ptr_of ret_ctx polls dev addrs None n (Some data) meta flags (rw_op true vector) (Some r)) s Q.
Proof.
  intros Hwf [Hf1 Hf2] Hw HQ. pose proof (queue_holds s Hwf) as Hc. pose proof (hc_len _ _ _ Hc) as Hle.
  destruct (hc_ctx _ _ _ Hc) as (y & Y1 & Y2 & Y3).
  unfold spdk_ewrc. rewrite (proj2 (Z.eqb_eq _ _) Hf1), Hret, (proj2 (Z.eqb_neq q 0)) by done.
  unfold cmd_async_ewrc, get_ctx. apply wp_bind, wp_bind. eapply wp_intro; [done|]. rewrite Y1. eapply wp_intro; [done|].
  unfold queue_full. rewrite Y2, Y3, wrap_id by lia. destruct (Z.ltb_spec d (Z.of_nat (length (cmds (world s))) + 1)).
  - eapply wp_intro; [done|]. apply HQ. cbn [rc]. apply spdk_refused; [done|apply Hwf|done|done|].
    intros _. unfold spdk_inflight. rewrite length_fmap. lia.
  - apply wp_bind. eapply (wp_wrap_setup (I := fun _ => True) spdk ptr_of dev Halloc Hbe Hok);
      [apply Hwf|done|apply Hw|apply Hw|intros E; by apply (wo_vector _ _ _ _ _ _ Hw)|..].
    + intros s' Hwf' Hl' Hw' He. apply wp_ret, HQ. cbn [rc]. by apply spdk_refused; [| | | |rewrite He].
    + intros p x s' Hp Hwf' Ho Hw' Hrw. apply wp_bind.
      eapply (wp_async_run vector addrs a n data meta r p x s); [done|done|done|done|done|exact Hrw|done|lia|].
      intros s2 Hs2. by apply wp_ret, HQ.
Qed.

#[export] Program Instance spdk_async_queue : AsyncQueue (nvm_be_spdk spdk lib ptr_of ret_ctx junk polls) dev q d :=
  {| adom := lba_dom dev; amedia := spdk_amedia; inflight := spdk_inflight; qok := spdk_qok; qmem := spdk_mem;
     qflags := async_flags; qvector := fun n => n <= NVM_NADDR_MAX;
     lag := fun w => nq_lag (sw_os w); lag_max := nq_lag_max |}.
Next Obligation.
  intros w _ E. unfold spdk_inflight in E. apply fmap_nil_inv in E. unfold spdk_mem, cmds_blocks. by rewrite E.
Qed.
Next Obligation. intros w. apply nq_lag_le. Qed.
Next Obligation.
  intros addrs data meta flags ret s Hwf Hf Hdm Hnd Hn Hv Hl Hap. cbn. apply wp_bind.
  destruct (addrs !! 0%nat) as [a|] eqn:Ha; [|by destruct addrs; cbn in *; [lia|]].
  apply (wp_spdk_submit true addrs a); [done|done| |]; [by split|]. intros x s' Hx. by apply wp_ret.
Qed.
Next Obligation.
  intros a n data meta flags ret s Hwf Hf Hdm Hn Hs Hl Hap. cbn. apply wp_bind.
  apply (wp_spdk_submit false [a] a); [done|done| |].
  - split; try done; cbn; [apply run_addrs_NoDup; lia|apply run_addrs_len; lia].
  - intros x s' Hx. by apply wp_ret.
Qed.
Next Obligation.
  intros ctx s Eq Ed Hwf Hap. cbn. apply wp_spdk_poke; [done|done|done|].
  intros r ctx' cpls done s' (C1 & C2 & _) Hr _ Hres Hlag. split; [done|]. split; [done|]. exists done.
  split; [done|]. split; [done|]. intros E. apply Hlag. destruct Hres as [Hres|]; [|lia]. apply nil_length_inv. lia.
Qed.
Next Obligation.
  intros ctx s Eq Ed Hwf Hap. cbn. unfold nvm_be_spdk_async_wait. rewrite Eq.
  pose proof (queue_holds s Hwf) as Hc. destruct (hc_ctx _ _ _ Hc) as (y & Y1 & Y2 & Y3). pose proof (hc_len _ _ _ Hc) as Hle.
  pose proof (nq_lag_le (sw_os (world s))).
  assert (El : length (spdk_inflight (world s)) = length (cmds (world s))) by apply length_fmap.
  unfold get_ctx. apply wp_bind, wp_bind. eapply wp_intro; [done|]. rewrite Y1. eapply wp_intro; [done|].
  apply wp_wait_loop; [|done|done| |lia|lia|].
  - split; [done|]. split; [done|]. cbn. by rewrite El.
  - rewrite El. assert (length (cmds (world s)) <= Z.to_nat d)%nat by lia. nia.
  - intros r ctx' l done s' C1 C2 Hr Hres. split; [done|]. split; [done|]. by exists done.
Qed.
End async.

(** ** The property *)

(** An idle context [q] of the handle, on the controller [ctrlr]. *)
Record spdk_idle {W} (spdk : spdk_env (spdk_world W)) (lib : spdk_nvme (spdk_world W)) (dev : nvm_dev) (ctrlr q d : Z)
    `{!NvmeQueue spdk lib dev ctrlr q d} (w : spdk_world W) : Prop := {
  si_state : exists st, sw_states w !! be_state dev = Some st /\ st_ctrlr st = ctrlr;
  si_ctx : exists x, sw_ctxs w !! q = Some x /\ sc_depth x = d /\ sc_outstanding x = 0;
  si_empty : nq_cmds (sw_os w) = [] }.

(** C9: an asynchronous write through the SPDK backend ends, and lands at the
    beginning of the block. Over a controller that executes the writes in flight
    on the queue pair of the context, in any order and with any errors, and a
    queue of depth 2 or more, an asynchronous write of whole write units inside a
    2.0 virtual block, from offset 0 or from any later row (a write unit of every
    chunk), ends after finitely many pokes. When it answers [count], the device
    address of linear sector [i], counted from the beginning of the virtual block
    whatever the offset, holds sector [i] of the caller's buffer: at offset 0 that
    is the range asked for, at a later row it is not (see
    [VblkAsync.async_pwrite_forgets_row]). No other sector has changed, nothing is
    in flight, the context counts no command, every result structure is back on
    the stack and all memory is released, the wraps and their DMA memory included.
    Otherwise it answers -1 with [EIO] or [ENOMEM], has changed no other sector,
    and what memory is kept belongs to commands still in flight. *)
Theorem spdk_async_write {W} (spdk : spdk_env (spdk_world W)) (lib : spdk_nvme (spdk_world W)) (ptr_of : mem -> Z)
    (ret_ctx : Z -> Z) (junk : Z -> Z -> Z) (polls : nat) (dev : nvm_dev) (ctrlr q d : Z)
    {NQ : NvmeQueue spdk lib dev ctrlr q d}
    (Hspdk : spdk_ok spdk) (Hbe : be_id dev = NVM_BE_SPDK) (Hok : lba_dev_ok dev) (Hret : forall t, ret_ctx t = q)
    (Hq0 : q <> 0) (Hd : 2 <= d < 2 ^ 31) (Hpolls : (Z.to_nat d * S nq_lag_max <= polls)%nat)
    (v : nvm_vblk) (ws : Z) (Hv : vblk20_ok dev v ws) (Hdom : on_device dev v ws (lba_dom dev))
    (Hmode : vblk_mode dev v = NVM_CMD_VECTOR /\ ws <= NVM_NADDR_MAX \/ vblk_mode dev v = NVM_CMD_SCALAR)
    (Hasync : async_flags (vflags v)) (buf : mem) (count offset : Z) (s : sys (spdk_world W)) (Hwf : heap_wf s)
    (Hidle : spdk_idle spdk lib dev ctrlr q d (world s))
    (Hctx : exists ctx, async_ctx v = Some ctx /\ be_ctx ctx = q /\ depth ctx = d)
    (Hrets : Z.of_nat (length (rets v)) = d /\ Forall (fun t => t <> 0) (rets v) /\ retsp v = 0)
    (Hc : 0 <= count) (Hr : request_ok dev v ws buf count offset) (Hrow : (nblks v * ws | offset / nbytes (geo dev)))
    (Hn : count / nbytes (geo dev) < 2 ^ 31) :
  let n := count / nbytes (geo dev) in
  let at_ i := nvm_addr_gen2dev dev (lin20 v ws i) in
  exists pokes, forall fuel, (pokes <= fuel)%nat ->
  wp (vblk_async_pwrite_s20 spdk (nvm_be_spdk spdk lib ptr_of ret_ctx junk polls) dev fuel v buf count offset) s (fun '(r, v') s' =>
    live s' ∖ blocks_set (cmds_blocks (world s') (nq_cmds (sw_os (world s')))) = live s /\
    (forall b, 0 <= b < 2 ^ lba_width dev -> (forall i, 0 <= i < n -> b <> at_ i) ->
       nq_media (sw_os (world s')) b = nq_media (sw_os (world s)) b) /\
    (r = count /\ (forall i, 0 <= i < n -> nq_media (sw_os (world s')) (at_ i) = request_src dev ws buf count i) /\
       live s' = live s /\ nq_cmds (sw_os (world s')) = [] /\
       (exists x, sw_ctxs (world s') !! q = Some x /\ sc_outstanding x = 0) /\ retsp v' = 0 /\ rets v' ≡ₚ rets v \/
     r = -1 /\ (errno s' = EIO \/ errno s' = ENOMEM))).
Proof.
  intros n at_. assert (Halloc : alloc_ok spdk dev) by (by apply dma_alloc_ok; [|left]).
  destruct Hidle as [I1 (x & X1 & X2 & X3) I3]. destruct Hrets as (R1 & R2 & R3).
  pose (I := spdk_async_queue spdk lib ptr_of ret_ctx junk polls dev ctrlr q d Halloc (or_introl Hbe) Hok Hret Hq0 (proj2 Hd) Hpolls).
  assert (Hq : qok (world s)).
  { split; rewrite ?I3; try done; [|cbn; lia|constructor|constructor]. exists x. by rewrite X3. }
  assert (Hready : async_ready (nvm_be_spdk spdk lib ptr_of ret_ctx junk polls) dev q d v s).
  { split; [done|done|done|exact Hq|]. split; [done|]. cbn. unfold spdk_inflight. by rewrite I3. }
  exists (nq_lag_max + Z.to_nat d)%nat. intros fuel Hf. pose proof (vo_nb _ _ _ Hv) as Hnb.
  pose proof (rq_bound _ _ _ _ _ _ Hr). pose proof (rq_count _ _ _ _ _ _ Hr). destruct (lin_size_range dev v ws Hv) as (_ & Hsz & _).
  apply (wp_async_pwrite (AsyncQueue0 := I) spdk _ dev q d v ws Hv Hdom Hmode Hasync Halloc); try done; try (cbn; lia).
  intros r v' s' (_ & Hq' & _) Hl Hfr Hres. split; [exact Hl|]. split.
  - intros b Hb Hne. destruct (dev2gen_dom dev Hok b Hb) as [Hdm E].
    rewrite <-E. apply (Hfr _ Hdm). intros (i & Hi & Ea)%lin_run_elem. apply (Hne i Hi). unfold at_. by rewrite <-E, Ea.
  - destruct Hres as [(-> & Hdata & Hls & Hi & H1 & H2)|?]; [left|by right]. apply fmap_nil_inv in Hi.
    split; [done|]. split; [done|]. split; [done|]. split; [done|]. split; [|done].
    destruct Hq' as [_ (y & Y1 & _ & Y3) _ _ _ _ _]. exists y. split; [done|]. by rewrite Y3, Hi.
Qed.

(** ** A controller in memory *)

(** The sectors, the writes in flight, and whether the next call finds nothing
    completed. A call that does completes the last two, the newest first. *)
Record nvmq := Nvmq { mq_ram : gmap Z (list Z); mq_cmds : list acmd; mq_busy : bool }.

Section nvmq.
Context (dev : nvm_dev) (d : Z).
#[local] Abbreviation SW := (spdk_world nvmq).
#[local] Abbreviation nb := (nbytes (geo dev)).

Definition nvmq_submit (cmd : nvm_nvme_cmd) (dmas : list (Z * dma)) (data : kdata) (p : Z) : M SW Z :=
  w ← get_world;
  let o := sw_os w in
  match io_decode (W := SW) page_spdk cmd dmas, data with
  | Some (true, l), KMem (Some data) =>
      if Z.of_nat (length (mq_cmds o)) <? d
      then _ ← modify_world (with_os (Nvmq (mq_ram o) (mq_cmds o ++ [Acmd p l data]) true)); mret 0
      else mret (-11)
  | _, _ => mret (-22)
  end.

Definition nvmq_process : M SW (Z * list cpl_event) :=
  w ← get_world;
  let o := sw_os w in
  if mq_busy o then _ ← modify_world (with_os (Nvmq (mq_ram o) (mq_cmds o) false)); mret (0, [])
  else
    let done := take 2 (reverse (mq_cmds o)) in
    _ ← modify_world (with_os (Nvmq (ramq_store dev done (mq_ram o)) (reverse (drop 2 (reverse (mq_cmds o)))) true));
    mret (Z.of_nat (length done), (fun c => nvmd_event (a_token c) None None) <$> done).

Definition nvmq_lib : spdk_nvme SW :=
  SpdkNvme SW (mret 0) (fun _ => mret (0, 6)) (fun a b => if a =? b then 0 else 1)
    (fun _ cb => mret (0, if cb 6 then [7] else [])) (fun _ => 1) (fun _ _ => 8) (fun _ => true)
    (fun _ => Some (dev_ns dev)) (fun _ => (256, 512)) (fun _ _ => mret 9) (fun _ => mret 0) (fun _ => mret tt)
    (fun _ _ _ _ _ => mret (-22)) (fun _ => mret None)
    (fun _ _ cmd dmas data _ _ p => nvmq_submit cmd dmas data p) (fun _ _ => nvmq_process).

Lemma nvmq_keeps (s : sys SW) o : heap_wf s -> lib_keeps s (Sys (errno s) (hp s) (with_os o (world s))).
Proof. by intros H. Qed.

Lemma nvmq_executed done ram cs b : 0 <= nb -> VblkAsync.apart nb done ->
  executed (fun o x => ram_sector dev (mq_ram o) x) nb done ((fun c => nvmd_event (a_token c) None None) <$> done)
    (Nvmq ram cs b) (Nvmq (ramq_store dev done ram) (reverse (drop 2 (reverse cs))) true).
Proof.
  intros Hnb Hap. split; [by rewrite <-list_fmap_compose|]. split; [|split].
  - apply Forall_fmap, Forall_forall. by intros c _.
  - intros x Hx. unfold ram_sector. cbn. by rewrite ramq_store_other.
  - intros i e c _ Hc _ j x Hj. unfold ram_sector. cbn. rewrite (ramq_store_at dev _ _ _ _ _ _ Hnb Hap Hc Hj).
    destruct (ap_cmd _ _ Hap _ _ Hc) as [_ Hl]. pose proof (lookup_lt_Some _ _ _ Hj). unfold nvm_addr in *.
    apply take_app_length'. rewrite sector_len; nia.
Qed.

#[export] Program Instance nvmq_queue (Hnb : TCEq (0 <=? nb) true) : NvmeQueue page_spdk nvmq_lib dev 7 11 d :=
  {| nq_media := fun o x => ram_sector dev (mq_ram o) x; nq_cmds := mq_cmds;
     nq_lag := fun o => if mq_busy o then 1%nat else 0%nat; nq_lag_max := 1 |}.
Next Obligation. intros Hnb o. cbn. destruct (mq_busy o); lia. Qed.
Next Obligation.
  intros Hnb cmd dmas l data meta p s Hwf _ Hdec _ _ _ _ Hlt. cbn in *. unfold nvmq_submit.
  apply wp_bind. eapply wp_intro; [done|]. rewrite Hdec, (proj2 (Z.ltb_lt _ _)) by done.
  apply wp_bind. eapply wp_intro; [done|]. apply wp_ret. split; [done|]. by split; [apply nvmq_keeps|].
Qed.
Next Obligation.
  intros Hnb s Hwf Hap. apply TCEq_eq, Z.leb_le in Hnb. cbn in *. unfold nvmq_process.
  apply wp_bind. eapply wp_intro; [done|]. destruct (mq_busy (sw_os (world s))) eqn:Eb;
    (apply wp_bind; eapply wp_intro; [done|]; apply wp_ret; split; [by apply nvmq_keeps|]).
  - exists []. split; [by split; [|split; [|split]]|]. split; [done|]. split; [by left|]. intros _ _. cbn. lia.
  - set (cs := mq_cmds (sw_os (world s))) in *. set (done := take 2 (reverse cs)).
    assert (Hp : cs ≡ₚ done ++ reverse (drop 2 (reverse cs))).
    { unfold done. rewrite (reverse_Permutation (drop 2 _)), take_drop. symmetry. apply reverse_Permutation. }
    exists done. split.
    { destruct (sw_os (world s)) as [ram cs' b]. apply nvmq_executed; [done|].
      rewrite Permutation_app_comm in Hp. apply (apart_perm _ _ _ Hp) in Hap. by apply apart_app in Hap as [? _]. }
    split; [exact Hp|]. split; [by left|]. intros E Hne. destruct Hne.
    apply (f_equal length) in E. unfold done in E. rewrite length_take, length_reverse in E.
    apply nil_length_inv. cbn [length] in E. lia.
Qed.
End nvmq.

#[export] Instance tiny_nvmq : NvmeQueue page_spdk (nvmq_lib tiny_spdk 3) tiny_spdk 7 11 3 := nvmq_queue tiny_spdk 3 (TCEq_refl _).

Definition tiny_nvmq_world : spdk_world nvmq :=
  SpdkWorld false {[ 0 := SpdkState 6 7 8 (dev_ns tiny20) 1 true 9 ]} ∅ {[ 11 := SpdkCtx 3 0 77 ]} ∅ (Nvmq ∅ [] true).

Lemma tiny_nvmq_ok : vblk20_ok tiny_spdk tiny_async 2.
Proof. split; try done; [by eapply members_ext, tiny_members|by exists 4]. Qed.

Lemma tiny_nvmq_idle : spdk_idle page_spdk (nvmq_lib tiny_spdk 3) tiny_spdk 7 11 3 tiny_nvmq_world.
Proof. split; [by eexists|by eexists|done]. Qed.

(** Three units on a context of depth 3, completed out of order. *)
Lemma spdk_async_write_witness :
  let s := Sys 0 (sample_heap 99) tiny_nvmq_world in
  let be := nvm_be_spdk page_spdk (nvmq_lib tiny_spdk 3) (fun _ => 0) (fun _ => 11) (fun _ _ => 0) 6 in
  exists pokes, forall fuel, (pokes <= fuel)%nat ->
  wp (vblk_async_pwrite_s20 page_spdk be tiny_spdk fuel tiny_async (Some tiny_data) 12 0) s
    (fun '(r, v') s' => r = 12 ->
       ram_sector tiny_spdk (mq_ram (sw_os (world s'))) (nvm_addr_gen2dev tiny_spdk (lin20 tiny_async 2 5)) = [20; 21] /\
       live s' = live s /\ rets v' ≡ₚ [101; 102; 103]).
Proof.
  intros s be. destruct (spdk_async_write page_spdk (nvmq_lib tiny_spdk 3) (fun _ => 0) (fun _ => 11) (fun _ _ => 0) 6
    tiny_spdk 7 11 3 ltac:(by split) eq_refl tiny_spdk_lba (fun _ => eq_refl) ltac:(done) ltac:(done) ltac:(cbn; lia)
    tiny_async 2 tiny_nvmq_ok tiny_lba_dom ltac:(by left) ltac:(by split) (Some tiny_data) 12 0 s (sample_heap_wf _ _ _)
    tiny_nvmq_idle ltac:(by exists (AsyncCtx 3 0 11)) ltac:(split; [done|split; [by repeat constructor|done]]) ltac:(done))
    as [pokes C].
  { split; try done; [by exists 3|by exists 0]. }
  { by exists 0. }
  { done. }
  exists pokes. intros fuel Hf. eapply wp_mono; [by apply C|]. intros [r v'] s' (_ & _ & Hres) Er.
  destruct Hres as [(_ & Hd & Hl & _ & _ & _ & Hp)|[E _]]; [|by rewrite E in Er].
  split; [exact (Hd 5 ltac:(by split))|by split].
Defined.
