(* ===== verification/SpdkCopy.v ===== *)
(** The copy of virtual blocks on the SPDK backend, the one backend that has a
    vector copy: the submission entry with its two lists of addresses, and the
    instance of [CopyMedia] over a controller that executes it. *)
From stdpp Require Import base numbers strings gmap option list.
From S2P Require Import Prelude Types Nvme Addr Dev Backend Buf Be Cmd Wrap Spdk Vblk Stripe Media Linear VblkIO.
From S2P Require Import VblkCopy DevMedia WrapSpec SpdkSpec.

(** ** Setup *)

Section wrap.
Context {W : Type} (spdk : spdk_env W) (ptr_of : mem -> Z) (dev : nvm_dev) (Halloc : alloc_ok spdk dev).
Context (Hbe : be_id dev = NVM_BE_SPDK \/ be_id dev = NVM_BE_NOCD) (Hok : lba_dev_ok dev) (Hphys : phys_apart spdk).
Context (src dst : list nvm_addr) (n : Z) (Hn : 0 < n <= NVM_NADDR_MAX).
Context (Hsrc : Z.of_nat (length src) = n) (Hdst : Z.of_nat (length dst) = n).
Implicit Types s : sys W.
#[local] Abbreviation gen2dev := (nvm_addr_gen2dev dev).

(** The entry before the addresses. *)
Definition copy_entry : nvm_nvme_cmd :=
  set_s20_naddrs (n - 1) (with_cmd_nsid (dev_nsid dev) (set_opcode NVM_DOPC_VECTOR_COPY zero_cmd)).

(** The word of a list of addresses: the block [q] that has it, or the address. *)
Definition addrs_word (q : Z) (l : list nvm_addr) : Z :=
  if 1 <? n then spdk_vtophys spdk q else default 0 (gen2dev <$> l !! 0%nat).

(** The wrap a successful setup answers. *)
Record wrap_copy (ret : retp) (w : nvm_cmd_wrap) : Prop := {
  wc_ret : w_ret w = ret;
  wc_completed : w_completed w = 0;
  wc_data : w_data w = KMem None;
  wc_len : w_data_len w = 0;
  wc_meta : w_meta w = None;
  wc_cmd : w_cmd w = with_addrs_dst (addrs_word (w_dst_dma w) dst) (with_cmd_addrs (addrs_word (w_addrs_dma w) src) copy_entry);
  wc_dma : w_dma w = if 1 <? n then
    [(w_addrs_dma w, DmaAddrs (gen2dev <$> src)); (w_dst_dma w, DmaAddrs (gen2dev <$> dst))] else [];
  wc_apart : 1 < n -> w_addrs_dma w <> 0 /\ w_dst_dma w <> 0 /\ w_addrs_dma w <> w_dst_dma w }.

(** The device reads the sectors meant. *)
Lemma wrap_copy_decode ret w : wrap_copy ret w ->
  copy_decode spdk (w_cmd w) (w_dma w) = Some (gen2dev <$> src, gen2dev <$> dst).
Proof.
  intros [_ _ _ _ _ -> -> Hap]. unfold NVM_NADDR_MAX in Hn. unfold copy_decode, vector_sectors.
  change (psdt_of (with_addrs_dst _ _)) with (psdt_of copy_entry).
  change (opcode_of (with_addrs_dst _ _)) with (opcode_of copy_entry).
  cbn [with_addrs_dst with_cmd_addrs cdw12 cmd_addrs addrs_dst copy_entry set_s20_naddrs with_cdw12].
  rewrite bf_get_set, wrap_id by lia. replace (n - 1 + 1) with n by lia.
  change (psdt_of copy_entry) with NVM_NVME_PSDT_PRP. change (opcode_of copy_entry) with NVM_DOPC_VECTOR_COPY.
  rewrite !Z.eqb_refl. cbn [negb]. unfold addrs_word. destruct (Z.eqb_spec n 1) as [E1|E1].
  - rewrite (proj2 (Z.ltb_ge 1 n)) by lia.
    destruct src as [|a [|]], dst as [|b [|]]; cbn in Hsrc, Hdst; try lia. done.
  - rewrite (proj2 (Z.ltb_lt 1 n)) by lia. cbn [find_addrs]. destruct Hap as (H1 & H2 & H3); [lia|].
    rewrite !length_fmap, Hsrc, Hdst, !Z.eqb_refl. cbn [andb].
    destruct (Z.eqb_spec (spdk_vtophys spdk (w_addrs_dma w)) (spdk_vtophys spdk (w_dst_dma w))) as [E|E]; [|done].
    by destruct (H3 (Hphys _ _ H1 H2 E)).
Qed.

Lemma owns_unnull {I} L ps s : good I s -> owns L (0 :: ps) s -> owns L ps s.
Proof. intros Hwf Ho. eapply owns_drop; [exact Hwf|exact Ho|]. pose proof (live_not_0 _ Hwf). set_solver. Qed.

(** The block of the destination joins the others. *)
Lemma wrap_owned_dst {I} L p w q l s' s1 : good I s1 -> good I s' -> q <> 0 -> q ∉ live s1 ->
  live s' = {[q]} ∪ live s1 -> w_dsmr w = 0 -> w_dst_dma w = 0 -> wrap_owned L p w s1 ->
  wrap_owned L p (w_with_dst q l w) s'.
Proof.
  intros Hwf Hwf' Hq Hf Hl E1 E2. unfold wrap_owned, wrap_blocks. cbn [w_dsmr w_addrs_dma w_dst_dma w_with_dst].
  rewrite E1, E2. intros Ho%(owns_unnull _ _ _ Hwf).
  apply (owns_ext _ _ [0; w_addrs_dma w; p] _ s1) in Ho; [|apply Permutation_swap|done].
  apply (owns_unnull _ _ _ Hwf) in Ho. eapply owns_null; [done|].
  apply (owns_ext _ [q; w_addrs_dma w; p] _ s'); [apply Permutation_swap|done|]. by eapply owns_new.
Qed.

(** The second list. *)
Definition with_dst_list (q : Z) (w : nvm_cmd_wrap) : nvm_cmd_wrap :=
  let w := w_with_cmd (with_addrs_dst (addrs_word q dst) (w_cmd w)) w in
  if 1 <? n then w_with_dst q (gen2dev <$> dst) w else w.

Lemma wp_wrap_dst {I} L p w s (Q : option (boxed nvm_cmd_wrap) -> sys W -> Prop) :
  good I s -> wrap_owned L p w s -> w_dsmr w = 0 -> w_dst_dma w = 0 ->
  (forall s', good I s' -> live s' = L -> world s' = world s -> Q None s') ->
  (forall q s', good I s' -> wrap_owned L p (with_dst_list q w) s' -> world s' = world s ->
     (1 < n -> q <> 0 /\ q ∉ live s) -> Q (Some (p, with_dst_list q w)) s') ->
  wp (r ← wrap_addrs spdk dev dst n;
      match r with
      | None => _ ← nvm_cmd_wrap_term spdk dev (p, w); mret None
      | Some (word, block) =>
          let w := w_with_cmd (with_addrs_dst word (w_cmd w)) w in
          mret (Some (p, match block with Some (q, l) => w_with_dst q l w | None => w end))
      end) s Q.
Proof.
  intros Hwf Ho E1 E2 HE HS. unfold NVM_NADDR_MAX in Hn.
  destruct (dst !! 0%nat) as [b|] eqn:Hb; [|by destruct dst; cbn in *; [lia|]].
  apply wp_bind. eapply (wp_wrap_addrs spdk dev Halloc Hbe); [exact Hwf|lia|exact Hdst|exact Hb|..].
  - intros s2 Hwf2 Hl2 Hw2 _. apply wp_bind.
    eapply (wp_wrap_term spdk dev Halloc); [done|by eapply wrap_owned_ext; [..|exact Ho]|].
    intros s3 ????. apply wp_ret, HE; [done|done|congruence].
  - intros En. apply wp_ret. specialize (HS 0 s). unfold with_dst_list, addrs_word in HS.
    rewrite (proj2 (Z.ltb_ge 1 n)), Hb in HS by lia. apply HS; [done| |done|lia].
    by eapply wrap_owned_ext; [..|exact Ho].
  - intros q s2 En Hq Hqf Hwf2 Hl2 Hw2 _. apply wp_ret. specialize (HS q s2). unfold with_dst_list, addrs_word in HS.
    rewrite (proj2 (Z.ltb_lt 1 n)) in HS by lia. apply HS; [done| |done|done].
    eapply wrap_owned_dst; [exact Hwf|done..|]. by eapply wrap_owned_ext; [..|exact Ho].
Qed.

Lemma wp_wrap_copy {I} flags ret s (Q : option (boxed nvm_cmd_wrap) * payload -> sys W -> Prop) :
  good I s -> flag_set flags NVM_CMD_SGL = false ->
  (forall s', good I s' -> live s' = live s -> world s' = world s -> Q (None, PMem None) s') ->
  (forall p w s', p <> 0 -> good I s' -> wrap_owned (live s) p w s' -> world s' = world s ->
     wrap_copy ret w -> Q (Some (p, w), PMem None) s') ->
  wp (nvm_cmd_wrap_setup spdk ptr_of dev NVM_DOPC_VECTOR_COPY (PMem None) (PMem None) src (Some dst) n flags ret) s Q.
Proof.
  intros Hwf Hf HE HS. pose proof (lf_verid _ (id_fmt _ Hok)) as Hver. unfold NVM_NADDR_MAX in Hn.
  destruct (src !! 0%nat) as [a|] eqn:Ha; [|by destruct src; cbn in *; [lia|]].
  unfold nvm_cmd_wrap_setup. apply wp_bind. eapply wp_malloc; [done| |].
  { intros s' ????. cbn. by apply wp_ret, HE. }
  intros p s1 Hp Hfr Hwf1 Hl1 Hw1 He1. rewrite (proj2 (Z.eqb_neq p 0)) by done.
  rewrite Hf. cbn [andb payload_data]. do 2 (apply wp_bind; eapply wp_intro; [done|]).
  change (NVM_DOPC_VECTOR_COPY =? NVM_DOPC_SCALAR_ERASE) with false.
  unfold wrap_sizes. rewrite Hver. change (NVM_SPEC_VERID_20 =? NVM_SPEC_VERID_12) with false.
  rewrite Z.eqb_refl. change (nvm_cmd_is_scalar NVM_DOPC_VECTOR_COPY =? 0) with true. cbn [is_null].
  set (w := w_with_cmd _ _). apply wp_bind, wp_ret. cbn [negb]. apply wp_bind. unfold cmd_wrap_setup_sgl.
  unfold flag_set in Hf. destruct (Z.land flags NVM_CMD_SGL =? 0); [|done]. apply wp_ret.
  change ((NVM_DOPC_VECTOR_COPY =? NVM_DOPC_SCALAR_WRITE) || _) with false.
  assert (Ho : wrap_owned (live s) p w s1) by (by eapply wrap_owned_new).
  apply wp_bind. unfold wrap_vector. apply wp_bind.
  eapply (wp_wrap_addrs spdk dev Halloc Hbe); [exact Hwf1|lia|exact Hsrc|exact Ha|..].
  - intros s2 Hwf2 Hl2 Hw2 _. apply wp_bind.
    eapply (wp_wrap_term spdk dev Halloc); [done|by eapply wrap_owned_ext; [..|exact Ho]|].
    intros s3 ????. apply wp_ret, wp_ret, HE; [done|done|congruence].
  - intros En. apply (wp_wrap_dst (I := I) (live s)); [done|by eapply wrap_owned_ext; [..|exact Ho]|done|done|..].
    + intros s2 ???. apply wp_ret, HE; [done|done|congruence].
    + intros q s2 Hwf2 Ho2 Hw2 _. apply wp_ret, HS; [done|done|done|congruence|].
      unfold with_dst_list. rewrite (proj2 (Z.ltb_ge 1 n)) by lia.
      split; try done; cbn; unfold addrs_word; rewrite ?(proj2 (Z.ltb_ge 1 n)), ?Ha by lia; done || lia.
  - intros q s2 En Hq Hqf Hwf2 Hl2 Hw2 _.
    assert (Ho2 : wrap_owned (live s) p (w_with_addrs q (gen2dev <$> src) (w_with_cmd (with_cmd_addrs (spdk_vtophys spdk q) (w_cmd w)) w)) s2).
    { eapply (wrap_owned_addrs spdk dev Halloc Hbe Hok s); [exact Hwf1|done|exact Hqf|done..|]. by eapply wrap_owned_ext; [..|exact Ho]. }
    apply (wp_wrap_dst (I := I) (live s)); [done|exact Ho2|done|done|..].
    + intros s3 ???. apply wp_ret, HE; [done|done|congruence].
    + intros q' s3 Hwf3 Ho3 Hw3 Hq'. destruct Hq' as [Hq1 Hq2]; [lia|].
      apply wp_ret, HS; [done|done|done|congruence|]. unfold with_dst_list. rewrite (proj2 (Z.ltb_lt 1 n)) by lia.
      split; try done; cbn; unfold addrs_word; rewrite ?(proj2 (Z.ltb_lt 1 n)) by lia; try done.
      intros _. split; [done|]. split; [done|]. intros ->. apply Hq2. rewrite Hl2. set_solver.
Qed.
End wrap.

(** ** What the controller does *)

(** A copy that ended without an error has moved the sectors. *)
Definition copied {W} (media : W -> Z -> list Z) (src dst : list Z) (s : sys (spdk_world W)) (e : cpl_event)
    (s' : sys (spdk_world W)) : Prop :=
  cpl_ok e -> forall i x y, src !! i = Some x -> dst !! i = Some y ->
    media (sw_os (world s')) y = media (sw_os (world s)) x.

(** The controller of [NvmeDisk] executes copy commands too: one that names
    sectors to copy into as many other sectors is accepted or refused, and
    completed within [cp_lag] calls. *)
Class NvmeCopier {W} (spdk : spdk_env (spdk_world W)) (lib : spdk_nvme (spdk_world W)) (dev : nvm_dev) (ctrlr q : Z)
    `{!NvmeDisk spdk lib dev ctrlr q} := {
  cp_pending : W -> Z -> list Z -> list Z -> nat -> Prop;
  cp_lag : nat;
  cp_submit_law cmd dmas src dst p (s : sys (spdk_world W)) :
    heap_wf s -> dk_idle (sw_os (world s)) -> cmd_nsid cmd = u32 (dev_nsid dev) ->
    copy_decode spdk cmd dmas = Some (src, dst) -> length src = length dst -> 0 < Z.of_nat (length dst) ->
    NoDup dst -> (forall d, d ∈ src -> d ∉ dst) ->
    wp (spdk_nvme_ctrlr_cmd_io_raw_with_md lib ctrlr q cmd dmas (KMem None) 0 None p) s (fun err s' =>
      lib_step dk_media [] s s' /\
      (err <> 0 /\ dk_idle (sw_os (world s')) \/
       err = 0 /\ exists k, (k <= cp_lag)%nat /\ cp_pending (sw_os (world s')) p src dst k));
  cp_process_law p src dst k (s : sys (spdk_world W)) :
    heap_wf s -> cp_pending (sw_os (world s)) p src dst k ->
    wp (spdk_nvme_qpair_process_completions lib q 0) s (fun '(_, events) s' =>
      lib_step dk_media dst s s' /\
      ((events = [] /\ exists k', (k' < k)%nat /\ cp_pending (sw_os (world s')) p src dst k') \/
       exists e, events = [e] /\ ce_arg e = p /\ dk_idle (sw_os (world s')) /\ copied dk_media src dst s e s')) }.

(** ** The interface *)

Section copy.
Context {W : Type}.
#[local] Abbreviation SW := (spdk_world W).
Context (spdk : spdk_env SW) (lib : spdk_nvme SW) (ptr_of : mem -> Z) (ret_ctx : Z -> Z) (polls : nat).
Context (dev : nvm_dev) (ctrlr q : Z) `{!NvmeDisk spdk lib dev ctrlr q, !NvmeCopier spdk lib dev ctrlr q}.
Context (Halloc : alloc_ok spdk dev) (Hbe : be_id dev = NVM_BE_SPDK \/ be_id dev = NVM_BE_NOCD).
Context (Hok : lba_dev_ok dev) (Hphys : phys_apart spdk) (Hpolls : (dk_lag < polls)%nat) (Hcp : (cp_lag < polls)%nat).
Implicit Types s : sys SW.
#[local] Abbreviation gen2dev := (nvm_addr_gen2dev dev).
#[local] Abbreviation ready := (spdk_ready spdk lib dev ctrlr q).
#[local] Abbreviation km := (fun w => dk_media (sw_os w)).

Lemma copied_from src dst s0 s e s' : (forall d, d ∈ src -> d ∉ dst) -> lib_step dk_media dst s0 s ->
  copied dk_media src dst s e s' -> copied dk_media src dst s0 e s'.
Proof.
  intros Hap Hst Hc He i x y Hx Hy. rewrite (Hc He i x y Hx Hy).
  by eapply ls_media, Hap, list_elem_of_lookup_2.
Qed.

(** The sectors of [src] in those of [dst], by device addresses. *)
Definition copy_post (src dst : list Z) s (e : Z) s' : Prop :=
  good ready s' /\ live s' = live s /\ (forall d, d ∉ dst -> km (world s') d = km (world s) d) /\
  (e = 0 -> forall i x y, src !! i = Some x -> dst !! i = Some y -> km (world s') y = km (world s) x).

Lemma wp_sync_copy src dst flags ret s (Q : io_res -> sys SW -> Prop) :
  let n := Z.of_nat (length dst) in
  good ready s -> sync_flags flags -> length src = length dst -> 0 < n <= NVM_NADDR_MAX ->
  NoDup (gen2dev <$> dst) -> (forall d, d ∈ gen2dev <$> src -> d ∉ gen2dev <$> dst) ->
  (forall r s', copy_post (gen2dev <$> src) (gen2dev <$> dst) s (rc r) s' -> Q r s') ->
  wp (spdk_ewrc spdk lib ptr_of ret_ctx polls dev src (Some dst) n None None flags NVM_DOPC_VECTOR_COPY ret) s Q.
Proof.
  intros n Hwf Hf Hlen Hn Hnd Hap HQ. unfold spdk_ewrc. rewrite (proj2 (Z.eqb_neq _ _) (proj1 Hf)).
  unfold cmd_sync_ewrc. apply wp_bind.
  eapply (wp_wrap_copy spdk ptr_of dev Halloc Hbe Hok Hphys src dst n Hn); [by rewrite Hlen|done|exact Hwf|apply Hf|..].
  { intros s1 Hwf1 Hl1 Hw1. apply wp_ret, HQ. split; [done|]. split; [done|]. split; [|done]. intros d _. by rewrite Hw1. }
  intros p w s1 _ Hwf1 Ho Hw1 Hwc.
  pose proof (wrap_copy_decode spdk dev Hphys src dst n Hn ltac:(by rewrite Hlen) eq_refl ret w Hwc) as Hdec.
  destruct Hwc as [Eret Hcpl Hdata Hdlen Hmeta Hcmd _ _].
  eapply (wp_sync_run spdk lib ptr_of ret_ctx polls dev ctrlr q Halloc Hbe Hpolls p (gen2dev <$> dst)
    (fun o k => cp_pending o p (gen2dev <$> src) (gen2dev <$> dst) k) (copied dk_media (gen2dev <$> src) (gen2dev <$> dst)));
    [intros k s2 Hwf2 Hp; by apply (cp_process_law p _ _ k)|intros; by eapply copied_from|exact Hwf1|exact Ho|done|..].
  - intros s2 e s' _. unfold data_after. rewrite Hdata. by eexists.
  - unfold submit_ioc. rewrite Hdata, Hdlen, Hmeta. eapply wp_mono.
    { apply (cp_submit_law _ _ (gen2dev <$> src) (gen2dev <$> dst)); try done.
      - by destruct Hwf1.
      - apply Hwf1.
      - by rewrite Hcmd.
      - by rewrite !length_fmap.
      - rewrite length_fmap. lia. }
    intros err s2 [Hs2 [Hres|(-> & k & Hk & Hp)]]; (split; [done|]); [by left|right; split; [done|]].
    exists k. split; [lia|done].
  - intros s' Hwf' Hl' Hm. apply HQ. split; [done|]. split; [done|]. split; [|done]. intros d _. by rewrite Hm, Hw1.
  - intros r e s2 s' Hs2 Hd Hwf' Hl' Hos _ Hrc. apply HQ. split; [done|]. split; [done|]. rewrite Hos, <-Hw1. split.
    + intros d Hd'. by apply Hs2.
    + intros E. by apply Hd, Hrc.
Qed.

Context (junk : Z -> Z -> Z).
#[local] Abbreviation be := (nvm_be_spdk spdk lib ptr_of ret_ctx junk polls).
#[local] Abbreviation M0 := (spdk_implements_media spdk lib ptr_of ret_ctx polls dev ctrlr q Halloc Hbe Hok Hpolls junk).

(** As a write of what the sectors of the source have. *)
Lemma copy_post_write src dst s e s' : length src = length dst -> copy_post src dst s e s' ->
  write_post ready (fun _ => True) km (nbytes (geo dev)) dst (concat (km (world s) <$> src)) s e s'.
Proof.
  intros Hlen (H1 & H2 & H3 & H4). split; [done|]. split; [done|]. split; [intros d _; by apply H3|].
  intros E i y Hy. destruct (lookup_lt_is_Some_2 src i) as [x Hx]; [rewrite Hlen; by eapply lookup_lt_Some|].
  rewrite (H4 E i x y Hx Hy). symmetry. pose proof (id_nb _ Hok). apply sector_concat; [lia|..].
  - apply Forall_forall. intros z (a & -> & _)%list_elem_of_fmap. apply dk_media_len.
  - by rewrite list_lookup_fmap, Hx.
Qed.

#[export] Instance spdk_copy_media : CopyMedia (Media0 := M0) be dev.
Proof.
  split. intros src dst flags ret s Hwf Hf _ Hds Hdd Hnd Hlen Hn Hap. cbn. apply wp_bind.
  apply wp_sync_copy; [done..|by apply gen2dev_NoDup| |].
  - intros d (a & -> & Ha)%list_elem_of_fmap (b & E & Hb)%list_elem_of_fmap. rewrite Forall_forall in Hds, Hdd.
    apply gen2dev_inj in E; [|done|by apply Hds|by apply Hdd]. subst b. by apply (Hap a).
  - intros r s' Hp. apply wp_ret. apply (write_post_gen dev Hok _ km); [done|].
    replace (concat (media (Media := M0) (world s) <$> src)) with (concat (km (world s) <$> (gen2dev <$> src)))
      by (by rewrite <-list_fmap_compose).
    apply copy_post_write; [by rewrite !length_fmap|done].
Qed.
End copy.

(** ** The device in memory *)

Section nvmd.
Context (dev : nvm_dev) (lag : nat) (Hnb : TCEq (0 <=? nbytes (geo dev)) true).
#[local] Abbreviation nb := (nbytes (geo dev)).
#[local] Abbreviation ram w := (ram_sector dev (nd_ram w)).

Lemma nb_nonneg : 0 <= nb.
Proof. apply Z.leb_le. by apply TCEq_eq. Qed.

(** The copy in flight, with the data it will write. *)
Definition nvmd_copying (w : nvmd) (p : Z) (src dst : list Z) (k : nat) : Prop :=
  (exists meta, nd_pend w = Some (p, true, dst, concat (ram w <$> src), meta, k)) /\ NoDup dst /\ length src = length dst.

Lemma nvmd_copying_pending w p src dst k : nvmd_copying w p src dst k ->
  nvmd_pending dev w p true dst (concat (ram w <$> src)) k.
Proof.
  pose proof nb_nonneg as Hnb'. intros (Hp & Hnd & Hlen). split; [done|]. split; [done|].
  rewrite (length_concat_const _ (Z.to_nat nb)) by (by apply ram_sector_len). rewrite (Hlen : @length nvm_addr src = length dst). lia.
Qed.

#[local] Instance nvmd_disk_of : NvmeDisk page_spdk (nvmd_lib dev lag) dev 7 9 := nvmd_disk dev lag Hnb.

#[export] Program Instance nvmd_copier : NvmeCopier page_spdk (nvmd_lib dev lag) dev 7 9 :=
  {| cp_pending := nvmd_copying; cp_lag := lag |}.
Next Obligation.
  intros cmd dmas src dst p s Hwf Hi _ Hdec Hlen H0 Hnd Hap. cbn in Hi |- *. unfold nvmd_submit.
  apply wp_bind. eapply (wp_intro _ _ (world s) s); [done|]. rewrite Hi, Hdec.
  split; [by apply nvmd_step|]. right. split; [done|]. exists lag. split; [done|]. split; [by eexists|done].
Qed.
Next Obligation.
  intros p src dst k s Hwf Hc. pose proof nb_nonneg as Hnb'.
  pose proof (dk_process_law p true dst (concat (ram (sw_os (world s)) <$> src)) k s Hwf (nvmd_copying_pending _ _ _ _ _ Hc)) as C.
  pose proof Hc as ((meta & Hp) & Hnd & Hlen). revert C. cbn. unfold nvmd_process. unfold wp, mbind, M_bind, get_world.
  rewrite Hp. destruct k as [|k]; cbn; intros [Hs C]; (split; [exact Hs|]).
  - destruct C as [[? _]|(e & E & Ha & Hi & d' & Ed & -> & Hd)]; [done|]. right. exists e.
    split; [done|]. split; [done|]. split; [done|]. intros He i x y Hx Hy. cbn. etrans; [exact (Hd He i y Hy)|].
    apply sector_concat; [done| |apply list_lookup_fmap_Some; by exists x].
    apply Forall_forall. intros z (a & -> & _)%list_elem_of_fmap. by apply ram_sector_len.
  - left. split; [done|]. exists k. split; [lia|]. split; [by eexists|done].
Qed.
End nvmd.

(** ** Properties *)

(** C10: the copy of a virtual block on the SPDK backend. Over a controller that
    executes reads, writes and copies within a bounded number of polls, the copy
    of a 2.0 virtual block of fewer than 2^31 sectors into one of as many other
    chunks leaves the sector of every place of the source at the device address
    of the same place of the destination and every other device address as it
    was, or answers -1 with [EIO]; it keeps neither memory nor DMA memory, and
    leaves the queue pair idle for the next command. *)
Theorem spdk_vblk_copy {W} (spdk : spdk_env (spdk_world W)) (lib : spdk_nvme (spdk_world W)) (ptr_of : mem -> Z)
    (ret_ctx : Z -> Z) (junk : Z -> Z -> Z) (polls : nat) (dev : nvm_dev) (ctrlr q : Z)
    `{!NvmeDisk spdk lib dev ctrlr q, !NvmeCopier spdk lib dev ctrlr q}
    (Hspdk : spdk_ok spdk) (Hphys : phys_apart spdk) (Hbe : be_id dev = NVM_BE_SPDK) (Hok : lba_dev_ok dev)
    (Hpolls : (dk_lag < polls)%nat) (Hcp : (cp_lag < polls)%nat)
    (src dst : nvm_vblk) (ws wm flags : Z) (Hsrc : vblk20_ok dev src ws) (Hdst : vblk20_ok dev dst ws)
    (Hmin : ws_min (s20_wrt (dev_idfy dev)) = wm) (Hwm : 0 < wm <= NVM_NADDR_MAX) (Hdiv : (wm | nsectr (geo dev)))
    (Hint : lin_size dev src < 2 ^ 31) (Hv : vdev src = vdev dst) (Hn : nblks src = nblks dst)
    (Hds : sectors_in dev src (lba_dom dev)) (Hdd : sectors_in dev dst (lba_dom dev))
    (Hapart : forall i j, 0 <= i < nblks src -> 0 <= j < nblks dst ->
       chunk_id (member src i) <> chunk_id (member dst j))
    (s : sys (spdk_world W)) (Hwf : heap_wf s) (Hready : spdk_ready spdk lib dev ctrlr q (world s)) :
  let at_ v i o := nvm_addr_gen2dev dev (chunk_sector v i o) in
  let sect (s : sys (spdk_world W)) d := dk_media (sw_os (world s)) d in
  wp (nvm_vblk_copy (nvm_be_spdk spdk lib ptr_of ret_ctx junk polls) dev src dst flags) s (fun r s' =>
    live s' = live s /\ spdk_ready spdk lib dev ctrlr q (world s') /\
    (forall d, 0 <= d < 2 ^ lba_width dev ->
       (forall i o, 0 <= i < nblks dst -> 0 <= o < nsectr (geo dev) -> d <> at_ dst i o) -> sect s' d = sect s d) /\
    (r = vblk_nbytes src /\ (forall i o, 0 <= i < nblks src -> 0 <= o < nsectr (geo dev) ->
       sect s' (at_ dst i o) = sect s (at_ src i o)) \/
     r = -1 /\ errno s' = EIO)).
Proof.
  intros at_ sect. assert (Halloc : alloc_ok spdk dev) by (by apply dma_alloc_ok; [|left]).
  pose (I0 := spdk_implements_media spdk lib ptr_of ret_ctx polls dev ctrlr q Halloc (or_introl Hbe) Hok Hpolls junk).
  pose (I1 := spdk_copy_media spdk lib ptr_of ret_ctx polls dev ctrlr q Halloc (or_introl Hbe) Hok Hphys Hpolls Hcp junk).
  apply (wp_vblk_copy (Media0 := I0) (CopyMedia0 := I1) _ dev src dst ws wm flags); try done.
  { split; [by split|]. intros n Hn'. cbn. lia. }
  { exact (good_intro (spdk_ready spdk lib dev ctrlr q) s Hwf Hready). }
  intros r s' Hwf' Hl Hfr Hres. split; [done|]. split; [apply Hwf'|]. split; [|exact Hres].
  intros d Hrange Hne. destruct (dev2gen_dom dev Hok d Hrange) as [Hdm E]. unfold sect. rewrite <-E.
  apply (Hfr _ Hdm). intros i o Hi Ho Ea. apply (Hne i o Hi Ho). unfold at_. by rewrite <-Ea.
Qed.

(** ** Witness *)

#[export] Instance tiny_nvme_copier : NvmeCopier page_spdk (nvmd_lib tiny_spdk 3) tiny_spdk 7 9 :=
  nvmd_copier tiny_spdk 3 (TCEq_refl _).

Lemma page_apart : phys_apart (page_spdk (W := spdk_world nvmd)).
Proof. intros p q _ _ E. cbn in E. lia. Qed.

Lemma tiny_spdk_ok v : vblk20_ok tiny20 v 2 -> vblk20_ok tiny_spdk v 2.
Proof. intros [H1 H2 H3 H4 H5 H6 H7 H8 H9 H10]. by split. Qed.

(** Every sector of the chunks of a block is on the device. *)
Lemma tiny_sectors v : nblks v = 2 ->
  bool_decide (Forall (lba_dom tiny20) (io ← seqZ 0 2; chunk_sector v io <$> seqZ 0 8)) = true ->
  sectors_in tiny_spdk v (lba_dom tiny_spdk).
Proof.
  intros Hn H%bool_decide_eq_true_1 i o Hi Ho. rewrite Forall_forall in H.
  apply (H (chunk_sector v i o)), list_elem_of_bind. exists i. rewrite Hn in Hi. cbn in Ho.
  split; [apply list_elem_of_fmap_2|]; apply elem_of_seqZ; lia.
Qed.

(** The content of one sector, copied with the others by one command on 16
    addresses that the fourth poll completes. *)
Lemma spdk_vblk_copy_witness :
  let from := nvm_addr_gen2dev tiny_spdk (chunk_sector tiny_vblk 1 5) in
  let to := nvm_addr_gen2dev tiny_spdk (chunk_sector tiny_dst 1 5) in
  let w := SpdkWorld false {[ 0 := SpdkState 6 7 8 (dev_ns tiny20) 1 true 9 ]} ∅ ∅ ∅ (Nvmd {[ from := [44; 45] ]} None) in
  let s := Sys 0 (sample_heap 99) w in
  wp (nvm_vblk_copy (nvm_be_spdk page_spdk (nvmd_lib tiny_spdk 3) (fun _ => 0) (fun _ => 0) (fun _ _ => 0) 4)
        tiny_spdk tiny_vblk tiny_dst 0) s (fun r s' =>
    r = 32 /\ live s' = live s /\ ram_sector tiny_spdk (nd_ram (sw_os (world s'))) to = [44; 45]).
Proof.
  intros from to w s. pose proof (spdk_vblk_copy page_spdk (nvmd_lib tiny_spdk 3) (fun _ => 0) (fun _ => 0) (fun _ _ => 0) 4
    tiny_spdk 7 9 ltac:(by split) page_apart eq_refl tiny_spdk_lba ltac:(cbn; lia) ltac:(cbn; lia) tiny_vblk tiny_dst 2 2 0
    (tiny_spdk_ok _ tiny_vblk_ok) (tiny_spdk_ok _ tiny_dst_ok) eq_refl ltac:(by split) ltac:(by exists 4) ltac:(done)
    eq_refl eq_refl ltac:(apply tiny_sectors; [done|by vm_compute]) ltac:(apply tiny_sectors; [done|by vm_compute])) as C.
  specialize (C ltac:(intros i j Hi Hj; cbn in Hi, Hj; assert (i = 0 \/ i = 1) as [-> | ->] by lia;
    assert (j = 0 \/ j = 1) as [-> | ->] by lia; by vm_compute) s (sample_heap_wf _ _ _) ltac:(split; [by eexists|done])).
  apply wp_elim in C as (r & s' & E & Hl & _ & _ & Hres). eapply wp_intro; [exact E|].
  assert (Er : r = 32) by (assert (E2 := E); vm_compute in E2; congruence).
  destruct Hres as [[_ Hd]|[? _]]; [|lia]. split; [done|]. split; [done|].
  etrans; [exact (Hd 1 5 ltac:(by split) ltac:(by split))|by vm_compute].
Defined.
