(* ===== verification/SpdkRprt.v ===== *)
(** Chunk reports and the search for chunks on the SPDK backend: over a
    controller that answers the log page of chunk information, [rprt] is the
    part of the log asked for, and [nvm_cmd_rprt_arbs] finds chunks by it. *)
From stdpp Require Import base numbers strings gmap option list.
From S2P Require Import Prelude Types Nvme Addr Dev Backend Buf Be Cmd Wrap Spdk.
From S2P Require Import Vblk Stripe Media Linear VblkIO DevMedia Reports WrapSpec SpdkSpec.

(** ** The controller *)

(** The entry asks for the log page of chunk information, [count] descriptors
    from [off] on. *)
Definition glp_cmd (cmd : nvm_nvme_cmd) (off count : Z) : Prop :=
  let numd := bf_get 16 16 (cmd_addrs cmd) + bf_get 32 16 (cmd_addrs cmd) * 2 ^ 16 in
  opcode_of cmd = NVM_AOPC_RPRT /\ bf_get 0 8 (cmd_addrs cmd) = 0xCA /\
  (numd + 1) * 4 = count * SIZEOF_DESCR /\ cdw12 cmd + cdw13 cmd * 2 ^ 32 = off * SIZEOF_DESCR.

(** The library waited: only the device's own state has moved. *)
Record admin_step {W} (log : W -> list nvm_spec_rprt_descr) (s s' : sys (spdk_world W)) : Prop := {
  as_wf : heap_wf s';
  as_live : live s' = live s;
  as_world : world s' = with_os (sw_os (world s')) (world s);
  as_log : log (sw_os (world s')) = log (sw_os (world s)) }.

Lemma admin_step_trans {W} (log : W -> list nvm_spec_rprt_descr) s1 s2 s3 :
  admin_step log s1 s2 -> admin_step log s2 s3 -> admin_step log s1 s3.
Proof. intros [A1 A2 A3 A4] [B1 B2 B3 B4]. split; [done|congruence| |congruence]. by rewrite B3, A3. Qed.

(** The admin queue of the controller [ctrlr]: a command for the log page is
    refused, or answered within [lg_lag] calls that process completions. *)
Class NvmeLog {W} (lib : spdk_nvme (spdk_world W)) (dev : nvm_dev) (ctrlr : Z) := {
  lg_log : W -> list nvm_spec_rprt_descr;
  lg_len w : Z.of_nat (length (lg_log w)) = npugrp (geo dev) * npunit (geo dev) * nchunk (geo dev);
  lg_idle : W -> Prop;
  lg_pending : W -> Z -> Z -> nat -> Prop;
  lg_lag : nat;
  lg_submit_law cmd off count l (s : sys (spdk_world W)) :
    heap_wf s -> lg_idle (sw_os (world s)) -> glp_cmd cmd off count -> 0 <= off -> 0 < count ->
    off + count <= npugrp (geo dev) * npunit (geo dev) * nchunk (geo dev) -> Z.of_nat (length l) = count ->
    wp (spdk_nvme_ctrlr_cmd_admin_raw lib ctrlr cmd [] (KDescr l) (count * SIZEOF_DESCR)) s (fun err s' =>
      admin_step lg_log s s' /\
      (err <> 0 /\ lg_idle (sw_os (world s')) \/
       err = 0 /\ exists k, (k <= lg_lag)%nat /\ lg_pending (sw_os (world s')) off count k));
  lg_process_law off count k (s : sys (spdk_world W)) :
    heap_wf s -> lg_pending (sw_os (world s)) off count k ->
    wp (spdk_nvme_ctrlr_process_admin_completions lib ctrlr) s (fun o s' =>
      admin_step lg_log s s' /\
      match o with
      | None => exists k', (k' < k)%nat /\ lg_pending (sw_os (world s')) off count k'
      | Some e => lg_idle (sw_os (world s')) /\
          ce_data e = KDescr (take (Z.to_nat count) (drop (Z.to_nat off) (lg_log (sw_os (world s)))))
      end) }.

(** ** Reports *)

Section rprt.
Context {W : Type}.
#[local] Abbreviation SW := (spdk_world W).
Context (spdk : spdk_env SW) (lib : spdk_nvme SW) (ptr_of : mem -> Z) (polls : nat).
Context (dev : nvm_dev) (ctrlr : Z) `{!NvmeLog lib dev ctrlr} (Halloc : alloc_ok spdk dev).
Context (Hver : verid dev = NVM_SPEC_VERID_20) (Hg : geo_counts_ok (geo dev)) (Hpolls : (lg_lag < polls)%nat).
Implicit Types s : sys SW.
#[local] Abbreviation total := (npugrp (geo dev) * npunit (geo dev) * nchunk (geo dev)).
#[local] Abbreviation os s := (sw_os (world s)).
Context (Ht : total <= 2 ^ 23).

(** The handle is open on the controller, with nothing on its admin queue and
    the log as it was in [w0]. *)
Definition log_ready (w0 : W) (w : SW) : Prop :=
  (exists st, sw_states w !! be_state dev = Some st /\ st_ctrlr st = ctrlr) /\ lg_idle (sw_os w) /\
  lg_log (sw_os w) = lg_log w0.

#[local] Abbreviation part w0 off n := (take (Z.to_nat n) (drop (Z.to_nat off) (lg_log w0))).

Lemma log_ready_step w0 s0 s : good (log_ready w0) s0 -> admin_step lg_log s0 s -> lg_idle (os s) -> good (log_ready w0) s.
Proof.
  intros [_ (Hst & _ & Hl)] [A1 A2 A3 A4] Hi. split; [by destruct A1|]. split; [by rewrite A3|].
  split; [done|congruence].
Qed.

Lemma wp_admin_wait fuel off count k s s0 (Q : cpl_event -> sys SW -> Prop) :
  (k < fuel)%nat -> lg_pending (os s) off count k -> heap_wf s -> admin_step lg_log s0 s ->
  (forall e s', admin_step lg_log s0 s' -> lg_idle (os s') -> ce_data e = KDescr (part (os s0) off count) -> Q e s') ->
  wp (admin_wait lib fuel ctrlr) s Q.
Proof.
  revert k s. induction fuel as [|fuel IH]; intros k s Hk Hp Hwf Hst HQ; [lia|]. cbn [admin_wait]. apply wp_bind.
  eapply wp_mono; [by apply lg_process_law|]. intros o s' [Hs' Ho].
  assert (Hst' : admin_step lg_log s0 s') by (by eapply admin_step_trans). destruct o as [e|].
  - destruct Ho as [Hi Hd]. apply wp_ret, HQ; [done|done|]. by rewrite Hd, (as_log _ _ _ Hst).
  - destruct Ho as (k' & Hk' & Hp'). eapply (IH k'); [lia|done|apply Hs'|done|done].
Qed.

(** The entry of a round names the descriptors it is built for. *)
Lemma glp_cmd_ok st off count : 0 <= off -> 0 < count <= 0x1000 -> off + count <= 2 ^ 23 ->
  let ndw := count * 8 - 1 in
  let cmd := set_rprt 0xCA 0 (Z.shiftr ndw 16) (Z.land ndw 0xffff) (admin_cmd st NVM_AOPC_RPRT) in
  glp_cmd (with_cdw12 (u32 (Z.land (off * 32) 0xfffffff)) (with_cdw13 (u32 (Z.shiftr (off * 32) 32)) cmd)) off count.
Proof.
  intros Ho Hc Hb. cbn zeta. change 0xffff with (Z.ones 16). change 0xfffffff with (Z.ones 28).
  rewrite !Z.land_ones, !Z.shiftr_div_pow2, (Z.mod_small (count * 8 - 1)), (Z.div_small (count * 8 - 1)),
    (Z.mod_small (off * 32)), (Z.div_small (off * 32)) by lia.
  unfold glp_cmd, set_rprt. cbn [cmd_addrs with_cmd_addrs with_cdw12 with_cdw13 cdw12 cdw13].
  change (opcode_of (with_cdw12 _ _)) with (opcode_of (admin_cmd st NVM_AOPC_RPRT)).
  split; [done|]. rewrite (wrap_id 32 (off * 32)) by lia. change (u32 0) with 0. split; [|split].
  - rewrite 3!bf_get_set_ne, bf_get_set by lia. done.
  - rewrite bf_get_set, bf_get_set_ne, bf_get_set, wrap_id by lia. change (u16 0) with 0. unfold SIZEOF_DESCR. lia.
  - unfold SIZEOF_DESCR. lia.
Qed.

Lemma wp_glp w0 l off count lpo ret s (Q : Z * list nvm_spec_rprt_descr * retp -> sys SW -> Prop) :
  good (log_ready w0) s -> 0 <= off -> 0 < count <= 0x1000 -> off + count <= total -> Z.of_nat (length l) = count ->
  lpo = off * 32 ->
  (forall e ret' s', e <> 0 -> good (log_ready w0) s' -> live s' = live s -> Q (e, l, ret') s') ->
  (forall ret' s', good (log_ready w0) s' -> live s' = live s -> Q (0, part w0 off count, ret') s') ->
  wp (cmd_sync_admin_glp lib ptr_of polls dev l (count * 8 - 1) lpo 0 ret) s Q.
Proof.
  intros Hwf Ho Hc Hb Hl -> HE HS. pose proof Hwf as [_ ((st & Est & Ec) & Hidle & Hlog)].
  assert (Hget : forall A (f : nvm_be_spdk_state -> M SW A) R, wp (f st) s R -> wp (st ← get_state dev; f st) s R).
  { intros A f R H. apply wp_bind. unfold get_state. apply wp_bind. eapply (wp_intro _ _ (world s) s); [done|].
    rewrite Est. by eapply (wp_intro _ _ st s). }
  unfold cmd_sync_admin_glp. apply Hget. change 0x3 with (Z.ones 2).
  rewrite Z.land_ones, (proj2 (Z.mod_divide (off * 32) (2 ^ 2) ltac:(done))) by (lia || (exists (off * 8); lia)).
  cbn [Z.eqb negb]. apply wp_bind. unfold cmd_sync_admin. apply Hget.
  apply wp_bind. unfold submit_adc, adc_cmd. change (u32 0) with 0. cbn [is_some Z.eqb negb andb].
  rewrite (wrap_id 32 (count * 8 - 1 + 1)) by lia. rewrite 2!(wrap_id 32 ((count * 8 - 1 + 1) * 4)) by lia.
  replace ((count * 8 - 1 + 1) * 4) with (count * SIZEOF_DESCR) by (unfold SIZEOF_DESCR; lia). rewrite Ec.
  eapply wp_mono.
  { apply (lg_submit_law _ off count l); [by destruct Hwf|done|apply glp_cmd_ok; lia|lia..]. }
  intros err s1 [Hs1 [[Hne Hi]|(-> & k & Hk & Hp)]].
  - rewrite (proj2 (Z.eqb_neq err 0)) by done. cbn [negb]. apply wp_ret. cbn [Z.eqb negb].
    apply wp_ret, HE; [done|by eapply log_ready_step|by destruct Hs1].
  - cbn [Z.eqb negb]. apply wp_bind. eapply (wp_admin_wait polls off count k s1 s); [lia|done|apply Hs1|done|].
    intros e s2 Hs2 Hi Hd. apply wp_ret. cbn [Z.eqb negb]. rewrite Hd, Hlog.
    apply wp_ret, HS; [by eapply log_ready_step|by destruct Hs2].
Qed.

Lemma wp_glp_round w0 p off n i l ret s (Q : list nvm_spec_rprt_descr * retp + retp -> sys SW -> Prop) :
  good (log_ready w0) s -> p <> 0 -> p ∈ live s -> 0 <= off -> 0 <= i < n -> off + n <= total ->
  l = report_upto (part w0 off n) i ->
  (forall ret' s', good (log_ready w0) s' -> live s' = live s ->
     Q (inl (report_upto (part w0 off n) (Z.min n (i + 0x1000)), ret')) s') ->
  (forall ret' s', good (log_ready w0) s' -> live s' = live s ∖ {[p]} -> Q (inr ret') s') ->
  wp (glp_round spdk lib ptr_of polls dev p n (off * SIZEOF_DESCR) i (l, ret)) s Q.
Proof.
  intros Hwf Hp Hin Ho Hi Hn -> HS HE. unfold glp_round, SIZEOF_DESCR.
  assert (HlD : Z.of_nat (length (part w0 off n)) = n) by (apply log_part_len; rewrite ?lg_len; lia).
  rewrite (wrap_id 64 (n - i)), NVM_MIN_min by lia. set (c := Z.min 0x1000 (n - i)).
  assert (Hc : 0 < c <= 0x1000 /\ i + c <= n) by (unfold c; lia).
  rewrite (wrap_id 64 c), (wrap_id 64 (c * 32)), (wrap_id 64 (i * 32)), (wrap_id 64 (off * 32 + i * 32)) by lia.
  replace (c * 32 / 4) with (c * 8) by (replace (c * 32) with (c * 8 * 4) by lia; by rewrite Z.div_mul).
  rewrite (wrap_id 64 (c * 8 - 1)), (wrap_id 32 (c * 8 - 1)) by lia. apply wp_bind.
  apply (wp_glp w0 _ (off + i) c); [done|lia|lia|lia|rewrite length_take, length_drop, report_upto_len by lia; lia|lia|..].
  - intros e ret' s' He Hwf' Hl'. rewrite (proj2 (Z.eqb_neq e 0)) by done. cbn [negb]. apply wp_bind.
    eapply (wp_buf_free spdk dev Halloc); [done|right; by rewrite Hl'|].
    intros s2 Hwf2 Hl2 _ _. apply wp_ret, HE; [done|by rewrite Hl2, Hl'].
  - intros ret' s' Hwf' Hl'. cbn [Z.eqb negb]. apply wp_ret.
    rewrite log_part_step by (rewrite ?lg_len; lia). replace (i + c) with (Z.min n (i + 0x1000)) by (unfold c; lia).
    by apply HS.
Qed.

(** The report of a unit, or of the device. *)
Lemma wp_spdk_rprt w0 addr opt ret s (Q : option (boxed nvm_spec_rprt) * retp -> sys SW -> Prop) :
  good (log_ready w0) s -> rprt_unit dev addr ->
  (forall ret' s', good (log_ready w0) s' -> live s' = live s -> Q (None, ret') s') ->
  (forall p ret' s', good (log_ready w0) s' -> p <> 0 -> p ∉ live s -> live s' = {[p]} ∪ live s ->
     Q (Some (p, Rprt (rprt_n dev addr) (part w0 (rprt_off dev addr) (rprt_n dev addr))), ret') s') ->
  wp (nvm_be_spdk_rprt spdk lib ptr_of polls dev addr opt ret) s Q.
Proof.
  intros Hwf Ha HN HS. destruct (rprt_range dev Hver Hg addr Ha) as (H1 & H2 & H3). unfold nvm_be_spdk_rprt.
  rewrite Hver, (rprt_lpo dev Hver Hg addr Ha), (rprt_count dev Hg addr). cbn [negb Z.eqb Pos.eqb NVM_SPEC_VERID_20].
  set (n := rprt_n dev addr) in *. set (off := rprt_off dev addr) in *.
  unfold SIZEOF_NDESCR. rewrite (wrap_id 64 (n * SIZEOF_DESCR)), (wrap_id 64 (n * SIZEOF_DESCR + 8)) by (unfold SIZEOF_DESCR; lia).
  apply wp_bind. eapply (wp_buf_alloc spdk dev Halloc); [done|unfold SIZEOF_DESCR; lia| |].
  { intros s1 Hwf1 Hl1 _ _. eapply wp_intro; [done|]. by apply HN. }
  intros p s1 Hp Hf Hwf1 Hl1 _ _. rewrite (proj2 (Z.eqb_neq p 0)) by done.
  apply wp_bind. rewrite range_lt_steps by lia. eapply wp_intro; [done|]. apply wp_bind.
  apply (wp_report_rounds (log_ready w0) (part w0 off n) 0x1000 n p); [lia|apply log_part_len; rewrite ?lg_len; lia|done|..].
  - intros i l ret1 s2 Hwf2 Hl2 Hi El. apply (wp_glp_round w0); try done; [rewrite Hl2, Hl1; apply live_new|..].
    + intros ret' s' X1 X2. split; [done|]. by rewrite X2.
    + intros ret' s' X1 X2. split; [done|]. by rewrite X2, Hl2.
  - intros ret1 s2 Hwf2 Hl2. apply wp_ret, HS; [done|done|done|by rewrite Hl2].
  - intros ret1 s2 Hwf2 Hl2. apply wp_ret, HN; [done|]. by rewrite Hl2, Hl1, live_undo.
Qed.

(** What the search for chunks relies on. *)
Lemma spdk_rprt_law (ret_ctx : Z -> Z) (junk : Z -> Z -> Z) w0 : 0 < nsectr (geo dev) ->
  rprt_law (log_ready w0) (nvm_be_spdk spdk lib ptr_of ret_ctx junk polls) dev (log_report dev (lg_log w0)).
Proof.
  intros Hsec. apply log_rprt_law; [done|done|done|apply lg_len|].
  intros a s Q Hwf Ha HN HS. by apply (wp_spdk_rprt w0).
Qed.
End rprt.

(** ** Properties *)

(** The report of a parallel unit (or, without an address, of the device) the
    SPDK backend answers is that part of the device's log of chunk information,
    every descriptor in its place, however many commands of 4096 descriptors it
    took; when a command is refused the buffer is released and there is no
    report. Beyond 2^23 chunks the offsets of the commands would be cut. *)
Theorem spdk_rprt_correct {W} (spdk : spdk_env (spdk_world W)) (lib : spdk_nvme (spdk_world W)) (ptr_of : mem -> Z)
    (polls : nat) (dev : nvm_dev) (ctrlr : Z) `{!NvmeLog lib dev ctrlr} (Hspdk : spdk_ok spdk)
    (Hbe : be_id dev = NVM_BE_SPDK) (Hver : verid dev = NVM_SPEC_VERID_20) (Hg : geo_counts_ok (geo dev))
    (Hpolls : (lg_lag < polls)%nat) (Ht : npugrp (geo dev) * npunit (geo dev) * nchunk (geo dev) <= 2 ^ 23)
    (addr : option nvm_addr) (opt : Z) (ret : retp) (s : sys (spdk_world W)) (Hwf : heap_wf s)
    (Hready : log_ready lib dev ctrlr (sw_os (world s)) (world s)) (Ha : rprt_unit dev addr) :
  let off := rprt_off dev addr in
  let n := rprt_n dev addr in
  let log (s : sys (spdk_world W)) := lg_log (sw_os (world s)) in
  wp (nvm_be_spdk_rprt spdk lib ptr_of polls dev addr opt ret) s (fun '(o, _) s' =>
    heap_wf s' /\ log s' = log s /\
    match o with
    | None => live s' = live s
    | Some (p, r) => r = Rprt n (take (Z.to_nat n) (drop (Z.to_nat off) (log s))) /\
        (p ∉ live s) /\ live s' = {[p]} ∪ live s
    end).
Proof.
  intros off n log. assert (Halloc : alloc_ok spdk dev) by (by apply dma_alloc_ok; [|left]).
  apply (wp_spdk_rprt spdk lib ptr_of polls dev ctrlr Halloc Hver Hg Hpolls Ht (sw_os (world s)));
    [by apply good_intro; [..|exact Hready]|done|..].
  - intros ret' s' [H1 (_ & _ & H2)] H3. split; [by split|done].
  - intros p ret' s' [H1 (_ & _ & H2)] H3 H4 H5. split; [by split|]. split; [done|]. by split.
Qed.

(** C26: the search for chunks on the SPDK backend, down to the log of the
    device. Over a controller that answers the log page of chunk information of at
    most 2^23 chunks within a bounded number of polls, [nvm_cmd_rprt_arbs] either finds [n]
    chunks in the wanted state, each in another parallel unit, whose
    descriptors in the device's log say so, leaving the rest of the array alone;
    or answers -1 with [EINVAL]. It keeps no memory and leaves the admin queue
    idle. *)
Theorem spdk_rprt_arbs {W} (spdk : spdk_env (spdk_world W)) (lib : spdk_nvme (spdk_world W)) (ptr_of : mem -> Z)
    (ret_ctx : Z -> Z) (junk : Z -> Z -> Z) (polls : nat) (dev : nvm_dev) (ctrlr : Z) `{!NvmeLog lib dev ctrlr}
    (Hspdk : spdk_ok spdk) (Hbe : be_id dev = NVM_BE_SPDK) (Hver : verid dev = NVM_SPEC_VERID_20)
    (Hg : geo_counts_ok (geo dev)) (Hsec : 0 < nsectr (geo dev)) (Hpolls : (lg_lag < polls)%nat)
    (Ht : npugrp (geo dev) * npunit (geo dev) * nchunk (geo dev) <= 2 ^ 23)
    (cst n arb : Z) (addrs0 : list nvm_addr) (s : sys (spdk_world W)) (Hwf : heap_wf s)
    (Hready : log_ready lib dev ctrlr (sw_os (world s)) (world s)) (Harb : 0 <= arb /\ arb + n < 2 ^ 31)
    (Hn : 0 <= n <= npugrp (geo dev) * npunit (geo dev)) (Hlen : n <= Z.of_nat (length addrs0)) :
  let log := lg_log (sw_os (world s)) in
  wp (nvm_cmd_rprt_arbs spdk (nvm_be_spdk spdk lib ptr_of ret_ctx junk polls) dev cst n arb addrs0) s (fun '(r, addrs) s' =>
    live s' = live s /\ log_ready lib dev ctrlr (sw_os (world s)) (world s') /\
    (r = 0 /\ length addrs = length addrs0 /\ chunks_found dev log cst n addrs /\
       (forall i, n <= i -> addrs !! Z.to_nat i = addrs0 !! Z.to_nat i) \/
     r = -1 /\ errno s' = EINVAL)).
Proof.
  intros log. assert (Halloc : alloc_ok spdk dev) by (by apply dma_alloc_ok; [|left]).
  destruct Harb as [H0 Hb].
  apply (wp_log_arbs spdk _ dev Hver Hg Hsec log (log_ready lib dev ctrlr (sw_os (world s)))); try done.
  - by apply spdk_rprt_law.
  - by apply good_intro; [..|exact Hready].
  - intros addrs s' [_ Hr] Hl H1 H2 H3. split; [done|]. split; [done|]. by left.
  - intros addrs s' [_ Hr] Hl He. split; [done|]. split; [done|]. by right.
Qed.

(** ** A controller with its log in memory *)

(** The log, and the command in flight: where it starts, how many descriptors
    it asks for, and the polls it will still take. *)
Record nvml := Nvml { nl_log : list nvm_spec_rprt_descr; nl_pend : option (Z * Z * nat) }.

Section nvml.
Context (dev : nvm_dev) (lag : nat).
#[local] Abbreviation SW := (spdk_world nvml).

(** A command for as many descriptors as the buffer has. *)
Definition nvml_submit (cmd : nvm_nvme_cmd) (data : kdata) : M SW Z :=
  w ← get_world;
  match nl_pend (sw_os w), data with
  | None, KDescr l =>
      let off := (cdw12 cmd + cdw13 cmd * 2 ^ 32) / SIZEOF_DESCR in
      _ ← modify_world (fun w => with_os (Nvml (nl_log (sw_os w)) (Some (off, Z.of_nat (length l), lag))) w); mret 0
  | _, _ => mret (-22)
  end.

Definition nvml_process : M SW (option cpl_event) :=
  w ← get_world;
  let log := nl_log (sw_os w) in
  match nl_pend (sw_os w) with
  | None => mret None
  | Some (off, count, S k) => _ ← modify_world (with_os (Nvml log (Some (off, count, k)))); mret None
  | Some (off, count, O) =>
      _ ← modify_world (with_os (Nvml log None));
      mret (Some (CplEvent 0 (Cpl 0 (Status 0 0 0 0))
        (KDescr (take (Z.to_nat count) (drop (Z.to_nat off) (log_of dev log)))) None))
  end.

Definition nvml_lib : spdk_nvme SW :=
  SpdkNvme SW (mret 0) (fun _ => mret (0, 6)) (fun a b => if a =? b then 0 else 1)
    (fun _ cb => mret (0, if cb 6 then [7] else [])) (fun _ => 1) (fun _ _ => 8) (fun _ => true)
    (fun _ => Some (dev_ns dev)) (fun _ => (256, 512)) (fun _ _ => mret 9) (fun _ => mret 0) (fun _ => mret tt)
    (fun _ cmd _ data _ => nvml_submit cmd data) (fun _ => nvml_process)
    (fun _ _ _ _ _ _ _ _ => mret (-22)) (fun _ _ => mret (0, [])).

Lemma nvml_step (s : sys SW) pend : heap_wf s ->
  admin_step (fun w => log_of dev (nl_log w)) s
    (Sys (errno s) (hp s) (with_os (Nvml (nl_log (sw_os (world s))) pend) (world s))).
Proof. intros Hwf. by split. Qed.

#[export] Program Instance nvml_log (Hg : geo_counts_ok (geo dev)) : NvmeLog nvml_lib dev 7 :=
  {| lg_log := fun w => log_of dev (nl_log w); lg_idle := fun w => nl_pend w = None;
     lg_pending := fun w off count k => nl_pend w = Some (off, count, k); lg_lag := lag |}.
Next Obligation. intros Hg w. by apply log_of_len. Qed.
Next Obligation.
  intros Hg cmd off count l s Hwf Hi (_ & _ & _ & Eo) Ho Hc _ Hl. cbn in Hi |- *. unfold nvml_submit.
  apply wp_bind. eapply (wp_intro _ _ (world s) s); [done|]. rewrite Hi, Eo, Hl. unfold SIZEOF_DESCR.
  rewrite Z.div_mul by done. split; [by apply nvml_step|]. right. split; [done|]. by exists lag.
Qed.
Next Obligation.
  intros Hg off count k s Hwf Hp. cbn in Hp |- *. unfold nvml_process.
  apply wp_bind. eapply (wp_intro _ _ (world s) s); [done|]. rewrite Hp. destruct k as [|k].
  - split; [by apply nvml_step|]. by split.
  - split; [by apply nvml_step|]. exists k. split; [lia|done].
Qed.
End nvml.

(** ** Witness *)

Lemma tiny_geo_ok : geo_counts_ok (geo tiny_spdk).
Proof. by split; [|split]; split. Qed.

#[export] Instance tiny_nvml : NvmeLog (nvml_lib tiny_spdk 3) tiny_spdk 7 := nvml_log tiny_spdk 3 tiny_geo_ok.

(** In every unit the last of the four chunks is free. *)
Definition tiny_log : list nvm_spec_rprt_descr :=
  (fun i => Descr (if i mod 4 =? 3 then NVM_CHUNK_STATE_FREE else NVM_CHUNK_STATE_OPEN) 2 0 (8 * i) 8 0) <$> seqZ 0 16.

Lemma spdk_rprt_arbs_witness :
  let w := SpdkWorld false {[ 0 := SpdkState 6 7 8 (dev_ns tiny20) 1 true 9 ]} ∅ ∅ ∅ (Nvml tiny_log None) in
  let s := Sys 0 (sample_heap 99) w in
  wp (nvm_cmd_rprt_arbs page_spdk (nvm_be_spdk page_spdk (nvml_lib tiny_spdk 3) (fun _ => 0) (fun _ => 0) (fun _ _ => 0) 4)
        tiny_spdk NVM_CHUNK_STATE_FREE 2 1 [0; 0; 77]) s (fun '(r, addrs) s' =>
    r = 0 /\ live s' = live s /\ addrs !! 2%nat = Some 77 /\ chunks_found tiny_spdk tiny_log NVM_CHUNK_STATE_FREE 2 addrs).
Proof.
  intros w s. pose proof (spdk_rprt_arbs page_spdk (nvml_lib tiny_spdk 3) (fun _ => 0) (fun _ => 0) (fun _ _ => 0) 4
    tiny_spdk 7 ltac:(by split) eq_refl eq_refl tiny_geo_ok ltac:(done) ltac:(cbn; lia) ltac:(done)
    NVM_CHUNK_STATE_FREE 2 1 [0; 0; 77] s (sample_heap_wf _ _ _) ltac:(split; [by eexists|done]) ltac:(lia) ltac:(done)
    ltac:(done)) as C. cbn zeta in C.
  apply wp_elim in C as ([r addrs] & s' & E & Hl & _ & Hres). eapply wp_intro; [exact E|].
  assert (Er : r = 0) by (assert (E2 := E); vm_compute in E2; congruence).
  destruct Hres as [(_ & _ & Hf & Hr)|[? _]]; [|lia]. split; [done|]. split; [done|].
  split; [exact (Hr 2 ltac:(lia))|exact Hf].
Defined.
