(* ===== verification/Examples.v ===== *)
(** The example program on virtual blocks, [src/examples/vblk-ex01-ewr.c], and
    its correctness: what it reads back is what it wrote. *)
From Stdlib Require Import String.
From stdpp Require Import base numbers strings gmap option list.
From S2P Require Import Prelude Types Clib Nvme Addr Dev Backend Buf Be Cmd Vblk Stripe Media Linear VblkIO VblkRead VblkOps.
From S2P Require Import VblkWhole Open Bp Reports.

(** ** The program *)

Definition with_read_buf (r : list Z) (bp : nvm_bp) : nvm_bp :=
  Bp (bp_dev bp) (bp_bufs bp) ((bp_data bp).1, r) (bp_vblk bp) (bp_ws_opt bp) (bp_naddrs bp) (bp_addrs bp).

Section program.
Context {W : Type} (spdk : spdk_env W) (imps : list (nvm_be W)).

(** [arb] is the answer of [rand()] for the search, and [chunk_addrs] what the
    array on the stack holds before it. The boilerplate is answered with its
    read buffer. *)
Definition vblk_ex01_ewr (arb : Z) (chunk_addrs : list nvm_addr) (fuel : nat) (bp : nvm_bp) : M W (Z * nvm_bp) :=
  let nchunks := i32 (bp_naddrs bp) in
  '(d, _, dev) ← lift (bp_dev bp);
  be ← lift (dev_be imps dev);
  '(err, chunk_addrs) ← nvm_cmd_rprt_arbs spdk be dev NVM_CHUNK_STATE_FREE nchunks arb chunk_addrs;
  if negb (err =? 0) then mret (-1, bp)
  else
    vblk ← nvm_vblk_alloc dev d chunk_addrs nchunks;
    match vblk with
    | None => mret (-1, bp)
    | Some (p, vblk) =>
        bufs ← lift (bp_bufs bp);
        let n := bs_nbytes bufs.2 in
        '(err, vblk) ← nvm_vblk_write spdk be dev fuel vblk (Some (bp_data bp).1) n;
        if err <? 0 then mret (-1, bp)
        else
          '(err, vblk, buf) ← nvm_vblk_read be dev fuel vblk (Some (bp_data bp).2) n;
          buf ← lift buf;
          let bp := with_read_buf buf bp in
          if err <? 0 then mret (-1, bp)
          else
            '(err, vblk) ← nvm_vblk_erase be dev vblk;
            if err <? 0 then mret (-1, bp)
            else
              _ ← nvm_vblk_free p;
              diff ← lift (nvm_buf_diff (Z.to_nat n) (bp_data bp).1 (bp_data bp).2);
              if negb (diff =? 0) then fail EIO (-1, bp) else mret (0, bp)
    end.

Definition EXIT_FAILURE : Z := 1.

(** [main] of an example that runs [prog] on its boilerplate: the same text in
    each. [arb0] is the answer of [rand()] when it is set up. *)
Definition example_main (prog : nvm_bp -> M W (Z * nvm_bp)) (getenv_NVM_BE : option string) (arb0 : Z)
    (fresh : Z -> list Z) (argv : list string) : M W Z :=
  bp ← nvm_bp_init_from_args spdk imps getenv_NVM_BE arb0 fresh argv;
  match bp with
  | None => mret EXIT_FAILURE
  | Some (p, bp) =>
      '(err, bp) ← prog bp;
      _ ← nvm_bp_term spdk (Some (p, bp));
      mret (if negb (err =? 0) then EXIT_FAILURE else err)
  end.

Definition vblk_ex01_main (arb : Z) (chunk_addrs : list nvm_addr) (fuel : nat) :=
  example_main (vblk_ex01_ewr arb chunk_addrs fuel).
End program.

(** ** The virtual block on the chunks found *)

(** A 2.0 device a virtual block can be made of. *)
Record s20_dev_ok (dev : nvm_dev) (ws : Z) : Prop := {
  sd_verid : verid dev = NVM_SPEC_VERID_20;
  sd_geo : geo_counts_ok (geo dev);
  sd_ws : ws_opt (s20_wrt (dev_idfy dev)) = ws;
  sd_ws_range : 0 < ws <= NVM_NADDR_MAX;
  sd_nsectr : 0 < nsectr (geo dev) <= 2 ^ 32;
  sd_unit : (ws | nsectr (geo dev));
  sd_nb : 0 < nbytes (geo dev) < 2 ^ 24;
  sd_fits : VBLK_MAX * nsectr (geo dev) * nbytes (geo dev) < 2 ^ 62 }.

Section found.
Context (dev : nvm_dev) (ws : Z) (Hdev : s20_dev_ok dev ws) (log : list nvm_spec_rprt_descr) (cst d : Z).
Context (l : list nvm_addr) (Hl : 0 < Z.of_nat (length l) <= VBLK_MAX).
Context (Hfound : chunks_found dev log cst (Z.of_nat (length l)) l).
#[local] Abbreviation v := (vblk_of dev d l NVM_VBLK_CMD_OPTS).

Lemma found_at i : 0 <= i < Z.of_nat (length l) -> blks v !! Z.to_nat i = l !! Z.to_nat i.
Proof. intros Hi. cbn [blks vblk_of]. apply lookup_app_l. lia. Qed.

Lemma found_size : vblk_nbytes v = Z.of_nat (length l) * nsectr (geo dev) * nbytes (geo dev).
Proof.
  destruct Hdev as [E _ _ _ H1 _ H2 H3]. cbn [vblk_nbytes vblk_of]. unfold alloc_nbytes, VBLK_MAX in *. rewrite E.
  change (NVM_SPEC_VERID_20 =? NVM_SPEC_VERID_12) with false. cbn iota. unfold nbytes_s20. cbn zeta.
  set (n := Z.of_nat (length l)) in *. set (ns := nsectr (geo dev)) in *. set (nb := nbytes (geo dev)) in *.
  assert (0 <= n * ns) by nia. assert (n * ns * nb <= 128 * ns * nb) by nia. assert (n * ns <= n * ns * nb) by nia.
  rewrite (wrap_id 64 n), (wrap_id 64 (n * ns)), wrap_id by lia. done.
Qed.

Lemma found_members : members_ok v.
Proof.
  pose proof Hfound as [Hf Ha]. split; cbn [nblks vblk_of].
  - done.
  - cbn [blks vblk_of]. rewrite length_app. lia.
  - intros i a Hi. rewrite found_at by done. intros E. destruct (Hf i Hi) as (a' & _ & E' & Hw & _). congruence.
  - intros i j a b Hi Hj. rewrite !found_at by done. intros E1 E2 E. destruct (decide (i = j)) as [|Hne]; [done|].
    destruct (Ha i j a b Hi Hj Hne E1 E2). unfold chunk_id in E. congruence.
Qed.

Lemma found_is : members v = l.
Proof. unfold members. cbn [nblks blks vblk_of]. by rewrite Nat2Z.id, take_app_length. Qed.

Lemma found_ok : vblk20_ok dev v ws.
Proof.
  destruct Hdev as [H1 H2 H3 H4 H5 H6 H7 H8]. unfold NVM_NADDR_MAX in H4. split; try done; [exact found_members|lia|exact found_size|].
  rewrite found_size. unfold VBLK_MAX in *. nia.
Qed.

(** Its sectors are those of the chunks. *)
Lemma found_on_device (dom : nvm_addr -> Prop) :
  (forall a o, addr_ok a -> in_bounds dev a -> 0 <= o < nsectr (geo dev) -> dom (set_l_sectr o a)) -> on_device dev v ws dom.
Proof.
  intros Hd x Hx. destruct Hdev as [_ _ _ H4 H5 H6 _ _]. unfold lin_size in Hx. cbn [nblks vblk_of] in Hx.
  pose proof (stripe_idx_range ws (Z.of_nat (length l)) ltac:(lia) x) as Hi.
  destruct (proj1 Hfound _ Hi) as (a & _ & E & Hw & Hb & _). unfold lin20, member. cbn [nblks vblk_of].
  rewrite found_at, E by done. apply Hd; [done|done|].
  split; [apply stripe_off_nonneg; lia|apply stripe_off_bound; done || lia].
Qed.
End found.

Lemma buf_diff_same l n : (n <= length l)%nat -> nvm_buf_diff n l l = Some 0.
Proof.
  revert l. induction n as [|n IH]; intros [|x l] Hn; try done; cbn in *; [lia|].
  rewrite IH by lia. cbn. by rewrite Z.eqb_refl.
Qed.

(** [l] is [n] free chunks of the log, and from [w] to [w'] no sector outside
    them has changed. *)
Definition on_free_chunks {W} (be : nvm_be W) (dev : nvm_dev) `{!Media be dev} (log : list nvm_spec_rprt_descr) (n : Z)
    (w w' : W) (l : list nvm_addr) : Prop :=
  Z.of_nat (length l) = n /\ chunks_found dev log NVM_CHUNK_STATE_FREE n l /\ untouched be dev l w w'.

Lemma unchanged_untouched {W} (be : nvm_be W) (dev : nvm_dev) `{!Media be dev} l (w w' : W) :
  unchanged (be := be) (dev := dev) w w' -> untouched be dev l w w'.
Proof. intros [_ H] a Ha _. by apply H. Qed.

(** A report changes no sector and answers the descriptors of the log. *)
Definition reports_log {W} (be : nvm_be W) (dev : nvm_dev) `{!Media be dev} (log : list nvm_spec_rprt_descr) : Prop :=
  forall w0, rprt_law (unchanged (be := be) (dev := dev) w0) be dev (log_report dev log).

(** The search for free chunks. *)
Section search.
Context {W : Type} (spdk : spdk_env W) (be : nvm_be W) (dev : nvm_dev) `{!Media be dev} (ws : Z) (Hdev : s20_dev_ok dev ws).
Context (Halloc : alloc_ok spdk dev) (log : list nvm_spec_rprt_descr) (Hrprt : reports_log be dev log).

Lemma wp_free_chunks n arb chunk_addrs (s : sys W) (Q : Z * list nvm_addr -> sys W -> Prop) :
  good mok s -> 0 < n <= VBLK_MAX -> n <= npugrp (geo dev) * npunit (geo dev) -> 0 <= arb < 2 ^ 30 ->
  Z.of_nat (length chunk_addrs) = n ->
  (forall l s', good mok s' -> live s' = live s -> unchanged (be := be) (dev := dev) (world s) (world s') ->
     on_free_chunks be dev log n (world s) (world s') l -> Q (0, l) s') ->
  (forall l s', good mok s' -> live s' = live s -> unchanged (be := be) (dev := dev) (world s) (world s') -> errno s' = EINVAL ->
     Q (-1, l) s') ->
  wp (nvm_cmd_rprt_arbs spdk be dev NVM_CHUNK_STATE_FREE n arb chunk_addrs) s Q.
Proof using Hdev Halloc Hrprt.
  intros [Hwf Hm] Hn Hunits Harb Hlen HS HE. pose proof Hdev as [Hver Hgeo _ _ Hns _ _ _]. unfold VBLK_MAX in Hn.
  apply (wp_log_arbs spdk be dev Hver Hgeo ltac:(lia) log (unchanged (be := be) (dev := dev) (world s)) NVM_CHUNK_STATE_FREE n arb);
    try done; try lia.
  - intros l s1 [H1 U1] L1 Hll _ Hf. apply HS; [split; [done|by destruct U1]|done|done|].
    split; [lia|]. split; [done|by apply unchanged_untouched].
  - intros l s1 [H1 U1] L1 F1. apply HE; [split; [done|by destruct U1]|done..].
Qed.

(** And the allocation of the virtual block on them. *)
Context (Hsec : forall a o, addr_ok a -> in_bounds dev a -> 0 <= o < nsectr (geo dev) -> mdom (set_l_sectr o a)).

Lemma wp_found_vblk {A} (n arb d : Z) (chunk_addrs : list nvm_addr) (e : A) (k : Z -> nvm_vblk -> M W A) (s : sys W) Q :
  good mok s -> 0 < n <= VBLK_MAX -> n <= npugrp (geo dev) * npunit (geo dev) -> 0 <= arb < 2 ^ 30 ->
  Z.of_nat (length chunk_addrs) = n ->
  (forall s', errno s' = EINVAL \/ errno s' = ENOMEM -> live s' = live s ->
     unchanged (be := be) (dev := dev) (world s) (world s') -> Q e s') ->
  (forall p l s', let v := vblk_of dev d l NVM_VBLK_CMD_OPTS in
     p <> 0 -> p ∉ live s -> good mok s' -> live s' = {[p]} ∪ live s -> vblk20_ok dev v ws -> on_device dev v ws mdom ->
     vblk_nbytes v = n * nsectr (geo dev) * nbytes (geo dev) -> lin_size dev v = n * nsectr (geo dev) ->
     members v = l -> on_free_chunks be dev log n (world s) (world s') l -> wp (k p v) s' Q) ->
  wp ('(err, chunk_addrs) ← nvm_cmd_rprt_arbs spdk be dev NVM_CHUNK_STATE_FREE n arb chunk_addrs;
      if negb (err =? 0) then mret e
      else
        vblk ← nvm_vblk_alloc dev d chunk_addrs n;
        match vblk with None => mret e | Some (p, v) => k p v end) s Q.
Proof using Hdev Halloc Hrprt Hsec.
  intros Hg Hn Hunits Harb Hlen HE HS. pose proof Hdev as [Hver _ _ _ _ _ _ _].
  apply wp_bind, (wp_free_chunks n arb); try done.
  2: { intros l s1 G1 L1 U1 F1. cbn [Z.eqb negb]. apply wp_ret. auto. }
  intros l s1 G1 L1 U1 Hof. pose proof Hof as (El & Hf & _). cbn [Z.eqb negb].
  apply wp_bind, (wp_vblk_alloc dev (or_intror Hver) d l n); [by destruct G1|lia|lia|].
  rewrite take_ge by lia. intros [[p v]|] s2 (H2 & W2 & Hp).
  2: { destruct Hp as [L2 F2]. apply wp_ret, HE; [tauto|congruence|by rewrite W2]. }
  destruct Hp as (Hp0 & Hpf & L2 & _ & ->). rewrite L1 in L2, Hpf. rewrite <-El in Hf.
  assert (Hlv : 0 < Z.of_nat (length l) <= VBLK_MAX) by lia. rewrite <-El in HS, Hof.
  apply HS; try done; [eapply good_world; [exact H2|done|rewrite W2; apply G1]|by eapply found_ok|by eapply found_on_device|
    by eapply found_size|apply found_is|by rewrite W2].
Qed.
End search.

(** ** Properties *)

(** C6: the example on virtual blocks. On a 2.0 device whose chunk reports are
    its log and change no sector, with a boilerplate of [n] addresses whose
    buffers have the size of [n] chunks, that size being a multiple of 64 sectors,
    the program ends in one of three ways. It answers 0: there are [n] free chunks
    of the log outside which no sector changed, the read buffer has the bytes of
    the write buffer, the [n] chunks are erased, and no memory is kept. It answers
    -1 with [EINVAL] or [ENOMEM], having changed no sector and kept nothing: not
    enough free chunks were found, or there was no memory. Or a command failed: it
    answers -1 with [EIO], no sector outside [n] free chunks changed, and the
    virtual block it had allocated is never released; when the device fails no
    read and no write, the failed command is the erase, and the data was read
    back. *)
Theorem vblk_ex01_correct {W} (spdk : spdk_env W) (imps : list (nvm_be W)) (be : nvm_be W) (dev : nvm_dev)
    `{!Media be dev, !EraseMedia be dev} (d arr q : Z) (bufs : nvm_buf_set) (ws arb : Z) (log : list nvm_spec_rprt_descr)
    (chunk_addrs : list nvm_addr) (fuel : nat) (w r : list Z) (bp : nvm_bp) (s : sys W)
    (Hdev : s20_dev_ok dev ws) (Halloc : alloc_ok spdk dev) (Hrprt : reports_log be dev log)
    (Hsec : forall a o, addr_ok a -> in_bounds dev a -> 0 <= o < nsectr (geo dev) -> mdom (set_l_sectr o a))
    (Hsv : served (be := be) dev NVM_VBLK_CMD_OPTS NVM_NADDR_MAX) (Hmeta : nvm_dev_get_meta_mode dev = NVM_META_MODE_NONE)
    (Herase : erase_limit_ok dev) (Hopt : cmd_addr_opt dev 0 = NVM_CMD_VECTOR) (Hbe : dev_be imps dev = Some be)
    (Hbp : bp_dev bp = Some (d, arr, dev)) (Hbufs : bp_bufs bp = Some (q, bufs)) (Hdata : bp_data bp = (w, r)) :
  let n := bp_naddrs bp in
  let size := n * nsectr (geo dev) * nbytes (geo dev) in
  forall (Hn : 0 < n <= VBLK_MAX) (Hunits : n <= npugrp (geo dev) * npunit (geo dev))
    (Hread : (NVM_NADDR_MAX | n * nsectr (geo dev))) (Harb : 0 <= arb < 2 ^ 30) (Hlen : Z.of_nat (length chunk_addrs) = n)
    (Hsize : bs_nbytes bufs = size) (Hw : Z.of_nat (length w) = size) (Hr : Z.of_nat (length r) = size) (Hg : good mok s),
  wp (vblk_ex01_ewr spdk imps arb chunk_addrs fuel bp) s (fun '(err, bp') s' =>
    err = 0 /\ bp_data bp' = (w, w) /\ live s' = live s /\
      (exists l, on_free_chunks be dev log n (world s) (world s') l /\ Forall (merased (world s')) l) \/
    err = -1 /\ (errno s' = EINVAL \/ errno s' = ENOMEM) /\ live s' = live s /\
      unchanged (be := be) (dev := dev) (world s) (world s') \/
    err = -1 /\ errno s' = EIO /\ (exists p, (p ∉ live s) /\ live s' = {[p]} ∪ live s) /\
      (exists l, on_free_chunks be dev log n (world s) (world s') l) /\ (Reliable be dev -> bp_data bp' = (w, w))).
Proof.
  intros n size. intros. pose proof Hdev as [Hver _ _ _ _ _ _ _]. unfold vblk_ex01_ewr. fold n.
  rewrite i32_id by (unfold VBLK_MAX in Hn; lia).
  apply wp_bind. rewrite Hbp. eapply wp_intro; [done|]. apply wp_bind. rewrite Hbe. eapply wp_intro; [done|].
  apply (wp_found_vblk spdk be dev ws Hdev Halloc log Hrprt Hsec); try done; [intros s1 F1 L1 U1; right; left; auto|].
  intros p l s2 v Hp0 Hpf G2 L2 Hv Hdom Hvn HL Hml Hof. fold n in Hvn, HL, Hof. fold size in Hvn.
  apply wp_bind. rewrite Hbufs. eapply wp_intro; [done|]. cbn [snd]. rewrite Hsize, Hdata, <-Hvn. cbn [fst snd].
  assert (HU : forall s1 s' : sys W, on_free_chunks be dev log n (world s) (world s1) l ->
    untouched be dev (members v) (world s1) (world s') -> on_free_chunks be dev log n (world s) (world s') l).
  { intros s1 s' (El & Hf & U) U'. split; [done|]. split; [done|]. eapply untouched_trans; [exact U|by rewrite <-Hml]. }
  assert (HE : forall (s' : sys W) b, errno s' = EIO -> live s' = {[p]} ∪ live s -> on_free_chunks be dev log n (world s) (world s') l ->
    (Reliable be dev -> bp_data b = (w, w)) ->
    -1 = -1 /\ errno s' = EIO /\ (exists p, (p ∉ live s) /\ live s' = {[p]} ∪ live s) /\
      (exists l, on_free_chunks be dev log n (world s) (world s') l) /\ (Reliable be dev -> bp_data b = (w, w))).
  { intros s' b F L Ho HR. split; [done|]. split; [done|]. split; [by exists p|]. split; [by exists l|done]. }
  apply wp_bind. apply (wp_whole_write spdk be dev v ws Hv Hdom fuel eq_refl); [done|done|done| |rewrite Hvn, Hw; lia|done|..].
  { split; [apply Hsv|]. left. split; [done|]. apply Hsv. pose proof (sd_ws_range _ _ Hdev). lia. }
  2: { intros s3 G3 L3 U3 F3 NR. cbn [Z.ltb]. apply wp_ret. right. right. apply HE; [done|congruence|by apply (HU s2)|done]. }
  intros s3 G3 L3 U3 Hh. assert (Hpos : 0 <= vblk_nbytes v) by lia.
  rewrite (proj2 (Z.ltb_ge (vblk_nbytes v) 0) Hpos).
  assert (Hww : take (Z.to_nat (vblk_nbytes v)) w = w) by (apply take_ge; lia). rewrite Hww in Hh.
  assert (Hlive : live s3 = {[p]} ∪ live s) by congruence. assert (Ho3 := HU _ _ Hof U3).
  set (v1 := with_pos_write (vblk_nbytes v) v).
  assert (Hv1 : vblk20_ok dev v1 ws) by (by apply moved_write_ok).
  apply wp_bind. apply (wp_whole_read be dev v1 ws Hv1 Hdom fuel eq_refl _ w);
    [done| |rewrite <-HL in Hread; exact Hread|unfold v1; cbn [vblk_nbytes with_pos_write]; rewrite Hvn; lia|done|exact Hh|..].
  { split; [apply Hsv|]. left. split; [done|]. apply Hsv. done. }
  2: { intros data s4 G4 L4 U4 F4 NR. apply wp_bind. eapply wp_intro; [done|]. cbn [Z.ltb Z.compare]. apply wp_ret. right. right.
       apply HE; [done|congruence|by apply (HU s3)|done]. }
  intros s4 G4 L4 U4. apply wp_bind. eapply wp_intro; [done|]. rewrite (proj2 (Z.ltb_ge (vblk_nbytes v1) 0) Hpos).
  assert (Ho4 := HU _ _ Ho3 U4).
  set (v2 := with_pos_read (vblk_nbytes v1) v1). assert (Hv2 : vblk20_ok dev v2 ws) by (by apply moved_read_ok).
  apply wp_bind, (wp_whole_erase be dev v2 ws Hv2); [done|done|apply Hsv|done|..].
  2: { intros s5 G5 L5 U5 F5. cbn [Z.ltb]. apply wp_ret. right. right.
       apply HE; [done|congruence|by apply (HU s4)|intros _; cbn; by rewrite Hdata]. }
  intros s5 G5 L5 U5 E5. rewrite (proj2 (Z.ltb_ge (vblk_nbytes v2) 0) Hpos). assert (Ho5 := HU _ _ Ho4 U5).
  change (members v2) with (members v) in E5. rewrite Hml in E5.
  apply wp_bind. eapply wp_free; [done|right; rewrite L5, L4, Hlive; apply live_new|]. intros s6 G6 L6 W6 _.
  apply wp_bind. cbn [bp_data with_read_buf fst snd]. rewrite Hdata. cbn [fst]. eapply wp_intro; [by rewrite buf_diff_same by lia|].
  cbn [Z.eqb negb]. apply wp_ret. left. split; [done|]. split; [cbn; by rewrite Hdata|]. rewrite W6.
  split; [rewrite L6, L5, L4, Hlive; by apply live_undo|by exists l].
Qed.

(** ** Witness *)

(** A device in memory whose reports are a log, and that erases: the sectors of
    the chunks it is given are dropped. *)
Section log_ram.
Context (dev : nvm_dev) (log : list nvm_spec_rprt_descr).

Definition ram_drop (addrs : list nvm_addr) (w : gmap nvm_addr (list Z)) : gmap nvm_addr (list Z) :=
  filter (fun kv => chunk_id kv.1 ∉ (chunk_id <$> addrs)) w.

Definition ram_empty (w : gmap nvm_addr (list Z)) (c : nvm_addr) : Prop :=
  forall a, chunk_id a = chunk_id c -> w !! a = None.

Definition log_ram_be : nvm_be (gmap nvm_addr (list Z)) :=
  let be := ram_be dev in
  NvmBe _ (bid be) (name be) (be_open be) (be_close be) (be_pass be) (be_idfy be)
    (fun dev a _ ret => p ← malloc; mret (if p =? 0 then None else Some (p, log_report dev log (default 0 a)), ret))
    (be_gfeat be) (be_sfeat be) (be_gbbt be) (be_sbbt be) (be_scalar_erase be) (be_scalar_write be) (be_scalar_read be)
    (fun _ addrs naddrs meta _ ret s =>
       Some (0, meta, ret, Sys (errno s) (hp s) (ram_drop (take (Z.to_nat naddrs) addrs) (world s))))
    (be_vector_write be) (be_vector_read be) (be_vector_copy be) (be_async_init be) (be_async_term be) (be_async_poke be) (be_async_wait be).

#[export] Program Instance log_ram_media (Hnb : TCEq (0 <=? nbytes (geo dev)) true) : Media log_ram_be dev :=
  {| mok := mok (be := ram_be dev) (dev := dev); mdom := mdom (be := ram_be dev) (dev := dev);
     mflags := mflags (be := ram_be dev) (dev := dev); mvector := mvector (be := ram_be dev) (dev := dev);
     media := media (be := ram_be dev) (dev := dev) |}.
Next Obligation. intros Hnb. exact (media_len (be := ram_be dev)). Qed.
Next Obligation. intros Hnb. exact (vector_write_law (be := ram_be dev)). Qed.
Next Obligation. intros Hnb. exact (vector_read_law (be := ram_be dev)). Qed.
Next Obligation. intros Hnb. exact (scalar_write_law (be := ram_be dev)). Qed.
Next Obligation. intros Hnb. exact (scalar_read_law (be := ram_be dev)). Qed.

#[export] Program Instance log_ram_erase (Hnb : TCEq (0 <=? nbytes (geo dev)) true) : EraseMedia log_ram_be dev :=
  {| merased := ram_empty |}.
Next Obligation.
  intros Hnb addrs flags ret s [Hwf _] _ _ _. unfold wp. cbn. rewrite Nat2Z.id, firstn_all.
  split; [done|]. split; [done|]. split; [|split].
  - intros a _ Hno. unfold ram_sector, ram_drop. cbn. destruct (world s !! a) as [x|] eqn:E.
    + rewrite (map_lookup_filter_Some_2 _ _ a x); [done|done|].
      intros (c & Hc & Hi)%list_elem_of_fmap. by apply (Hno c Hi).
    + rewrite map_lookup_filter_None_2 by (by left). done.
  - intros c Hc a Ha. apply map_lookup_filter_None_2. left. by apply Hc.
  - intros _. apply list.Forall_forall. intros c Hc a Ha. apply map_lookup_filter_None_2. right. intros x _ Hx. apply Hx.
    cbn. rewrite Ha. by apply list_elem_of_fmap_2.
Qed.

Lemma log_ram_rprt : verid dev = NVM_SPEC_VERID_20 -> geo_counts_ok (geo dev) ->
  0 < nsectr (geo dev) -> Z.of_nat (length log) = npugrp (geo dev) * npunit (geo dev) * nchunk (geo dev) ->
  forall Hnb : TCEq (0 <=? nbytes (geo dev)) true, reports_log log_ram_be dev log.
Proof.
  intros Hver Hg Hs Hlog Hnb w0. apply log_rprt_law; [done..|]. intros a s Q Hgd _ HE HS. cbn.
  eapply wp_bind, wp_malloc; [exact Hgd| |].
  - intros s' G' Hl _ _. apply wp_ret. by apply HE.
  - intros p s' Hp Hf G' Hl _ _. apply wp_ret. rewrite (proj2 (Z.eqb_neq p 0)) by done. by apply HS.
Qed.
End log_ram.

(** Chunks of 32 sectors, all free. *)
Definition ex_dev : nvm_dev := with_geo (Geo 2 2 4 32 2 0 0 0 0 (2 * 2 * 4 * 32 * 2) NVM_SPEC_VERID_20) tiny20.
Definition ex_log : list nvm_spec_rprt_descr := replicate 16 (Descr NVM_CHUNK_STATE_FREE 2 0 0 32 0).
Definition ex_bp : nvm_bp :=
  Bp (Some (1, 2, ex_dev)) (Some (7, BufSet 128 0 8 0 9 0)) (Z.of_nat <$> seq 1 128, replicate 128 0) None 2 2 [0; 0].

Lemma ex_dev_ok : s20_dev_ok ex_dev 2.
Proof. split; try done. by exists 16. Qed.

Definition ex_be : nvm_be (gmap nvm_addr (list Z)) := log_ram_be ex_dev ex_log.
#[export] Instance ex_be_media : Media ex_be ex_dev := log_ram_media ex_dev ex_log (TCEq_refl _).
#[export] Instance ex_be_erase : EraseMedia ex_be ex_dev := log_ram_erase ex_dev ex_log (TCEq_refl _).

Lemma ex_be_log : reports_log ex_be ex_dev ex_log.
Proof. by apply log_ram_rprt. Qed.

Lemma vblk_ex01_correct_witness :
  let w := Z.of_nat <$> seq 1 128 in
  let s := Sys 0 (sample_heap 100) (∅ : gmap nvm_addr (list Z)) in
  let run := vblk_ex01_ewr spdk_stub [ex_be] 1 [0; 0] 8 ex_bp in
  wp run s (fun '(err, bp') s' =>
    err = 0 /\ bp_data bp' = (w, w) /\ live s' = live s /\
      (exists l, on_free_chunks ex_be ex_dev ex_log 2 (world s) (world s') l /\ Forall (merased (be := ex_be) (dev := ex_dev) (world s')) l) \/
    err = -1 /\ (errno s' = EINVAL \/ errno s' = ENOMEM) /\ live s' = live s /\
      unchanged (be := ex_be) (dev := ex_dev) (world s) (world s') \/
    err = -1 /\ errno s' = EIO /\ (exists p, (p ∉ live s) /\ live s' = {[p]} ∪ live s) /\
      (exists l, on_free_chunks ex_be ex_dev ex_log 2 (world s) (world s') l) /\ (Reliable ex_be ex_dev -> bp_data bp' = (w, w))) /\
  (fun r => (r.1.1, bp_data r.1.2, map_to_list (world r.2))) <$> run s = Some (0, (w, w), []).
Proof.
  intros w s run. split; [|by vm_compute].
  apply (vblk_ex01_correct spdk_stub [ex_be] ex_be ex_dev 1 2 7 (BufSet 128 0 8 0 9 0) 2 1
    ex_log [0; 0] 8 w (replicate 128 0) ex_bp s); try done.
  - by apply ex_dev_ok.
  - apply virt_alloc_ok. by left.
  - apply ex_be_log.
  - apply sample_heap_wf.
Defined.
