(* ===== verification/ExSync.v ===== *)
(** The example program on synchronous commands, [src/examples/sync-ex01-ewr-prp.c]:
    free chunks written whole and read back in vector commands of one write unit,
    then erased. *)
From Stdlib Require Import String.
From stdpp Require Import base numbers strings gmap option list.
From S2P Require Import Prelude Types Clib Nvme Addr Dev Backend Buf Be Cmd Vblk Stripe Media Linear VblkIO VblkRead VblkOps.
From S2P Require Import VblkWhole Open Bp Reports Examples.

(** ** The program *)

Section program.
Context {W : Type} (spdk : spdk_env W) (imps : list (nvm_be W)).

Section commands.
Context (be : nvm_be W) (dev : nvm_dev) (chunk_addrs : list nvm_addr) (ws_opt : Z).

(** The two nested loops, over the chunks and over the write units of a chunk;
    the body also gets [buf_ofz]. *)
Definition ex01_loops {B R} (body : Z -> Z -> Z -> B -> M W (B + R)) (nchunks : Z) : B -> M W (B + R) :=
  mfold_ret (fun cidx b =>
    let ofz := u64 (u64 (cidx * nsectr (geo dev)) * nbytes (geo dev)) in
    sectrs ← lift (range_lt (trips 0 (nsectr (geo dev)) ws_opt) 0 (nsectr (geo dev)) ws_opt);
    mfold_ret (fun sectr => body cidx sectr (u64 (u64 (sectr * nbytes (geo dev)) + ofz))) sectrs b)
  (seqZ 0 nchunks).

Definition ex01_addrs (cidx sectr : Z) : option (list nvm_addr) :=
  build_addrs (fun aidx => set_l_sectr (u64 (sectr + aidx)) <$> chunk_addrs !! Z.to_nat cidx) ws_opt.

Definition ex01_write (w : list Z) (cidx sectr buf_ofz : Z) (_ : unit) : M W (unit + unit) :=
  addrs ← lift (ex01_addrs cidx sectr);
  '(err, _) ← nvm_cmd_write be dev addrs (i32 ws_opt) (mem_add (Some w) buf_ofz) None 0 None;
  mret (if err =? 0 then inl tt else inr tt).

(** The buffer is answered either way. *)
Definition ex01_read (cidx sectr buf_ofz : Z) (buf : mem) : M W (mem + mem) :=
  addrs ← lift (ex01_addrs cidx sectr);
  r ← nvm_cmd_read be dev addrs (i32 ws_opt) (mem_add buf buf_ofz) None 0 None;
  let buf := mem_splice buf buf_ofz (io_data r) in
  mret (if rc r =? 0 then inl buf else inr buf).
End commands.

(** [arb] is the answer of [rand()] for the search, and [chunk_addrs] what the
    array on the stack holds before it. The boilerplate is answered with its
    read buffer. *)
Definition sync_ex01_ewr_prp (arb : Z) (chunk_addrs : list nvm_addr) (bp : nvm_bp) : M W (Z * nvm_bp) :=
  let nchunks := u64 (bp_naddrs bp) in
  '(_, _, dev) ← lift (bp_dev bp);
  be ← lift (dev_be imps dev);
  ws ← nvm_dev_get_ws_opt dev;
  let ws_opt := u64 ws in
  '(err, chunk_addrs) ← nvm_cmd_rprt_arbs spdk be dev NVM_CHUNK_STATE_FREE (i32 nchunks) arb chunk_addrs;
  if negb (err =? 0) then mret (-1, bp)
  else
    r ← ex01_loops dev ws_opt (ex01_write be dev chunk_addrs ws_opt (bp_data bp).1) nchunks tt;
    match r with
    | inr _ => mret (-1, bp)
    | inl _ =>
        r ← ex01_loops dev ws_opt (ex01_read be dev chunk_addrs ws_opt) nchunks (Some (bp_data bp).2);
        buf ← lift (match r with inl buf | inr buf => buf end);
        let bp := with_read_buf buf bp in
        match r with
        | inr _ => mret (-1, bp)
        | inl _ =>
            bufs ← lift (bp_bufs bp);
            diff ← lift (nvm_buf_diff (Z.to_nat (bs_nbytes bufs.2)) (bp_data bp).1 (bp_data bp).2);
            if negb (diff =? 0) then fail EIO (-1, bp)
            else
              '(err, _, _) ← nvm_cmd_erase be dev chunk_addrs (i32 nchunks) None 0 None;
              mret (if negb (err =? 0) then -1 else 0, bp)
        end
    end.

Definition sync_ex01_main (arb : Z) (chunk_addrs : list nvm_addr) := example_main spdk imps (sync_ex01_ewr_prp arb chunk_addrs).
End program.

(** ** The loops *)

Section loops.
Context {W : Type} (be : nvm_be W) (dev : nvm_dev) `{!Media be dev}.
Context (ws : Z) (Hdev : s20_dev_ok dev ws) (log : list nvm_spec_rprt_descr) (cst : Z).
Context (l : list nvm_addr) (Hl : 0 < Z.of_nat (length l) <= VBLK_MAX).
Context (Hfound : chunks_found dev log cst (Z.of_nat (length l)) l).
Context (Hsec : forall a o, addr_ok a -> in_bounds dev a -> 0 <= o < nsectr (geo dev) -> mdom (set_l_sectr o a)).
Context (Hopt : cmd_addr_opt dev 0 = NVM_CMD_VECTOR) (Hsv : served (be := be) dev 0 ws).
Implicit Types s : sys W.
#[local] Abbreviation nb := (nbytes (geo dev)).
#[local] Abbreviation ns := (nsectr (geo dev)).
#[local] Abbreviation n := (Z.of_nat (length l)).

(** The sectors chunk after chunk: those of a virtual block whose unit is the
    chunk. *)
Definition chunk_lin (x : Z) : nvm_addr := lin20 (vblk_of dev 0 l NVM_VBLK_CMD_OPTS) ns x.

Lemma chunk_lin_at c o a : 0 <= c < n -> 0 <= o < ns -> l !! Z.to_nat c = Some a ->
  chunk_lin (c * ns + o) = set_l_sectr o a.
Proof using Hdev Hl.
  intros Hc Ho E. pose proof (sd_nsectr _ _ Hdev). unfold chunk_lin.
  replace (c * ns + o) with (unstripe ns n c o) by (unfold unstripe; rewrite Z.div_small, Z.mod_small by lia; lia).
  unfold lin20. cbn [nblks vblk_of]. destruct (stripe_unstripe ns n ltac:(lia) ltac:(lia) c o Hc) as [-> ->].
  unfold member. cbn [blks vblk_of]. by rewrite lookup_app_l, E by lia.
Qed.

Lemma chunk_lin_split x : 0 <= x < n * ns -> exists c o a, x = c * ns + o /\ 0 <= c < n /\ 0 <= o < ns /\
  l !! Z.to_nat c = Some a /\ addr_ok a /\ in_bounds dev a.
Proof using Hdev Hl Hfound.
  intros Hx. pose proof (sd_nsectr _ _ Hdev). pose proof (Z.mod_pos_bound x ns ltac:(lia)).
  pose proof (Z.div_mod x ns ltac:(lia)). assert (Hc : 0 <= x / ns < n) by (split; [apply Z.div_pos; lia|apply Z.div_lt_upper_bound; lia]).
  destruct (proj1 Hfound _ Hc) as (a & _ & E & Hw & Hb & _). exists (x / ns), (x mod ns), a.
  split; [lia|]. by split_and!; try lia.
Qed.

Lemma chunk_lin_dom x : 0 <= x < n * ns -> mdom (chunk_lin x).
Proof using Hdev Hl Hfound Hsec.
  intros Hx. destruct (chunk_lin_split x Hx) as (c & o & a & -> & Hc & Ho & E & Hw & Hb).
  rewrite (chunk_lin_at c o a) by done. by apply Hsec.
Qed.

Lemma chunk_lin_inj x y : 0 <= x < n * ns -> 0 <= y < n * ns -> chunk_lin x = chunk_lin y -> x = y.
Proof using Hdev Hl Hfound.
  intros Hx Hy. pose proof (sd_nsectr _ _ Hdev). assert (Hb : forall z, 0 <= z < n * ns -> 0 <= stripe_off ns n z < 2 ^ 32).
  { intros z Hz. split; [apply stripe_off_nonneg; lia|]. eapply Z.lt_le_trans; [apply stripe_off_bound with (L := ns); try lia; done|lia]. }
  apply lin20_inj; [|lia|by apply Hb..]. by eapply found_members.
Qed.

(** The sectors of the chunks are in them. *)
Lemma chunk_lin_out x m a : 0 <= x -> x + m <= n * ns -> (forall c, c ∈ l -> chunk_id c <> chunk_id a) ->
  a ∉ run_of chunk_lin x m.
Proof using Hdev Hl Hfound.
  intros Hx Hm Ha (i & Hi & ->)%run_of_elem.
  destruct (chunk_lin_split (x + i) ltac:(lia)) as (c & o & b & E & Hc & Ho & Eb & _). rewrite E, (chunk_lin_at c o b) in Ha by done.
  apply (Ha b); [by eapply list_elem_of_lookup_2|]. unfold chunk_id. by addr_simpl.
Qed.

Lemma ex01_addrs_run c sectr : 0 <= c < n -> 0 <= sectr -> sectr + ws <= ns ->
  ex01_addrs l ws c sectr = Some (run_of chunk_lin (c * ns + sectr) ws).
Proof using Hdev Hl Hfound.
  intros Hc Hs Hw. pose proof (sd_nsectr _ _ Hdev). unfold ex01_addrs, run_of. rewrite <-seqZ_shift. apply build_addrs_some.
  intros i Hi. destruct (proj1 Hfound _ Hc) as (a & _ & E & _). rewrite E. cbn. f_equal.
  rewrite wrap_id, <-Z.add_assoc by lia. symmetry. apply chunk_lin_at; [done|lia|done].
Qed.

(** The two loops, as one over the linear sectors. *)
Lemma wp_ex01_loops {B R} (body : Z -> Z -> Z -> B -> M W (B + R)) (I : Z -> B -> sys W -> Prop) (K : R -> sys W -> Prop) b s Q :
  I 0 b s ->
  (forall c sectr b s, 0 <= c < n -> 0 <= sectr -> sectr + ws <= ns -> I (c * ns + sectr) b s ->
     wp (body c sectr ((c * ns + sectr) * nb) b) s (fun r s' =>
       match r with inl b' => I (c * ns + sectr + ws) b' s' | inr r => K r s' end)) ->
  (forall b s, I (n * ns) b s -> Q (inl b) s) -> (forall r s, K r s -> Q (inr r) s) ->
  wp (ex01_loops dev ws body n b) s Q.
Proof using Hdev Hl.
  intros HI Hb HQ HK. destruct Hdev as [_ _ _ Hw Hns [u Hu] Hnb Hfits]. unfold VBLK_MAX, NVM_NADDR_MAX in *.
  apply (wp_mfold_ret _ (fun pre => I (Z.of_nat (length pre) * ns)) K); [done| | |done].
  - intros pre c post b1 s1 E%seqZ_split H1. destruct E as (_ & Hc & Ec). rewrite length_app, Ec in *. cbn [length].
    rewrite range_lt_steps by lia. apply wp_bind. eapply wp_intro; [done|].
    assert (Et : trips 0 ns ws = Z.to_nat u) by (rewrite Hu; apply (trips_mul 0); lia). rewrite Et.
    apply (wp_mfold_ret _ (fun pre' => I (c * ns + Z.of_nat (length pre') * ws)) K).
    + by rewrite Z.add_0_r.
    + intros pre' sectr post' b2 s2 [-> Hlt]%steps_split H2. rewrite length_app. cbn [length].
      set (k := Z.of_nat (length pre')) in *. assert (Hk : 0 <= k * ws /\ k * ws + ws <= ns) by nia.
      assert (Hofz : u64 (u64 ((0 + k * ws) * nb) + u64 (u64 (c * ns) * nb)) = (c * ns + k * ws) * nb).
      { assert (0 <= c * ns /\ c * ns + ns <= 128 * ns) by nia. rewrite (wrap_id 64 (c * ns)) by lia.
        rewrite !wrap_id; rewrite ?wrap_id; nia. }
      rewrite Hofz, Z.add_0_l. eapply wp_mono; [apply Hb; [done|lia|lia|exact H2]|].
      intros [b3|r] s3 H3; [|done]. by replace (Z.of_nat (length pre' + 1) * ws) with (k * ws + ws) by lia; rewrite Z.add_assoc.
    + intros b2 s2 H2. rewrite steps_length in H2. by replace (Z.of_nat (length pre + 1) * ns) with (c * ns + Z.of_nat (Z.to_nat u) * ws) by lia.
    + done.
  - intros b1 s1 H1. rewrite length_seqZ in H1. apply HQ. by replace n with (Z.of_nat (Z.to_nat n)) by lia.
Qed.

(** ** The commands *)

(** A command failed: no memory is kept, no sector outside the chunks has
    changed, and the device is one that fails commands. *)
Definition failed s0 s : Prop :=
  good mok s /\ live s = live s0 /\ untouched be dev l (world s0) (world s) /\ ~ Reliable be dev.

(** The first [x] sectors written, or read, by commands that all succeeded. *)
Definition stored (w : list Z) s0 x s : Prop :=
  written mok mdom media (Reliable be dev) chunk_lin 0 (sector nb w) s0 0 x 0 s.
Definition loaded (r : list Z) s0 x (buf : mem) s : Prop :=
  fetched mok mdom media nb (Reliable be dev) chunk_lin 0 r s0 0 x (0, buf) s.

Lemma stored_untouched w s0 x s : 0 <= x <= n * ns -> stored w s0 x s -> untouched be dev l (world s0) (world s).
Proof using Hdev Hl Hfound. intros Hx (_ & _ & _ & Hfr & _) a Ha Hc. apply Hfr; [done|]. apply chunk_lin_out; [lia|lia|done]. Qed.

Lemma loaded_untouched r s0 x buf s : loaded r s0 x buf s -> untouched be dev l (world s0) (world s).
Proof using. intros (_ & _ & Hfr & _) a Ha _. by apply Hfr. Qed.

Section unit.
Context (c sectr : Z) (Hc : 0 <= c < n) (Hs : 0 <= sectr) (Hu : sectr + ws <= ns).
#[local] Abbreviation x := (c * ns + sectr).

Lemma unit_bound : 0 <= x /\ x + ws <= n * ns.
Proof using Hdev Hl Hc Hs Hu. pose proof (sd_nsectr _ _ Hdev). nia. Qed.

Lemma unit_dom : Forall mdom (run_of chunk_lin x ws).
Proof using Hdev Hl Hfound Hsec Hc Hs Hu.
  apply list.Forall_forall. intros a (i & Hi & ->)%run_of_elem. pose proof unit_bound. apply chunk_lin_dom. lia.
Qed.

Lemma wp_ex01_write w s0 s : n * ns * nb <= Z.of_nat (length w) -> stored w s0 x s ->
  wp (ex01_write be dev l ws w c sectr (x * nb) tt) s (fun r s' =>
    match r with inl _ => stored w s0 (x + ws) s' | inr _ => failed s0 s' end).
Proof using Hdev Hl Hfound Hsec Hopt Hsv Hc Hs Hu.
  intros Hw Hst. pose proof unit_bound as Hx. pose proof Hdev as [_ _ _ Hws _ _ Hnb _]. unfold NVM_NADDR_MAX in Hws.
  pose proof Hst as (G & L & _). unfold ex01_write. rewrite ex01_addrs_run, i32_id by lia. apply wp_bind. eapply wp_intro; [done|].
  apply wp_bind. eapply wp_mono; [apply wp_strengthen; [|intros r s' E; exact (cmd_write_ok _ _ _ _ _ _ _ _ _ _ _ (or_introl Hopt) E)]|].
  { unfold nvm_cmd_write. rewrite Hopt. cbn [Z.eqb Pos.eqb NVM_CMD_SCALAR NVM_CMD_VECTOR mem_add].
    pose proof (vector_write_law (run_of chunk_lin x ws) (drop (Z.to_nat (x * nb)) w) None 0 None s) as H.
    rewrite run_of_len, length_drop in H by lia. apply H; [done|apply Hsv|apply Hsv; lia|by apply unit_dom| |lia|nia].
    apply run_of_NoDup. intros i j Hi Hj. apply chunk_lin_inj; lia. }
  intros [e r] s' [HP HR]. apply wp_ret. cbn [fst] in *.
  pose proof (written_step mok mdom media nb (Reliable be dev) chunk_lin 0 (sector nb w) s0 0 x ws 0 s e
    (drop (Z.to_nat (x * nb)) w) s' Hst) as S.
  specialize (S ltac:(lia) ltac:(lia) ltac:(lia)). cbn [Z.add] in S. destruct (Z.eqb_spec e 0) as [->|He].
  - destruct S as (S1 & S2 & S3 & S4 & S5); [intros; apply chunk_lin_dom; lia|intros i j Hi Hj; apply chunk_lin_inj; lia| |exact HP|done|].
    { intros i Hi. apply sector_shift; lia. }
    split; [done|]. split; [done|]. split; [by split|]. by split.
  - destruct HP as (G' & L' & Hfr & _). split; [done|]. split; [congruence|]. split; [|intros R; by apply He, HR].
    intros a Ha Hno. rewrite Hfr by (done || (apply chunk_lin_out; lia || done)).
    eapply stored_untouched; [|exact Hst|done|done]. lia.
Qed.

Lemma wp_ex01_read r s0 buf s : n * ns * nb <= Z.of_nat (length r) -> loaded r s0 x buf s ->
  wp (ex01_read be dev l ws c sectr (x * nb) buf) s (fun o s' =>
    match o with inl buf => loaded r s0 (x + ws) buf s' | inr buf => failed s0 s' /\ is_Some buf end).
Proof using Hdev Hl Hfound Hsec Hopt Hsv Hc Hs Hu.
  intros Hr Hst. pose proof unit_bound as Hx. pose proof Hdev as [_ _ _ Hws _ _ Hnb _]. unfold NVM_NADDR_MAX in Hws.
  pose proof Hst as (G & L & _ & _ & buf1 & E1 & Hb1 & _). cbn [snd] in E1. subst buf.
  unfold ex01_read. rewrite ex01_addrs_run, i32_id by lia. apply wp_bind. eapply wp_intro; [done|].
  apply wp_bind. eapply wp_mono; [apply wp_strengthen; [|intros o s' E; exact (cmd_read_ok _ _ _ _ _ _ _ _ _ _ _ (or_introl Hopt) E)]|].
  { unfold nvm_cmd_read. rewrite Hopt. cbn [Z.eqb Pos.eqb NVM_CMD_SCALAR NVM_CMD_VECTOR mem_add].
    pose proof (vector_read_law (run_of chunk_lin x ws) (drop (Z.to_nat (x * nb)) buf1) 0 None s) as H.
    rewrite run_of_len, length_drop in H by lia. apply H; [done|apply Hsv|apply Hsv; lia|by apply unit_dom|lia|nia]. }
  intros o s' [HP HR]. apply wp_ret.
  pose proof (fetched_step mok mdom media nb ltac:(lia) (Reliable be dev) chunk_lin 0 r s0 0 x ws 0 buf1 s o s' Hst) as S.
  specialize (S ltac:(lia) ltac:(lia) ltac:(lia)). cbn [Z.add] in S. destruct (Z.eqb_spec (rc o) 0) as [Eo|He].
  - destruct S as (S1 & S2 & S3 & S4 & S5); [intros; apply chunk_lin_dom; lia|nia|exact HP|done|].
    split; [done|]. split; [done|]. split; [done|]. by split.
  - destruct HP as (G' & L' & Hfr & data & -> & _). split; [|by eexists]. split; [done|]. split; [congruence|].
    split; [|intros R; by apply He, HR]. intros a Ha Hno. rewrite Hfr by done. by eapply loaded_untouched.
Qed.
End unit.

(** What a write of all the chunks and then a read leave in the buffer. *)
Lemma loaded_back w r s0 s1 buf s : length w = Z.to_nat (n * ns * nb) -> length r = length w ->
  stored w s0 (n * ns) s1 -> loaded r s1 (n * ns) buf s -> buf = Some w.
Proof using Hdev Hl.
  intros Hw Hr (_ & _ & _ & _ & H1) (_ & _ & _ & _ & data & E & Hd & _ & H2). cbn [fst snd] in *. subst buf. f_equal.
  pose proof Hdev as [_ _ _ _ Hns _ Hnb _]. rewrite take_ge in H2 by lia. rewrite H2 by done.
  rewrite <-(firstn_all w). rewrite Hw, <-concat_sectors by lia. f_equal. unfold run_of.
  rewrite <-list_fmap_compose. apply list_fmap_ext. intros i z Hz. apply lookup_seqZ in Hz as [-> Hz].
  by apply (H1 eq_refl (0 + Z.of_nat i)); lia.
Qed.
End loops.

(** ** Properties *)

(** C27: the example on synchronous commands. On a 2.0 device whose chunk reports are
    its log and change no sector, with at most 64 addresses in the boilerplate,
    [n], whose buffers have the size of [n] chunks, the program keeps no memory
    and ends in one of three ways. It answers 0: there are [n] free chunks of the
    log outside which no sector changed, the read buffer has the bytes of the
    write buffer, and the [n] chunks are erased. It answers -1 with [EINVAL],
    having changed no sector: not enough free chunks were found. Or it answers -1
    because a command failed, no sector outside [n] free chunks having changed;
    when the device fails no read and no write, that command is the erase, and
    the data was read back. *)
Theorem sync_ex01_correct {W} (spdk : spdk_env W) (imps : list (nvm_be W)) (be : nvm_be W) (dev : nvm_dev)
    `{!Media be dev, !EraseMedia be dev} (d arr q : Z) (bufs : nvm_buf_set) (ws arb : Z) (log : list nvm_spec_rprt_descr)
    (chunk_addrs : list nvm_addr) (w r : list Z) (bp : nvm_bp) (s : sys W)
    (Hdev : s20_dev_ok dev ws) (Halloc : alloc_ok spdk dev) (Hrprt : reports_log be dev log)
    (Hsec : forall a o, addr_ok a -> in_bounds dev a -> 0 <= o < nsectr (geo dev) -> mdom (set_l_sectr o a))
    (Hsv : served (be := be) dev 0 NVM_NADDR_MAX) (Hopt : cmd_addr_opt dev 0 = NVM_CMD_VECTOR)
    (Hbe : dev_be imps dev = Some be) (Hbp : bp_dev bp = Some (d, arr, dev)) (Hbufs : bp_bufs bp = Some (q, bufs))
    (Hdata : bp_data bp = (w, r)) :
  let n := bp_naddrs bp in
  let size := n * nsectr (geo dev) * nbytes (geo dev) in
  forall (Hn : 0 < n <= NVM_NADDR_MAX) (Hunits : n <= npugrp (geo dev) * npunit (geo dev)) (Harb : 0 <= arb < 2 ^ 30)
    (Hlen : Z.of_nat (length chunk_addrs) = n) (Hsize : bs_nbytes bufs = size) (Hw : Z.of_nat (length w) = size)
    (Hr : Z.of_nat (length r) = size) (Hg : good mok s),
  wp (sync_ex01_ewr_prp spdk imps arb chunk_addrs bp) s (fun '(err, bp') s' => live s' = live s /\
    (err = 0 /\ bp_data bp' = (w, w) /\
       (exists l, on_free_chunks be dev log n (world s) (world s') l /\ Forall (merased (world s')) l) \/
     err = -1 /\ errno s' = EINVAL /\ unchanged (be := be) (dev := dev) (world s) (world s') \/
     err = -1 /\ (exists l, on_free_chunks be dev log n (world s) (world s') l) /\
       (Reliable be dev -> bp_data bp' = (w, w)))).
Proof.
  intros n size. intros. pose proof Hdev as [Hver Hgeo Hws Hws1 Hns Hdiv Hnb Hfits]. unfold VBLK_MAX, NVM_NADDR_MAX in *.
  unfold sync_ex01_ewr_prp. fold n. rewrite (wrap_id 64 n), i32_id by lia.
  apply wp_bind. rewrite Hbp. eapply wp_intro; [done|]. apply wp_bind. rewrite Hbe. eapply wp_intro; [done|].
  apply wp_bind. eapply (wp_intro _ _ ws).
  { unfold nvm_dev_get_ws_opt. rewrite Hver, Hws. cbn [Z.eqb Pos.eqb NVM_SPEC_VERID_12 NVM_SPEC_VERID_20]. by rewrite i32_id by lia. }
  rewrite (wrap_id 64 ws) by lia.
  apply wp_bind, (wp_free_chunks spdk be dev ws Hdev Halloc log Hrprt n arb); try done; [unfold VBLK_MAX; lia| |].
  2: { intros l s1 G1 L1 U1 F1. cbn [Z.eqb negb]. apply wp_ret. split; [done|]. right. left. auto. }
  intros l s1 G1 L1 _ Hof. cbn [Z.eqb negb]. pose proof Hof as (El & Hf & _). rewrite <-El in Hf.
  assert (HU : forall s2 s', on_free_chunks be dev log n (world s) (world s2) l -> untouched be dev l (world s2) (world s') ->
    on_free_chunks be dev log n (world s) (world s') l).
  { intros s2 s' (_ & Hf' & U) U'. split; [done|]. split; [done|]. by eapply untouched_trans. }
  assert (Hlv : 0 < Z.of_nat (length l) <= VBLK_MAX) by (unfold VBLK_MAX; lia).
  pose proof (served_le _ _ _ _ Hsv (proj2 Hws1)) as Hsv1. rewrite Hdata. cbn [fst snd]. rewrite <-El.
  apply wp_bind, (wp_ex01_loops dev ws Hdev l Hlv _ (fun x _ => stored be dev l w s1 x) (fun _ => failed be dev l s1)).
  { by apply written_0. }
  { intros c sectr [] s2 Hc Hs Hu H2. by apply (wp_ex01_write be dev ws Hdev log _ l Hlv Hf Hsec Hopt Hsv1); try done; lia. }
  2: { intros _ s2 (G2 & L2 & U2 & R2). apply wp_ret. split; [congruence|]. right. right. split; [done|]. rewrite El.
       split; [exists l; by apply (HU s1)|done]. }
  intros _ s2 H2. pose proof H2 as (G2 & L2 & _).
  assert (Ho2 : on_free_chunks be dev log n (world s) (world s2) l).
  { apply (HU s1); [done|]. eapply (stored_untouched be dev ws Hdev log); [done|exact Hf| |exact H2]. lia. }
  apply wp_bind, (wp_ex01_loops dev ws Hdev l Hlv _ (loaded be dev l r s2) (fun buf s3 => failed be dev l s2 s3 /\ is_Some buf)).
  { by apply fetched_0. }
  { intros c sectr buf s3 Hc Hs Hu H3. by apply (wp_ex01_read be dev ws Hdev log _ l Hlv Hf Hsec Hopt Hsv1); try done; lia. }
  2: { intros buf s3 ((G3 & L3 & U3 & R3) & [b ->]). apply wp_bind. eapply wp_intro; [done|]. apply wp_ret. split; [congruence|].
       right. right. split; [done|]. rewrite El. split; [exists l; by apply (HU s2)|done]. }
  intros buf s3 H3. pose proof H3 as (G3 & L3 & _). rewrite <-El in *. assert (Ho3 := HU _ _ Ho2 (loaded_untouched _ _ _ _ _ _ _ _ H3)).
  rewrite (loaded_back be dev ws Hdev l Hlv w r s1 s2 buf s3) by (done || lia).
  apply wp_bind. eapply wp_intro; [done|]. apply wp_bind. cbn [bp_bufs with_read_buf]. rewrite Hbufs. eapply wp_intro; [done|]. apply wp_bind.
  cbn [bp_data with_read_buf fst snd]. rewrite Hdata. cbn [fst].
  eapply wp_intro; [by rewrite buf_diff_same by lia|]. cbn [Z.eqb negb]. apply wp_bind.
  unfold nvm_cmd_erase. rewrite Hopt. cbn [Z.eqb Pos.eqb NVM_CMD_SCALAR NVM_CMD_VECTOR].
  eapply wp_mono; [apply erase_law; [done|unfold NVM_NADDR_MAX; lia|done|apply Hsv; unfold NVM_NADDR_MAX; lia]|].
  intros [[e me] re] s4 (G4 & L4 & U4 & _ & E4). apply wp_ret. split; [congruence|]. cbn [bp_data with_read_buf]. rewrite Hdata. cbn [fst].
  assert (Ho4 := HU _ _ Ho3 U4). destruct (Z.eqb_spec e 0) as [->|]; cbn [negb].
  - left. split; [done|]. split; [done|]. exists l. auto.
  - right. right. split; [done|]. split; [by exists l|done].
Qed.

(** ** Witness *)

(** On the device of [Examples]. *)
Lemma sync_ex01_correct_witness :
  let w := Z.of_nat <$> seq 1 128 in
  let s := Sys 0 (sample_heap 100) (∅ : gmap nvm_addr (list Z)) in
  let run := sync_ex01_ewr_prp spdk_stub [ex_be] 1 [0; 0] ex_bp in
  wp run s (fun '(err, bp') s' => live s' = live s /\
    (err = 0 /\ bp_data bp' = (w, w) /\
       (exists l, on_free_chunks ex_be ex_dev ex_log 2 (world s) (world s') l /\ Forall (merased (be := ex_be) (dev := ex_dev) (world s')) l) \/
     err = -1 /\ errno s' = EINVAL /\ unchanged (be := ex_be) (dev := ex_dev) (world s) (world s') \/
     err = -1 /\ (exists l, on_free_chunks ex_be ex_dev ex_log 2 (world s) (world s') l) /\
       (Reliable ex_be ex_dev -> bp_data bp' = (w, w)))) /\
  (fun r => (r.1.1, bp_data r.1.2, map_to_list (world r.2))) <$> run s = Some (0, (w, w), []).
Proof.
  intros w s run. split; [|by vm_compute].
  apply (sync_ex01_correct spdk_stub [ex_be] ex_be ex_dev 1 2 7 (BufSet 128 0 8 0 9 0) 2 1 ex_log [0; 0] w (replicate 128 0) ex_bp s);
    try done.
  - by apply ex_dev_ok.
  - apply virt_alloc_ok. by left.
  - apply ex_be_log.
  - apply sample_heap_wf.
Defined.
